(* ===== verification/_CoqProject ===== *)
-Q . S2P
Prelude.v
Async.v
JsNumber.v
Proto.v
Services.v
Access.v
RateLimit.v
Sessions.v
AdminFormat.v
Toast.v
Toaster.v
Containers.v
Mirror.v
Broker.v
ContainerServer.v
ContainerActions.v
ContainerStack.v
Json.v
Auth.v
Router.v
Polling.v
Status.v
Logger.v
Syncer.v
LogPipeline.v
AuditLogs.v
AdminResources.v
AdminTables.v
Dialog.v
Modal.v
Administration.v
SignIn.v
Forms.v
Layout.v
AdministrationPage.v
Settings.v
SettingsServer.v
AuditServer.v
SystemLogs.v
LogServer.v
LogsDrawer.v
Dashboard.v
ContainersPage.v
Permissions.v
