(* ===== verification/Prelude.v ===== *)
(** * The dmanager web client

    A model of the TypeScript of frontend/src, with the parts of the Go server that
    keep the data it shows (containers, sessions, settings, the log and the audit
    trail), and the theorems that make them correct, alone and composed.  File names
    below are relative to src/frontend/src unless they start with src/.

    ** How the program is modelled

    The client is a set of React components and hooks around one RPC client.  A
    hook's [useState] and [useRef] cells, with the browser's state it owns (armed
    timers, open streams, local storage), are one record [State]; a setter is a
    function of it.  An asynchronous handler is a value of [Async.async]: a tree of
    reads, updates and awaited requests that ends normally or by throwing, so that
    [try]/[catch]/[finally] and [await] are written as in the source.  [Async.exec]
    runs a handler to its next [await]; [Async.pool_step] interleaves any number of
    handlers in flight, each resumed by any answer in any order, which is how the
    event loop may run them.  [Async.guarantees] is the postcondition of a handler
    under every interleaving (it ends, on every answer); [Async.keeps] and
    [Async.pool_invariant] give invariants; the single-flight section ([steady],
    [takes_turn], [in_flight]) gives "at most one request of this kind, exactly
    while its mark is up", and [takes_turns] the same of an operation that makes
    several requests.  [Async.run_among] runs one handler to its end among others that
    change the state while it waits.  Effects and their dependencies are fields of the state
    and a [commit] that runs them, where a component's behaviour depends on them.
    No definition runs on fuel but [Json.parse_value], whose fuel is the length of
    its text ([Json.parse_stringify] shows it is enough for everything the client
    prints), [AdminFormat.scale_loop], whose bound is the number of units, and
    [Syncer.drain], for which [Syncer.drain_empties] names the number of rounds.

    The server's handlers are functions of the table they find, returning the table
    they leave, what they publish or record and their answer; a handler that waits
    (for the Docker daemon, or between two statements) is cut there, and relations of
    steps interleave the pieces: [ContainerServer.upgrade_step], [ContainerStack.serve_step]
    (a statement, then the [piece]s that are left: a row read, a message published, a row
    saved), [Sessions.server_step], [Broker.step].  What a handler asks of the daemon is written in a monad that keeps
    the requests in order ([ContainerActions.M]).

    ** The files

    - Prelude, Async, JsNumber, Json: strings, sorting, asynchronous handlers,
      doubles (by SpecFloat) and JSON as the client uses them.
    - Proto: the messages of gen/proto/dmanager/v1, as records.  Services: the five
      services of the same files with their methods, and client.ts.
    - Access: the server's gate (src/internal/auth/interceptor.go): the access
      matrix, the clocks of a session, and the audit entry of a call.  Permissions:
      which method every request of every component is ([Services.Wired]), and the
      calls each page can have in flight ([Permissions.page_call]) against the gate and
      the roles the handlers themselves ask for ([Permissions.admitted]).
    - The server's other parts, by their folders under src/internal: RateLimit
      (auth/ratelimit.go and the two sign-ins of auth/service.go); Sessions (auth/service.go,
      auth/purge.go, db/sessions.sql.go); SettingsServer (settings/service.go and the
      retention of audit/audit.go); AuditServer (db/audit_logs.sql.go, audit/audit.go and
      the list of admin/service.go); LogServer (logging/, and the record
      that the interceptor of auth/ makes of each call); Broker (container/broker.go
      and stream.go); ContainerServer (db/containers.sql.go, container/sync.go,
      docker/monitor.go and the ends of the handlers of container/actions.go and
      upgrade.go); ContainerActions (those handlers whole, and container/scheduler.go).
      ContainerStack interleaves the last two statement by statement, under the page of
      Containers and Mirror.
    - AdminFormat: components/adminFormat.ts.
    - Toast: context/ToastContext.tsx and the timer of components/ToastContainer.tsx.
      Toaster: the container that mounts a toast per item of the provider.
      Hooks that show toasts run on the product of their state and [ToastState].
    - Containers: hooks/useContainers.ts.  [stream_step] is the subscription loop,
      [stream_update] the updater of a message, [timer_fires] a deferred deletion,
      [run_action] the five actions.  Mirror states what this is for: the list
      against the server's containers.
    - Dashboard: components/ContainerGrid.tsx and ContainerTable.tsx over Containers.
    - LogsDrawer: components/LogsDrawer.tsx, its two effects and its streams.
      ContainersPage: the page and its drawer, which follows the page's selection.
    - Auth: hooks/useAuth.tsx.  Router: routes/router.tsx and App.tsx, over Auth; the
      router library is the class [Router.Router] of what it promises, and a load of a
      location ends some time after it began, with the old page mounted meanwhile.  SignIn and
      Forms: components/Login.tsx and Setup.tsx, over Auth and the placeholder of
      App.tsx.  Layout: components/DashboardLayout.tsx and PageTabs.tsx.
    - Polling, Status: hooks/useEngineStatus.ts and useTailscaleStatus.ts (one
      polling loop, two readings) and components/TailscaleStatusCard.tsx.
    - Logger: services/logger.ts, over the class [Logger.LogTable] of what the local
      database promises ([Logger.MemTable] is an instance).  Syncer: services/syncer.ts
      as a step relation over the same table.  LogPipeline: the two as main.tsx starts
      them, from an event of the page to the server's acknowledgement.
    - SystemLogs: components/SystemLogs.tsx.  AuditLogs: hooks/useAuditLogs.ts and
      components/AuditLogsPage.tsx.
    - AdminResources: hooks/useAdminResources.ts.  AdminTables: components/ImageTable,
      NetworkTable, VolumeTable, Builder, BuilderRecords, SortButton.  Dialog:
      components/Dialog.tsx and ConfirmDialog.tsx; Modal: the effects of a dialog
      over its renders.  Administration:
      components/Administration.tsx over these; AdministrationPage: what it renders.
    - Settings: components/Settings.tsx, and the page as rendered, card by card, with its
      controls and the events they fire: what a user can do ([Settings.enabled]) is what
      the rendered page has a control for that is not disabled.

    Components are composed as the source composes them: Administration runs the
    handlers of AdminResources and the callbacks of Dialog, Dashboard those of
    Containers, ContainersPage those of Dashboard and LogsDrawer, the forms those of
    Auth, through [Async.lift].

    ** What the theorems show

    - The data on the page follows the server: [Mirror.list_mirrors_server] (a
      refinement, with the list's abstraction [Mirror.shown]), the recreation and
      deferred deletion of containers, [AuditLogs.audit_in_sync],
      [AdministrationPage.page_settles], [LogsDrawer.drawer_shows_stream],
      [Polling.latest_check_wins], [SystemLogs.one_refresh_interval]; the drawer
      streams the selected container ([ContainersPage.logs_follow_selection]).
    - Nothing is done twice or without consent: one action per container, one prune,
      one operation of a kind on the settings page ([Settings.operations_exclusive]), one
      attempt to sign in; deletions and revocations only
      through their dialogs; a viewer's page is read-only; the volumes are walked
      only when that was asked for ([Administration.measured_on_demand]).
    - The page shows the database: through every interleaving of the daemon's events and
      the handlers in which no row changes between a message being made of it and being
      published, a page that misses no message, with containers of different names, lists
      exactly the containers of the server's table once they are at rest
      ([ContainerStack.page_shows_table]); a stream sends what was published, in order
      ([Broker.stream_in_order]); an upgrade keeps the setting for automatic updates in
      every interleaving with the monitor ([ContainerServer.upgrade_keeps_auto_update])
      and makes its requests in one order, each only after those before it were granted,
      going on with the container that was created ([ContainerActions.upgrade_in_order]); the sync makes the table the host's.
    - Who may do what: sessions end when they are removed, whatever is under way
      ([Sessions.session_authority], [Sessions.revocation_exact]); the sign-in is limited
      ([RateLimit.login_guarded], [RateLimit.failure_locks]) and forgetting old attempts
      changes no answer ([RateLimit.eviction_invisible]); handlers of containers refuse
      without a trace ([ContainerActions.handlers_guarded]) and credentials go to their
      registry only ([ContainerActions.credentials_stay]).
    - The log, the trail and the settings end to end: entries synchronised from the
      client's table are given to the logs page, among the server's own records of these
      requests and whatever else it logs ([LogServer.log_reaches_page], over
      [LogServer.ring_keeps_newest]); the pages of the trail cover it
      ([AuditServer.pages_cover_trail]); a retention picked on the page is the one the
      trim applies ([SettingsServer.retention_applies]).
    - Client and server agree: what a page can have in flight, the server's matrix and
      handlers let through for the session that sees the page, the calls of the settings
      service apart, which are for administrators ([Permissions.page_calls_permitted]); a handler runs only for those its
      procedure is open to, every audited call leaves one entry, a session is
      renewed within its limits ([Access]).
    - Toasts: one mounted toast and at most one armed timer per item, and left alone
      they all go ([Toaster.toaster_invariant], [Toaster.toasts_drain]).
    - The session: that each sign-in leaves the user of the server's response, that it
      survives a reload and is always well formed, that the page shown is one the session
      may see or is about to be replaced by one, that redirects end.
    - The log: what each listener records ([Logger.listener_spec]), that an event's
      entry is not lost before the server has acknowledged it
      ([LogPipeline.logged_until_acknowledged]), that a drain ends with an empty table.
    - Error paths: container actions, prunes, deletions, sign-ins and the settings'
      handlers end on every answer, with their marks taken down and the toast or
      message of what happened.
    - Formatting, paging and focus: round trips, bounds and exact texts; a dialog has
      its listener and its lock exactly while it is open, and gives the focus back
      ([Modal.modal_invariant], [Modal.focus_returns]).

    Lemmas that show a defect of the source are named in the manifest's findings,
    among them [Mirror.missed_change_stays], [SignIn.failure_is_silent],
    [AuditLogs.stale_answer_shown], [Syncer.start_stop_races],
    [ContainerServer.stop_resurrects], [ContainerServer.stop_reverts_setting],
    [RateLimit.malformed_assertions_unlock], [Router.page_outlives_session],
    [Mirror.stale_refetch_stays] and [Sessions.setup_twice].

    ** What is a parameter

    Time, random ids, date formatting and [localeCompare] of the browser; the sorted
    row model of the table library; the WebAuthn prompt; the router library and the
    local database (classes with laws); every answer of the server to a component of
    the client, which is arbitrary unless a theorem composes the two.  On the server:
    the Docker daemon, the registries and the HTTP requests, bcrypt, the WebAuthn library, the random tokens
    (fresh ones), the texts of database errors, and the conversion of a float out of
    range, which Go leaves open.  A statement of the database is one step that succeeds,
    except where a file says that it may fail.

    ** Not modelled

    The mounting of the root, the schemas of the generated files (indices into
    descriptors that only the protobuf library reads), the encoding of messages on the
    wire and the fetch behind the transport, styles and icons, the terminal's
    fitting to its box, React's batching of updates within one segment of a handler,
    and text beyond ASCII.  Of the Go server: start-up and configuration, the
    registration of passkeys, the log of sign-ins, the password rules, the handlers of images, volumes, networks and
    the build cache, container logs, notifications, mail and the tailnet node. *)
From Stdlib Require Export ZArith Lia Ascii Sorted.
From stdpp Require Export base tactics list gmap strings pretty numbers.
Export list_basics.list list_relations.list list_monad.list.

(** ** JavaScript strings

    A JavaScript string is modelled as a [string]; the string functions of the
    language the source uses are defined here.  They are exact on ASCII text:
    a character is one code unit, and case mapping and white space are those
    of the ASCII range.  *)
Declare Scope js_scope.
Delimit Scope js_scope with js.

(** [s.length] *)
Abbreviation slen := String.length (only parsing).

(** [s.slice(0, n)] for a non-negative [n] *)
Definition slice_to (n : nat) (s : string) : string := String.substring 0 n s.

(** [s.slice(n)] for a non-negative [n] *)
Fixpoint slice_from (n : nat) (s : string) : string :=
  match n, s with
  | 0, _ => s
  | S _, EmptyString => EmptyString
  | S n', String _ s' => slice_from n' s'
  end.

(** [s.startsWith(p)] *)
Fixpoint startsWith (p s : string) : bool :=
  match p, s with
  | EmptyString, _ => true
  | String a p', String b s' => Ascii.eqb a b && startsWith p' s'
  | String _ _, EmptyString => false
  end.

(** [s.includes(p)] *)
Fixpoint includes (p s : string) : bool :=
  startsWith p s ||
  match s with
  | EmptyString => false
  | String _ s' => includes p s'
  end.

(** A truthy test of a string: every string but the empty one. *)
Definition truthy (s : string) : bool := negb (String.eqb s "").

(** [a || b] on strings *)
Definition str_or (a b : string) : string := if truthy a then a else b.

(** [xs.join(sep)] *)
Fixpoint join (sep : string) (xs : list string) : string :=
  match xs with
  | [] => ""
  | [x] => x
  | x :: xs' => x +:+ sep +:+ join sep xs'
  end.

Definition map_string (f : ascii -> ascii) : string -> string :=
  fix go s := match s with
              | EmptyString => EmptyString
              | String c s' => String (f c) (go s')
              end.

Definition lower_ascii (c : ascii) : ascii :=
  let n := nat_of_ascii c in
  if (65 <=? n)%nat && (n <=? 90)%nat then ascii_of_nat (n + 32) else c.

Definition upper_ascii (c : ascii) : ascii :=
  let n := nat_of_ascii c in
  if (97 <=? n)%nat && (n <=? 122)%nat then ascii_of_nat (n - 32) else c.

(** [s.toLowerCase()] and [s.toUpperCase()] *)
Definition toLowerCase : string -> string := map_string lower_ascii.
Definition toUpperCase : string -> string := map_string upper_ascii.

(** The white space [trim] removes: tab, line feed, vertical tab, form feed,
    carriage return, space. *)
Definition is_space (c : ascii) : bool :=
  let n := nat_of_ascii c in
  ((9 <=? n)%nat && (n <=? 13)%nat) || (n =? 32)%nat.

Fixpoint trim_start (s : string) : string :=
  match s with
  | String c s' => if is_space c then trim_start s' else s
  | EmptyString => EmptyString
  end.

Fixpoint trim_end (s : string) : string :=
  match s with
  | EmptyString => EmptyString
  | String c s' =>
      match trim_end s' with
      | EmptyString => if is_space c then EmptyString else String c EmptyString
      | t => String c t
      end
  end.

(** [s.trim()] *)
Definition trim (s : string) : string := trim_end (trim_start s).

(** A text taken apart at every [c]. *)
Fixpoint split_on (c : ascii) (s : string) : list string :=
  match s with
  | EmptyString => [EmptyString]
  | String d s' =>
      if Ascii.eqb c d then EmptyString :: split_on c s'
      else match split_on c s' with
           | x :: xs => String d x :: xs
           | [] => [String d EmptyString]
           end
  end.

(** Every character is one of those [p] holds of. *)
Fixpoint all_chars (p : ascii -> bool) (s : string) : bool :=
  match s with EmptyString => true | String c s' => p c && all_chars p s' end.

(** A double quote, and a text between double quotes *)
Definition dquote : string := String (ascii_of_nat 34) EmptyString.
Definition quoted (s : string) : string := dquote +:+ s +:+ dquote.

(** [`${n}`] of an integer *)
Definition num (n : Z) : string := pretty n.

Create HintDb js discriminated.

(** *** Lemmas on strings *)

Lemma append_cons (c : ascii) (a b : string) : String c a +:+ b = String c (a +:+ b).
Proof. done. Qed.

Lemma append_nil_l (a : string) : "" +:+ a = a.
Proof. done. Qed.

Lemma append_assoc (a b c : string) : (a +:+ b) +:+ c = a +:+ (b +:+ c).
Proof. induction a as [|x a IH]; [done|]. by rewrite !append_cons, IH. Qed.

Lemma append_nil_r (a : string) : a +:+ "" = a.
Proof. induction a as [|x a IH]; [done|]. by rewrite append_cons, IH. Qed.

Lemma split_on_app (c : ascii) (a b : string) :
  all_chars (fun d => negb (Ascii.eqb c d)) a = true -> split_on c (a +:+ String c b) = a :: split_on c b.
Proof.
  induction a as [|d a IH]; intros H.
  - rewrite append_nil_l. cbn. by rewrite Ascii.eqb_refl.
  - cbn in H. apply andb_prop in H as [Hd Ha]. rewrite append_cons. cbn.
    rewrite (proj1 (negb_true_iff _) Hd). by rewrite (IH Ha).
Qed.

Lemma split_on_none (c : ascii) (a : string) :
  all_chars (fun d => negb (Ascii.eqb c d)) a = true -> split_on c a = [a].
Proof.
  induction a as [|d a IH]; intros H; [done|]. cbn in H |- *. apply andb_prop in H as [Hd Ha].
  rewrite (proj1 (negb_true_iff _) Hd). by rewrite (IH Ha).
Qed.

Lemma all_chars_app (p : ascii -> bool) (a b : string) : all_chars p (a +:+ b) = all_chars p a && all_chars p b.
Proof. induction a as [|c a IH]; [done|]. rewrite append_cons. cbn. by rewrite IH, andb_assoc. Qed.

Lemma all_chars_impl (p q : ascii -> bool) (s : string) :
  (forall c, p c = true -> q c = true) -> all_chars p s = true -> all_chars q s = true.
Proof. intros Hpq. induction s as [|c s IH]; [done|]. cbn. intros [Hc Hs]%andb_prop. by rewrite (Hpq c Hc), IH. Qed.

Lemma trim_dark (s : string) : all_chars (fun c => negb (is_space c)) s = true -> trim s = s.
Proof.
  intros H. assert (Hs : trim_start s = s).
  { destruct s as [|c s]; [done|]. cbn in H |- *. apply andb_prop in H as [Hc _]. by rewrite (proj1 (negb_true_iff _) Hc). }
  unfold trim. rewrite Hs. clear Hs. induction s as [|c s IH]; [done|]. cbn in H |- *.
  apply andb_prop in H as [Hc Hs]. rewrite (IH Hs). destruct s; [by rewrite (proj1 (negb_true_iff _) Hc)|done].
Qed.

Lemma slen_append (a b : string) : String.length (a +:+ b) = String.length a + String.length b.
Proof. induction a as [|x a IH]; [done|]. rewrite append_cons. cbn. by rewrite IH. Qed.

Lemma startsWith_append (p s : string) : startsWith p (p +:+ s) = true.
Proof.
  induction p as [|c p IH]; [by destruct s|]. rewrite append_cons. cbn.
  by rewrite Ascii.eqb_refl, IH.
Qed.

Lemma startsWith_spec (p s : string) :
  startsWith p s = true <-> s = p +:+ slice_from (String.length p) s.
Proof.
  revert s; induction p as [|a p IH]; intros s; [by destruct s|].
  destruct s as [|b s]; [done|]. rewrite append_cons. cbn.
  rewrite andb_true_iff, IH.
  destruct (Ascii.eqb_spec a b) as [->|Hne].
  - split; [intros [_ H]; congruence|]. intros H. split; [done|]. congruence.
  - split; [by intros [? _]|]. congruence.
Qed.

Lemma slice_from_append (p s : string) : slice_from (String.length p) (p +:+ s) = s.
Proof. induction p as [|c p IH]; [done|]. by rewrite append_cons. Qed.

Lemma slice_to_length (n : nat) (s : string) :
  String.length (slice_to n s) = Nat.min n (String.length s).
Proof.
  unfold slice_to. revert s; induction n as [|n IH]; intros [|c s]; cbn; auto.
Qed.

Lemma slice_to_all (n : nat) (s : string) : String.length s <= n -> slice_to n s = s.
Proof.
  unfold slice_to. revert s; induction n as [|n IH]; intros [|c s] H; cbn in *; try done; try lia.
  rewrite IH; [done|lia].
Qed.

Lemma slice_split (n : nat) (s : string) : slice_to n s +:+ slice_from n s = s.
Proof.
  unfold slice_to. revert s; induction n as [|n IH]; intros [|c s]; cbn; try done.
  by rewrite append_cons, IH.
Qed.

Lemma truthy_false (s : string) : truthy s = false <-> s = "".
Proof. unfold truthy. rewrite negb_false_iff. apply String.eqb_eq. Qed.

Lemma truthy_true (s : string) : truthy s = true <-> s <> "".
Proof. unfold truthy. rewrite negb_true_iff. apply String.eqb_neq. Qed.

#[export] Hint Rewrite append_cons append_nil_l append_assoc append_nil_r slen_append slice_from_append
  startsWith_append : js.

(** *** Lemmas on lists *)

Lemma Forall_filter {A} (P Q : A -> Prop) `{!forall x, Decision (Q x)} (l : list A) :
  Forall P l -> Forall P (filter Q l).
Proof. rewrite !Forall_forall. intros HP x [_ Hx]%list_elem_of_filter. auto. Qed.

Lemma filter_all {A} (P : A -> Prop) `{!forall x, Decision (P x)} (l : list A) :
  (forall x, x ∈ l -> P x) -> filter P l = l.
Proof.
  induction l as [|x l IH]; [done|]. intros Hl. rewrite filter_cons, decide_True.
  - f_equal. apply IH. intros y Hy. apply Hl. by right.
  - apply Hl. by left.
Qed.

Lemma filter_none {A} (P : A -> Prop) `{!forall x, Decision (P x)} (l : list A) :
  (forall x, x ∈ l -> ~ P x) -> filter P l = [].
Proof.
  induction l as [|x l IH]; [done|]. intros Hl. rewrite filter_cons, decide_False.
  - apply IH. intros y Hy. apply Hl. by right.
  - apply Hl. by left.
Qed.

Lemma Forall_impl' {A} (P Q : A -> Prop) (l : list A) :
  (forall x, P x -> Q x) -> Forall P l -> Forall Q l.
Proof. intros Hi Hl. by eapply Forall_impl. Qed.

(** *** Lemmas on finite sets of numbers *)

Lemma size_insert (t : nat) (X : gset nat) : t ∉ X -> size ({[t]} ∪ X) = S (size X).
Proof.
  intros Hin. pose proof (size_union (C := gset nat) {[t]} X) as H.
  pose proof (size_singleton (C := gset nat) t) as H1. rewrite H; [lia|set_solver].
Qed.

Lemma size_remove (t : nat) (X : gset nat) : t ∈ X -> S (size (X ∖ {[t]})) = size X.
Proof.
  intros Hin. pose proof (size_insert t (X ∖ {[t]})) as H.
  rewrite <-(union_difference_singleton_L t X Hin) in H. rewrite H; [done|set_solver].
Qed.

(** *** Sorting

    [xs.toSorted(compare)], [le x y] being [compare(x, y) <= 0]: a stable sort. *)
Section Sort.
Context {A : Type} (le : A -> A -> bool).

Fixpoint insert_sorted (x : A) (l : list A) : list A :=
  match l with
  | [] => [x]
  | y :: l' => if le x y then x :: l else y :: insert_sorted x l'
  end.

Definition toSorted (l : list A) : list A := foldr insert_sorted [] l.

Lemma insert_sorted_perm (x : A) (l : list A) : insert_sorted x l ≡ₚ x :: l.
Proof.
  induction l as [|y l IH]; [done|]. cbn. destruct (le x y); [done|].
  rewrite IH. apply Permutation_swap.
Qed.

Lemma toSorted_perm (l : list A) : toSorted l ≡ₚ l.
Proof. induction l as [|x l IH]; [done|]. cbn. by rewrite insert_sorted_perm, IH. Qed.

Lemma toSorted_sorted (l : list A) :
  (forall x y, le x y = true \/ le y x = true) ->
  (forall x y z, le x y = true -> le y z = true -> le x z = true) ->
  StronglySorted (fun x y => le x y = true) (toSorted l).
Proof.
  intros Ht Hr. induction l as [|x l IH]; [constructor|]. cbn [toSorted foldr]. fold (toSorted l). revert IH. generalize (toSorted l). clear l. intros l IH.
  induction IH as [|y l' Hl IH Hy]; cbn; [by repeat constructor|].
  destruct (le x y) eqn:E.
  - constructor; [by constructor|]. constructor; [done|].
    eapply Forall_impl'; [|exact Hy]. eauto.
  - constructor; [done|]. rewrite insert_sorted_perm. constructor; [|done].
    destruct (Ht x y); congruence.
Qed.

(** Elements that compare equal keep their order. *)
Lemma toSorted_stable (P : A -> Prop) `{!forall x, Decision (P x)} (l : list A) :
  (forall x y, P x -> P y -> le x y = true) -> filter P (toSorted l) = filter P l.
Proof.
  intros HP. assert (forall x l, filter P (insert_sorted x l) = filter P (x :: l)) as Hins.
  { intros x l'. induction l' as [|y l' IH]; [done|]. cbn [insert_sorted]. destruct (le x y) eqn:E; [done|].
    rewrite filter_cons, IH, !filter_cons. repeat case_decide; try done.
    rewrite HP in E by done. done. }
  induction l as [|x l IH]; [done|]. cbn [toSorted foldr]. rewrite Hins, !filter_cons. fold (toSorted l).
  by rewrite IH.
Qed.
End Sort.

(** ** Tactics of the development *)

(** Case analysis on every [match] and [if] of the goal, closing what computes. *)
Ltac js_case :=
  repeat (case_match || case_decide); simplify_eq/=; try done.

(** Boolean tests turned into propositions. *)
Ltac js_bool :=
  repeat match goal with
  | H : (_ && _) = true |- _ => apply andb_true_iff in H; destruct H
  | H : (_ || _) = false |- _ => apply orb_false_iff in H; destruct H
  | H : negb _ = true |- _ => apply negb_true_iff in H
  | H : negb _ = false |- _ => apply negb_false_iff in H
  | H : (_ =? _)%Z = true |- _ => apply Z.eqb_eq in H
  | H : (_ =? _)%Z = false |- _ => apply Z.eqb_neq in H
  | H : (_ <? _)%Z = true |- _ => apply Z.ltb_lt in H
  | H : (_ <? _)%Z = false |- _ => apply Z.ltb_ge in H
  | H : (_ <=? _)%Z = true |- _ => apply Z.leb_le in H
  | H : (_ <=? _)%Z = false |- _ => apply Z.leb_gt in H
  | H : String.eqb _ _ = true |- _ => apply String.eqb_eq in H
  | H : String.eqb _ _ = false |- _ => apply String.eqb_neq in H
  | H : truthy _ = false |- _ => apply truthy_false in H
  | H : truthy _ = true |- _ => apply truthy_true in H
  end.
