(* ===== verification/Async.v ===== *)
(** Asynchronous handlers: the effects an [async] function of the client
    performs between two points where it yields to the event loop.

    A handler is a tree of synchronous statements ([Modify], [Read]) and of
    awaited requests ([Await]); [throw], [try]/[catch] and [finally] are
    operations on trees.  [exec] runs a handler from one yield to the next, so
    a theorem about [exec (k answer) s'] speaks of every state [s'] the other
    handlers may have left behind while the request was in flight. *)
From S2P Require Import Prelude.

(** ** Thrown values *)

(** A value caught by [catch (err)].  [ConnectError] extends [Error]; its
    [message] and [rawMessage] are set by the RPC library. *)
Inductive thrown : Type :=
| ConnectErr (code : Z) (rawMessage message : string)
| JsError (message : string)
| OtherThrown (printed : string).

(** [Code.Unauthenticated] of the Connect protocol. *)
Definition Unauthenticated : Z := 16.

(** [err instanceof Error ? err.message : String(err)] *)
Definition errText (e : thrown) : string :=
  match e with
  | ConnectErr _ _ m => m
  | JsError m => m
  | OtherThrown s => s
  end.

(** [err instanceof Error ? err.message : fallback] *)
Definition errTextOr (fallback : string) (e : thrown) : string :=
  match e with
  | ConnectErr _ _ m => m
  | JsError m => m
  | OtherThrown _ => fallback
  end.

Section Async.
(** [S] is the state the handlers share, [Req] the requests they await and
    [Resp r] what a resolved request [r] returns. *)
Context {S : Type} {Req : Type} {Resp : Req -> Type}.

Inductive async (A : Type) : Type :=
| Ret (a : A)
| Throw (e : thrown)
| Modify (f : S -> S) (k : async A)
| Read (k : S -> async A)
| Await (r : Req) (k : Resp r + thrown -> async A).
#[global] Arguments Ret {A} a.
#[global] Arguments Throw {A} e.
#[global] Arguments Modify {A} f k.
#[global] Arguments Read {A} k.
#[global] Arguments Await {A} r k.

Fixpoint bind {A B} (m : async A) (f : A -> async B) : async B :=
  match m with
  | Ret a => f a
  | Throw e => Throw e
  | Modify g k => Modify g (bind k f)
  | Read k => Read (fun s => bind (k s) f)
  | Await r k => Await r (fun o => bind (k o) f)
  end.

(** [try { m } catch (e) { h e }] *)
Fixpoint try_catch {A} (m : async A) (h : thrown -> async A) : async A :=
  match m with
  | Ret a => Ret a
  | Throw e => h e
  | Modify g k => Modify g (try_catch k h)
  | Read k => Read (fun s => try_catch (k s) h)
  | Await r k => Await r (fun o => try_catch (k o) h)
  end.

(** [try { m } finally { fin }] *)
Fixpoint try_finally {A} (m : async A) (fin : async unit) : async A :=
  match m with
  | Ret a => bind fin (fun _ => Ret a)
  | Throw e => bind fin (fun _ => Throw e)
  | Modify g k => Modify g (try_finally k fin)
  | Read k => Read (fun s => try_finally (k s) fin)
  | Await r k => Await r (fun o => try_finally (k o) fin)
  end.

(** [await client.method(request)]: a rejected promise throws. *)
Definition rpc (r : Req) : async (Resp r) :=
  Await r (fun o => match o with inl v => Ret v | inr e => Throw e end).

Definition modify (f : S -> S) : async unit := Modify f (Ret tt).

Definition gets {A} (f : S -> A) : async A := Read (fun s => Ret (f s)).

Definition throw {A} (e : thrown) : async A := Throw e.

(** [f(); k] where [f] is an async function called without [await]: its
    statements up to the first request, then [k], then the rest of [f]. [k]
    itself awaits nothing. *)
Fixpoint call {A} (m : async A) (k : async unit) : async unit :=
  match m with
  | Ret _ => k
  | Throw _ => k
  | Modify g m' => Modify g (call m' k)
  | Read m' => Read (fun s => call (m' s) k)
  | Await r m' => bind k (fun _ => Await r (fun o => call (m' o) (Ret tt)))
  end.

(** Where a handler stands when it yields. *)
Inductive outcome (A : Type) : Type :=
| Done (a : A)
| Failed (e : thrown)
| Blocked (r : Req) (k : Resp r + thrown -> async A).
#[global] Arguments Done {A} a.
#[global] Arguments Failed {A} e.
#[global] Arguments Blocked {A} r k.

Fixpoint exec {A} (m : async A) (s : S) : S * outcome A :=
  match m with
  | Ret a => (s, Done a)
  | Throw e => (s, Failed e)
  | Modify f k => exec k (f s)
  | Read k => exec (k s) s
  | Await r k => (s, Blocked r k)
  end.

(** Running a handler to its end against answers that do not interleave with
    other handlers. *)
Fixpoint run {A} (answer : forall r, Resp r + thrown) (m : async A) (s : S) : S * (A + thrown) :=
  match m with
  | Ret a => (s, inl a)
  | Throw e => (s, inr e)
  | Modify f k => run answer k (f s)
  | Read k => run answer (k s) s
  | Await r k => run answer (k (answer r)) s
  end.

(** Running a handler to its end among others: [meanwhile r] is what they made of the
    state while the answer to [r] was awaited. *)
Fixpoint run_among {A} (meanwhile : Req -> S -> S) (answer : forall r, Resp r + thrown) (m : async A) (s : S) :
    S * (A + thrown) :=
  match m with
  | Ret a => (s, inl a)
  | Throw e => (s, inr e)
  | Modify f k => run_among meanwhile answer k (f s)
  | Read k => run_among meanwhile answer (k s) s
  | Await r k => run_among meanwhile answer (k (answer r)) (meanwhile r s)
  end.

(** [run] is [exec] resumed with the answer at every yield. *)
Lemma run_exec {A} answer (m : async A) (s : S) :
  run answer m s =
  match exec m s with
  | (s', Done a) => (s', inl a)
  | (s', Failed e) => (s', inr e)
  | (s', Blocked r k) => run answer (k (answer r)) s'
  end.
Proof. revert s; induction m; intros; cbn; auto. Qed.

Lemma run_bind {A B} answer (m : async A) (f : A -> async B) (s : S) :
  run answer (bind m f) s =
  match run answer m s with
  | (s', inl a) => run answer (f a) s'
  | (s', inr e) => (s', inr e)
  end.
Proof. revert s; induction m; intros; cbn; auto. Qed.

Lemma run_try_catch {A} answer (m : async A) h (s : S) :
  run answer (try_catch m h) s =
  match run answer m s with
  | (s', inl a) => (s', inl a)
  | (s', inr e) => run answer (h e) s'
  end.
Proof. revert s; induction m; intros; cbn; auto. Qed.

(** A [finally] block that does not itself throw runs on both paths and keeps
    the outcome of the [try] block. *)
Lemma run_try_finally {A} answer (m : async A) (fin : async unit) (s : S) :
  run answer (try_finally m fin) s =
  let '(s1, o) := run answer m s in
  match run answer fin s1 with
  | (s2, inl _) => (s2, o)
  | (s2, inr e) => (s2, inr e)
  end.
Proof.
  revert s; induction m; intros; cbn; auto; rewrite run_bind;
    by destruct (run answer fin s) as [s2 [[]|e']].
Qed.

(** *** Interleaving

    Handlers run to their next [await] without interruption; in between,
    any other handler may run.  A pool is the shared state and the suspended
    handlers; [starts] says which handlers an event may start. *)

Definition suspended : Type := {r : Req & Resp r + thrown -> async unit}.

Definition pending (o : outcome unit) : list suspended :=
  match o with Blocked r k => [existT r k] | _ => [] end.

Inductive pool_step (starts : async unit -> Prop) : S * list suspended -> S * list suspended -> Prop :=
| pool_start (m : async unit) (s : S) (p : list suspended) :
    starts m ->
    pool_step starts (s, p) ((exec m s).1, pending (exec m s).2 ++ p)
| pool_resume (r : Req) (k : Resp r + thrown -> async unit) (a : Resp r + thrown) (s : S)
    (p q : list suspended) :
    pool_step starts (s, p ++ existT r k :: q)
      ((exec (k a) s).1, pending (exec (k a) s).2 ++ p ++ q).

Definition pool_reaches (starts : async unit -> Prop) (s s' : S) : Prop :=
  exists p, rtc (pool_step starts) (s, []) (s', p).

(** [guarantees I m Q s]: run from [s], the handler [m] meets [I] whenever it
    yields, if every state it is resumed in meets [I]; and it ends, with an
    outcome and a state in [Q]. *)
Fixpoint guarantees {A} (I : S -> Prop) (m : async A) (Q : A + thrown -> S -> Prop) (s : S) : Prop :=
  match m with
  | Ret a => Q (inl a) s
  | Throw e => Q (inr e) s
  | Modify f k => guarantees I k Q (f s)
  | Read k => guarantees I (k s) Q s
  | Await r k => I s /\ forall a s', I s' -> guarantees I (k a) Q s'
  end.

Lemma guarantees_mono {A} (I : S -> Prop) (m : async A) (P Q : A + thrown -> S -> Prop) (s : S) :
  (forall o s', P o s' -> Q o s') -> guarantees I m P s -> guarantees I m Q s.
Proof.
  intros HPQ. revert s.
  induction m as [a|e|f k IH|k IH|r k IH]; intros s; cbn; auto.
  intros [Hi Hk]. split; [done|]. intros a s' Hs'. by apply IH, Hk.
Qed.

Lemma guarantees_bind {A B} (I : S -> Prop) (m : async A) (f : A -> async B) Q (s : S) :
  guarantees I (bind m f) Q s <->
  guarantees I m (fun o s' => match o with inl a => guarantees I (f a) Q s' | inr e => Q (inr e) s' end) s.
Proof.
  revert s. induction m as [a|e|g k IH|k IH|r k IH]; intros s; cbn; auto.
  by setoid_rewrite IH.
Qed.

Lemma guarantees_try_catch {A} (I : S -> Prop) (m : async A) h Q (s : S) :
  guarantees I (try_catch m h) Q s <->
  guarantees I m (fun o s' => match o with inl a => Q (inl a) s' | inr e => guarantees I (h e) Q s' end) s.
Proof.
  revert s. induction m as [a|e|g k IH|k IH|r k IH]; intros s; cbn; auto.
  by setoid_rewrite IH.
Qed.

Lemma guarantees_try_finally {A} (I : S -> Prop) (m : async A) (fin : async unit) Q (s : S) :
  guarantees I (try_finally m fin) Q s <->
  guarantees I m (fun o s' => guarantees I fin (fun o' s'' =>
    match o' with inl _ => Q o s'' | inr e => Q (inr e) s'' end) s') s.
Proof.
  revert s. induction m as [a|e|g k IH|k IH|r k IH]; intros s; cbn; auto.
  1-2: rewrite guarantees_bind; cbn; done.
  by setoid_rewrite IH.
Qed.

(** The two halves of [guarantees] over one segment. *)
Lemma guarantees_exec {A} (I : S -> Prop) (m : async A) Q (s : S) :
  guarantees I m Q s <->
  match exec m s with
  | (s', Done a) => Q (inl a) s'
  | (s', Failed e) => Q (inr e) s'
  | (s', Blocked r k) => I s' /\ forall a s'', I s'' -> guarantees I (k a) Q s''
  end.
Proof. revert s. induction m as [a|e|g k IH|k IH|r k IH]; intros s; cbn; auto. Qed.

(** A run with no interleaving is one of the runs [guarantees] speaks of. *)
Lemma guarantees_run {A} (I : S -> Prop) (m : async A) Q (s : S) answer :
  guarantees I m Q s -> Q (run answer m s).2 (run answer m s).1.
Proof.
  revert s. induction m as [a|e|g k IH|k IH|r k IH]; intros s; cbn; auto.
  intros [Hi Hk]. by apply IH, Hk.
Qed.

(** A handler that keeps [I] at every yield and at its end. *)
Definition keeps {A} (I : S -> Prop) (m : async A) : Prop :=
  forall s, I s -> guarantees I m (fun _ => I) s.

Lemma keeps_bind {A B} (I : S -> Prop) (m : async A) (f : A -> async B) :
  keeps I m -> (forall a, keeps I (f a)) -> keeps I (bind m f).
Proof.
  intros Hm Hf s Hs. apply guarantees_bind. eapply guarantees_mono; [|by apply Hm].
  intros [a|e] s' Hs'; [by apply Hf|done].
Qed.

Lemma keeps_try_catch {A} (I : S -> Prop) (m : async A) h :
  keeps I m -> (forall e, keeps I (h e)) -> keeps I (try_catch m h).
Proof.
  intros Hm Hh s Hs. apply guarantees_try_catch. eapply guarantees_mono; [|by apply Hm].
  intros [a|e] s' Hs'; [done|by apply Hh].
Qed.

Lemma keeps_rpc (I : S -> Prop) (r : Req) : keeps I (rpc r).
Proof. intros s Hs. split; [done|]. by intros [v|e]. Qed.

Lemma keeps_modify (I : S -> Prop) (f : S -> S) : (forall s, I s -> I (f s)) -> keeps I (modify f).
Proof. intros Hf s Hs. by apply Hf. Qed.

Lemma keeps_ret {A} (I : S -> Prop) (a : A) : keeps I (Ret a).
Proof. by intros s Hs. Qed.

Lemma keeps_throw {A} (I : S -> Prop) e : keeps I (throw (A := A) e).
Proof. by intros s Hs. Qed.

Lemma keeps_gets {A} (I : S -> Prop) (f : S -> A) : keeps I (gets f).
Proof. by intros s Hs. Qed.

Lemma keeps_try_finally {A} (I : S -> Prop) (m : async A) fin :
  keeps I m -> keeps I fin -> keeps I (try_finally m fin).
Proof.
  intros Hm Hf s Hs. specialize (Hm s Hs). clear Hs. revert s Hm.
  induction m as [a|e|f k IH|k IH|r k IH]; intros s Hm; cbn in *; auto.
  - apply (keeps_bind I fin (fun _ => Ret a)); [done| |done]. by intros _ s' Hs'.
  - apply (keeps_bind I fin (fun _ => Throw e)); [done| |done]. by intros _ s' Hs'.
  - destruct Hm as [Hi Hk]. split; [done|]. auto.
Qed.

Lemma keeps_call {A} (I : S -> Prop) (m : async A) k : keeps I m -> keeps I k -> keeps I (call m k).
Proof.
  intros Hm Hk s Hs. specialize (Hm s Hs). clear Hs. revert k Hk s Hm.
  induction m as [a|e|f m IH|m IH|r m IH]; intros k' Hk s Hm; cbn in *; auto.
  destruct Hm as [Hi Hm]. apply (keeps_bind I k'); [done| |done].
  intros _ s' Hs'. split; [done|]. auto using keeps_ret.
Qed.

(** Handlers that keep [I] keep it however they interleave. *)
Lemma pool_invariant (I : S -> Prop) (starts : async unit -> Prop) (s s' : S) :
  (forall m, starts m -> keeps I m) -> I s -> pool_reaches starts s s' -> I s'.
Proof.
  intros Hm Hs [p Hr].
  set (ok := fun c : S * list suspended =>
    I c.1 /\ Forall (fun q : suspended =>
      forall a s, I s -> guarantees I (projT2 q a) (fun _ => I) s) c.2).
  assert (forall c c', pool_step starts c c' -> ok c -> ok c') as Hstep.
  { assert (forall (m : async unit) s p, guarantees I m (fun _ => I) s -> ok (s, p) ->
      ok ((exec m s).1, pending (exec m s).2 ++ p)) as Hseg.
    { intros m t q Hg [_ Hq]. apply guarantees_exec in Hg.
      destruct (exec m t) as [t' [u|e|r k]]; cbn; [by split..|].
      destruct Hg as [Hi Hk]. split; [done|]. by constructor. }
    intros c c' [m t q Hstart|r k a t q1 q2] Hok.
    - apply Hseg; [|done]. apply Hm; [done|apply Hok].
    - destruct Hok as [Hi Hq]. cbn in Hi, Hq. apply Forall_app in Hq as [Hq1 Hq2].
      apply Forall_cons in Hq2 as [Hk Hq2]. apply Hseg; [by apply Hk|].
      split; [done|]. by apply Forall_app. }
  assert (forall c c', rtc (pool_step starts) c c' -> ok c -> ok c') as Hrtc.
  { induction 1; eauto. }
  by apply (Hrtc _ _ Hr).
Qed.

(** A run without interleaving is an execution of the pool. *)
Lemma run_reaches (starts : async unit -> Prop) (m : async unit) (s : S) answer :
  starts m -> pool_reaches starts s (run answer m s).1.
Proof.
  intros Hm. exists []. eapply rtc_l; [by apply (pool_start starts m)|]. clear Hm. revert s.
  induction m as [a|e|f k IH|k IH|r k IH]; intros s; cbn; auto using rtc_refl.
  eapply rtc_l; [apply (pool_resume starts r k (answer r) s [] [])|]. apply IH.
Qed.

(** *** Requests

    [asks I P m s]: run from [s], every request of [m] is in [P], and [I] holds
    at every yield and at the end, if [I] holds whenever [m] is resumed. *)
Fixpoint asks {A} (I : S -> Prop) (P : Req -> Prop) (m : async A) (s : S) : Prop :=
  match m with
  | Ret _ | Throw _ => I s
  | Modify f k => asks I P k (f s)
  | Read k => asks I P (k s) s
  | Await r k => P r /\ I s /\ forall a s', I s' -> asks I P (k a) s'
  end.

Lemma asks_exec {A} (I : S -> Prop) (P : Req -> Prop) (m : async A) (s : S) :
  asks I P m s <->
  match exec m s with
  | (s', Blocked r k) => P r /\ I s' /\ forall a s'', I s'' -> asks I P (k a) s''
  | (s', _) => I s'
  end.
Proof. revert s. induction m as [a|e|f k IH|k IH|r k IH]; intros s; cbn; auto. Qed.

(** Every request in flight is one the handlers may make. *)
Lemma pool_asks (I : S -> Prop) (P : Req -> Prop) (starts : async unit -> Prop) (s s' : S) p :
  (forall m s, starts m -> I s -> asks I P m s) -> I s ->
  rtc (pool_step starts) (s, []) (s', p) -> I s' /\ Forall (fun q => P (projT1 q)) p.
Proof.
  intros Hm Hs Hr.
  set (ok := fun c : S * list suspended =>
    I c.1 /\ Forall (fun q : suspended => P (projT1 q) /\ forall a s, I s -> asks I P (projT2 q a) s) c.2).
  assert (forall (m : async unit) s p, asks I P m s -> ok (s, p) ->
    ok ((exec m s).1, pending (exec m s).2 ++ p)) as Hseg.
  { intros m t q Hg [_ Hq]. apply asks_exec in Hg.
    destruct (exec m t) as [t' [u|e|r k]]; cbn; [by split..|].
    destruct Hg as (Hr' & Hi & Hk). split; [done|]. by constructor. }
  assert (forall c c', pool_step starts c c' -> ok c -> ok c') as Hstep.
  { intros c c' [m t q Hstart|r k a t q1 q2] Hok.
    - apply Hseg; [|done]. apply Hm; [done|apply Hok].
    - destruct Hok as [Hi Hq]. cbn in Hi, Hq. apply Forall_app in Hq as [Hq1 Hq2].
      apply Forall_cons in Hq2 as [[Hr' Hk] Hq2]. apply Hseg; [by apply Hk|].
      split; [done|]. by apply Forall_app. }
  assert (forall c c', rtc (pool_step starts) c c' -> ok c -> ok c') as Hrtc by (induction 1; eauto).
  destruct (Hrtc _ _ Hr) as [H1 H2]; [by split|]. split; [done|].
  cbn in H2. eapply Forall_impl'; [|exact H2]. by intros q [Hq _].
Qed.

(** [makes I P m]: the handler [m] keeps [I] at every yield and its requests are all
    in [P], from any state in [I]. *)
Definition makes {A} (I : S -> Prop) (P : Req -> Prop) (m : async A) : Prop :=
  forall s, I s -> asks I P m s.

Lemma makes_ret {A} I P (a : A) : makes I P (Ret a).
Proof. by intros s Hs. Qed.
Lemma makes_throw {A} I P e : makes I P (throw (A := A) e).
Proof. by intros s Hs. Qed.
Lemma makes_gets {A} I P (f : S -> A) : makes I P (gets f).
Proof. by intros s Hs. Qed.
Lemma makes_modify (I : S -> Prop) P (f : S -> S) : (forall s, I s -> I (f s)) -> makes I P (modify f).
Proof. intros Hf s Hs. by apply Hf. Qed.
Lemma makes_rpc I (P : Req -> Prop) r : P r -> makes I P (rpc r).
Proof. intros Hr s Hs. split; [done|]. split; [done|]. by intros [v|e] s' Hs'. Qed.

Lemma makes_bind {A B} I P (m : async A) (f : A -> async B) :
  makes I P m -> (forall a, makes I P (f a)) -> makes I P (bind m f).
Proof.
  intros Hm Hf s Hs. specialize (Hm s Hs). clear Hs. revert s Hm.
  induction m as [a|e|g k IH|k IH|r k IH]; intros s Hm; cbn in *; auto; [by apply Hf|].
  destruct Hm as (Hr & Hi & Hk). auto.
Qed.

Lemma makes_try_catch {A} I P (m : async A) h :
  makes I P m -> (forall e, makes I P (h e)) -> makes I P (try_catch m h).
Proof.
  intros Hm Hh s Hs. specialize (Hm s Hs). clear Hs. revert s Hm.
  induction m as [a|e|g k IH|k IH|r k IH]; intros s Hm; cbn in *; auto; [by apply Hh|].
  destruct Hm as (Hr & Hi & Hk). auto.
Qed.

Lemma makes_try_finally {A} I P (m : async A) fin :
  makes I P m -> makes I P fin -> makes I P (try_finally m fin).
Proof.
  intros Hm Hf s Hs. specialize (Hm s Hs). clear Hs. revert s Hm.
  induction m as [a|e|g k IH|k IH|r k IH]; intros s Hm; cbn in *; auto.
  - apply (makes_bind I P fin (fun _ => Ret a)); [done| |done]. intros _. apply makes_ret.
  - apply (makes_bind I P fin (fun _ => throw e)); [done| |done]. intros _. apply makes_throw.
  - destruct Hm as (Hr & Hi & Hk). auto.
Qed.

Lemma makes_call {A} I P (m : async A) k : makes I P m -> makes I P k -> makes I P (call m k).
Proof.
  intros Hm Hk s Hs. specialize (Hm s Hs). clear Hs. revert k Hk s Hm.
  induction m as [a|e|g m IH|m IH|r m IH]; intros k' Hk s Hm; cbn in *; auto.
  destruct Hm as (Hr & Hi & Hm). apply (makes_bind I P k'); [done| |done].
  intros _ s' Hs'. split; [done|]. split; [done|]. intros a s'' Hs''.
  apply IH; [apply makes_ret|auto].
Qed.

(** Every request in flight is one the handlers make, and [I] holds. *)
Lemma pool_makes (I : S -> Prop) (P : Req -> Prop) (starts : async unit -> Prop) (s s' : S) p :
  (forall m, starts m -> makes I P m) -> I s ->
  rtc (pool_step starts) (s, []) (s', p) -> I s' /\ Forall (fun q => P (projT1 q)) p.
Proof. intros Hm. apply pool_asks. intros m t Hs. by apply Hm. Qed.
End Async.

#[global] Arguments async : clear implicits.
#[global] Arguments outcome : clear implicits.
#[global] Arguments suspended : clear implicits.

(** *** One request at a time *)

Section SingleFlight.
(** Handlers are started by events; [flag] is the mark of an operation under
    way, [owns] its requests. *)
Context {S Req E : Type} {Resp : Req -> Type}.
Variable on_event : E -> async S Req Resp unit.
Variable flag : S -> bool.
Variable owns : Req -> bool.

Abbreviation susp := (suspended S Req Resp).

Definition started_by (m : async S Req Resp unit) : Prop := exists e, m = on_event e.

(** Run from [s], the handler leaves the mark alone and makes no owned request,
    whatever happens while it waits. *)
Fixpoint inert {A} (m : async S Req Resp A) (s : S) : Prop :=
  match m with
  | Ret _ | Throw _ => True
  | Modify f k => flag (f s) = flag s /\ inert k (f s)
  | Read k => inert (k s) s
  | Await r k => owns r = false /\ forall a s', inert (k a) s'
  end.

Definition steady {A} (m : async S Req Resp A) : Prop := forall s, inert m s.

Lemma steady_ret {A} (a : A) : steady (Ret a).
Proof. done. Qed.
Lemma steady_throw {A} e : steady (throw (A := A) e).
Proof. done. Qed.
Lemma steady_modify f : (forall s, flag (f s) = flag s) -> steady (modify f).
Proof. intros Hf s. by split. Qed.
Lemma steady_gets {A} (f : S -> A) : steady (gets f).
Proof. done. Qed.
Lemma steady_rpc r : owns r = false -> steady (rpc r).
Proof. intros Ho s. split; [done|]. by intros [v|e] s'. Qed.

Lemma steady_bind {A B} (m : async S Req Resp A) (f : A -> async S Req Resp B) :
  steady m -> (forall a, steady (f a)) -> steady (bind m f).
Proof.
  intros Hm Hf s. specialize (Hm s). revert s Hm.
  induction m as [a|e|g k IH|k IH|r k IH]; intros s; cbn.
  - intros _. apply Hf.
  - done.
  - intros [Hg Hk]. auto.
  - auto.
  - intros [Ho Hk]. auto.
Qed.

Lemma steady_try_catch {A} (m : async S Req Resp A) h :
  steady m -> (forall e, steady (h e)) -> steady (try_catch m h).
Proof.
  intros Hm Hh s. specialize (Hm s). revert s Hm.
  induction m as [a|e|g k IH|k IH|r k IH]; intros s; cbn.
  - done.
  - intros _. apply Hh.
  - intros [Hg Hk]. auto.
  - auto.
  - intros [Ho Hk]. auto.
Qed.

Lemma steady_try_finally {A} (m : async S Req Resp A) fin :
  steady m -> steady fin -> steady (try_finally m fin).
Proof.
  intros Hm Hf s. specialize (Hm s). revert s Hm.
  induction m as [a|e|g k IH|k IH|r k IH]; intros s; cbn.
  - intros _. by apply steady_bind.
  - intros _. by apply steady_bind.
  - intros [Hg Hk]. auto.
  - auto.
  - intros [Ho Hk]. auto.
Qed.

Lemma steady_call {A} (m : async S Req Resp A) k : steady m -> steady k -> steady (call m k).
Proof.
  intros Hm Hk s. specialize (Hm s). revert k Hk s Hm.
  induction m as [a|e|g m IH|m IH|r m IH]; intros k' Hk s; cbn.
  - intros _. apply Hk.
  - intros _. apply Hk.
  - intros [Hg Hm]. auto.
  - auto.
  - intros [Ho Hm]. apply steady_bind; [done|]. intros _ s'. split; [done|]. auto using steady_ret.
Qed.

(** A handler in flight that never touches the mark. *)
Definition passes (q : susp) : Prop :=
  owns (projT1 q) = false /\ forall a, steady (projT2 q a).

(** The operation itself in flight: its answer takes the mark down. *)
Definition releases (q : susp) : Prop :=
  owns (projT1 q) = true /\
  forall a s, flag (exec (projT2 q a) s).1 = false /\ Forall passes (pending (exec (projT2 q a) s).2).

Lemma inert_exec (m : async S Req Resp unit) s :
  inert m s -> flag (exec m s).1 = flag s /\ Forall passes (pending (exec m s).2).
Proof.
  revert s. induction m as [a|e|g k IH|k IH|r k IH]; intros s; cbn.
  - by repeat constructor.
  - by repeat constructor.
  - intros [Hg Hk]. destruct (IH _ Hk) as [Hf Hp]. by rewrite Hf.
  - apply IH.
  - intros [Ho Hk]. split; [done|]. constructor; [|constructor]. by split.
Qed.

Lemma steady_keeps {A} (m : async S Req Resp A) b : steady m -> keeps (fun s => flag s = b) m.
Proof.
  intros Hm s. specialize (Hm s). revert s Hm.
  induction m as [a|e|g k IH|k IH|r k IH]; intros s Hm Hs; cbn in *.
  - done.
  - done.
  - destruct Hm as [Hg Hk]. apply IH; [done|congruence].
  - by apply IH.
  - destruct Hm as [Ho Hk]. split; [done|]. intros a s' Hs'. by apply IH.
Qed.

(** A steady handler makes no owned request in any of its segments. *)
Lemma steady_asks {A} (m : async S Req Resp A) s :
  steady m -> asks (fun _ => True) (fun r => owns r = false) m s.
Proof.
  intros Hm. specialize (Hm s). revert s Hm.
  induction m as [a|e|g k IH|k IH|r k IH]; intros s Hm; cbn in *; try done.
  - destruct Hm. by apply IH.
  - by apply IH.
  - destruct Hm as [Ho Hk]. split_and!; [done..|]. intros a s' _. by apply IH.
Qed.

Definition takes_turn (e : E) : Prop :=
  forall s, let c := exec (on_event e) s in
    inert (on_event e) s \/
    (flag s = false /\ flag c.1 = true /\ exists q, pending c.2 = [q] /\ releases q).

Definition in_flight (p : list susp) : nat := length (List.filter (fun q => owns (projT1 q)) p).

Lemma in_flight_app (p q : list susp) : in_flight (p ++ q) = in_flight p + in_flight q.
Proof. unfold in_flight. by rewrite List.filter_app, length_app. Qed.

Lemma in_flight_passes (p : list susp) : Forall passes p -> in_flight p = 0.
Proof. induction 1 as [|q p [Ho _] Hp IH]; [done|]. unfold in_flight in *. cbn. by rewrite Ho. Qed.

(** Exactly one owned request is in flight while the mark is up, else none. *)
Definition flight_ok (c : S * list susp) : Prop :=
  Forall (fun q => passes q \/ releases q) c.2 /\ in_flight c.2 = (if flag c.1 then 1 else 0).

Lemma flight_step c c' :
  (forall e, takes_turn e) -> pool_step started_by c c' -> flight_ok c -> flight_ok c'.
Proof.
  intros Hev [m s p [e ->]|r k a s p1 p2] [Hall Hn]; cbn [fst snd] in Hall, Hn.
  - specialize (Hev e s). cbv zeta in Hev.
    destruct Hev as [[Hf Hp]%inert_exec|(Hf0 & Hf1 & q & Hp & Hr)]; split; cbn [fst snd].
    + apply Forall_app. split; [|done]. eapply Forall_impl'; [|exact Hp]. auto.
    + rewrite in_flight_app, (in_flight_passes _ Hp), Hf. done.
    + rewrite Hp. constructor; auto.
    + rewrite in_flight_app, Hp, Hn, Hf0, Hf1. destruct Hr as [Ho _]. unfold in_flight. cbn. by rewrite Ho.
  - apply Forall_app in Hall as [Hp1 Hall]. apply Forall_cons in Hall as [Hq Hp2].
    rewrite in_flight_app in Hn. change (existT r k :: p2) with ([existT r k] ++ p2) in Hn.
    rewrite in_flight_app in Hn. unfold in_flight at 2 in Hn. cbn [List.filter projT1] in Hn.
    assert (forall l, Forall passes l -> Forall (fun q => passes q \/ releases q) (l ++ p1 ++ p2) /\
      in_flight (l ++ p1 ++ p2) = in_flight p1 + in_flight p2) as Hl.
    { intros l Hl. split; [|rewrite !in_flight_app, (in_flight_passes _ Hl); lia].
      apply Forall_app. split; [eapply Forall_impl'; [|exact Hl]; auto|]. by apply Forall_app. }
    destruct Hq as [[Ho Hq]|[Ho Hq]]; cbn [projT1 projT2] in *; rewrite Ho in Hn;
      [destruct (inert_exec _ _ (Hq a s)) as [Hf Hp]|destruct (Hq a s) as [Hf Hp]];
      destruct (Hl _ Hp) as [H1 H2]; (split; [exact H1|]); cbn [fst snd]; rewrite H2, Hf.
    + cbn in Hn. lia.
    + cbn in Hn. destruct (flag s); lia.
Qed.

Lemma flight_reaches s c : flag s = false -> (forall e, takes_turn e) ->
  rtc (pool_step started_by) (s, []) c -> flight_ok c.
Proof.
  intros H0 Hev Hr. assert (flight_ok (s, [])) as Hok.
  { split; [constructor|]. cbn. by rewrite H0. }
  revert Hok. clear H0. induction Hr; eauto using flight_step.
Qed.
(** *** Several requests in turn

    An operation that makes several requests, one after the other: [stage] is what it
    may be waiting for, and the mark stays up until it ends. *)
Section InTurn.
Variable stage : Req -> bool.

Inductive turn (q : susp) : Prop :=
| turn_next :
    stage (projT1 q) = true ->
    (forall a s, flag s = true -> let c := exec (projT2 q a) s in
       (flag c.1 = false /\ Forall passes (pending c.2)) \/
       (flag c.1 = true /\ exists q', pending c.2 = [q'] /\ turn q')) ->
    turn q.

Definition takes_turns (e : E) : Prop :=
  forall s, let c := exec (on_event e) s in
    inert (on_event e) s \/
    (flag s = false /\ flag c.1 = true /\ exists q, pending c.2 = [q] /\ turn q).

(** One operation is under way while the mark is up, else none. *)
Definition turns_ok (c : S * list susp) : Prop :=
  if flag c.1 then exists q p, c.2 ≡ₚ q :: p /\ turn q /\ Forall passes p else Forall passes c.2.

Lemma turns_step c c' :
  (forall e, takes_turns e) -> pool_step started_by c c' -> turns_ok c -> turns_ok c'.
Proof.
  intros Hev [m s p [e ->]|r k a s p1 p2] Hok; unfold turns_ok in *; cbn [fst snd] in *.
  - specialize (Hev e s). cbv zeta in Hev. destruct Hev as [[Hf Hp]%inert_exec|(Hf0 & Hf1 & q & Hp & Hr)].
    + rewrite Hf. destruct (flag s); [|by apply Forall_app].
      destruct Hok as (q & l & Hl & Hq & Hps). exists q, (pending (exec (on_event e) s).2 ++ l).
      split_and!; [by rewrite Hl, Permutation_middle|done|by apply Forall_app].
    + rewrite Hf1, Hp. rewrite Hf0 in Hok. by exists q, p.
  - destruct (flag s) eqn:Hs.
    + destruct Hok as (q & l & Hl & Hq & Hps). rewrite <- Permutation_middle in Hl.
      assert (existT r k ∈ q :: l) as [<-|Hx]%elem_of_cons by (rewrite <- Hl; by left).
      * apply Permutation_cons_inv in Hl. rewrite <- Hl in Hps. destruct Hq as [_ Hq].
        destruct (Hq a s Hs) as [[Hf Hp]|(Hf & q' & Hp & Hq')]; cbn [projT2] in *; rewrite Hf.
        -- by apply Forall_app.
        -- rewrite Hp. by exists q', (p1 ++ p2).
      * apply elem_of_Permutation in Hx as [l' Hl']. rewrite Hl' in Hl, Hps.
        apply Forall_cons in Hps as [[_ Hk] Hps]. destruct (inert_exec _ _ (Hk a s)) as [Hf Hp].
        cbn [projT2] in *. rewrite Hf, Hs. rewrite Permutation_swap in Hl. apply Permutation_cons_inv in Hl.
        exists q, (pending (exec (k a) s).2 ++ l').
        split_and!; [by rewrite Hl, Permutation_middle|done|by apply Forall_app].
    + rewrite <- Permutation_middle in Hok. apply Forall_cons in Hok as [[_ Hk] Hps]. destruct (inert_exec _ _ (Hk a s)) as [Hf Hp].
      cbn [projT2] in *. rewrite Hf, Hs. by apply Forall_app.
Qed.

Lemma turns_reaches s c : flag s = false -> (forall e, takes_turns e) ->
  rtc (pool_step started_by) (s, []) c -> turns_ok c.
Proof.
  intros H0 Hev Hr. assert (turns_ok (s, [])) as Hok by (unfold turns_ok; cbn; by rewrite H0).
  revert Hok. clear H0. induction Hr; eauto using turns_step.
Qed.

Lemma in_flight_perm (p q : list susp) : p ≡ₚ q -> in_flight p = in_flight q.
Proof. intros H. unfold in_flight. induction H as [|x p q _ IH|x y p|p q r _ IH1 _ IH2]; cbn; repeat case_match; cbn; congruence. Qed.

Lemma turns_in_flight s p :
  turns_ok (s, p) ->
  in_flight p <= (if flag s then 1 else 0) /\
  ((forall r, stage r = true -> owns r = true) -> in_flight p = if flag s then 1 else 0).
Proof.
  unfold turns_ok. cbn [fst snd]. destruct (flag s).
  - intros (q & l & Hl & [Hq _] & Hps). rewrite (in_flight_perm _ _ Hl).
    change (q :: l) with ([q] ++ l). rewrite in_flight_app, (in_flight_passes _ Hps).
    unfold in_flight. cbn. split; [case_match; cbn; lia|]. intros Hr. by rewrite (Hr _ Hq).
  - intros Hps. by rewrite in_flight_passes.
Qed.
End InTurn.
End SingleFlight.

(** Closes [steady] goals along the handler's text, and the turn of an event
    that makes no owned request. *)
Ltac steady :=
  repeat first
    [ apply steady_ret | apply steady_throw | apply steady_gets
    | apply steady_rpc; first [reflexivity | solve [auto]]
    | apply steady_modify; intros ?; cbn; repeat case_match; reflexivity
    | apply steady_bind; [|intros ?] | apply steady_try_catch; [|intros ?] | apply steady_try_finally
    | apply steady_call
    | assumption
    | case_match ].

(** Proves [makes I P m] along the structure of [m]; what a setter keeps of [I] is
    left when it is not immediate. *)
Ltac makes :=
  repeat first
    [ apply makes_ret | apply makes_throw | apply makes_gets
    | apply makes_rpc; first [exact I | discriminate | solve [auto]]
    | apply makes_modify; intros ?; cbn; repeat case_match; solve [auto]
    | apply makes_bind; [|intros ?] | apply makes_try_catch; [|intros ?] | apply makes_try_finally
    | apply makes_call
    | assumption
    | case_match ].

Ltac steady_turn :=
  left;
  lazymatch goal with
  | |- inert ?flag ?owns ?m ?s => cut (steady flag owns m); [by intros Hs; apply Hs|]
  end; steady.

(** A handler of one component run inside a larger state. *)
Section Lift.
Context {S1 S2 Req : Type} {Resp : Req -> Type} (get : S2 -> S1) (put : S1 -> S2 -> S2).

Fixpoint lift {A} (m : async S1 Req Resp A) : async S2 Req Resp A :=
  match m with
  | Ret a => Ret a
  | Throw e => Throw e
  | Modify f k => Modify (fun s => put (f (get s)) s) (lift k)
  | Read k => Read (fun s => lift (k (get s)))
  | Await r k => Await r (fun o => lift (k o))
  end.

Hypothesis get_put : forall a s, get (put a s) = a.

(** What is steady in the component is steady in the larger state. *)
Lemma steady_lift {A} (flag1 : S1 -> bool) (flag2 : S2 -> bool) (owns : Req -> bool) (m : async S1 Req Resp A) :
  (forall s, flag2 s = flag1 (get s)) -> steady flag1 owns m -> steady flag2 owns (lift m).
Proof using get_put.
  intros Hf Hm s. specialize (Hm (get s)). revert s Hm.
  induction m as [a|e|f k IH|k IH|r k IH]; intros s; cbn; auto.
  - rewrite !Hf, get_put. intros [Hg Hk]. split; [done|]. apply IH. by rewrite get_put.
  - intros [Ho Hk]. auto.
Qed.

(** A mark outside the component is steady in all of its handlers. *)
Lemma steady_lift_outside {A} (flag : S2 -> bool) (owns : Req -> bool) (m : async S1 Req Resp A) :
  (forall a s, flag (put a s) = flag s) -> (forall r, owns r = false) -> steady flag owns (lift m).
Proof.
  intros Hf Ho s. revert s. induction m as [a|e|f k IH|k IH|r k IH]; intros s; cbn; auto.
Qed.

(** What every write of the component keeps, its handlers keep. *)
Lemma keeps_lift {A} (I : S2 -> Prop) (m : async S1 Req Resp A) :
  (forall a s, I s -> I (put a s)) -> keeps I (lift m).
Proof.
  intros HI s. revert s. induction m as [a|e|f k IH|k IH|r k IH]; intros s Hs; cbn; auto.
Qed.

(** A guarantee of the component is one in the larger state. *)
Lemma guarantees_lift {A} (I : S1 -> Prop) (m : async S1 Req Resp A) (Q : A + thrown -> S1 -> Prop) (s : S2) :
  guarantees I m Q (get s) -> guarantees (fun s => I (get s)) (lift m) (fun o s => Q o (get s)) s.
Proof using get_put.
  revert s. induction m as [a|e|f k IH|k IH|r k IH]; intros s; cbn; auto.
  - intros Hm. apply IH. by rewrite get_put.
  - intros [Hi Hk]. auto.
Qed.

(** The requests of the component are those it makes in the larger state. *)
Lemma makes_lift {A} (I : S1 -> Prop) (P : Req -> Prop) (m : async S1 Req Resp A) :
  makes I P m -> makes (fun s => I (get s)) P (lift m).
Proof using get_put.
  intros Hm s Hs. specialize (Hm (get s) Hs). clear Hs. revert s Hm.
  induction m as [a|e|f k IH|k IH|r k IH]; intros s Hm; cbn in *; auto.
  - apply IH. by rewrite get_put.
  - destruct Hm as (Hr & Hi & Hk). auto.
Qed.
End Lift.

Declare Scope async_scope.
Delimit Scope async_scope with async.
Notation "x <- m ;; k" := (bind m (fun x => k))
  (at level 100, m at next level, right associativity) : async_scope.
Notation "m ;;; k" := (bind m (fun _ => k))
  (at level 100, right associativity) : async_scope.
Notation "'try' m 'catch' h" := (try_catch m h)
  (at level 98, m at level 99, h at level 99) : async_scope.
Notation "'try' m 'finally' f" := (try_finally m f)
  (at level 98, m at level 99, f at level 99) : async_scope.

#[export] Hint Rewrite @run_bind @run_try_catch @run_try_finally : async.
