(* ===== verification/JsNumber.v ===== *)
(** JavaScript numbers: the IEEE-754 double operations the formatting helpers
    perform, computed with the Standard Library's [SpecFloat] at precision 53
    and exponent bound 1024 (round to nearest, ties to even). *)
From S2P Require Import Prelude.
From Stdlib Require Import SpecFloat.

Local Open Scope Z_scope.

Abbreviation number := spec_float.

Definition prec : Z := 53.
Definition emax : Z := 1024.

(** [Number(z)] of a bigint *)
Definition Number (z : Z) : number := binary_normalize prec emax z 0 false.

(** [x / y], [x >= y], [x < y] and [x !== 0] *)
Definition ndiv (x y : number) : number := SFdiv prec emax x y.
Definition nge (x y : number) : bool := SFleb y x.
Definition nonzero (x : number) : bool := negb (SFeqb x (Number 0)).

(** [floor (2^e * m * num / den + 1/2)]: the integer closest to the scaled
    value of a finite double, the larger one of a tie. *)
Definition round_scaled (scale : Z) (x : number) : Z :=
  match x with
  | S754_finite s m e =>
      let m' := (if s then Z.neg m else Z.pos m) * scale in
      if 0 <=? e then m' * 2 ^ e
      else (2 * m' + 2 ^ (- e)) / (2 * 2 ^ (- e))
  | _ => 0
  end.

(** [Math.round(x)] of a finite [x] below 2^53 *)
Definition math_round (x : number) : Z := round_scaled 1 x.

(** The integer [n] of [x.toFixed(1)], whose digits are [n/10] and [n mod 10].
    The language rounds the magnitude, a tie away from zero. *)
Definition tenths (x : number) : Z :=
  match x with
  | S754_finite true m e => - round_scaled 10 (S754_finite false m e)
  | _ => round_scaled 10 x
  end.

(** The decimal text of a number of tenths with one digit after the point. *)
Definition fixed1 (n : Z) : string :=
  (if n <? 0 then "-" else "") +:+ num (Z.abs n / 10) +:+ "." +:+ num (Z.abs n mod 10).

(** [x.toFixed(1)] of a finite [x] below 10^21 *)
Definition toFixed1 (x : number) : string := fixed1 (tenths x).

(** [`${Number(x.toFixed(1))}`]: one digit after the point, none when it is 0 *)
Definition shortest1 (x : number) : string :=
  let n := tenths x in
  if Z.abs n mod 10 =? 0 then num (n / 10) else fixed1 n.
