(* ===== verification/Proto.v ===== *)
(** The messages of the RPC services, as the generated client declares them
    (frontend/src/gen/proto/dmanager/v1/*_pb.ts).  A bigint or number field is
    a [Z], a repeated field a list, a map field an association list in the
    order of its keys, an optional message an [option].  Messages without
    fields are not declared. *)
From S2P Require Import Prelude.

(** [google.protobuf.Timestamp] (a library type): the fields the client reads. *)
Record Timestamp := mkTimestamp { seconds : Z; nanos : Z }.

Record ProtoContainerMsg := mkProtoContainerMsg {
  ProtoContainerMsg_id : string;
  ProtoContainerMsg_name : string;
  ProtoContainerMsg_image : string;
  ProtoContainerMsg_imageId : string;
  ProtoContainerMsg_state : string;
  ProtoContainerMsg_autoUpdate : bool;
  ProtoContainerMsg_updateAvailable : bool;
  ProtoContainerMsg_latestImageDigest : string;
  ProtoContainerMsg_lastCheckedAt : string;
  ProtoContainerMsg_lastUpdatedAt : string
}.

Record ListContainersResponse := mkListContainersResponse {
  ListContainersResponse_containers : list ProtoContainerMsg
}.

Record StartContainerRequest := mkStartContainerRequest {
  StartContainerRequest_id : string
}.

Record StartContainerResponse := mkStartContainerResponse {
  StartContainerResponse_id : string;
  StartContainerResponse_previousState : string;
  StartContainerResponse_currentState : string
}.

Record StopContainerRequest := mkStopContainerRequest {
  StopContainerRequest_id : string
}.

Record StopContainerResponse := mkStopContainerResponse {
  StopContainerResponse_id : string;
  StopContainerResponse_previousState : string;
  StopContainerResponse_currentState : string
}.

Record SetContainerAutoUpdateRequest := mkSetContainerAutoUpdateRequest {
  SetContainerAutoUpdateRequest_id : string;
  SetContainerAutoUpdateRequest_autoUpdate : bool
}.

Record SetContainerAutoUpdateResponse := mkSetContainerAutoUpdateResponse {
  SetContainerAutoUpdateResponse_id : string;
  SetContainerAutoUpdateResponse_autoUpdate : bool
}.

Record CheckContainerUpdatesRequest := mkCheckContainerUpdatesRequest {
  CheckContainerUpdatesRequest_id : string
}.

Record CheckContainerUpdatesResponse := mkCheckContainerUpdatesResponse {
  CheckContainerUpdatesResponse_id : string;
  CheckContainerUpdatesResponse_updateAvailable : bool;
  CheckContainerUpdatesResponse_latestImageDigest : string
}.

Record GetContainerLogsRequest := mkGetContainerLogsRequest {
  GetContainerLogsRequest_id : string;
  GetContainerLogsRequest_tailLines : Z;
  GetContainerLogsRequest_follow : bool
}.

Record GetContainerLogsResponse := mkGetContainerLogsResponse {
  GetContainerLogsResponse_logLine : string;
  GetContainerLogsResponse_timestamp : string;
  GetContainerLogsResponse_streamType : string
}.

Record StreamContainersResponse := mkStreamContainersResponse {
  StreamContainersResponse_action : string;
  StreamContainersResponse_container : option ProtoContainerMsg;
  StreamContainersResponse_containerId : string
}.

Record UpgradeContainerRequest := mkUpgradeContainerRequest {
  UpgradeContainerRequest_id : string
}.

Record UpgradeContainerResponse := mkUpgradeContainerResponse {
  UpgradeContainerResponse_id : string;
  UpgradeContainerResponse_previousImageId : string;
  UpgradeContainerResponse_currentImageId : string
}.

Record GetServerStatusResponse := mkGetServerStatusResponse {
  GetServerStatusResponse_needsSetup : bool;
  GetServerStatusResponse_passkeyLoginEnabled : bool;
  GetServerStatusResponse_rpId : string;
  GetServerStatusResponse_origins : list string;
  GetServerStatusResponse_version : string;
  GetServerStatusResponse_commit : string;
  GetServerStatusResponse_buildDate : string
}.

Record SetupAdminRequest := mkSetupAdminRequest {
  SetupAdminRequest_username : string;
  SetupAdminRequest_password : string
}.

Record SetupAdminResponse := mkSetupAdminResponse {
  SetupAdminResponse_username : string;
  SetupAdminResponse_role : string
}.

Record LoginRequest := mkLoginRequest {
  LoginRequest_username : string;
  LoginRequest_password : string;
  LoginRequest_rememberMe : bool
}.

Record LoginResponse := mkLoginResponse {
  LoginResponse_username : string;
  LoginResponse_role : string
}.

Record GetMeResponse := mkGetMeResponse {
  GetMeResponse_userId : Z;
  GetMeResponse_username : string;
  GetMeResponse_role : string
}.

Record AuthEvent := mkAuthEvent {
  AuthEvent_id : Z;
  AuthEvent_userId : option Z;
  AuthEvent_username : string;
  AuthEvent_eventType : string;
  AuthEvent_detail : string;
  AuthEvent_createdAt : option Timestamp
}.

Record ListAuthEventsRequest := mkListAuthEventsRequest {
  ListAuthEventsRequest_limit : Z;
  ListAuthEventsRequest_offset : Z;
  ListAuthEventsRequest_eventType : string
}.

Record ListAuthEventsResponse := mkListAuthEventsResponse {
  ListAuthEventsResponse_events : list AuthEvent;
  ListAuthEventsResponse_totalCount : Z
}.

Record Session := mkSession {
  Session_sessionId : string;
  Session_userAgent : string;
  Session_deviceLabel : string;
  Session_createdAt : option Timestamp;
  Session_lastSeenAt : option Timestamp;
  Session_expiresAt : option Timestamp;
  Session_absoluteExpiresAt : option Timestamp;
  Session_isCurrent : bool
}.

Record ListSessionsResponse := mkListSessionsResponse {
  ListSessionsResponse_sessions : list Session
}.

Record RevokeSessionRequest := mkRevokeSessionRequest {
  RevokeSessionRequest_sessionId : string
}.

Record RevokeAllOtherSessionsResponse := mkRevokeAllOtherSessionsResponse {
  RevokeAllOtherSessionsResponse_revokedCount : Z
}.

Record BeginPasskeyRegistrationRequest := mkBeginPasskeyRegistrationRequest {
  BeginPasskeyRegistrationRequest_name : string
}.

Record BeginPasskeyRegistrationResponse := mkBeginPasskeyRegistrationResponse {
  BeginPasskeyRegistrationResponse_optionsJson : string
}.

Record FinishPasskeyRegistrationRequest := mkFinishPasskeyRegistrationRequest {
  FinishPasskeyRegistrationRequest_name : string;
  FinishPasskeyRegistrationRequest_responseJson : string
}.

Record Passkey := mkPasskey {
  Passkey_id : string;
  Passkey_name : string;
  Passkey_aaguid : string;
  Passkey_friendlyDeviceName : string;
  Passkey_backupEligible : bool;
  Passkey_backupState : bool;
  Passkey_signCount : Z;
  Passkey_cloneWarning : bool;
  Passkey_createdAt : option Timestamp;
  Passkey_lastUsedAt : option Timestamp
}.

Record FinishPasskeyRegistrationResponse := mkFinishPasskeyRegistrationResponse {
  FinishPasskeyRegistrationResponse_passkey : option Passkey
}.

Record BeginPasskeyLoginResponse := mkBeginPasskeyLoginResponse {
  BeginPasskeyLoginResponse_optionsJson : string
}.

Record FinishPasskeyLoginRequest := mkFinishPasskeyLoginRequest {
  FinishPasskeyLoginRequest_responseJson : string;
  FinishPasskeyLoginRequest_rememberMe : bool
}.

Record ListPasskeysResponse := mkListPasskeysResponse {
  ListPasskeysResponse_passkeys : list Passkey
}.

Record RenamePasskeyRequest := mkRenamePasskeyRequest {
  RenamePasskeyRequest_id : string;
  RenamePasskeyRequest_name : string
}.

Record RenamePasskeyResponse := mkRenamePasskeyResponse {
  RenamePasskeyResponse_passkey : option Passkey
}.

Record DeletePasskeyRequest := mkDeletePasskeyRequest {
  DeletePasskeyRequest_id : string
}.

Record GetSettingsResponse := mkGetSettingsResponse {
  GetSettingsResponse_gotifyUrl : string;
  GetSettingsResponse_gotifyToken : string;
  GetSettingsResponse_auditRetentionDays : Z
}.

Record UpdateSettingsRequest := mkUpdateSettingsRequest {
  UpdateSettingsRequest_gotifyUrl : string;
  UpdateSettingsRequest_gotifyToken : string;
  UpdateSettingsRequest_auditRetentionDays : Z
}.

Record TestGotifyNotificationRequest := mkTestGotifyNotificationRequest {
  TestGotifyNotificationRequest_gotifyUrl : string;
  TestGotifyNotificationRequest_gotifyToken : string
}.

Record TestGotifyNotificationResponse := mkTestGotifyNotificationResponse {
  TestGotifyNotificationResponse_success : bool;
  TestGotifyNotificationResponse_errorMessage : string
}.

Record RegistryStatus := mkRegistryStatus {
  RegistryStatus_host : string;
  RegistryStatus_username : string;
  RegistryStatus_isConfigured : bool;
  RegistryStatus_isHealthy : bool;
  RegistryStatus_errorMessage : string
}.

Record GetRegistryStatusResponse := mkGetRegistryStatusResponse {
  GetRegistryStatusResponse_registries : list RegistryStatus
}.

Record ClientLogEntry := mkClientLogEntry {
  ClientLogEntry_level : string;
  ClientLogEntry_message : string;
  ClientLogEntry_timestamp : string;
  ClientLogEntry_component : string;
  ClientLogEntry_metadata : string
}.

Record SyncLogsRequest := mkSyncLogsRequest {
  SyncLogsRequest_entries : list ClientLogEntry
}.

Record SyncLogsResponse := mkSyncLogsResponse {
  SyncLogsResponse_processedCount : Z
}.

Record LogEntry := mkLogEntry {
  LogEntry_level : string;
  LogEntry_message : string;
  LogEntry_timestamp : string;
  LogEntry_component : string;
  LogEntry_metadata : string
}.

Record GetSystemLogsRequest := mkGetSystemLogsRequest {
  GetSystemLogsRequest_limit : Z;
  GetSystemLogsRequest_levelFilter : string;
  GetSystemLogsRequest_searchQuery : string
}.

Record GetSystemLogsResponse := mkGetSystemLogsResponse {
  GetSystemLogsResponse_entries : list LogEntry
}.

Record Image := mkImage {
  Image_id : string;
  Image_repoTags : list string;
  Image_createdUnix : Z;
  Image_sizeBytes : Z;
  Image_containersCount : Z
}.

Record ListImagesResponse := mkListImagesResponse {
  ListImagesResponse_images : list Image
}.

Record Volume := mkVolume {
  Volume_name : string;
  Volume_driver : string;
  Volume_mountpoint : string;
  Volume_createdAt : option Timestamp;
  Volume_labels : list (string * string)
}.

Record ListVolumesResponse := mkListVolumesResponse {
  ListVolumesResponse_volumes : list Volume
}.

Record Network := mkNetwork {
  Network_id : string;
  Network_name : string;
  Network_driver : string;
  Network_scope : string;
  Network_internal : bool;
  Network_createdAt : option Timestamp;
  Network_containersCount : Z;
  Network_predefined : bool
}.

Record ListNetworksResponse := mkListNetworksResponse {
  ListNetworksResponse_networks : list Network
}.

Record DeleteNetworkRequest := mkDeleteNetworkRequest {
  DeleteNetworkRequest_id : string
}.

Record PruneNetworksResponse := mkPruneNetworksResponse {
  PruneNetworksResponse_networksDeleted : Z;
  PruneNetworksResponse_names : list string
}.

Record DeleteImageRequest := mkDeleteImageRequest {
  DeleteImageRequest_id : string;
  DeleteImageRequest_force : bool
}.

Record PruneImagesRequest := mkPruneImagesRequest {
  PruneImagesRequest_danglingOnly : bool
}.

Record PrunedImage := mkPrunedImage {
  PrunedImage_deleted : string;
  PrunedImage_untagged : string
}.

Record PruneImagesResponse := mkPruneImagesResponse {
  PruneImagesResponse_imagesDeleted : list PrunedImage;
  PruneImagesResponse_spaceReclaimed : Z
}.

Record GetBuildCacheStatsResponse := mkGetBuildCacheStatsResponse {
  GetBuildCacheStatsResponse_totalBytes : Z;
  GetBuildCacheStatsResponse_reclaimableBytes : Z;
  GetBuildCacheStatsResponse_recordCount : Z;
  GetBuildCacheStatsResponse_activeCount : Z
}.

Record PruneBuildCacheRequest := mkPruneBuildCacheRequest {
  PruneBuildCacheRequest_all : bool
}.

Record PruneBuildCacheResponse := mkPruneBuildCacheResponse {
  PruneBuildCacheResponse_cachesDeleted : Z;
  PruneBuildCacheResponse_spaceReclaimed : Z
}.

Record BuildCacheRecord := mkBuildCacheRecord {
  BuildCacheRecord_id : string;
  BuildCacheRecord_type : string;
  BuildCacheRecord_description : string;
  BuildCacheRecord_sizeBytes : Z;
  BuildCacheRecord_inUse : bool;
  BuildCacheRecord_shared : bool;
  BuildCacheRecord_usageCount : Z;
  BuildCacheRecord_createdAt : option Timestamp;
  BuildCacheRecord_lastUsedAt : option Timestamp
}.

Record ListBuildCacheRecordsResponse := mkListBuildCacheRecordsResponse {
  ListBuildCacheRecordsResponse_records : list BuildCacheRecord
}.

Record PruneBuildCacheRecordRequest := mkPruneBuildCacheRecordRequest {
  PruneBuildCacheRecordRequest_id : string
}.

Record PruneBuildCacheRecordResponse := mkPruneBuildCacheRecordResponse {
  PruneBuildCacheRecordResponse_cachesDeleted : Z;
  PruneBuildCacheRecordResponse_spaceReclaimed : Z
}.

Record CheckEngineResponse := mkCheckEngineResponse {
  CheckEngineResponse_connected : bool;
  CheckEngineResponse_apiVersion : string;
  CheckEngineResponse_error : string
}.

Record GetTailscaleStatusResponse := mkGetTailscaleStatusResponse {
  GetTailscaleStatusResponse_enabled : bool;
  GetTailscaleStatusResponse_state : string;
  GetTailscaleStatusResponse_backendState : string;
  GetTailscaleStatusResponse_hostname : string;
  GetTailscaleStatusResponse_dnsName : string;
  GetTailscaleStatusResponse_ips : list string;
  GetTailscaleStatusResponse_port : Z;
  GetTailscaleStatusResponse_httpsEnabled : bool;
  GetTailscaleStatusResponse_certDomains : list string;
  GetTailscaleStatusResponse_keyExpiry : option Timestamp;
  GetTailscaleStatusResponse_error : string
}.

Record VolumeUsage := mkVolumeUsage {
  VolumeUsage_name : string;
  VolumeUsage_sizeBytes : Z;
  VolumeUsage_refCount : Z
}.

Record GetVolumeUsageResponse := mkGetVolumeUsageResponse {
  GetVolumeUsageResponse_volumes : list VolumeUsage;
  GetVolumeUsageResponse_totalSizeBytes : Z;
  GetVolumeUsageResponse_reclaimableBytes : Z;
  GetVolumeUsageResponse_unusedCount : Z
}.

Record PruneVolumesResponse := mkPruneVolumesResponse {
  PruneVolumesResponse_volumesDeleted : Z;
  PruneVolumesResponse_names : list string;
  PruneVolumesResponse_spaceReclaimed : Z
}.

Record AuditLogEntry := mkAuditLogEntry {
  AuditLogEntry_id : Z;
  AuditLogEntry_createdAt : option Timestamp;
  AuditLogEntry_actor : string;
  AuditLogEntry_actorRole : string;
  AuditLogEntry_source : Z;
  AuditLogEntry_action : string;
  AuditLogEntry_resourceType : string;
  AuditLogEntry_resourceId : string;
  AuditLogEntry_outcome : Z;
  AuditLogEntry_detail : string
}.

Record ListAuditLogsRequest := mkListAuditLogsRequest {
  ListAuditLogsRequest_query : string;
  ListAuditLogsRequest_source : Z;
  ListAuditLogsRequest_outcome : Z;
  ListAuditLogsRequest_limit : Z;
  ListAuditLogsRequest_offset : Z
}.

Record ListAuditLogsResponse := mkListAuditLogsResponse {
  ListAuditLogsResponse_entries : list AuditLogEntry;
  ListAuditLogsResponse_total : Z
}.

(** ** Messages without fields *)

Definition ListImagesRequest : Type := unit.
Definition ListVolumesRequest : Type := unit.
Definition ListNetworksRequest : Type := unit.
Definition DeleteNetworkResponse : Type := unit.
Definition PruneNetworksRequest : Type := unit.
Definition DeleteImageResponse : Type := unit.
Definition GetBuildCacheStatsRequest : Type := unit.
Definition ListBuildCacheRecordsRequest : Type := unit.
Definition CheckEngineRequest : Type := unit.
Definition GetTailscaleStatusRequest : Type := unit.
Definition GetVolumeUsageRequest : Type := unit.
Definition PruneVolumesRequest : Type := unit.
Definition GetServerStatusRequest : Type := unit.
Definition LogoutRequest : Type := unit.
Definition LogoutResponse : Type := unit.
Definition GetMeRequest : Type := unit.
Definition ListSessionsRequest : Type := unit.
Definition RevokeSessionResponse : Type := unit.
Definition RevokeAllOtherSessionsRequest : Type := unit.
Definition BeginPasskeyLoginRequest : Type := unit.
Definition ListPasskeysRequest : Type := unit.
Definition DeletePasskeyResponse : Type := unit.
Definition ListContainersRequest : Type := unit.
Definition StreamContainersRequest : Type := unit.
Definition GetSettingsRequest : Type := unit.
Definition UpdateSettingsResponse : Type := unit.
Definition GetRegistryStatusRequest : Type := unit.
