(* ===== verification/Services.v ===== *)
(** The services of the RPC interface, as the generated client declares them
    (frontend/src/gen/proto/dmanager/v1/*_pb.ts), and the clients built on them
    (frontend/src/client.ts).

    A method has the message it takes and the message it returns; [documented] is
    who may call it by the comment the interface gives it.  [endpoint A] is a call
    of a method of which the caller keeps an [A], or a prompt of the browser. *)
From S2P Require Import Prelude Proto.

Inductive MethodKind := unary | server_streaming.

(** Who may call: anyone, any signed-in user, administrators. *)
Inductive audience := Anyone | Authenticated | Administrators.

#[global] Instance audience_eq_dec : EqDecision audience.
Proof. solve_decision. Defined.

Module AdminService.
Inductive method :=
| listImages | listVolumes | getVolumeUsage | listNetworks | deleteImage | pruneImages
| pruneVolumes | deleteNetwork | pruneNetworks | getBuildCacheStats | pruneBuildCache
| listBuildCacheRecords | pruneBuildCacheRecord | checkEngine | getTailscaleStatus
| listAuditLogs.

#[global] Instance method_eq_dec : EqDecision method.
Proof. solve_decision. Defined.

Definition input (m : method) : Type :=
  match m with
  | listImages => ListImagesRequest
  | listVolumes => ListVolumesRequest
  | getVolumeUsage => GetVolumeUsageRequest
  | listNetworks => ListNetworksRequest
  | deleteImage => DeleteImageRequest
  | pruneImages => PruneImagesRequest
  | pruneVolumes => PruneVolumesRequest
  | deleteNetwork => DeleteNetworkRequest
  | pruneNetworks => PruneNetworksRequest
  | getBuildCacheStats => GetBuildCacheStatsRequest
  | pruneBuildCache => PruneBuildCacheRequest
  | listBuildCacheRecords => ListBuildCacheRecordsRequest
  | pruneBuildCacheRecord => PruneBuildCacheRecordRequest
  | checkEngine => CheckEngineRequest
  | getTailscaleStatus => GetTailscaleStatusRequest
  | listAuditLogs => ListAuditLogsRequest
  end.

Definition output (m : method) : Type :=
  match m with
  | listImages => ListImagesResponse
  | listVolumes => ListVolumesResponse
  | getVolumeUsage => GetVolumeUsageResponse
  | listNetworks => ListNetworksResponse
  | deleteImage => DeleteImageResponse
  | pruneImages => PruneImagesResponse
  | pruneVolumes => PruneVolumesResponse
  | deleteNetwork => DeleteNetworkResponse
  | pruneNetworks => PruneNetworksResponse
  | getBuildCacheStats => GetBuildCacheStatsResponse
  | pruneBuildCache => PruneBuildCacheResponse
  | listBuildCacheRecords => ListBuildCacheRecordsResponse
  | pruneBuildCacheRecord => PruneBuildCacheRecordResponse
  | checkEngine => CheckEngineResponse
  | getTailscaleStatus => GetTailscaleStatusResponse
  | listAuditLogs => ListAuditLogsResponse
  end.

Definition methodKind (m : method) : MethodKind := unary.

Definition documented (m : method) : audience :=
  match m with
  | deleteImage | pruneImages | pruneVolumes | deleteNetwork | pruneNetworks | pruneBuildCache
  | pruneBuildCacheRecord | listAuditLogs => Administrators
  | _ => Authenticated
  end.

Definition rpc_name (m : method) : string :=
  match m with
  | listImages => "ListImages"
  | listVolumes => "ListVolumes"
  | getVolumeUsage => "GetVolumeUsage"
  | listNetworks => "ListNetworks"
  | deleteImage => "DeleteImage"
  | pruneImages => "PruneImages"
  | pruneVolumes => "PruneVolumes"
  | deleteNetwork => "DeleteNetwork"
  | pruneNetworks => "PruneNetworks"
  | getBuildCacheStats => "GetBuildCacheStats"
  | pruneBuildCache => "PruneBuildCache"
  | listBuildCacheRecords => "ListBuildCacheRecords"
  | pruneBuildCacheRecord => "PruneBuildCacheRecord"
  | checkEngine => "CheckEngine"
  | getTailscaleStatus => "GetTailscaleStatus"
  | listAuditLogs => "ListAuditLogs"
  end.
End AdminService.

Module AuthService.
Inductive method :=
| getServerStatus | setupAdmin | login | logout | getMe | listAuthEvents | listSessions
| revokeSession | revokeAllOtherSessions | beginPasskeyRegistration | finishPasskeyRegistration
| beginPasskeyLogin | finishPasskeyLogin | listPasskeys | renamePasskey | deletePasskey.

#[global] Instance method_eq_dec : EqDecision method.
Proof. solve_decision. Defined.

Definition input (m : method) : Type :=
  match m with
  | getServerStatus => GetServerStatusRequest
  | setupAdmin => SetupAdminRequest
  | login => LoginRequest
  | logout => LogoutRequest
  | getMe => GetMeRequest
  | listAuthEvents => ListAuthEventsRequest
  | listSessions => ListSessionsRequest
  | revokeSession => RevokeSessionRequest
  | revokeAllOtherSessions => RevokeAllOtherSessionsRequest
  | beginPasskeyRegistration => BeginPasskeyRegistrationRequest
  | finishPasskeyRegistration => FinishPasskeyRegistrationRequest
  | beginPasskeyLogin => BeginPasskeyLoginRequest
  | finishPasskeyLogin => FinishPasskeyLoginRequest
  | listPasskeys => ListPasskeysRequest
  | renamePasskey => RenamePasskeyRequest
  | deletePasskey => DeletePasskeyRequest
  end.

Definition output (m : method) : Type :=
  match m with
  | getServerStatus => GetServerStatusResponse
  | setupAdmin => SetupAdminResponse
  | login => LoginResponse
  | logout => LogoutResponse
  | getMe => GetMeResponse
  | listAuthEvents => ListAuthEventsResponse
  | listSessions => ListSessionsResponse
  | revokeSession => RevokeSessionResponse
  | revokeAllOtherSessions => RevokeAllOtherSessionsResponse
  | beginPasskeyRegistration => BeginPasskeyRegistrationResponse
  | finishPasskeyRegistration => FinishPasskeyRegistrationResponse
  | beginPasskeyLogin => BeginPasskeyLoginResponse
  | finishPasskeyLogin => LoginResponse
  | listPasskeys => ListPasskeysResponse
  | renamePasskey => RenamePasskeyResponse
  | deletePasskey => DeletePasskeyResponse
  end.

Definition methodKind (m : method) : MethodKind := unary.

Definition documented (m : method) : audience :=
  match m with
  | getServerStatus | setupAdmin | login | beginPasskeyLogin | finishPasskeyLogin => Anyone
  | _ => Authenticated
  end.

Definition rpc_name (m : method) : string :=
  match m with
  | getServerStatus => "GetServerStatus"
  | setupAdmin => "SetupAdmin"
  | login => "Login"
  | logout => "Logout"
  | getMe => "GetMe"
  | listAuthEvents => "ListAuthEvents"
  | listSessions => "ListSessions"
  | revokeSession => "RevokeSession"
  | revokeAllOtherSessions => "RevokeAllOtherSessions"
  | beginPasskeyRegistration => "BeginPasskeyRegistration"
  | finishPasskeyRegistration => "FinishPasskeyRegistration"
  | beginPasskeyLogin => "BeginPasskeyLogin"
  | finishPasskeyLogin => "FinishPasskeyLogin"
  | listPasskeys => "ListPasskeys"
  | renamePasskey => "RenamePasskey"
  | deletePasskey => "DeletePasskey"
  end.
End AuthService.

Module ContainerService.
Inductive method :=
| listContainers | startContainer | stopContainer | setContainerAutoUpdate
| checkContainerUpdates | getContainerLogs | streamContainers | upgradeContainer.

#[global] Instance method_eq_dec : EqDecision method.
Proof. solve_decision. Defined.

Definition input (m : method) : Type :=
  match m with
  | listContainers => ListContainersRequest
  | startContainer => StartContainerRequest
  | stopContainer => StopContainerRequest
  | setContainerAutoUpdate => SetContainerAutoUpdateRequest
  | checkContainerUpdates => CheckContainerUpdatesRequest
  | getContainerLogs => GetContainerLogsRequest
  | streamContainers => StreamContainersRequest
  | upgradeContainer => UpgradeContainerRequest
  end.

Definition output (m : method) : Type :=
  match m with
  | listContainers => ListContainersResponse
  | startContainer => StartContainerResponse
  | stopContainer => StopContainerResponse
  | setContainerAutoUpdate => SetContainerAutoUpdateResponse
  | checkContainerUpdates => CheckContainerUpdatesResponse
  | getContainerLogs => GetContainerLogsResponse
  | streamContainers => StreamContainersResponse
  | upgradeContainer => UpgradeContainerResponse
  end.

Definition methodKind (m : method) : MethodKind :=
  match m with getContainerLogs | streamContainers => server_streaming | _ => unary end.

Definition documented (m : method) : audience :=
  match m with
  | startContainer | stopContainer | setContainerAutoUpdate | checkContainerUpdates
  | upgradeContainer => Administrators
  | _ => Authenticated
  end.

Definition rpc_name (m : method) : string :=
  match m with
  | listContainers => "ListContainers"
  | startContainer => "StartContainer"
  | stopContainer => "StopContainer"
  | setContainerAutoUpdate => "SetContainerAutoUpdate"
  | checkContainerUpdates => "CheckContainerUpdates"
  | getContainerLogs => "GetContainerLogs"
  | streamContainers => "StreamContainers"
  | upgradeContainer => "UpgradeContainer"
  end.
End ContainerService.

Module LogService.
Inductive method :=
| syncLogs | getSystemLogs.

#[global] Instance method_eq_dec : EqDecision method.
Proof. solve_decision. Defined.

Definition input (m : method) : Type :=
  match m with
  | syncLogs => SyncLogsRequest
  | getSystemLogs => GetSystemLogsRequest
  end.

Definition output (m : method) : Type :=
  match m with
  | syncLogs => SyncLogsResponse
  | getSystemLogs => GetSystemLogsResponse
  end.

Definition methodKind (m : method) : MethodKind := unary.

Definition documented (m : method) : audience :=
  match m with
  | syncLogs => Anyone
  | _ => Authenticated
  end.

Definition rpc_name (m : method) : string :=
  match m with
  | syncLogs => "SyncLogs"
  | getSystemLogs => "GetSystemLogs"
  end.
End LogService.

Module SettingsService.
Inductive method :=
| getSettings | updateSettings | testGotifyNotification | getRegistryStatus.

#[global] Instance method_eq_dec : EqDecision method.
Proof. solve_decision. Defined.

Definition input (m : method) : Type :=
  match m with
  | getSettings => GetSettingsRequest
  | updateSettings => UpdateSettingsRequest
  | testGotifyNotification => TestGotifyNotificationRequest
  | getRegistryStatus => GetRegistryStatusRequest
  end.

Definition output (m : method) : Type :=
  match m with
  | getSettings => GetSettingsResponse
  | updateSettings => UpdateSettingsResponse
  | testGotifyNotification => TestGotifyNotificationResponse
  | getRegistryStatus => GetRegistryStatusResponse
  end.

Definition methodKind (m : method) : MethodKind := unary.

Definition documented (m : method) : audience :=
  match m with
  | _ => Authenticated
  end.

Definition rpc_name (m : method) : string :=
  match m with
  | getSettings => "GetSettings"
  | updateSettings => "UpdateSettings"
  | testGotifyNotification => "TestGotifyNotification"
  | getRegistryStatus => "GetRegistryStatus"
  end.
End SettingsService.

(** A method of one of the five services. *)
Inductive Method :=
| Admin (m : AdminService.method)
| Auth (m : AuthService.method)
| Container (m : ContainerService.method)
| Log (m : LogService.method)
| Settings (m : SettingsService.method).

#[global] Instance Method_eq_dec : EqDecision Method.
Proof. solve_decision. Defined.

Definition input (m : Method) : Type :=
  match m with
  | Admin m => AdminService.input m | Auth m => AuthService.input m
  | Container m => ContainerService.input m | Log m => LogService.input m
  | Settings m => SettingsService.input m
  end.

Definition output (m : Method) : Type :=
  match m with
  | Admin m => AdminService.output m | Auth m => AuthService.output m
  | Container m => ContainerService.output m | Log m => LogService.output m
  | Settings m => SettingsService.output m
  end.

Definition documented (m : Method) : audience :=
  match m with
  | Admin m => AdminService.documented m | Auth m => AuthService.documented m
  | Container m => ContainerService.documented m | Log m => LogService.documented m
  | Settings m => SettingsService.documented m
  end.

(** The procedure of a method, as the interface names its RPCs. *)
Definition procedure (m : Method) : string :=
  match m with
  | Admin m => "/dmanager.v1.AdminService/" +:+ AdminService.rpc_name m
  | Auth m => "/dmanager.v1.AuthService/" +:+ AuthService.rpc_name m
  | Container m => "/dmanager.v1.ContainerService/" +:+ ContainerService.rpc_name m
  | Log m => "/dmanager.v1.LogService/" +:+ LogService.rpc_name m
  | Settings m => "/dmanager.v1.SettingsService/" +:+ SettingsService.rpc_name m
  end.

(** ** The clients *)

(** [window.location.port], [None] where there is no window. *)
Definition getBaseUrl (port : option string) : string :=
  match port with
  | Some port =>
      if negb (String.eqb port "5173") && negb (String.eqb port "3000") then ""
      else "http://localhost:9283"
  | None => "http://localhost:9283"
  end.

Record Transport := mkTransport { baseUrl : string; useBinaryFormat : bool; credentials : string }.

Definition transport (port : option string) : Transport := mkTransport (getBaseUrl port) true "include".

(** A call a component makes and what it keeps of the answer, or a prompt of the
    browser. *)
Inductive endpoint (A : Type) :=
| Rpc (m : Method) (i : input m) (receive : output m -> A)
| Prompt.
#[global] Arguments Rpc {A} m i receive.
#[global] Arguments Prompt {A}.

(** The requests of a component are endpoints of the interface. *)
Class Wired {Req : Type} (Resp : Req -> Type) := endpoint_of : forall r : Req, endpoint (Resp r).

(** The method a request calls. *)
Definition method_of {Req : Type} {Resp : Req -> Type} {W : Wired Resp} (r : Req) : option Method :=
  match endpoint_of r with Rpc m _ _ => Some m | Prompt => None end.
