(* ===== verification/Access.v ===== *)
(** The server's side of the calls: the access matrix, the check of a session and
    the audit trail of the interceptor every call passes
    (internal/auth/interceptor.go, outside frontend/src).

    The queries of the database are parameters; what the interceptor writes to it
    is the list of its effects, in order.  Times are nanoseconds. *)
From S2P Require Import Prelude Proto Services.

(** ** The access matrix *)

Inductive ProcedureRole := RoleUnauthenticated | RoleViewer | RoleAdmin.

Definition procedureRoles : gmap string ProcedureRole := list_to_map (prod_map procedure id <$>
  [(Auth AuthService.getServerStatus, RoleUnauthenticated);
   (Auth AuthService.setupAdmin, RoleUnauthenticated);
   (Auth AuthService.login, RoleUnauthenticated);
   (Auth AuthService.beginPasskeyLogin, RoleUnauthenticated);
   (Auth AuthService.finishPasskeyLogin, RoleUnauthenticated);
   (Auth AuthService.logout, RoleViewer);
   (Auth AuthService.getMe, RoleViewer);
   (Auth AuthService.listAuthEvents, RoleViewer);
   (Auth AuthService.listSessions, RoleViewer);
   (Auth AuthService.revokeSession, RoleViewer);
   (Auth AuthService.revokeAllOtherSessions, RoleViewer);
   (Auth AuthService.beginPasskeyRegistration, RoleViewer);
   (Auth AuthService.finishPasskeyRegistration, RoleViewer);
   (Auth AuthService.listPasskeys, RoleViewer);
   (Auth AuthService.renamePasskey, RoleViewer);
   (Auth AuthService.deletePasskey, RoleViewer);
   (Container ContainerService.listContainers, RoleViewer);
   (Container ContainerService.getContainerLogs, RoleViewer);
   (Container ContainerService.streamContainers, RoleViewer);
   (Settings SettingsService.getSettings, RoleViewer);
   (Settings SettingsService.getRegistryStatus, RoleViewer);
   (Log LogService.getSystemLogs, RoleViewer);
   (Log LogService.syncLogs, RoleViewer);
   (Admin AdminService.listImages, RoleViewer);
   (Admin AdminService.listVolumes, RoleViewer);
   (Admin AdminService.getVolumeUsage, RoleViewer);
   (Admin AdminService.listNetworks, RoleViewer);
   (Admin AdminService.getBuildCacheStats, RoleViewer);
   (Admin AdminService.listBuildCacheRecords, RoleViewer);
   (Admin AdminService.checkEngine, RoleViewer);
   (Admin AdminService.getTailscaleStatus, RoleViewer);
   (Admin AdminService.deleteImage, RoleAdmin);
   (Container ContainerService.startContainer, RoleAdmin);
   (Admin AdminService.pruneImages, RoleAdmin);
   (Admin AdminService.pruneBuildCache, RoleAdmin);
   (Admin AdminService.pruneBuildCacheRecord, RoleAdmin);
   (Admin AdminService.pruneVolumes, RoleAdmin);
   (Admin AdminService.deleteNetwork, RoleAdmin);
   (Admin AdminService.pruneNetworks, RoleAdmin);
   (Container ContainerService.stopContainer, RoleAdmin);
   (Container ContainerService.upgradeContainer, RoleAdmin);
   (Container ContainerService.setContainerAutoUpdate, RoleAdmin);
   (Container ContainerService.checkContainerUpdates, RoleAdmin);
   (Settings SettingsService.updateSettings, RoleAdmin);
   (Settings SettingsService.testGotifyNotification, RoleAdmin);
   (Admin AdminService.listAuditLogs, RoleAdmin)]).

Definition getProcedureRole (procedure : string) : option ProcedureRole := procedureRoles !! procedure.

(** ** Sessions *)

Record Session := mkSession {
  SessionID : string; UserID : Z; ExpiresAt : Z; AbsoluteExpiresAt : Z
}.
Record User := mkUser { ID : Z; Username : string; Role : string }.

(** The answer of a query for one row. *)
Inductive query (A : Type) := Row (a : A) | NoRows | QueryFailed.
#[global] Arguments Row {A} a.
#[global] Arguments NoRows {A}.
#[global] Arguments QueryFailed {A}.

Record Entry := mkEntry {
  Actor : string; ActorRole : string; Source : string; Action : string; ResourceType : string;
  ResourceID : string; Outcome : string; Detail : string
}.

Inductive effect :=
| DeleteSession (sessionID : string)
| TouchSession (sessionID : string) (expiresAt lastSeenAt : Z)
| Record_ (e : Entry).

(** The codes of Connect errors the interceptor answers with. *)
Definition CodePermissionDenied : Z := 7.
Definition CodeInternal : Z := 13.
Definition CodeUnauthenticated : Z := 16.

(** An error of a handler: a Connect error, or another one with its text. *)
Inductive handler_error := Coded (code : Z) (message : string) | Plain (text : string).

Section Interceptor.
Context (getSession : string -> query Session) (getUser : Z -> query User).
(** [idleTimeout] as [NewInterceptor] leaves it; whether there is an auditor. *)
Context (idleTimeout : Z) (auditor : bool).

(** [authenticate]; [sessionID] is what the cookie holds, empty when there is
    none. *)
Definition authenticate (sessionID : string) (now : Z) : list effect * (User + handler_error) :=
  if String.eqb sessionID "" then ([], inr (Coded CodeUnauthenticated "unauthenticated"))
  else
    match getSession sessionID with
    | NoRows => ([], inr (Coded CodeUnauthenticated "unauthenticated"))
    | QueryFailed => ([], inr (Coded CodeInternal "failed to query session"))
    | Row session =>
        if (AbsoluteExpiresAt session <? now)%Z then
          ([DeleteSession sessionID], inr (Coded CodeUnauthenticated "session expired"))
        else if (ExpiresAt session <? now)%Z then
          ([DeleteSession sessionID], inr (Coded CodeUnauthenticated "session expired"))
        else
          let touched :=
            if (ExpiresAt session + Z.quot (- idleTimeout) 2 <? now)%Z then
              let newIdle := (now + idleTimeout)%Z in
              let newIdle := if (AbsoluteExpiresAt session <? newIdle)%Z then AbsoluteExpiresAt session else newIdle in
              [TouchSession (SessionID session) newIdle now]
            else [] in
          match getUser (UserID session) with
          | NoRows => (touched, inr (Coded CodeUnauthenticated "user not found"))
          | QueryFailed => (touched, inr (Coded CodeInternal "failed to query user"))
          | Row user => (touched, inl user)
          end
    end.

(** ** The audit trail *)

Record auditSpec := mkAuditSpec { action : string; resourceType : string }.

Definition auditSpecs : gmap string auditSpec := list_to_map (prod_map procedure id <$>
  [(Admin AdminService.deleteImage, mkAuditSpec "image.delete" "image");
   (Admin AdminService.pruneImages, mkAuditSpec "image.prune" "image");
   (Admin AdminService.pruneBuildCache, mkAuditSpec "builder.prune" "builder");
   (Admin AdminService.pruneBuildCacheRecord, mkAuditSpec "builder.record_prune" "builder");
   (Admin AdminService.pruneVolumes, mkAuditSpec "volume.prune" "volume");
   (Admin AdminService.deleteNetwork, mkAuditSpec "network.delete" "network");
   (Admin AdminService.pruneNetworks, mkAuditSpec "network.prune" "network");
   (Container ContainerService.startContainer, mkAuditSpec "container.start" "container");
   (Container ContainerService.stopContainer, mkAuditSpec "container.stop" "container");
   (Container ContainerService.setContainerAutoUpdate, mkAuditSpec "container.auto_update_set" "container");
   (Container ContainerService.checkContainerUpdates, mkAuditSpec "container.update_check" "container");
   (Settings SettingsService.updateSettings, mkAuditSpec "settings.update" "settings");
   (Settings SettingsService.testGotifyNotification, mkAuditSpec "settings.gotify_test" "settings")]).

Definition truncateNames (names : list string) : string :=
  if length names <=? 3 then join ", " names
  else join ", " (take 3 names) +:+ ", +" +:+ num (Z.of_nat (length names) - 3) +:+ " more".

(** The resource and the summary of a success. *)
Definition auditSuccessDetail (m : Method) : input m -> output m -> string * string :=
  match m return input m -> output m -> string * string with
  | Admin AdminService.deleteImage => fun req _ =>
      (DeleteImageRequest_id req,
       if DeleteImageRequest_force req then "image deleted (force)" else "image deleted")
  | Admin AdminService.pruneImages => fun _ resp =>
      ("", "pruned " +:+ num (Z.of_nat (length (PruneImagesResponse_imagesDeleted resp))) +:+
           " image(s), reclaimed " +:+ num (PruneImagesResponse_spaceReclaimed resp) +:+ " bytes")
  | Admin AdminService.pruneBuildCache => fun _ resp =>
      ("", "pruned " +:+ num (PruneBuildCacheResponse_cachesDeleted resp) +:+
           " cache record(s), reclaimed " +:+ num (PruneBuildCacheResponse_spaceReclaimed resp) +:+ " bytes")
  | Admin AdminService.pruneBuildCacheRecord => fun req resp =>
      (PruneBuildCacheRecordRequest_id req,
       "pruned " +:+ num (PruneBuildCacheRecordResponse_cachesDeleted resp) +:+ " record(s)")
  | Admin AdminService.pruneVolumes => fun _ resp =>
      ("", "pruned " +:+ num (PruneVolumesResponse_volumesDeleted resp) +:+ " volume(s) (" +:+
           truncateNames (PruneVolumesResponse_names resp) +:+ "), reclaimed " +:+
           num (PruneVolumesResponse_spaceReclaimed resp) +:+ " bytes")
  | Admin AdminService.deleteNetwork => fun req _ => (DeleteNetworkRequest_id req, "network deleted")
  | Admin AdminService.pruneNetworks => fun _ resp =>
      ("", "pruned " +:+ num (PruneNetworksResponse_networksDeleted resp) +:+ " network(s) (" +:+
           truncateNames (PruneNetworksResponse_names resp) +:+ ")")
  | Container ContainerService.startContainer => fun req resp =>
      (StartContainerRequest_id req, "previous state: " +:+ StartContainerResponse_previousState resp)
  | Container ContainerService.stopContainer => fun req resp =>
      (StopContainerRequest_id req, "previous state: " +:+ StopContainerResponse_previousState resp)
  | Container ContainerService.setContainerAutoUpdate => fun req _ =>
      (SetContainerAutoUpdateRequest_id req,
       if SetContainerAutoUpdateRequest_autoUpdate req then "auto-update enabled" else "auto-update disabled")
  | Container ContainerService.checkContainerUpdates => fun req resp =>
      (CheckContainerUpdatesRequest_id req,
       if CheckContainerUpdatesResponse_updateAvailable resp
       then "update available: " +:+ CheckContainerUpdatesResponse_latestImageDigest resp
       else "container up to date")
  | Settings SettingsService.updateSettings => fun _ _ => ("", "settings updated")
  | Settings SettingsService.testGotifyNotification => fun _ _ => ("", "notification test succeeded")
  | _ => fun _ _ => ("", "")
  end%string.

Definition recordDenied (procedure : string) (u : User) : list effect :=
  match auditSpecs !! procedure with
  | Some spec =>
      if auditor then
        [Record_ (mkEntry (Username u) (Role u) "user" (action spec) (resourceType spec) "" "denied"
                    "admin role required")]
      else []
  | None => []
  end.

Definition recordOutcome (m : Method) (req : input m) (result : output m + handler_error) (u : User) :
    list effect :=
  match auditSpecs !! procedure m with
  | Some spec =>
      if auditor then
        match result with
        | inr err =>
            let detail := match err with Coded _ message => message | Plain text => text end in
            [Record_ (mkEntry (Username u) (Role u) "user" (action spec) (resourceType spec) "" "failure" detail)]
        | inl resp =>
            let '(resourceID, detail) := auditSuccessDetail m req resp in
            [Record_ (mkEntry (Username u) (Role u) "user" (action spec) (resourceType spec) resourceID
                        "success" detail)]
        end
      else []
  | None => []
  end.

(** ** The interceptor *)

(** What precedes the handler: the user it is called for, or the refusal. *)
Definition authorize (procedure : string) (sessionID : string) (now : Z) :
    list effect * (option User + handler_error) :=
  match getProcedureRole procedure with
  | None => ([], inr (Coded CodeInternal "procedure is not registered in access control matrix"))
  | Some RoleUnauthenticated =>
      if String.eqb sessionID "" then ([], inl None)
      else match authenticate sessionID now with
           | (effs, inl u) => (effs, inl (Some u))
           | (effs, inr _) => (effs, inl None)
           end
  | Some role =>
      match authenticate sessionID now with
      | (effs, inr err) => (effs, inr err)
      | (effs, inl u) =>
          match role with
          | RoleAdmin =>
              if negb (String.eqb (Role u) "admin") then
                (effs ++ recordDenied procedure u, inr (Coded CodePermissionDenied "admin role required"))
              else (effs, inl (Some u))
          | _ => (effs, inl (Some u))
          end
      end
  end.

Definition WrapUnary (m : Method) (next : option User -> input m -> output m + handler_error)
    (sessionID : string) (now : Z) (req : input m) : list effect * (output m + handler_error) :=
  match authorize (procedure m) sessionID now with
  | (effs, inr err) => (effs, inr err)
  | (effs, inl user) =>
      let result := next user req in
      (effs ++ match user with Some u => recordOutcome m req result u | None => [] end, result)
  end.
End Interceptor.

(** A stream passes the same gate; neither a refusal nor the end of the stream is
    recorded, as if there were no auditor. *)
Definition WrapStreamingHandler (getSession : string -> query Session) (getUser : Z -> query User)
    (idleTimeout : Z) (m : Method) (next : option User -> unit + handler_error) (sessionID : string) (now : Z) :
    list effect * (unit + handler_error) :=
  match authorize getSession getUser idleTimeout false (procedure m) sessionID now with
  | (effs, inr err) => (effs, inr err)
  | (effs, inl user) => (effs, next user)
  end.

#[global] Arguments procedureRoles : simpl never.
#[global] Arguments auditSpecs : simpl never.

(** ** Theorems *)

(** The role the matrix asks for; every method of the interface has one. *)
Definition role (m : Method) : ProcedureRole := default RoleAdmin (getProcedureRole (procedure m)).

Lemma classified (m : Method) : getProcedureRole (procedure m) = Some (role m).
Proof. destruct m as [[]|[]|[]|[]|[]]; vm_compute; reflexivity. Qed.

#[global] Instance ProcedureRole_eq_dec : EqDecision ProcedureRole.
Proof. solve_decision. Defined.

(** The role that stands for an audience of the interface's comments. *)
Definition audience_role (a : audience) : ProcedureRole :=
  match a with Anyone => RoleUnauthenticated | Authenticated => RoleViewer | Administrators => RoleAdmin end.

(** The methods whose comment names another audience than the matrix lets in. *)
Definition misdocumented : list Method :=
  [Log LogService.syncLogs; Settings SettingsService.updateSettings;
   Settings SettingsService.testGotifyNotification].

(** Every method of the interface has a role in the access matrix, so none is
    refused as unclassified, and it is the role of the audience its comment names
    but for three: the log upload, which the comment opens to anyone, and the two
    changes of the settings, which it opens to any signed-in user. *)
Theorem matrix_documented (m : Method) :
  getProcedureRole (procedure m) = Some (role m) /\
  (role m = audience_role (documented m) <-> m ∉ misdocumented).
Proof.
  split; [apply classified|]. apply (bool_decide_unpack (_ <-> _)).
  destruct m as [[]|[]|[]|[]|[]]; vm_compute; exact I.
Qed.

(** The users a call is let through for. *)
Definition permitted (m : Method) (user : option User) : bool :=
  match role m, user with
  | RoleUnauthenticated, _ => true
  | RoleViewer, Some _ => true
  | RoleAdmin, Some u => String.eqb (Role u) "admin"
  | _, None => false
  end.

Definition entries (effs : list effect) : list Entry :=
  omap (fun e => match e with Record_ e => Some e | _ => None end) effs.

#[global] Arguments entries : simpl never.

(** The methods with an entry in the audit table. *)
Definition audited (m : Method) : bool :=
  match auditSpecs !! procedure m with Some _ => true | None => false end.

Lemma audited_spec (m : Method) :
  audited m = bool_decide (role m = RoleAdmin) &&
    negb (bool_decide (m ∈ [Container ContainerService.upgradeContainer; Admin AdminService.listAuditLogs])).
Proof. destruct m as [[]|[]|[]|[]|[]]; vm_compute; reflexivity. Qed.

Section Interceptor.
Context (getSession : string -> query Session) (getUser : Z -> query User).
Context (idleTimeout : Z) (auditor : bool).
Abbreviation authenticate := (authenticate getSession getUser idleTimeout).
Abbreviation authorize := (authorize getSession getUser idleTimeout).
Abbreviation WrapUnary := (WrapUnary getSession getUser idleTimeout).

Lemma authenticate_entries sid now : entries (authenticate sid now).1 = [].
Proof. unfold authenticate. repeat (case_match; simplify_eq/=); done. Qed.

Lemma entries_app l l' : entries (l ++ l') = entries l ++ entries l'.
Proof. apply omap_app. Qed.

Lemma entries_one (e : Entry) : [] ++ entries [Record_ e] = [e].
Proof. reflexivity. Qed.

Ltac one_entry := rewrite entries_one; eexists; split; [reflexivity|]; repeat split.

(** What [authorize] lets through, and for whom. *)
Lemma authorize_permitted (m : Method) sid now user :
  (authorize auditor (procedure m) sid now).2 = inl user ->
  permitted m user = true /\ entries (authorize auditor (procedure m) sid now).1 = [].
Proof.
  unfold Access.authorize, permitted. rewrite classified.
  pose proof (authenticate_entries sid now) as He.
  destruct (role m); [case_match; [by intros [= <-]|]|..];
    destruct (authenticate sid now) as [effs [u|err]]; cbn in *; try by intros [= <-].
  destruct (String.eqb (Role u) "admin") eqn:E; cbn; by intros [= <-].
Qed.

(** A handler runs only for a user its procedure is open to: replacing it by one
    that answers alike for those users changes neither the answer nor anything
    written. *)
Theorem handler_guarded (m : Method) (next next' : option User -> input m -> output m + handler_error)
    (sid : string) (now : Z) (req : input m)
    (H : forall u, permitted m u = true -> next u req = next' u req) :
  WrapUnary auditor m next sid now req = WrapUnary auditor m next' sid now req.
Proof.
  unfold Access.WrapUnary. destruct (authorize auditor (procedure m) sid now) as [effs [user|err]] eqn:E; [|done].
  destruct (authorize_permitted m sid now user) as [Hp _]; [by rewrite E|]. by rewrite (H user Hp).
Qed.

(** C25: Every call of an audited procedure by a signed-in user leaves exactly one
    entry, with the user's name and role and the procedure's action: denied when
    the user is no administrator, and then the handler does not run; otherwise
    success or failure as the handler ended.  Calls of other procedures, and calls
    without a session, leave none. *)
Theorem audited_once (m : Method) (next : option User -> input m -> output m + handler_error)
    (sid : string) (now : Z) (req : input m) :
  let '(effs, result) := WrapUnary true m next sid now req in
  match (authenticate sid now).2, auditSpecs !! procedure m with
  | inl u, Some spec =>
      exists e, entries effs = [e] /\ Actor e = Username u /\ ActorRole e = Role u /\
        Action e = action spec /\ ResourceType e = resourceType spec /\
        (if String.eqb (Role u) "admin"
         then result = next (Some u) req /\
              Outcome e = (if result then "success" else "failure")%string
         else result = inr (Coded CodePermissionDenied "admin role required") /\ Outcome e = "denied"%string)
  | _, _ => entries effs = []
  end.
Proof.
  unfold Access.WrapUnary. pose proof (authenticate_entries sid now) as He.
  pose proof (authorize_permitted m sid now) as Hp. unfold Access.authorize in *. rewrite classified in *.
  pose proof (audited_spec m) as Ha. unfold audited in Ha.
  destruct (auditSpecs !! procedure m) as [spec|] eqn:Es.
  - symmetry in Ha. cbn in Ha. apply andb_true_iff in Ha as [Hr%bool_decide_eq_true _]. rewrite Hr in *.
    destruct (authenticate sid now) as [effs [u|err]]; cbn in *; [|done].
    destruct (String.eqb (Role u) "admin"); cbn.
    + destruct (next (Some u) req) as [resp|err]; unfold recordOutcome; rewrite Es.
      * destruct (auditSuccessDetail m req resp) as [rid d]. rewrite entries_app, He. one_entry.
      * rewrite entries_app, He. one_entry.
    + unfold recordDenied. rewrite Es, entries_app, He. one_entry.
  - assert (forall x, recordOutcome true m req x = fun _ => []) as Ho.
    { intros x. unfold recordOutcome. by rewrite Es. }
    set (r := role m) in *. clearbody r.
    destruct (authenticate sid now) as [effs [u|err]], r; cbn in *;
      try destruct (String.eqb sid ""); try destruct (String.eqb (Role u) "admin"); cbn;
      rewrite ?Ho, ?app_nil_r; try done.
    all: unfold recordDenied; by rewrite Es, app_nil_r.
Qed.

(** A session past either of its limits is refused and deleted.  A call under a
    live session never brings its limit forward, and never past the absolute
    one. *)
Theorem session_slides (sid : string) (now : Z) (session : Session)
    (Hrow : getSession sid = Row session) (Hsid : sid <> ""%string)
    (Hid : SessionID session = sid)
    (Hlimits : (ExpiresAt session <= AbsoluteExpiresAt session)%Z) (Hidle : (0 < idleTimeout)%Z) :
  if (ExpiresAt session <? now)%Z then
    authenticate sid now = ([DeleteSession sid], inr (Coded CodeUnauthenticated "session expired"))
  else
    Forall (fun e => exists exp, e = TouchSession sid exp now /\
              (ExpiresAt session <= exp <= AbsoluteExpiresAt session)%Z) (authenticate sid now).1 /\
    (getUser (UserID session) = NoRows \/ getUser (UserID session) = QueryFailed \/
     exists u, getUser (UserID session) = Row u /\ (authenticate sid now).2 = inl u).
Proof.
  unfold Access.authenticate. rewrite Hrow. apply String.eqb_neq in Hsid. rewrite Hsid.
  destruct (Z.ltb_spec (ExpiresAt session) now).
  - by destruct (Z.ltb_spec (AbsoluteExpiresAt session) now).
  - destruct (Z.ltb_spec (AbsoluteExpiresAt session) now); [lia|]. split.
    + set (touched := if (_ <? now)%Z then _ else _).
      assert (Forall (fun e => exists exp, e = TouchSession sid exp now /\
        (ExpiresAt session <= exp <= AbsoluteExpiresAt session)%Z) touched) as Ht.
      { subst touched. destruct (Z.ltb_spec (ExpiresAt session + Z.quot (- idleTimeout) 2) now); [|constructor].
        repeat constructor. rewrite Hid. eexists. split; [reflexivity|].
        rewrite Z.quot_opp_l, Z.quot_div_nonneg in * by lia.
        pose proof (Z.div_le_upper_bound idleTimeout 2 idleTimeout).
        destruct (Z.ltb_spec (AbsoluteExpiresAt session) (now + idleTimeout)); lia. }
      by destruct (getUser (UserID session)).
    + destruct (getUser (UserID session)); eauto.
Qed.
End Interceptor.

(** A stream runs only for a user it is open to, and is never recorded. *)
Lemma stream_guarded getSession getUser idleTimeout (m : Method)
    (next next' : option User -> unit + handler_error) (sid : string) (now : Z)
    (H : forall u, permitted m u = true -> next u = next' u) :
  WrapStreamingHandler getSession getUser idleTimeout m next sid now =
    WrapStreamingHandler getSession getUser idleTimeout m next' sid now /\
  entries (WrapStreamingHandler getSession getUser idleTimeout m next sid now).1 = [].
Proof.
  unfold WrapStreamingHandler.
  destruct (authorize getSession getUser idleTimeout false (procedure m) sid now) as [effs [user|err]] eqn:E.
  - destruct (authorize_permitted getSession getUser idleTimeout false m sid now user) as [Hp He];
      [by rewrite E|]. rewrite E in He.
    split; [exact (f_equal (pair effs) (H user Hp))|exact He].
  - split; [done|]. revert E. unfold authorize. rewrite classified.
    pose proof (authenticate_entries getSession getUser idleTimeout sid now) as He.
    destruct (role m); [case_match; [done|]|..];
      destruct (authenticate getSession getUser idleTimeout sid now) as [es [u|e]]; cbn in *;
      try done; try (intros [= <- _]; exact He).
    destruct (String.eqb (Role u) "admin"); [done|]. intros [= <- _]. rewrite entries_app, He. cbn.
    unfold recordDenied. by destruct (auditSpecs !! _).
Qed.

(** ** Instances *)

Definition a_session : Session := mkSession "s" 1 1000 5000.
Definition a_user : User := mkUser 1 "u" "viewer".

Lemma handler_guarded_witness :
  let next := fun u (_ : unit) => match u with Some _ => inl (mkPruneVolumesResponse 1 [] 0)
                                  | None => inr (Plain "no") end in
  WrapUnary (fun _ => Row a_session) (fun _ => Row a_user) 100 true (Admin AdminService.pruneVolumes) next "s" 10 tt =
  WrapUnary (fun _ => Row a_session) (fun _ => Row a_user) 100 true (Admin AdminService.pruneVolumes)
    (fun _ _ => inl (mkPruneVolumesResponse 1 [] 0)) "s" 10 tt.
Proof. intros next. apply handler_guarded. intros [u|] Hp; [reflexivity|vm_compute in Hp; discriminate]. Defined.

Lemma session_slides_witness :
  Forall (fun e => exists exp, e = TouchSession "s" exp 960 /\ (1000 <= exp <= 5000)%Z)
    (authenticate (fun _ => Row a_session) (fun _ => Row a_user) 100 "s" 960).1 /\
  authenticate (fun _ => Row a_session) (fun _ => Row a_user) 100 "s" 2000 =
    ([DeleteSession "s"], inr (Coded CodeUnauthenticated "session expired")).
Proof.
  split.
  - apply (session_slides (fun _ => Row a_session) (fun _ => Row a_user) 100 "s" 960 a_session);
      [reflexivity|discriminate|reflexivity|discriminate|reflexivity].
  - apply (session_slides (fun _ => Row a_session) (fun _ => Row a_user) 100 "s" 2000 a_session);
      [reflexivity|discriminate|reflexivity|discriminate|reflexivity].
Defined.
