(* ===== verification/RateLimit.v ===== *)
(** The limit on sign-in attempts (internal/auth/ratelimit.go) and the handlers of
    [Login] and [FinishPasskeyLogin] that keep it (internal/auth/service.go), outside
    frontend/src.

    Times and durations are nanoseconds; a time is counted from 1970, and the zero time
    of the language is before it.  The text of a database error, which the program
    appends to its own, is left out. *)
From S2P Require Import Prelude Proto Services Access.
Local Open Scope Z_scope.

(** ** The limiter *)

Definition second : Z := 1000000000.
Definition minute : Z := 60 * second.

Definition RateLimitWindow : Z := 15 * minute.
Definition RateLimitThreshold : nat := 5.
Definition RateLimitMaxLockout : Z := 15 * minute.
Definition RateLimitBaseLockout : Z := 1 * minute.

Definition zeroTime : Z := - 62135596800 * second.

Record attemptRecord := mkAttemptRecord { failures : list Z; lockedUntil : Z }.

Record RateLimiter := mkRateLimiter {
  userRecords : gmap string attemptRecord;
  ipRecords : gmap string attemptRecord;
  window : Z; threshold : nat; maxLockout : Z; baseLockout : Z
}.

Definition NewRateLimiter : RateLimiter :=
  mkRateLimiter ∅ ∅ RateLimitWindow RateLimitThreshold RateLimitMaxLockout RateLimitBaseLockout.

Definition set_records (users ips : gmap string attemptRecord) (rl : RateLimiter) : RateLimiter :=
  mkRateLimiter users ips (window rl) (threshold rl) (maxLockout rl) (baseLockout rl).

Definition checkKey (records : gmap string attemptRecord) (key : string) (now : Z) : Z :=
  if String.eqb key "" then 0
  else
    match records !! key with
    | None => 0
    | Some rec => if now <? lockedUntil rec then lockedUntil rec - now else 0
    end.

Definition hasRecent (windowStart : Z) (rec : attemptRecord) : bool :=
  existsb (fun t => windowStart <? t) (failures rec).

(** The records the loop of [evictExpired] leaves. *)
Definition evict (now windowStart : Z) (records : gmap string attemptRecord) : gmap string attemptRecord :=
  filter (fun '(_, rec) => (lockedUntil rec <? now) && negb (hasRecent windowStart rec) = false) records.

Definition evictExpired (now : Z) (rl : RateLimiter) : RateLimiter :=
  let windowStart := now - window rl in
  set_records (evict now windowStart (userRecords rl)) (evict now windowStart (ipRecords rl)) rl.

Definition larger (userWait ipWait : Z) : Z := if userWait <? ipWait then ipWait else userWait.

(** [Check], after its eviction and with it. *)
Definition check_keys (username ip : string) (now : Z) (rl : RateLimiter) : bool * Z :=
  let maxWait := larger (checkKey (userRecords rl) username now) (checkKey (ipRecords rl) ip now) in
  if 0 <? maxWait then (true, maxWait) else (false, 0).

Definition Check_ (username ip : string) (now : Z) (rl : RateLimiter) : RateLimiter * (bool * Z) :=
  let rl := evictExpired now rl in (rl, check_keys username ip now rl).

Section Limiter.
(** The language leaves the conversion of a float that no 64-bit integer represents to
    the implementation; the powers of two and their products below it are exact. *)
Context (out_of_range : Z -> Z).

Definition to_Duration (v : Z) : Z :=
  if (- 2 ^ 63 <=? v) && (v <? 2 ^ 63) then v else out_of_range v.

Definition lockout (rl : RateLimiter) (count : nat) : Z :=
  let step := (count - threshold rl)%nat in
  let lockoutDuration := to_Duration (baseLockout rl * 2 ^ Z.of_nat step) in
  if maxLockout rl <? lockoutDuration then maxLockout rl else lockoutDuration.

Definition recordFailureKey (rl : RateLimiter) (records : gmap string attemptRecord) (key : string) (now : Z) :
    gmap string attemptRecord * Z :=
  if String.eqb key "" then (records, 0)
  else
    let rec := default (mkAttemptRecord [] zeroTime) (records !! key) in
    let windowStart := now - window rl in
    let failures := List.filter (fun t => windowStart <? t) (failures rec) ++ [now] in
    let count := length failures in
    if (threshold rl <=? count)%nat then
      let lockoutDuration := lockout rl count in
      (<[key := mkAttemptRecord failures (now + lockoutDuration)]> records, lockoutDuration)
    else (<[key := mkAttemptRecord failures (lockedUntil rec)]> records, 0).

(** [RecordFailure], after its eviction and with it. *)
Definition record_keys (username ip : string) (now : Z) (rl : RateLimiter) : RateLimiter * Z :=
  let '(users, userWait) := recordFailureKey rl (userRecords rl) username now in
  let '(ips, ipWait) := recordFailureKey rl (ipRecords rl) ip now in
  (set_records users ips rl, larger userWait ipWait).

Definition RecordFailure (username ip : string) (now : Z) (rl : RateLimiter) : RateLimiter * Z :=
  record_keys username ip now (evictExpired now rl).

Definition RecordSuccess (username : string) (rl : RateLimiter) : RateLimiter :=
  set_records (delete username (userRecords rl)) (ipRecords rl) rl.

(** *** The lockouts *)

(** The limiter as [NewRateLimiter] configures it. *)
Definition configured (rl : RateLimiter) : Prop :=
  window rl = RateLimitWindow /\ threshold rl = RateLimitThreshold
  /\ maxLockout rl = RateLimitMaxLockout /\ baseLockout rl = RateLimitBaseLockout.

Lemma configured_set (users ips : gmap string attemptRecord) (rl : RateLimiter) :
  configured (set_records users ips rl) <-> configured rl.
Proof. done. Qed.

(** How long the [count]th failure of a window locks a key, in minutes. *)
Definition lockout_minutes (count : nat) : Z :=
  if (count <? 5)%nat then 0 else Z.min (2 ^ (Z.of_nat count - 5)) 15.

Lemma lockout_exact (rl : RateLimiter) (count : nat) :
  configured rl -> (5 <= count <= 32)%nat -> lockout rl count = lockout_minutes count * minute.
Proof.
  intros (_ & Ht & Hm & Hb) Hc. unfold lockout. rewrite Ht, Hm, Hb.
  do 33 (destruct count as [|count]; [first [lia | reflexivity]|]). lia.
Qed.

(** *** Attempts one after another *)

(** The states of a limiter when an attempt begins after the one before it has ended:
    it is checked at [t1] and, unless it was locked out, fails at [t2] or succeeds.
    Sign-ins by password are such attempts ([Login_sequential]). *)
Inductive sequential : RateLimiter -> Z -> Prop :=
| sequential_new t : 0 <= t -> sequential NewRateLimiter t
| sequential_locked rl t t1 u ip : sequential rl t -> t <= t1 -> sequential (Check_ u ip t1 rl).1 t1
| sequential_failed rl t t1 t2 u ip :
    sequential rl t -> t <= t1 -> t1 <= t2 -> (Check_ u ip t1 rl).2.1 = false ->
    sequential (RecordFailure u ip t2 (Check_ u ip t1 rl).1).1 t2
| sequential_succeeded rl t t1 u ip :
    sequential rl t -> t <= t1 -> sequential (RecordSuccess u (Check_ u ip t1 rl).1) t1.

(** What holds of a record: nine failures in its window at most, and after the ninth it
    stays locked until they have all left the window. *)
Definition record_ok (now : Z) (rec : attemptRecord) : Prop :=
  exists tl, 0 <= tl <= now /\ Forall (fun t => t <= tl) (failures rec)
    /\ (length (failures rec) <= 9)%nat /\ lockedUntil rec <= tl + RateLimitMaxLockout
    /\ ((9 <= length (failures rec))%nat -> tl + RateLimitWindow <= lockedUntil rec).

Definition limiter_ok (now : Z) (rl : RateLimiter) : Prop :=
  configured rl /\ map_Forall (fun _ => record_ok now) (userRecords rl)
  /\ map_Forall (fun _ => record_ok now) (ipRecords rl).

Lemma record_ok_later (now now' : Z) (rec : attemptRecord) : now <= now' -> record_ok now rec -> record_ok now' rec.
Proof. intros Hn (tl & Ht & H). exists tl. split; [lia|done]. Qed.

Lemma records_later (now now' : Z) (m : gmap string attemptRecord) :
  now <= now' -> map_Forall (fun _ => record_ok now) m -> map_Forall (fun _ => record_ok now') m.
Proof. intros Hn H k rec Hk. eapply record_ok_later; [done|]. by eapply H. Qed.

Lemma evict_ok (P : string -> attemptRecord -> Prop) (now ws : Z) (m : gmap string attemptRecord) :
  map_Forall P m -> map_Forall P (evict now ws m).
Proof. intros H k rec [Hk _]%map_lookup_filter_Some. by apply H. Qed.

Lemma checked_ok (u ip : string) (now t : Z) (rl : RateLimiter) :
  t <= now -> limiter_ok t rl -> limiter_ok now (Check_ u ip now rl).1.
Proof.
  intros Ht (Hc & Hu & Hi). split; [done|].
  split; (eapply records_later; [exact Ht|]); simpl; by apply evict_ok.
Qed.

Lemma filter_length {A} (f : A -> bool) (l : list A) : (length (List.filter f l) <= length l)%nat.
Proof. induction l as [|x l IH]; simpl; [lia|]. destruct (f x); simpl; lia. Qed.

Lemma filter_le (f : Z -> bool) (b : Z) (l : list Z) :
  Forall (fun t => t <= b) l -> Forall (fun t => t <= b) (List.filter f l).
Proof. rewrite !List.Forall_forall. intros H x [Hx _]%List.filter_In. by apply H. Qed.

(** What is left of the window of an unlocked record takes one more failure. *)
Lemma unlocked_room (now t1 t2 : Z) (rec : attemptRecord) :
  record_ok now rec -> now <= t2 -> t1 <= t2 -> lockedUntil rec <= t1 ->
  (length (List.filter (fun t => (t2 - RateLimitWindow <? t)%Z) (failures rec)) <= 8)%nat.
Proof.
  intros (tl & Ht & Hf & H9 & _ & Hl) Hn Ht2 Hu.
  destruct (decide (9 <= length (failures rec))%nat) as [H|H].
  - specialize (Hl H). assert (List.filter (fun t => t2 - RateLimitWindow <? t) (failures rec) = []) as ->; [|simpl; lia].
    apply List.incl_l_nil. intros x [Hx Hw]%List.filter_In. rewrite List.Forall_forall in Hf.
    specialize (Hf x Hx). apply Z.ltb_lt in Hw. lia.
  - pose proof (filter_length (fun t => t2 - RateLimitWindow <? t) (failures rec)). lia.
Qed.

Lemma lockout_bound (rl : RateLimiter) (count : nat) :
  configured rl -> (5 <= count <= 9)%nat ->
  0 < lockout rl count <= RateLimitMaxLockout /\ (count = 9%nat -> lockout rl count = RateLimitMaxLockout).
Proof.
  intros Hc Hn. rewrite lockout_exact by (done || lia).
  do 10 (destruct count as [|count]; [first [lia | by vm_compute; split_and!; try done; intros]|]). lia.
Qed.

(** A key that is not locked takes a failure. *)
Lemma recordFailureKey_ok (rl : RateLimiter) (m : gmap string attemptRecord) (key : string) (t1 t2 : Z) :
  configured rl -> 0 <= t1 <= t2 -> map_Forall (fun _ => record_ok t1) m -> checkKey m key t1 <= 0 ->
  map_Forall (fun _ => record_ok t2) (recordFailureKey rl m key t2).1.
Proof.
  intros Hc Ht Hm Hk. unfold recordFailureKey, checkKey in *.
  destruct (String.eqb key ""); [by eapply records_later; [|exact Hm]; lia|].
  set (rec := default _ _).
  assert (Hrec : record_ok t1 rec /\ lockedUntil rec <= t1).
  { subst rec. destruct (m !! key) as [rec|] eqn:E; simpl.
    - split; [by eapply Hm|]. destruct (Z.ltb_spec t1 (lockedUntil rec)); lia.
    - split; [|unfold zeroTime, second; lia]. exists t1. simpl. repeat split; try lia; [constructor|].
      unfold zeroTime, second, RateLimitMaxLockout, minute, second. lia. }
  destruct Hrec as [Hrec Hu]. pose proof (unlocked_room t1 t1 t2 rec Hrec ltac:(lia) ltac:(lia) Hu) as Hroom.
  assert (Hw : window rl = RateLimitWindow) by apply Hc. assert (Hth : threshold rl = 5%nat) by apply Hc.
  rewrite Hw, Hth. destruct Hrec as (tl & Htl & Hf & _ & Hlu & _).
  set (fs := List.filter _ _ ++ [t2]) in *.
  assert (Hfs : Forall (fun t => t <= t2) fs).
  { apply Forall_app. split; [|by repeat constructor; lia]. eapply Forall_impl; [by apply filter_le|]. simpl. lia. }
  assert (Hlen : (length fs <= 9)%nat) by (unfold fs; rewrite length_app; simpl; lia).
  assert (Hlater : map_Forall (fun _ => record_ok t2) m) by (eapply records_later; [|exact Hm]; lia).
  destruct (Nat.leb_spec 5 (length fs)) as [H5|H5]; simpl; apply map_Forall_insert_2; try done.
  - destruct (lockout_bound rl (length fs) Hc ltac:(lia)) as [Hb H9]. exists t2; simpl.
    repeat split; try lia; try done. intros Hn. rewrite H9 by lia. unfold RateLimitWindow, RateLimitMaxLockout. lia.
  - exists t2; simpl. repeat split; try lia; done.
Qed.

Lemma larger_max (a b : Z) : larger a b = Z.max a b.
Proof. unfold larger. destruct (Z.ltb_spec a b); lia. Qed.

Lemma larger_not_locked (a b : Z) : (0 <? larger a b) = false -> a <= 0 /\ b <= 0.
Proof. unfold larger. destruct (Z.ltb_spec a b), (Z.ltb_spec 0 b), (Z.ltb_spec 0 a); intros; lia. Qed.

Lemma evict_unlocked (now ws t : Z) (m : gmap string attemptRecord) (key : string) :
  checkKey m key t <= 0 -> checkKey (evict now ws m) key t <= 0.
Proof.
  unfold checkKey. destruct (String.eqb key ""); [done|].
  destruct (evict now ws m !! key) as [rec|] eqn:E; [|done].
  apply map_lookup_filter_Some in E as [-> _]. done.
Qed.

(** An attempt that was let through and fails keeps the invariant. *)
Lemma failed_ok (u ip : string) (t1 t2 : Z) (rl : RateLimiter) :
  0 <= t1 <= t2 -> limiter_ok t1 rl -> (check_keys u ip t1 rl).1 = false ->
  limiter_ok t2 (RecordFailure u ip t2 rl).1.
Proof.
  intros Ht (Hc & Hu & Hi) Hn.
  assert (Hk : checkKey (userRecords rl) u t1 <= 0 /\ checkKey (ipRecords rl) ip t1 <= 0).
  { unfold check_keys in Hn. apply larger_not_locked. by destruct (0 <? _). }
  destruct Hk as [Hku Hki]. unfold RecordFailure, record_keys, evictExpired. simpl.
  set (rl' := set_records _ _ rl).
  assert (Hc' : configured rl') by done.
  pose proof (recordFailureKey_ok rl' (evict t2 (t2 - window rl) (userRecords rl)) u t1 t2 Hc' Ht
    (evict_ok _ _ _ _ Hu) (evict_unlocked _ _ _ _ _ Hku)) as Hu'.
  pose proof (recordFailureKey_ok rl' (evict t2 (t2 - window rl) (ipRecords rl)) ip t1 t2 Hc' Ht
    (evict_ok _ _ _ _ Hi) (evict_unlocked _ _ _ _ _ Hki)) as Hi'.
  destruct (recordFailureKey rl' (evict t2 _ (userRecords rl)) u t2), (recordFailureKey rl' (evict t2 _ (ipRecords rl)) ip t2).
  done.
Qed.

Lemma succeeded_ok (u : string) (t : Z) (rl : RateLimiter) : limiter_ok t rl -> limiter_ok t (RecordSuccess u rl).
Proof. intros (Hc & Hu & Hi). split; [done|]. split; [|done]. simpl. by apply map_Forall_delete. Qed.

Lemma sequential_ok (rl : RateLimiter) (now : Z) : sequential rl now -> 0 <= now /\ limiter_ok now rl.
Proof.
  induction 1 as [t Ht|rl t t1 u ip Hs [H0 IH] Ht|rl t t1 t2 u ip Hs [H0 IH] Ht1 Ht2 Hn|rl t t1 u ip Hs [H0 IH] Ht].
  - split; [done|]. split; [done|]. split; apply map_Forall_empty.
  - split; [lia|]. by eapply checked_ok.
  - split; [lia|]. apply (failed_ok u ip t1 t2); [lia|by eapply checked_ok|]. exact Hn.
  - split; [lia|]. apply succeeded_ok. by eapply checked_ok.
Qed.

(** *** Eviction changes no answer *)

(** What of a record matters from [now] on: the failures of the window, and the time it
    is locked until, if that is still to come. *)
Definition seen (w now : Z) (o : option attemptRecord) : list Z * Z :=
  match o with
  | None => ([], now)
  | Some rec => (List.filter (fun t => now - w <? t) (failures rec), Z.max (lockedUntil rec) now)
  end.

Definition same_from (w now : Z) (m m' : gmap string attemptRecord) : Prop :=
  forall k, seen w now (m !! k) = seen w now (m' !! k).

#[local] Instance same_from_equiv (w now : Z) : Equivalence (same_from w now).
Proof. split; [by intros m k|by intros m m' H k|intros m m' m'' H H' k; by rewrite (H k)]. Qed.

Lemma filter_filter_later (a b : Z) (l : list Z) :
  a <= b -> List.filter (fun t => b <? t) (List.filter (fun t => a <? t) l) = List.filter (fun t => b <? t) l.
Proof.
  intros H. induction l as [|x l IH]; simpl; [done|].
  destruct (Z.ltb_spec a x), (Z.ltb_spec b x); simpl; rewrite ?IH; try lia; try done;
    [rewrite (proj2 (Z.ltb_lt _ _)) | rewrite (proj2 (Z.ltb_ge _ _))]; rewrite ?IH; done || lia.
Qed.

Lemma seen_later (w now now' : Z) (o : option attemptRecord) :
  now <= now' -> seen w now' o =
    (List.filter (fun t => now' - w <? t) (seen w now o).1, Z.max (seen w now o).2 now').
Proof.
  intros H. destruct o as [rec|]; simpl; [|f_equal; lia]. rewrite filter_filter_later by lia. f_equal. lia.
Qed.

Lemma same_from_later (w now now' : Z) (m m' : gmap string attemptRecord) :
  now <= now' -> same_from w now m m' -> same_from w now' m m'.
Proof. intros Hn H k. rewrite !(seen_later w now now') by done. by rewrite (H k). Qed.

Lemma no_recent (ws : Z) (rec : attemptRecord) :
  hasRecent ws rec = false <-> List.filter (fun t => ws <? t) (failures rec) = [].
Proof.
  unfold hasRecent. induction (failures rec) as [|x l IH]; simpl; [done|].
  by destruct (ws <? x); simpl.
Qed.

Lemma evict_same (w now : Z) (m : gmap string attemptRecord) : same_from w now (evict now (now - w) m) m.
Proof.
  intros k. unfold evict. rewrite map_lookup_filter. destruct (m !! k) as [rec|]; [|done]. simpl.
  case_guard as H; simpl; [done|]. apply not_false_iff_true, andb_true_iff in H as [Hl Hr].
  apply negb_true_iff, no_recent in Hr. rewrite Hr. apply Z.ltb_lt in Hl. f_equal. lia.
Qed.

Lemma checkKey_seen (w now : Z) (m : gmap string attemptRecord) (k : string) :
  checkKey m k now = if String.eqb k "" then 0 else (seen w now (m !! k)).2 - now.
Proof.
  unfold checkKey. destruct (String.eqb k ""); [done|]. destruct (m !! k) as [r|]; simpl; [|lia].
  destruct (Z.ltb_spec now (lockedUntil r)); lia.
Qed.

#[local] Instance checkKey_proper (w now : Z) :
  Proper (same_from w now ==> eq ==> eq) (fun m k => checkKey m k now).
Proof. intros m m' H k ? <-. rewrite !(checkKey_seen w). by rewrite (H k). Qed.

Lemma insert_same (w now : Z) (k : string) (r r' : attemptRecord) (m m' : gmap string attemptRecord) :
  seen w now (Some r) = seen w now (Some r') -> same_from w now m m' ->
  same_from w now (<[k := r]> m) (<[k := r']> m').
Proof.
  intros Hr H j. destruct (decide (j = k)) as [->|Hj]; [by rewrite !lookup_insert_eq|].
  by rewrite !lookup_insert_ne by done.
Qed.

(** Two limiters that differ in what does not matter any more. *)
Definition same_limiter (now : Z) (rl rl' : RateLimiter) : Prop :=
  (window rl, threshold rl, maxLockout rl, baseLockout rl)
  = (window rl', threshold rl', maxLockout rl', baseLockout rl')
  /\ same_from (window rl) now (userRecords rl) (userRecords rl')
  /\ same_from (window rl) now (ipRecords rl) (ipRecords rl').

Lemma seen_default (w now : Z) (o : option attemptRecord) :
  0 <= now -> seen w now (Some (default (mkAttemptRecord [] zeroTime) o)) = seen w now o.
Proof. intros H. destruct o as [r|]; simpl; [done|]. f_equal. unfold zeroTime, second. lia. Qed.

Lemma recordFailureKey_same (rl rl' : RateLimiter) (m m' : gmap string attemptRecord) (k : string) (now : Z) :
  0 <= now ->
  (window rl, threshold rl, maxLockout rl, baseLockout rl)
  = (window rl', threshold rl', maxLockout rl', baseLockout rl') ->
  same_from (window rl) now m m' ->
  same_from (window rl) now (recordFailureKey rl m k now).1 (recordFailureKey rl' m' k now).1
  /\ (recordFailureKey rl m k now).2 = (recordFailureKey rl' m' k now).2.
Proof.
  intros Hnow Hcfg H. unfold recordFailureKey, lockout. injection Hcfg as <- <- <- <-.
  destruct (String.eqb k ""); [done|]. specialize (H k) as Hk.
  set (rec := default _ (m !! k)). set (rec' := default _ (m' !! k)).
  assert (E : seen (window rl) now (Some rec) = seen (window rl) now (Some rec')).
  { subst rec rec'. by rewrite !seen_default. }
  simpl in E. injection E as Ef El. rewrite <- Ef.
  destruct (threshold rl <=? _)%nat; simpl; (split; [|done]); apply insert_same; try done.
  simpl. by rewrite El.
Qed.

Lemma evicted_same (now : Z) (rl : RateLimiter) : same_limiter now (evictExpired now rl) rl.
Proof. split; [done|]. split; apply evict_same. Qed.

Lemma same_limiter_later (now now' : Z) (rl rl' : RateLimiter) :
  now <= now' -> same_limiter now rl rl' -> same_limiter now' rl rl'.
Proof. intros H (Hc & Hu & Hi). split; [done|]. split; by eapply same_from_later. Qed.

Lemma same_limiter_trans (now : Z) (a b c : RateLimiter) :
  same_limiter now a b -> same_limiter now b c -> same_limiter now a c.
Proof.
  intros (Hc & Hu & Hi) (Hc' & Hu' & Hi'). split; [congruence|].
  assert (window a = window b) as Ew by congruence. rewrite <- Ew in *.
  split; [by rewrite Hu|by rewrite Hi].
Qed.

(** The calls of the limiter, and what each answers: of a check, whether the caller is
    locked out and for how long, of a failure, the lockout it led to. *)
Inductive call := CallCheck (username ip : string) | CallFailure (username ip : string) | CallSuccess (username : string).

Definition perform (c : call) (now : Z) (rl : RateLimiter) : RateLimiter * (bool * Z) :=
  match c with
  | CallCheck u ip => Check_ u ip now rl
  | CallFailure u ip => let '(rl, d) := RecordFailure u ip now rl in (rl, (false, d))
  | CallSuccess u => (RecordSuccess u rl, (false, 0))
  end.

(** The same calls of a limiter that never evicts. *)
Definition perform_keeping (c : call) (now : Z) (rl : RateLimiter) : RateLimiter * (bool * Z) :=
  match c with
  | CallCheck u ip => (rl, check_keys u ip now rl)
  | CallFailure u ip => let '(rl, d) := record_keys u ip now rl in (rl, (false, d))
  | CallSuccess u => (RecordSuccess u rl, (false, 0))
  end.

Fixpoint answers (step : call -> Z -> RateLimiter -> RateLimiter * (bool * Z)) (l : list (call * Z)) (rl : RateLimiter) :
    list (bool * Z) :=
  match l with [] => [] | (c, now) :: l => let '(rl, a) := step c now rl in a :: answers step l rl end.

Lemma check_keys_same (u ip : string) (now : Z) (rl rl' : RateLimiter) :
  same_limiter now rl rl' -> check_keys u ip now rl = check_keys u ip now rl'.
Proof.
  intros (_ & Hu & Hi). unfold check_keys. rewrite !(checkKey_seen (window rl)). by rewrite (Hu u), (Hi ip).
Qed.

Lemma record_keys_same (u ip : string) (now : Z) (rl rl' : RateLimiter) :
  0 <= now -> same_limiter now rl rl' ->
  same_limiter now (record_keys u ip now rl).1 (record_keys u ip now rl').1
  /\ (record_keys u ip now rl).2 = (record_keys u ip now rl').2.
Proof.
  intros Hn (Hc & Hu & Hi). unfold record_keys.
  destruct (recordFailureKey_same rl rl' _ _ u now Hn Hc Hu) as [H1 E1].
  destruct (recordFailureKey_same rl rl' _ _ ip now Hn Hc Hi) as [H2 E2].
  destruct (recordFailureKey rl _ u now), (recordFailureKey rl' _ u now), (recordFailureKey rl _ ip now),
    (recordFailureKey rl' _ ip now); simpl in *. subst. done.
Qed.

Lemma delete_same (w now : Z) (k : string) (m m' : gmap string attemptRecord) :
  same_from w now m m' -> same_from w now (delete k m) (delete k m').
Proof.
  intros H j. destruct (decide (j = k)) as [->|Hj]; [by rewrite !lookup_delete_eq|].
  by rewrite !lookup_delete_ne by done.
Qed.

Lemma perform_same (c : call) (now : Z) (rl rl' : RateLimiter) :
  0 <= now -> same_limiter now rl rl' ->
  same_limiter now (perform c now rl).1 (perform_keeping c now rl').1
  /\ (perform c now rl).2 = (perform_keeping c now rl').2.
Proof.
  intros Hn H. assert (He : same_limiter now (evictExpired now rl) rl').
  { by eapply same_limiter_trans; [apply evicted_same|]. }
  destruct c as [u ip|u ip|u]; simpl.
  - split; [done|]. by apply check_keys_same.
  - unfold RecordFailure. destruct (record_keys_same u ip now _ _ Hn He) as [H1 E1].
    destruct (record_keys u ip now (evictExpired now rl)), (record_keys u ip now rl'); simpl in *. by subst.
  - destruct H as (Hc & Hu & Hi). split; [|done]. split; [done|]. split; [|done]. by apply delete_same.
Qed.

(** C28: forgetting the records that have expired changes nothing: however the limiter is
    called, at times that do not go back, it gives the answers of one that never
    forgets. *)
Theorem eviction_invisible (l : list (call * Z)) (Hl : StronglySorted Z.le l.*2) (H0 : Forall (Z.le 0) l.*2) :
  answers perform l NewRateLimiter = answers perform_keeping l NewRateLimiter.
Proof.
  enough (H : forall rl rl' t, Forall (Z.le t) l.*2 -> same_limiter t rl rl' ->
            answers perform l rl = answers perform_keeping l rl').
  { apply (H _ _ 0 H0). done. }
  revert Hl H0. induction l as [|[c now] l IH]; intros Hl H0 rl rl' t Ht H; cbn [answers]; [done|].
  simpl in *. inversion Hl as [|? ? Hl' Hnow]; subst. rewrite Forall_cons in H0, Ht.
  destruct (perform_same c now rl rl') as [H1 E1]; [lia|by eapply same_limiter_later; [|exact H]; lia|].
  destruct (perform c now rl) as [rl1 a1], (perform_keeping c now rl') as [rl2 a2]; simpl in *. subst.
  f_equal. eapply (IH Hl' (proj2 H0)); [|exact H1]. exact Hnow.
Qed.
End Limiter.

Lemma eviction_invisible_witness :
  let l := [(CallFailure "admin" "10.0.0.1", 0); (CallCheck "admin" "10.0.0.1", 20 * minute);
            (CallFailure "admin" "10.0.0.1", 20 * minute)] in
  answers (perform (fun v => v)) l NewRateLimiter = answers (perform_keeping (fun v => v)) l NewRateLimiter
  /\ userRecords (Check_ "admin" "10.0.0.1" (20 * minute) (RecordFailure (fun v => v) "admin" "10.0.0.1" 0 NewRateLimiter).1).1 = ∅.
Proof.
  intros l. split; [|vm_compute; reflexivity]. apply (eviction_invisible (fun v => v) l).
  - repeat constructor; vm_compute; discriminate.
  - repeat constructor; vm_compute; discriminate.
Defined.

(** *** What a failure does *)

Section Lockouts.
Context (out_of_range : Z -> Z).

(** The failures of a key in the window of [now], that one included, and the time it is
    locked until from then on. *)
Definition failures_at (m : gmap string attemptRecord) (key : string) (now : Z) : nat :=
  S (length (seen RateLimitWindow now (m !! key)).1).

Definition locked_from (m : gmap string attemptRecord) (key : string) (now : Z) : Z :=
  if String.eqb key "" then now
  else if (5 <=? failures_at m key now)%nat then now + lockout_minutes (failures_at m key now) * minute
  else (seen RateLimitWindow now (m !! key)).2.

Lemma recordFailureKey_locks (rl : RateLimiter) (m : gmap string attemptRecord) (key : string) (now now' : Z) :
  configured rl -> 0 <= now <= now' -> (failures_at m key now <= 32)%nat ->
  checkKey (recordFailureKey out_of_range rl m key now).1 key now' = Z.max 0 (locked_from m key now - now').
Proof.
  intros Hc Hn H32. unfold recordFailureKey, checkKey, locked_from.
  destruct (String.eqb key ""); [lia|].
  set (rec := default _ _). assert (Hw : window rl = RateLimitWindow) by apply Hc.
  assert (Ht : threshold rl = 5%nat) by apply Hc. rewrite Hw, Ht.
  pose proof (seen_default RateLimitWindow now (m !! key) ltac:(lia)) as Es. fold rec in Es. simpl in Es.
  assert (El : length (List.filter (fun t => now - RateLimitWindow <? t) (failures rec) ++ [now]) = failures_at m key now).
  { unfold failures_at. rewrite <- Es, length_app. simpl. lia. }
  rewrite El. destruct (Nat.leb_spec 5 (failures_at m key now)); simpl; rewrite lookup_insert_eq; simpl.
  - rewrite lockout_exact by (done || lia). destruct (Z.ltb_spec now' (now + lockout_minutes (failures_at m key now) * minute)); lia.
  - rewrite <- Es; simpl. destruct (Z.ltb_spec now' (lockedUntil rec)); lia.
Qed.
End Lockouts.

(** C29: the backoff is the documented one: after a failure, a caller is locked out until
    the later of the deadlines of the user name and of the address, and no longer; the
    fifth to the eighth failure of a window of fifteen minutes lock a key for 1, 2, 4
    and 8 minutes, those after for 15, and fewer failures leave the deadline it had
    (the conversion of the language is exact up to 32 failures). *)
Theorem failure_locks (out_of_range : Z -> Z) (rl : RateLimiter) (Hc : configured rl)
    (username ip : string) (now now' : Z) (Hn : 0 <= now <= now')
    (Hu : (failures_at (userRecords rl) username now <= 32)%nat)
    (Hi : (failures_at (ipRecords rl) ip now <= 32)%nat) :
  let deadline := Z.max (locked_from (userRecords rl) username now) (locked_from (ipRecords rl) ip now) in
  (Check_ username ip now' (RecordFailure out_of_range username ip now rl).1).2
  = if now' <? deadline then (true, deadline - now') else (false, 0).
Proof.
  intros deadline. unfold Check_; simpl.
  rewrite (check_keys_same username ip now' _ _ (evicted_same now' _)).
  destruct (record_keys_same out_of_range username ip now _ _ (proj1 Hn) (evicted_same now rl)) as [Hs _].
  unfold RecordFailure.
  rewrite (check_keys_same username ip now' _ _ (same_limiter_later _ _ _ _ (proj2 Hn) Hs)).
  unfold record_keys, check_keys.
  pose proof (recordFailureKey_locks out_of_range rl (userRecords rl) username now now' Hc Hn Hu) as E1.
  pose proof (recordFailureKey_locks out_of_range rl (ipRecords rl) ip now now' Hc Hn Hi) as E2.
  destruct (recordFailureKey _ rl (userRecords rl) username now), (recordFailureKey _ rl (ipRecords rl) ip now).
  simpl in *. rewrite E1, E2.
  rewrite larger_max. subst deadline.
  repeat match goal with |- context [?a <? ?b] => destruct (Z.ltb_spec a b) end; try lia; try done; f_equal; lia.
Qed.

(** A limiter after [n] failures of one caller at one time. *)
Fixpoint failed_times (out_of_range : Z -> Z) (n : nat) (rl : RateLimiter) : RateLimiter :=
  match n with O => rl | S n => (RecordFailure out_of_range "admin" "10.0.0.1" 0 (failed_times out_of_range n rl)).1 end.

Lemma failure_locks_witness :
  (Check_ "admin" "10.0.0.1" 0
    (RecordFailure (fun v => v) "admin" "10.0.0.1" 0 (failed_times (fun v => v) 6 NewRateLimiter)).1).2
  = (true, 4 * minute).
Proof.
  apply (failure_locks (fun v => v) (failed_times (fun v => v) 6 NewRateLimiter)
    ltac:(vm_compute; done) "admin" "10.0.0.1" 0 0); [lia| |]; apply Nat.leb_le; vm_compute; reflexivity.
Defined.

(** attempts made one after another, each checked before it fails, are bounded: whatever
    the outcomes, no user name and no address has more than nine failures in a window, a tenth attempt within it
    is never let through, and nobody waits longer than fifteen minutes. *)
Theorem attempts_bounded (out_of_range : Z -> Z) (rl : RateLimiter) (now : Z)
    (H : sequential out_of_range rl now) (username ip : string) (now' : Z) (Hn : now <= now') :
  let '(locked, wait) := (Check_ username ip now' rl).2 in
  0 <= wait <= RateLimitMaxLockout /\ (locked = true <-> 0 < wait)
  /\ (username <> "" -> locked = false -> (length (seen RateLimitWindow now' (userRecords rl !! username)).1 <= 8)%nat)
  /\ (ip <> "" -> locked = false -> (length (seen RateLimitWindow now' (ipRecords rl !! ip)).1 <= 8)%nat).
Proof.
  destruct (sequential_ok out_of_range rl now H) as [H0 (Hc & Hu & Hi)].
  assert (Hbound : forall (m : gmap string attemptRecord) k, map_Forall (fun _ => record_ok now) m ->
            0 <= checkKey m k now' <= RateLimitMaxLockout
            /\ (k <> "" -> checkKey m k now' <= 0 -> (length (seen RateLimitWindow now' (m !! k)).1 <= 8)%nat)).
  { intros m k Hm. unfold checkKey. destruct (String.eqb_spec k "") as [->|Hk].
    { split; [unfold RateLimitMaxLockout, minute, second; lia|done]. }
    destruct (m !! k) as [rec|] eqn:E; simpl.
    - specialize (Hm k rec E). simpl in Hm. destruct Hm as (tl & Htl & Hf & H9 & Hlu & Hw).
      destruct (Z.ltb_spec now' (lockedUntil rec)); (split; [unfold RateLimitMaxLockout, minute, second in *; lia|intros Hk' Hle]); [lia|].
      apply (unlocked_room now now' now' rec); [by exists tl|lia..].
    - split; [unfold RateLimitMaxLockout, minute, second; lia|lia]. }
  destruct (Hbound _ username Hu) as [Bu Ru]. destruct (Hbound _ ip Hi) as [Bi Ri].
  unfold Check_; simpl. rewrite (check_keys_same username ip now' _ _ (evicted_same now' _)).
  unfold check_keys. rewrite larger_max.
  destruct (Z.ltb_spec 0 (Z.max (checkKey (userRecords rl) username now') (checkKey (ipRecords rl) ip now'))).
  - split_and!; (done || lia).
  - assert (0 <= RateLimitMaxLockout) by (unfold RateLimitMaxLockout, minute, second; lia).
    split_and!; try (done || lia); intros; [apply Ru|apply Ri]; (done || lia).
Qed.

Lemma attempts_bounded_witness :
  let rl := (RecordFailure (fun v => v) "admin" "10.0.0.1" 0 (Check_ "admin" "10.0.0.1" 0 NewRateLimiter).1).1 in
  let '(locked, wait) := (Check_ "admin" "10.0.0.1" 5 rl).2 in
  0 <= wait <= RateLimitMaxLockout /\ (locked = true <-> 0 < wait)
  /\ ("admin" <> "" -> locked = false -> (length (seen RateLimitWindow 5 (userRecords rl !! "admin")).1 <= 8)%nat)
  /\ ("10.0.0.1" <> "" -> locked = false -> (length (seen RateLimitWindow 5 (ipRecords rl !! "10.0.0.1")).1 <= 8)%nat).
Proof.
  intros rl. apply (attempts_bounded (fun v => v) rl 0); [|lia].
  apply (sequential_failed _ NewRateLimiter 0 0 0); [by constructor|lia|lia|vm_compute; reflexivity].
Defined.

(** An attempt is checked before it fails, and nothing keeps others from being checked in
    between (nor is everything that fails checked: [malformed_assertions_unlock]).  Where an out-of-range conversion gives the least integer, as on amd64,
    the thirty-third failure of a window unlocks the caller the ones before it locked. *)
Lemma parallel_failures_unlock :
  let amd64 v := (- 2 ^ 63)%Z in
  (Check_ "admin" "10.0.0.1" 1 (failed_times amd64 32 NewRateLimiter)).2 = (true, 15 * minute - 1)
  /\ (Check_ "admin" "10.0.0.1" 1 (failed_times amd64 33 NewRateLimiter)).2 = (false, 0)
  /\ (Check_ "admin" "10.0.0.1" 1 (failed_times amd64 40 NewRateLimiter)).2 = (false, 0).
Proof. vm_compute. split_and!; reflexivity. Qed.

(** ** The handler of a sign-in *)

Definition CodeInvalidArgument : Z := 3.
Definition CodeResourceExhausted : Z := 8.

(** A user as the database keeps it. *)
Record UserRow := mkUserRow { row_user : User; PasswordHash : string }.

(** An entry of the log of sign-ins: whose it is, when that is known, the name, what
    happened and the detail. *)
Record auth_event := mkAuthEvent_ { event_user : option Z; event_name : string; event_type : string; event_detail : string }.

(** [int(math.Ceil(d.Seconds()))]; the float is exact enough for the durations of a
    lockout. *)
Definition ceil_seconds (d : Z) : Z := - ((- d) / second).

Section Login.
(** The database, bcrypt, and the creation of a session, with the cookie it gives or
    the text of its error. *)
Context (out_of_range : Z -> Z) (getUserByUsername : string -> query UserRow)
  (CompareHashAndPassword : string -> string -> bool) (issueSession : Z -> bool -> string + string).

(** The events, and the answer with its cookie or the error; [t1] is when the limiter is
    asked, [t2] when a failure is recorded. *)
Definition Login (req : LoginRequest) (clientIP : string) (t1 t2 : Z) (rl : RateLimiter) :
    RateLimiter * list auth_event * (LoginResponse * string + handler_error) :=
  let username := LoginRequest_username req in
  let password := LoginRequest_password req in
  if String.eqb username "" || String.eqb password "" then
    (rl, [], inr (Coded CodeInvalidArgument "username and password are required"))
  else
    let '(rl, (locked, retryAfter)) := Check_ username clientIP t1 rl in
    if locked then
      let retrySec := ceil_seconds retryAfter in
      let retrySec := if retrySec <? 1 then 1 else retrySec in
      (rl, [mkAuthEvent_ None username "rate_limited" ("ip: " +:+ clientIP)],
       inr (Coded CodeResourceExhausted
              ("too many failed login attempts, please try again in " +:+ num retrySec +:+ " seconds")))
    else
      let failed := "method: password, reason: invalid credentials, ip: " +:+ clientIP in
      match getUserByUsername username with
      | NoRows =>
          ((RecordFailure out_of_range username clientIP t2 rl).1,
           [mkAuthEvent_ None username "login_failed" failed],
           inr (Coded CodeUnauthenticated "invalid credentials"))
      | QueryFailed => (rl, [], inr (Coded CodeInternal "failed to query user"))
      | Row row =>
          let user := row_user row in
          if CompareHashAndPassword (PasswordHash row) password then
            let rl := RecordSuccess username rl in
            match issueSession (ID user) (LoginRequest_rememberMe req) with
            | inr err => (rl, [], inr (Coded CodeInternal err))
            | inl cookie =>
                (rl, [mkAuthEvent_ (Some (ID user)) (Username user) "login_success"
                        ("method: password, ip: " +:+ clientIP)],
                 inl (mkLoginResponse (Username user) (Role user), cookie))
            end
          else
            ((RecordFailure out_of_range username clientIP t2 rl).1,
             [mkAuthEvent_ (Some (ID user)) (Username user) "login_failed" failed],
             inr (Coded CodeUnauthenticated "invalid credentials"))
      end.

(** A sign-in is one attempt of the limiter. *)
Lemma Login_sequential (req : LoginRequest) (clientIP : string) (t t1 t2 : Z) (rl : RateLimiter) :
  sequential out_of_range rl t -> t <= t1 -> t1 <= t2 ->
  exists t', t <= t' <= t2 /\ sequential out_of_range (Login req clientIP t1 t2 rl).1.1 t'.
Proof.
  intros Hs H1 H2. unfold Login.
  destruct (String.eqb (LoginRequest_username req) "" || String.eqb (LoginRequest_password req) "");
    [by exists t; split; [lia|]|].
  pose proof (sequential_locked out_of_range rl t t1 (LoginRequest_username req) clientIP Hs H1) as Hl.
  pose proof (sequential_failed out_of_range rl t t1 t2 (LoginRequest_username req) clientIP Hs H1 H2) as Hf.
  pose proof (sequential_succeeded out_of_range rl t t1 (LoginRequest_username req) clientIP Hs H1) as Hok.
  destruct (Check_ (LoginRequest_username req) clientIP t1 rl) as [rl1 [[] w]]; simpl in *.
  { exists t1. split; [lia|done]. }
  specialize (Hf eq_refl). destruct (getUserByUsername (LoginRequest_username req)) as [row| |]; simpl.
  - destruct (CompareHashAndPassword _ _); [|by exists t2; split; [lia|]].
    exists t1. split; [lia|]. by destruct (issueSession _ _).
  - exists t2. by split; [lia|].
  - exists t1. by split; [lia|].
Qed.

(** Sign-ins one after another: the states of the limiter between them. *)
Inductive signed_in : RateLimiter -> Z -> Prop :=
| signed_in_new t : 0 <= t -> signed_in NewRateLimiter t
| signed_in_next rl t req ip t1 t2 :
    signed_in rl t -> t <= t1 -> t1 <= t2 -> signed_in (Login req ip t1 t2 rl).1.1 t2.

Lemma signed_in_sequential (rl : RateLimiter) (t : Z) :
  signed_in rl t -> exists t', 0 <= t' <= t /\ sequential out_of_range rl t'.
Proof.
  induction 1 as [t Ht|rl t req ip t1 t2 Hs (t' & Ht' & IH) H1 H2].
  - exists t. split; [lia|by constructor].
  - destruct (Login_sequential req ip t' t1 t2 rl IH) as (t'' & ? & ?); [lia..|]. exists t''. split; [lia|done].
Qed.
End Login.

(** ** The handler of a sign-in by passkey *)

Definition CodeFailedPrecondition : Z := 9.

(** A credential as the database keeps it, the fields the handler reads. *)
Record CredentialRow := mkCredentialRow {
  cred_CredentialID : string; cred_UserID : Z; cred_SignCount : Z; cred_LastUsedAt : option Z;
  cred_BackupState : Z; cred_CloneWarning : Z
}.

(** What the handler writes: the challenge it uses up, and the use of the credential. *)
Inductive passkey_write :=
| ConsumeWebAuthnChallenge (id : Z)
| UpdateWebAuthnCredentialUsage (signCount : Z) (lastUsedAt : option Z) (backupState cloneWarning : Z) (credentialID : string).

Section PasskeyLogin.
(** The WebAuthn library: an assertion it has parsed, with its challenge, credential and
    counter; and its validation of one, for a user, which gives the counter and the backup
    state of the credential.  The database, and the decoding of the extensions kept with a
    challenge. *)
Context (out_of_range : Z -> Z) {Assertion : Type} (assertion_challenge assertion_rawID : Assertion -> string)
  (assertion_counter : Assertion -> Z)
  (ParseCredentialRequestResponseBody : string -> Assertion + string)
  (getUnconsumedChallenge : string -> Z -> option (Z * string)) (unmarshalExtensions : string -> option string)
  (getCredential : string -> query CredentialRow) (getUser : Z -> query User)
  (ValidateDiscoverableLogin : User -> CredentialRow -> string -> Assertion -> (Z * bool) + string)
  (issueSession : Z -> bool -> string + string).

(** [t1] is when the limiter is asked or a malformed request fails, [t2] when the
    validation has ended.  The text of a database error is left out. *)
Definition FinishPasskeyLogin (webauthn : bool) (req : FinishPasskeyLoginRequest) (clientIP : string) (t1 t2 : Z)
    (rl : RateLimiter) : RateLimiter * list passkey_write * list auth_event * (LoginResponse * string + handler_error) :=
  let fail username t rl := (RecordFailure out_of_range username clientIP t rl).1 in
  let failed user name reason :=
    mkAuthEvent_ user name "login_failed" ("method: passkey, reason: " +:+ reason +:+ ", ip: " +:+ clientIP) in
  if negb webauthn then
    (rl, [], [], inr (Coded CodeFailedPrecondition "passkey support is not configured on this server"))
  else
  match ParseCredentialRequestResponseBody (FinishPasskeyLoginRequest_responseJson req) with
  | inr err =>
      (fail "passkey_login" t1 rl, [], [], inr (Coded CodeInvalidArgument ("invalid login assertion response json: " +:+ err)))
  | inl parsedResponse =>
  let challengeStr := assertion_challenge parsedResponse in
  match getUnconsumedChallenge challengeStr t1 with
  | None =>
      (fail "passkey_login" t1 rl, [], [failed None "unknown" "invalid or expired challenge"],
       inr (Coded CodeUnauthenticated "invalid or expired passkey challenge"))
  | Some (id, extensions) =>
  let consumed := ConsumeWebAuthnChallenge id in
  match getCredential (assertion_rawID parsedResponse) with
  | NoRows | QueryFailed =>
      (fail "passkey_login" t1 rl, [consumed], [failed None "unknown" "credential not found"],
       inr (Coded CodeUnauthenticated "passkey credential not found"))
  | Row credRow =>
  match getUser (cred_UserID credRow) with
  | NoRows | QueryFailed =>
      (fail "passkey_login" t1 rl, [consumed], [], inr (Coded CodeInternal "failed to fetch user"))
  | Row user =>
  let '(rl, (locked, retryAfter)) := Check_ (Username user) clientIP t1 rl in
  if locked then
    let retrySec := ceil_seconds retryAfter in
    let retrySec := if retrySec <? 1 then 1 else retrySec in
    (rl, [consumed], [mkAuthEvent_ (Some (ID user)) (Username user) "rate_limited" ("ip: " +:+ clientIP)],
     inr (Coded CodeResourceExhausted
            ("too many failed login attempts, please try again in " +:+ num retrySec +:+ " seconds")))
  else
  match (if String.eqb extensions "" then None else unmarshalExtensions extensions) with
  | Some err =>
      (rl, [consumed], [], inr (Coded CodeInvalidArgument ("stored WebAuthn session extensions are invalid: " +:+ err)))
  | None =>
  match ValidateDiscoverableLogin user credRow challengeStr parsedResponse with
  | inr err =>
      (fail (Username user) t2 rl, [consumed], [failed (Some (ID user)) (Username user) "validation failed"],
       inr (Coded CodeUnauthenticated ("passkey verification failed: " +:+ err)))
  | inl (signCount, backupState) =>
  let newCounter := assertion_counter parsedResponse in
  if (0 <? cred_SignCount credRow) && (cred_SignCount credRow <=? 2 ^ 32 - 1)
     && (newCounter <=? cred_SignCount credRow) && negb (newCounter =? 0) then
    (fail (Username user) t2 rl,
     [consumed; UpdateWebAuthnCredentialUsage (cred_SignCount credRow) (cred_LastUsedAt credRow)
                  (cred_BackupState credRow) 1 (cred_CredentialID credRow)],
     [failed (Some (ID user)) (Username user) "clone_warning"],
     inr (Coded CodeUnauthenticated "authenticator counter regression detected (possible cloned passkey)"))
  else
  let writes := [consumed; UpdateWebAuthnCredentialUsage signCount (Some t2) (if backupState then 1 else 0)
                             (cred_CloneWarning credRow) (cred_CredentialID credRow)] in
  let rl := RecordSuccess (Username user) rl in
  match issueSession (ID user) (FinishPasskeyLoginRequest_rememberMe req) with
  | inr err => (rl, writes, [], inr (Coded CodeInternal err))
  | inl cookie =>
      (rl, writes, [mkAuthEvent_ (Some (ID user)) (Username user) "login_success" ("method: passkey, ip: " +:+ clientIP)],
       inl (mkLoginResponse (Username user) (Role user), cookie))
  end
  end
  end
  end
  end
  end
  end.

(** A response that is no assertion counts as a failure of its address, and is not checked. *)
Lemma malformed_assertion (req : FinishPasskeyLoginRequest) (ip : string) (t1 t2 : Z) (rl : RateLimiter) (err : string) :
  ParseCredentialRequestResponseBody (FinishPasskeyLoginRequest_responseJson req) = inr err ->
  (FinishPasskeyLogin true req ip t1 t2 rl).1.1.1 = (RecordFailure out_of_range "passkey_login" ip t1 rl).1.
Proof. intros Hp. unfold FinishPasskeyLogin. simpl. by rewrite Hp. Qed.

End PasskeyLogin.

(** Nor does anything keep a locked address from sending them one after another: where an
    out-of-range conversion gives the least integer, the thirty-third unlocks it. *)
Lemma malformed_assertions_unlock {Assertion} challenge rawID counter
    (parse : string -> Assertion + string) getChallenge unmarshal getCredential getUser validate issueSession
    (req : FinishPasskeyLoginRequest) (err : string) :
  parse (FinishPasskeyLoginRequest_responseJson req) = inr err ->
  let finish rl := (FinishPasskeyLogin (fun _ => - 2 ^ 63) challenge rawID counter parse getChallenge unmarshal
    getCredential getUser validate issueSession true req "10.0.0.1" 0 0 rl).1.1.1 in
  (Check_ "admin" "10.0.0.1" 1 (Nat.iter 32 finish NewRateLimiter)).2 = (true, 15 * minute - 1)
  /\ (Check_ "admin" "10.0.0.1" 1 (Nat.iter 33 finish NewRateLimiter)).2 = (false, 0).
Proof.
  intros Hp finish.
  assert (forall n rl, Nat.iter n finish rl =
    Nat.iter n (fun rl => (RecordFailure (fun _ => - 2 ^ 63) "passkey_login" "10.0.0.1" 0 rl).1) rl) as Hs.
  { induction n as [|n IH]; intros rl; [done|]. cbn [Nat.iter nat_rect]. unfold Nat.iter in *. cbn [nat_rect]. rewrite IH.
    by eapply malformed_assertion. }
  rewrite !Hs. vm_compute. split; reflexivity.
Qed.

Lemma ceil_seconds_bounds (d : Z) : 0 < d <= RateLimitMaxLockout -> 1 <= ceil_seconds d <= 900.
Proof.
  unfold ceil_seconds, RateLimitMaxLockout, minute, second. intros H.
  pose proof (Z.div_mod (- d) 1000000000 ltac:(lia)). pose proof (Z.mod_pos_bound (- d) 1000000000 ltac:(lia)). lia.
Qed.

(** C10: signing in is guarded: among sign-ins by password made one after another (and no
    failures of passkeys, which share the limiter, in between), one succeeds exactly when both fields are given, neither the name nor the address is locked out, the user
    exists, the password is the user's and a session can be made, and it answers with
    the user's own name and role; a locked out caller is told to wait between one and
    900 seconds, whatever the password; and a password is compared only for a name that
    has failed eight times in the window at most. *)
Theorem login_guarded (out_of_range : Z -> Z) (getUserByUsername : string -> query UserRow)
    (CompareHashAndPassword : string -> string -> bool) (issueSession : Z -> bool -> string + string)
    (rl : RateLimiter) (t t1 t2 : Z)
    (Hs : signed_in out_of_range getUserByUsername CompareHashAndPassword issueSession rl t)
    (H1 : t <= t1) (H2 : t1 <= t2) (req : LoginRequest) (ip : string) :
  let answer := (Login out_of_range getUserByUsername CompareHashAndPassword issueSession req ip t1 t2 rl).2 in
  let '(locked, wait) := (Check_ (LoginRequest_username req) ip t1 rl).2 in
  let given := LoginRequest_username req <> "" /\ LoginRequest_password req <> "" in
  (forall resp cookie, answer = inl (resp, cookie) <->
     given /\ locked = false /\ exists row, getUserByUsername (LoginRequest_username req) = Row row
       /\ CompareHashAndPassword (PasswordHash row) (LoginRequest_password req) = true
       /\ issueSession (ID (row_user row)) (LoginRequest_rememberMe req) = inl cookie
       /\ resp = mkLoginResponse (Username (row_user row)) (Role (row_user row)))
  /\ (given -> locked = true -> exists n, 1 <= n <= 900 /\ answer = inr (Coded CodeResourceExhausted
        ("too many failed login attempts, please try again in " +:+ num n +:+ " seconds")))
  /\ (given -> locked = false ->
      (length (seen RateLimitWindow t1 (userRecords rl !! LoginRequest_username req)).1 <= 8)%nat).
Proof.
  destruct (signed_in_sequential _ _ _ _ rl t Hs) as (t' & Ht' & Hseq).
  pose proof (attempts_bounded out_of_range rl t' Hseq (LoginRequest_username req) ip t1 ltac:(lia)) as Hb.
  unfold Login. destruct (Check_ (LoginRequest_username req) ip t1 rl) as [rl1 [locked w]]. cbn beta iota delta [snd] in *.
  destruct (String.eqb_spec (LoginRequest_username req) "") as [Eu|Eu].
  { split; [intros resp cookie; split; [by intros [=]|by intros ([? ?] & _)]|by split; intros [? ?]]. }
  destruct (String.eqb_spec (LoginRequest_password req) "") as [Ep|Ep].
  { split; [intros resp cookie; split; [by intros [=]|by intros ([? ?] & _)]|by split; intros [? ?]]. }
  destruct Hb as (Hw & Hlw & Hroom & _). destruct locked; simpl.
  - split_and!; [|intros _ _|done].
    + intros resp cookie. split; [done|]. by intros (_ & ? & _).
    + pose proof (proj1 Hlw eq_refl) as Hpos. pose proof (ceil_seconds_bounds w ltac:(lia)) as Hc.
      exists (ceil_seconds w). split; [done|]. by rewrite (proj2 (Z.ltb_ge _ _)) by lia.
  - split_and!; [|done|intros _ _; by apply Hroom]. intros resp cookie.
    destruct (getUserByUsername (LoginRequest_username req)) as [row| |]; simpl.
    + destruct (CompareHashAndPassword (PasswordHash row) (LoginRequest_password req)) eqn:Ec; simpl.
      * destruct (issueSession (ID (row_user row)) (LoginRequest_rememberMe req)) as [ck|err] eqn:Ei; simpl.
        -- split; [intros [= <- <-]; eauto 10|]. intros (_ & _ & row' & [= <-] & _ & Ei' & ->). congruence.
        -- split; [done|]. intros (_ & _ & row' & [= <-] & _ & Ei' & ->). congruence.
      * split; [done|]. intros (_ & _ & row' & [= <-] & Ec' & _). congruence.
    + split; [done|]. by intros (_ & _ & row' & ? & _).
    + split; [done|]. by intros (_ & _ & row' & ? & _).
Qed.

(** A server with one user, for the concrete runs. *)
Definition sample_users (name : string) : query UserRow :=
  if String.eqb name "admin" then Row (mkUserRow (mkUser 1 "admin" "admin") "secret") else NoRows.

Lemma login_guarded_witness :
  let answer := (Login (fun v => v) sample_users String.eqb (fun _ _ => inl "cookie"%string)
                   (mkLoginRequest "admin" "secret" false) "10.0.0.1" 3 4 NewRateLimiter).2 in
  answer = inl (mkLoginResponse "admin" "admin", "cookie"%string).
Proof.
  intros answer.
  apply (login_guarded (fun v => v) sample_users String.eqb (fun _ _ => inl "cookie"%string) NewRateLimiter 0 3 4
    ltac:(by constructor) ltac:(lia) ltac:(lia) (mkLoginRequest "admin" "secret" false) "10.0.0.1").
  split_and!; try done. by exists (mkUserRow (mkUser 1 "admin" "admin") "secret").
Defined.

(** a stranger cannot tell which names exist: a wrong password and an unknown name get
    the same answer and leave the limiter the same. *)
Theorem unknown_user_hidden (out_of_range : Z -> Z) (getUserByUsername : string -> query UserRow)
    (CompareHashAndPassword : string -> string -> bool) (issueSession : Z -> bool -> string + string)
    (req : LoginRequest) (row : UserRow)
    (Hrow : getUserByUsername (LoginRequest_username req) = Row row)
    (Hwrong : CompareHashAndPassword (PasswordHash row) (LoginRequest_password req) = false)
    (ip : string) (t1 t2 : Z) (rl : RateLimiter) :
  let run users := Login out_of_range users CompareHashAndPassword issueSession req ip t1 t2 rl in
  (run getUserByUsername).1.1 = (run (fun _ => NoRows)).1.1 /\ (run getUserByUsername).2 = (run (fun _ => NoRows)).2.
Proof.
  intros run. unfold run, Login. rewrite Hrow.
  destruct (String.eqb (LoginRequest_username req) "" || String.eqb (LoginRequest_password req) ""); [done|].
  destruct (Check_ (LoginRequest_username req) ip t1 rl) as [rl1 [[] w]]; [done|]. by rewrite Hwrong.
Qed.

Lemma unknown_user_hidden_witness :
  let run users := Login (fun v => v) users String.eqb (fun _ _ => inl "cookie"%string)
                     (mkLoginRequest "admin" "guess" false) "10.0.0.1" 3 4 NewRateLimiter in
  (run sample_users).1.1 = (run (fun _ => NoRows)).1.1 /\ (run sample_users).2 = (run (fun _ => NoRows)).2.
Proof.
  apply (unknown_user_hidden (fun v => v) sample_users String.eqb (fun _ _ => inl "cookie"%string)
    (mkLoginRequest "admin" "guess" false) (mkUserRow (mkUser 1 "admin" "admin") "secret"));
    vm_compute; reflexivity.
Defined.
