(* ===== verification/Sessions.v ===== *)
(** The sessions of the server, outside frontend/src: their table
    (internal/db/sessions.sql.go), their making, listing and revocation
    (internal/auth/service.go), their purge (purge.go), and the gate of Access.v over
    them, as one machine of statements.

    A query of the database is one step; the gate reads a session and renews or deletes it
    in two statements, between which others run.  Tokens are random: a new one is one
    never given out.  Times are nanoseconds; the text of a database error, which the
    program appends to its own, is left out. *)
From S2P Require Import Prelude Proto Services Access RateLimit.

(** ** The table *)

Record SessionRow := mkSessionRow {
  s_session : Session; s_userAgent : string; s_createdAt : Z; s_lastSeenAt : Z
}.
Abbreviation sessions := (gmap string SessionRow).

Definition GetSession (t : sessions) (sessionID : string) : query Session :=
  match t !! sessionID with Some r => Row (s_session r) | None => NoRows end.

(** [None] when the id is taken. *)
Definition CreateSession (r : SessionRow) (t : sessions) : option sessions :=
  match t !! SessionID (s_session r) with Some _ => None | None => Some (<[SessionID (s_session r) := r]> t) end.

Definition DeleteSession_ (sessionID : string) (t : sessions) : sessions := delete sessionID t.

Definition of_user (userID : Z) (r : SessionRow) : bool := (UserID (s_session r) =? userID)%Z.

(** The rows left and how many went. *)
Definition DeleteSessionByIDAndUser (sessionID : string) (userID : Z) (t : sessions) : sessions * Z :=
  match t !! sessionID with
  | Some r => if of_user userID r then (delete sessionID t, 1%Z) else (t, 0%Z)
  | None => (t, 0%Z)
  end.

Definition DeleteSessionsByUser (userID : Z) (sessionID : string) (t : sessions) : sessions * Z :=
  let goes (kv : string * SessionRow) := of_user userID kv.2 && negb (String.eqb kv.1 sessionID) in
  (filter (fun kv => goes kv = false) t, Z.of_nat (size (filter (fun kv => goes kv = true) t))).

Definition PurgeExpiredSessions (now : Z) (t : sessions) : sessions :=
  filter (fun kv => ((ExpiresAt (s_session kv.2) <? now)%Z || (AbsoluteExpiresAt (s_session kv.2) <? now)%Z) = false) t.

Definition TouchSession_ (sessionID : string) (expiresAt lastSeenAt : Z) (t : sessions) : sessions :=
  alter (fun r => mkSessionRow (mkSession (SessionID (s_session r)) (UserID (s_session r)) expiresAt
                                 (AbsoluteExpiresAt (s_session r)))
                    (s_userAgent r) (s_createdAt r) lastSeenAt) sessionID t.

Definition seen_later (a b : string * SessionRow) : bool := (s_lastSeenAt b.2 <=? s_lastSeenAt a.2)%Z.

Definition ListSessionsByUser (userID : Z) (t : sessions) : list (string * SessionRow) :=
  toSorted seen_later (List.filter (fun kv => of_user userID kv.2) (map_to_list t)).

(** ** Cookies *)

Definition formatSessionCookie (sessionID : string) (maxAge : Z) (secureCookies : string) (forwardedProto : option string) : string :=
  let secureSuffix :=
    if String.eqb secureCookies "always" then "; Secure"
    else if String.eqb secureCookies "never" then ""
    else if String.eqb secureCookies "auto" then
      match forwardedProto with
      | Some p => if String.eqb (toLowerCase p) "https" then "; Secure" else ""
      | None => ""
      end
    else "" in
  "session_id=" +:+ sessionID +:+ "; Path=/; HttpOnly; SameSite=Lax; Max-Age=" +:+ num maxAge +:+ secureSuffix.

(** The loop of [parseSessionCookie] over the parts of the header. *)
Fixpoint find_cookie (parts : list string) : string :=
  match parts with
  | [] => ""
  | part :: parts =>
      let part := trim part in
      if startsWith "session_id=" part then slice_from 11 part else find_cookie parts
  end.

Definition parseSessionCookie (cookieHeader : string) : string := find_cookie (split_on ";" cookieHeader).

(** ** The handlers *)

(** What is configured of sessions, and the part of [Config.Validate] that checks it. *)
Record AuthConfig := mkAuthConfig {
  SessionIdleTimeout : Z; SessionAbsoluteTimeout : Z;
  RememberMeIdleTimeout : Z; RememberMeAbsoluteTimeout : Z; SecureCookies : string
}.

Definition Validate (c : AuthConfig) : bool :=
  negb (SessionIdleTimeout c <=? 0)%Z && negb (SessionAbsoluteTimeout c <? SessionIdleTimeout c)%Z
  && negb (RememberMeIdleTimeout c <=? 0)%Z && negb (RememberMeAbsoluteTimeout c <? RememberMeIdleTimeout c)%Z
  && bool_decide (SecureCookies c ∈ ["auto"; "always"; "never"]%string).

Definition idle_of (c : AuthConfig) (rememberMe : bool) : Z :=
  if rememberMe then RememberMeIdleTimeout c else SessionIdleTimeout c.
Definition absolute_of (c : AuthConfig) (rememberMe : bool) : Z :=
  if rememberMe then RememberMeAbsoluteTimeout c else SessionAbsoluteTimeout c.

(** [issueSession]: [token] is the text of the random bytes; the time of the creation is
    the database's, in seconds. *)
Definition issueSession_ (c : AuthConfig) (userID : Z) (rememberMe : bool) (token userAgent : string)
    (forwardedProto : option string) (now : Z) (t : sessions) : sessions * (string + string) :=
  let idleTimeout := idle_of c rememberMe in
  let row := mkSessionRow (mkSession token userID (now + idleTimeout) (now + absolute_of c rememberMe)) userAgent
    (now / second * second) now in
  match CreateSession row t with
  | None => (t, inr "failed to save session"%string)
  | Some t => (t, inl (formatSessionCookie token (Z.quot idleTimeout second) (SecureCookies c) forwardedProto))
  end.

(** The user and the session the gate has put into the context. *)
Definition caller := option (User * string).

Definition event_of (u : User) (type_ detail : string) : auth_event := mkAuthEvent_ (Some (ID u)) (Username u) type_ detail.

Definition Logout_ (c : AuthConfig) (who : caller) (cookieHeader : string) (forwardedProto : option string) (t : sessions) :
    sessions * list auth_event * string :=
  let sessionID := match who with Some (_, sid) => sid | None => parseSessionCookie cookieHeader end in
  let events := match who with Some (u, _) => [event_of u "logout" ""] | None => [] end in
  let t := if String.eqb sessionID "" then t else DeleteSession_ sessionID t in
  (t, events, formatSessionCookie "" 0 (SecureCookies c) forwardedProto).

Definition unauthenticated : handler_error := Coded CodeUnauthenticated "unauthenticated".

Definition GetMe_ (who : caller) : GetMeResponse + handler_error :=
  match who with
  | None => inr unauthenticated
  | Some (u, _) => inl (mkGetMeResponse (ID u) (Username u) (Role u))
  end.

Definition CodeNotFound : Z := 5.

Definition RevokeSession_ (who : caller) (req : RevokeSessionRequest) (t : sessions) :
    sessions * list auth_event * (unit + handler_error) :=
  match who with
  | None => (t, [], inr unauthenticated)
  | Some (u, _) =>
      let sessionID := RevokeSessionRequest_sessionId req in
      if String.eqb sessionID "" then (t, [], inr (Coded CodeInvalidArgument "session_id is required"))
      else
        let '(t, rowsAffected) := DeleteSessionByIDAndUser sessionID (ID u) t in
        if (rowsAffected =? 0)%Z then (t, [], inr (Coded CodeNotFound "session not found"))
        else (t, [event_of u "session_revoked" "action: revoke_single"], inl tt)
  end.

Definition RevokeAllOtherSessions_ (who : caller) (t : sessions) :
    sessions * list auth_event * (RevokeAllOtherSessionsResponse + handler_error) :=
  match who with
  | None => (t, [], inr unauthenticated)
  | Some (u, currentSessionID) =>
      let '(t, rowsAffected) := DeleteSessionsByUser (ID u) currentSessionID t in
      (t, [event_of u "session_revoked" "action: revoke_all_other"], inl (mkRevokeAllOtherSessionsResponse rowsAffected))
  end.

(** [formatDeviceLabel] *)
Definition device_os (ua : string) : string :=
  if includes "windows" ua then "Windows"
  else if includes "android" ua then "Android"
  else if includes "iphone" ua || includes "ipad" ua || includes "ipod" ua || includes "ios" ua then "iOS"
  else if includes "macintosh" ua || includes "mac os" ua then "macOS"
  else if includes "linux" ua then "Linux"
  else "Unknown OS".

(** The browser, or the client that is the whole label. *)
Definition device_browser (ua : string) : string + string :=
  if includes "edg/" ua || includes "edge/" ua then inl "Edge"
  else if includes "opr/" ua || includes "opera/" ua then inl "Opera"
  else if includes "chrome/" ua || includes "crios/" ua then inl "Chrome"
  else if includes "firefox/" ua || includes "fxios/" ua then inl "Firefox"
  else if includes "safari/" ua && negb (includes "chrome" ua) then inl "Safari"
  else if includes "curl/" ua then inr "curl"
  else if includes "postman" ua then inr "Postman"
  else inl "Browser"%string.

Definition formatDeviceLabel (ua : string) : string :=
  if String.eqb ua "" then "Unknown Device"
  else
    let uaLower := toLowerCase ua in
    let os := device_os uaLower in
    match device_browser uaLower with
    | inr label => label
    | inl browser =>
        if String.eqb os "Unknown OS" && String.eqb browser "Browser" then
          if 30 <? String.length ua then slice_to 30 ua +:+ "..." else ua
        else browser +:+ " · " +:+ os
    end.

Definition to_timestamp (t : Z) : Timestamp := mkTimestamp (t / second) (t mod second).

Definition ListSessions_ (who : caller) (t : sessions) : ListSessionsResponse + handler_error :=
  match who with
  | None => inr unauthenticated
  | Some (u, currentSessionID) =>
      inl (mkListSessionsResponse ((fun '(sid, r) =>
        Proto.mkSession sid (s_userAgent r) (formatDeviceLabel (s_userAgent r)) (Some (to_timestamp (s_createdAt r)))
          (Some (to_timestamp (s_lastSeenAt r))) (Some (to_timestamp (ExpiresAt (s_session r))))
          (Some (to_timestamp (AbsoluteExpiresAt (s_session r)))) (String.eqb sid currentSessionID))
        <$> ListSessionsByUser (ID u) t))
  end.

(** ** The machine *)

(** What a statement of the gate does to the table. *)
Definition perform_effect (e : effect) (t : sessions) : sessions :=
  match e with
  | DeleteSession sid => DeleteSession_ sid t
  | TouchSession sid expiresAt lastSeenAt => TouchSession_ sid expiresAt lastSeenAt t
  | Record_ _ => t
  end.

(** When, for whom and how a session was given out. *)
Record Issue := mkIssue { for_user : Z; issued_at : Z; remembered : bool }.

(** The clock, the table, the statements of requests that have read their session, and
    the sessions ever given out. *)
Record Server := mkServer { clock : Z; table_ : sessions; pending : list effect; issued : gmap string Issue }.

Section Machine.
Context (config : AuthConfig) (getUser : Z -> query User) (idleTimeout : Z).

Definition gate (s : Server) (sid : string) : list effect * (User + handler_error) :=
  authenticate (GetSession (table_ s)) getUser idleTimeout sid (clock s).

Inductive server_step : Server -> Server -> Prop :=
| time_passes s now : (clock s <= now)%Z -> server_step s (mkServer now (table_ s) (pending s) (issued s))
| signs_in s userID rememberMe token agent proto t cookie :
    issued s !! token = None -> token <> ""%string ->
    issueSession_ config userID rememberMe token agent proto (clock s) (table_ s) = (t, inl cookie) ->
    server_step s (mkServer (clock s) t (pending s) (<[token := mkIssue userID (clock s) rememberMe]> (issued s)))
| request_reads s sid : server_step s (mkServer (clock s) (table_ s) (pending s ++ (gate s sid).1) (issued s))
| request_writes s l1 e l2 :
    pending s = l1 ++ e :: l2 -> server_step s (mkServer (clock s) (perform_effect e (table_ s)) (l1 ++ l2) (issued s))
| signs_out s who header proto :
    server_step s (mkServer (clock s) (Logout_ config who header proto (table_ s)).1.1 (pending s) (issued s))
| revokes s who req : server_step s (mkServer (clock s) (RevokeSession_ who req (table_ s)).1.1 (pending s) (issued s))
| revokes_others s who :
    server_step s (mkServer (clock s) (RevokeAllOtherSessions_ who (table_ s)).1.1 (pending s) (issued s))
| purges s : server_step s (mkServer (clock s) (PurgeExpiredSessions (clock s) (table_ s)) (pending s) (issued s)).

Definition server_start (now : Z) : Server := mkServer now ∅ [] ∅.

(** A session of the table is as it was given out, but for its idle deadline, which stays
    within the absolute one. *)
Definition row_ok (s : Server) (sid : string) (r : SessionRow) : Prop :=
  exists i, issued s !! sid = Some i /\ SessionID (s_session r) = sid /\ UserID (s_session r) = for_user i
    /\ AbsoluteExpiresAt (s_session r) = (issued_at i + absolute_of config (remembered i))%Z
    /\ (ExpiresAt (s_session r) <= AbsoluteExpiresAt (s_session r))%Z.

(** A renewal under way stays within the absolute deadline of its session. *)
Definition effect_ok (s : Server) (e : effect) : Prop :=
  match e with
  | TouchSession sid expiresAt _ => exists i, issued s !! sid = Some i
      /\ (expiresAt <= issued_at i + absolute_of config (remembered i))%Z
  | _ => True
  end.

Record server_ok (s : Server) : Prop := {
  ok_rows : map_Forall (row_ok s) (table_ s);
  ok_pending : Forall (effect_ok s) (pending s)
}.

Lemma row_ok_issued (s s' : Server) (sid : string) (r : SessionRow) : issued s ⊆ issued s' -> row_ok s sid r -> row_ok s' sid r.
Proof. intros Hi (i & H & Hr). exists i. split; [by eapply lookup_weaken|done]. Qed.

Lemma effect_ok_issued (s s' : Server) (e : effect) : issued s ⊆ issued s' -> effect_ok s e -> effect_ok s' e.
Proof. intros Hi. destruct e as [| |]; simpl; try done. intros (i & H & Hr). exists i. split; [by eapply lookup_weaken|done]. Qed.

(** Steps that only take sessions away, or change nothing of them. *)
Lemma server_ok_fewer (s : Server) (now : Z) (t : sessions) :
  t ⊆ table_ s -> server_ok s -> server_ok (mkServer now t (pending s) (issued s)).
Proof.
  intros Ht [Hr Hp]. split; simpl.
  - intros sid r H. by apply (Hr sid), (lookup_weaken t).
  - done.
Qed.

Lemma absolute_positive (rememberMe : bool) :
  Validate config = true -> (0 < idle_of config rememberMe <= absolute_of config rememberMe)%Z.
Proof.
  unfold Validate, idle_of, absolute_of. rewrite !andb_true_iff, !negb_true_iff, !Z.leb_gt, !Z.ltb_ge.
  destruct rememberMe; lia.
Qed.

Lemma gate_effects_ok (s : Server) (sid : string) : server_ok s -> Forall (effect_ok s) (gate s sid).1.
Proof.
  intros [Hr _]. unfold gate, authenticate, GetSession. destruct (String.eqb sid ""); [constructor|].
  destruct (table_ s !! sid) as [r|] eqn:E; [|constructor]. destruct (Hr sid r E) as (i & Hi & Hid & _ & Ha & _).
  destruct (AbsoluteExpiresAt _ <? _)%Z; [by repeat constructor|]. destruct (ExpiresAt _ <? clock s)%Z; [by repeat constructor|].
  assert (Htouch : Forall (effect_ok s)
    (if (ExpiresAt (s_session r) + Z.quot (- idleTimeout) 2 <? clock s)%Z then
       [TouchSession (SessionID (s_session r))
          (if (AbsoluteExpiresAt (s_session r) <? clock s + idleTimeout)%Z then AbsoluteExpiresAt (s_session r)
           else clock s + idleTimeout)%Z (clock s)] else [])).
  { destruct (_ <? _)%Z; [|constructor]. constructor; [|constructor]. simpl. exists i. rewrite Hid. split; [done|].
    rewrite <- Ha. destruct (AbsoluteExpiresAt _ <? _)%Z eqn:El; [lia|]. apply Z.ltb_ge in El. lia. }
  by destruct (getUser _).
Qed.

Lemma revoke_fewer (who : caller) (req : RevokeSessionRequest) (t : sessions) : (RevokeSession_ who req t).1.1 ⊆ t.
Proof.
  unfold RevokeSession_, DeleteSessionByIDAndUser. destruct who as [[u cur]|]; [|done].
  destruct (String.eqb _ ""); [done|]. destruct (t !! _) as [r|]; [|done]. destruct (of_user _ r); [|done].
  simpl. apply delete_subseteq.
Qed.

Lemma revoke_others_fewer (who : caller) (t : sessions) : (RevokeAllOtherSessions_ who t).1.1 ⊆ t.
Proof. unfold RevokeAllOtherSessions_. destruct who as [[u cur]|]; [|done]. simpl. apply map_filter_subseteq. Qed.

Lemma logout_fewer (who : caller) (header : string) (proto : option string) (t : sessions) :
  (Logout_ config who header proto t).1.1 ⊆ t.
Proof. unfold Logout_. simpl. case_match; [done|]. apply delete_subseteq. Qed.

Lemma perform_ok (s : Server) (e : effect) :
  server_ok s -> effect_ok s e -> map_Forall (row_ok s) (perform_effect e (table_ s)).
Proof.
  intros [Hr _] He. destruct e as [sid|sid ex seen|en]; simpl; [|intros k r Hk|done].
  - intros k r Hk. apply Hr. by eapply lookup_weaken, delete_subseteq.
  - destruct He as (i & Hi & Hex). unfold TouchSession_ in Hk. apply lookup_alter_Some in Hk as [(-> & r0 & H0 & ->)|[Hne Hk]]; [|by apply Hr].
    destruct (Hr k r0 H0) as (i' & Hi' & Hid & Hu & Ha & _). rewrite Hi in Hi'. injection Hi' as <-.
    exists i. simpl. split_and!; [done..|]. lia.
Qed.

Lemma server_step_ok (s s' : Server) : Validate config = true -> server_step s s' -> server_ok s -> server_ok s'.
Proof.
  intros Hv Hs Hok. destruct Hs as [s now _|s u rem tok ag pr t ck Hfresh Hne Hi|s sid|s l1 e l2 Hp|s who hd pr|s who req|s who|s].
  - by apply server_ok_fewer.
  - pose proof (absolute_positive rem Hv) as Habs. unfold issueSession_, CreateSession in Hi. simpl in Hi.
    destruct (table_ s !! tok) eqn:E; simplify_eq/=.
    assert (Hsub : issued s ⊆ <[tok:=mkIssue u (clock s) rem]> (issued s)) by by apply insert_subseteq.
    destruct Hok as [Hr Hp]. split; simpl.
    + apply map_Forall_insert_2; [|intros k r Hk; eapply row_ok_issued; [|by apply Hr]; exact Hsub].
      exists (mkIssue u (clock s) rem). simpl. rewrite lookup_insert_eq. split_and!; [done..|lia].
    + eapply Forall_impl; [exact Hp|]. intros e. by apply effect_ok_issued.
  - pose proof (gate_effects_ok s sid Hok) as Hg. destruct Hok as [Hr Hp]. split; simpl; [done|]. by apply Forall_app.
  - destruct Hok as [Hr Hp']. rewrite Hp in Hp'. apply Forall_app in Hp' as [H1 [He H2]%Forall_cons]. split; simpl.
    + apply (perform_ok s); [|done]. split; [done|]. rewrite Hp. apply Forall_app. split; [done|]. by constructor.
    + by apply Forall_app.
  - apply server_ok_fewer; [apply logout_fewer|done].
  - apply server_ok_fewer; [apply revoke_fewer|done].
  - apply server_ok_fewer; [apply revoke_others_fewer|done].
  - apply server_ok_fewer; [apply map_filter_subseteq|done].
Qed.

(** A session that was given out and is gone. *)
Definition gone (sid : string) (s : Server) : Prop := is_Some (issued s !! sid) /\ table_ s !! sid = None.

Lemma fewer_gone (sid : string) (t t' : sessions) : t' ⊆ t -> t !! sid = None -> t' !! sid = None.
Proof. intros Hs Ht. by eapply lookup_weaken_None. Qed.

Lemma server_step_gone (sid : string) (s s' : Server) : server_step s s' -> gone sid s -> gone sid s'.
Proof.
  intros Hs [Hi Ht]. destruct Hs as [s now _|s u rem tok ag pr t ck Hfresh Hne Hc|s sid'|s l1 e l2 Hp|s who hd pr|s who req|s who|s];
    try (split; [exact Hi|]; cbn [table_]).
  - done.
  - assert (tok <> sid) by (intros ->; rewrite Hfresh in Hi; by destruct Hi).
    split; simpl; [by rewrite lookup_insert_ne|]. unfold issueSession_, CreateSession in Hc. simpl in Hc.
    destruct (table_ s !! tok); simplify_eq. by rewrite lookup_insert_ne.
  - done.
  - destruct e as [k|k ex sn|en]; cbn [perform_effect]; [by apply lookup_delete_None; right| |done].
    destruct (decide (k = sid)) as [->|Hk]; [unfold TouchSession_; by rewrite lookup_alter_eq, Ht|unfold TouchSession_; by rewrite lookup_alter_ne].
  - eapply fewer_gone; [apply logout_fewer|exact Ht].
  - eapply fewer_gone; [apply revoke_fewer|exact Ht].
  - eapply fewer_gone; [apply revoke_others_fewer|exact Ht].
  - eapply fewer_gone; [apply map_filter_subseteq|exact Ht].
Qed.

Lemma server_reachable_ok (now : Z) (s : Server) :
  Validate config = true -> rtc server_step (server_start now) s -> server_ok s.
Proof.
  intros Hv H. assert (H0 : server_ok (server_start now)) by (split; [apply map_Forall_empty|constructor]).
  revert H0. induction H as [|s0 s1 s2 Hs _ IH]; [done|]. intros H0. apply IH. by eapply server_step_ok.
Qed.

(** C26: a session has the authority it was given and no longer: in every interleaving of
    sign-ins, requests (whose gate reads a session and renews or deletes it later),
    sign-outs, revocations and purges, a request that the gate lets through carries a
    session that was given out, is answered for the user it was given to, and comes no
    later than the absolute timeout after the sign-in, and no later than its idle
    deadline; and once a session is gone, whatever removed it and whatever requests were
    under way, the gate refuses it ever after. *)
Theorem session_authority (now : Z) (s : Server) (sid : string)
    (Hv : Validate config = true) (H : rtc server_step (server_start now) s) :
  (forall u, (gate s sid).2 = inl u ->
     exists i r, issued s !! sid = Some i /\ getUser (for_user i) = Row u
       /\ (clock s <= issued_at i + absolute_of config (remembered i))%Z
       /\ table_ s !! sid = Some r /\ (clock s <= ExpiresAt (s_session r))%Z)
  /\ (gone sid s -> forall s', rtc server_step s s' ->
       (gate s' sid).2 = inr (Coded CodeUnauthenticated "unauthenticated")).
Proof.
  split.
  - intros u. pose proof (server_reachable_ok now s Hv H) as [Hr _]. unfold gate, authenticate, GetSession.
    destruct (String.eqb sid ""); [done|]. destruct (table_ s !! sid) as [r|] eqn:E; [|done].
    destruct (Hr sid r E) as (i & Hi & _ & Hu & Ha & _).
    destruct (AbsoluteExpiresAt (s_session r) <? clock s)%Z eqn:Eabs; [done|].
    destruct (ExpiresAt (s_session r) <? clock s)%Z eqn:Eidle; [done|]. apply Z.ltb_ge in Eabs, Eidle.
    destruct (getUser (UserID (s_session r))) as [u'| |] eqn:Eu; simpl; try done. intros [= ->].
    exists i, r. rewrite <- Hu, <- Ha. by split_and!.
  - intros Hg s' Hs. assert (Hg' : gone sid s') by (induction Hs as [|s0 s1 s2 Hst _ IH]; [done|];
      apply IH; [by eapply rtc_r|by eapply server_step_gone]).
    destruct Hg' as [_ Ht]. unfold gate, authenticate, GetSession. rewrite Ht. by destruct (String.eqb sid "").
Qed.
End Machine.

(** ** Revocation *)

Lemma partition_size (goes : string * SessionRow -> bool) (t : sessions) :
  size t = size (filter (fun kv => goes kv = true) t) + size (filter (fun kv => goes kv = false) t).
Proof.
  assert (Hno : filter (fun kv => goes kv = false) t = filter (fun kv => ~ goes kv = true) t)
    by (apply map_filter_ext; intros k r _; by rewrite not_true_iff_false).
  rewrite Hno. rewrite <- (map_filter_union_complement (fun kv => goes kv = true) t) at 1.
  by rewrite map_size_disj_union by apply map_disjoint_filter_complement.
Qed.

Lemma delete_others_count (userID : Z) (sid : string) (t : sessions) :
  (DeleteSessionsByUser userID sid t).2 = (Z.of_nat (size t) - Z.of_nat (size (DeleteSessionsByUser userID sid t).1))%Z.
Proof.
  unfold DeleteSessionsByUser. cbn [fst snd].
  rewrite (partition_size (fun kv => of_user userID kv.2 && negb (String.eqb kv.1 sid)) t). lia.
Qed.

Lemma delete_others_lookup (userID : Z) (sid : string) (t : sessions) (k : string) (r : SessionRow) :
  (DeleteSessionsByUser userID sid t).1 !! k = Some r <->
  t !! k = Some r /\ (UserID (s_session r) = userID -> k = sid).
Proof.
  unfold DeleteSessionsByUser. cbn [fst]. rewrite map_lookup_filter_Some. unfold of_user; simpl.
  destruct (Z.eqb_spec (UserID (s_session r)) userID), (String.eqb_spec k sid); naive_solver.
Qed.

(** C12: A revocation takes exactly what it names: revoking one session removes it just when
    it is a session of the caller, and is refused without a change otherwise, whoever the
    session belongs to; revoking all others leaves the caller's own session and those of
    everyone else, removes every other of the caller's, and tells how many; and each that
    removes something is recorded once. *)
Theorem revocation_exact (u : User) (current sid : string) (t : sessions) :
  (let '(t', events, answer) := RevokeSession_ (Some (u, current)) (mkRevokeSessionRequest sid) t in
   (answer = inl tt <-> sid <> ""%string /\ exists r, t !! sid = Some r /\ UserID (s_session r) = ID u)
   /\ (answer = inl tt -> t' = delete sid t /\ events = [event_of u "session_revoked" "action: revoke_single"])
   /\ (answer <> inl tt -> t' = t /\ events = []))
  /\ let '(t', events, answer) := RevokeAllOtherSessions_ (Some (u, current)) t in
     (forall k r, t' !! k = Some r <-> t !! k = Some r /\ (UserID (s_session r) = ID u -> k = current))
     /\ answer = inl (mkRevokeAllOtherSessionsResponse (Z.of_nat (size t) - Z.of_nat (size t')))
     /\ length events = 1.
Proof.
  split.
  - unfold RevokeSession_, DeleteSessionByIDAndUser. simpl. destruct (String.eqb_spec sid "") as [->|Hne].
    { split_and!; [|done..]. split; [done|]. by intros [? _]. }
    destruct (t !! sid) as [r|] eqn:E; simpl; [|split_and!; [split; [done|by intros [_ (? & ? & _)]]|done..]].
    unfold of_user. destruct (Z.eqb_spec (UserID (s_session r)) (ID u)) as [Hu|Hu]; simpl.
    + split_and!; [split; [by eauto|done]|done..].
    + split_and!; [split; [done|intros [_ (? & ? & ?)]; congruence]|done..].
  - unfold RevokeAllOtherSessions_. pose proof (delete_others_lookup (ID u) current t) as Hk.
    pose proof (delete_others_count (ID u) current t) as Hn.
    destruct (DeleteSessionsByUser (ID u) current t) as [t' n]. simpl in *. split_and!; [done|by rewrite Hn|done].
Qed.

(** ** Cookies *)

Definition hex_char (c : ascii) : bool :=
  let n := nat_of_ascii c in ((48 <=? n) && (n <=? 57)) || ((97 <=? n) && (n <=? 102)).

Definition session_pair (sessionID : string) : string := "session_id=" +:+ sessionID.

Lemma hex_dark (c : ascii) : hex_char c = true -> negb (is_space c) = true /\ negb (Ascii.eqb ";" c) = true.
Proof. destruct c as [[] [] [] [] [] [] [] []]; vm_compute; tauto. Qed.

Lemma pair_dark (sid : string) :
  all_chars hex_char sid = true ->
  all_chars (fun c => negb (is_space c)) (session_pair sid) = true
  /\ all_chars (fun c => negb (Ascii.eqb ";" c)) (session_pair sid) = true.
Proof.
  intros H. unfold session_pair. rewrite !all_chars_app.
  split; apply andb_true_intro; (split; [reflexivity|]); (eapply all_chars_impl; [|exact H]); intros c Hc; by apply hex_dark.
Qed.

Lemma find_cookie_first (sid : string) (parts : list string) :
  all_chars hex_char sid = true -> find_cookie (session_pair sid :: parts) = sid.
Proof.
  intros H. cbn [find_cookie]. pose proof (pair_dark sid H) as [Hs _]. rewrite (trim_dark _ Hs). unfold session_pair.
  rewrite startsWith_append. apply (slice_from_append "session_id=").
Qed.

Lemma trim_lead (s : string) : trim (String " " s) = trim s.
Proof. reflexivity. Qed.

(** Cookies of other names, as browsers send them. *)
Definition other_cookie (p : string) : Prop :=
  all_chars (fun c => negb (Ascii.eqb ";" c)) p = true /\ startsWith "session_id=" (trim p) = false.

Lemma find_other (p : string) (parts : list string) :
  other_cookie p -> find_cookie (p :: parts) = find_cookie parts.
Proof. intros [_ H]. cbn [find_cookie]. by rewrite H. Qed.

Lemma find_lead (p : string) (parts : list string) : find_cookie (String " " p :: parts) = find_cookie (p :: parts).
Proof. cbn [find_cookie]. by rewrite trim_lead. Qed.

Lemma split_lead (s : string) : exists p ps, split_on ";" s = p :: ps /\ split_on ";" (String " " s) = String " " p :: ps.
Proof. cbn. destruct (split_on ";" s) as [|p ps] eqn:E; [|by exists p, ps]. destruct s; simpl in E; [done|]. by repeat case_match. Qed.

Lemma parse_lead (s : string) : parseSessionCookie (String " " s) = parseSessionCookie s.
Proof. unfold parseSessionCookie. destruct (split_lead s) as (p & ps & -> & ->). apply find_lead. Qed.

Lemma parse_pair (sid rest : string) :
  all_chars hex_char sid = true ->
  parseSessionCookie (session_pair sid) = sid /\ parseSessionCookie (session_pair sid +:+ ";" +:+ rest) = sid.
Proof.
  intros H. pose proof (pair_dark sid H) as [_ Hd]. unfold parseSessionCookie. split.
  - rewrite split_on_none by done. by apply find_cookie_first.
  - change (";" +:+ rest) with (String ";" rest). rewrite split_on_app by done. by apply find_cookie_first.
Qed.

(** the session's cookie comes back as it was made: the first part of what a sign-in sets
    is a pair that the server reads its own token out of, and it reads the same token when
    a browser sends the pair among cookies of other names, wherever it stands. *)
Theorem cookie_roundtrip (sid secure : string) (maxAge : Z) (proto : option string) (before after : list string)
    (Hsid : all_chars hex_char sid = true) (Hbefore : Forall other_cookie before) :
  let pair := List.hd "" (split_on ";" (formatSessionCookie sid maxAge secure proto)) in
  parseSessionCookie (formatSessionCookie sid maxAge secure proto) = sid
  /\ parseSessionCookie (join "; " (before ++ pair :: after)) = sid.
Proof.
  assert (Hf : exists rest, formatSessionCookie sid maxAge secure proto = session_pair sid +:+ ";" +:+ rest).
  { eexists. unfold formatSessionCookie, session_pair. rewrite !append_assoc. reflexivity. }
  destruct Hf as [rest ->]. pose proof (pair_dark sid Hsid) as [_ Hd].
  change (";" +:+ rest) with (String ";" rest). rewrite split_on_app by done. cbn [List.hd].
  split; [by apply (parse_pair sid rest)|].
  induction Hbefore as [|p ps Hp _ IH].
  - simpl. destruct after as [|a after]; [by apply parse_pair|]. by apply (parse_pair sid (" " +:+ join "; " (a :: after))).
  - assert (Hj : join "; " ((p :: ps) ++ session_pair sid :: after)
      = p +:+ String ";" (String " " (join "; " (ps ++ session_pair sid :: after)))).
    { simpl. destruct (ps ++ session_pair sid :: after) eqn:E; [by destruct ps|done]. }
    rewrite Hj. unfold parseSessionCookie. rewrite split_on_app by apply Hp. rewrite find_other by done.
    change (parseSessionCookie (String " " (join "; " (ps ++ session_pair sid :: after))) = sid). by rewrite parse_lead.
Qed.

(** ** The first administrator *)

(** The users; their ids count up, names are unique. *)
Record Users := mkUsers { user_rows : list UserRow; last_user : Z }.

Definition CountUsers (t : Users) : Z := Z.of_nat (length (user_rows t)).

Definition CreateUser (username passwordHash role : string) (t : Users) : option (Users * User) :=
  if existsb (fun r => String.eqb (Username (row_user r)) username) (user_rows t) then None
  else
    let u := mkUser (last_user t + 1) username role in
    Some (mkUsers (user_rows t ++ [mkUserRow u passwordHash]) (last_user t + 1), u).


(** [SetupAdmin]: the validator of passwords and bcrypt are parameters; [t0] is the table
    whose users are counted, [t] the one the user is created in. *)
Definition SetupAdmin (validate : string -> option handler_error) (GenerateFromPassword : string -> string + string)
    (req : SetupAdminRequest) (clientIP : string) (t0 t : Users) :
    Users * list auth_event * (SetupAdminResponse + handler_error) :=
  let username := SetupAdminRequest_username req in
  let password := SetupAdminRequest_password req in
  if String.eqb username "" || String.eqb password "" then
    (t, [], inr (Coded CodeInvalidArgument "username and password are required"))
  else
    match validate password with
    | Some err => (t, [], inr err)
    | None =>
        if (0 <? CountUsers t0)%Z then (t, [], inr (Coded CodeFailedPrecondition "admin account already setup"))
        else
          match GenerateFromPassword password with
          | inr err => (t, [], inr (Coded CodeInternal ("failed to hash password: " +:+ err)))
          | inl hashedPassword =>
              match CreateUser username hashedPassword "admin" t with
              | None => (t, [], inr (Coded CodeInternal "failed to create admin"))
              | Some (t, user) =>
                  (t, [event_of user "setup_admin" ("ip: " +:+ clientIP)],
                   inl (mkSetupAdminResponse (Username user) (Role user)))
              end
          end
    end.

Definition GetServerStatus (passkeys : bool) (rpId : string) (origins : list string) (version commit date : string)
    (t : Users) : GetServerStatusResponse :=
  mkGetServerStatusResponse (CountUsers t =? 0)%Z passkeys rpId origins version commit date.

(** Set-up happens once, as long as no two run at the same time: it succeeds only on a
    server that says it needs it, which afterwards says so no more, and then never again. *)
Theorem setup_once (validate : string -> option handler_error) (hash : string -> string + string)
    (req : SetupAdminRequest) (ip : string) (t : Users) (passkeys : bool) (rpId : string) (origins : list string)
    (v c d : string) :
  let '(t', events, answer) := SetupAdmin validate hash req ip t t in
  let needsSetup t := GetServerStatusResponse_needsSetup (GetServerStatus passkeys rpId origins v c d t) in
  match answer with
  | inl resp => needsSetup t = true /\ needsSetup t' = false
      /\ resp = mkSetupAdminResponse (SetupAdminRequest_username req) "admin" /\ length events = 1
      /\ forall req' ip', exists err, (SetupAdmin validate hash req' ip' t' t').2 = inr err
  | inr _ => t' = t /\ events = []
  end.
Proof.
  unfold SetupAdmin. destruct (_ || _); [done|]. destruct (validate _); [done|].
  destruct (0 <? CountUsers t)%Z eqn:Ec; [done|]. destruct (hash _); [|done]. unfold CreateUser.
  destruct (existsb _ _); [done|]. apply Z.ltb_ge in Ec. unfold CountUsers in Ec. simpl.
  assert (Hc : forall u, CountUsers (mkUsers (user_rows t ++ [u]) (last_user t + 1)) = (CountUsers t + 1)%Z)
    by (intros u; unfold CountUsers; simpl; rewrite length_app; simpl; lia).
  split_and!; [unfold CountUsers; apply Z.eqb_eq; lia|rewrite Hc; unfold CountUsers; apply Z.eqb_neq; lia|done..|].
  intros req' ip'. destruct (_ || _); [by eexists|]. destruct (validate _); [by eexists|].
  rewrite Hc, (proj2 (Z.ltb_lt 0 _)) by (unfold CountUsers; lia). by eexists.
Qed.

(** ** Concrete sessions *)

Definition hour : Z := 60 * minute.
Definition config_ex : AuthConfig := mkAuthConfig (168 * hour) (720 * hour) (720 * hour) (2160 * hour) "auto".
Definition users_ex (id : Z) : query User := if (id =? 1)%Z then Row (mkUser 1 "root" "admin") else NoRows.

(** Counting the users and creating one are two statements: two set-ups at the same time,
    under two names, make two administrators. *)
Lemma setup_twice :
  let none := mkUsers [] 0 in
  let setup name t0 t := SetupAdmin (fun _ => None) (fun p => inl p) (mkSetupAdminRequest name "secret") "" t0 t in
  let '(t1, _, a1) := setup "ann" none none in
  let '(t2, _, a2) := setup "bob" none t1 in
  a1 = inl (mkSetupAdminResponse "ann" "admin") /\ a2 = inl (mkSetupAdminResponse "bob" "admin") /\ CountUsers t2 = 2%Z.
Proof. by vm_compute. Qed.

(** The cookie is set once, at the sign-in, with the idle timeout as its age; a renewal
    moves the deadline of the row, and nothing of it reaches the browser: after an active
    week the session lives in the table while the browser has dropped its cookie. *)
Lemma renewal_leaves_cookie :
  let '(t, answer) := issueSession_ config_ex 1 false "ab12" "" None 0 ∅ in
  let t' := foldl (fun t e => perform_effect e t) t
              (authenticate (GetSession t) users_ex (168 * hour) "ab12" (100 * hour)).1 in
  answer = inl "session_id=ab12; Path=/; HttpOnly; SameSite=Lax; Max-Age=604800"%string
  /\ ((fun r => ExpiresAt (s_session r)) <$> t' !! "ab12"%string) = Some (268 * hour)%Z /\ (604800 * second < 268 * hour)%Z.
Proof. by vm_compute. Qed.

Lemma session_authority_witness :
  exists s, rtc (server_step config_ex users_ex (168 * hour)) (server_start 0) s
  /\ (exists i r, issued s !! "ab12"%string = Some i /\ users_ex (for_user i) = Row (mkUser 1 "root" "admin")
       /\ (clock s <= issued_at i + absolute_of config_ex (remembered i))%Z
       /\ table_ s !! "ab12"%string = Some r /\ (clock s <= ExpiresAt (s_session r))%Z).
Proof.
  assert (H : rtc (server_step config_ex users_ex (168 * hour)) (server_start 0)
    (mkServer 0 (issueSession_ config_ex 1 false "ab12" "" None 0 ∅).1 [] {["ab12"%string := mkIssue 1 0 false]})).
  { eapply rtc_l; [|apply rtc_refl].
    eapply (signs_in _ _ _ (server_start 0) 1 false "ab12" "" None); [reflexivity|done|reflexivity]. }
  eexists. split; [exact H|].
  apply (session_authority config_ex users_ex (168 * hour) 0 _ "ab12" ltac:(reflexivity) H). reflexivity.
Defined.

Lemma cookie_roundtrip_witness :
  parseSessionCookie "theme=dark; session_id=ab12; lang=en" = "ab12"%string.
Proof.
  apply (cookie_roundtrip "ab12" "auto" 60 None ["theme=dark"%string] ["lang=en"%string]); [reflexivity|].
  constructor; [by split|constructor].
Defined.
