(* ===== verification/AdminFormat.v ===== *)
(** The formatting helpers of the Administration tables
    (frontend/src/components/adminFormat.ts). *)
From S2P Require Import Prelude JsNumber Proto.

Local Open Scope Z_scope.

Definition units : list string := ["B"; "KB"; "MB"; "GB"; "TB"]%string.

(** The [while] loop of [formatBytes]: [todo] counts the iterations left before
    [unit < units.length - 1] fails. *)
Fixpoint scale_loop (todo : nat) (value : number) (unit : nat) : number * nat :=
  match todo with
  | O => (value, unit)
  | S todo' =>
      if nge value (Number 1000)
      then scale_loop todo' (ndiv value (Number 1000)) (S unit)
      else (value, unit)
  end.

Definition unit_name (u : nat) : string := default "" (units !! u).

Definition formatBytes (bytes : Z) (oneDecimal : bool) : string :=
  let '(value, unit) := scale_loop 4 (Number bytes) 0 in
  if oneDecimal && nonzero value then
    toFixed1 value +:+ " " +:+ unit_name unit
  else
    let rounded :=
      if (unit =? 0)%nat || nge value (Number 10)
      then num (math_round value) else shortest1 value in
    rounded +:+ " " +:+ unit_name unit.

Definition plural (count : Z) (unit : string) : string :=
  num count +:+ " " +:+ unit +:+ (if count =? 1 then "" else "s") +:+ " ago".

(** [now] is [Date.now()] in milliseconds. The products and differences are
    exact doubles for |seconds| up to 9 * 10^12, about 285000 years. *)
Definition formatRelativeUnix (now seconds : Z) : string :=
  let ms := seconds * 1000 in
  if ms <=? 0 then "—" else
  let diff := now - ms in
  if diff <? 0 then "—" else
  let minutes := diff / 60000 in
  if minutes <? 1 then "just now" else
  if minutes <? 60 then plural minutes "minute" else
  let hours := minutes / 60 in
  if hours <? 24 then plural hours "hour" else
  let days := hours / 24 in
  if days <? 30 then plural days "day" else
  let months := days / 30 in
  if months <? 12 then plural months "month" else
  plural (months / 12) "year".

(** [toLocaleDateString] depends on the locale of the browser, hence a
    parameter from milliseconds to text. *)
Definition formatTimestamp (localeDate : Z -> string) (ts : option Timestamp) : string :=
  match ts with
  | None => "—"
  | Some t =>
      let ms := seconds t * 1000 in
      if ms <=? 0 then "—" else localeDate ms
  end.

Definition formatShortId (id : string) : string :=
  let bare := if startsWith "sha256:" id then slice_from (slen "sha256:") id else id in
  slice_to 12 bare.

(** [s.lastIndexOf(c)], [None] for -1 *)
Fixpoint lastIndexOf (c : ascii) (s : string) : option nat :=
  match s with
  | EmptyString => None
  | String a s' =>
      match lastIndexOf c s' with
      | Some i => Some (S i)
      | None => if Ascii.eqb a c then Some O else None
      end
  end.

Record RepoTag := mkRepoTag { repository : string; tag : string }.

Definition splitRepoTag (repoTag : option string) : RepoTag :=
  match repoTag with
  | None => mkRepoTag "<none>" "<none>"
  | Some r =>
      if negb (truthy r) then mkRepoTag "<none>" "<none>" else
      match lastIndexOf ":" r with
      | Some (S i) =>
          let lastColon := S i in
          if negb (includes "/" (slice_from (S lastColon) r))
          then mkRepoTag (slice_to lastColon r) (slice_from (S lastColon) r)
          else mkRepoTag r "<none>"
      | _ => mkRepoTag r "<none>"
      end
  end.

Definition isDefaultNetwork (name : string) : bool :=
  String.eqb name "bridge" || String.eqb name "host" || String.eqb name "none".

Record ImageStats := mkImageStats {
  totalBytes : Z;
  freeableBytes : Z;
  imageCount : nat;
  unusedCount : nat;
  danglingCount : nat;
  danglingFreeableBytes : Z
}.

(** One iteration of the [for] loop of [deriveImageStats]. *)
Definition stats_step (acc : ImageStats) (image : Image) : ImageStats :=
  let unused := Image_containersCount image =? 0 in
  let dangling := match Image_repoTags image with [] => unused | _ => false end in
  mkImageStats
    (totalBytes acc + Image_sizeBytes image)
    (if unused then freeableBytes acc + Image_sizeBytes image else freeableBytes acc)
    (imageCount acc)
    (if unused then S (unusedCount acc) else unusedCount acc)
    (if dangling then S (danglingCount acc) else danglingCount acc)
    (if dangling then danglingFreeableBytes acc + Image_sizeBytes image
     else danglingFreeableBytes acc).

Definition deriveImageStats (images : list Image) : ImageStats :=
  fold_left stats_step images (mkImageStats 0 0 (length images) 0 0 0).

(** ** Byte counts *)

(** The value after [k] divisions of the loop. *)
Fixpoint divided (k : nat) (v : number) : number :=
  match k with O => v | S k' => divided k' (ndiv v (Number 1000)) end.

Lemma scale_loop_spec (todo : nat) (v : number) (u : nat) :
  exists k, (k <= todo)%nat /\
    scale_loop todo v u = (divided k v, (u + k)%nat) /\
    (k = todo \/ nge (divided k v) (Number 1000) = false) /\
    forall j, (j < k)%nat -> nge (divided j v) (Number 1000) = true.
Proof.
  revert v u; induction todo as [|todo IH]; intros v u; cbn [scale_loop].
  - exists 0%nat. rewrite Nat.add_0_r. repeat split; auto; lia.
  - destruct (nge v (Number 1000)) eqn:Hge.
    + destruct (IH (ndiv v (Number 1000)) (S u)) as (k & Hk & Heq & Hend & Hall).
      exists (S k). split; [lia|]. split; [by rewrite Heq, Nat.add_succ_comm|].
      split; [destruct Hend; [left; lia|by right]|].
      intros [|j] Hj; [done|]. apply Hall. lia.
    + exists 0%nat. rewrite Nat.add_0_r. repeat split; auto; lia.
Qed.

(** All byte counts below 1000, for the exhaustive check of [formatBytes]. *)
Definition below_1000 : list Z := Z.of_nat <$> seq 0 1000.

Lemma below_1000_elem (b : Z) : 0 <= b < 1000 -> b ∈ below_1000.
Proof.
  intros Hb. apply list_elem_of_fmap. exists (Z.to_nat b).
  split; [lia|]. apply elem_of_seq. lia.
Qed.

Lemma formatBytes_below_1000_check :
  forallb (fun b => String.eqb (formatBytes b false) (num b +:+ " B") &&
    ((b =? 0) || String.eqb (formatBytes b true) (num b +:+ ".0 B"))) below_1000 = true.
Proof. vm_compute. reflexivity. Qed.

(** Byte counts below 1000 print exactly: the count itself, with ".0" in the
    one-decimal form (0 stays "0 B"), and the unit B. *)
Theorem formatBytes_below_1000 (b : Z) :
  0 <= b < 1000 ->
  formatBytes b false = num b +:+ " B" /\
  formatBytes b true = (if b =? 0 then "0 B" else num b +:+ ".0 B").
Proof.
  intros Hb. pose proof formatBytes_below_1000_check as H.
  rewrite forallb_forall in H.
  specialize (H b (proj1 (list_elem_of_In _ _) (below_1000_elem b Hb))).
  apply andb_true_iff in H as [H1 H2]. apply String.eqb_eq in H1.
  split; [done|]. destruct (Z.eqb_spec b 0) as [->|_]; [reflexivity|].
  by apply String.eqb_eq in H2.
Qed.

Lemma formatBytes_below_1000_witness :
  (0 <= 512 < 1000) /\ formatBytes 512 false = "512 B" /\ formatBytes 512 true = "512.0 B".
Proof.
  split; [lia|]. pose proof (formatBytes_below_1000 512 ltac:(lia)) as [H1 H2].
  split; [exact H1|exact H2].
Defined.

(** The unit loop terminates on every double within its four iterations; it
    stops at the first value below 1000, or at TB. *)
Theorem formatBytes_unit (bytes : Z) :
  exists k, (k <= 4)%nat /\
    scale_loop (length units - 1) (Number bytes) 0 = (divided k (Number bytes), k) /\
    is_Some (units !! k) /\
    (unit_name k = "TB" \/ nge (divided k (Number bytes)) (Number 1000) = false) /\
    forall j, (j < k)%nat -> nge (divided j (Number bytes)) (Number 1000) = true.
Proof.
  destruct (scale_loop_spec (length units - 1) (Number bytes) 0) as (k & Hk & Heq & Hend & Hall).
  cbn [units length Nat.sub] in Hk.
  exists k. split; [done|]. split; [done|]. split.
  - apply lookup_lt_is_Some. cbn. lia.
  - split; [|done]. destruct Hend as [->|]; [by left|by right].
Qed.

(** ** Relative times *)

(** The units of [formatRelativeUnix] and their lengths in milliseconds. *)
Definition time_units : list (string * Z) :=
  [("minute", 60000); ("hour", 3600000); ("day", 86400000);
   ("month", 2592000000); ("year", 31104000000)]%string.

Lemma div_bounds (a b : Z) : 0 < b -> b * (a / b) <= a < b * (a / b + 1).
Proof.
  intros Hb. pose proof (Z.mul_div_le a b Hb).
  pose proof (Z.mul_succ_div_gt a b Hb). lia.
Qed.

(** The witness of one branch of [formatRelativeUnix_spec]. *)
Ltac elapsed n u len :=
  exists n, u, len; split; [repeat constructor|]; repeat split; lia || reflexivity.

(** A relative time is never a count of zero and never overstates: the text
    is "n unit(s) ago" with n >= 1 and n units elapsed but not n + 1, or "just
    now" below a minute, or a dash for times unset or in the future. *)
Theorem formatRelativeUnix_spec (now seconds : Z) :
  let diff := now - seconds * 1000 in
  (formatRelativeUnix now seconds = "—" /\ (seconds <= 0 \/ diff < 0)) \/
  (formatRelativeUnix now seconds = "just now" /\ 0 < seconds /\ 0 <= diff < 60000) \/
  exists n unit len, (unit, len) ∈ time_units /\ 0 < seconds /\ 1 <= n /\
    n * len <= diff < (n + 1) * len /\
    formatRelativeUnix now seconds = plural n unit.
Proof.
  intros diff. unfold formatRelativeUnix. fold diff.
  destruct (Z.leb_spec (seconds * 1000) 0); [left; split; [done|lia]|].
  destruct (Z.ltb_spec diff 0); [left; split; [done|lia]|].
  assert (diff / 60000 / 60 = diff / 3600000) as Eh by (rewrite Z.div_div by lia; done).
  assert (diff / 3600000 / 24 = diff / 86400000) as Ed by (rewrite Z.div_div by lia; done).
  assert (diff / 86400000 / 30 = diff / 2592000000) as Em by (rewrite Z.div_div by lia; done).
  assert (diff / 2592000000 / 12 = diff / 31104000000) as Ey by (rewrite Z.div_div by lia; done).
  rewrite Eh, Ed, Em, Ey.
  pose proof (div_bounds diff 60000 ltac:(lia)). pose proof (div_bounds diff 3600000 ltac:(lia)).
  pose proof (div_bounds diff 86400000 ltac:(lia)). pose proof (div_bounds diff 2592000000 ltac:(lia)).
  pose proof (div_bounds diff 31104000000 ltac:(lia)).
  destruct (Z.ltb_spec (diff / 60000) 1); [right; left; split; [done|lia]|].
  right; right. unfold time_units.
  destruct (Z.ltb_spec (diff / 60000) 60); [elapsed (diff / 60000) "minute"%string 60000|].
  destruct (Z.ltb_spec (diff / 3600000) 24); [elapsed (diff / 3600000) "hour"%string 3600000|].
  destruct (Z.ltb_spec (diff / 86400000) 30); [elapsed (diff / 86400000) "day"%string 86400000|].
  destruct (Z.ltb_spec (diff / 2592000000) 12);
    [elapsed (diff / 2592000000) "month"%string 2592000000|
     elapsed (diff / 31104000000) "year"%string 31104000000].
Qed.

(** ** Identifiers and repository tags *)

(** A short id has at most 12 characters, is the prefix of the bare id, and
    does not depend on whether the "sha256:" prefix was present. *)
Theorem formatShortId_spec (id : string) :
  (slen (formatShortId id) <= 12)%nat /\
  (startsWith "sha256:" id = false -> formatShortId ("sha256:" +:+ id) = formatShortId id) /\
  exists rest, id = formatShortId id +:+ rest \/
    id = "sha256:" +:+ formatShortId id +:+ rest.
Proof.
  unfold formatShortId. split; [|split].
  - rewrite slice_to_length. lia.
  - intros H. rewrite startsWith_append, slice_from_append, H. done.
  - destruct (startsWith "sha256:" id) eqn:H.
    + exists (slice_from 12 (slice_from (slen "sha256:") id)). right.
      rewrite slice_split. by apply startsWith_spec.
    + exists (slice_from 12 id). left. by rewrite slice_split.
Qed.

Lemma formatShortId_spec_witness :
  startsWith "sha256:" "0123456789abcdef" = false /\
  formatShortId "sha256:0123456789abcdef" = formatShortId "0123456789abcdef".
Proof.
  split; [reflexivity|].
  exact (proj1 (proj2 (formatShortId_spec "0123456789abcdef")) eq_refl).
Defined.

(** Whether a character occurs in a string. *)
Definition has_char (c : ascii) (s : string) : bool := includes (String c "") s.

Lemma has_char_cons (c d : ascii) (s : string) :
  has_char c (String d s) = Ascii.eqb c d || has_char c s.
Proof.
  unfold has_char. cbn [includes startsWith]. f_equal.
  rewrite andb_comm. by destruct s.
Qed.

Lemma has_char_append (c : ascii) (a b : string) :
  has_char c (a +:+ b) = has_char c a || has_char c b.
Proof.
  induction a as [|d a IH].
  - rewrite append_nil_l. done.
  - rewrite append_cons, !has_char_cons, IH. by rewrite orb_assoc.
Qed.

Lemma lastIndexOf_None (c : ascii) (s : string) :
  lastIndexOf c s = None <-> has_char c s = false.
Proof.
  induction s as [|d s IH]; [done|]. rewrite has_char_cons. cbn.
  destruct (lastIndexOf c s) as [i|] eqn:Hl.
  - split; [done|]. intros [_ H]%orb_false_iff. by apply IH in H.
  - rewrite (proj1 IH eq_refl), orb_false_r, Ascii.eqb_sym.
    by destruct (Ascii.eqb c d).
Qed.

Lemma lastIndexOf_Some (c : ascii) (s : string) (i : nat) :
  lastIndexOf c s = Some i ->
  s = slice_to i s +:+ String c (slice_from (S i) s) /\ has_char c (slice_from (S i) s) = false.
Proof.
  unfold slice_to. revert i; induction s as [|d s IH]; intros i; cbn [lastIndexOf]; [done|].
  destruct (lastIndexOf c s) as [j|] eqn:Hl; intros H; simplify_eq.
  - destruct (IH _ eq_refl) as [H1 H2].
    split; [|done]. cbn [String.substring]. rewrite append_cons. by f_equal.
  - destruct (Ascii.eqb_spec d c) as [->|]; [|done]. simplify_eq.
    cbn. split; [by destruct s|]. apply lastIndexOf_None. by destruct s.
Qed.

Lemma lastIndexOf_append (c : ascii) (a b : string) :
  has_char c b = false -> lastIndexOf c (a +:+ String c b) = Some (slen a).
Proof.
  intros Hb. induction a as [|d a IH].
  - rewrite append_nil_l. cbn. rewrite (proj2 (lastIndexOf_None c b) Hb).
    by rewrite Ascii.eqb_refl.
  - rewrite append_cons. cbn. by rewrite IH.
Qed.

Lemma slice_to_append (a b : string) : slice_to (slen a) (a +:+ b) = a.
Proof.
  unfold slice_to. induction a as [|c a IH]; [by destruct b|].
  rewrite append_cons. cbn. by rewrite IH.
Qed.

Lemma slice_from_S (n : nat) (c : ascii) (s : string) :
  slice_from (S n) (String c s) = slice_from n s.
Proof. done. Qed.

Lemma slice_from_after (a b : string) (c : ascii) : slice_from (S (slen a)) (a +:+ String c b) = b.
Proof.
  induction a as [|d a IH]; [done|].
  rewrite append_cons. cbn [String.length]. by rewrite slice_from_S, IH.
Qed.

(** Splitting undoes joining: a non-empty repository and a tag free of ":"
    and "/" come back from "repository:tag", registry ports included. *)
Theorem splitRepoTag_join (repo t : string) :
  repo <> "" -> has_char ":" t = false -> has_char "/" t = false ->
  splitRepoTag (Some (repo +:+ ":" +:+ t)) = mkRepoTag repo t.
Proof.
  intros Hr Hc Hs. unfold splitRepoTag.
  assert (truthy (repo +:+ ":" +:+ t) = true) as ->
    by (apply truthy_true; destruct repo; done).
  change (":" +:+ t) with (String ":" t).
  rewrite lastIndexOf_append by done. destruct repo as [|c repo]; [done|].
  cbn [slen String.length negb].
  change (S (String.length repo)) with (String.length (String c repo)).
  rewrite slice_from_after. fold (has_char "/" t). rewrite Hs. cbn [negb].
  by rewrite slice_to_append.
Qed.

Lemma splitRepoTag_join_witness :
  has_char ":" "v1.2" = false /\
  splitRepoTag (Some "registry:5000/img:v1.2") = mkRepoTag "registry:5000/img" "v1.2".
Proof.
  split; [reflexivity|].
  exact (splitRepoTag_join "registry:5000/img" "v1.2" ltac:(done) eq_refl eq_refl).
Defined.

(** Splitting loses nothing: the parts of a non-empty reference either join
    back to it, with a tag free of ":" and "/", or the reference is kept whole
    as the repository with no tag. *)
Theorem splitRepoTag_parts (r : string) :
  r <> "" ->
  let p := splitRepoTag (Some r) in
  (r = repository p +:+ ":" +:+ tag p /\ repository p <> "" /\
     has_char ":" (tag p) = false /\ has_char "/" (tag p) = false) \/
  (p = mkRepoTag r "<none>").
Proof.
  intros Hr. cbn zeta. unfold splitRepoTag.
  rewrite (proj2 (truthy_true r) Hr). cbn [negb].
  destruct (lastIndexOf ":" r) as [[|i]|] eqn:Hl; [by right| |by right].
  destruct (includes "/" (slice_from (S (S i)) r)) eqn:Hs; cbn [negb]; [by right|].
  left. cbn. destruct (lastIndexOf_Some _ _ _ Hl) as [H1 H2].
  split; [exact H1|]. split; [|done]. destruct r; [done|]. unfold slice_to. done.
Qed.

Lemma splitRepoTag_parts_witness :
  "localhost:5000/app" <> "" /\
  splitRepoTag (Some "localhost:5000/app") = mkRepoTag "localhost:5000/app" "<none>".
Proof.
  split; [done|].
  destruct (splitRepoTag_parts "localhost:5000/app" ltac:(done)) as [(H&_)|H];
    [vm_compute in H; discriminate H|exact H].
Defined.

(** ** Image statistics *)

Definition sum_sizes (l : list Image) : Z := foldr (fun i acc => Image_sizeBytes i + acc) 0 l.

(** The prune scope and the dangling scope, as predicates. *)
Definition is_unused (i : Image) : Prop := Image_containersCount i = 0.
Definition is_dangling (i : Image) : Prop := Image_repoTags i = [] /\ is_unused i.

#[global] Instance is_unused_dec (i : Image) : Decision (is_unused i) := decide (_ = 0).
#[global] Instance is_dangling_dec (i : Image) : Decision (is_dangling i).
Proof. apply and_dec; [|apply _]. destruct (Image_repoTags i); [by left|by right]. Defined.

Lemma sum_sizes_cons (i : Image) (l : list Image) :
  sum_sizes (i :: l) = Image_sizeBytes i + sum_sizes l.
Proof. done. Qed.

Lemma stats_fold (l : list Image) (acc : ImageStats) :
  fold_left stats_step l acc =
  mkImageStats
    (totalBytes acc + sum_sizes l)
    (freeableBytes acc + sum_sizes (filter is_unused l))
    (imageCount acc)
    (unusedCount acc + length (filter is_unused l))
    (danglingCount acc + length (filter is_dangling l))
    (danglingFreeableBytes acc + sum_sizes (filter is_dangling l)).
Proof.
  revert acc; induction l as [|i l IH]; intros acc; cbn [fold_left].
  - destruct acc; cbn -[Nat.add]. by rewrite !Z.add_0_r, !Nat.add_0_r.
  - rewrite IH, !filter_cons. unfold stats_step.
    destruct (Z.eqb_spec (Image_containersCount i) 0) as [E|E].
    + rewrite (decide_True (P := is_unused i)) by done.
      destruct (Image_repoTags i) eqn:Ht.
      * rewrite (decide_True (P := is_dangling i)) by done. cbn -[sum_sizes]; rewrite ?sum_sizes_cons. f_equal; lia.
      * rewrite (decide_False (P := is_dangling i)) by (by intros [? _]; congruence).
        cbn -[sum_sizes]; rewrite ?sum_sizes_cons. f_equal; lia.
    + rewrite (decide_False (P := is_unused i)) by done.
      rewrite (decide_False (P := is_dangling i)) by (by intros [_ ?]).
      destruct (Image_repoTags i); cbn -[sum_sizes]; rewrite ?sum_sizes_cons; f_equal; lia.
Qed.

(** The one-pass statistics are the sums and counts over the unused images
    (usage count exactly 0; unknown -1 is in use) and the dangling ones. *)
Theorem deriveImageStats_spec (images : list Image) :
  deriveImageStats images =
  mkImageStats (sum_sizes images) (sum_sizes (filter is_unused images)) (length images)
    (length (filter is_unused images)) (length (filter is_dangling images))
    (sum_sizes (filter is_dangling images)).
Proof. unfold deriveImageStats. by rewrite stats_fold. Qed.

Lemma sum_sizes_filter (P Q : Image -> Prop) `{!forall i, Decision (P i), !forall i, Decision (Q i)}
    (l : list Image) :
  (forall i, P i -> Q i) -> Forall (fun i => 0 <= Image_sizeBytes i) l ->
  sum_sizes (filter P l) <= sum_sizes (filter Q l).
Proof.
  intros HPQ Hl. induction Hl as [|i l Hi Hl IH]; [done|].
  rewrite !filter_cons. repeat case_decide; rewrite ?sum_sizes_cons; try lia. naive_solver.
Qed.

Lemma length_filter_mono (P Q : Image -> Prop)
    `{!forall i, Decision (P i), !forall i, Decision (Q i)} (l : list Image) :
  (forall i, P i -> Q i) -> (length (filter P l) <= length (filter Q l))%nat.
Proof.
  intros HPQ. induction l as [|i l IH]; [done|].
  rewrite !filter_cons. repeat case_decide; cbn; try lia. naive_solver.
Qed.

Lemma filter_every (l : list Image) : filter (fun _ => True) l = l.
Proof. induction l as [|i l IH]; [done|]. rewrite filter_cons_True by done. by rewrite IH. Qed.

(** Freeable figures never overstate: dangling within unused within total,
    for counts and, sizes being non-negative, for bytes. *)
Theorem deriveImageStats_bounds (images : list Image) :
  Forall (fun i => 0 <= Image_sizeBytes i) images ->
  let s := deriveImageStats images in
  (danglingCount s <= unusedCount s <= imageCount s)%nat /\
  0 <= danglingFreeableBytes s <= freeableBytes s /\
  freeableBytes s <= totalBytes s.
Proof.
  intros Hpos s. subst s. unfold deriveImageStats. rewrite stats_fold. cbn.
  assert (0 <= sum_sizes (filter is_dangling images)) as Hnn.
  { transitivity (sum_sizes (filter (fun _ => False) images)).
    - induction images as [|i l IH]; [done|].
      rewrite filter_cons_False by tauto. apply IH. by inversion Hpos.
    - by apply sum_sizes_filter. }
  assert (forall i, is_dangling i -> is_unused i) as Hdu by (by intros i [_ ?]).
  pose proof (length_filter_mono is_dangling is_unused images Hdu).
  pose proof (length_filter_mono is_unused (fun _ => True) images ltac:(done)).
  pose proof (sum_sizes_filter is_dangling is_unused images Hdu Hpos).
  pose proof (sum_sizes_filter is_unused (fun _ => True) images ltac:(done) Hpos).
  rewrite filter_every in *. lia.
Qed.

Definition image_ex (n size used : Z) (tags : list string) : Image :=
  mkImage (num n) tags 0 size used.

Lemma deriveImageStats_bounds_witness :
  let l := [image_ex 1 10 0 []; image_ex 2 20 (-1) []; image_ex 3 5 0 ["a"]] in
  Forall (fun i => 0 <= Image_sizeBytes i) l /\
  0 <= danglingFreeableBytes (deriveImageStats l) <= freeableBytes (deriveImageStats l).
Proof.
  cbn zeta. assert (Forall (fun i => 0 <= Image_sizeBytes i)
    [image_ex 1 10 0 []; image_ex 2 20 (-1) []; image_ex 3 5 0 ["a"]]) as H
    by (repeat constructor; cbn; lia).
  split; [exact H|]. exact (proj1 (proj2 (deriveImageStats_bounds _ H))).
Defined.
