(* ===== verification/Toast.v ===== *)
(** Toasts: the provider (frontend/src/context/ToastContext.tsx) and the timer
    of a mounted toast (frontend/src/components/ToastContainer.tsx).

    Hooks that show toasts run over the product of their own state and a
    [ToastState]; [toast] and [setState] are the two kinds of updates they make. *)
From S2P Require Import Prelude Async.

(** ** The provider *)

Inductive ToastType := info | success | warning | error.

#[global] Instance ToastType_eq_dec : EqDecision ToastType.
Proof. solve_decision. Defined.

Record ToastItem := mkToastItem {
  toast_id : string;
  toast_type : ToastType;
  toast_message : string;
  toast_duration : Z
}.

(** [random n] is the [n]-th value of [Math.random().toString(36).substring(2, 9)],
    [drawn] how many were taken. *)
Record ToastState := mkToastState {
  toasts : list ToastItem;
  random : nat -> string;
  drawn : nat
}.

Definition removeToast (id : string) (s : ToastState) : ToastState :=
  mkToastState (filter (fun t => toast_id t <> id) (toasts s)) (random s) (drawn s).

Definition addToast (ty : ToastType) (message : string) (duration : option Z) (s : ToastState) :
    ToastState * string :=
  let id := random s (drawn s) in
  (mkToastState (toasts s ++ [mkToastItem id ty message (default 5000%Z duration)])
     (random s) (S (drawn s)), id).

Definition toast_success (message : string) (duration : option Z) := addToast success message duration.
Definition toast_error (message : string) (duration : option Z) := addToast error message duration.
Definition toast_info (message : string) (duration : option Z) := addToast info message duration.
Definition toast_warning (message : string) (duration : option Z) := addToast warning message duration.

(** ** Toasts from a hook *)

Section Hook.
Context {R Req : Type} {Resp : Req -> Type}.

(** A setter of the hook's own state. *)
Definition setState (f : R -> R) : async (R * ToastState) Req Resp unit :=
  modify (fun s => (f s.1, s.2)).

(** [toast.error(message, duration)] and its siblings, the id unused. *)
Definition toast (ty : ToastType) (message : string) (duration : option Z) :
    async (R * ToastState) Req Resp unit :=
  modify (fun s => (s.1, (addToast ty message duration s.2).1)).
End Hook.

(** The messages on screen, oldest first. *)
Definition shown (s : ToastState) : list (ToastType * string) :=
  (fun t => (toast_type t, toast_message t)) <$> toasts s.

Lemma shown_addToast ty m d (s : ToastState) :
  shown (addToast ty m d s).1 = shown s ++ [(ty, m)].
Proof. unfold shown, addToast. cbn. by rewrite fmap_app. Qed.

#[export] Hint Rewrite shown_addToast : js.

(** ** The timer of a mounted toast *)

(** [live] are the timers the browser holds, [closes] counts calls of [onClose]. *)
Record ToastTimer := mkToastTimer {
  timeoutRef : option nat;
  live : list nat;
  nextTimer : nat;
  closes : nat
}.

Definition startTimer (duration : Z) (s : ToastTimer) : ToastTimer :=
  if (0 <? duration)%Z then
    mkToastTimer (Some (nextTimer s)) (nextTimer s :: live s) (S (nextTimer s)) (closes s)
  else s.

Definition clearTimer (s : ToastTimer) : ToastTimer :=
  match timeoutRef s with
  | Some t => mkToastTimer None (filter (fun t' => t' <> t) (live s)) (nextTimer s) (closes s)
  | None => s
  end.

(** What can happen to a mounted toast. *)
Inductive toast_event := MouseEnter | MouseLeave | TimerFires (t : nat) | CloseClick.

Definition on_event (duration : Z) (e : toast_event) (s : ToastTimer) : ToastTimer :=
  match e with
  | MouseEnter => clearTimer s
  | MouseLeave => startTimer duration s
  | TimerFires t =>
      if decide (t ∈ live s) then
        mkToastTimer (timeoutRef s) (filter (fun t' => t' <> t) (live s)) (nextTimer s) (S (closes s))
      else s
  | CloseClick => mkToastTimer (timeoutRef s) (live s) (nextTimer s) (S (closes s))
  end.

(** The effect of the mount: the timer starts. *)
Definition mount (duration : Z) : ToastTimer := startTimer duration (mkToastTimer None [] 0 0).

(** The states of a toast until [onClose] is called and the provider removes
    it; the pointer enters and leaves in turn. *)
Inductive toast_reachable (duration : Z) : bool -> ToastTimer -> Prop :=
| reach_mount : toast_reachable duration false (mount duration)
| reach_enter s : closes s = 0 -> toast_reachable duration false s ->
    toast_reachable duration true (on_event duration MouseEnter s)
| reach_leave s : closes s = 0 -> toast_reachable duration true s ->
    toast_reachable duration false (on_event duration MouseLeave s)
| reach_fire h s t : closes s = 0 -> toast_reachable duration h s ->
    toast_reachable duration h (on_event duration (TimerFires t) s)
| reach_close h s : closes s = 0 -> toast_reachable duration h s ->
    toast_reachable duration h (on_event duration CloseClick s).

(** A new toast is appended with its default duration; removing an id keeps
    every other toast in order, and undoes the addition of a fresh id. *)
Theorem toast_add_remove ty m d (s : ToastState) :
  let '(s', id) := addToast ty m d s in
  toasts s' = toasts s ++ [mkToastItem id ty m (default 5000%Z d)] /\
  (forall t, t ∈ toasts (removeToast id s') <-> t ∈ toasts s /\ toast_id t <> id) /\
  (id ∉ toast_id <$> toasts s -> toasts (removeToast id s') = toasts s).
Proof.
  cbn. split; [done|]. split.
  - intros t. rewrite list_elem_of_filter, elem_of_app, list_elem_of_singleton.
    split; [|tauto]. intros [Hne [Hin| ->]]; [tauto|]. done.
  - intros Hfresh. rewrite filter_app, filter_cons_False by (by intros H; apply H).
    rewrite filter_nil, app_nil_r.
    induction (toasts s) as [|t l IH]; [done|]. cbn in Hfresh.
    apply not_elem_of_cons in Hfresh as [Hne Hl].
    rewrite filter_cons_True by congruence. by rewrite IH.
Qed.

(** What the reachable states have in common. *)
Record timer_ok (duration : Z) (hover : bool) (s : ToastTimer) : Prop := {
  ok_live : live s = [] \/ exists t, live s = [t] /\ timeoutRef s = Some t;
  ok_hover : hover = true -> live s = [];
  ok_idle : hover = false -> closes s = 0 -> (0 < duration)%Z -> live s <> [];
  ok_off : (duration <= 0)%Z -> live s = [] /\ timeoutRef s = None
}.

Lemma toast_reachable_ok duration h s : toast_reachable duration h s -> timer_ok duration h s.
Proof.
  induction 1 as [|s Hc _ [Hl Hh Hi Ho]|s Hc _ [Hl Hh Hi Ho]|h s t Hc _ [Hl Hh Hi Ho]|h s Hc _ [Hl Hh Hi Ho]].
  - unfold mount, startTimer. destruct (Z.ltb_spec 0 duration).
    + split; cbn; eauto; lia.
    + split; cbn; eauto; lia.
  - cbn. unfold clearTimer. destruct (timeoutRef s) as [t|] eqn:Ht.
    + assert (filter (fun t' => t' <> t) (live s) = []) as Hf.
      { destruct Hl as [->|(t' & -> & E)]; [done|]. simplify_eq.
        by rewrite filter_cons_False by (by intros ?). }
      split; cbn; rewrite ?Hf; auto; done.
    + assert (live s = []) as E by (destruct Hl as [|(t & _ & E)]; [done|congruence]).
      split; auto; intros; congruence.
  - specialize (Hh eq_refl). cbn. unfold startTimer. destruct (Z.ltb_spec 0 duration).
    + split; cbn; rewrite ?Hh; eauto; lia.
    + split; auto; intros; lia.
  - cbn. case_decide as Hin; [|by split].
    assert (filter (fun t' => t' <> t) (live s) = []) as Hf.
    { destruct Hl as [E|(t' & E & _)]; rewrite E in *; [done|].
      apply list_elem_of_singleton in Hin as ->. by rewrite filter_cons_False by (by intros ?). }
    split; cbn; rewrite ?Hf; auto; try done. intros. split; [done|]. by apply Ho.
  - split; cbn; auto; done.
Qed.

(** Under the pointer a toast has no running timer, so it cannot vanish; off
    it exactly one timer runs (none for a sticky toast), and unmounting clears
    whatever runs, so no callback outlives its toast. *)
Theorem toast_timer_safe duration hover s :
  toast_reachable duration hover s ->
  (hover = true -> live s = []) /\
  (hover = false -> closes s = 0 -> (0 < duration)%Z ->
     exists t, live s = [t] /\ timeoutRef s = Some t) /\
  ((duration <= 0)%Z -> live s = []) /\
  live (clearTimer s) = [].
Proof.
  intros [Hl Hh Hi Ho]%toast_reachable_ok.
  split; [done|]. split; [|split; [by intros H; apply Ho in H as []|]].
  - intros H1 H2 H3. destruct Hl as [E|?]; [by destruct (Hi H1 H2 H3)|done].
  - unfold clearTimer. destruct Hl as [E|(t & E & ->)].
    + destruct (timeoutRef s); cbn; by rewrite E.
    + cbn. rewrite E. by rewrite filter_cons_False by (by intros ?).
Qed.

Lemma toast_timer_safe_witness :
  let s := on_event 5000 MouseEnter (mount 5000) in
  toast_reachable 5000 true s /\ live s = [] /\ live (clearTimer (mount 5000)) = [].
Proof.
  assert (toast_reachable 5000 true (on_event 5000 MouseEnter (mount 5000))) as H
    by (apply reach_enter; [reflexivity|constructor]).
  split; [exact H|]. split; [exact (proj1 (toast_timer_safe _ _ _ H) eq_refl)|].
  exact (proj2 (proj2 (proj2 (toast_timer_safe 5000 false _ (reach_mount 5000))))).
Defined.
