(* ===== verification/Toaster.v ===== *)
(** The toasts on the page (frontend/src/components/ToastContainer.tsx over
    frontend/src/context/ToastContext.tsx): each shown toast mounted under its id
    with a timer of its own, and what its timer and its button do to the list. *)
From S2P Require Import Prelude Async Toast.

(** ** What is shown *)

Inductive Icon := Info | CheckCircle2 | AlertCircle | AlertTriangle.

Definition toast_icon (ty : ToastType) : Icon :=
  match ty with
  | success => CheckCircle2 | error => AlertCircle | warning => AlertTriangle | info => Info
  end.

Definition type_name (ty : ToastType) : string :=
  match ty with info => "info" | success => "success" | warning => "warning" | error => "error" end.

Record ToastView := mkToastView {
  view_key : string; view_class : string; view_icon : Icon; view_message : string
}.

Definition Toast_view (t : ToastItem) : ToastView :=
  mkToastView (toast_id t) ("toast-item toast-" +:+ type_name (toast_type t)) (toast_icon (toast_type t))
    (toast_message t).

(** Nothing at all without a toast. *)
Definition ToastContainer (s : ToastState) : option (list ToastView) :=
  if length (toasts s) =? 0 then None else Some (Toast_view <$> toasts s).

(** ** The mounted toasts *)

(** A mounted [Toast]: its item, its timer, and whether the pointer is on it. *)
Record Instance_ := mkInstance { item : ToastItem; timer : ToastTimer; hovered : bool }.

(** [orphans] are the armed timers of toasts that are gone, with the id each would
    close. *)
Record Toaster := mkToaster {
  provider : ToastState;
  mounted : list Instance_;
  orphans : list (string * nat)
}.

Definition initial (random : nat -> string) : Toaster := mkToaster (mkToastState [] random 0) [] [].

Definition key (x : Instance_) : string := toast_id (item x).

(** React's children by key: a kept key keeps its instance, a new one mounts. *)
Definition reconcile (t : ToastItem) (old : list Instance_) : Instance_ :=
  match List.find (fun x => String.eqb (key x) (toast_id t)) old with
  | Some x => x
  | None => mkInstance t (mount (toast_duration t)) false
  end.

(** The timers an unmounting toast leaves armed after its cleanup. *)
Definition leftovers (x : Instance_) : list (string * nat) :=
  (fun n => (key x, n)) <$> live (clearTimer (timer x)).

(** A commit after the provider's list changed. *)
Definition commit (s : Toaster) : Toaster :=
  let keys := toast_id <$> toasts (provider s) in
  mkToaster (provider s) ((fun t => reconcile t (mounted s)) <$> toasts (provider s))
    (orphans s ++ (filter (fun x => key x ∉ keys) (mounted s) ≫= leftovers)).

Definition setProvider (p : ToastState) (s : Toaster) : Toaster := mkToaster p (mounted s) (orphans s).

(** [onClose(id)] *)
Definition onClose (id : string) (s : Toaster) : Toaster := commit (setProvider (removeToast id (provider s)) s).

(** The timer of one toast after an event, the others as they were. *)
Definition update (id : string) (f : Instance_ -> Instance_) (s : Toaster) : Toaster :=
  mkToaster (provider s) ((fun x => if String.eqb (key x) id then f x else x) <$> mounted s) (orphans s).

Definition on_instance (e : toast_event) (x : Instance_) : Instance_ :=
  mkInstance (item x) (on_event (toast_duration (item x)) e (timer x))
    (match e with MouseEnter => true | MouseLeave => false | _ => hovered x end).

Inductive event :=
| Show (ty : ToastType) (message : string) (duration : option Z)
| OnToast (id : string) (e : toast_event)
| OrphanFires (id : string) (n : nat).

(** An event of a toast; a call of [onClose] removes it. *)
Definition step (e : event) (s : Toaster) : Toaster :=
  match e with
  | Show ty m d => commit (setProvider (addToast ty m d (provider s)).1 s)
  | OnToast id e =>
      let s' := update id (on_instance e) s in
      match List.find (fun x => String.eqb (key x) id) (mounted s) with
      | Some x => if closes (timer x) <? closes (timer (on_instance e x)) then onClose id s' else s'
      | None => s
      end
  | OrphanFires id n =>
      if decide ((id, n) ∈ orphans s) then onClose id s else s
  end.

(** What can happen next: the id drawn for a new toast is not on the screen; the
    pointer enters a toast it is not on and leaves one it is on; a timer fires that
    is armed. *)
Definition possible (e : event) (s : Toaster) : Prop :=
  match e with
  | Show _ _ _ => random (provider s) (drawn (provider s)) ∉ toast_id <$> toasts (provider s)
  | OnToast id e => exists x, x ∈ mounted s /\ key x = id /\
      match e with
      | MouseEnter => hovered x = false | MouseLeave => hovered x = true
      | TimerFires n => n ∈ live (timer x) | CloseClick => True
      end
  | OrphanFires _ _ => True
  end.

Inductive reachable (random : nat -> string) : Toaster -> Prop :=
| reach_initial : reachable random (initial random)
| reach_step s e : reachable random s -> possible e s -> reachable random (step e s).

(** ** The invariant *)

Record toaster_ok (s : Toaster) : Prop := {
  ok_items : item <$> mounted s = toasts (provider s);
  ok_keys : NoDup (key <$> mounted s);
  ok_orphans : orphans s = [];
  ok_timers : Forall (fun x => toast_reachable (toast_duration (item x)) (hovered x) (timer x) /\
                               closes (timer x) = 0) (mounted s)
}.

Lemma keys_items (ms : list Instance_) : key <$> ms = toast_id <$> (item <$> ms).
Proof. by rewrite <-list_fmap_compose. Qed.

Lemma find_key (x : Instance_) (ms : list Instance_) :
  NoDup (key <$> ms) -> x ∈ ms -> List.find (fun y => String.eqb (key y) (key x)) ms = Some x.
Proof.
  induction ms as [|y ms IH]; [by intros _ ?%not_elem_of_nil|]. cbn. intros [Hn Hd]%NoDup_cons [->|Hx]%elem_of_cons.
  - by rewrite String.eqb_refl.
  - destruct (String.eqb_spec (key y) (key x)) as [E|_]; [|auto].
    exfalso. apply Hn. rewrite E. by apply list_elem_of_fmap_2.
Qed.

Lemma toast_key_unique (x y : Instance_) (ms : list Instance_) :
  NoDup (key <$> ms) -> x ∈ ms -> y ∈ ms -> key y = key x -> y = x.
Proof.
  intros Hd Hx Hy E. pose proof (find_key y ms Hd Hy) as F. rewrite E, find_key in F by done. congruence.
Qed.

Lemma find_no_key (id : string) (ms : list Instance_) :
  id ∉ key <$> ms -> List.find (fun y => String.eqb (key y) id) ms = None.
Proof.
  induction ms as [|y ms IH]; [done|]. cbn. intros [Hn Hd]%not_elem_of_cons.
  destruct (String.eqb_spec (key y) id); [congruence|auto].
Qed.

(** Kept toasts keep their instances. *)
Lemma reconcile_kept (ms ms' : list Instance_) :
  NoDup (key <$> ms) -> ms' ⊆ ms -> (fun t => reconcile t ms) <$> (item <$> ms') = ms'.
Proof.
  intros Hd Hs. rewrite <-list_fmap_compose. induction ms' as [|x ms' IH]; [done|]. cbn.
  rewrite IH by set_solver. f_equal. unfold reconcile. change (toast_id (item x)) with (key x).
  by rewrite find_key by set_solver.
Qed.

Lemma filter_items (id : string) (ms : list Instance_) :
  filter (fun t => toast_id t <> id) (item <$> ms) = item <$> filter (fun x => key x <> id) ms.
Proof.
  induction ms as [|x ms IH]; [done|]. change (item <$> x :: ms) with (item x :: (item <$> ms)).
  rewrite !filter_cons. change (key x) with (toast_id (item x)). case_decide; cbn; by rewrite IH.
Qed.

(** A toast cleans up after itself. *)
Lemma no_leftovers (x : Instance_) :
  toast_reachable (toast_duration (item x)) (hovered x) (timer x) -> leftovers x = [].
Proof.
  intros H. destruct (toast_reachable_ok _ _ _ H) as [Hl _ _ _]. unfold leftovers, clearTimer.
  destruct Hl as [E|(t & E & ->)]; [by destruct (timeoutRef (timer x)); cbn; rewrite E|].
  cbn. rewrite E, filter_cons_False by (by intros ?). done.
Qed.

Lemma commit_keeps (s : Toaster) (ms : list Instance_) :
  NoDup (key <$> mounted s) -> ms ⊆ mounted s ->
  Forall (fun x => toast_reachable (toast_duration (item x)) (hovered x) (timer x)) (mounted s) ->
  toasts (provider s) = item <$> ms ->
  commit s = mkToaster (provider s) ms (orphans s).
Proof.
  intros Hd Hs Ht Hi. unfold commit. rewrite Hi, reconcile_kept by done. f_equal.
  rewrite <-(app_nil_r (orphans s)) at 2. f_equal. rewrite Forall_forall in Ht.
  assert (forall l : list Instance_, l ⊆ mounted s -> l ≫= leftovers = []) as Hl.
  { induction l as [|x l IH]; [done|]. intros Hx. cbn. rewrite no_leftovers, IH; [done|set_solver|].
    apply Ht. set_solver. }
  apply Hl. intros x [_ Hx]%list_elem_of_filter. done.
Qed.

Lemma onClose_ok (id : string) (s : Toaster) :
  NoDup (key <$> mounted s) ->
  Forall (fun x => toast_reachable (toast_duration (item x)) (hovered x) (timer x)) (mounted s) ->
  item <$> mounted s = toasts (provider s) ->
  onClose id s = mkToaster (removeToast id (provider s)) (filter (fun x => key x <> id) (mounted s)) (orphans s).
Proof.
  intros Hd Ht Hi. unfold onClose.
  apply (commit_keeps (setProvider (removeToast id (provider s)) s)); cbn; [done| |done|].
  - intros x [_ Hx]%list_elem_of_filter. done.
  - by rewrite <-Hi, filter_items.
Qed.

Lemma show_ok ty m d (s : Toaster) : toaster_ok s -> possible (Show ty m d) s ->
  let t := mkToastItem (random (provider s) (drawn (provider s))) ty m (default 5000%Z d) in
  step (Show ty m d) s =
  mkToaster (addToast ty m d (provider s)).1
    (mounted s ++ [mkInstance t (mount (toast_duration t)) false]) [].
Proof.
  intros [Hi Hd Ho Ht] Hp t. cbn [step]. unfold commit. cbn [provider setProvider mounted orphans addToast toasts fst].
  f_equal.
  - rewrite fmap_app. f_equal.
    + rewrite <-Hi. by apply reconcile_kept.
    + cbn. unfold reconcile. rewrite find_no_key; [done|]. cbn in Hp. by rewrite keys_items, Hi.
  - rewrite Ho. cbn. assert (filter (fun x => key x ∉ toast_id <$> (toasts (provider s) ++ [t])) (mounted s) = []) as Hf.
    { rewrite <-Hi. assert (forall l, (forall x, x ∈ l -> x ∈ mounted s) ->
        filter (fun x => key x ∉ toast_id <$> ((item <$> mounted s) ++ [t])) l = []) as Hl; [|by apply Hl].
      induction l as [|x l IH]; [done|]. intros Hl. rewrite filter_cons_False; [apply IH; set_solver|].
      intros Hn. apply Hn. rewrite fmap_app, <-keys_items. apply elem_of_app. left.
      apply list_elem_of_fmap_2, Hl, list_elem_of_here. }
    unfold t in Hf. by rewrite Hf.
Qed.

(** Updating an instance under its key changes neither the keys nor the items. *)
Lemma update_shape (id : string) (e : toast_event) (ms : list Instance_) :
  let ms' := (fun x => if String.eqb (key x) id then on_instance e x else x) <$> ms in
  item <$> ms' = item <$> ms /\ key <$> ms' = key <$> ms.
Proof.
  cbn. split; rewrite <-list_fmap_compose; apply list_fmap_ext; intros i x _; cbn; by case_match.
Qed.

(** An event that can happen to a live toast keeps it reachable. *)
Lemma on_instance_reachable (x : Instance_) (e : toast_event) :
  toast_reachable (toast_duration (item x)) (hovered x) (timer x) -> closes (timer x) = 0 ->
  match e with
  | MouseEnter => hovered x = false | MouseLeave => hovered x = true
  | TimerFires n => n ∈ live (timer x) | CloseClick => True
  end ->
  toast_reachable (toast_duration (item x)) (hovered (on_instance e x)) (timer (on_instance e x)) /\
  closes (timer (on_instance e x)) = match e with TimerFires _ | CloseClick => 1 | _ => 0 end.
Proof.
  intros Hr Hc He. destruct e; cbn [on_instance item timer hovered].
  - split; [apply reach_enter; [done|by rewrite <-He]|].
    cbn. unfold clearTimer. by case_match.
  - split; [apply reach_leave; [done|by rewrite <-He]|].
    cbn. unfold startTimer. by case_match.
  - split; [by apply reach_fire|]. cbn. rewrite decide_True by done. cbn. by rewrite Hc.
  - split; [by apply reach_close|]. cbn. by rewrite Hc.
Qed.

(** What an event that can happen does to the mounted toasts. *)
Definition stepped (e : event) (s : Toaster) : list Instance_ :=
  match e with
  | Show ty m d =>
      let t := mkToastItem (random (provider s) (drawn (provider s))) ty m (default 5000%Z d) in
      mounted s ++ [mkInstance t (mount (toast_duration t)) false]
  | OnToast id (TimerFires _ | CloseClick) => filter (fun x => key x <> id) (mounted s)
  | OnToast id e => (fun x => if String.eqb (key x) id then on_instance e x else x) <$> mounted s
  | OrphanFires _ _ => mounted s
  end.

Lemma filter_update (id : string) (f : Instance_ -> Instance_) (ms : list Instance_) :
  (forall x, key (f x) = key x) ->
  filter (fun x => key x <> id) ((fun x => if String.eqb (key x) id then f x else x) <$> ms) =
  filter (fun x => key x <> id) ms.
Proof.
  intros Hf. induction ms as [|x ms IH]; [done|].
  change (?g <$> x :: ms) with (g x :: (g <$> ms)). rewrite !filter_cons.
  destruct (String.eqb_spec (key x) id) as [E|E].
  - rewrite decide_False, decide_False by (intros Hn; apply Hn; rewrite ?Hf; done). exact IH.
  - rewrite decide_True, decide_True by done. by rewrite IH.
Qed.

Lemma on_toast_ok (id : string) (e : toast_event) (s : Toaster) :
  toaster_ok s -> possible (OnToast id e) s ->
  step (OnToast id e) s =
  mkToaster (match e with TimerFires _ | CloseClick => removeToast id (provider s) | _ => provider s end)
    (stepped (OnToast id e) s) [].
Proof.
  intros [Hi Hd Ho Ht] (x & Hx & <- & He). cbn [step]. rewrite find_key by done.
  pose proof (proj1 (Forall_forall _ _) Ht x Hx) as [Hr Hc].
  destruct (on_instance_reachable x e Hr Hc He) as [Hr' Hc']. rewrite Hc, Hc'.
  destruct (update_shape (key x) e (mounted s)) as [Hi' Hk'].
  assert (Forall (fun y => toast_reachable (toast_duration (item y)) (hovered y) (timer y))
    (mounted (update (key x) (on_instance e) s))) as Hu.
  { apply Forall_forall. intros y (z & -> & Hz)%list_elem_of_fmap.
    pose proof (proj1 (Forall_forall _ _) Ht z Hz) as [Hrz _].
    destruct (String.eqb_spec (key z) (key x)) as [E|_]; [|done].
    by rewrite (toast_key_unique x z (mounted s)). }
  assert (forall e', onClose (key x) (update (key x) (on_instance e') s) =
    mkToaster (removeToast (key x) (provider s)) (filter (fun y => key y <> key x) (mounted s)) [] ->
    onClose (key x) (update (key x) (on_instance e') s) =
    mkToaster (removeToast (key x) (provider s)) (stepped (OnToast (key x) CloseClick) s) []) as Hclose by done.
  destruct e; cbn [stepped Nat.ltb Nat.leb]; [unfold update; by rewrite Ho|unfold update; by rewrite Ho|..].
  all: apply Hclose; rewrite onClose_ok;
    [cbn; by rewrite Ho, filter_update| |done|]; cbn [update mounted provider]; by rewrite ?Hk', ?Hi'.
Qed.

Lemma step_mounted (e : event) (s : Toaster) :
  toaster_ok s -> possible e s -> mounted (step e s) = stepped e s.
Proof.
  intros Hs Hp. destruct e as [ty m d|id e|id n].
  - by rewrite show_ok.
  - by rewrite on_toast_ok.
  - cbn. rewrite (ok_orphans s Hs), decide_False; [done|apply not_elem_of_nil].
Qed.

Lemma step_ok (e : event) (s : Toaster) : toaster_ok s -> possible e s -> toaster_ok (step e s).
Proof.
  intros Hs Hp. pose proof Hs as [Hi Hd Ho Ht]. destruct e as [ty m d|id e|id n].
  - rewrite show_ok by done. split; cbn.
    + by rewrite fmap_app, Hi.
    + rewrite fmap_app. apply NoDup_app. split; [done|]. split; [|apply NoDup_singleton].
      intros k Hk ->%list_elem_of_singleton. cbn in Hp, Hk. by rewrite keys_items, Hi in Hk.
    + done.
    + apply Forall_app. split; [done|]. repeat constructor. cbn. unfold mount, startTimer. by case_match.
  - rewrite on_toast_ok by done. destruct Hp as (x & Hx & <- & He).
    pose proof (proj1 (Forall_forall _ _) Ht x Hx) as [Hr Hc].
    destruct (on_instance_reachable x e Hr Hc He) as [Hr' Hc'].
    destruct (update_shape (key x) e (mounted s)) as [Hi' Hk'].
    assert (forall P : Instance_ -> Prop, Forall P (mounted s) -> P (on_instance e x) ->
      Forall P ((fun y => if String.eqb (key y) (key x) then on_instance e y else y) <$> mounted s)) as Hall.
    { intros P HP HPx. apply Forall_forall. intros y (z & -> & Hz)%list_elem_of_fmap.
      destruct (String.eqb_spec (key z) (key x)) as [E|_]; [by rewrite (toast_key_unique x z (mounted s))|].
      by apply (proj1 (Forall_forall _ _) HP). }
    assert (forall P : Instance_ -> Prop, Forall P (mounted s) ->
      Forall P (filter (fun y => key y <> key x) (mounted s))) as Hfil.
    { intros P HP. apply Forall_forall. intros y [_ Hy]%list_elem_of_filter.
      by apply (proj1 (Forall_forall _ _) HP). }
    destruct e; split; cbn [stepped mounted provider orphans removeToast toasts]; try done.
    all: try (by rewrite Hi'); try (by rewrite Hk'); try (by apply Hfil); try (by rewrite <-filter_items, Hi);
      try (apply (sublist_NoDup _ (key <$> mounted s)); [done|apply fmap_sublist, sublist_filter]).
    all: apply Hall; [done|]; by split.
  - cbn. by rewrite Ho, decide_False by apply not_elem_of_nil.
Qed.

Lemma reachable_ok (random : nat -> string) (s : Toaster) : reachable random s -> toaster_ok s.
Proof. induction 1; [|by apply step_ok]. split; cbn; try done; constructor. Qed.

(** ** Theorems *)

(** C22: Whatever toasts are shown, hovered and closed and whichever timers fire: the
    page shows exactly the provider's toasts in their order, each mounted once;
    a toast under the pointer has no armed timer, one off it exactly one, unless it
    is sticky; and no timer outlives its toast.  The random identifier of a new toast
    is taken to differ from those shown. *)
Theorem toaster_invariant (random : nat -> string) (s : Toaster) (H : reachable random s) :
  ToastContainer (provider s) = (if length (mounted s) =? 0 then None
                                 else Some (Toast_view <$> (item <$> mounted s))) /\
  NoDup (key <$> mounted s) /\ orphans s = [] /\
  Forall (fun x => if (toast_duration (item x) <=? 0)%Z || hovered x then live (timer x) = []
                   else exists n, live (timer x) = [n]) (mounted s).
Proof.
  apply reachable_ok in H as [Hi Hd Ho Ht]. split_and!; [|done|done|].
  - unfold ToastContainer. by rewrite <-Hi, length_fmap.
  - eapply Forall_impl'; [|exact Ht]. intros x [Hr Hc].
    destruct (toast_reachable_ok _ _ _ Hr) as [Hl Hh Hidle Hoff]. cbn in *.
    destruct (Z.leb_spec (toast_duration (item x)) 0); cbn; [by apply Hoff|].
    destruct (hovered x); [by apply Hh|]. destruct Hl as [E|(n & E & _)]; [|eauto].
    by destruct (Hidle eq_refl Hc).
Qed.

(** A new toast is mounted after the others, which go on as they were; a toast
    whose timer fires or whose button is clicked goes, it alone, and the timers of
    the others run on; the pointer changes the timer of the toast it is on. *)
Theorem toaster_step_spec (random : nat -> string) (s : Toaster) (e : event)
    (H : reachable random s) (He : possible e s) :
  mounted (step e s) = stepped e s /\
  toasts (provider (step e s)) =
    match e with
    | Show ty m d => toasts (provider s) ++
        [mkToastItem (Toast.random (provider s) (drawn (provider s))) ty m (default 5000%Z d)]
    | OnToast id (TimerFires _ | CloseClick) => filter (fun t => toast_id t <> id) (toasts (provider s))
    | _ => toasts (provider s)
    end.
Proof.
  apply reachable_ok in H. split; [by apply step_mounted|]. pose proof (step_ok e s H He) as Hs.
  rewrite <-(ok_items _ Hs), (step_mounted e s H He), <-(ok_items _ H).
  destruct e as [ty m d|id e|id n]; cbn [stepped].
  - by rewrite fmap_app.
  - destruct e; try apply update_shape; by rewrite filter_items.
  - done.
Qed.

(** The firing of an armed timer. *)
Definition fire (s s' : Toaster) : Prop :=
  exists id n, possible (OnToast id (TimerFires n)) s /\ s' = step (OnToast id (TimerFires n)) s.

Definition unattended (s : Toaster) : Prop :=
  Forall (fun x => hovered x = false /\ (0 < toast_duration (item x))%Z) (mounted s).

Lemma length_without (x : Instance_) (ms : list Instance_) :
  NoDup (key <$> ms) -> x ∈ ms -> S (length (filter (fun y => key y <> key x) ms)) = length ms.
Proof.
  induction ms as [|y ms IH]; [by intros _ ?%not_elem_of_nil|].
  change (key <$> y :: ms) with (key y :: (key <$> ms)). intros [Hn Hd]%NoDup_cons Hx. rewrite filter_cons.
  destruct (decide (key y = key x)) as [E|E].
  - rewrite decide_False by (intros Hne; by apply Hne). cbn. f_equal.
    assert (forall l : list Instance_, key x ∉ key <$> l -> filter (fun z => key z <> key x) l = l) as Hall.
    { induction l as [|z l IHl]; [done|]. cbn [fmap list_fmap]. intros [Hz Hl]%not_elem_of_cons.
      rewrite filter_cons_True by congruence. by rewrite IHl. }
    rewrite Hall; [done|]. by rewrite <-E.
  - rewrite decide_True by done. cbn. f_equal. apply IH; [done|].
    apply elem_of_cons in Hx as [->|Hx]; done.
Qed.

Lemma fire_removes (s s' : Toaster) : toaster_ok s -> unattended s -> fire s s' ->
  toaster_ok s' /\ unattended s' /\ S (length (mounted s')) = length (mounted s).
Proof.
  intros Hs Hu (id & n & Hp & ->). split; [by apply step_ok|].
  unfold unattended. rewrite step_mounted by done. cbn [stepped]. split.
  - apply Forall_forall. intros y [_ Hy]%list_elem_of_filter. by apply (proj1 (Forall_forall _ _) Hu).
  - destruct Hp as (x & Hx & <- & _). apply length_without; [apply Hs|done].
Qed.

(** C38: Left alone (none of them sticky, and none under the pointer), the toasts go: while
    one shows, the timer of one is armed, and
    however the timers fire, after exactly as many firings as toasts were shown the
    page shows none. *)
Theorem toasts_drain (random : nat -> string) (s : Toaster) (H : reachable random s) (Hu : unattended s) :
  (forall n s', nsteps fire n s s' ->
     n + length (mounted s') = length (mounted s) /\ (mounted s' <> [] -> exists s'', fire s' s'')) /\
  exists s', nsteps fire (length (mounted s)) s s' /\ ToastContainer (provider s') = None.
Proof.
  apply reachable_ok in H.
  assert (forall s, toaster_ok s -> unattended s -> mounted s <> [] -> exists s', fire s s') as Hgo.
  { intros t [_ _ _ Ht] Ht' Hne. destruct (mounted t) as [|x ms] eqn:E; [done|]. clear Hne.
    apply Forall_cons in Ht as [[Hr Hc] _]. unfold unattended in Ht'. rewrite E in Ht'.
    apply Forall_cons in Ht' as [[Hh Hd] _].
    destruct (toast_reachable_ok _ _ _ Hr) as [Hl _ Hidle _].
    destruct Hl as [El|(n & El & _)]; [by destruct (Hidle Hh Hc Hd)|].
    eexists _, (key x), n. split; [|reflexivity]. exists x. rewrite E, El.
    split_and!; [apply list_elem_of_here|done|by apply list_elem_of_singleton]. }
  split.
  - intros n s' Hn. assert (toaster_ok s' /\ unattended s' /\ n + length (mounted s') = length (mounted s))
      as (H1 & H2 & H3); [|split; [done|by apply Hgo]].
    induction Hn as [s|n s s1 s' Hf _ IH]; [done|].
    destruct (fire_removes s s1 H Hu Hf) as (H1 & H2 & H3). destruct IH as (H4 & H5 & H6); [done..|].
    split_and!; [done|done|lia].
  - remember (length (mounted s)) as n eqn:En. revert s H Hu En. induction n as [|n IH]; intros s H Hu En.
    + exists s. split; [constructor|]. unfold ToastContainer. rewrite <-(ok_items s H), length_fmap, <-En. done.
    + destruct (Hgo s H Hu) as [s1 Hf]; [by destruct (mounted s)|].
      destruct (fire_removes s s1 H Hu Hf) as (H1 & H2 & H3).
      destruct (IH s1 H1 H2 ltac:(lia)) as (s' & Hn & Hv). exists s'. split; [by econstructor|done].
Qed.

(** ** Instances *)

Definition two_toasts : Toaster :=
  step (Show error "no" (Some 8000%Z)) (step (Show success "done" None) (initial pretty)).

Lemma two_toasts_reachable : reachable pretty two_toasts.
Proof.
  apply reach_step; [apply reach_step; [apply reach_initial|]|]; cbn.
  - apply not_elem_of_nil.
  - intros H%list_elem_of_singleton. discriminate H.
Qed.

Lemma toaster_invariant_witness :
  ToastContainer (provider two_toasts) =
    Some [mkToastView "0" "toast-item toast-success" CheckCircle2 "done";
          mkToastView "1" "toast-item toast-error" AlertCircle "no"] /\
  orphans two_toasts = [].
Proof.
  destruct (toaster_invariant pretty two_toasts two_toasts_reachable) as (H1 & _ & H3 & _).
  split; [exact H1|exact H3].
Defined.

Lemma toaster_step_spec_witness :
  toasts (provider (step (OnToast "0" (TimerFires 0)) two_toasts)) = [mkToastItem "1" error "no" 8000].
Proof.
  apply (toaster_step_spec pretty two_toasts (OnToast "0" (TimerFires 0)) two_toasts_reachable).
  eexists. split; [apply list_elem_of_here|]. split; [reflexivity|]. apply list_elem_of_here.
Defined.

Lemma toasts_drain_witness :
  exists s', nsteps fire 2 two_toasts s' /\ ToastContainer (provider s') = None.
Proof.
  apply (toasts_drain pretty two_toasts two_toasts_reachable).
  repeat constructor; reflexivity.
Defined.
