(* ===== verification/Containers.v ===== *)
(** The container list (frontend/src/hooks/useContainers.ts): the list and its
    live stream of updates, deferred deletions, per-container actions. *)
From S2P Require Import Prelude Async Toast Proto.

Record Container := mkContainer {
  c_id : string;
  c_name : string;
  c_image : string;
  c_imageId : string;
  c_state : string;
  c_autoUpdate : bool;
  c_updateAvailable : bool;
  c_latestImageDigest : string;
  c_lastCheckedAt : string;
  c_lastUpdatedAt : string
}.

(** A container on the wire: every field optional. *)
Record ProtoContainer := mkProtoContainer {
  p_id : option string;
  p_name : option string;
  p_image : option string;
  p_imageId : option string;
  p_state : option string;
  p_autoUpdate : option bool;
  p_updateAvailable : option bool;
  p_latestImageDigest : option string;
  p_lastCheckedAt : option string;
  p_lastUpdatedAt : option string
}.

(** The generated message passed where a [ProtoContainer] is expected. *)
Definition of_message (m : ProtoContainerMsg) : ProtoContainer :=
  mkProtoContainer (Some (ProtoContainerMsg_id m)) (Some (ProtoContainerMsg_name m))
    (Some (ProtoContainerMsg_image m)) (Some (ProtoContainerMsg_imageId m))
    (Some (ProtoContainerMsg_state m)) (Some (ProtoContainerMsg_autoUpdate m))
    (Some (ProtoContainerMsg_updateAvailable m)) (Some (ProtoContainerMsg_latestImageDigest m))
    (Some (ProtoContainerMsg_lastCheckedAt m)) (Some (ProtoContainerMsg_lastUpdatedAt m)).

Definition mapProtoContainer (c : ProtoContainer) : Container :=
  mkContainer (default "" (p_id c)) (default "" (p_name c)) (default "" (p_image c))
    (default "" (p_imageId c)) (default "" (p_state c)) (default false (p_autoUpdate c))
    (default false (p_updateAvailable c)) (default "" (p_latestImageDigest c))
    (default "" (p_lastCheckedAt c)) (default "" (p_lastUpdatedAt c)).

(** Where the subscription loop [startStreamSubscription] stands. *)
Inductive stream_phase := Connecting | Streaming | Waiting | Stopped.

(** The state of the hook.  [timers] are the pending [setTimeout] callbacks of
    deletions, each with the container id and name its closure captured;
    [aborted] is the signal of the current [AbortController]. *)
Record State := mkState {
  containers : list Container;
  isLoading : bool;
  error : option string;
  actionLoading : gmap string string;
  isMounted : bool;
  pendingDeletes : gmap string nat;
  timers : gmap nat (string * string);
  nextTimer : nat;
  phase : stream_phase;
  aborted : bool
}.

Definition initial : State := mkState [] true None ∅ true ∅ ∅ 1 Connecting false.

Definition setContainers (f : list Container -> list Container) (s : State) : State :=
  mkState (f (containers s)) (isLoading s) (error s) (actionLoading s) (isMounted s)
    (pendingDeletes s) (timers s) (nextTimer s) (phase s) (aborted s).
Definition setIsLoading (b : bool) (s : State) : State :=
  mkState (containers s) b (error s) (actionLoading s) (isMounted s)
    (pendingDeletes s) (timers s) (nextTimer s) (phase s) (aborted s).
Definition setError (e : option string) (s : State) : State :=
  mkState (containers s) (isLoading s) e (actionLoading s) (isMounted s)
    (pendingDeletes s) (timers s) (nextTimer s) (phase s) (aborted s).
Definition setActionLoading (f : gmap string string -> gmap string string) (s : State) : State :=
  mkState (containers s) (isLoading s) (error s) (f (actionLoading s)) (isMounted s)
    (pendingDeletes s) (timers s) (nextTimer s) (phase s) (aborted s).
Definition setPending (pd : gmap string nat) (tm : gmap nat (string * string)) (n : nat)
    (s : State) : State :=
  mkState (containers s) (isLoading s) (error s) (actionLoading s) (isMounted s)
    pd tm n (phase s) (aborted s).
Definition setPhase (p : stream_phase) (s : State) : State :=
  mkState (containers s) (isLoading s) (error s) (actionLoading s) (isMounted s)
    (pendingDeletes s) (timers s) (nextTimer s) p (aborted s).

(** ** The updater of a stream message *)

(** [prev.findIndex(p)], [None] for -1 *)
Fixpoint findIndex {A} (p : A -> bool) (l : list A) : option nat :=
  match l with
  | [] => None
  | x :: l' => if p x then Some 0 else S <$> findIndex p l'
  end.

Definition has_id (i : string) (c : Container) : bool := String.eqb (c_id c) i.
Definition has_name (n : string) (c : Container) : bool := String.eqb (c_name c) n.

(** [prev.filter((c) => c.id !== id)] *)
Definition without_id (i : string) (l : list Container) : list Container :=
  filter (fun c => c_id c <> i) l.

(** [window.clearTimeout(pendingDeletes.current[name])] when it is set *)
Definition clear_pending_timer (name : string) (s : State) : gmap nat (string * string) :=
  match pendingDeletes s !! name with
  | Some t => delete t (timers s)
  | None => timers s
  end.

(** The "delete" branch: the removal of a known container is put off 300 ms. *)
Definition on_delete (containerId : string) (s : State) : State :=
  match list_find (fun c => c_id c = containerId) (containers s) with
  | Some (_, containerToDelete) =>
      let name := c_name containerToDelete in
      setPending (<[name := nextTimer s]> (pendingDeletes s))
        (<[nextTimer s := (containerId, name)]> (clear_pending_timer name s))
        (S (nextTimer s)) s
  | None => setContainers (without_id containerId) s
  end.

(** The list after a "save": matched by id, then by name, else appended. *)
Definition save_list (mapped : Container) (prev : list Container) : list Container :=
  let idx :=
    match findIndex (has_id (c_id mapped)) prev with
    | Some i => Some i
    | None => findIndex (has_name (c_name mapped)) prev
    end in
  match idx with
  | Some i => <[i := mapped]> prev
  | None => prev ++ [mapped]
  end.

(** The "save" branch: a pending deletion of the same name is cancelled. *)
Definition on_save (mapped : Container) (s : State) : State :=
  setContainers (save_list mapped)
    (setPending (delete (c_name mapped) (pendingDeletes s))
       (clear_pending_timer (c_name mapped) s) (nextTimer s) s).

(** The function passed to [setContainers] for one message of the stream. *)
Definition stream_update (response : StreamContainersResponse) (s : State) : State :=
  let action := StreamContainersResponse_action response in
  if String.eqb action "delete" then
    on_delete (StreamContainersResponse_containerId response) s
  else if String.eqb action "save" then
    match StreamContainersResponse_container response with
    | Some protoContainer => on_save (mapProtoContainer (of_message protoContainer)) s
    | None => s
    end
  else s.

(** The [setTimeout] callback of a deletion. *)
Definition timer_fires (t : nat) (s : State) : State :=
  match timers s !! t with
  | Some (containerId, name) =>
      setContainers (without_id containerId)
        (setPending (delete name (pendingDeletes s)) (delete t (timers s)) (nextTimer s) s)
  | None => s
  end.

(** ** The subscription loop *)

Inductive stream_event :=
| Connected
| Message (response : StreamContainersResponse)
| Ended
| StreamFails
| WaitOver.

(** The [while (isMounted.current)] test. *)
Definition loop_head (s : State) : State :=
  setPhase (if isMounted s then Connecting else Stopped) s.

(** The [catch] block: an aborted loop exits, another one waits 2 s. *)
Definition stream_catch (s : State) : State :=
  setPhase (if aborted s then Stopped else Waiting) s.

Definition new_controller (s : State) : State :=
  mkState (containers s) (isLoading s) (error s) (actionLoading s) (isMounted s)
    (pendingDeletes s) (timers s) (nextTimer s) (phase s) false.

Definition stream_step (e : stream_event) (s : State) : State :=
  match phase s, e with
  | Connecting, Connected => setPhase Streaming s
  | Connecting, StreamFails => stream_catch s
  | Streaming, Message response =>
      if negb (isMounted s) then loop_head s else stream_update response s
  | Streaming, Ended => loop_head s
  | Streaming, StreamFails => stream_catch s
  | Waiting, WaitOver => loop_head (if isMounted s then new_controller s else s)
  | _, _ => s
  end.

(** The cleanup of the effect. *)
Definition unmount (s : State) : State :=
  mkState (containers s) (isLoading s) (error s) (actionLoading s) false
    (pendingDeletes s)
    (map_fold (fun _ t tm => delete t tm) (timers s) (pendingDeletes s))
    (nextTimer s) (phase s) true.

(** ** Requests *)

Inductive Req :=
| ListContainers
| StartContainer (id : string)
| StopContainer (id : string)
| UpgradeContainer (id : string)
| SetContainerAutoUpdate (id : string) (autoUpdate : bool)
| CheckContainerUpdates (id : string).

(** What a resolved request returns, as far as the hook reads it. *)
Definition Resp (r : Req) : Type :=
  match r with
  | ListContainers => option (list ProtoContainer)
  | CheckContainerUpdates _ => CheckContainerUpdatesResponse
  | _ => unit
  end.

Abbreviation handler := (async (State * ToastState) Req Resp unit).

(** [containersRef.current] follows [containers] after every commit. *)
Definition getContainerName (id : string) (s : State) : string :=
  match list_find (fun c => c_id c = id) (containers s) with
  | Some (_, c) => c_name c
  | None => id
  end.

Local Open Scope async_scope.

(** [if (isMounted.current) ...] *)
Definition when_mounted (f : State -> State) : handler :=
  setState (fun s => if isMounted s then f s else s).

Definition fetchContainers : handler :=
  try
    (try
      (response <- rpc (Resp := Resp) ListContainers ;;
       when_mounted (fun s =>
         setError None
           (setContainers (fun _ => mapProtoContainer <$> default [] response) s)))
    catch (fun _ =>
      when_mounted (setError (Some "Unable to connect to the Docker monitor backend."%string))))
  finally (when_mounted (setIsLoading false)).

(** The marks an action leaves on [actionLoading] while it runs. *)
Definition begin_action (id action : string) : handler :=
  setState (setActionLoading (fun prev => <[id := action]> prev)).
Definition end_action (id : string) : handler :=
  setState (setActionLoading (fun prev => delete id prev)).

Definition startContainer (id : string) : handler :=
  name <- gets (fun s => getContainerName id s.1) ;;
  toast Toast.info ("Starting container " +:+ quoted name +:+ "...") None ;;;
  begin_action id "starting" ;;;
  try
    (try
      (rpc (StartContainer id) ;;;
       toast Toast.success ("Container " +:+ quoted name +:+ " started successfully.") None)
    catch (fun err =>
      let msg := errTextOr "Failed to start container" err in
      toast Toast.error ("Failed to start container " +:+ quoted name +:+ ": " +:+ msg) None))
  finally (end_action id).

Definition stopContainer (id : string) : handler :=
  name <- gets (fun s => getContainerName id s.1) ;;
  toast Toast.info ("Stopping container " +:+ quoted name +:+ "...") None ;;;
  begin_action id "stopping" ;;;
  try
    (try
      (rpc (StopContainer id) ;;;
       toast Toast.success ("Container " +:+ quoted name +:+ " stopped successfully.") None)
    catch (fun err =>
      let msg := errTextOr "Failed to stop container" err in
      toast Toast.error ("Failed to stop container " +:+ quoted name +:+ ": " +:+ msg) None))
  finally (end_action id).

Definition upgradeContainer (id : string) : handler :=
  name <- gets (fun s => getContainerName id s.1) ;;
  toast Toast.info
    ("Upgrading container " +:+ quoted name +:+ " (pulling image & re-creating)...")
    (Some 15000%Z) ;;;
  begin_action id "upgrading" ;;;
  try
    (try
      (rpc (UpgradeContainer id) ;;;
       toast Toast.success ("Container " +:+ quoted name +:+ " upgraded successfully.") None)
    catch (fun err =>
      let msg := errTextOr "Failed to upgrade container" err in
      toast Toast.error ("Failed to upgrade container " +:+ quoted name +:+ ": " +:+ msg) None))
  finally (end_action id).

Definition setContainerAutoUpdate (id : string) (autoUpdate : bool) : handler :=
  name <- gets (fun s => getContainerName id s.1) ;;
  begin_action id "toggling" ;;;
  try
    (try
      (rpc (SetContainerAutoUpdate id autoUpdate) ;;;
       toast Toast.success
         ("Automatic updates " +:+ (if autoUpdate then "enabled" else "disabled") +:+
          " for container " +:+ quoted name +:+ ".") None)
    catch (fun err =>
      let msg := errTextOr "Failed to update auto-update setting" err in
      toast Toast.error
        ("Failed to update auto-update for container " +:+ quoted name +:+ ": " +:+ msg) None))
  finally (end_action id).

Definition checkContainerUpdates (id : string) : handler :=
  name <- gets (fun s => getContainerName id s.1) ;;
  toast Toast.info ("Checking updates for container " +:+ quoted name +:+ "...") None ;;;
  begin_action id "checking" ;;;
  try
    (try
      (resp <- rpc (CheckContainerUpdates id) ;;
       if CheckContainerUpdatesResponse_updateAvailable resp then
         toast Toast.success
           ("Check complete for " +:+ quoted name +:+ ": A new update is available!") None
       else
         toast Toast.info
           ("Check complete for " +:+ quoted name +:+ ": Image is already up to date.") None)
    catch (fun err =>
      let msg := errTextOr "Failed to check updates" err in
      toast Toast.error
        ("Failed to check updates for container " +:+ quoted name +:+ ": " +:+ msg) None))
  finally (end_action id).

(** The five actions a row offers. *)
Inductive action := Start | Stop | Upgrade | SetAutoUpdate (autoUpdate : bool) | CheckUpdates.

Definition run_action (a : action) (id : string) : handler :=
  match a with
  | Start => startContainer id
  | Stop => stopContainer id
  | Upgrade => upgradeContainer id
  | SetAutoUpdate b => setContainerAutoUpdate id b
  | CheckUpdates => checkContainerUpdates id
  end.

Definition action_label (a : action) : string :=
  match a with
  | Start => "starting" | Stop => "stopping" | Upgrade => "upgrading"
  | SetAutoUpdate _ => "toggling" | CheckUpdates => "checking"
  end.

Definition action_req (a : action) (id : string) : Req :=
  match a with
  | Start => StartContainer id
  | Stop => StopContainer id
  | Upgrade => UpgradeContainer id
  | SetAutoUpdate b => SetContainerAutoUpdate id b
  | CheckUpdates => CheckContainerUpdates id
  end.

(** ** Actions *)

(** C13: Starting any of the five actions flags its container, sends exactly its
    request and touches no container; whatever the answer and whatever other
    handlers did meanwhile, the handler then ends, clears only its own flag
    and shows exactly one toast, an error toast exactly when the request
    failed. *)
Theorem action_settles (a : action) (id : string) (s : State) (ts : ToastState) :
  exists s1 ts1 k,
    exec (run_action a id) (s, ts) = ((s1, ts1), Blocked (action_req a id) k) /\
    s1 = setActionLoading (fun prev => <[id := action_label a]> prev) s /\
    forall answer s' ts', exists ty msg,
      exec (k answer) (s', ts') =
        ((setActionLoading (fun prev => delete id prev) s', (addToast ty msg None ts').1),
         Done tt) /\
      (ty = Toast.error <-> exists e, answer = inr e).
Proof.
  destruct a; do 3 eexists; split; try reflexivity; split; try reflexivity;
    intros [v|e] s' ts'; cbn; try (destruct (CheckContainerUpdatesResponse_updateAvailable v));
    do 2 eexists; (split; [reflexivity|]); split; try done; try (by intros [? ?]); eauto.
Qed.

(** Loading the list replaces it on success and keeps it on failure, with
    the error cleared or set; after unmounting nothing is written. *)
Theorem fetchContainers_spec (s0 s : State) (ts0 ts : ToastState) :
  exists k, exec fetchContainers (s0, ts0) = ((s0, ts0), Blocked ListContainers k) /\
    (forall items,
      exec (k (inl items)) (s, ts) =
        (((if isMounted s then
             setIsLoading false (setError None
               (setContainers (fun _ => mapProtoContainer <$> default [] items) s))
           else s), ts), Done tt)) /\
    (forall e,
      exec (k (inr e)) (s, ts) =
        (((if isMounted s then
             setIsLoading false
               (setError (Some "Unable to connect to the Docker monitor backend."%string) s)
           else s), ts), Done tt)).
Proof.
  eexists. split; [reflexivity|]. split.
  - intros items. cbn. destruct (isMounted s) eqn:Hm; cbn; by rewrite Hm.
  - intros e. cbn. destruct (isMounted s) eqn:Hm; cbn; by rewrite Hm.
Qed.

(** ** The list after a save *)

Lemma findIndex_Some {A} (p : A -> bool) (l : list A) (i : nat) :
  findIndex p l = Some i <->
  exists x, l !! i = Some x /\ p x = true /\
    forall j y, j < i -> l !! j = Some y -> p y = false.
Proof.
  revert i; induction l as [|x l IH]; intros i; cbn.
  - split; [done|]. by intros (? & ? & _).
  - destruct (p x) eqn:Hp.
    + split.
      * intros [= <-]. exists x. split; [done|]. split; [done|]. lia.
      * intros (y & Hy & Hpy & Hmin). destruct i as [|i]; [done|].
        specialize (Hmin 0 x ltac:(lia) eq_refl). congruence.
    + destruct i as [|i].
      * split; [by intros (? & ? & ?)%fmap_Some|]. intros (y & [= <-] & Hpy & _). congruence.
      * rewrite fmap_Some. setoid_rewrite IH. split.
        -- intros (? & (y & ? & ? & Hmin) & [= <-]). exists y. split_and!; try done.
           intros [|j] z Hj Hz; cbn in Hz; [congruence|]. apply (Hmin j); [lia|done].
        -- intros (y & Hy & Hpy & Hmin). exists i. split; [|done]. exists y. split_and!; try done.
           intros j z Hj Hz. apply (Hmin (S j)); [lia|done].
Qed.

Lemma findIndex_None {A} (p : A -> bool) (l : list A) :
  findIndex p l = None <-> Forall (fun x => p x = false) l.
Proof.
  induction l as [|x l IH]; cbn; [by split|].
  rewrite Forall_cons. destruct (p x); [by split; [|intros [? _]]|].
  rewrite <- IH. destruct (findIndex p l); naive_solver.
Qed.

Lemma has_id_true i c : has_id i c = true <-> c_id c = i.
Proof. apply String.eqb_eq. Qed.
Lemma has_id_false i c : has_id i c = false <-> c_id c <> i.
Proof. apply String.eqb_neq. Qed.
Lemma has_name_true n c : has_name n c = true <-> c_name c = n.
Proof. apply String.eqb_eq. Qed.

Lemma no_id_fmap i (l : list Container) :
  findIndex (has_id i) l = None <-> i ∉ c_id <$> l.
Proof.
  rewrite findIndex_None, Forall_forall, list_elem_of_fmap. setoid_rewrite has_id_false.
  naive_solver.
Qed.

(** The three ways a save can go. *)
Inductive save_case (m : Container) (l : list Container) : list Container -> Prop :=
| save_by_id i c : l !! i = Some c -> c_id c = c_id m ->
    (forall j d, j < i -> l !! j = Some d -> c_id d <> c_id m) ->
    save_case m l (<[i := m]> l)
| save_by_name i c : l !! i = Some c -> c_id m ∉ c_id <$> l -> c_name c = c_name m ->
    save_case m l (<[i := m]> l)
| save_append : c_id m ∉ c_id <$> l -> (forall c, c ∈ l -> c_name c <> c_name m) ->
    save_case m l (l ++ [m]).

Lemma save_list_case (m : Container) (l : list Container) : save_case m l (save_list m l).
Proof.
  unfold save_list. destruct (findIndex (has_id _) l) as [i|] eqn:Hid.
  - apply findIndex_Some in Hid as (c & Hc & Hi%has_id_true & Hmin).
    eapply save_by_id; [done..|]. intros j d Hj Hd. by apply has_id_false, (Hmin j).
  - apply no_id_fmap in Hid. destruct (findIndex (has_name _) l) as [i|] eqn:Hn.
    + apply findIndex_Some in Hn as (c & Hc & Hi%has_name_true & _). by eapply save_by_name.
    + apply findIndex_None in Hn. rewrite Forall_forall in Hn. apply save_append; [done|].
      intros c Hc%Hn. by apply String.eqb_neq.
Qed.

Lemma NoDup_insert_fresh (l : list string) (i : nat) (x : string) :
  NoDup l -> x ∉ l -> NoDup (<[i := x]> l).
Proof.
  intros Hnd Hx. destruct (decide (i < length l)) as [Hi|Hi];
    [|by rewrite list_insert_ge by lia].
  rewrite insert_take_drop by done. rewrite <- (take_drop i l) in Hnd.
  apply lookup_lt_is_Some in Hi as [y Hy]. rewrite (drop_S _ _ _ Hy) in Hnd.
  apply NoDup_app in Hnd as (H1 & H2 & H3). apply NoDup_cons in H3 as [H3 H4].
  apply NoDup_app. split; [done|]. split.
  - intros z Hz. rewrite not_elem_of_cons. split.
    + intros ->. apply Hx. by apply (subseteq_take i l).
    + specialize (H2 z Hz). set_solver.
  - apply NoDup_cons. split; [|done]. intros Hz. apply Hx. by apply (subseteq_drop (S i) l).
Qed.

Lemma save_list_NoDup (m : Container) (l : list Container) :
  NoDup (c_id <$> l) -> NoDup (c_id <$> save_list m l).
Proof.
  intros Hnd. destruct (save_list_case m l) as [i c Hc Hi _|i c Hc Hi Hn|Hi Hn].
  - rewrite list_fmap_insert, <- Hi.
    rewrite list_insert_id; [done|]. by rewrite list_lookup_fmap, Hc.
  - rewrite list_fmap_insert. by apply NoDup_insert_fresh.
  - rewrite fmap_app. apply NoDup_app. split; [done|]. split; [|apply NoDup_singleton].
    cbn. set_solver.
Qed.

Lemma without_id_NoDup i (l : list Container) :
  NoDup (c_id <$> l) -> NoDup (c_id <$> without_id i l).
Proof.
  unfold without_id. induction l as [|c l IH]; [done|]. rewrite fmap_cons, NoDup_cons. intros [Hc Hl].
  rewrite filter_cons. case_decide; [|by apply IH]. cbn. apply NoDup_cons. split; [|by apply IH].
  intros Hin. apply Hc. apply list_elem_of_fmap in Hin as (d & -> & [_ Hd]%list_elem_of_filter).
  by apply list_elem_of_fmap_2.
Qed.

(** The container saved is in the list afterwards, once its id is unique. *)
Lemma save_list_elem (m : Container) (l : list Container) : m ∈ save_list m l.
Proof.
  destruct (save_list_case m l) as [i c Hc _ _|i c Hc _ _|_ _].
  1,2: apply list_elem_of_lookup; exists i; apply list_lookup_insert_eq;
       by eapply lookup_lt_Some.
  set_solver.
Qed.

(** ** Deferred deletions *)

(** What holds while the hook is mounted: ids are unique, and the pending
    deletions and the armed timers are the same thing seen from both sides. *)
Record live_inv (s : State) : Prop := {
  inv_ids : NoDup (c_id <$> containers s);
  inv_pending name t : pendingDeletes s !! name = Some t ->
    exists cid, timers s !! t = Some (cid, name);
  inv_timers t cid name : timers s !! t = Some (cid, name) -> pendingDeletes s !! name = Some t;
  inv_fresh t : is_Some (timers s !! t) -> t < nextTimer s
}.

Lemma clear_pending_lookup name (s : State) t cid n :
  live_inv s ->
  clear_pending_timer name s !! t = Some (cid, n) <-> timers s !! t = Some (cid, n) /\ n <> name.
Proof.
  intros Hinv. unfold clear_pending_timer.
  destruct (pendingDeletes s !! name) as [t'|] eqn:Hp.
  - rewrite lookup_delete_Some. split.
    + intros [Hne Ht]. split; [done|]. intros ->.
      pose proof (inv_timers _ Hinv _ _ _ Ht). congruence.
    + intros [Ht Hne]. split; [|done]. intros ->.
      destruct (inv_pending _ Hinv _ _ Hp) as [cid' Ht']. congruence.
  - split; [|by intros [? _]]. intros Ht. split; [done|]. intros ->.
    pose proof (inv_timers _ Hinv _ _ _ Ht). congruence.
Qed.

Lemma on_save_inv (m : Container) (s : State) : live_inv s -> live_inv (on_save m s).
Proof.
  intros Hinv. split; cbn.
  - apply save_list_NoDup, Hinv.
  - intros name t [Hne Hp]%lookup_delete_Some.
    destruct (inv_pending _ Hinv _ _ Hp) as [cid Ht]. exists cid.
    by apply clear_pending_lookup.
  - intros t cid name [Ht Hne]%clear_pending_lookup; [|done].
    rewrite lookup_delete_ne by done. by eapply inv_timers.
  - intros t [[cid n] [Ht _]%clear_pending_lookup]; [|done]. by eapply inv_fresh.
Qed.

Lemma on_delete_inv (cid : string) (s : State) : live_inv s -> live_inv (on_delete cid s).
Proof.
  intros Hinv. unfold on_delete. destruct (list_find _ _) as [[i c]|] eqn:Hf.
  - assert (clear_pending_timer (c_name c) s !! nextTimer s = None) as Hnew.
    { destruct (clear_pending_timer _ _ !! _) as [[cid' n]|] eqn:E; [|done].
      apply clear_pending_lookup in E as [E _]; [|done].
      pose proof (inv_fresh _ Hinv (nextTimer s) ltac:(eauto)). lia. }
    split; cbn.
    + apply Hinv.
    + intros name t [[<- <-]|[Hne Hp]]%lookup_insert_Some.
      * exists cid. apply lookup_insert_eq.
      * destruct (inv_pending _ Hinv _ _ Hp) as [cid' Ht]. exists cid'.
        rewrite lookup_insert_ne.
        -- by apply clear_pending_lookup.
        -- intros <-. pose proof (inv_fresh _ Hinv (nextTimer s) ltac:(eauto)). lia.
    + intros t cid' name [[<- [= <- <-]]|[Hne [Ht Hn]%clear_pending_lookup]]%lookup_insert_Some;
        [apply lookup_insert_eq| |done].
      rewrite lookup_insert_ne by done. by eapply inv_timers.
    + intros t [[cid' n] [[<- _]|[Hne [Ht _]%clear_pending_lookup]]%lookup_insert_Some];
        [lia| |done].
      pose proof (inv_fresh _ Hinv t ltac:(eauto)). lia.
  - split; cbn; try apply Hinv. apply without_id_NoDup, Hinv.
Qed.

Lemma timer_fires_inv (t : nat) (s : State) : live_inv s -> live_inv (timer_fires t s).
Proof.
  intros Hinv. unfold timer_fires. destruct (timers s !! t) as [[cid name]|] eqn:Ht; [|done].
  pose proof (inv_timers _ Hinv _ _ _ Ht) as Hp. split; cbn.
  - apply without_id_NoDup, Hinv.
  - intros name' t' [Hne Hp']%lookup_delete_Some.
    destruct (inv_pending _ Hinv _ _ Hp') as [cid' Ht']. exists cid'.
    rewrite lookup_delete_ne; [done|]. intros <-. congruence.
  - intros t' cid' name' [Hne Ht']%lookup_delete_Some.
    pose proof (inv_timers _ Hinv _ _ _ Ht'). rewrite lookup_delete_ne; [done|]. congruence.
  - intros t' [[cid' n] [_ Ht']%lookup_delete_Some]. by eapply inv_fresh.
Qed.

Lemma stream_update_inv r (s : State) : live_inv s -> live_inv (stream_update r s).
Proof.
  intros Hinv. unfold stream_update.
  destruct (String.eqb _ _); [by apply on_delete_inv|].
  destruct (String.eqb _ _); [|done].
  destruct (StreamContainersResponse_container r); [by apply on_save_inv|done].
Qed.

#[export] Hint Resolve on_save_inv on_delete_inv timer_fires_inv stream_update_inv : containers.

(** The fold of the cleanup clears the timer of every pending deletion. *)
Lemma unmount_timers (s : State) t v :
  timers (unmount s) !! t = Some v <->
  timers s !! t = Some v /\ forall name, pendingDeletes s !! name <> Some t.
Proof.
  cbn. apply (map_fold_weak_ind
    (fun tm pd => tm !! t = Some v <->
       timers s !! t = Some v /\ forall name, pd !! name <> Some t)).
  - split; [|by intros [? _]]. intros H. split; [done|]. intros name. by rewrite lookup_empty.
  - intros n t' pd tm Hn IH. rewrite lookup_delete_Some, IH. split.
    + intros (Hne & Ht & Hall). split; [done|]. intros name [[_ ?]|[_ ?]]%lookup_insert_Some;
        [done|by eapply Hall].
    + intros (Ht & Hall). split_and!; [|done|].
      * intros ->. apply (Hall n), lookup_insert_eq.
      * intros name Hname. apply (Hall name). rewrite lookup_insert_ne; [done|]. congruence.
Qed.

Lemma unmount_no_timers (s : State) : live_inv s -> timers (unmount s) = ∅.
Proof.
  intros Hinv. apply map_empty. intros t.
  destruct (timers (unmount s) !! t) as [[cid name]|] eqn:E; [|done].
  apply unmount_timers in E as [Ht Hall]. exfalso. apply (Hall name). by eapply inv_timers.
Qed.

(** ** Reachable states *)

(** Everything that can write the state of the hook: messages and failures of
    the stream, deletion timers, answers to the list request, the flags of
    actions, the cleanup.  Container ids in a list answer are distinct (they
    are the primary key of the server's table). *)
Inductive step : State -> State -> Prop :=
| step_stream e s : step s (stream_step e s)
| step_timer t s : step s (timer_fires t s)
| step_listed items s : isMounted s = true -> NoDup (c_id <$> (mapProtoContainer <$> items)) ->
    step s (setIsLoading false (setError None
      (setContainers (fun _ => mapProtoContainer <$> items) s)))
| step_list_fails e s : isMounted s = true -> step s (setIsLoading false (setError e s))
| step_flags f s : step s (setActionLoading f s)
| step_unmount s : isMounted s = true -> step s (unmount s).

Inductive reachable : State -> Prop :=
| reachable_initial : reachable initial
| reachable_step s s' : reachable s -> step s s' -> reachable s'.

(** The invariant over the whole life of the hook. *)
Record life_inv (s : State) : Prop := {
  inv_live : isMounted s = true -> live_inv s;
  inv_aborted : aborted s = negb (isMounted s);
  inv_running : isMounted s = true -> phase s <> Stopped;
  inv_dead : isMounted s = false -> timers s = ∅
}.

(** Steps that only touch the fields outside the invariant of deletions. *)
Lemma live_inv_same (s s' : State) :
  containers s' = containers s -> pendingDeletes s' = pendingDeletes s ->
  timers s' = timers s -> nextTimer s' = nextTimer s -> live_inv s -> live_inv s'.
Proof. intros H1 H2 H3 H4 []. split; rewrite ?H1, ?H2, ?H3, ?H4; done. Qed.

Lemma life_inv_step (s s' : State) : life_inv s -> step s s' -> life_inv s'.
Proof.
  intros [Hl Ha Hr Hd] Hstep.
  assert (forall e, life_inv (stream_step e s)) as Hstream.
  { intros e. unfold stream_step, stream_catch, loop_head.
    destruct (isMounted s) eqn:Hm.
    - specialize (Hl eq_refl). specialize (Hr eq_refl). cbn in Ha.
      destruct (phase s) eqn:Hp, e; cbn; rewrite ?Ha, ?Hm; try done;
        try (by split; cbn; rewrite ?Ha, ?Hm, ?Hp; try done; intros _; eapply live_inv_same, Hl).
      assert (isMounted (stream_update response s) = true /\ aborted (stream_update response s) = false
        /\ phase (stream_update response s) = Streaming) as (Hm' & Ha' & Hp').
      { unfold stream_update, on_delete. by repeat case_match; cbn; rewrite ?Hm, ?Ha, ?Hp. }
      split; rewrite ?Hm', ?Ha', ?Hp'; try done. intros _. by apply stream_update_inv.
    - cbn in Ha. destruct (phase s) eqn:Hp, e; cbn; rewrite ?Ha, ?Hm; split; cbn;
        rewrite ?Ha, ?Hm, ?Hp; try done. }
  destruct Hstep as [e s|t s|items s Hm Hnd|e s Hm|f s|s Hm]; [by apply Hstream| | | | |].
  - destruct (isMounted s) eqn:Hm.
    + assert (live_inv (timer_fires t s)) by auto with containers.
      unfold timer_fires in *. destruct (timers s !! t) as [[? ?]|]; [|by split; rewrite ?Hm].
      by split; cbn; rewrite ?Hm.
    + unfold timer_fires. rewrite Hd, lookup_empty by done. by split; rewrite ?Hm.
  - split; cbn; try done. intros _. by destruct (Hl Hm); split.
  - split; cbn; try done. intros _. by eapply live_inv_same, (Hl Hm).
  - split; cbn; try done. intros Hm. by eapply live_inv_same, (Hl Hm).
  - split; [done|done|done|]. intros _. by apply unmount_no_timers, Hl.
Qed.

Lemma reachable_life (s : State) : reachable s -> life_inv s.
Proof.
  induction 1 as [|s s' _ IH Hstep]; [|by eapply life_inv_step].
  split; try done. intros _. split; cbn; try done; [apply NoDup_nil_2|].
  intros t. rewrite lookup_empty. by intros [? ?].
Qed.

(** C2: In every reachable mounted state container ids are distinct, every
    pending deletion has exactly one armed timer and every armed timer belongs
    to a pending deletion. *)
Theorem containers_invariant (s : State) :
  reachable s -> isMounted s = true ->
  NoDup (c_id <$> containers s) /\
  (forall name t, pendingDeletes s !! name = Some t <-> exists cid, timers s !! t = Some (cid, name)).
Proof.
  intros [Hl _ _ _]%reachable_life Hm. specialize (Hl Hm). split; [apply Hl|].
  intros name t. split; [by apply inv_pending|]. intros [cid Ht]. by eapply inv_timers.
Qed.

(** After the unmount of a reachable state no deletion timer is armed, and
    later stream events neither write the list nor reconnect. *)
Theorem unmount_is_final (s : State) (e : stream_event) :
  reachable s -> isMounted s = true ->
  let u := unmount s in
  timers u = ∅ /\
  containers (stream_step e u) = containers s /\
  (phase s <> Connecting -> phase (stream_step e u) <> Connecting) /\
  phase (stream_step StreamFails u) ∈ [Stopped; Waiting] /\
  (phase s = Waiting -> phase (stream_step WaitOver u) = Stopped).
Proof.
  intros [Hl _ Hr _]%reachable_life Hm u. subst u. split; [by apply unmount_no_timers, Hl|].
  unfold stream_step. cbn.
  destruct (phase s) eqn:Hp; split_and!; try (by destruct e; cbn; rewrite ?Hp); try done;
    cbn; rewrite ?Hp; repeat constructor.
Qed.

(** While mounted the subscription never gives up: a failed stream waits and
    reconnects with a fresh controller, an ended one reconnects at once. *)
Theorem stream_reconnects (s : State) :
  reachable s -> isMounted s = true ->
  phase s <> Stopped /\
  (phase s = Waiting ->
     phase (stream_step WaitOver s) = Connecting /\ aborted (stream_step WaitOver s) = false) /\
  (phase s = Streaming -> phase (stream_step Ended s) = Connecting) /\
  (phase s = Connecting \/ phase s = Streaming -> phase (stream_step StreamFails s) = Waiting).
Proof.
  intros [_ Ha Hr _]%reachable_life Hm. rewrite Hm in Ha.
  unfold stream_step, stream_catch, loop_head, new_controller.
  split; [by apply Hr|]. split_and!; intros Hp; [rewrite Hp; cbn; by rewrite ?Hm..|].
  destruct Hp as [Hp|Hp]; rewrite Hp; cbn; by rewrite Ha.
Qed.

Lemma list_find_unique (l : list Container) (i : nat) (c : Container) :
  NoDup (c_id <$> l) -> l !! i = Some c -> list_find (fun d => c_id d = c_id c) l = Some (i, c).
Proof.
  intros Hnd Hc. apply list_find_Some. split_and!; [done..|]. intros j d Hd Hj E.
  assert (j = i); [|lia]. eapply (NoDup_lookup _ j i (c_id c) Hnd).
  - by rewrite list_lookup_fmap, Hd; cbn; rewrite E.
  - by rewrite list_lookup_fmap, Hc.
Qed.

(** C1: A container recreated under its name (deleted, then saved with a new id
    before the deferred removal) takes its old place: same length, same
    neighbours, no pending deletion and no timer left under that name. *)
Theorem recreation_in_place (s : State) (i : nat) (old new : Container) :
  reachable s -> isMounted s = true ->
  containers s !! i = Some old ->
  (forall j c, containers s !! j = Some c -> c_name c = c_name old -> j = i) ->
  c_name new = c_name old -> c_id new ∉ c_id <$> containers s ->
  let s' := on_save new (on_delete (c_id old) s) in
  containers s' = <[i := new]> (containers s) /\
  pendingDeletes s' !! c_name new = None /\
  (forall t cid, timers s' !! t <> Some (cid, c_name new)).
Proof.
  intros Hreach Hm Hold Huniq Hname Hid. pose proof (inv_live _ (reachable_life _ Hreach) Hm) as Hinv.
  assert (live_inv (on_save new (on_delete (c_id old) s))) as Hinv' by auto with containers.
  cbn zeta. assert (pendingDeletes (on_save new (on_delete (c_id old) s)) !! c_name new = None) as Hp
    by apply lookup_delete_eq.
  split; [|split; [done|]].
  - unfold on_delete. rewrite (list_find_unique _ i) by (done || apply Hinv). cbn.
    destruct (save_list_case new (containers s)) as [j c Hc Hi _|j c Hc _ Hn|_ Hn].
    + exfalso. apply Hid. rewrite <- Hi. by eapply list_elem_of_fmap_2, list_elem_of_lookup_2.
    + by rewrite (Huniq j c Hc) by congruence.
    + exfalso. apply (Hn old); [by eapply list_elem_of_lookup_2|done].
  - intros t cid Ht. pose proof (inv_timers _ Hinv' _ _ _ Ht). congruence.
Qed.

(** A deletion that is not followed by a save takes effect when its timer
    fires: exactly that container leaves, and nothing stays pending for it;
    until then the list is unchanged. *)
Theorem deferred_delete (s : State) (i : nat) (c : Container) :
  reachable s -> isMounted s = true -> containers s !! i = Some c ->
  let s1 := on_delete (c_id c) s in
  containers s1 = containers s /\
  exists t, pendingDeletes s1 !! c_name c = Some t /\
    let s2 := timer_fires t s1 in
    containers s2 = without_id (c_id c) (containers s) /\
    pendingDeletes s2 !! c_name c = None /\ timers s2 !! t = None.
Proof.
  intros Hreach Hm Hc. pose proof (inv_live _ (reachable_life _ Hreach) Hm) as Hinv.
  cbn zeta. unfold on_delete. rewrite (list_find_unique _ i) by (done || apply Hinv).
  split; [done|]. exists (nextTimer s). split; [apply lookup_insert_eq|].
  unfold timer_fires. cbn. rewrite lookup_insert_eq. cbn. split_and!; [done|..];
    apply lookup_delete_eq.
Qed.

Lemma save_list_same (m : Container) (l : list Container) (i : nat) :
  l !! i = Some m -> (forall j c, j < i -> l !! j = Some c -> c_id c <> c_id m) ->
  save_list m l = l.
Proof.
  intros Hm Hmin. unfold save_list.
  assert (findIndex (has_id (c_id m)) l = Some i) as ->; [|by apply list_insert_id].
  apply findIndex_Some. exists m. split; [done|]. split; [by apply has_id_true|].
  intros j c Hj Hc. by eapply has_id_false, Hmin.
Qed.

Lemma save_list_twice (m : Container) (l : list Container) :
  save_list m (save_list m l) = save_list m l.
Proof.
  destruct (save_list_case m l) as [i c Hc Hi Hmin|i c Hc Hi Hn|Hi Hn].
  - apply (save_list_same _ _ i).
    + apply list_lookup_insert_eq. by eapply lookup_lt_Some.
    + intros j d Hj Hd. rewrite list_lookup_insert_ne in Hd by lia. by eapply Hmin.
  - apply (save_list_same _ _ i).
    + apply list_lookup_insert_eq. by eapply lookup_lt_Some.
    + intros j d Hj Hd. rewrite list_lookup_insert_ne in Hd by lia. intros E. apply Hi.
      rewrite <- E. by eapply list_elem_of_fmap_2, list_elem_of_lookup_2.
  - apply (save_list_same _ _ (length l)).
    + rewrite lookup_app_r, Nat.sub_diag by lia. done.
    + intros j d Hj Hd. rewrite lookup_app_l in Hd by done. intros E. apply Hi.
      rewrite <- E. by eapply list_elem_of_fmap_2, list_elem_of_lookup_2.
Qed.

Lemma without_id_fresh (cid : string) (l : list Container) :
  list_find (fun c => c_id c = cid) l = None -> without_id cid l = l.
Proof.
  intros Hf%list_find_None. unfold without_id. induction Hf as [|c l Hc _ IH]; [done|].
  by rewrite filter_cons_True, IH.
Qed.

Lemma on_delete_containers (cid : string) (s : State) :
  containers (on_delete cid s) = containers s.
Proof.
  unfold on_delete. destruct (list_find _ _) as [[? ?]|] eqn:Hf; [done|].
  by apply without_id_fresh.
Qed.

(** Running the updater of a message twice, as React's StrictMode does, is
    the same as running it once, up to the numbering of timers. *)
Theorem stream_update_idempotent (m : Container) (cid : string) (s : State) :
  on_save m (on_save m s) = on_save m s /\
  containers (on_delete cid (on_delete cid s)) = containers (on_delete cid s) /\
  dom (pendingDeletes (on_delete cid (on_delete cid s))) = dom (pendingDeletes (on_delete cid s)).
Proof.
  split; [|split].
  - unfold on_save, setContainers, setPending. cbn. f_equal.
    + apply save_list_twice.
    + apply delete_delete_eq.
    + unfold clear_pending_timer. cbn. by rewrite lookup_delete_eq.
  - by rewrite !on_delete_containers.
  - unfold on_delete at 1. rewrite on_delete_containers.
    destruct (list_find _ _) as [[i c]|] eqn:Hf; [|done].
    unfold on_delete. rewrite Hf. cbn. rewrite !dom_insert_L. set_solver.
Qed.

(** A pending deletion is cancelled by any save under the same name: when
    another known container takes over the name of a deleted one, the deleted
    one stays listed, with no timer left to remove it. *)
Theorem renamed_save_keeps_deleted (s : State) (i j : nat) (gone other renamed : Container) :
  reachable s -> isMounted s = true ->
  containers s !! i = Some gone -> containers s !! j = Some other -> i <> j ->
  c_id renamed = c_id other -> c_name renamed = c_name gone ->
  pendingDeletes s = ∅ ->
  let s' := on_save renamed (on_delete (c_id gone) s) in
  containers s' !! i = Some gone /\ containers s' !! j = Some renamed /\
  pendingDeletes s' = ∅ /\ timers s' = ∅.
Proof.
  intros Hreach Hm Hi Hj Hij Hid Hname Hpd.
  pose proof (inv_live _ (reachable_life _ Hreach) Hm) as Hinv.
  assert (live_inv (on_save renamed (on_delete (c_id gone) s))) as Hinv' by auto with containers.
  cbn zeta.
  assert (pendingDeletes (on_save renamed (on_delete (c_id gone) s)) = ∅) as Hp.
  { cbn. unfold on_delete. rewrite (list_find_unique _ i) by (done || apply Hinv). cbn.
    rewrite Hname, delete_insert_eq, Hpd. apply delete_empty. }
  assert (containers (on_save renamed (on_delete (c_id gone) s)) = <[j := renamed]> (containers s)) as Hc.
  { cbn. rewrite on_delete_containers. unfold save_list.
    assert (findIndex (has_id (c_id renamed)) (containers s) = Some j) as ->; [|done].
    apply findIndex_Some. exists other. split; [done|]. split; [by apply has_id_true|].
    intros k c Hk Hc. apply has_id_false. rewrite Hid. intros E.
    assert (k = j); [|lia]. eapply (NoDup_lookup _ k j (c_id other) (inv_ids _ Hinv)).
    - by rewrite list_lookup_fmap, Hc; cbn; rewrite E.
    - by rewrite list_lookup_fmap, Hj. }
  rewrite Hc. split_and!.
  - by rewrite list_lookup_insert_ne.
  - apply list_lookup_insert_eq. by eapply lookup_lt_Some.
  - done.
  - apply map_empty. intros t.
    destruct (timers (on_save renamed (on_delete (c_id gone) s)) !! t) as [[cid n]|] eqn:E; [|done].
    apply (inv_timers _ Hinv') in E. rewrite Hp in E. by rewrite lookup_empty in E.
Qed.

(** ** Concrete runs *)

Definition proto_ex (i n : string) : ProtoContainer :=
  mkProtoContainer (Some i) (Some n) (Some "img") None (Some "running") None None None None None.
Definition container_ex (i n : string) : Container := mapProtoContainer (proto_ex i n).

(** Two containers listed, the stream open. *)
Definition state_ex : State :=
  stream_step Connected
    (setIsLoading false (setError None
      (setContainers (fun _ => mapProtoContainer <$> [proto_ex "1" "web"; proto_ex "2" "db"]) initial))).

Lemma state_ex_reachable : reachable state_ex.
Proof.
  eapply reachable_step; [eapply reachable_step; [constructor|]|apply step_stream].
  apply step_listed; [done|]. cbn. apply NoDup_cons. split; [set_solver|apply NoDup_singleton].
Defined.

Lemma containers_invariant_witness :
  reachable (on_delete "1" state_ex) /\
  (pendingDeletes (on_delete "1" state_ex) !! "web" = Some 1 <->
   exists cid, timers (on_delete "1" state_ex) !! 1 = Some (cid, "web"%string)).
Proof.
  assert (reachable (on_delete "1" state_ex)) as H.
  { eapply reachable_step; [apply state_ex_reachable|].
    apply (step_stream (Message (mkStreamContainersResponse "delete" None "1"))). }
  split; [exact H|]. exact (proj2 (containers_invariant _ H eq_refl) "web" 1).
Defined.

Lemma unmount_is_final_witness :
  reachable state_ex /\ timers (unmount state_ex) = ∅.
Proof.
  split; [exact state_ex_reachable|].
  exact (proj1 (unmount_is_final state_ex Ended state_ex_reachable eq_refl)).
Defined.

Lemma stream_reconnects_witness :
  reachable state_ex /\ phase (stream_step StreamFails state_ex) = Waiting.
Proof.
  split; [exact state_ex_reachable|].
  exact (proj2 (proj2 (proj2 (stream_reconnects state_ex state_ex_reachable eq_refl)))
    (or_intror eq_refl)).
Defined.

Lemma recreation_in_place_witness :
  let s' := on_save (container_ex "9" "web") (on_delete "1" state_ex) in
  containers s' = [container_ex "9" "web"; container_ex "2" "db"].
Proof.
  assert (forall j c, containers state_ex !! j = Some c -> c_name c = "web" -> j = 0) as Huniq.
  { intros [|[|j]] c Hc Hn; [done| |done]. cbn in Hc. injection Hc as <-. discriminate Hn. }
  assert (("9"%string) ∉ c_id <$> containers state_ex) as Hid by (cbn; set_solver).
  exact (proj1 (recreation_in_place state_ex 0 (container_ex "1" "web") (container_ex "9" "web")
    state_ex_reachable eq_refl eq_refl Huniq eq_refl Hid)).
Defined.

Lemma deferred_delete_witness :
  containers (on_delete "1" state_ex) = containers state_ex /\
  reachable state_ex.
Proof.
  split; [|exact state_ex_reachable].
  exact (proj1 (deferred_delete state_ex 0 (container_ex "1" "web")
    state_ex_reachable eq_refl eq_refl)).
Defined.

Lemma renamed_save_keeps_deleted_witness :
  let s' := on_save (container_ex "2" "web") (on_delete "1" state_ex) in
  containers s' !! 0 = Some (container_ex "1" "web") /\ reachable state_ex.
Proof.
  split; [|exact state_ex_reachable].
  exact (proj1 (renamed_save_keeps_deleted state_ex 0 1 (container_ex "1" "web")
    (container_ex "2" "db") (container_ex "2" "web")
    state_ex_reachable eq_refl eq_refl eq_refl ltac:(discriminate) eq_refl eq_refl eq_refl)).
Defined.
