(* ===== verification/Mirror.v ===== *)
(** The container list as a mirror of the server: the containers the server has,
    the messages it publishes when they change, and the relation that the hook of
    frontend/src/hooks/useContainers.ts keeps to them through its updates, its
    deferred deletions and its refetches. *)
From S2P Require Import Prelude Async Toast Proto Containers.

(** The server's containers, by their ids. *)
Abbreviation World := (gmap string Container).

Definition live (w : World) : list Container := (map_to_list w).*2.

Definition of_wire (m : ProtoContainerMsg) : Container := mapProtoContainer (of_message m).

(** A change on the server and the message it publishes for it: a container is new, has
    changed, has another name or is there again, under a name that no other container
    has; or it is gone (and may have been before: an upgrade publishes a removal that
    the daemon's event may have published already). *)
Inductive server_step : World -> StreamContainersResponse -> World -> Prop :=
| server_saves w m :
    map_Forall (fun id c => id <> c_id (of_wire m) -> c_name c <> c_name (of_wire m)) w ->
    server_step w (mkStreamContainersResponse "save" (Some m) (c_id (of_wire m))) (<[c_id (of_wire m) := of_wire m]> w)
| server_removes w cid : server_step w (mkStreamContainersResponse "delete" None cid) (delete cid w).

(** The hook keeps its pending removals by name, so that it can tell the saved container
    from the others only when it is not saved under another name while its removal is
    pending, nor takes over the name of another container that is still listed. *)
Record distinct_save (s : State) (c : Container) : Prop := {
  distinct_pending t n : timers s !! t = Some (c_id c, n) -> n = c_name c;
  distinct_name x y : x ∈ containers s -> c_id x = c_id c -> c_name x <> c_name c ->
    y ∈ containers s -> c_name y <> c_name c
}.

Definition distinct_message (s : State) (r : StreamContainersResponse) : Prop :=
  match StreamContainersResponse_container r with Some m => distinct_save s (of_wire m) | None => True end.

(** The server and a mounted page beside it: changes reach the page while its
    stream is open; timers fire, the list is fetched again (and arrives before the
    server changes once more), actions set their marks and the stream breaks and comes
    back at any moment. *)
Inductive joint_step : World * State -> World * State -> Prop :=
| joint_change w r w' s : phase s = Streaming -> server_step w r w' -> distinct_message s r ->
    joint_step (w, s) (w', stream_step (Message r) s)
| joint_timer w t s : joint_step (w, s) (w, timer_fires t s)
| joint_refetch w items s : mapProtoContainer <$> items ≡ₚ live w ->
    joint_step (w, s) (w, setIsLoading false (setError None
      (setContainers (fun _ => mapProtoContainer <$> items) s)))
| joint_refetch_fails w e s : joint_step (w, s) (w, setIsLoading false (setError e s))
| joint_flags w f s : joint_step (w, s) (w, setActionLoading f s)
| joint_stream w e s : (forall r, e <> Message r) -> joint_step (w, s) (w, stream_step e s).

(** The server's containers have their ids, and names of their own. *)
Record well_named (w : World) : Prop := {
  named_keys id c : w !! id = Some c -> c_id c = id;
  named_apart i j c d : w !! i = Some c -> w !! j = Some d -> c_name c = c_name d -> i = j
}.

(** The page right after a list arrived while no removal was pending: its first list,
    or a later one, whatever the page had missed before. *)
Inductive joint_start : World * State -> Prop :=
| joint_first w items s :
    well_named w -> isMounted s = true -> live_inv s -> timers s = ∅ -> mapProtoContainer <$> items ≡ₚ live w ->
    joint_start (w, setIsLoading false (setError None (setContainers (fun _ => mapProtoContainer <$> items) s))).

(** A container of the list that a timer is about to remove. *)
Definition leaving (s : State) (c : Container) : Prop :=
  map_Exists (fun _ v => v = (c_id c, c_name c)) (timers s).

#[export] Instance leaving_dec (s : State) (c : Container) : Decision (leaving s c).
Proof. unfold leaving. apply _. Defined.

(** The abstraction: what the list stands for. *)
Definition shown (s : State) : list Container := filter (fun c => ~ leaving s c) (containers s).

(** Every armed timer fires. *)
Definition let_timers_fire (s : State) : State :=
  foldl (fun s t => timer_fires t s) s (map_to_list (timers s)).*1.

(** ** The relation *)

Record mirrors (w : World) (s : State) : Prop := {
  mir_live : live_inv s;
  mir_named : well_named w;
  mir_list_names : NoDup (c_name <$> containers s);
  mir_listed id c : w !! id = Some c -> c ∈ containers s;
  mir_explained c : c ∈ containers s -> w !! c_id c = Some c \/ leaving s c;
  mir_timers t cid n : timers s !! t = Some (cid, n) ->
    w !! cid = None /\ (forall id c, w !! id = Some c -> c_name c <> n)
}.

Lemma leaving_lookup (s : State) (c : Container) :
  leaving s c <-> exists t, timers s !! t = Some (c_id c, c_name c).
Proof.
  unfold leaving, map_Exists. naive_solver.
Qed.

Lemma live_elem (w : World) (c : Container) : c ∈ live w <-> exists id, w !! id = Some c.
Proof.
  unfold live. rewrite list_elem_of_fmap. split.
  - intros ([id c'] & -> & H%elem_of_map_to_list). by exists id.
  - intros [id H]. exists (id, c). by rewrite elem_of_map_to_list.
Qed.

Lemma live_keys (w : World) : well_named w -> c_id <$> live w = (map_to_list w).*1.
Proof.
  intros Hw. unfold live. rewrite <- list_fmap_compose. apply list_fmap_ext. intros i [id c] Hi.
  apply list_elem_of_lookup_2, elem_of_map_to_list in Hi. by apply Hw.
Qed.

Lemma live_NoDup (w : World) : well_named w -> NoDup (c_id <$> live w).
Proof. intros Hw. rewrite live_keys by done. apply NoDup_fst_map_to_list. Qed.

(** Steps that leave the list and the timers alone. *)
Lemma mirrors_same (w : World) (s s' : State) :
  containers s' = containers s -> pendingDeletes s' = pendingDeletes s ->
  timers s' = timers s -> nextTimer s' = nextTimer s -> mirrors w s -> mirrors w s'.
Proof.
  intros H1 H2 H3 H4 []. split; rewrite ?H1, ?H3; try done.
  - by eapply live_inv_same.
  - intros c. unfold leaving. rewrite H3. auto.
Qed.

(** One element with a given id, one with a given name. *)
Lemma by_key (f : Container -> string) (l : list Container) i j c d :
  NoDup (f <$> l) -> l !! i = Some c -> l !! j = Some d -> f c = f d -> i = j.
Proof.
  intros Hnd Hi Hj E. eapply (NoDup_lookup _ i j (f c) Hnd); rewrite list_lookup_fmap.
  - by rewrite Hi.
  - by rewrite Hj, E.
Qed.

Lemma same_key (f : Container -> string) (l : list Container) c d :
  NoDup (f <$> l) -> c ∈ l -> d ∈ l -> f c = f d -> c = d.
Proof.
  intros Hnd [i Hi]%list_elem_of_lookup [j Hj]%list_elem_of_lookup E.
  assert (i = j) as -> by (by eapply (by_key f)). congruence.
Qed.

(** The members of a list after an insertion over an element. *)
Lemma elem_insert_key (f : Container -> string) (l : list Container) i d c x :
  NoDup (f <$> l) -> l !! i = Some d -> x ∈ <[i := c]> l <-> x = c \/ (x ∈ l /\ f x <> f d).
Proof.
  intros Hnd Hi. rewrite !list_elem_of_lookup. split.
  - intros [j Hj]. destruct (decide (j = i)) as [->|Hne].
    + left. apply list_lookup_insert_Some in Hj as [(_ & -> & _)|[? _]]; done.
    + right. rewrite list_lookup_insert_ne in Hj by done. split; [by exists j|].
      intros E'. apply Hne. by eapply (by_key f).
  - intros [->|[[j Hj] Hne]].
    + exists i. apply list_lookup_insert_eq. by eapply lookup_lt_Some.
    + exists j. rewrite list_lookup_insert_ne; [done|]. intros ->. congruence.
Qed.

Lemma NoDup_insert_key (f : Container -> string) (l : list Container) i d c :
  NoDup (f <$> l) -> l !! i = Some d -> (forall x, x ∈ l -> f x <> f d -> f x <> f c) -> NoDup (f <$> <[i := c]> l).
Proof.
  intros Hnd Hi Hnew. rewrite list_fmap_insert.
  apply NoDup_alt. intros j k v.
  assert (forall k, (f <$> l) !! k = Some (f c) -> k = i) as Hk.
  { intros k' (x & Hx & E)%list_lookup_fmap_Some. destruct (decide (f x = f d)) as [E'|Hne]; [by eapply (by_key f)|].
    exfalso. by eapply (Hnew x); [eapply list_elem_of_lookup_2| |]. }
  intros [(-> & <- & _)|[Hj Hjv]]%list_lookup_insert_Some [(-> & E & _)|[Hk' Hkv]]%list_lookup_insert_Some; subst.
  - done.
  - symmetry. by apply Hk.
  - by apply Hk.
  - by eapply NoDup_lookup.
Qed.

(** A save leaves the saved container, and of the others those that have neither its id
    nor its name. *)
Lemma save_distinct (l : list Container) (c : Container) :
  NoDup (c_id <$> l) -> NoDup (c_name <$> l) ->
  (forall x y, x ∈ l -> c_id x = c_id c -> c_name x <> c_name c -> y ∈ l -> c_name y <> c_name c) ->
  NoDup (c_name <$> save_list c l) /\
  forall x, x ∈ save_list c l <-> x = c \/ (x ∈ l /\ c_id x <> c_id c /\ c_name x <> c_name c).
Proof.
  intros Hids Hnames Hd. destruct (save_list_case c l) as [i d Hi Eid _|i d Hi Hno En|Hno Hnn].
  - pose proof (list_elem_of_lookup_2 _ _ _ Hi) as Hin.
    assert (forall x, x ∈ l -> c_id x <> c_id c -> c_name x <> c_name c) as Hx.
    { intros x Hx Hne E. destruct (decide (c_name d = c_name c)) as [E'|Hne'].
      - apply Hne. rewrite <- Eid. f_equal. eapply (same_key c_name); [done..|congruence].
      - by apply (Hd d x). }
    split.
    + eapply NoDup_insert_key; [done..|]. intros x Hxl Hne. apply Hx; [done|]. rewrite <- Eid. intros E. apply Hne.
      f_equal. by eapply (same_key c_id).
    + intros x. rewrite (elem_insert_key c_id) by done. rewrite Eid. naive_solver.
  - assert (forall x, x ∈ l -> c_id x <> c_id c) as Hx by (intros x Hx E; apply Hno; rewrite <- E; by apply list_elem_of_fmap_2).
    split.
    + eapply NoDup_insert_key; [done..|]. by rewrite En.
    + intros x. rewrite (elem_insert_key c_name) by done. rewrite En. naive_solver.
  - assert (forall x, x ∈ l -> c_id x <> c_id c) as Hx by (intros x Hx E; apply Hno; rewrite <- E; by apply list_elem_of_fmap_2).
    split.
    + rewrite fmap_app. apply NoDup_app. split_and!; [done| |apply NoDup_singleton]. cbn. set_solver.
    + intros x. rewrite elem_of_app, list_elem_of_singleton. naive_solver.
Qed.

Lemma mirrors_saves (w : World) (c : Container) (s : State) :
  mirrors w s -> map_Forall (fun id x => id <> c_id c -> c_name x <> c_name c) w -> distinct_save s c ->
  mirrors (<[c_id c := c]> w) (on_save c s).
Proof.
  intros [Hinv [Hk Ha] Hln Hl He Ht] Hname [Hp Hd].
  destruct (save_distinct (containers s) c) as [Hnd Hin]; [apply Hinv|done|done|].
  split; cbn.
  - by apply on_save_inv.
  - split.
    + intros id x [[<- <-]|[_ Hx]]%lookup_insert_Some; auto.
    + intros i j x y [[<- <-]|[Hi Hx]]%lookup_insert_Some [[<- <-]|[Hj Hy]]%lookup_insert_Some E;
        [done|exfalso; by eapply (Hname j y)|exfalso; by eapply (Hname i x)|by eapply Ha].
  - done.
  - intros id x [[<- <-]|[Hi Hx]]%lookup_insert_Some; apply Hin; [by left|right].
    split_and!; [by eapply Hl|by rewrite (Hk _ _ Hx)|by eapply Hname].
  - intros x [->|(Hx & Hid & Hn)]%Hin; [left; apply lookup_insert_eq|].
    destruct (He x Hx) as [Hw|[t Hlx]%leaving_lookup]; [left; by rewrite lookup_insert_ne|].
    right. apply leaving_lookup. exists t. by apply clear_pending_lookup.
  - intros t cid n [Hx Hn]%clear_pending_lookup; [|done]. destruct (Ht _ _ _ Hx) as [Hcid Hno]. split.
    + rewrite lookup_insert_ne; [done|]. intros <-. apply Hn. by eapply Hp.
    + intros id x [[<- <-]|[_ Hx']]%lookup_insert_Some; [congruence|by eapply Hno].
Qed.

Lemma on_delete_known (s : State) (old : Container) :
  NoDup (c_id <$> containers s) -> old ∈ containers s ->
  on_delete (c_id old) s =
    setPending (<[c_name old := nextTimer s]> (pendingDeletes s))
      (<[nextTimer s := (c_id old, c_name old)]> (clear_pending_timer (c_name old) s)) (S (nextTimer s)) s.
Proof.
  intros Hnd [i Hi]%list_elem_of_lookup. unfold on_delete. by rewrite (list_find_unique _ i).
Qed.

Lemma well_named_delete (w : World) (cid : string) : well_named w -> well_named (delete cid w).
Proof.
  intros [Hk Ha]. split.
  - intros id c [_ Hc]%lookup_delete_Some. auto.
  - intros i j c d [_ Hc]%lookup_delete_Some [_ Hd]%lookup_delete_Some. by eapply Ha.
Qed.

Lemma mirrors_removes_known (w : World) (old : Container) (s : State) :
  mirrors w s -> old ∈ containers s -> mirrors (delete (c_id old) w) (on_delete (c_id old) s).
Proof.
  intros Hm Hold. pose proof Hm as [Hinv Hw Hln Hl He Ht]. pose proof Hw as [Hk Ha].
  assert (live_inv (on_delete (c_id old) s)) as Hinv' by auto with containers.
  revert Hinv'. rewrite on_delete_known by (auto || apply Hinv). intros Hinv'.
  split; cbn; try done.
  - by apply well_named_delete.
  - intros id x [_ Hx]%lookup_delete_Some. by eapply Hl.
  - intros x Hx. rewrite leaving_lookup. cbn. destruct (decide (c_name x = c_name old)) as [E|Hne].
    { rewrite (same_key c_name _ x old Hln) by done. right. exists (nextTimer s). apply lookup_insert_eq. }
    destruct (He x Hx) as [Hlx|[t Hlx]%leaving_lookup].
    + left. rewrite lookup_delete_ne; [done|]. intros E. apply Hne. f_equal. eapply (same_key c_id); [apply Hinv|done..].
    + right. exists t. apply lookup_insert_Some. right. split; [|by apply clear_pending_lookup].
      intros <-. pose proof (inv_fresh _ Hinv _ ltac:(eauto)). lia.
  - intros t cid n [[_ [= <- <-]]|[_ [Hx _]%clear_pending_lookup]]%lookup_insert_Some; [| |done].
    + split; [apply lookup_delete_eq|]. intros id x [Hne Hx]%lookup_delete_Some E. apply Hne.
      rewrite <- (Hk _ _ Hx). f_equal. symmetry. eapply (same_key c_name); [done|by eapply Hl|done..].
    + apply Ht in Hx as [Hcid Hno]. split; [by apply lookup_delete_None; right|].
      intros id x [_ Hx]%lookup_delete_Some. by eapply Hno.
Qed.

Lemma mirrors_removes (w : World) (cid : string) (s : State) :
  mirrors w s -> mirrors (delete cid w) (on_delete cid s).
Proof.
  intros Hm. destruct (decide (Exists (fun x => c_id x = cid) (containers s))) as [Hex|Hnone].
  - apply Exists_exists in Hex as (old & Hold & <-). by apply mirrors_removes_known.
  - rewrite delete_id.
    + eapply mirrors_same; [..|exact Hm]; unfold on_delete;
        rewrite (proj2 (list_find_None (fun c => c_id c = cid) (containers s))) by (by apply Forall_Exists_neg); try done.
      cbn. apply filter_all. intros x Hx E. apply Hnone, Exists_exists. by exists x.
    + destruct (w !! cid) as [c|] eqn:E; [|done]. exfalso. apply Hnone, Exists_exists. exists c.
      split; [by eapply mir_listed|]. by eapply named_keys; [apply Hm|].
Qed.

Lemma NoDup_sublist_key (f : Container -> string) (l k : list Container) :
  NoDup (f <$> k) -> l `sublist_of` k -> NoDup (f <$> l).
Proof.
  intros Hnd Hs. eapply sublist_NoDup; [exact Hnd|]. clear Hnd. induction Hs; cbn; by constructor.
Qed.

Lemma mirrors_timer (w : World) (t : nat) (s : State) : mirrors w s -> mirrors w (timer_fires t s).
Proof.
  intros Hm. pose proof Hm as [Hinv Hw Hln Hl He Ht].
  assert (live_inv (timer_fires t s)) as Hinv' by auto with containers.
  revert Hinv'. unfold timer_fires. destruct (timers s !! t) as [[cid n]|] eqn:E; [|done].
  intros Hinv'. destruct (Ht _ _ _ E) as [Hcid Hn].
  assert (forall x, x ∈ without_id cid (containers s) <-> c_id x <> cid /\ x ∈ containers s) as Hin
    by (intros x; unfold without_id; by rewrite list_elem_of_filter).
  split; cbn; try done.
  - eapply NoDup_sublist_key; [exact Hln|]. apply sublist_filter.
  - intros id x Hx. apply Hin. split; [|by eapply Hl]. rewrite (named_keys _ Hw _ _ Hx). congruence.
  - intros x [Hne Hx]%Hin. destruct (He x Hx) as [|[t' Hlx]%leaving_lookup]; [auto|]. right.
    apply leaving_lookup. exists t'. cbn. rewrite lookup_delete_ne; [done|]. intros <-. congruence.
  - intros t' cid' n' [_ Hx]%lookup_delete_Some. eauto.
Qed.

Lemma names_NoDup (w : World) : well_named w -> NoDup (c_name <$> live w).
Proof.
  intros Hw. apply NoDup_fmap_2_strong; [|by apply (NoDup_fmap_1 c_id), live_NoDup].
  intros x y [i Hx]%live_elem [j Hy]%live_elem E. assert (i = j) as -> by (by eapply (named_apart w Hw)). congruence.
Qed.

(** A list that is the server's, while the timers are those of removed containers. *)
Lemma mirrors_fetched (w : World) (l : list Container) (s : State) :
  live_inv s -> well_named w ->
  (forall t cid n, timers s !! t = Some (cid, n) -> w !! cid = None /\ (forall id c, w !! id = Some c -> c_name c <> n)) ->
  l ≡ₚ live w -> mirrors w (setContainers (fun _ => l) s).
Proof.
  intros [? ? ? ?] Hw Ht Hp.
  assert (forall x, x ∈ l <-> exists id, w !! id = Some x) as Hin by (intros x; by rewrite Hp, live_elem).
  split; cbn; try done.
  - split; cbn; try done. rewrite Hp. by apply live_NoDup.
  - rewrite Hp. by apply names_NoDup.
  - intros id x Hx. apply Hin. eauto.
  - intros x [id Hx]%Hin. left. by rewrite (named_keys _ Hw _ _ Hx).
Qed.

Lemma mirrors_message (w w' : World) r (s : State) :
  server_step w r w' -> distinct_message s r -> mirrors w s -> mirrors w' (stream_update r s).
Proof.
  intros [w0 m Hn|w0 cid] Hd Hm; unfold stream_update; cbn.
  - by apply mirrors_saves.
  - by apply mirrors_removes.
Qed.

Lemma mirrors_quiet (w : World) e (s : State) :
  (forall r, e <> Message r) -> mirrors w s -> mirrors w (stream_step e s).
Proof.
  intros He Hm. eapply mirrors_same; [..|exact Hm];
    unfold stream_step, loop_head, stream_catch, new_controller;
    destruct (phase s), e; try reflexivity; try (by edestruct He); by destruct (isMounted s).
Qed.

#[export] Hint Resolve mirrors_timer mirrors_message mirrors_quiet : containers.

(** The page of the relation stays mounted. *)
Lemma joint_mounted (c c' : World * State) :
  joint_step c c' -> isMounted c.2 = true -> isMounted c'.2 = true.
Proof.
  intros [w r w' s Hp _ _|w t s| | | |w e s _] Hm; cbn in *; try done.
  - unfold stream_step, stream_update, on_delete. rewrite Hp, Hm. cbn. by repeat case_match.
  - unfold timer_fires. by destruct (timers s !! t) as [[]|].
  - unfold stream_step, stream_catch, loop_head, new_controller. rewrite Hm.
    destruct (phase s), e; cbn; try done. unfold stream_update, on_delete. by repeat case_match.
Qed.

Lemma joint_step_mirrors (c c' : World * State) :
  isMounted c.2 = true -> mirrors c.1 c.2 -> joint_step c c' -> mirrors c'.1 c'.2.
Proof.
  intros Hmt Hm Hs. destruct Hs as [w r w' s Hp Hr Hd|w t s|w items s Hi|w e s|w f s|w e s He]; cbn in *;
    auto with containers.
  - unfold stream_step. rewrite Hp, Hmt. cbn. by eapply mirrors_message.
  - eapply mirrors_same; [..|by apply (mirrors_fetched w (mapProtoContainer <$> items) s); [apply Hm|apply Hm|apply Hm|]];
      reflexivity.
  - eapply mirrors_same; [..|exact Hm]; reflexivity.
  - eapply mirrors_same; [..|exact Hm]; reflexivity.
Qed.

Lemma joint_start_mirrors (c : World * State) : joint_start c -> isMounted c.2 = true /\ mirrors c.1 c.2.
Proof.
  intros [w items s Hw Hmt Hinv Ht Hp]. split; [done|].
  eapply mirrors_same; [..|apply (mirrors_fetched w (mapProtoContainer <$> items) s Hinv Hw)]; try done.
  intros t cid n. by rewrite Ht, lookup_empty.
Qed.

Lemma joint_mirrors (c0 c : World * State) :
  joint_start c0 -> rtc joint_step c0 c -> isMounted c.2 = true /\ mirrors c.1 c.2.
Proof.
  intros H0%joint_start_mirrors Hs. revert H0. induction Hs as [|x y z Hxy _ IH]; [done|].
  intros [H1 H2]. apply IH. split; [by eapply joint_mounted|by eapply joint_step_mirrors].
Qed.

(** ** The abstraction *)

Lemma mirrors_shown (w : World) (s : State) : mirrors w s -> shown s ≡ₚ live w.
Proof.
  intros [Hinv Hw Hln Hl He Ht]. unfold shown. apply NoDup_Permutation.
  - eapply sublist_NoDup; [apply (NoDup_fmap_1 c_name), Hln|apply sublist_filter].
  - by apply (NoDup_fmap_1 c_id), live_NoDup.
  - intros x. rewrite list_elem_of_filter, live_elem. split.
    + intros [Hn Hx]. destruct (He x Hx); [eauto|done].
    + intros [id Hx]. split; [|by eapply Hl]. intros [t Hlx]%leaving_lookup. apply Ht in Hlx as [_ Hlx].
      by eapply Hlx.
Qed.
(** Firing timers only removes them. *)
Lemma timers_fire_sub (ts : list nat) (s : State) t :
  is_Some (timers (foldl (fun s t => timer_fires t s) s ts) !! t) -> is_Some (timers s !! t) /\ t ∉ ts.
Proof.
  revert s. induction ts as [|t0 ts IH]; intros s; cbn; [set_solver|].
  intros [Ht Hn]%IH. revert Ht. unfold timer_fires. destruct (timers s !! t0) as [[cid n]|] eqn:E; cbn.
  - intros [v [Hne Ht]%lookup_delete_Some]. split; [eauto|]. rewrite not_elem_of_cons. auto.
  - intros Ht. split; [done|]. rewrite not_elem_of_cons. split; [|done]. intros ->. rewrite E in Ht. by destruct Ht.
Qed.

Lemma let_timers_fire_none (s : State) : timers (let_timers_fire s) = ∅.
Proof.
  apply map_empty. intros t. destruct (_ !! t) as [v|] eqn:E; [|done]. exfalso.
  destruct (timers_fire_sub (map_to_list (timers s)).*1 s t) as [[u Hu] Hn]; [unfold let_timers_fire in E; eauto|].
  apply Hn, list_elem_of_fmap. exists (t, u). split; [done|]. by apply elem_of_map_to_list.
Qed.

Lemma let_timers_fire_mirrors (w : World) (s : State) : mirrors w s -> mirrors w (let_timers_fire s).
Proof.
  unfold let_timers_fire. generalize (map_to_list (timers s)).*1 as ts. intros ts. revert s.
  induction ts as [|t ts IH]; intros s Hm; cbn; [done|]. by apply IH, mirrors_timer.
Qed.

Lemma shown_no_timers (s : State) : timers s = ∅ -> shown s = containers s.
Proof.
  intros Ht. apply filter_all. intros x _ [t Hx]%leaving_lookup. by rewrite Ht, lookup_empty in Hx.
Qed.

(** C4: From any list on that arrives while no removal is pending, whatever the page had
    missed before, the list mirrors the server: through any creations, changes,
    renamings, removals and recreations on the server, refetches, marks, timers and
    reconnections, the list without what a timer is about to remove is exactly the
    server's containers; every container of the server is listed; and once the armed
    timers have fired (none is armed then) the list is the server's.  This holds as long
    as the stream loses no change, no change overtakes the answer of a refetch, no two
    containers of the server have one name, and no container is saved under the name of
    another that the page still lists, nor under another name while its removal is
    pending. *)
Theorem list_mirrors_server (c0 c : World * State) (H0 : joint_start c0) (H : rtc joint_step c0 c) :
  shown c.2 ≡ₚ live c.1 /\
  Forall (fun x => x ∈ containers c.2) (live c.1) /\
  timers (let_timers_fire c.2) = ∅ /\
  containers (let_timers_fire c.2) ≡ₚ live c.1.
Proof.
  destruct (joint_mirrors c0 c H0 H) as [_ Hm]. split_and!.
  - by apply mirrors_shown.
  - apply Forall_forall. intros x [id Hx]%live_elem. by eapply mir_listed.
  - apply let_timers_fire_none.
  - rewrite <- (shown_no_timers (let_timers_fire c.2)) by apply let_timers_fire_none.
    by apply mirrors_shown, let_timers_fire_mirrors.
Qed.

(** A change the server publishes while the hook waits to reconnect is lost: the
    hook streams again with the list as it was, and nothing fetches it anew (the
    server sends only changes, never what it has). *)
Theorem missed_change_stays (s : State) (r : StreamContainersResponse) :
  reachable s -> isMounted s = true -> phase s = Streaming ->
  let s' := foldl (fun s e => stream_step e s) s [StreamFails; Message r; WaitOver; Connected] in
  phase s' = Streaming /\ containers s' = containers s /\ timers s' = timers s.
Proof.
  intros [_ Ha _ _]%reachable_life Hm Hp. rewrite Hm in Ha. cbn in Ha.
  assert (stream_step StreamFails s = setPhase Waiting s) as E
    by (unfold stream_step, stream_catch; by rewrite Hp, Ha).
  cbn [foldl]. rewrite E. unfold stream_step, loop_head, new_controller. cbn. by rewrite Hm; cbn; rewrite ?Hm.
Qed.

Definition wire_ex (i n : string) : ProtoContainerMsg :=
  mkProtoContainerMsg i n "img" "" "running" false false "" "" "".

(** The page after the list [l]. *)
Definition fetched (l : list ProtoContainerMsg) (s : State) : State :=
  setIsLoading false (setError None (setContainers (fun _ => mapProtoContainer <$> (of_message <$> l)) s)).

Definition web_ex : World := {["1" := of_wire (wire_ex "1" "web")]}.

Lemma web_ex_start : joint_start (web_ex, fetched [wire_ex "1" "web"] initial).
Proof.
  apply (joint_first web_ex [of_message (wire_ex "1" "web")] initial); try reflexivity.
  - split.
    + unfold web_ex. by intros id c [<- <-]%lookup_singleton_Some.
    + unfold web_ex. by intros i j c d [<- <-]%lookup_singleton_Some [<- <-]%lookup_singleton_Some.
  - split; cbn; try done; [constructor|]. intros t. rewrite lookup_empty. by intros [].
Qed.

(** One container, renamed and then removed. *)
Lemma list_mirrors_server_witness :
  let s := stream_step Connected (fetched [wire_ex "1" "web"] initial) in
  let renamed := stream_step (Message (mkStreamContainersResponse "save" (Some (wire_ex "1" "old")) "1")) s in
  let gone := stream_step (Message (mkStreamContainersResponse "delete" None "1")) renamed in
  c_name <$> containers gone = ["old"%string] /\ shown gone ≡ₚ [] /\ containers (let_timers_fire gone) ≡ₚ [].
Proof.
  intros s renamed gone. split; [reflexivity|].
  assert (server_step web_ex (mkStreamContainersResponse "save" (Some (wire_ex "1" "old")) "1")
            (<["1"%string := of_wire (wire_ex "1" "old")]> web_ex)) as Hr.
  { apply (server_saves web_ex (wire_ex "1" "old")). unfold web_ex. by intros id c [<- <-]%lookup_singleton_Some. }
  assert (distinct_message s (mkStreamContainersResponse "save" (Some (wire_ex "1" "old")) "1")) as Hd.
  { split; cbn; [by intros t n; rewrite lookup_empty|]. intros x y _ _ _ Hy. apply elem_of_cons in Hy as [->|Hy]; [done|].
    by apply not_elem_of_nil in Hy. }
  destruct (list_mirrors_server _ (delete "1"%string (<["1"%string := of_wire (wire_ex "1" "old")]> web_ex), gone) web_ex_start)
    as (H1 & _ & _ & H2); [|by split].
  eapply rtc_l; [by apply (joint_stream web_ex Connected)|]. eapply rtc_l; [by apply joint_change|].
  eapply rtc_l; [|apply rtc_refl]. apply joint_change; [reflexivity|apply server_removes|exact I].
Defined.

(** The answer of a refetch that a change overtook: the list was read before the
    container was removed and arrives after its timer fired, and the page goes on
    showing the container. *)
Lemma stale_refetch_stays :
  let s := stream_step Connected (fetched [wire_ex "1" "web"] initial) in
  let gone := let_timers_fire (stream_step (Message (mkStreamContainersResponse "delete" None "1")) s) in
  containers gone = [] /\ timers gone = ∅
  /\ c_id <$> containers (fetched [wire_ex "1" "web"] gone) = ["1"%string] /\ timers (fetched [wire_ex "1" "web"] gone) = ∅.
Proof. by split_and!. Qed.

(** Two containers under one name: a container that is new to the page takes the place
    of the one listed under its name, although the server has both. *)
Lemma namesake_hides_container :
  let s := stream_step Connected (fetched [wire_ex "1" "web"] initial) in
  let s' := stream_step (Message (mkStreamContainersResponse "save" (Some (wire_ex "2" "web")) "2")) s in
  c_id <$> containers s' = ["2"%string] /\ timers s' = ∅.
Proof. by split_and!. Qed.
