(* ===== verification/Broker.v ===== *)
(** The server's broadcast of container changes (internal/container/broker.go and
    stream.go, outside frontend/src): what a stream of the containers page is sent.

    A channel is the queue of its events; a subscription is a channel with a number of
    its own.  [Subscribe] and [Unsubscribe] hold the broker's lock alone; [Publish] holds
    it for reading, so that several publications run at once, each offering its event to
    the subscribers one after the other in any order (the program walks a map), and every
    stream takes events from its channel whenever it is scheduled. *)
From S2P Require Import Prelude Proto.

Section Broker.
Context {event : Type}.

(** A publication under way: its event and the channels it has not come to yet. *)
Record Publication := mkPublication { p_event : event; p_left : gset nat }.

Record Broker := mkBroker {
  subscribers : gmap nat (list event); next_channel : nat; running : gmap nat Publication
}.

Definition NewBroker : Broker := mkBroker ∅ 0 ∅.

(** The room of a channel. *)
Definition buffer : nat := 100.

Definition Subscribe (b : Broker) : Broker * nat :=
  (mkBroker (<[next_channel b := []]> (subscribers b)) (S (next_channel b)) (running b), next_channel b).

Definition Unsubscribe (ch : nat) (b : Broker) : Broker :=
  mkBroker (delete ch (subscribers b)) (next_channel b) (running b).

(** A subscriber whose channel is full is skipped. *)
Definition offer (e : event) (queue : list event) : list event :=
  if length queue <? buffer then queue ++ [e] else queue.

(** [Publish]: its beginning, one turn of its loop, and its end. *)
Definition publish_begin (p : nat) (e : event) (b : Broker) : Broker :=
  mkBroker (subscribers b) (next_channel b) (<[p := mkPublication e (dom (subscribers b))]> (running b)).
Definition publish_turn (p ch : nat) (pub : Publication) (b : Broker) : Broker :=
  mkBroker (alter (offer (p_event pub)) ch (subscribers b)) (next_channel b)
    (<[p := mkPublication (p_event pub) (p_left pub ∖ {[ch]})]> (running b)).
Definition publish_end (p : nat) (b : Broker) : Broker :=
  mkBroker (subscribers b) (next_channel b) (delete p (running b)).

(** What happens, in its order: [Sent ch e] is the loop of [StreamContainers] taking an
    event from its channel and sending it; the loop ends, for whatever reason, by
    unsubscribing. *)
Inductive label :=
| Subscribed (ch : nat) | Ended (ch : nat)
| Published (e : event) | Offered (ch : nat) (e : event) | Finished
| Sent (ch : nat) (e : event).

Inductive step : Broker -> label -> Broker -> Prop :=
| step_subscribe b : running b = ∅ -> step b (Subscribed (Subscribe b).2) (Subscribe b).1
| step_end b ch : running b = ∅ -> is_Some (subscribers b !! ch) -> step b (Ended ch) (Unsubscribe ch b)
| step_publish b p e : running b !! p = None -> step b (Published e) (publish_begin p e b)
| step_offer b p pub ch :
    running b !! p = Some pub -> ch ∈ p_left pub -> step b (Offered ch (p_event pub)) (publish_turn p ch pub b)
| step_finish b p pub : running b !! p = Some pub -> p_left pub = ∅ -> step b Finished (publish_end p b)
| step_send b ch e queue :
    subscribers b !! ch = Some (e :: queue) ->
    step b (Sent ch e) (mkBroker (<[ch := queue]> (subscribers b)) (next_channel b) (running b)).

Inductive trace : Broker -> list label -> Broker -> Prop :=
| trace_nil b : trace b [] b
| trace_snoc b tr b1 l b2 : trace b tr b1 -> step b1 l b2 -> trace b (tr ++ [l]) b2.

(** ** What a history says of a subscription *)

(** What was published, what channel [ch] was offered, and what it was sent. *)
Definition published (tr : list label) : list event :=
  omap (fun l => match l with Published e => Some e | _ => None end) tr.
Definition offered (ch : nat) (tr : list label) : list event :=
  omap (fun l => match l with Offered c e => if decide (c = ch) then Some e else None | _ => None end) tr.
Definition sent (ch : nat) (tr : list label) : list event :=
  omap (fun l => match l with Sent c e => if decide (c = ch) then Some e else None | _ => None end) tr.
Definition finished (tr : list label) : nat :=
  length (omap (fun l => match l with Finished => Some tt | _ => None end) tr).

(** The stream of [ch] is never more than a channel behind. *)
Definition keeps_up (ch : nat) (tr : list label) : Prop :=
  forall tr1, tr1 `prefix_of` tr -> length (offered ch tr1) <= length (sent ch tr1) + buffer.

(** No publication begins while another is under way. *)
Definition one_by_one (tr : list label) : Prop :=
  forall tr1 e, tr1 ++ [Published e] `prefix_of` tr -> length (published tr1) = finished tr1.

(** What the publications under way have still to offer to [ch]. *)
Definition awaiting (ch : nat) (m : gmap nat Publication) : list event :=
  p_event <$> filter (fun pub => ch ∈ p_left pub) (map_to_list m).*2.

(** The channels a broker knows are older than the next one; a publication has only
    channels it knows before it. *)
Record broker_ok (b : Broker) : Prop := {
  ok_channels ch : is_Some (subscribers b !! ch) -> ch < next_channel b;
  ok_left p pub : running b !! p = Some pub -> p_left pub ⊆ dom (subscribers b)
}.

Lemma broker_step_ok (b b' : Broker) (l : label) : step b l b' -> broker_ok b -> broker_ok b'.
Proof.
  intros Hs [Hc Hl].
  destruct Hs as [b Hr|b ch Hr _|b p e Hp|b p pub ch Hp Hin|b p pub Hp He|b ch e q Hq]; split; simpl in *.
  - intros c. destruct (decide (c = next_channel b)) as [->|]; [lia|].
    rewrite lookup_insert_ne by done. intros H%Hc. lia.
  - intros p pub. by rewrite Hr, lookup_empty.
  - intros c. destruct (decide (c = ch)) as [->|]; [rewrite lookup_delete_eq; by intros []|].
    rewrite lookup_delete_ne by done. apply Hc.
  - intros p pub. by rewrite Hr, lookup_empty.
  - done.
  - intros p' pub'. destruct (decide (p' = p)) as [->|]; [rewrite lookup_insert_eq; by intros [= <-]|].
    rewrite lookup_insert_ne by done. apply Hl.
  - intros c Hi. apply Hc. by apply lookup_alter_is_Some in Hi.
  - intros p' pub'. rewrite dom_alter_L. destruct (decide (p' = p)) as [->|].
    + rewrite lookup_insert_eq. intros [= <-]. simpl. specialize (Hl p pub Hp). set_solver.
    + rewrite lookup_insert_ne by done. apply Hl.
  - done.
  - intros p' pub' [_ H]%lookup_delete_Some. by eapply Hl.
  - intros c. destruct (decide (c = ch)) as [->|]; [intros _; apply Hc; by rewrite Hq|].
    rewrite lookup_insert_ne by done. apply Hc.
  - intros p' pub' H. rewrite dom_insert_L. specialize (Hl p' pub' H). set_solver.
Qed.

Lemma broker_trace_ok (b b' : Broker) (tr : list label) : trace b tr b' -> broker_ok b -> broker_ok b'.
Proof. induction 1; [done|]. intros Hb. eapply broker_step_ok; eauto. Qed.

Lemma new_ok : broker_ok NewBroker.
Proof. split; unfold NewBroker; simpl; [intros ch|intros p pub]; rewrite lookup_empty; [by intros []|done]. Qed.

(** ** Counting *)

Lemma omap_snoc {A B} (f : A -> option B) (l : list A) (x : A) : omap f (l ++ [x]) = omap f l ++ option_list (f x).
Proof. rewrite omap_app. simpl. by destruct (f x). Qed.

Definition own (ch : nat) (pub : Publication) : list event :=
  if decide (ch ∈ p_left pub) then [p_event pub] else [].

Lemma awaiting_insert (ch p : nat) (pub : Publication) (m : gmap nat Publication) :
  awaiting ch (<[p := pub]> m) ≡ₚ own ch pub ++ awaiting ch (delete p m).
Proof.
  unfold awaiting, own. rewrite <- insert_delete_eq, map_to_list_insert by apply lookup_delete_eq.
  rewrite fmap_cons, filter_cons. simpl. by case_decide.
Qed.

Lemma awaiting_at (ch p : nat) (pub : Publication) (m : gmap nat Publication) :
  m !! p = Some pub -> awaiting ch m ≡ₚ own ch pub ++ awaiting ch (delete p m).
Proof. intros Hp. rewrite <- (insert_id m p pub) at 1 by done. apply awaiting_insert. Qed.

Lemma own_turn (ch c : nat) (pub : Publication) :
  c ∈ p_left pub ->
  own ch pub = offered ch [Offered c (p_event pub)] ++ own ch (mkPublication (p_event pub) (p_left pub ∖ {[c]})).
Proof.
  intros Hc. unfold own. simpl. destruct (decide (c = ch)) as [->|Hne]; simpl.
  - rewrite decide_True by done. rewrite decide_False by set_solver. done.
  - destruct (decide (ch ∈ p_left pub)); [rewrite decide_True by set_solver|rewrite decide_False by set_solver]; done.
Qed.

Lemma offered_app (ch : nat) (t1 t2 : list label) : offered ch (t1 ++ t2) = offered ch t1 ++ offered ch t2.
Proof. apply omap_app. Qed.
Lemma sent_app (ch : nat) (t1 t2 : list label) : sent ch (t1 ++ t2) = sent ch t1 ++ sent ch t2.
Proof. apply omap_app. Qed.
Lemma published_app (t1 t2 : list label) : published (t1 ++ t2) = published t1 ++ published t2.
Proof. apply omap_app. Qed.
Lemma finished_app (t1 t2 : list label) : finished (t1 ++ t2) = finished t1 + finished t2.
Proof. unfold finished. by rewrite omap_app, length_app. Qed.
Lemma offered_one (ch : nat) (l : label) : length (offered ch [l]) <= 1.
Proof. destruct l as [| | |c e| |]; simpl; try case_decide; simpl; lia. Qed.

Lemma keeps_up_prefix (ch : nat) (t1 t2 : list label) : keeps_up ch (t1 ++ t2) -> keeps_up ch t1.
Proof. intros H t Ht. apply H. etrans; [exact Ht|]. by apply prefix_app_r. Qed.
Lemma one_by_one_prefix (t1 t2 : list label) : one_by_one (t1 ++ t2) -> one_by_one t1.
Proof. intros H t e Ht. eapply H. etrans; [exact Ht|]. by apply prefix_app_r. Qed.

(** One step, seen by a subscription that it does not end: what it offers and sends. *)
Lemma step_queue (b b' : Broker) (l : label) (ch : nat) (q : list event) :
  step b l b' -> broker_ok b -> subscribers b !! ch = Some q -> l <> Ended ch ->
  exists q', subscribers b' !! ch = Some q'
    /\ sent ch [l] ++ q' = q ++ (if length q <? buffer then offered ch [l] else []).
Proof.
  intros Hs [Hb _] Hq Hl. assert (Hlt : ch < next_channel b) by (apply Hb; by rewrite Hq).
  destruct Hs as [b Hr|b c Hr _|b p e Hp|b p pub c Hp Hin|b p pub Hp He|b c e r Hr]; simpl in *.
  - exists q. rewrite lookup_insert_ne by lia. split; [done|]. by destruct (_ <? _); rewrite app_nil_r.
  - exists q. rewrite lookup_delete_ne by congruence. split; [done|]. by destruct (_ <? _); rewrite app_nil_r.
  - exists q. split; [done|]. by destruct (_ <? _); rewrite app_nil_r.
  - destruct (decide (c = ch)) as [->|Hne].
    + exists (offer (p_event pub) q). rewrite lookup_alter_eq, Hq. split; [done|].
      unfold offer. by destruct (_ <? _); rewrite ?app_nil_r.
    + exists q. rewrite lookup_alter_ne by done. split; [done|]. by destruct (_ <? _); rewrite app_nil_r.
  - exists q. split; [done|]. by destruct (_ <? _); rewrite app_nil_r.
  - destruct (decide (c = ch)) as [->|Hne]; simpl.
    + exists r. rewrite lookup_insert_eq. split; [done|]. rewrite Hr in Hq. injection Hq as <-.
      by destruct (_ <? _); rewrite ?app_nil_r.
    + exists q. rewrite lookup_insert_ne by done. split; [done|]. by destruct (_ <? _); rewrite app_nil_r.
Qed.

(** What is offered and still to be offered grows by what is published. *)
Lemma step_offers (b b' : Broker) (l : label) (ch : nat) :
  step b l b' -> ch ∈ dom (subscribers b) ->
  offered ch [l] ++ awaiting ch (running b') ≡ₚ awaiting ch (running b) ++ published [l].
Proof.
  intros Hs Hch.
  destruct Hs as [b Hr|b c Hr _|b p e Hp|b p pub c Hp Hin|b p pub Hp He|b c e r Hr]; simpl in *.
  - by rewrite app_nil_r.
  - by rewrite app_nil_r.
  - rewrite awaiting_insert, delete_id by done. unfold own. simpl. rewrite decide_True by done. apply Permutation_cons_append.
  - rewrite app_nil_r, awaiting_insert, (awaiting_at ch p pub (running b)), (own_turn ch c pub) by done.
    simpl. by rewrite <- app_assoc.
  - rewrite app_nil_r, (awaiting_at ch p pub (running b)) by done. unfold own. by rewrite decide_False by set_solver.
  - destruct (decide (c = ch)); by rewrite app_nil_r.
Qed.

(** How many are under way. *)
Lemma step_running (b b' : Broker) (l : label) :
  step b l b' -> size (running b') + finished [l] = size (running b) + length (published [l]).
Proof.
  unfold finished.
  destruct 1 as [b Hr|b c Hr _|b p e Hp|b p pub c Hp Hin|b p pub Hp He|b c e r Hr]; simpl; try lia.
  - rewrite map_size_insert_None by done. lia.
  - rewrite map_size_insert_Some by done. lia.
  - rewrite map_size_delete_Some by done.
    assert (size (running b) <> 0) by (intros H%map_size_empty_inv; by rewrite H, lookup_empty in Hp). lia.
Qed.

Lemma awaiting_short (ch : nat) (m : gmap nat Publication) : length (awaiting ch m) <= size m.
Proof.
  unfold awaiting. rewrite length_fmap. etrans; [apply length_filter|]. by rewrite length_fmap, length_map_to_list.
Qed.

Lemma short_permutation (l1 l2 : list event) : length l1 <= 1 -> l1 ≡ₚ l2 -> l1 = l2.
Proof.
  intros Hl H. destruct l1 as [|x [|y l1]]; simpl in Hl; [by apply Permutation_nil_l in H|by apply Permutation_singleton_l in H|lia].
Qed.

(** What holds of a subscription [ch] after the history [tr] since it began. *)
Record subscription (ch : nat) (tr : list label) (b : Broker) : Prop := {
  sub_ok : broker_ok b;
  sub_queue : exists queue, subscribers b !! ch = Some queue /\ length queue <= buffer
    /\ (sent ch tr ++ queue) `sublist_of` offered ch tr
    /\ (keeps_up ch tr -> sent ch tr ++ queue = offered ch tr);
  sub_offers : offered ch tr ++ awaiting ch (running b) ≡ₚ published tr;
  sub_running : size (running b) + finished tr = length (published tr);
  sub_order : one_by_one tr -> size (running b) <= 1 /\ offered ch tr ++ awaiting ch (running b) = published tr
}.

Lemma subscription_queue (ch : nat) (tr : list label) (b b' : Broker) (l : label) :
  subscription ch tr b -> step b l b' -> l <> Ended ch ->
  exists queue, subscribers b' !! ch = Some queue /\ length queue <= buffer
    /\ (sent ch (tr ++ [l]) ++ queue) `sublist_of` offered ch (tr ++ [l])
    /\ (keeps_up ch (tr ++ [l]) -> sent ch (tr ++ [l]) ++ queue = offered ch (tr ++ [l])).
Proof.
  intros [Hok (q & Hq & Hl & Hsub & Hall) _ _ _] Hs Hne.
  destruct (step_queue b b' l ch q Hs Hok Hq Hne) as (q' & Hq' & E).
  exists q'. rewrite sent_app, offered_app, <- app_assoc, E, app_assoc.
  pose proof (f_equal length E) as El. rewrite !length_app in El. pose proof (offered_one ch l).
  destruct (Nat.ltb_spec (length q) buffer) as [Hroom|Hfull].
  - split_and!; [done|lia|by apply sublist_app; [|reflexivity]|]. intros Hk. by rewrite (Hall (keeps_up_prefix _ _ _ Hk)).
  - rewrite app_nil_r in *. simpl in El. split_and!; [done|lia|by apply sublist_inserts_r|]. intros Hk.
    specialize (Hall (keeps_up_prefix _ _ _ Hk)). pose proof (Hk (tr ++ [l]) ltac:(done)) as Hlag.
    rewrite sent_app, offered_app, !length_app in Hlag. pose proof (f_equal length Hall) as Ha.
    rewrite length_app in Ha. destruct (offered ch [l]) as [|x [|y o]] eqn:Eo; [by rewrite app_nil_r| |simpl in *; lia].
    exfalso. destruct l; simpl in *; try done; repeat case_decide; simpl in *; try done; lia.
Qed.

Lemma subscription_order (ch : nat) (tr : list label) (b b' : Broker) (l : label) :
  subscription ch tr b -> step b l b' -> one_by_one (tr ++ [l]) ->
  size (running b') <= 1 /\ offered ch (tr ++ [l]) ++ awaiting ch (running b') = published (tr ++ [l]).
Proof.
  intros [Hok (q & Hq & _) _ Hcount Hord] Hs Hone. destruct (Hord (one_by_one_prefix _ _ Hone)) as [Hsize Heq].
  assert (Hch : ch ∈ dom (subscribers b)) by (apply elem_of_dom; by rewrite Hq).
  pose proof (step_running b b' l Hs) as Hr. pose proof (step_offers b b' l ch Hs Hch) as Hp.
  assert (Hs' : size (running b') <= 1 /\ length (awaiting ch (running b) ++ published [l]) <= 1).
  { pose proof (awaiting_short ch (running b)). rewrite length_app.
    destruct (published [l]) as [|e [|? ?]] eqn:E; simpl in *; [lia| |by destruct l].
    assert (l = Published e) as -> by (destruct l; simpl in E; congruence).
    specialize (Hone tr e ltac:(done)). unfold finished in *; simpl in *. lia. }
  destruct Hs' as [Hs1 Hs2]. split; [done|].
  rewrite offered_app, published_app, <- app_assoc, <- Heq, <- app_assoc. f_equal.
  symmetry. apply short_permutation; [done|]. by symmetry.
Qed.

Lemma subscription_step (ch : nat) (tr : list label) (b b' : Broker) (l : label) :
  subscription ch tr b -> step b l b' -> l <> Ended ch -> subscription ch (tr ++ [l]) b'.
Proof.
  intros H Hs Hne. pose proof H as [Hok (q & Hq & _) Hoff Hcount _].
  assert (Hch : ch ∈ dom (subscribers b)) by (apply elem_of_dom; by rewrite Hq).
  split.
  - by eapply broker_step_ok.
  - by eapply subscription_queue.
  - rewrite offered_app, published_app, <- app_assoc, (step_offers b b' l ch Hs Hch), app_assoc. by rewrite Hoff.
  - pose proof (step_running b b' l Hs). rewrite finished_app, published_app, length_app. lia.
  - intros Hone. by eapply subscription_order.
Qed.

(** C23: a stream sends what was published: from its subscription on, until it ends, what a
    stream has sent and what waits in its channel are together events it was offered, in
    that order and each once, at most a hundred of them waiting, and all of them as long
    as the stream never falls more than a hundred events behind; whenever no publication
    is under way, it was offered exactly what was published since (whatever other streams
    do), and in the order of publication when the publications did not overlap. *)
Theorem stream_in_order (tr0 tr : list label) (b0 b : Broker)
    (H0 : trace NewBroker tr0 b0) (Hrun : running b0 = ∅) (H : trace (Subscribe b0).1 tr b)
    (Hlive : Ended (Subscribe b0).2 ∉ tr) :
  let ch := (Subscribe b0).2 in
  exists queue, subscribers b !! ch = Some queue /\ length queue <= buffer
    /\ (sent ch tr ++ queue) `sublist_of` offered ch tr
    /\ (keeps_up ch tr -> sent ch tr ++ queue = offered ch tr)
    /\ (running b = ∅ -> offered ch tr ≡ₚ published tr)
    /\ (running b = ∅ -> one_by_one tr -> offered ch tr = published tr).
Proof.
  assert (Hsub : subscription (Subscribe b0).2 tr b).
  { assert (Hok0 : broker_ok (Subscribe b0).1).
    { eapply broker_step_ok; [by apply step_subscribe|]. eapply broker_trace_ok; [exact H0|apply new_ok]. }
    remember (Subscribe b0).1 as b1 eqn:E1. induction H as [b1|b1 tr b2 l b3 Ht IH Hs].
    - subst b1. split; simpl; [done| |by rewrite Hrun|by rewrite Hrun, map_size_empty|].
      2: { intros _. rewrite Hrun, map_size_empty. split; [lia|done]. }
      exists []. rewrite lookup_insert_eq. split_and!; [done|unfold buffer; simpl; lia|constructor|done].
    - rewrite elem_of_app, list_elem_of_singleton in Hlive. eapply subscription_step; [|exact Hs|naive_solver].
      apply IH; tauto. }
  destruct Hsub as [_ (q & Hq & Hl & Hs & Hk) Hoff _ Hord]. exists q. split_and!; [done..| |].
  - intros Hr. rewrite <- Hoff, Hr. by rewrite app_nil_r.
  - intros Hr Hone. destruct (Hord Hone) as [_ <-]. rewrite Hr. by rewrite app_nil_r.
Qed.
End Broker.

#[global] Arguments Broker event : clear implicits.

(** A stream that takes nothing while 101 changes are published never sends the last of
    them: nothing tells the client that its list has fallen behind. *)
Definition publish_alone (e : nat) (b : Broker nat) : Broker nat :=
  publish_end 0 (publish_turn 0 0 (mkPublication e {[0]}) (publish_begin 0 e b)).

Lemma slow_stream_misses :
  subscribers (foldl (fun b e => publish_alone e b) (Subscribe NewBroker).1 (seq 0 101)) !! 0 = Some (seq 0 100).
Proof. vm_compute. reflexivity. Qed.

Lemma stream_in_order_witness :
  let b1 := (Subscribe (NewBroker (event := nat))).1 in
  let tr := [Published 7; Offered 0 7; Finished] in
  offered 0 tr = published tr /\ exists queue, subscribers (publish_alone 7 b1) !! 0 = Some queue /\ sent 0 tr ++ queue = [7].
Proof.
  intros b1 tr.
  assert (H : trace b1 tr (publish_alone 7 b1)).
  { apply (trace_snoc _ [Published 7; Offered 0 7] (publish_turn 0 0 (mkPublication 7 {[0]}) (publish_begin 0 7 b1)));
      [|eapply (step_finish _ 0); [reflexivity|reflexivity]].
    apply (trace_snoc _ [Published 7] (publish_begin 0 7 b1)); [|apply (step_offer (publish_begin 0 7 b1) 0 (mkPublication 7 {[0]}) 0); [reflexivity|set_solver]].
    apply (trace_snoc _ [] b1); [apply trace_nil|by apply step_publish]. }
  destruct (stream_in_order [] tr NewBroker (publish_alone 7 b1) (trace_nil _) eq_refl H) as (q & Hq & _ & _ & Hk & _ & Ho).
  { unfold tr. rewrite !not_elem_of_cons. split_and!; try done. apply not_elem_of_nil. }
  split; [apply Ho; [reflexivity|]|].
  - intros tr1 e [rest Hr]. destruct tr1 as [|l tr1]; [done|]. unfold tr in Hr. simplify_eq/=.
    by repeat (destruct tr1; simplify_eq/=).
  - exists [7]. split; reflexivity.
Defined.
