(* ===== verification/ContainerServer.v ===== *)
(** The containers on the server, outside frontend/src: the table of the database
    (internal/db/containers.sql.go), the sync at the start (internal/container/sync.go),
    the monitor of the Docker daemon's events (internal/docker/monitor.go), the handlers
    that change a container (internal/container/actions.go, upgrade.go) and what they
    publish to the streams of Broker.v.

    A query of the database is one step.  The daemon and the registry are parameters;
    a handler is cut where it waits for them, since the monitor and the other handlers
    run meanwhile. *)
From S2P Require Import Prelude Proto Services Access.

(** ** The table *)

(** A column without a type of its own: null, text or a time. *)
Inductive dbval := VNull | VText (s : string) | VTime (t : Z).

Record row := mkRow {
  r_name : string; r_image : string; r_imageId : string; r_state : string;
  r_autoUpdate : Z; r_updateAvailable : Z;
  r_latestImageDigest : dbval; r_lastCheckedAt : dbval; r_lastUpdatedAt : dbval
}.

(** The rows by their primary key. *)
Abbreviation table := (gmap string row).

Definition UpsertContainerFromEvent (id name image imageId state : string) (t : table) : table :=
  let r := match t !! id with
           | Some r => mkRow name image imageId state (r_autoUpdate r) (r_updateAvailable r)
                         (r_latestImageDigest r) (r_lastCheckedAt r) (r_lastUpdatedAt r)
           | None => mkRow name image imageId state 0 0 VNull VNull VNull
           end in
  <[id := r]> t.

Definition SaveContainer (id : string) (r : row) (t : table) : table := <[id := r]> t.

Definition SetContainerAutoUpdate (id : string) (autoUpdate : Z) (t : table) : table :=
  alter (fun r => mkRow (r_name r) (r_image r) (r_imageId r) (r_state r) autoUpdate (r_updateAvailable r)
                    (r_latestImageDigest r) (r_lastCheckedAt r) (r_lastUpdatedAt r)) id t.

Definition UpdateContainerUpdateState (id : string) (available : Z) (digest : string) (now : Z) (t : table) : table :=
  alter (fun r => mkRow (r_name r) (r_image r) (r_imageId r) (r_state r) (r_autoUpdate r) available
                    (VText digest) (VTime now) (r_lastUpdatedAt r)) id t.

(** The rows affected; [None] when the new id is another row's. *)
Definition UpdateContainerForUpgrade (newId name image imageId state : string) (now : Z) (oldId : string) (t : table) :
    option (table * nat) :=
  match t !! oldId with
  | None => Some (t, 0)
  | Some r =>
      if bool_decide (newId <> oldId /\ is_Some (t !! newId)) then None
      else Some (<[newId := mkRow name image imageId state (r_autoUpdate r) 0 (r_latestImageDigest r)
                              (r_lastCheckedAt r) (VTime now)]> (delete oldId t), 1)
  end.

Definition DeleteContainer (id : string) (t : table) : table := delete id t.

(** [DELETE ... WHERE id NOT IN (...)]: without an id the list is [(NULL)], and a
    comparison with it holds for no row. *)
Definition DeleteOrphanContainers (activeIds : list string) (t : table) : table :=
  match activeIds with
  | [] => t
  | _ => filter (fun kv => kv.1 ∈ activeIds) t
  end.

(** ** What is published *)

Section Server.
(** The text of a time. *)
Context (rfc3339 : Z -> string).

Definition time_text (v : dbval) : string :=
  match v with VTime t => rfc3339 t | VText s => s | VNull => "" end.

Definition MapContainerRecord (id : string) (r : row) : ProtoContainerMsg :=
  mkProtoContainerMsg id (r_name r) (r_image r) (r_imageId r) (r_state r)
    (negb (r_autoUpdate r =? 0)%Z) (negb (r_updateAvailable r =? 0)%Z)
    (match r_latestImageDigest r with VText s => s | _ => "" end)
    (time_text (r_lastCheckedAt r)) (time_text (r_lastUpdatedAt r)).

Definition publish_save (id : string) (t : table) : list StreamContainersResponse :=
  match t !! id with
  | Some r => [mkStreamContainersResponse "save" (Some (MapContainerRecord id r)) id]
  | None => []
  end.

Definition removal (id : string) : StreamContainersResponse := mkStreamContainersResponse "delete" None id.

(** What is left of an operation once its statement has run: a row that is read to be
    published, a message that is published, a row that is saved. *)
Inductive piece := ReadRow (id : string) | Send (m : StreamContainersResponse) | SaveRow (id : string) (r : row).

Definition run_piece (p : piece) (t : table) : table * list StreamContainersResponse :=
  match p with
  | ReadRow id => (t, publish_save id t)
  | Send m => (t, [m])
  | SaveRow id r => (SaveContainer id r t, [])
  end.

(** The rest of an operation with nothing in between. *)
Fixpoint run_pieces (ps : list piece) (t : table) : table * list StreamContainersResponse :=
  match ps with
  | [] => (t, [])
  | p :: ps =>
      let '(t, sent) := run_piece p t in
      let '(t, events) := run_pieces ps t in
      (t, sent ++ events)
  end.

(** ** The sync at the start *)

(** A container of the daemon's list. *)
Record Listed := mkListed { l_id : string; l_names : list string; l_image : string; l_imageId : string; l_state : string }.

Definition trim_slash (s : string) : string := if startsWith "/" s then slice_from 1 s else s.

Definition sync_one (t : table) (c : Listed) : table :=
  let name := match l_names c with n :: _ => trim_slash n | [] => "" end in
  UpsertContainerFromEvent (l_id c) name (l_image c) (l_imageId c) (l_state c) t.

Definition SyncContainers (containers : list Listed) (t : table) : table :=
  DeleteOrphanContainers (l_id <$> containers) (foldl sync_one t containers).

(** ** The monitor *)

(** What an inspection tells of a container. *)
Record Inspection := mkInspection { i_name : string; i_image : string; i_imageId : string; i_state : string }.

(** [handleEvent] up to its statement, and what is left to the callback of cmd/serve.go;
    [inspect] is the daemon's answer where the event asks for one. *)
Definition event_statement (action containerId : string) (inspect : option Inspection) (t : table) :
    table * list piece :=
  if String.eqb containerId "" then (t, [])
  else if String.eqb action "destroy" || String.eqb action "delete" then
    (DeleteContainer containerId t, [Send (removal containerId)])
  else if bool_decide (action ∈ ["create"; "start"; "stop"; "die"; "update"]%string) then
    match inspect with
    | None => (t, [])
    | Some i =>
        (UpsertContainerFromEvent containerId (trim_slash (i_name i)) (i_image i) (i_imageId i) (i_state i) t,
         [ReadRow containerId])
    end
  else (t, []).

Definition handleEvent (action containerId : string) (inspect : option Inspection) (t : table) :
    table * list StreamContainersResponse :=
  let '(t, todo) := event_statement action containerId inspect t in run_pieces todo t.

(** ** The handlers *)

Definition CodeNotFound : Z := 5.
Definition CodeInvalidArgument : Z := 3.

(** The checks every handler begins with, up to the row of the container. *)
Definition begin_action (user : option User) (id : string) (t : table) : row + handler_error :=
  match user with
  | None => inr (Coded CodeUnauthenticated "unauthenticated")
  | Some u =>
      if negb (String.eqb (Role u) "admin") then inr (Coded CodePermissionDenied "admin privilege required")
      else if String.eqb id "" then inr (Coded CodeInvalidArgument "container ID is required")
      else match t !! id with
           | None => inr (Coded CodeNotFound "container not found")
           | Some existing => inl existing
           end
  end.

(** The end of [StartContainer] and [StopContainer]: the state of the daemon's second
    inspection is saved over the row as it was read at the beginning. *)
Definition transition_statement (id : string) (existing : row) (currentState : string) (t : table) : table * list piece :=
  (SaveContainer id
     (mkRow (r_name existing) (r_image existing) (r_imageId existing) currentState (r_autoUpdate existing)
        (r_updateAvailable existing) (r_latestImageDigest existing) (r_lastCheckedAt existing)
        (r_lastUpdatedAt existing)) t,
   [ReadRow id]).

Definition finish_transition (id : string) (existing : row) (currentState : string) (t : table) :
    table * list StreamContainersResponse :=
  let '(t, todo) := transition_statement id existing currentState t in run_pieces todo t.

(** [SetContainerAutoUpdate]: [t0] is the table the row is looked up in, [t] the one the
    statement finds. *)
Definition setting_statement (id : string) (autoUpdate : bool) (t : table) : table * list piece :=
  (SetContainerAutoUpdate id (if autoUpdate then 1 else 0) t, [ReadRow id]).

Definition set_auto_update (user : option User) (id : string) (autoUpdate : bool) (t0 t : table) :
    table * list StreamContainersResponse * (SetContainerAutoUpdateResponse + handler_error) :=
  match begin_action user id t0 with
  | inr err => (t, [], inr err)
  | inl _ =>
      let '(t, todo) := setting_statement id autoUpdate t in
      let '(t, events) := run_pieces todo t in
      (t, events, inl (mkSetContainerAutoUpdateResponse id autoUpdate))
  end.

(** *** Checking for updates *)

Definition isUpdateAvailable (localRepoDigests : list string) (remoteDigest : string) : bool :=
  if String.eqb remoteDigest "" then false
  else negb (existsb (fun rd => match split_on "@" rd with
                                | [_; d] => String.eqb d remoteDigest
                                | _ => false
                                end) localRepoDigests).

Definition getRegistryHost (imageRef : string) : string :=
  match split_on "/" imageRef with
  | first :: _ :: _ =>
      if includes "." first || includes ":" first || String.eqb first "localhost" then first else "docker.io"
  | _ => "docker.io"
  end.

Definition normalizeHost (h : string) : string :=
  let h := toLowerCase h in
  if String.eqb h "index.docker.io" || String.eqb h "registry-1.docker.io" || String.eqb h "docker.io"
  then "docker.io" else h.

Definition hostMatches (imageHost regHost : string) : bool :=
  String.eqb (normalizeHost imageHost) (normalizeHost regHost).

(** The end of [checkContainerUpdatesInternal], once the registry has answered. *)
Definition check_statement (id remoteDigest : string) (repoDigests : list string) (now : Z) (t : table) :
    table * list piece :=
  let updateAvailableVal := (if isUpdateAvailable repoDigests remoteDigest then 1 else 0)%Z in
  (UpdateContainerUpdateState id updateAvailableVal remoteDigest now t, [ReadRow id]).

Definition finish_check (id remoteDigest : string) (repoDigests : list string) (now : Z) (t : table) :
    table * list StreamContainersResponse * bool :=
  let '(t, todo) := check_statement id remoteDigest repoDigests now t in
  let '(t, events) := run_pieces todo t in
  (t, events, isUpdateAvailable repoDigests remoteDigest).

(** *** Upgrading *)

(** What an upgrade writes once the new container runs. *)
Record Upgraded := mkUpgraded {
  u_id : string; u_name : string; u_image : string; u_imageId : string; u_state : string; u_now : Z
}.

Definition fallback_row (existing : row) (u : Upgraded) : row :=
  mkRow (u_name u) (u_image u) (u_imageId u) (u_state u) (r_autoUpdate existing) 0
    (r_latestImageDigest existing) (r_lastCheckedAt existing) (VTime (u_now u)).

Definition upgrade_update (u : Upgraded) (oldId : string) (t : table) : option (table * nat) :=
  UpdateContainerForUpgrade (u_id u) (u_name u) (u_image u) (u_imageId u) (u_state u) (u_now u) oldId t.

Definition upgrade_broadcast (u : Upgraded) (oldId : string) : list piece :=
  (if String.eqb (u_id u) oldId then [] else [Send (removal oldId)]) ++ [ReadRow (u_id u)].

Definition upgrade_statement (existing : row) (u : Upgraded) (oldId : string) (t : table) : option (table * list piece) :=
  match upgrade_update u oldId t with
  | None => None
  | Some (t, rowsAffected) =>
      Some (t, (if rowsAffected =? 0 then [SaveRow (u_id u) (fallback_row existing u)] else []) ++ upgrade_broadcast u oldId)
  end.

(** The end of [upgradeContainerInternal] with nothing in between: the table, what is
    published, and whether it failed. *)
Definition finish_upgrade (existing : row) (u : Upgraded) (oldId : string) (t : table) :
    table * list StreamContainersResponse * bool :=
  match upgrade_statement existing u oldId t with
  | None => (t, [], false)
  | Some (t, todo) => let '(t, events) := run_pieces todo t in (t, events, true)
  end.

(** [shortDigest] of the audit's detail; the ellipsis is three bytes. *)
Definition shortDigest (id : string) : string :=
  if (19 <? String.length id) && startsWith "sha256:" id then slice_to 19 id +:+ "…" else id.

(** *** An upgrade beside the monitor *)

(** An event of the daemon, with the answer the monitor gets when it inspects. *)
Record DaemonEvent := mkDaemonEvent { e_action : string; e_id : string; e_inspect : option Inspection }.

Definition monitor (e : DaemonEvent) (t : table) : table := (handleEvent (e_action e) (e_id e) (e_inspect e) t).1.

Inductive upgrade_phase := Updating | Missed | Finished | Broken.

(** The events the monitor has not handled yet, how far the upgrade is, and the table. *)
Record config := mkConfig { feed : list DaemonEvent; at_phase : upgrade_phase; tbl : table }.

Section Upgrading.
Context (existing : row) (u : Upgraded) (oldId : string).

(** The two statements of the upgrade and the monitor's events, in any interleaving. *)
Inductive upgrade_step : config -> config -> Prop :=
| monitor_handles e es p t : upgrade_step (mkConfig (e :: es) p t) (mkConfig es p (monitor e t))
| update_runs es t t' n :
    upgrade_update u oldId t = Some (t', n) ->
    upgrade_step (mkConfig es Updating t) (mkConfig es (if n =? 0 then Missed else Finished) t')
| update_conflicts es t :
    upgrade_update u oldId t = None -> upgrade_step (mkConfig es Updating t) (mkConfig es Broken t)
| save_runs es t :
    upgrade_step (mkConfig es Missed t) (mkConfig es Finished (SaveContainer (u_id u) (fallback_row existing u) t)).

Definition is_removal (e : DaemonEvent) : bool :=
  String.eqb (e_action e) "destroy" || String.eqb (e_action e) "delete".

(** What the daemon reports of an upgrade: nothing of the new container before the old
    one is destroyed, nothing of the old one afterwards, and whatever it likes of the
    other containers. *)
Definition before_removal (e : DaemonEvent) : Prop := e_id e <> u_id u /\ (e_id e = oldId -> is_removal e = false).
Definition after_removal (e : DaemonEvent) : Prop := e_id e <> oldId /\ (e_id e = u_id u -> is_removal e = false).
Definition upgrade_feed (es : list DaemonEvent) : Prop :=
  exists pre d post, es = pre ++ d :: post /\ is_removal d = true /\ e_id d = oldId
    /\ Forall before_removal pre /\ Forall after_removal post.

(** The row of [id] has the setting of the upgraded container. *)
Definition keeps_setting (id : string) (t : table) : Prop :=
  exists r, t !! id = Some r /\ r_autoUpdate r = r_autoUpdate existing.
End Upgrading.
End Server.

Section Facts.
Context (rfc3339 : Z -> string).

(** ** What the streams say *)

(** The table as the clients are shown it, and a client that applies a message to what
    it knows. *)
Definition view (t : table) : gmap string ProtoContainerMsg :=
  map_imap (fun id r => Some (MapContainerRecord rfc3339 id r)) t.

Definition apply_message (v : gmap string ProtoContainerMsg) (m : StreamContainersResponse) :
    gmap string ProtoContainerMsg :=
  match StreamContainersResponse_container m with
  | Some c => if String.eqb (StreamContainersResponse_action m) "save" then <[ProtoContainerMsg_id c := c]> v else v
  | None =>
      if String.eqb (StreamContainersResponse_action m) "delete" then delete (StreamContainersResponse_containerId m) v
      else v
  end.

Lemma view_insert (id : string) (r : row) (t : table) :
  view (<[id := r]> t) = <[id := MapContainerRecord rfc3339 id r]> (view t).
Proof.
  apply map_eq. intros k. unfold view. rewrite map_lookup_imap.
  destruct (decide (k = id)) as [->|Hne]; [by rewrite !lookup_insert_eq|].
  by rewrite !lookup_insert_ne, map_lookup_imap.
Qed.

Lemma view_delete (id : string) (t : table) : view (delete id t) = delete id (view t).
Proof.
  apply map_eq. intros k. unfold view. rewrite map_lookup_imap.
  destruct (decide (k = id)) as [->|Hne]; [by rewrite !lookup_delete_eq|].
  by rewrite !lookup_delete_ne, map_lookup_imap.
Qed.

(** ** The sync *)

Lemma sync_one_lookup (t : table) (c : Listed) (k : string) :
  sync_one t c !! k = if decide (k = l_id c) then
    Some (mkRow (match l_names c with n :: _ => trim_slash n | [] => "" end) (l_image c) (l_imageId c) (l_state c)
            (from_option r_autoUpdate 0%Z (t !! k)) (from_option r_updateAvailable 0%Z (t !! k))
            (from_option r_latestImageDigest VNull (t !! k)) (from_option r_lastCheckedAt VNull (t !! k))
            (from_option r_lastUpdatedAt VNull (t !! k)))
  else t !! k.
Proof.
  unfold sync_one, UpsertContainerFromEvent. case_decide as Hk; [subst k; rewrite lookup_insert_eq|by rewrite lookup_insert_ne].
  by destruct (t !! l_id c).
Qed.

Definition setting (t : table) (k : string) : Z := from_option r_autoUpdate 0%Z (t !! k).

Lemma sync_setting (t : table) (cs : list Listed) (k : string) : setting (foldl sync_one t cs) k = setting t k.
Proof.
  revert t. induction cs as [|c cs IH]; intros t; [done|]. simpl. rewrite IH. unfold setting.
  rewrite sync_one_lookup. by case_decide.
Qed.

Lemma sync_known (t : table) (cs : list Listed) (k : string) :
  k ∈ l_id <$> cs \/ is_Some (t !! k) -> is_Some (foldl sync_one t cs !! k).
Proof.
  revert t. induction cs as [|c cs IH]; intros t Hk; simpl in *; [set_solver|]. apply IH.
  rewrite sync_one_lookup. case_decide; [by right|]. set_solver.
Qed.

Lemma sync_row (t : table) (cs : list Listed) (c : Listed) :
  NoDup (l_id <$> cs) -> c ∈ cs -> exists r, foldl sync_one t cs !! l_id c = Some r
    /\ r_image r = l_image c /\ r_imageId r = l_imageId c /\ r_state r = l_state c.
Proof.
  revert t. induction cs as [|c' cs IH]; intros t Hnd Hc; simpl in *; [set_solver|].
  apply NoDup_cons in Hnd as [Hn Hnd]. apply elem_of_cons in Hc as [->|Hc]; [|by apply IH].
  assert (Hkeep : forall t', t' !! l_id c' = sync_one t c' !! l_id c' ->
                  foldl sync_one t' cs !! l_id c' = sync_one t c' !! l_id c').
  { clear IH Hnd. induction cs as [|d cs IH]; intros t' Ht'; [done|]. simpl. apply IH; [set_solver|].
    rewrite sync_one_lookup. rewrite decide_False; [done|]. intros E. apply Hn. rewrite E. set_solver. }
  rewrite Hkeep by done. rewrite sync_one_lookup, decide_True by done. by eexists.
Qed.

(** C34: the sync at the start makes the table the host's: when the daemon lists at least
    one container, each once, the table has exactly the listed containers afterwards,
    each with the image and the state that the daemon tells, and a container known
    before keeps its setting for automatic updates (a new one has it off). *)
Theorem sync_mirrors_host (cs : list Listed) (t : table) (Hne : cs <> []) (Hnd : NoDup (l_id <$> cs)) :
  let t' := SyncContainers cs t in
  (forall k, is_Some (t' !! k) <-> k ∈ l_id <$> cs)
  /\ Forall (fun c => exists r, t' !! l_id c = Some r /\ r_image r = l_image c /\ r_imageId r = l_imageId c
       /\ r_state r = l_state c /\ r_autoUpdate r = setting t (l_id c)) cs.
Proof.
  set (f := foldl sync_one t cs).
  assert (Hl : forall k, SyncContainers cs t !! k = if decide (k ∈ l_id <$> cs) then f !! k else None).
  { intros k. unfold SyncContainers, DeleteOrphanContainers. fold f.
    destruct cs as [|c cs']; [done|]. simpl fmap. apply option_eq. intros r. rewrite map_lookup_filter_Some. simpl.
    case_decide; naive_solver. }
  split.
  - intros k. rewrite Hl. case_decide as Hk; [|by split; [intros []|]]. split; [done|]. intros _. apply sync_known. by left.
  - apply Forall_forall. intros c Hc. rewrite Hl, decide_True by (by apply list_elem_of_fmap_2).
    destruct (sync_row t cs c Hnd Hc) as (r & Hr & ? & ? & ?). exists r. split_and!; [done..|].
    rewrite <- (sync_setting t cs). unfold setting. fold f in Hr |- *. by rewrite Hr.
Qed.

Lemma monitor_statement (e : DaemonEvent) (t : table) :
  monitor rfc3339 e t = (event_statement (e_action e) (e_id e) (e_inspect e) t).1.
Proof.
  unfold monitor, handleEvent, event_statement. destruct (String.eqb _ ""); [done|]. destruct (_ || _); [done|].
  case_bool_decide; [|done]. by destruct (e_inspect e).
Qed.

Lemma monitor_other (e : DaemonEvent) (t : table) (k : string) :
  k <> e_id e -> monitor rfc3339 e t !! k = t !! k.
Proof.
  intros Hne. rewrite monitor_statement. unfold event_statement. destruct (String.eqb _ ""); [done|].
  destruct (_ || _); [by apply lookup_delete_ne|]. case_bool_decide; [|done].
  destruct (e_inspect e); [|done]. by apply lookup_insert_ne.
Qed.

Lemma monitor_removes (e : DaemonEvent) (t : table) :
  is_removal e = true -> e_id e <> ""%string -> monitor rfc3339 e t !! e_id e = None.
Proof.
  intros Hr Hne. rewrite monitor_statement. unfold event_statement. rewrite (proj2 (String.eqb_neq _ _) Hne).
  unfold is_removal in Hr. rewrite Hr. apply lookup_delete_eq.
Qed.

(** An event that removes nothing leaves every row with its setting. *)
Lemma monitor_keeps (e : DaemonEvent) (existing : row) (t : table) (k : string) :
  (e_id e = k -> is_removal e = false) -> keeps_setting existing k t -> keeps_setting existing k (monitor rfc3339 e t).
Proof.
  intros Hr (r & Hk & Ha). destruct (decide (e_id e = k)) as [<-|Hne];
    [|exists r; by rewrite monitor_other by done].
  specialize (Hr eq_refl). unfold is_removal in Hr. rewrite monitor_statement. unfold event_statement.
  destruct (String.eqb _ ""); [by exists r|]. rewrite Hr. case_bool_decide; [|by exists r].
  destruct (e_inspect e) as [i|]; [|by exists r]. simpl. unfold UpsertContainerFromEvent. rewrite Hk.
  eexists. split; [apply lookup_insert_eq|done].
Qed.

Section Interleaved.
Context (existing : row) (u : Upgraded) (oldId : string).
Context (Hold : oldId <> ""%string) (Hids : u_id u <> oldId).

Abbreviation keeps := (keeps_setting existing).

Definition upgrade_inv (c : config) : Prop :=
  let pending := upgrade_feed u oldId (feed c) in
  let removed := Forall (after_removal u oldId) (feed c) /\ tbl c !! oldId = None in
  match at_phase c with
  | Updating => (pending /\ keeps oldId (tbl c) /\ tbl c !! u_id u = None) \/ removed
  | Missed => removed
  | Finished => keeps (u_id u) (tbl c) /\ (pending \/ removed)
  | Broken => False
  end.

(** One event of a feed in which the removal is still to come. *)
Lemma feed_pending (e : DaemonEvent) (es : list DaemonEvent) (t : table) :
  upgrade_feed u oldId (e :: es) ->
  (before_removal u oldId e /\ upgrade_feed u oldId es)
  \/ (e_id e = oldId /\ Forall (after_removal u oldId) es /\ monitor rfc3339 e t !! oldId = None).
Proof.
  intros (pre & d & post & E & Hd & Hid & Hpre & Hpost). destruct pre as [|e' pre]; simplify_eq/=.
  - right. split_and!; [done..|]. by apply monitor_removes.
  - left. inversion Hpre; subst. split; [done|]. by exists pre, d, post.
Qed.

Lemma monitor_inv (e : DaemonEvent) (es : list DaemonEvent) (p : upgrade_phase) (t : table) :
  upgrade_inv (mkConfig (e :: es) p t) -> upgrade_inv (mkConfig es p (monitor rfc3339 e t)).
Proof.
  assert (Hdone : Forall (after_removal u oldId) (e :: es) /\ t !! oldId = None ->
                  Forall (after_removal u oldId) es /\ monitor rfc3339 e t !! oldId = None).
  { intros [H Ht]. inversion H as [|? ? [Hne _] Hes]; subst. by rewrite monitor_other by done. }
  unfold upgrade_inv. destruct p; cbn [feed at_phase tbl]; [..|done].
  - intros [(Hf & Hk & Hn)|H]; [|by right; apply Hdone].
    destruct (feed_pending e es t Hf) as [[[Hne Hr] Hes]|(He & Hes & Hgone)]; [left|by right].
    split_and!; [done|by apply monitor_keeps|by rewrite monitor_other].
  - apply Hdone.
  - intros [Hk [Hf|H]].
    + destruct (feed_pending e es t Hf) as [[[Hne Hr] Hes]|(He & Hes & Hgone)].
      * split; [|by left]. by apply monitor_keeps; [intros ?|].
      * split; [|by right]. apply monitor_keeps; [|done]. congruence.
    + split; [|by right; apply Hdone]. destruct H as [H _]. inversion H as [|? ? [_ Hr] Hes]; subst.
      by apply monitor_keeps.
Qed.

Lemma upgrade_step_inv (c c' : config) :
  upgrade_step rfc3339 existing u oldId c c' -> upgrade_inv c -> upgrade_inv c'.
Proof.
  destruct 1 as [e es p t|es t t' n Hu|es t Hu|es t].
  - apply monitor_inv.
  - unfold upgrade_inv; simpl. unfold upgrade_update, UpdateContainerForUpgrade in Hu.
    intros [(Hf & (r & Hr & Ha) & Hn)|[Hf Hr]]; rewrite Hr in Hu; [|by simplify_eq/=].
    rewrite bool_decide_false in Hu by (rewrite Hn; by intros [_ []]). simplify_eq/=.
    split; [|by left]. eexists. split; [apply lookup_insert_eq|done].
  - unfold upgrade_inv; simpl. unfold upgrade_update, UpdateContainerForUpgrade in Hu.
    intros [(Hf & (r & Hr & Ha) & Hn)|[Hf Hr]]; rewrite Hr in Hu; [|done].
    rewrite bool_decide_false in Hu by (rewrite Hn; by intros [_ []]). done.
  - unfold upgrade_inv; simpl. intros [Hf Hr]. split.
    + eexists. split; [apply lookup_insert_eq|done].
    + right. unfold SaveContainer. by rewrite lookup_insert_ne.
Qed.

(** The steps left. *)
Definition upgrade_measure (c : config) : nat :=
  length (feed c) + match at_phase c with Updating => 2 | Missed => 1 | _ => 0 end.

Lemma upgrade_step_less (c c' : config) :
  upgrade_step rfc3339 existing u oldId c c' -> upgrade_measure c' < upgrade_measure c.
Proof. destruct 1 as [| es t t' n _ | |]; unfold upgrade_measure; simpl; [lia|destruct n; simpl; lia|lia|lia]. Qed.
End Interleaved.

(** C5: an upgrade keeps the setting for automatic updates, in every interleaving with the
    monitor: whenever the daemon's events of the upgrade (the old container's last ones
    and its removal, then the new one's) are handled before, between or after the
    upgrade's two statements, no statement fails on the primary key, every run ends
    (each step leaves less to do), and where nothing is left to do the upgrade is
    finished, the new container's row has the old one's setting, and the old row is
    gone. *)
Theorem upgrade_keeps_auto_update (existing r : row) (u : Upgraded) (oldId : string) (es : list DaemonEvent)
    (t : table) (c : config) (Hold : oldId <> ""%string) (Hids : u_id u <> oldId)
    (Hfeed : upgrade_feed u oldId es) (Hrow : t !! oldId = Some r) (Ha : r_autoUpdate r = r_autoUpdate existing)
    (Hnew : t !! u_id u = None) (H : rtc (upgrade_step rfc3339 existing u oldId) (mkConfig es Updating t) c) :
  at_phase c <> Broken
  /\ (forall c', upgrade_step rfc3339 existing u oldId c c' -> upgrade_measure c' < upgrade_measure c)
  /\ ((forall c', ~ upgrade_step rfc3339 existing u oldId c c') ->
      at_phase c = Finished /\ tbl c !! oldId = None /\ keeps_setting existing (u_id u) (tbl c)).
Proof.
  assert (Hinv : upgrade_inv existing u oldId c).
  { assert (H0 : upgrade_inv existing u oldId (mkConfig es Updating t))
      by (left; split_and!; [done|by exists r|done]).
    revert H0. induction H as [|c0 c1 c2 Hs _ IH]; [done|]. intros H0. apply IH. by eapply upgrade_step_inv. }
  split_and!.
  - intros E. unfold upgrade_inv in Hinv. by rewrite E in Hinv.
  - intros c'. apply upgrade_step_less.
  - intros Hstuck. destruct c as [f p t']. unfold upgrade_inv in Hinv. simpl in *.
    destruct f as [|e f]; [|exfalso; eapply Hstuck, monitor_handles].
    assert (Hnf : ~ upgrade_feed u oldId []) by (intros ([] & ? & ? & ? & _); done).
    destruct p; [exfalso|exfalso; eapply Hstuck, save_runs| |done].
    + destruct (upgrade_update u oldId t') as [[t'' n]|] eqn:E;
        [eapply Hstuck, update_runs, E|eapply Hstuck, update_conflicts, E].
    + destruct Hinv as [Hk [?|[_ Hr]]]; [by destruct Hnf|done].
Qed.
End Facts.

(** *** Concrete rows *)

Definition row_ex (auto : Z) : row := mkRow "web" "nginx" "sha256:1" "running" auto 0 VNull VNull VNull.
Definition table_ex : table := {["c1" := row_ex 1]}.
Definition upgraded_ex : Upgraded := mkUpgraded "c2" "web" "nginx" "sha256:2" "running" 5.
Definition feed_ex : list DaemonEvent :=
  [mkDaemonEvent "die" "c1" None; mkDaemonEvent "destroy" "c1" None;
   mkDaemonEvent "create" "c2" (Some (mkInspection "/web" "nginx" "sha256:2" "created"))].

(** The monitor has handled the removal and the new container's creation when the
    upgrade writes. *)
Lemma upgrade_keeps_auto_update_witness :
  let show := fun _ : Z => ""%string in
  exists t, rtc (upgrade_step show (row_ex 1) upgraded_ex "c1") (mkConfig feed_ex Updating table_ex) (mkConfig [] Finished t)
    /\ keeps_setting (row_ex 1) "c2" t.
Proof.
  intros show.
  set (t1 := foldl (fun t e => monitor show e t) table_ex feed_ex).
  assert (Hrun : rtc (upgrade_step show (row_ex 1) upgraded_ex "c1") (mkConfig feed_ex Updating table_ex)
    (mkConfig [] Finished (SaveContainer (u_id upgraded_ex) (fallback_row (row_ex 1) upgraded_ex) t1))).
  { do 3 (eapply rtc_l; [apply monitor_handles|]).
    eapply rtc_l; [apply (update_runs _ _ _ _ _ _ t1 0); reflexivity|]. eapply rtc_l; [apply save_runs|]. apply rtc_refl. }
  eexists. split; [exact Hrun|].
  assert (Hfeed : upgrade_feed upgraded_ex "c1" feed_ex).
  { exists [mkDaemonEvent "die" "c1" None], (mkDaemonEvent "destroy" "c1" None).
    eexists. split; [reflexivity|]. split_and!; [done..| |]; (constructor; [|constructor]); by split. }
  destruct (upgrade_keeps_auto_update show (row_ex 1) (row_ex 1) upgraded_ex "c1" feed_ex table_ex _
    ltac:(done) ltac:(done) Hfeed eq_refl eq_refl eq_refl Hrun) as (_ & _ & Hend).
  apply Hend. intros c'. inversion 1.
Defined.

Definition listed_ex : Listed := mkListed "c2" ["/db"%string] "postgres" "sha256:3" "exited".

Lemma sync_mirrors_host_witness :
  let t' := SyncContainers [listed_ex] table_ex in
  (forall k, is_Some (t' !! k) <-> k ∈ l_id <$> [listed_ex])
  /\ Forall (fun c => exists r, t' !! l_id c = Some r /\ r_image r = l_image c /\ r_imageId r = l_imageId c
       /\ r_state r = l_state c /\ r_autoUpdate r = setting table_ex (l_id c)) [listed_ex].
Proof. apply sync_mirrors_host; [done|apply NoDup_singleton]. Defined.

(** A host without containers: the statement that is to delete the orphans compares with
    [NULL] and deletes none, although its comment says it removes what no longer exists. *)
Lemma sync_empty_keeps_orphans (t : table) : SyncContainers [] t = t.
Proof. done. Qed.

(** The daemon says that the old container is gone only after its stop was asked for; a
    container removed while [StopContainer] waits comes back into the table, and to the
    clients, for good. *)
Lemma stop_resurrects :
  let show := fun _ : Z => ""%string in
  let '(t1, e1) := handleEvent show "destroy" "c1" None table_ex in
  let '(t2, e2) := finish_transition show "c1" (row_ex 1) "exited" t1 in
  t1 !! "c1"%string = None /\ r_state <$> t2 !! "c1"%string = Some "exited"%string
  /\ dom (foldl apply_message (view show table_ex) (e1 ++ e2)) = {["c1"%string]}.
Proof. split_and!; [reflexivity..|]. vm_compute. reflexivity. Qed.

(** A setting changed while a start or a stop waits is overwritten by the value read at
    its beginning. *)
Lemma stop_reverts_setting :
  let show := fun _ : Z => ""%string in
  let admin := Some (mkUser 1 "root" "admin") in
  let '(t1, _, answer) := set_auto_update show admin "c1" false table_ex table_ex in
  answer = inl (mkSetContainerAutoUpdateResponse "c1" false) /\ setting t1 "c1" = 0%Z
  /\ setting (finish_transition show "c1" (row_ex 1) "exited" t1).1 "c1" = 1%Z.
Proof. vm_compute. by split_and!. Qed.

(** Reading a row and publishing it are two moments: a removal between them reaches the
    clients first, and the container they are then told of is not in the table. *)
Lemma late_save_stays :
  let show := fun _ : Z => ""%string in
  let late := publish_save show "c1" table_ex in
  let '(t1, events) := handleEvent show "destroy" "c1" None table_ex in
  foldl apply_message (view show table_ex) (events ++ late) <> view show t1.
Proof. intros show late. vm_compute. discriminate. Qed.

(** The monitor looks at no renaming: the table keeps a container's old name until the
    container's next event, and a new container of that name then makes two rows of one
    name. *)
Lemma rename_unseen :
  let show := fun _ : Z => ""%string in
  let inspect := fun name => Some (mkInspection name "nginx" "sha256:1" "created") in
  let '(t1, e1) := handleEvent show "rename" "c1" (inspect "/old"%string) table_ex in
  let '(t2, _) := handleEvent show "create" "c2" (inspect "/web"%string) t1 in
  t1 = table_ex /\ e1 = [] /\ r_name <$> t2 !! "c1"%string = Some "web"%string /\ r_name <$> t2 !! "c2"%string = Some "web"%string.
Proof. by split_and!. Qed.

(** An event lost while the monitor waits to reconnect is not made up for: without the
    old container's removal, the new one's creation makes the upgrade's statement fail
    on the primary key. *)
Lemma lost_removal_breaks_upgrade :
  let t := monitor (fun _ => "") (mkDaemonEvent "create" "c2" (Some (mkInspection "/web" "nginx" "sha256:2" "created"))) table_ex in
  upgrade_update upgraded_ex "c1" t = None.
Proof. reflexivity. Qed.
