(* ===== verification/ContainerActions.v ===== *)
(** The handlers that make the Docker daemon do something, outside frontend/src
    (internal/container/actions.go, upgrade.go, scheduler.go): what they ask of the
    daemon and in which order, what they answer, and what they leave in the table of
    ContainerServer.v.

    The daemon is a parameter: its answer to a request may depend on every request
    before.  A handler reads the container's row, works with the daemon, and writes to
    the table as it is by then, which the monitor and other handlers may have changed;
    the two tables are two arguments.  The database answers; what it does when it fails
    is not modelled. *)
From S2P Require Import Prelude Proto Services Access ContainerServer.

(** ** The daemon *)

(** What an inspection tells (the daemon always sends a configuration and a state; the
    networks in the order in which the program's map of them is walked). *)
Record HostContainer := mkHostContainer {
  h_name : string; h_image : string; h_imageId : string; h_running : bool; h_status : string;
  h_networks : list (string * string)
}.

Record DockerError := mkDockerError { isNotFound : bool; errorText : string }.

Record Registry := mkRegistry { Host : string; RegistryUser : string; Password : string }.

(** What the program asks of the daemon. *)
Inductive request :=
| QInspect (id : string)
| QStart (id : string)
| QStop (id : string) (timeout : nat)
| QRemove (id : string)
| QPull (imageRef : string) (auth : option Registry)
| QImage (ref : string)
| QDistribution (imageRef : string) (auth : option Registry)
| QCreate (name : string) (config : HostContainer) (network : option (string * string))
| QConnect (network id endpoint : string).

(** The daemon's answers, given the requests before. *)
Record Daemon := mkDaemon {
  ContainerInspect : list request -> string -> HostContainer + DockerError;
  ContainerStart : list request -> string -> option DockerError;
  ContainerStop : list request -> string -> option DockerError;
  ContainerRemove : list request -> string -> option DockerError;
  ImagePull : list request -> string -> option DockerError;
  ImageInspect : list request -> string -> (string * list string) + DockerError;
  DistributionInspect : list request -> string -> string + DockerError;
  ContainerCreate : list request -> string -> string + DockerError;
  NetworkConnect : list request -> string -> option DockerError
}.

(** A part of a handler: it adds its requests to those made before and answers or
    fails. *)
Definition M (A : Type) : Type := list request -> list request * (A + handler_error).

#[export] Instance M_ret : MRet M := fun A x log => (log, inl x).
#[export] Instance M_bind : MBind M := fun A B f m log =>
  match m log with
  | (log, inl x) => f x log
  | (log, inr e) => (log, inr e)
  end.

Definition fail {A} (e : handler_error) : M A := fun log => (log, inr e).
Definition ask {B} (q : request) (answer : list request -> B) : M B := fun log => (log ++ [q], inl (answer log)).

Definition internal (text : string) : handler_error := Coded CodeInternal text.

(** An answer or the error made of the daemon's. *)
Definition or_fail {A} (wrap : DockerError -> handler_error) (r : A + DockerError) : M A :=
  match r with inl x => mret x | inr e => fail (wrap e) end.
Definition unless {A} (wrap : DockerError -> handler_error) (r : option DockerError) (m : M A) : M A :=
  match r with None => m | Some e => fail (wrap e) end.

Definition with_text (prefix : string) (e : DockerError) : handler_error := internal (prefix +:+ errorText e).
Definition inspect_error (e : DockerError) : handler_error :=
  if isNotFound e then Coded CodeNotFound "container not found on Docker host"
  else with_text "failed to inspect container: " e.

(** ** Registries *)

(** The registry whose credentials [getRegistryAuth] encodes. *)
Definition getRegistryAuth (registries : list Registry) (imageRef : string) : option Registry :=
  find (fun reg => negb (String.eqb (Host reg) "") && hostMatches (getRegistryHost imageRef) (Host reg)) registries.

Section Handlers.
Context (rfc3339 : Z -> string).
(** The client of the daemon, when there is one, and the configured registries. *)
Context (dockerClient : option Daemon) (registries : list Registry).
(** The order in which a map of networks is walked the second time, and the database's
    text for a primary key taken. *)
Context (walk : list (string * string) -> list (string * string)) (conflict : string).

Definition client : M Daemon :=
  match dockerClient with Some d => mret d | None => fail (internal "docker client not initialized") end.

(** ** Starting and stopping *)

Inductive transition := Start | Stop.

Definition timeoutSeconds : nat := 15.

(** The daemon's part of [StartContainer] and [StopContainer]: the states before and
    after. *)
Definition transition_on_host (a : transition) (id : string) : M (string * string) :=
  d ← client;
  r ← ask (QInspect id) (fun log => ContainerInspect d log id);
  inspectBefore ← or_fail inspect_error r;
  r ← match a with
      | Start => ask (QStart id) (fun log => ContainerStart d log id)
      | Stop => ask (QStop id timeoutSeconds) (fun log => ContainerStop d log id)
      end;
  unless (with_text (match a with Start => "failed to start container: " | Stop => "failed to stop container: " end)) r
    (r ← ask (QInspect id) (fun log => ContainerInspect d log id);
     inspectAfter ← or_fail (with_text (match a with
       | Start => "failed to inspect container after start: "
       | Stop => "failed to inspect container after stop: " end)) r;
     mret (h_status inspectBefore, h_status inspectAfter)).

(** What a handler leaves: the requests, the table, what it published, its answer. *)
Record outcome (A : Type) := mkOutcome {
  o_log : list request; o_table : table; o_published : list StreamContainersResponse; o_answer : A + handler_error
}.

(** [t0] is the table the row is read from, [t] the one written to. *)
Definition run_transition {A} (a : transition) (respond : string -> string -> A) (user : option User) (id : string)
    (t0 t : table) : outcome A :=
  match begin_action user id t0 with
  | inr err => mkOutcome A [] t [] (inr err)
  | inl existing =>
      match transition_on_host a id [] with
      | (log, inr err) => mkOutcome A log t [] (inr err)
      | (log, inl (previousState, currentState)) =>
          let '(t, events) := finish_transition rfc3339 id existing currentState t in
          mkOutcome A log t events (inl (respond previousState currentState))
      end
  end.

Definition StartContainer (user : option User) (id : string) (t0 t : table) : outcome StartContainerResponse :=
  run_transition Start (fun previous current => mkStartContainerResponse id previous current) user id t0 t.
Definition StopContainer (user : option User) (id : string) (t0 t : table) : outcome StopContainerResponse :=
  run_transition Stop (fun previous current => mkStopContainerResponse id previous current) user id t0 t.

Definition SetContainerAutoUpdate_ (user : option User) (id : string) (autoUpdate : bool) (t0 t : table) :
    outcome SetContainerAutoUpdateResponse :=
  let '(t, events, answer) := set_auto_update rfc3339 user id autoUpdate t0 t in
  mkOutcome _ [] t events answer.

(** ** Checking for updates *)

(** The registry's digest and the digests of the local image. *)
Definition check_on_host (id : string) (existing : row) : M (string * list string) :=
  refs ← match dockerClient with
         | None => mret (r_image existing, r_imageId existing)
         | Some d =>
             r ← ask (QInspect id) (fun log => ContainerInspect d log id);
             mret match r with
                  | inl h => (if String.eqb (h_image h) "" then r_image existing else h_image h,
                              if String.eqb (h_imageId h) "" then r_imageId existing else h_imageId h)
                  | inr _ => (r_image existing, r_imageId existing)
                  end
         end;
  let '(imageRef, localImageID) := refs in
  let auth := getRegistryAuth registries imageRef in
  match dockerClient with
  | None => fail (Plain "docker client not initialized")
  | Some d =>
      r ← ask (QDistribution imageRef auth) (fun log => DistributionInspect d log imageRef);
      remoteDigest ← or_fail (fun e =>
        Plain ("failed to query registry for image " +:+ imageRef +:+ ": " +:+ errorText e)) r;
      if String.eqb remoteDigest "" then fail (Plain ("registry returned empty digest for image " +:+ imageRef))
      else
        r ← ask (QImage localImageID) (fun log => ImageInspect d log localImageID);
        mret (remoteDigest, match r with inl (_, repoDigests) => repoDigests | inr _ => [] end)
  end.

Definition error_text (e : handler_error) : string :=
  match e with Coded _ message => message | Plain text => text end.

Definition CheckContainerUpdates (user : option User) (id : string) (now : Z) (t0 t : table) :
    outcome CheckContainerUpdatesResponse :=
  match begin_action user id t0 with
  | inr err => mkOutcome _ [] t [] (inr err)
  | inl existing =>
      match check_on_host id existing [] with
      | (log, inr err) => mkOutcome _ log t [] (inr (internal (error_text err)))
      | (log, inl (remoteDigest, repoDigests)) =>
          let '(t, events, updateAvailable) := finish_check rfc3339 id remoteDigest repoDigests now t in
          mkOutcome _ log t events (inl (mkCheckContainerUpdatesResponse id updateAvailable remoteDigest))
      end
  end.

(** ** Upgrading *)

(** The other networks, connected in turn; when one fails the new container is removed
    again. *)
Fixpoint connect_others (d : Daemon) (newId : string) (nets : list (string * string)) : M unit :=
  match nets with
  | [] => mret tt
  | (netName, netOpts) :: nets =>
      r ← ask (QConnect netName newId netOpts) (fun log => NetworkConnect d log netName);
      match r with
      | None => connect_others d newId nets
      | Some e =>
          _ ← ask (QRemove newId) (fun log => ContainerRemove d log newId);
          fail (internal ("failed to connect container to network " +:+ netName +:+ ": " +:+ errorText e))
      end
  end.

(** The daemon's part of [upgradeContainerInternal]: up to stopping the old container
    (its inspection and the new image's id), and from removing it on (what is
    written). *)
Definition prepare (id : string) : M (HostContainer * string) :=
  d ← client;
  r ← ask (QInspect id) (fun log => ContainerInspect d log id);
  inspect ← or_fail inspect_error r;
  let imageRef := h_image inspect in
  if String.eqb imageRef "" then fail (internal "container does not have an associated image") else
  let authHeader := getRegistryAuth registries imageRef in
  r ← ask (QPull imageRef authHeader) (fun log => ImagePull d log imageRef);
  unless (with_text ("failed to pull image " +:+ imageRef +:+ ": ")) r
  (r ← ask (QImage imageRef) (fun log => ImageInspect d log imageRef);
   newImage ← or_fail (with_text "failed to inspect pulled image: ") r;
   r ← (if h_running inspect then ask (QStop id timeoutSeconds) (fun log => ContainerStop d log id) else mret None);
   unless (with_text "failed to stop container before upgrade: ") r (mret (inspect, newImage.1))).

Definition recreate (id : string) (inspect : HostContainer) (newImageID : string) (now : Z) : M Upgraded :=
  d ← client;
  r ← ask (QRemove id) (fun log => ContainerRemove d log id);
  unless (with_text "failed to remove old container: ") r
  (let containerName := trim_slash (h_name inspect) in
   r ← ask (QCreate containerName inspect (head (h_networks inspect))) (fun log => ContainerCreate d log containerName);
   created ← or_fail (with_text "failed to re-create container: ") r;
   _ ← connect_others d created (walk (tail (h_networks inspect)));
   r ← ask (QStart created) (fun log => ContainerStart d log created);
   unless (with_text "failed to start upgraded container: ") r
   (r ← ask (QInspect created) (fun log => ContainerInspect d log created);
    let newState := match r with inl h => h_status h | inr _ => "running"%string end in
    mret (mkUpgraded created containerName (h_image inspect) newImageID newState now))).

Definition upgrade_on_host (id : string) (now : Z) : M (Upgraded * string) :=
  p ← prepare id;
  u ← recreate id p.1 p.2 now;
  mret (u, h_imageId p.1).

Definition upgradeContainerInternal (id : string) (now : Z) (t0 t : table) : outcome UpgradeContainerResponse :=
  match t0 !! id with
  | None => mkOutcome _ [] t [] (inr (Coded CodeNotFound "container not found"))
  | Some existing =>
      match upgrade_on_host id now [] with
      | (log, inr err) => mkOutcome _ log t [] (inr err)
      | (log, inl (u, previousImage)) =>
          let '(t, events, ok) := finish_upgrade rfc3339 existing u id t in
          mkOutcome _ log t events
            (if ok then inl (mkUpgradeContainerResponse (u_id u) previousImage (u_imageId u))
             else inr (internal ("failed to update container record in DB: " +:+ conflict)))
      end
  end.

(** [auditUpgrade], with an auditor. *)
Definition auditUpgrade (source actor actorRole id : string) (answer : UpgradeContainerResponse + handler_error) : Entry :=
  match answer with
  | inr err => mkEntry actor actorRole source "container.upgrade" "container" id "failure" (error_text err)
  | inl resp =>
      mkEntry actor actorRole source "container.upgrade" "container" id "success"
        ("upgraded " +:+ shortDigest (UpgradeContainerResponse_previousImageId resp) +:+ " → "
           +:+ shortDigest (UpgradeContainerResponse_currentImageId resp))
  end.

Definition UpgradeContainer (user : option User) (id : string) (now : Z) (t0 t : table) :
    outcome UpgradeContainerResponse * list Entry :=
  match user with
  | None => (mkOutcome _ [] t [] (inr (Coded CodeUnauthenticated "unauthenticated")), [])
  | Some u =>
      if negb (String.eqb (Role u) "admin") then
        (mkOutcome _ [] t [] (inr (Coded CodePermissionDenied "admin privilege required")), [])
      else if String.eqb id "" then
        (mkOutcome _ [] t [] (inr (Coded CodeInvalidArgument "container ID is required")), [])
      else
        let o := upgradeContainerInternal id now t0 t in
        (o, [auditUpgrade "user" (Username u) (Role u) id (o_answer _ o)])
  end.
End Handlers.

(** ** The scheduler *)

(** What a pass of [checkAllContainers] does, in its order. *)
Inductive scheduled :=
| Checked (id : string)
| Notified (title message : string) (priority : nat)
| Upgrading_ (id : string)
| Audited (e : Entry).

Section Scheduler.
(** The text of an error ([%v]): Connect adds its code. *)
Context (show_error : handler_error -> string).

(** [check] and [upgrade] are what the container's check and upgrade answer. *)
Definition check_one (check : string -> bool + handler_error)
    (upgrade : string -> UpgradeContainerResponse + handler_error) (record : string * row) : list scheduled :=
  let '(id, r) := record in
  Checked id ::
  match check id with
  | inr err =>
      [Notified "Registry Check Error"
         ("Failed to check for image updates for container " +:+ r_name r +:+ ": " +:+ show_error err) 3]
  | inl false => []
  | inl true =>
      Notified "Image Update Available"
        ("A new image update has been detected in the registry for container " +:+ r_name r +:+ ".") 5 ::
      if negb (r_autoUpdate r =? 0)%Z then
        Upgrading_ id :: Audited (auditUpgrade "system" "system" "" id (upgrade id)) ::
        match upgrade id with
        | inr err =>
            [Notified "Auto-Update Failed"
               ("Automated container re-deployment for " +:+ r_name r +:+ " failed: " +:+ show_error err) 8]
        | inl _ =>
            [Notified "Auto-Update Succeeded"
               ("Automated container " +:+ r_name r
                  +:+ " re-deployment succeeded. The container was successfully updated and restarted.") 5]
        end
      else []
  end.

Definition checkAllContainers (check : string -> bool + handler_error)
    (upgrade : string -> UpgradeContainerResponse + handler_error) (records : list (string * row)) : list scheduled :=
  mjoin (check_one check upgrade <$> records).
End Scheduler.

(** ** What the handlers ask of the daemon *)

Definition ok {A} (r : A + DockerError) : Prop := exists x, r = inl x.

Lemma find_some_first {A} (f : A -> bool) (l : list A) (x : A) :
  find f l = Some x -> exists l1 l2, l = l1 ++ x :: l2 /\ f x = true /\ Forall (fun y => f y = false) l1.
Proof.
  induction l as [|y l IH]; simpl; [done|]. destruct (f y) eqn:E.
  - intros [= ->]. by exists [], l.
  - intros (l1 & l2 & -> & Hx & Hl)%IH. exists (y :: l1), l2. split_and!; [done..|]. by constructor.
Qed.

(** The requests an upgrade makes when each is granted. *)
Definition connections (newId : string) (nets : list (string * string)) : list request :=
  (fun n => QConnect n.1 newId n.2) <$> nets.

Section Plans.
Context (registries : list Registry) (walk : list (string * string) -> list (string * string)).
Context (id : string) (h : HostContainer).

Definition prepare_plan : list request :=
  [QInspect id; QPull (h_image h) (getRegistryAuth registries (h_image h)); QImage (h_image h)]
  ++ (if h_running h then [QStop id timeoutSeconds] else []).

Definition recreate_plan (newId : string) : list request :=
  [QRemove id; QCreate (trim_slash (h_name h)) h (head (h_networks h))]
  ++ connections newId (walk (tail (h_networks h))) ++ [QStart newId; QInspect newId].

Definition upgrade_plan (newId : string) : list request := prepare_plan ++ recreate_plan newId.
End Plans.

(** A request the daemon fulfilled, given the requests before it. *)
Definition grants (d : Daemon) (before : list request) (q : request) : Prop :=
  match q with
  | QInspect id => ok (ContainerInspect d before id)
  | QStart id => ContainerStart d before id = None
  | QStop id _ => ContainerStop d before id = None
  | QRemove id => ContainerRemove d before id = None
  | QPull ref _ => ImagePull d before ref = None
  | QImage ref => ok (ImageInspect d before ref)
  | QDistribution ref _ => ok (DistributionInspect d before ref)
  | QCreate name _ _ => ok (ContainerCreate d before name)
  | QConnect net _ _ => NetworkConnect d before net = None
  end.

Fixpoint granted (d : Daemon) (before log : list request) : Prop :=
  match log with
  | [] => True
  | q :: log => grants d before q /\ granted d (before ++ [q]) log
  end.

Lemma granted_app (d : Daemon) (before l1 l2 : list request) :
  granted d before (l1 ++ l2) <-> granted d before l1 /\ granted d (before ++ l1) l2.
Proof.
  revert before. induction l1 as [|q l1 IH]; intros before; simpl; [rewrite app_nil_r; tauto|].
  rewrite IH, <- app_assoc. tauto.
Qed.

(** Requests made along a plan, each after those before it were granted. *)
Definition follows (d : Daemon) (plan log : list request) : Prop :=
  exists l q, log = l ++ [q] /\ granted d [] l /\ log `prefix_of` plan.

Lemma connect_others_log (d : Daemon) (newId : string) (nets : list (string * string)) (log : list request) :
  (connect_others d newId nets log = (log ++ connections newId nets, inl tt)
    /\ granted d log (connections newId nets))
  \/ exists l n o e,
       l ++ [QConnect n newId o] `prefix_of` connections newId nets /\ granted d log l
       /\ connect_others d newId nets log = (log ++ l ++ [QConnect n newId o; QRemove newId], inr e).
Proof.
  revert log. induction nets as [|[n o] nets IH]; intros log; [left; simpl; by rewrite app_nil_r|].
  simpl. unfold mbind, M_bind, ask, fail. destruct (NetworkConnect d log n) as [e|] eqn:E.
  - right. exists [], n, o. eexists. split_and!; [by eexists|done|]. by rewrite <- app_assoc.
  - destruct (IH (log ++ [QConnect n newId o])) as [[-> Hg]|(l & n' & o' & e & [rest Hl] & Hg & ->)].
    + left. by rewrite <- app_assoc.
    + right. exists (QConnect n newId o :: l), n', o', e. split; [|split]; [|done|by rewrite <- app_assoc].
      exists rest. simpl in *. by rewrite Hl.
Qed.

Lemma follows_at (d : Daemon) (l plan rest : list request) (q : request) :
  granted d [] l -> plan = l ++ [q] ++ rest -> follows d plan (l ++ [q]).
Proof. intros Hg ->. exists l, q. split_and!; [done..|]. exists rest. by rewrite <- app_assoc. Qed.

Lemma follows_app (d : Daemon) (p1 p2 log : list request) : follows d p1 log -> follows d (p1 ++ p2) log.
Proof. intros (l & q & Hl & Hg & Hp). exists l, q. split_and!; [done..|]. by apply prefix_app_r. Qed.

Lemma prepare_log (d : Daemon) (registries : list Registry) (id : string) :
  match ContainerInspect d [] id with
  | inr _ => exists err, prepare (Some d) registries id [] = ([QInspect id], inr err)
  | inl h =>
      match prepare (Some d) registries id [] with
      | (log, inl (h', img)) =>
          h' = h /\ log = prepare_plan registries id h /\ granted d [] log
          /\ exists digests, ImageInspect d
               [QInspect id; QPull (h_image h) (getRegistryAuth registries (h_image h))] (h_image h) = inl (img, digests)
      | (log, inr _) => follows d (prepare_plan registries id h) log
      end
  end.
Proof.
  unfold prepare, client, mbind, M_bind, ask, mret, M_ret. simpl.
  destruct (ContainerInspect d [] id) as [h|e] eqn:E1; simpl; [|by eexists].
  unfold prepare_plan.
  set (ref := h_image h) in *. set (auth := getRegistryAuth registries ref) in *.
  assert (G1 : granted d [] [QInspect id]) by (split; [by exists h|done]).
  destruct (String.eqb ref ""); [by eapply (follows_at d [])|].
  destruct (ImagePull d [QInspect id] ref) as [e|] eqn:E2; simpl; [by eapply (follows_at d [_])|].
  assert (G2 : granted d [] [QInspect id; QPull ref auth]) by (repeat split; [by exists h|done]).
  destruct (ImageInspect d [QInspect id; QPull ref auth] ref) as [[img digs]|e] eqn:E3; simpl; [|by eapply (follows_at d [_; _])].
  assert (G3 : granted d [] [QInspect id; QPull ref auth; QImage ref])
    by (repeat split; [by exists h|done|by eexists]).
  destruct (h_running h); simpl; [|split; [done|split; [done|split; [exact G3|by eexists]]]].
  destruct (ContainerStop d [QInspect id; QPull ref auth; QImage ref] id) eqn:E4; simpl;
    [by eapply (follows_at d [_; _; _])|].
  destruct G3 as (? & ? & ? & _). split; [done|split; [done|split; [by split_and!|by eexists]]].
Qed.

(** The daemon's answer to the creation of the new container, the requests before being
    those of the plan. *)
Definition created (d : Daemon) (before : list request) (id : string) (h : HostContainer) : string + DockerError :=
  ContainerCreate d (before ++ [QRemove id]) (trim_slash (h_name h)).

(** How a failed upgrade can end: at a request of the plan that was refused, or, when a
    further network could not be connected, with the new container removed. *)
Definition stopped (d : Daemon) (plan : list request) (newId : string) (log : list request) : Prop :=
  follows d plan log \/ exists log' n o,
    follows d plan log' /\ last log' = Some (QConnect n newId o) /\ log = log' ++ [QRemove newId].

Definition upto_creation (id : string) (h : HostContainer) : list request :=
  [QRemove id; QCreate (trim_slash (h_name h)) h (head (h_networks h))].

Lemma recreate_created (d : Daemon) (walk : list (string * string) -> list (string * string)) (id newImageID : string)
    (h : HostContainer) (now : Z) (pre : list request) (newId : string) :
  granted d [] pre -> created d pre id h = inl newId ->
  match recreate (Some d) walk id h newImageID now pre with
  | (log, inl u) =>
      log = pre ++ recreate_plan walk id h newId /\ follows d (pre ++ recreate_plan walk id h newId) log
      /\ u_id u = newId /\ u_name u = trim_slash (h_name h) /\ u_image u = h_image h /\ u_imageId u = newImageID
  | (log, inr _) => stopped d (pre ++ recreate_plan walk id h newId) newId log
  end.
Proof.
  intros G E2. unfold recreate, client, mbind, M_bind, ask, mret, M_ret. simpl. unfold recreate_plan, stopped.
  destruct (ContainerRemove d pre id) as [e|] eqn:E1; simpl; [left; by eapply follows_at|].
  assert (G1 : granted d [] (pre ++ [QRemove id])) by (apply granted_app; split; [done|split; done]).
  unfold created in E2. rewrite E2. simpl. set (nets := walk _). set (create := QCreate _ _ _).
  assert (G2 : granted d [] ((pre ++ [QRemove id]) ++ [create]))
    by (apply granted_app; split; [done|split; [by exists newId|done]]).
  assert (Ep : pre ++ QRemove id :: create :: connections newId nets ++ [QStart newId; QInspect newId]
    = ((pre ++ [QRemove id]) ++ [create]) ++ connections newId nets ++ [QStart newId; QInspect newId])
    by by rewrite <- !app_assoc.
  rewrite Ep. clear Ep. set (log := (pre ++ [QRemove id]) ++ [create]) in *.
  destruct (connect_others_log d newId nets log) as [[-> G3]|(l & n & o & e & [rest Hl] & Hg & ->)].
  2: { right. exists ((log ++ l) ++ [QConnect n newId o]), n, o.
    split; [|split; [by apply last_snoc|]]. 2: { rewrite <- !app_assoc. reflexivity. }
    eapply follows_at; [by apply granted_app|]. by rewrite Hl, <- !app_assoc. }
  assert (G4 : granted d [] (log ++ connections newId nets)) by by apply granted_app.
  rewrite (app_assoc log). set (log2 := log ++ connections newId nets) in *.
  destruct (ContainerStart d log2 newId) as [e|] eqn:E3; simpl; [left; by eapply follows_at|].
  rewrite <- app_assoc. split_and!; [done| |done..].
  assert (G5 : granted d [] (log2 ++ [QStart newId])) by (apply granted_app; split; [done|split; done]).
  pose proof (follows_at d _ _ [] (QInspect newId) G5 eq_refl) as Hf.
  rewrite <- !(app_assoc log2) in Hf. exact Hf.
Qed.

Lemma recreate_refused (d : Daemon) (walk : list (string * string) -> list (string * string)) (id newImageID : string)
    (h : HostContainer) (now : Z) (pre : list request) (e : DockerError) :
  granted d [] pre -> created d pre id h = inr e ->
  exists log err, recreate (Some d) walk id h newImageID now pre = (log, inr err)
    /\ follows d (pre ++ upto_creation id h) log.
Proof.
  intros G E2. unfold recreate, client, mbind, M_bind, ask, mret, M_ret. simpl.
  destruct (ContainerRemove d pre id) as [e1|] eqn:E1; simpl.
  { eexists _, _. split; [reflexivity|]. by eapply follows_at. }
  unfold created in E2. rewrite E2. simpl. eexists _, _. split; [reflexivity|]. eapply follows_at.
  - apply granted_app; split; [done|split; done].
  - by rewrite <- app_assoc.
Qed.


(** ** Who may act, and what a refusal leaves *)

(** The registry that an image names: what stands before its first slash, if that has a
    dot or a colon or is localhost; otherwise Docker Hub, which has three names. *)
Definition contains (p s : string) : Prop := exists a b, s = a +:+ p +:+ b.

Definition looks_like_host (s : string) : Prop := contains "." s \/ contains ":" s \/ s = "localhost"%string.

Inductive image_of_registry : string -> string -> Prop :=
| image_names_host host rest :
    ~ contains "/" host -> looks_like_host host -> image_of_registry (host +:+ "/" +:+ rest) host
| image_of_hub ref :
    (forall first rest, ref = first +:+ "/" +:+ rest -> ~ contains "/" first -> ~ looks_like_host first) ->
    image_of_registry ref "docker.io".

Definition hub_name (h : string) : Prop :=
  toLowerCase h ∈ ["docker.io"; "index.docker.io"; "registry-1.docker.io"]%string.

Definition same_registry (a b : string) : Prop := toLowerCase a = toLowerCase b \/ (hub_name a /\ hub_name b).

(** Everything a handler asks of the daemon with credentials, it asks with those of a
    configured registry, for an image of that registry. *)
Definition at_home (registries : list Registry) (q : request) : Prop :=
  match q with
  | QPull ref (Some reg) | QDistribution ref (Some reg) =>
      reg ∈ registries /\ exists host, image_of_registry ref host /\ same_registry host (Host reg)
  | _ => True
  end.

Lemma startsWith_app (p s : string) : startsWith p s = true <-> exists b, s = p +:+ b.
Proof.
  revert s. induction p as [|x p IH]; intros s; simpl; [split; [by exists s|done]|].
  destruct s as [|y s]; [by split; [|intros (? & ?)]|]. rewrite andb_true_iff, IH, Ascii.eqb_eq. split.
  - intros [-> (b & ->)]. by exists b.
  - intros (b & [= -> ->]). split; [done|by exists b].
Qed.

Lemma includes_spec (p s : string) : includes p s = true <-> contains p s.
Proof.
  induction s as [|y s IH]; cbn [includes]; rewrite orb_true_iff, startsWith_app.
  - split; [intros [(b & E)|]; [by exists "", b|done]|]. intros ([|] & b & E); [left; by exists b|done].
  - rewrite IH. split.
    + intros [(b & E)|(a & b & ->)]; [by exists "", b|by exists (String y a), b].
    + intros ([|x a] & b & E); [left; by exists b|right]. injection E as -> ->. by exists a, b.
Qed.

(** The part of a text before its first [c], when it has one. *)
Lemma first_part (c : ascii) (s : string) :
  split_on c s = [s] /\ ~ contains (String c "") s
  \/ exists a b, s = a +:+ String c b /\ ~ contains (String c "") a /\ split_on c s = a :: split_on c b.
Proof.
  induction s as [|d s IH]; [left; split; [done|by intros ([|] & ? & ?)]|]. simpl.
  destruct (Ascii.eqb_spec c d) as [<-|Hne].
  - right. exists "", s. split_and!; [done|by intros ([|] & ? & ?)|done].
  - destruct IH as [[-> Hn]|(a & b & -> & Hn & ->)].
    + left. split; [done|]. intros ([|x a] & b & E); [by injection E as ->|]. injection E as -> ->. apply Hn. by exists a, b.
    + right. exists (String d a), b. split_and!; [done| |done]. intros ([|x a'] & b' & E); [by injection E as ->|].
      injection E as -> ->. apply Hn. by exists a', b'.
Qed.

Lemma split_on_ne (c : ascii) (s : string) : split_on c s <> [].
Proof. destruct (first_part c s) as [[-> _]|(a & b & _ & _ & ->)]; done. Qed.

Lemma first_part_unique (a a' b b' : string) :
  a +:+ "/" +:+ b = a' +:+ "/" +:+ b' -> ~ contains "/" a -> ~ contains "/" a' -> a = a'.
Proof.
  revert a'. induction a as [|x a IH]; intros [|y a'] E Ha Ha'; [done|..].
  - injection E as <- _. destruct Ha'. by exists "", a'.
  - injection E as -> _. destruct Ha. by exists "", a.
  - injection E as <- E. f_equal. apply (IH a' E); intros (p & q & ->); [apply Ha|apply Ha']; by exists (String x p), q.
Qed.

Lemma getRegistryHost_spec (ref : string) : image_of_registry ref (getRegistryHost ref).
Proof.
  unfold getRegistryHost. destruct (first_part "/" ref) as [[-> Hn]|(a & b & -> & Hn & ->)].
  - apply image_of_hub. intros a b -> _. destruct Hn. by exists a, b.
  - destruct (split_on "/" b) as [|p ps] eqn:E; [by apply split_on_ne in E|].
    destruct (_ || String.eqb a "localhost") eqn:Eh.
    + apply (image_names_host a b); [done|]. unfold looks_like_host. rewrite <- !includes_spec.
      apply orb_true_iff in Eh as [Eh|Eh%String.eqb_eq]; [|tauto]. apply orb_true_iff in Eh. tauto.
    + apply image_of_hub. intros a' b' E' Ha'. rewrite <- (first_part_unique a a' b b') by done.
      unfold looks_like_host. rewrite <- !includes_spec. apply orb_false_iff in Eh as [Eh Hl%String.eqb_neq].
      apply orb_false_iff in Eh as [-> ->]. by intros [|[|]].
Qed.

Lemma hostMatches_spec (a b : string) : hostMatches a b = true -> same_registry a b.
Proof.
  assert (Hn : forall h, normalizeHost h = toLowerCase h /\ ~ hub_name h \/ normalizeHost h = "docker.io"%string /\ hub_name h).
  { intros h. unfold normalizeHost, hub_name. destruct (_ || _) eqn:E.
    - right. split; [done|]. rewrite !orb_true_iff, !String.eqb_eq in E. set_solver.
    - left. split; [done|]. rewrite !orb_false_iff, !String.eqb_neq in E. set_solver. }
  intros E%String.eqb_eq. unfold same_registry.
  destruct (Hn a) as [[Ea Ha]|[Ea Ha]], (Hn b) as [[Eb Hb]|[Eb Hb]]; rewrite Ea, Eb in E; auto.
  - destruct Ha. unfold hub_name. rewrite E. by left.
  - destruct Hb. unfold hub_name. rewrite <- E. by left.
Qed.

Lemma getRegistryAuth_home (registries : list Registry) (ref : string) (reg : Registry) :
  getRegistryAuth registries ref = Some reg ->
  reg ∈ registries /\ exists host, image_of_registry ref host /\ same_registry host (Host reg).
Proof.
  intros (l1 & l2 & -> & [_ H]%andb_true_iff & _)%find_some_first. split; [set_solver|].
  exists (getRegistryHost ref). split; [apply getRegistryHost_spec|by apply hostMatches_spec].
Qed.

Lemma pull_home (registries : list Registry) (ref : string) : at_home registries (QPull ref (getRegistryAuth registries ref)).
Proof. simpl. destruct (getRegistryAuth registries ref) eqn:E; [|done]. by eapply getRegistryAuth_home. Qed.

Lemma connections_home (registries : list Registry) (newId : string) (nets : list (string * string)) :
  Forall (at_home registries) (connections newId nets).
Proof. apply Forall_fmap, Forall_true. done. Qed.

Lemma upgrade_plan_home (registries : list Registry) (walk : list (string * string) -> list (string * string))
    (id newId : string) (h : HostContainer) : Forall (at_home registries) (upgrade_plan registries walk id h newId).
Proof.
  unfold upgrade_plan, prepare_plan, recreate_plan. rewrite !Forall_app. split_and!.
  - constructor; [done|]. constructor; [apply pull_home|]. by constructor.
  - destruct (h_running h); by repeat constructor.
  - by repeat constructor.
  - apply connections_home.
  - by repeat constructor.
Qed.

Lemma follows_forall (P : request -> Prop) (d : Daemon) (plan log : list request) :
  Forall P plan -> follows d plan log -> Forall P log.
Proof. intros Hp (_ & _ & _ & _ & [rest ->]). by apply Forall_app in Hp as [? _]. Qed.

Lemma stopped_home (d : Daemon) (registries : list Registry) (plan : list request) (newId : string) (log : list request) :
  Forall (at_home registries) plan -> stopped d plan newId log -> Forall (at_home registries) log.
Proof.
  intros Hp [Hf|(log' & n & o & Hf & _ & ->)]; [by eapply follows_forall|].
  apply Forall_app; split; [by eapply follows_forall|]. by constructor.
Qed.

Lemma upto_creation_home (registries : list Registry) (id : string) (h : HostContainer) :
  Forall (at_home registries) (prepare_plan registries id h ++ upto_creation id h).
Proof.
  pose proof (upgrade_plan_home registries (fun l => l) id "" h) as H. unfold upgrade_plan, recreate_plan in H.
  rewrite app_assoc in H. by apply Forall_app in H as [H _].
Qed.

(** C37: credentials stay with their registry: whatever the daemon answers, an upgrade and a
    check for updates ask it to contact a registry with credentials only with those of a
    configured registry, and only for an image of that registry: one whose reference
    begins with the registry's host (up to case), or, for a registry under one of the
    names of Docker Hub, with none or with one of these. *)
Theorem credentials_stay (d : Daemon) (registries : list Registry) (walk : list (string * string) -> list (string * string))
    (id : string) (now : Z) (existing : row) :
  Forall (at_home registries) (upgrade_on_host (Some d) registries walk id now []).1
  /\ Forall (at_home registries) (check_on_host (Some d) registries id existing []).1.
Proof.
  split.
  - pose proof (prepare_log d registries id) as Hp. unfold upgrade_on_host, mbind, M_bind.
    pose proof (upgrade_plan_home registries walk id) as Hplan.
    destruct (ContainerInspect d [] id) as [h|e]; [|destruct Hp as (err & ->); by repeat constructor].
    destruct (prepare (Some d) registries id []) as [log [[h' img]|e]].
    + destruct Hp as (-> & -> & G & _). simpl. destruct (created d (prepare_plan registries id h) id h) as [newId|e] eqn:Ec.
      * pose proof (recreate_created d walk id img h now _ newId G Ec) as Hr.
        destruct (recreate _ _ _ _ _ _ _) as [log [u|e]]; simpl; [|by eapply stopped_home, Hr; apply Hplan].
        destruct Hr as (_ & Hf & _). eapply follows_forall, Hf; apply Hplan.
      * destruct (recreate_refused d walk id img h now _ e G Ec) as (log & err & -> & Hf). simpl.
        eapply follows_forall, Hf. apply upto_creation_home.
    + simpl. eapply (follows_forall _ d (upgrade_plan registries walk id h "")), follows_app, Hp. done.
  - unfold check_on_host, mbind, M_bind, ask, mret, M_ret. simpl. set (refs := match _ with inl _ => _ | inr _ => _ end).
    destruct refs as [ref img]. simpl.
    assert (Hq : at_home registries (QDistribution ref (getRegistryAuth registries ref))) by apply pull_home.
    destruct (DistributionInspect d _ ref) as [dig|e]; simpl; [|by repeat constructor].
    destruct (String.eqb dig ""); by repeat constructor.
Qed.

Section Outcomes.
Context (rfc3339 : Z -> string) (dockerClient : option Daemon) (registries : list Registry).
Context (walk : list (string * string) -> list (string * string)) (conflict : string).

Definition is_admin (user : option User) : Prop := exists u, user = Some u /\ Role u = "admin"%string.

(** A handler that fails, for whatever reason, has written and published nothing; only an
    administrator's request reaches the daemon, the table or the streams, and only for a
    container of the table. *)
Definition guarded {A} (user : option User) (id : string) (t0 t : table) (o : outcome A) : Prop :=
  (forall err, o_answer _ o = inr err -> o_table _ o = t /\ o_published _ o = [])
  /\ (o_log _ o <> [] \/ o_table _ o <> t \/ o_published _ o <> [] ->
      is_admin user /\ id <> ""%string /\ is_Some (t0 !! id)).

Lemma begin_action_inl (user : option User) (id : string) (t0 : table) (r : row) :
  begin_action user id t0 = inl r -> is_admin user /\ id <> ""%string /\ t0 !! id = Some r.
Proof.
  unfold begin_action. destruct user as [u|]; [|done]. destruct (String.eqb (Role u) "admin") eqn:E; [|done]. simpl.
  destruct (String.eqb_spec id ""); [done|]. destruct (t0 !! id) as [r'|] eqn:Er; [|done]. intros [= <-].
  apply String.eqb_eq in E. split_and!; [by exists u|done..].
Qed.

Lemma guarded_refused {A} (user : option User) (id : string) (t0 t : table) (err : handler_error) :
  guarded user id t0 t (mkOutcome A [] t [] (inr err)).
Proof. split; [done|]. simpl. by intros [|[|]]. Qed.

Lemma guarded_admin {A} (user : option User) (id : string) (r : row) (t0 t : table) (o : outcome A) :
  begin_action user id t0 = inl r ->
  (forall err, o_answer _ o = inr err -> o_table _ o = t /\ o_published _ o = []) ->
  guarded user id t0 t o.
Proof. intros (H1 & H2 & H3)%begin_action_inl Ho. split; [done|]. intros _. split_and!; by rewrite ?H3. Qed.

Lemma run_transition_guarded {A} (a : transition) (respond : string -> string -> A) (user : option User) (id : string)
    (t0 t : table) : guarded user id t0 t (run_transition rfc3339 dockerClient a respond user id t0 t).
Proof.
  unfold run_transition. destruct (begin_action user id t0) as [r|err] eqn:E; [|apply guarded_refused].
  eapply guarded_admin; [done|]. destruct (transition_on_host _ _ _ _) as [log [[p c]|err]]; [|by simpl].
  by destruct (finish_transition _ _ _ _ _).
Qed.
Lemma set_auto_update_guarded (user : option User) (id : string) (autoUpdate : bool) (t0 t : table) :
  guarded user id t0 t (SetContainerAutoUpdate_ rfc3339 user id autoUpdate t0 t).
Proof.
  unfold SetContainerAutoUpdate_, set_auto_update.
  destruct (begin_action user id t0) as [r|err] eqn:E; [|apply guarded_refused]. by eapply guarded_admin.
Qed.

Lemma upgradeContainerInternal_error (id : string) (now : Z) (t0 t : table) (err : handler_error) :
  let o := upgradeContainerInternal rfc3339 dockerClient registries walk conflict id now t0 t in
  o_answer _ o = inr err -> o_table _ o = t /\ o_published _ o = [].
Proof.
  unfold upgradeContainerInternal. destruct (t0 !! id) as [r|]; [|done].
  destruct (upgrade_on_host _ _ _ _ _ _) as [log [[u p]|e]]; [|done].
  unfold finish_upgrade. destruct (upgrade_statement r u id t) as [[t' todo]|]; [|done].
  by destruct (run_pieces _ todo t').
Qed.

(** C24: the handlers of containers are guarded by themselves: whatever the daemon answers,
    starting, stopping, checking, upgrading and setting automatic updates reach the
    daemon, the table or the streams only for an administrator and a container of the
    table; an error, whatever its cause, leaves the table as it was and publishes
    nothing; and an upgrade an administrator asked for, of a container whose id is not
    empty, writes exactly one entry to the audit trail, with the answer it gave. *)
Theorem handlers_guarded (user : option User) (id : string) (autoUpdate : bool) (now : Z) (t0 t : table) :
  guarded user id t0 t (StartContainer rfc3339 dockerClient user id t0 t)
  /\ guarded user id t0 t (StopContainer rfc3339 dockerClient user id t0 t)
  /\ guarded user id t0 t (CheckContainerUpdates rfc3339 dockerClient registries user id now t0 t)
  /\ guarded user id t0 t (SetContainerAutoUpdate_ rfc3339 user id autoUpdate t0 t)
  /\ (let '(o, audit) := UpgradeContainer rfc3339 dockerClient registries walk conflict user id now t0 t in
      guarded user id t0 t o
      /\ match user with
         | Some u => (is_admin user /\ id <> ""%string -> audit = [auditUpgrade "user" (Username u) (Role u) id (o_answer _ o)])
             /\ (~ is_admin user -> audit = [])
         | None => audit = []
         end).
Proof.
  split; [apply run_transition_guarded|]. split; [apply run_transition_guarded|]. split.
  - unfold CheckContainerUpdates. destruct (begin_action user id t0) as [r|err] eqn:E; [|apply guarded_refused].
    eapply guarded_admin; [done|]. destruct (check_on_host _ _ _ _ _) as [log [[dig digs]|err]]; [|by simpl].
    by destruct (finish_check _ _ _ _ _ _) as [[? ?] ?].
  - split; [apply set_auto_update_guarded|].
    unfold UpgradeContainer. destruct user as [u|]; [|split; [apply guarded_refused|done]].
    destruct (String.eqb (Role u) "admin") eqn:E; simpl.
    2: { split; [apply guarded_refused|]. apply String.eqb_neq in E. split; [|done]. by intros [(? & [= <-] & ?) _]. }
    apply String.eqb_eq in E. assert (Ha : is_admin (Some u)) by by exists u.
    destruct (String.eqb_spec id "") as [->|Hid].
    { split; [apply guarded_refused|]. split; [by intros [_ ?]|done]. }
    split; [|split; done]. split; [intros err; apply upgradeContainerInternal_error|].
    destruct (t0 !! id) eqn:E0; [by intros _|]. unfold upgradeContainerInternal. rewrite E0. simpl. by intros [|[|]].
Qed.

End Outcomes.

(** ** The scheduler's pass *)

Section Pass.
Context (show_error : handler_error -> string).
Context (check : string -> bool + handler_error) (upgrade : string -> UpgradeContainerResponse + handler_error).

Definition checked (s : scheduled) : option string := match s with Checked id => Some id | _ => None end.
Definition upgraded (s : scheduled) : option string := match s with Upgrading_ id => Some id | _ => None end.
Definition audits (s : scheduled) : option Entry := match s with Audited e => Some e | _ => None end.

(** The records whose container is to be upgraded. *)
Definition due (record : string * row) : Prop := check record.1 = inl true /\ r_autoUpdate record.2 <> 0%Z.
#[export] Instance due_dec record : Decision (due record).
Proof. unfold due. destruct (check record.1) as [[|]|err]; [|right; by intros []..]. apply and_dec; [by left|apply _]. Defined.

Lemma check_one_checked (record : string * row) : omap checked (check_one show_error check upgrade record) = [record.1].
Proof.
  destruct record as [id r]. simpl. destruct (check id) as [[|]|err]; simpl; [|done..].
  destruct (negb _); [|done]. simpl. by destruct (upgrade id).
Qed.

Lemma check_one_due (record : string * row) :
  omap upgraded (check_one show_error check upgrade record) = (if decide (due record) then [record.1] else [])
  /\ omap audits (check_one show_error check upgrade record)
     = (if decide (due record) then [auditUpgrade "system" "system" "" record.1 (upgrade record.1)] else []).
Proof.
  destruct record as [id r]. simpl.
  destruct (decide (due (id, r))) as [[Hc Ha]|Hn]; simpl in *.
  - rewrite Hc. simpl. rewrite (proj2 (Z.eqb_neq _ _) Ha). simpl. by destruct (upgrade id).
  - destruct (check id) as [[|]|err] eqn:Ec; simpl; [|done..].
    destruct (Z.eqb_spec (r_autoUpdate r) 0) as [Hz|Hz]; simpl; [done|]. by destruct Hn.
Qed.

Lemma omap_mjoin {A B} (f : A -> option B) (ls : list (list A)) : omap f (mjoin ls) = mjoin (omap f <$> ls).
Proof. induction ls as [|l ls IH]; [done|]. simpl. by rewrite omap_app, IH. Qed.

Lemma mjoin_due {A} (g : string * row -> list A) (f : string * row -> A) (rs : list (string * row)) :
  (forall r, g r = if decide (due r) then [f r] else []) -> mjoin (g <$> rs) = f <$> filter due rs.
Proof.
  intros Hg. induction rs as [|r rs IH]; [done|].
  change (g r ++ mjoin (g <$> rs) = f <$> filter due (r :: rs)). rewrite IH, Hg, filter_cons. by case_decide.
Qed.

(** a pass of the scheduler checks every container once, in its order, whatever fails
    on the way; it upgrades exactly those whose check found an update and whose row had
    automatic updates on when the pass read it; and every upgrade, and nothing else,
    writes one entry of the system to the audit trail. *)
Theorem scheduler_guarded (records : list (string * row)) :
  let pass := checkAllContainers show_error check upgrade records in
  omap checked pass = records.*1
  /\ omap upgraded pass = (filter due records).*1
  /\ omap audits pass = (fun r => auditUpgrade "system" "system" "" r.1 (upgrade r.1)) <$> filter due records.
Proof.
  simpl. unfold checkAllContainers. rewrite !omap_mjoin, <- !list_fmap_compose. split_and!.
  - induction records as [|r rs IH]; [done|].
    change (omap checked (check_one show_error check upgrade r)
      ++ mjoin (omap checked ∘ check_one show_error check upgrade <$> rs) = [r.1] ++ rs.*1).
    by rewrite check_one_checked, IH.
  - apply mjoin_due. intros r. apply check_one_due.
  - apply mjoin_due. intros r. apply check_one_due.
Qed.
End Pass.

(** ** A concrete daemon *)

Definition host_ex : HostContainer := mkHostContainer "/web" "nginx" "sha256:1" true "running" [("a", "x"); ("b", "y")]%string.
Definition failure_ex : DockerError := mkDockerError false "no space left on device".

(** It grants everything, except, when told so, the creation of a container. *)
Definition daemon_ex (creates : bool) : Daemon :=
  mkDaemon (fun _ _ => inl host_ex) (fun _ _ => None) (fun _ _ => None) (fun _ _ => None) (fun _ _ => None)
    (fun _ _ => inl ("sha256:2", [])%string) (fun _ _ => inl "sha256:2"%string)
    (fun _ _ => if creates then inl "c2"%string else inr failure_ex) (fun _ _ => None).

Definition admin_ex : option User := Some (mkUser 1 "root" "admin").

(** The old container is removed before the new one is known to be creatable: when the
    daemon cannot create it, the upgrade fails with nothing asked of the daemon after the
    removal, and the container is gone. *)
Lemma failed_create_loses_container :
  let '(log, res) := upgrade_on_host (Some (daemon_ex false)) [] id "c1" 9 [] in
  (exists before, log = before ++ [QRemove "c1"; QCreate "web" host_ex (Some ("a", "x")%string)])
  /\ res = inr (internal "failed to re-create container: no space left on device").
Proof. split; [|reflexivity]. exists (prepare_plan [] "c1" host_ex). reflexivity. Qed.

(** The scheduler decides by the rows it read at the beginning of its pass: a container
    whose automatic updates an administrator has turned off since, while other containers
    were checked, is upgraded nevertheless. *)
Lemma stale_setting_upgrades :
  let show := fun _ : Z => ""%string in
  let t1 := o_table _ (SetContainerAutoUpdate_ show admin_ex "c1" false table_ex table_ex) in
  setting t1 "c1" = 0%Z
  /\ In (Upgrading_ "c1") (checkAllContainers error_text (fun _ => inl true)
       (fun id => inl (mkUpgradeContainerResponse id "a" "b")) [("c1", row_ex 1)]%string).
Proof. split; [reflexivity|]. vm_compute. tauto. Qed.
