(* ===== verification/ContainerStack.v ===== *)
(** The containers from the server's table to the page: the operations of
    ContainerActions.v as the server runs them, a statement, then what is left to read and
    to publish, with every other operation in between; and the messages they publish,
    delivered to the hook of Containers.v, keep the page's list what the table says. *)
From S2P Require Import Prelude Async Toast Proto Containers Mirror Access ContainerServer ContainerActions.

Section Stack.
Context (rfc3339 : Z -> string).

Abbreviation shows := (view rfc3339).

(** ** The server's operations in pieces *)

(** The statement of an operation, on the table it finds, and what the operation is left
    with: an event of the daemon, or a handler whose checks (on the table [t0]) and whose
    requests to the daemon and the registries are done. *)
Inductive op_statement (t : table) : table -> list piece -> Prop :=
| states_event e :
    let s := event_statement (e_action e) (e_id e) (e_inspect e) t in op_statement t s.1 s.2
| states_transition c a user id t0 existing log previous current :
    begin_action user id t0 = inl existing -> transition_on_host c a id [] = (log, inl (previous, current)) ->
    let s := transition_statement id existing current t in op_statement t s.1 s.2
| states_setting user id autoUpdate t0 existing :
    begin_action user id t0 = inl existing ->
    let s := setting_statement id autoUpdate t in op_statement t s.1 s.2
| states_check c registries user id now t0 existing log remoteDigest repoDigests :
    begin_action user id t0 = inl existing ->
    check_on_host c registries id existing [] = (log, inl (remoteDigest, repoDigests)) ->
    let s := check_statement id remoteDigest repoDigests now t in op_statement t s.1 s.2
| states_upgrade c registries walk id now (t0 : table) existing log u previous t' todo :
    t0 !! id = Some existing -> upgrade_on_host c registries walk id now [] = (log, inl (u, previous)) ->
    upgrade_statement existing u id t = Some (t', todo) -> op_statement t t' todo.

(** The table, and the operations whose statement has run with what each is left with. *)
Record serving := mkServing { s_table : table; under_way : list (list piece) }.

(** A message was made of the row (or its absence) that it tells of; between that and its
    publication no statement changes the row. *)
Definition announced (ops : list (list piece)) (id : string) : Prop :=
  exists m, Send m ∈ mjoin ops /\ StreamContainersResponse_containerId m = id.

Definition leaves_announced (ops : list (list piece)) (t t' : table) : Prop :=
  forall id, announced ops id -> t' !! id = t !! id.

Inductive serve_step : serving -> list StreamContainersResponse -> serving -> Prop :=
| serve_statement t t' todo ops :
    op_statement t t' todo -> leaves_announced ops t t' ->
    serve_step (mkServing t ops) [] (mkServing t' (ops ++ [todo]))
| serve_read t ops i id r todo :
    ops !! i = Some (ReadRow id :: todo) -> t !! id = Some r ->
    serve_step (mkServing t ops) []
      (mkServing t (<[i := Send (mkStreamContainersResponse "save" (Some (MapContainerRecord rfc3339 id r)) id) :: todo]> ops))
| serve_read_none t ops i id todo :
    ops !! i = Some (ReadRow id :: todo) -> t !! id = None ->
    serve_step (mkServing t ops) [] (mkServing t (<[i := todo]> ops))
| serve_send t ops i m todo :
    ops !! i = Some (Send m :: todo) -> serve_step (mkServing t ops) [m] (mkServing t (<[i := todo]> ops))
| serve_save t ops i id r todo :
    ops !! i = Some (SaveRow id r :: todo) -> leaves_announced ops t (SaveContainer id r t) ->
    serve_step (mkServing t ops) [] (mkServing (SaveContainer id r t) (<[i := todo]> ops)).

(** Any number of steps, and all they published. *)
Inductive served : serving -> list StreamContainersResponse -> serving -> Prop :=
| served_nil c : served c [] c
| served_step c1 sent c2 es c3 : serve_step c1 sent c2 -> served c2 es c3 -> served c1 (sent ++ es) c3.

(** Nothing is under way. *)
Definition at_rest (c : serving) : Prop := Forall (fun todo => todo = []) (under_way c).

(** ** What has been published *)

(** A message that says what the table has. *)
Definition true_message (t : table) (m : StreamContainersResponse) : Prop :=
  let id := StreamContainersResponse_containerId m in
  match t !! id with
  | Some r => m = mkStreamContainersResponse "save" (Some (MapContainerRecord rfc3339 id r)) id
  | None => m = removal id
  end.

(** A container is told of rightly, or it will be. *)
Definition told (v : gmap string ProtoContainerMsg) (t : table) (ops : list (list piece)) (id : string) : Prop :=
  v !! id = shows t !! id \/ announced ops id \/ (is_Some (t !! id) /\ ReadRow id ∈ mjoin ops).

(** A row that is saved is read afterwards. *)
Fixpoint read_later (todo : list piece) : Prop :=
  match todo with
  | [] => True
  | SaveRow id _ :: todo => ReadRow id ∈ todo /\ read_later todo
  | _ :: todo => read_later todo
  end.

Record telling (v : gmap string ProtoContainerMsg) (c : serving) : Prop := {
  tell_true m : Send m ∈ mjoin (under_way c) -> true_message (s_table c) m;
  tell_all id : told v (s_table c) (under_way c) id;
  tell_reads todo : todo ∈ under_way c -> read_later todo
}.

Lemma shows_lookup (t : table) (id : string) : shows t !! id = MapContainerRecord rfc3339 id <$> t !! id.
Proof. unfold view. rewrite map_lookup_imap. by destruct (t !! id). Qed.

Lemma mjoin_snoc {A} (ls : list (list A)) (l : list A) (x : A) : x ∈ mjoin (ls ++ [l]) <-> x ∈ mjoin ls \/ x ∈ l.
Proof.
  rewrite !list_elem_of_join. setoid_rewrite elem_of_app. setoid_rewrite list_elem_of_singleton. naive_solver.
Qed.

Lemma mjoin_split {A} (l1 l2 : list (list A)) (l : list A) (x : A) :
  x ∈ mjoin (l1 ++ l :: l2) <-> x ∈ l \/ x ∈ mjoin (l1 ++ l2).
Proof.
  rewrite !list_elem_of_join. setoid_rewrite elem_of_app. setoid_rewrite elem_of_cons. naive_solver.
Qed.

(** An operation of the list, and the others. *)
Lemma mjoin_at {A} (ls : list (list A)) (i : nat) (l : list A) (x : A) :
  ls !! i = Some l -> x ∈ mjoin ls <-> x ∈ l \/ x ∈ mjoin (delete i ls).
Proof. intros Hi. rewrite <- (take_drop_middle ls i l Hi) at 1. by rewrite mjoin_split, delete_take_drop. Qed.

Lemma mjoin_insert {A} (ls : list (list A)) (i : nat) (l l' : list A) (x : A) :
  ls !! i = Some l -> x ∈ mjoin (<[i := l']> ls) <-> x ∈ l' \/ x ∈ mjoin (delete i ls).
Proof.
  intros Hi. rewrite insert_take_drop by (by eapply lookup_lt_Some). by rewrite mjoin_split, delete_take_drop.
Qed.

Lemma insert_elem {A} (ls : list A) (i : nat) (l' x : A) : x ∈ <[i := l']> ls -> x = l' \/ x ∈ ls.
Proof.
  intros [j Hj]%list_elem_of_lookup. apply list_lookup_insert_Some in Hj as [(_ & -> & _)|[_ Hj]]; [by left|right].
  by eapply list_elem_of_lookup_2.
Qed.

(** What a statement changes, the operation is left to tell. *)
Definition going_to_tell (t t' : table) (todo : list piece) : Prop :=
  (forall id, t' !! id = t !! id \/ (t' !! id = None /\ Send (removal id) ∈ todo)
      \/ (is_Some (t' !! id) /\ ReadRow id ∈ todo))
  /\ (forall m, Send m ∈ todo -> true_message t' m) /\ read_later todo.

Lemma tell_nothing (t : table) : going_to_tell t t [].
Proof.
  split; [by left|]. split; [intros m H; by apply not_elem_of_nil in H|done].
Qed.

Lemma tell_read (id : string) (t t' : table) :
  (forall k, k <> id -> t' !! k = t !! k) -> t' !! id = t !! id \/ is_Some (t' !! id) -> going_to_tell t t' [ReadRow id].
Proof.
  intros Hk Hid. split; [|split].
  - intros k. destruct (decide (k = id)) as [->|Hne]; [|left; by apply Hk].
    destruct Hid; [by left|]. do 2 right. split; [done|by left].
  - intros m H. apply list_elem_of_singleton in H. done.
  - done.
Qed.

Lemma tell_removal (id : string) (t : table) : going_to_tell t (delete id t) [Send (removal id)].
Proof.
  split; [|split].
  - intros k. destruct (decide (k = id)) as [->|Hne]; [|left; by rewrite lookup_delete_ne].
    right; left. split; [apply lookup_delete_eq|by left].
  - intros m H. apply list_elem_of_singleton in H as [= ->]. unfold true_message. simpl. by rewrite lookup_delete_eq.
  - done.
Qed.

Lemma tell_alter (f : row -> row) (id : string) (t : table) : going_to_tell t (alter f id t) [ReadRow id].
Proof.
  apply tell_read; [intros k Hk; by rewrite lookup_alter_ne|]. rewrite lookup_alter_eq.
  destruct (t !! id); [right|left]; done.
Qed.

Lemma tell_insert (r : row) (id : string) (t : table) : going_to_tell t (<[id := r]> t) [ReadRow id].
Proof. apply tell_read; [intros k Hk; by rewrite lookup_insert_ne|]. rewrite lookup_insert_eq. by right. Qed.

Lemma tell_upgrade (existing : row) (u : Upgraded) (oldId : string) (t t' : table) (todo : list piece) :
  upgrade_statement existing u oldId t = Some (t', todo) -> going_to_tell t t' todo.
Proof.
  unfold upgrade_statement, upgrade_update, UpdateContainerForUpgrade, upgrade_broadcast.
  destruct (t !! oldId) as [r|] eqn:E.
  - case_bool_decide as Hc; [done|]. intros [= <- <-]. simpl.
    destruct (String.eqb_spec (u_id u) oldId) as [Heq|Hne]; simpl.
    { rewrite Heq, insert_delete_eq. apply tell_insert. }
    split; [|split].
    + intros k. destruct (decide (k = u_id u)) as [->|Hk].
      { do 2 right. rewrite lookup_insert_eq. split; [done|]. right. by left. }
      rewrite lookup_insert_ne by done. destruct (decide (k = oldId)) as [->|Hk'].
      { right; left. split; [apply lookup_delete_eq|by left]. }
      left. by rewrite lookup_delete_ne.
    + intros m [[= ->]|H%list_elem_of_singleton]%elem_of_cons; [|done]. unfold true_message. simpl.
      by rewrite lookup_insert_ne, lookup_delete_eq.
    + done.
  - intros [= <- <-]. split; [by left|]. split; simpl.
    + intros m [H|H]%elem_of_cons; [done|]. destruct (String.eqb_spec (u_id u) oldId) as [Heq|Hne]; simpl in H.
      * by apply list_elem_of_singleton in H.
      * apply elem_of_cons in H as [[= ->]|H%list_elem_of_singleton]; [|done]. unfold true_message. simpl. by rewrite E.
    + split; [apply elem_of_app; right; by left|]. by destruct (String.eqb _ _).
Qed.

Lemma op_statement_tells (t t' : table) (todo : list piece) : op_statement t t' todo -> going_to_tell t t' todo.
Proof.
  destruct 1 as [e|c a user id t0 existing log previous current _ _|user id autoUpdate t0 existing _
    |c registries user id now t0 existing log dig digs _ _|c registries walk id now t0 existing log u previous t' todo _ _ H].
  - unfold s, event_statement. destruct (String.eqb _ ""); [apply tell_nothing|]. destruct (_ || _); [apply tell_removal|].
    case_bool_decide; [|apply tell_nothing]. destruct (e_inspect e); [apply tell_insert|apply tell_nothing].
  - apply tell_insert.
  - apply tell_alter.
  - apply tell_alter.
  - by eapply tell_upgrade.
Qed.

(** ** The invariant *)

Lemma true_message_same (t t' : table) (m : StreamContainersResponse) :
  t' !! StreamContainersResponse_containerId m = t !! StreamContainersResponse_containerId m ->
  true_message t m -> true_message t' m.
Proof. unfold true_message. by intros ->. Qed.

Lemma apply_true (v : gmap string ProtoContainerMsg) (t : table) (m : StreamContainersResponse) :
  true_message t m -> apply_message v m
    = partial_alter (fun _ => shows t !! StreamContainersResponse_containerId m) (StreamContainersResponse_containerId m) v.
Proof.
  unfold true_message. rewrite shows_lookup. destruct (t !! _) as [r|] eqn:E; intros Hm; unfold apply_message;
    rewrite Hm; simpl; done.
Qed.

Lemma telling_statement v (t t' : table) (todo : list piece) (ops : list (list piece)) :
  telling v (mkServing t ops) -> going_to_tell t t' todo -> leaves_announced ops t t' ->
  telling v (mkServing t' (ops ++ [todo])).
Proof.
  intros [Ht Ha Hr] (Hl & Htl & Hrl) Hkeep. split; simpl in *.
  - intros m [Hm|Hm]%mjoin_snoc; [|by apply Htl]. eapply true_message_same, Ht, Hm. apply Hkeep. by exists m.
  - intros id. unfold told, announced. setoid_rewrite mjoin_snoc.
    destruct (Hl id) as [Hid|[[Hid Hs]|[Hid Hs]]]; [|right; left; exists (removal id); split; [by right|done]|right; right; tauto].
    rewrite Hid, shows_lookup, Hid. destruct (Ha id) as [H|[(m & Hm & Hmid)|[H1 H2]]].
    + left. by rewrite H, shows_lookup.
    + right; left. exists m. tauto.
    + right; right. tauto.
  - intros l [Hl'|Hl']%elem_of_app; [auto|]. by apply list_elem_of_singleton in Hl' as ->.
Qed.

(** An operation goes on: the others are as they were. *)
Lemma telling_reads (ops : list (list piece)) (i : nat) (p : piece) (todo todo' : list piece) :
  (forall l, l ∈ ops -> read_later l) -> ops !! i = Some (p :: todo) -> (read_later todo -> read_later todo') ->
  forall l, l ∈ <[i := todo']> ops -> read_later l.
Proof.
  intros Hr Hi Hs l [->|Hl]%insert_elem; [|by apply Hr]. apply Hs.
  pose proof (Hr _ (list_elem_of_lookup_2 _ _ _ Hi)) as H. by destruct p; [| |destruct H].
Qed.

Lemma telling_read v (t : table) (ops : list (list piece)) (i : nat) (id : string) (r : row) (todo : list piece) :
  telling v (mkServing t ops) -> ops !! i = Some (ReadRow id :: todo) -> t !! id = Some r ->
  telling v (mkServing t (<[i := Send (mkStreamContainersResponse "save" (Some (MapContainerRecord rfc3339 id r)) id) :: todo]> ops)).
Proof.
  intros [Ht Ha Hr] Hi E. split; simpl in *.
  - intros m Hm%(mjoin_insert _ _ _ _ _ Hi). rewrite elem_of_cons in Hm. destruct Hm as [[[= ->]|Hm]|Hm].
    + unfold true_message. simpl. by rewrite E.
    + apply Ht, (mjoin_at _ _ _ _ Hi). left. by right.
    + apply Ht, (mjoin_at _ _ _ _ Hi). by right.
  - intros k. unfold told, announced. setoid_rewrite (mjoin_insert _ _ _ _ _ Hi).
    destruct (Ha k) as [H|[(m & Hm%(mjoin_at _ _ _ _ Hi) & Hmid)|[H1 H2%(mjoin_at _ _ _ _ Hi)]]]; [by left|right; left|].
    + exists m. split; [|done]. rewrite elem_of_cons in Hm |- *. destruct Hm as [[?|?]|?]; [done|tauto..].
    + rewrite elem_of_cons in H2. destruct H2 as [[[= ->]|H2]|H2]; [right; left|right; right..].
      * eexists. split; [left; by left|done].
      * split; [done|]. left. by right.
      * split; [done|]. by right.
  - by eapply telling_reads.
Qed.

Lemma telling_read_none v (t : table) (ops : list (list piece)) (i : nat) (id : string) (todo : list piece) :
  telling v (mkServing t ops) -> ops !! i = Some (ReadRow id :: todo) -> t !! id = None ->
  telling v (mkServing t (<[i := todo]> ops)).
Proof.
  intros [Ht Ha Hr] Hi E. split; simpl in *.
  - intros m Hm%(mjoin_insert _ _ _ _ _ Hi). apply Ht, (mjoin_at _ _ _ _ Hi). rewrite elem_of_cons. tauto.
  - intros k. unfold told, announced. setoid_rewrite (mjoin_insert _ _ _ _ _ Hi).
    destruct (Ha k) as [H|[(m & Hm%(mjoin_at _ _ _ _ Hi) & Hmid)|[H1 H2%(mjoin_at _ _ _ _ Hi)]]]; [by left|right; left|].
    + exists m. split; [|done]. rewrite elem_of_cons in Hm. destruct Hm as [[?|?]|?]; [done|tauto..].
    + rewrite elem_of_cons in H2. destruct H2 as [[[= ->]|H2]|H2]; [by rewrite E in H1; destruct H1|right; right; tauto..].
  - by eapply telling_reads.
Qed.

Lemma telling_send v (t : table) (ops : list (list piece)) (i : nat) (m : StreamContainersResponse) (todo : list piece) :
  telling v (mkServing t ops) -> ops !! i = Some (Send m :: todo) ->
  telling (apply_message v m) (mkServing t (<[i := todo]> ops)).
Proof.
  intros [Ht Ha Hr] Hi. assert (Hm : true_message t m) by (apply Ht, (mjoin_at _ _ _ _ Hi); left; by left).
  split; simpl in *.
  - intros m' Hm'%(mjoin_insert _ _ _ _ _ Hi). apply Ht, (mjoin_at _ _ _ _ Hi). rewrite elem_of_cons. tauto.
  - intros k. unfold told, announced. setoid_rewrite (mjoin_insert _ _ _ _ _ Hi). rewrite (apply_true v t m Hm).
    destruct (decide (k = StreamContainersResponse_containerId m)) as [->|Hne]; [left; by rewrite lookup_partial_alter_eq|].
    rewrite lookup_partial_alter_ne by done.
    destruct (Ha k) as [H|[(m' & Hm'%(mjoin_at _ _ _ _ Hi) & Hmid)|[H1 H2%(mjoin_at _ _ _ _ Hi)]]]; [by left|right; left|].
    + exists m'. split; [|done]. rewrite elem_of_cons in Hm'. destruct Hm' as [[[= ->]|?]|?]; [done|tauto..].
    + rewrite elem_of_cons in H2. destruct H2 as [[?|H2]|H2]; [done|right; right; tauto..].
  - by eapply telling_reads.
Qed.

Lemma telling_save v (t : table) (ops : list (list piece)) (i : nat) (id : string) (r : row) (todo : list piece) :
  telling v (mkServing t ops) -> ops !! i = Some (SaveRow id r :: todo) -> leaves_announced ops t (SaveContainer id r t) ->
  telling v (mkServing (SaveContainer id r t) (<[i := todo]> ops)).
Proof.
  intros [Ht Ha Hr] Hi Hkeep. unfold SaveContainer in *. split; simpl in *.
  - intros m Hm%(mjoin_insert _ _ _ _ _ Hi).
    assert (Hin : Send m ∈ mjoin ops) by (apply (mjoin_at _ _ _ _ Hi); rewrite elem_of_cons; tauto).
    eapply true_message_same, Ht, Hin. apply Hkeep. by exists m.
  - intros k. unfold told, announced. setoid_rewrite (mjoin_insert _ _ _ _ _ Hi).
    destruct (decide (k = id)) as [->|Hne].
    { do 2 right. rewrite lookup_insert_eq. split; [done|]. left. apply (Hr _ (list_elem_of_lookup_2 _ _ _ Hi)). }
    rewrite shows_lookup, lookup_insert_ne by done.
    destruct (Ha k) as [H|[(m & Hm%(mjoin_at _ _ _ _ Hi) & Hmid)|[H1 H2%(mjoin_at _ _ _ _ Hi)]]].
    + left. by rewrite H, shows_lookup.
    + right; left. exists m. split; [|done]. rewrite elem_of_cons in Hm. destruct Hm as [[?|?]|?]; [done|tauto..].
    + rewrite elem_of_cons in H2. destruct H2 as [[?|H2]|H2]; [done|right; right; tauto..].
  - by eapply telling_reads.
Qed.

Lemma serve_step_telling v (c : serving) (sent : list StreamContainersResponse) (c' : serving) :
  serve_step c sent c' -> telling v c -> telling (foldl apply_message v sent) c'.
Proof.
  intros [t t' todo ops H Hk|t ops i id r todo Hi E|t ops i id todo Hi E|t ops i m todo Hi|t ops i id r todo Hi Hk] Hv; simpl.
  - by eapply telling_statement, Hk; [|apply op_statement_tells].
  - by eapply telling_read.
  - by eapply telling_read_none.
  - by apply telling_send.
  - by eapply telling_save.
Qed.

Lemma served_telling v (c : serving) (es : list StreamContainersResponse) (c' : serving) :
  served c es c' -> telling v c -> telling (foldl apply_message v es) c'.
Proof.
  intros H. revert v. induction H as [c|c1 sent c2 es c3 Hs _ IH]; intros v Hv; [done|].
  rewrite foldl_app. by eapply IH, serve_step_telling.
Qed.

Lemma telling_start (t : table) : telling (shows t) (mkServing t []).
Proof.
  split; simpl; [intros m H; by apply not_elem_of_nil in H|by left|]. intros l H. by apply not_elem_of_nil in H.
Qed.

Lemma telling_at_rest v (c : serving) : telling v c -> at_rest c -> v = shows (s_table c).
Proof.
  intros [_ Ha _] Hrest.
  assert (Hno : forall p, p ∉ mjoin (under_way c)).
  { intros p (l & Hp & Hl)%list_elem_of_join. rewrite (proj1 (Forall_forall _ _) Hrest l Hl) in Hp.
    by apply not_elem_of_nil in Hp. }
  apply map_eq. intros id. destruct (Ha id) as [H|[(m & Hm & _)|[_ H]]]; [done|by apply Hno in Hm|by apply Hno in H].
Qed.

(** ** The page *)

(** The containers of a view, as the page would show them, and those of the table. *)
Definition world_of (v : gmap string ProtoContainerMsg) : World := of_wire <$> v.
Definition rows (t : table) : list Container := live (world_of (shows t)).

(** No container is published under the name of another one the clients were told of. *)
Fixpoint names_apart (v : gmap string ProtoContainerMsg) (es : list StreamContainersResponse) : Prop :=
  match es with
  | [] => True
  | m :: es =>
      match StreamContainersResponse_container m with
      | Some c => map_Forall (fun id d => id <> ProtoContainerMsg_id c -> c_name (of_wire d) <> c_name (of_wire c)) v
      | None => True
      end /\ names_apart (apply_message v m) es
  end.

(** The page's side: messages arrive while its stream is open, and are such as its list
    can tell apart ([distinct_message]); timers fire, actions set their marks, and the
    stream breaks and comes back between them. *)
Inductive page_run : State -> list StreamContainersResponse -> State -> Prop :=
| run_done s : page_run s [] s
| run_message s m es s' :
    phase s = Streaming -> distinct_message s m -> page_run (stream_step (Message m) s) es s' -> page_run s (m :: es) s'
| run_timer s t es s' : page_run (timer_fires t s) es s' -> page_run s es s'
| run_flags s f es s' : page_run (setActionLoading f s) es s' -> page_run s es s'
| run_stream s e es s' : (forall r, e <> Message r) -> page_run (stream_step e s) es s' -> page_run s es s'.

(** A message as the server makes them. *)
Definition well_formed (m : StreamContainersResponse) : Prop :=
  (exists c, m = mkStreamContainersResponse "save" (Some c) (ProtoContainerMsg_id c)) \/ exists id, m = removal id.

Lemma true_message_formed (t : table) (m : StreamContainersResponse) : true_message t m -> well_formed m.
Proof.
  unfold true_message. destruct (t !! _) as [r|]; intros Hm; [left|right; by eexists].
  by exists (MapContainerRecord rfc3339 (StreamContainersResponse_containerId m) r).
Qed.

Lemma served_formed v (c : serving) (es : list StreamContainersResponse) (c' : serving) :
  served c es c' -> telling v c -> Forall well_formed es.
Proof.
  intros H. revert v. induction H as [c|c1 sent c2 es c3 Hs _ IH]; intros v Hv; [done|].
  apply Forall_app. split; [|by eapply IH, serve_step_telling].
  destruct Hs as [| | |t ops i m todo Hi|]; [done..| |done]. constructor; [|done].
  eapply true_message_formed, (tell_true _ _ Hv). simpl. apply (mjoin_at _ _ _ _ Hi). left. by left.
Qed.

Lemma message_changes_world (v : gmap string ProtoContainerMsg) (m : StreamContainersResponse) (es : list StreamContainersResponse) :
  well_formed m -> names_apart v (m :: es) -> server_step (world_of v) m (world_of (apply_message v m)).
Proof.
  intros [[c ->]|[id ->]] [Hn _]; unfold world_of, apply_message; simpl in *.
  - rewrite fmap_insert. apply (server_saves _ c). intros id x Hx. rewrite lookup_fmap in Hx.
    apply fmap_Some in Hx as (d & Hd & ->). by apply (Hn id d).
  - rewrite fmap_delete. apply server_removes.
Qed.

Lemma page_run_mirrors (s : State) (es : list StreamContainersResponse) (s' : State) :
  page_run s es s' -> forall v, Forall well_formed es -> names_apart v es ->
  isMounted s = true -> mirrors (world_of v) s -> mirrors (world_of (foldl apply_message v es)) s'.
Proof.
  assert (Hquiet : forall w s s', joint_step (w, s) (w, s') -> isMounted s = true -> mirrors w s ->
                   isMounted s' = true /\ mirrors w s').
  { intros w s1 s2 Hs Hm Hw. split; [by apply (joint_mounted (w, s1) (w, s2))|].
    by apply (joint_step_mirrors (w, s1) (w, s2)). }
  induction 1 as [s|s m es s' Hp Hd _ IH|s t es s' _ IH|s f es s' _ IH|s e es s' He _ IH]; intros v Hf Ho Hm Hmir.
  - done.
  - apply Forall_cons in Hf as [Hfm Hf]. pose proof (message_changes_world v m es Hfm Ho) as Hs.
    pose proof (joint_change _ _ _ s Hp Hs Hd) as Hj. destruct Ho as [_ Ho].
    apply (IH _ Hf Ho); [by apply (joint_mounted _ _ Hj)|by apply (joint_step_mirrors (_, s) _ Hm Hmir Hj)].
  - destruct (Hquiet (world_of v) s (timer_fires t s)) as [? ?]; [constructor|done..|]. by apply IH.
  - destruct (Hquiet (world_of v) s (setActionLoading f s)) as [? ?]; [constructor|done..|]. by apply IH.
  - destruct (Hquiet (world_of v) s (stream_step e s)) as [? ?]; [by constructor|done..|]. by apply IH.
Qed.

(** C3: the page shows the server's table: from a list on that is the table's while no
    operation is under way, through any interleaving of the daemon's events and of the
    starts, stops, checks, upgrades and settings of any users, each in its steps (the
    statement, the fallback of an upgrade, the row that is read, the message that is
    published), and of the page's timers, marks and reconnections, once the operations
    are at rest and the page was given what they published, the list without what a
    timer is about to remove is exactly the table's containers, every one of them is
    listed, and when the armed timers have fired the list is the table's.  This holds as
    long as no statement changes a row between the moment its message is made and its
    publication, the stream loses nothing, no container is published under the name of
    another, and none is saved under another name while its removal is pending on the
    page or under the name of one that is still listed. *)
Theorem page_shows_table (t : table) (c : serving) (events : list StreamContainersResponse) (s0 s : State)
    (Hstart : joint_start (world_of (shows t), s0)) (Hserved : served (mkServing t []) events c) (Hrest : at_rest c)
    (Hnames : names_apart (shows t) events) (Hrun : page_run s0 events s) :
  shown s ≡ₚ rows (s_table c)
  /\ Forall (fun x => x ∈ containers s) (rows (s_table c))
  /\ containers (let_timers_fire s) ≡ₚ rows (s_table c).
Proof.
  destruct (joint_start_mirrors _ Hstart) as [Hm Hmir]. pose proof (telling_start t) as Ht.
  pose proof (page_run_mirrors s0 events s Hrun _ (served_formed _ _ _ _ Hserved Ht) Hnames Hm Hmir) as Hw.
  rewrite (telling_at_rest _ c (served_telling _ _ _ _ Hserved Ht) Hrest) in Hw.
  unfold rows. split_and!.
  - by apply mirrors_shown.
  - apply Forall_forall. intros x [id Hx]%live_elem. by eapply mir_listed.
  - rewrite <- (shown_no_timers (let_timers_fire s)) by apply let_timers_fire_none.
    by apply mirrors_shown, let_timers_fire_mirrors.
Qed.
End Stack.

(** *** A concrete run *)

Definition two_rows : table := <["c2"%string := mkRow "db" "postgres" "sha256:3" "running" 0 0 VNull VNull VNull]> table_ex.

(** An administrator stops one container and turns the automatic updates of another on:
    both statements run before either row is read, and the second is told first. *)
Definition served_ex (show : Z -> string) : table * list StreamContainersResponse :=
  let '(t1, _) := transition_statement "c1" (row_ex 1) "exited" two_rows in
  let '(t2, _) := setting_statement "c2" true t1 in
  (t2, publish_save show "c2" t2 ++ publish_save show "c1" t2).

Lemma served_ex_runs (show : Z -> string) :
  let host := mkHostContainer "/web" "nginx" "sha256:1" false "exited" [] in
  let daemon := mkDaemon (fun _ _ => inl host) (fun _ _ => None) (fun _ _ => None) (fun _ _ => None) (fun _ _ => None)
    (fun _ _ => inl ("", [])%string) (fun _ _ => inl ""%string) (fun _ _ => inl ""%string) (fun _ _ => None) in
  served show (mkServing two_rows []) (served_ex show).2 (mkServing (served_ex show).1 [[]; []]).
Proof.
  intros host daemon. set (t1 := (transition_statement "c1" (row_ex 1) "exited" two_rows).1).
  set (t2 := (setting_statement "c2" true t1).1).
  assert (Hfree : forall t t', leaves_announced [] t t') by (intros t t' id (m & Hm & _); by apply not_elem_of_nil in Hm).
  apply (served_step show _ [] (mkServing t1 [[ReadRow "c1"]])).
  { apply (serve_statement show two_rows t1 _ []); [|apply Hfree].
    by eapply (states_transition two_rows (Some daemon) Stop admin_ex "c1" two_rows). }
  apply (served_step show _ [] (mkServing t2 [[ReadRow "c1"]; [ReadRow "c2"]])).
  { apply (serve_statement show t1 t2 _ [[ReadRow "c1"]]).
    - by eapply (states_setting t1 admin_ex "c2" true two_rows).
    - intros id (m & Hm & _). apply elem_of_app in Hm as [[?|H]%elem_of_cons|H]; [done|by apply not_elem_of_nil in H..]. }
  eapply (served_step show _ []); [by apply (serve_read show t2 _ 1 "c2")|].
  eapply (served_step show _ [_]); [by apply (serve_send show t2 _ 1)|].
  eapply (served_step show _ []); [by apply (serve_read show t2 _ 0 "c1")|].
  eapply (served_step show _ [_]); [by apply (serve_send show t2 _ 0)|]. apply served_nil.
Qed.

Lemma page_shows_table_witness :
  let show := fun _ : Z => ""%string in
  let items := of_message <$> [MapContainerRecord show "c1" (row_ex 1);
    MapContainerRecord show "c2" (mkRow "db" "postgres" "sha256:3" "running" 0 0 VNull VNull VNull)] in
  let s0 := setIsLoading false (setError None (setContainers (fun _ => mapProtoContainer <$> items) initial)) in
  let s := foldl (fun s m => stream_step (Message m) s) (stream_step Connected s0) (served_ex show).2 in
  shown s ≡ₚ rows show (served_ex show).1
  /\ Forall (fun x => x ∈ containers s) (rows show (served_ex show).1)
  /\ containers (let_timers_fire s) ≡ₚ rows show (served_ex show).1.
Proof.
  intros show items s0 s.
  assert (Hd : forall s c, timers s = ∅ -> Forall (fun x => c_id x = c_id c -> c_name x = c_name c) (containers s) ->
               distinct_save s c).
  { intros s1 c Ht Hx. rewrite Forall_forall in Hx. split; [by intros t n; rewrite Ht, lookup_empty|]. intros x y H1 H2 H3. by destruct H3; apply Hx. }
  apply (page_shows_table show two_rows (mkServing (served_ex show).1 [[]; []]) (served_ex show).2 s0 s).
  - apply (joint_first (world_of (view show two_rows)) items initial); try reflexivity.
    + split.
      * intros id c. unfold world_of. rewrite lookup_fmap. intros (m & Hm & ->)%fmap_Some.
        rewrite shows_lookup in Hm. by apply fmap_Some in Hm as (r & _ & ->).
      * intros i j c d. unfold world_of. rewrite !lookup_fmap, !shows_lookup. unfold two_rows, table_ex.
        destruct (decide (i = "c2"%string)) as [->|Hi], (decide (j = "c2"%string)) as [->|Hj];
          rewrite ?lookup_insert_eq, ?lookup_insert_ne by done; [done|..];
          rewrite ?lookup_singleton; repeat case_decide; subst; simpl; try done; by intros [= <-] [= <-].
    + split; cbn; try done; [constructor|]. intros t. rewrite lookup_empty. by intros [].
  - apply served_ex_runs.
  - by repeat constructor.
  - split; [|split; [|done]]; apply (bool_decide_unpack _); vm_compute; exact I.
  - apply (run_stream _ Connected); [done|]. apply run_message; [reflexivity| |apply run_message; [reflexivity| |apply run_done]];
      (apply Hd; [reflexivity|]; apply (bool_decide_unpack _); vm_compute; exact I).
Defined.
