(* ===== verification/Json.v ===== *)
(** [JSON.stringify] and [JSON.parse] of the language, on the values the client
    stores: null, booleans, integers, strings, arrays and objects.  A string is
    ASCII text; [JSON.parse] refuses fractions, exponents and escapes beyond
    one byte, which the client never writes. *)
From S2P Require Import Prelude.
From Stdlib Require Import DecimalString DecimalZ.

#[warnings="-register-all"]
Inductive json :=
| JNull
| JBool (b : bool)
| JNum (z : Z)
| JStr (s : string)
| JArr (l : list json)
| JObj (fields : list (string * json)).

(** ** Printing *)

Definition hex_digit (n : nat) : ascii :=
  if n <? 10 then ascii_of_nat (48 + n) else ascii_of_nat (87 + n).

(** One character of a printed string. *)
Definition escape_char (c : ascii) : string :=
  let n := nat_of_ascii c in
  if n =? 34 then String "\" dquote
  else if n =? 92 then String "\" (String "\" "")
  else if n =? 8 then "\b" else if n =? 9 then "\t" else if n =? 10 then "\n"
  else if n =? 12 then "\f" else if n =? 13 then "\r"
  else if n <? 32 then
    "\u00" +:+ String (hex_digit (n / 16)) (String (hex_digit (n mod 16)) "")
  else String c "".

Fixpoint escape (s : string) : string :=
  match s with
  | EmptyString => ""
  | String c s' => escape_char c +:+ escape s'
  end.

Definition print_num (z : Z) : string := NilZero.string_of_int (Z.to_int z).

Fixpoint stringify (v : json) : string :=
  match v with
  | JNull => "null"
  | JBool true => "true"
  | JBool false => "false"
  | JNum z => print_num z
  | JStr s => quoted (escape s)
  | JArr l => "[" +:+ join "," (List.map stringify l) +:+ "]"
  | JObj l =>
      "{" +:+ join "," (List.map (fun f => quoted (escape f.1) +:+ ":" +:+ stringify f.2) l) +:+ "}"
  end.

(** ** Parsing *)

Fixpoint skip_ws (s : string) : string :=
  match s with
  | String c s' =>
      let n := nat_of_ascii c in
      if (n =? 32) || (n =? 9) || (n =? 10) || (n =? 13) then skip_ws s' else s
  | EmptyString => s
  end.

Definition unhex (c : ascii) : option nat :=
  let n := nat_of_ascii c in
  if (48 <=? n) && (n <=? 57) then Some (n - 48)
  else if (97 <=? n) && (n <=? 102) then Some (n - 87)
  else if (65 <=? n) && (n <=? 70) then Some (n - 55)
  else None.

(** The rest of a string literal after its opening quote. *)
Fixpoint parse_chars (s : string) : option (string * string) :=
  match s with
  | EmptyString => None
  | String c s' =>
      let n := nat_of_ascii c in
      if n =? 34 then Some (EmptyString, s')
      else if n <? 32 then None
      else if n =? 92 then
        let simple (d : nat) (rest : option (string * string)) :=
          match rest with
          | Some (t, r) => Some (String (ascii_of_nat d) t, r)
          | None => None
          end in
        match s' with
        | String e s'' =>
            let m := nat_of_ascii e in
            if m =? 34 then simple 34 (parse_chars s'')
            else if m =? 92 then simple 92 (parse_chars s'')
            else if m =? 47 then simple 47 (parse_chars s'')
            else if m =? 98 then simple 8 (parse_chars s'')
            else if m =? 116 then simple 9 (parse_chars s'')
            else if m =? 110 then simple 10 (parse_chars s'')
            else if m =? 102 then simple 12 (parse_chars s'')
            else if m =? 114 then simple 13 (parse_chars s'')
            else if m =? 117 then
              match s'' with
              | String a (String b (String x (String y s4))) =>
                  match unhex a, unhex b, unhex x, unhex y with
                  | Some 0, Some 0, Some h, Some l => simple (16 * h + l) (parse_chars s4)
                  | _, _, _, _ => None
                  end
              | _ => None
              end
            else None
        | EmptyString => None
        end
      else
        match parse_chars s' with
        | Some (t, r) => Some (String c t, r)
        | None => None
        end
  end.

Definition num_char (c : ascii) : bool :=
  let n := nat_of_ascii c in ((48 <=? n) && (n <=? 57)) || (n =? 45).

Fixpoint span (p : ascii -> bool) (s : string) : string * string :=
  match s with
  | String c s' => if p c then let '(a, b) := span p s' in (String c a, b) else (EmptyString, s)
  | EmptyString => (EmptyString, EmptyString)
  end.

Definition parse_num (s : string) : option (Z * string) :=
  let '(a, b) := span num_char s in
  match a, NilZero.int_of_string a with
  | String _ _, Some i =>
      let z := Z.of_int i in
      if String.eqb (print_num z) a || String.eqb a "-0" then Some (z, b) else None
  | _, _ => None
  end.

(** [obj[key] = v] on the fields in insertion order *)
Fixpoint obj_set (key : string) (v : json) (l : list (string * json)) : list (string * json) :=
  match l with
  | [] => [(key, v)]
  | (k, w) :: l' => if String.eqb k key then (k, v) :: l' else (k, w) :: obj_set key v l'
  end.

(** [parse_elems] and [parse_fields] read the items after the first bracket of
    a non-empty array or object; [fuel] bounds the nesting and the items. *)
Fixpoint parse_value (fuel : nat) (s : string) : option (json * string) :=
  match fuel with
  | O => None
  | S fuel =>
      match skip_ws s with
      | EmptyString => None
      | String c s' =>
          let n := nat_of_ascii c in
          if n =? 110 then (if startsWith "ull" s' then Some (JNull, slice_from 3 s') else None)
          else if n =? 116 then
            (if startsWith "rue" s' then Some (JBool true, slice_from 3 s') else None)
          else if n =? 102 then
            (if startsWith "alse" s' then Some (JBool false, slice_from 4 s') else None)
          else if n =? 34 then
            match parse_chars s' with Some (t, r) => Some (JStr t, r) | None => None end
          else if n =? 91 then
            match skip_ws s' with
            | String d r =>
                if nat_of_ascii d =? 93 then Some (JArr [], r)
                else match parse_elems fuel s' with Some (l, r) => Some (JArr l, r) | None => None end
            | EmptyString => None
            end
          else if n =? 123 then
            match skip_ws s' with
            | String d r =>
                if nat_of_ascii d =? 125 then Some (JObj [], r)
                else match parse_fields fuel [] s' with
                     | Some (l, r) => Some (JObj l, r) | None => None end
            | EmptyString => None
            end
          else match parse_num (String c s') with Some (z, r) => Some (JNum z, r) | None => None end
      end
  end
with parse_elems (fuel : nat) (s : string) : option (list json * string) :=
  match fuel with
  | O => None
  | S fuel =>
      match parse_value fuel s with
      | None => None
      | Some (v, r) =>
          match skip_ws r with
          | String d r' =>
              if nat_of_ascii d =? 93 then Some ([v], r')
              else if nat_of_ascii d =? 44 then
                match parse_elems fuel r' with
                | Some (l, r'') => Some (v :: l, r'') | None => None end
              else None
          | EmptyString => None
          end
      end
  end
with parse_fields (fuel : nat) (acc : list (string * json)) (s : string) :
    option (list (string * json) * string) :=
  match fuel with
  | O => None
  | S fuel =>
      match skip_ws s with
      | String q s1 =>
          if nat_of_ascii q =? 34 then
            match parse_chars s1 with
            | None => None
            | Some (k, s2) =>
                match skip_ws s2 with
                | String colon s3 =>
                    if nat_of_ascii colon =? 58 then
                      match parse_value fuel s3 with
                      | None => None
                      | Some (v, r) =>
                          match skip_ws r with
                          | String d r' =>
                              if nat_of_ascii d =? 125 then Some (obj_set k v acc, r')
                              else if nat_of_ascii d =? 44 then
                                parse_fields fuel (obj_set k v acc) r'
                              else None
                          | EmptyString => None
                          end
                      end
                    else None
                | EmptyString => None
                end
            end
          else None
      | EmptyString => None
      end
  end.

(** [JSON.parse(s)], [None] when it throws.  The fuel exceeds what a text of
    this length can need. *)
Definition parse (s : string) : option json :=
  match parse_value (2 * slen s + 2) s with
  | Some (v, r) => if String.eqb (skip_ws r) "" then Some v else None
  | None => None
  end.

(** ** Induction on values *)

Section Induction.
Variable P : json -> Prop.
Hypothesis Hnull : P JNull.
Hypothesis Hbool : forall b, P (JBool b).
Hypothesis Hnum : forall z, P (JNum z).
Hypothesis Hstr : forall s, P (JStr s).
Hypothesis Harr : forall l, Forall P l -> P (JArr l).
Hypothesis Hobj : forall l, Forall (fun f => P f.2) l -> P (JObj l).

Fixpoint json_induction (v : json) : P v :=
  match v with
  | JNull => Hnull
  | JBool b => Hbool b
  | JNum z => Hnum z
  | JStr s => Hstr s
  | JArr l => Harr l
      ((fix go l : Forall P l :=
          match l with
          | [] => Forall_nil_2 P
          | v :: l' => Forall_cons_2 P v l' (json_induction v) (go l')
          end) l)
  | JObj l => Hobj l
      ((fix go l : Forall (fun f => P f.2) l :=
          match l with
          | [] => Forall_nil_2 _
          | f :: l' => Forall_cons_2 _ f l' (json_induction f.2) (go l')
          end) l)
  end.
End Induction.

(** Objects have one value per key, at every depth. *)
Fixpoint wf (v : json) : Prop :=
  match v with
  | JArr l => foldr (fun v P => wf v /\ P) True l
  | JObj l => NoDup (l.*1) /\ foldr (fun f P => wf f.2 /\ P) True l
  | _ => True
  end.

(** ** Strings *)

Lemma parse_chars_escape_char (c : ascii) (t : string) :
  parse_chars (escape_char c +:+ t) =
  match parse_chars t with Some (u, r) => Some (String c u, r) | None => None end.
Proof. destruct c as [[] [] [] [] [] [] [] []]; reflexivity. Qed.

Lemma parse_chars_escape (s r : string) :
  parse_chars (escape s +:+ dquote +:+ r) = Some (s, r).
Proof.
  induction s as [|c s IH]; [done|]. cbn [escape].
  rewrite append_assoc, parse_chars_escape_char, IH. done.
Qed.

(** ** Numbers *)

Fixpoint all_chars (p : ascii -> bool) (s : string) : bool :=
  match s with EmptyString => true | String c s' => p c && all_chars p s' end.

(** The next character, if any, does not continue a number. *)
Definition num_ends (r : string) : Prop :=
  match r with EmptyString => True | String c _ => num_char c = false end.

Lemma span_all (p : ascii -> bool) (a r : string) :
  all_chars p a = true -> match r with EmptyString => True | String c _ => p c = false end ->
  span p (a +:+ r) = (a, r).
Proof.
  induction a as [|c a IH]; intros Ha Hr.
  - rewrite append_nil_l. destruct r; cbn; [done|]. by rewrite Hr.
  - rewrite append_cons. cbn in Ha |- *. apply andb_true_iff in Ha as [Hc Ha].
    by rewrite Hc, IH.
Qed.

Lemma uint_chars (d : Decimal.uint) : all_chars num_char (NilEmpty.string_of_uint d) = true.
Proof. induction d; cbn; auto. Qed.

Lemma print_num_chars (z : Z) : all_chars num_char (print_num z) = true.
Proof.
  unfold print_num. destruct (Z.to_int z) as [d|d]; destruct d; cbn; try done; apply uint_chars.
Qed.

Lemma to_int_not_nil (z : Z) : Z.to_int z <> Decimal.Pos Decimal.Nil /\
  Z.to_int z <> Decimal.Neg Decimal.Nil.
Proof.
  destruct z as [|p|p]; cbn; split; try done; intros [= H]; revert H;
    apply DecimalPos.Unsigned.to_uint_nonnil.
Qed.

Lemma print_num_head (z : Z) : exists c t, print_num z = String c t /\ num_char c = true.
Proof.
  pose proof (print_num_chars z) as H. unfold print_num in *.
  destruct (Z.to_int z) as [d|d]; destruct d; cbn in *; eauto.
Qed.

Lemma parse_num_print (z : Z) (r : string) :
  num_ends r -> parse_num (print_num z +:+ r) = Some (z, r).
Proof.
  intros Hr. unfold parse_num. rewrite (span_all num_char) by (done || apply print_num_chars).
  destruct (print_num_head z) as (c & t & E & _).
  assert (NilZero.int_of_string (print_num z) = Some (Z.to_int z)) as Hi.
  { apply NilZero.isi; apply to_int_not_nil. }
  rewrite E in Hi |- *. cbv beta iota. rewrite Hi. cbv beta iota zeta.
  by rewrite DecimalZ.of_to, E, String.eqb_refl.
Qed.

(** ** Values *)

(** The fuel a value needs. *)
Fixpoint cost (v : json) : nat :=
  match v with
  | JArr l => S (foldr (fun v n => S (cost v + n)) 0 l)
  | JObj l => S (foldr (fun f n => S (cost f.2 + n)) 0 l)
  | _ => 1
  end.

Definition cost_elems (l : list json) : nat := foldr (fun v n => S (cost v + n)) 0 l.
Definition cost_fields (l : list (string * json)) : nat := foldr (fun f n => S (cost f.2 + n)) 0 l.

Definition print_elems (l : list json) : string := join "," (List.map stringify l).
Definition print_field (f : string * json) : string := quoted (escape f.1) +:+ ":" +:+ stringify f.2.
Definition print_fields (l : list (string * json)) : string := join "," (List.map print_field l).

Lemma join_cons (sep x y : string) (l : list string) :
  join sep (x :: y :: l) = x +:+ sep +:+ join sep (y :: l).
Proof. done. Qed.

(** A printed value starts with a character that is no white space and closes
    nothing. *)
Definition head_ok (s : string) : Prop :=
  exists c t, s = String c t /\ skip_ws s = s /\ nat_of_ascii c <> 93 /\ nat_of_ascii c <> 125.

Lemma stringify_head (v : json) (r : string) : head_ok (stringify v +:+ r).
Proof.
  destruct v as [|[]|z|s|l|l]; cbn [stringify]; unfold quoted, dquote; rewrite ?append_assoc;
    try (do 2 eexists; split; [reflexivity|]; by split).
  destruct (print_num_head z) as (c & t & -> & Hc). rewrite append_cons.
  do 2 eexists; split; [reflexivity|]. unfold num_char in Hc. cbn [skip_ws].
  apply orb_true_iff in Hc as [[H1%Nat.leb_le H2%Nat.leb_le]%andb_true_iff|Hc%Nat.eqb_eq].
  - repeat (rewrite (proj2 (Nat.eqb_neq _ _)) by lia). cbn. split; [done|]. lia.
  - rewrite Hc. cbn. split; [done|]. lia.
Qed.

Lemma skip_ws_head (s : string) : head_ok s -> skip_ws s = s.
Proof. by intros (c & t & _ & H & _). Qed.

Lemma parse_value_num (fuel : nat) (z : Z) (r : string) :
  num_ends r -> parse_value (S fuel) (print_num z +:+ r) = Some (JNum z, r).
Proof.
  intros Hr. cbn [parse_value]. change (print_num z) with (stringify (JNum z)).
  rewrite (skip_ws_head _ (stringify_head (JNum z) r)). cbn [stringify].
  pose proof (parse_num_print z r Hr) as Hp.
  destruct (print_num_head z) as (c & t & E & Hc). rewrite E, append_cons in *.
  unfold num_char in Hc.
  assert (forall k, (k = 110 \/ k = 116 \/ k = 102 \/ k = 34 \/ k = 91 \/ k = 123) ->
    (nat_of_ascii c =? k) = false) as Hk.
  { intros k Hk. apply Nat.eqb_neq.
    apply orb_true_iff in Hc as [[H1%Nat.leb_le H2%Nat.leb_le]%andb_true_iff|Hc%Nat.eqb_eq]; lia. }
  rewrite !Hk by tauto. by rewrite Hp.
Qed.

(** [obj_set] of a new key appends. *)
Lemma obj_set_fresh (k : string) (v : json) (acc : list (string * json)) :
  k ∉ acc.*1 -> obj_set k v acc = acc ++ [(k, v)].
Proof.
  induction acc as [|[k' w] acc IH]; [done|]. cbn. rewrite not_elem_of_cons. intros [Hne Hk].
  destruct (String.eqb_spec k' k) as [->|]; [done|]. by rewrite IH.
Qed.

(** What parsing back means for one value. *)
Definition parses (v : json) : Prop :=
  wf v -> forall fuel r, cost v <= fuel -> num_ends r ->
    parse_value fuel (stringify v +:+ r) = Some (v, r).

Lemma parse_elems_print (l : list json) :
  l <> [] -> Forall parses l -> foldr (fun v P => wf v /\ P) True l ->
  forall fuel r, cost_elems l <= fuel ->
    parse_elems fuel (print_elems l +:+ "]" +:+ r) = Some (l, r).
Proof.
  intros Hl Hp. induction Hp as [|v l Hv Hp IH]; [done|]. clear Hl.
  intros [Hwv Hwl] fuel r Hf. cbn in Hf. destruct fuel as [|fuel]; [lia|].
  destruct l as [|w l].
  - cbn [parse_elems]. change (print_elems [v]) with (stringify v). rewrite Hv by (done || lia).
    reflexivity.
  - unfold print_elems in *. cbn [List.map] in *. rewrite join_cons, !append_assoc.
    cbn [parse_elems]. rewrite Hv by (done || lia).
    rewrite append_cons, append_nil_l. cbn [skip_ws].
    change (nat_of_ascii ",") with 44. cbn.
    rewrite IH by (done || (unfold cost_elems; lia)). done.
Qed.

Lemma parse_field_print (f : string * json) (r : string) (fuel : nat) (acc : list (string * json)) :
  parses f.2 -> wf f.2 -> cost f.2 <= fuel -> num_ends r ->
  parse_fields (S fuel) acc (print_field f +:+ r) =
  match skip_ws r with
  | String d r' =>
      if nat_of_ascii d =? 125 then Some (obj_set f.1 f.2 acc, r')
      else if nat_of_ascii d =? 44 then parse_fields fuel (obj_set f.1 f.2 acc) r'
      else None
  | EmptyString => None
  end.
Proof.
  intros Hp Hw Hc Hr. unfold print_field, quoted. rewrite !append_assoc.
  cbn [parse_fields]. unfold dquote at 1. rewrite append_cons, append_nil_l.
  cbn [skip_ws]. change (nat_of_ascii (ascii_of_nat 34)) with 34. cbn -[parse_chars String.append].
  rewrite parse_chars_escape. rewrite append_cons, append_nil_l.
  cbn [skip_ws]. change (nat_of_ascii ":") with 58. cbn -[parse_value String.append skip_ws].
  by rewrite Hp.
Qed.

Lemma parse_fields_print (l : list (string * json)) :
  l <> [] -> Forall (fun f => parses f.2) l -> foldr (fun f P => wf f.2 /\ P) True l ->
  forall acc fuel r, cost_fields l <= fuel -> NoDup (acc.*1 ++ l.*1) ->
    parse_fields fuel acc (print_fields l +:+ "}" +:+ r) = Some (acc ++ l, r).
Proof.
  intros Hl Hp. induction Hp as [|f l Hv Hp IH]; [done|]. clear Hl.
  intros [Hwv Hwl] acc fuel r Hf Hnd. cbn in Hf. destruct fuel as [|fuel]; [lia|].
  assert (f.1 ∉ acc.*1) as Hfresh.
  { rewrite fmap_cons in Hnd. apply NoDup_app in Hnd as (_ & Hd & _).
    intros Hin. by apply (Hd _ Hin), list_elem_of_here. }
  destruct f as [k v]. cbn [fst snd] in *.
  destruct l as [|w l].
  - unfold print_fields. cbn [List.map join].
    rewrite (parse_field_print (k, v)) by (done || (cbn; lia)). cbn. by rewrite obj_set_fresh.
  - unfold print_fields in *. cbn [List.map] in *. rewrite join_cons, !append_assoc.
    rewrite (parse_field_print (k, v)) by (done || (cbn; lia)).
    rewrite append_cons, append_nil_l. cbn [skip_ws]. change (nat_of_ascii ",") with 44.
    cbn [Nat.eqb orb fst snd]. rewrite obj_set_fresh by done.
    rewrite IH; [by rewrite <-app_assoc|done|done|unfold cost_fields; cbn in *; lia|].
    rewrite fmap_app, <-app_assoc. done.
Qed.

Lemma parses_all (v : json) : parses v.
Proof.
  induction v as [|b|z|s|l Hl|l Hl] using json_induction; intros Hw fuel r Hf Hr;
    (destruct fuel as [|fuel]; [cbn in Hf; lia|]).
  - done.
  - by destruct b.
  - by apply parse_value_num.
  - cbn [stringify parse_value]. unfold quoted, dquote at 1.
    rewrite !append_cons, !append_nil_l.
    rewrite append_assoc. cbn [skip_ws]. change (nat_of_ascii (ascii_of_nat 34)) with 34. cbn [Nat.eqb orb].
    by rewrite parse_chars_escape.
  - cbn [stringify]. rewrite !append_assoc, append_cons, append_nil_l. cbn [parse_value skip_ws].
    change (nat_of_ascii "[") with 91. cbn [Nat.eqb orb].
    destruct l as [|v l]; [done|].
    pose proof (parse_elems_print (v :: l) ltac:(done) Hl Hw fuel r) as He.
    unfold print_elems in He. rewrite He by (cbn in *; unfold cost_elems; cbn; lia).
    assert (head_ok (join "," (List.map stringify (v :: l)) +:+ "]" +:+ r)) as Hh.
    { destruct l; cbn [List.map join]; rewrite ?append_assoc; apply stringify_head. }
    rewrite (skip_ws_head _ Hh). destruct Hh as (c & t & -> & _ & Hc & _).
    by rewrite (proj2 (Nat.eqb_neq _ _) Hc).
  - cbn [stringify]. rewrite !append_assoc, append_cons, append_nil_l. cbn [parse_value skip_ws].
    change (nat_of_ascii "{") with 123. cbn [Nat.eqb orb].
    destruct l as [|f l]; [done|]. destruct Hw as [Hnd Hw].
    pose proof (parse_fields_print (f :: l) ltac:(done) Hl Hw [] fuel r) as He.
    unfold print_fields, print_field in He.
    rewrite He by (done || (cbn in *; unfold cost_fields; cbn; lia)).
    destruct l; reflexivity.
Qed.

(** ** Fuel *)

Lemma escape_slen (s : string) : slen s <= slen (escape s).
Proof.
  induction s as [|c s IH]; [done|]. cbn [escape]. rewrite slen_append. cbn.
  assert (1 <= slen (escape_char c)); [|lia]. apply Nat.leb_le. destruct c as [[] [] [] [] [] [] [] []]; reflexivity.
Qed.

Lemma cost_slen (v : json) : cost v <= 2 * slen (stringify v).
Proof.
  induction v as [|b|z|s|l Hl|l Hl] using json_induction; cbn [cost stringify].
  - cbn; lia.
  - destruct b; cbn; lia.
  - destruct (print_num_head z) as (c & t & -> & _). cbn. lia.
  - unfold quoted, dquote. rewrite !slen_append. cbn. lia.
  - rewrite !slen_append. cbn.
    assert (foldr (fun v n => S (cost v + n)) 0 l <= 2 * slen (join "," (List.map stringify l)) + 1); [|lia].
    induction Hl as [|v l Hv Hl IH]; cbn [foldr]; [lia|].
    destruct l as [|w l]; [cbn in *; lia|].
    cbn [List.map] in *. rewrite join_cons, !slen_append. cbn [String.length]. lia.
  - rewrite !slen_append. cbn.
    change (fun f : string * json => quoted (escape f.1) +:+ ":" +:+ stringify f.2) with print_field.
    assert (foldr (fun f n => S (cost f.2 + n)) 0 l <= 2 * slen (join "," (List.map print_field l)) + 1); [|lia].
    induction Hl as [|f l Hv Hl IH]; cbn [foldr]; [lia|].
    assert (cost f.2 + 6 <= 2 * slen (print_field f)).
    { unfold print_field, quoted, dquote. rewrite !slen_append. cbn. lia. }
    destruct l as [|w l]; [cbn in *; lia|].
    cbn [List.map] in *. rewrite join_cons, !slen_append. cbn [String.length]. lia.
Qed.

(** [JSON.parse(JSON.stringify(v))] is [v] for every value whose objects
    have distinct keys: what the client writes to local storage or into a log
    record is what it reads back. *)
Lemma parse_stringify (v : json) (Hv : wf v) : parse (stringify v) = Some v.
Proof.
  unfold parse.
  pose proof (parses_all v Hv (2 * slen (stringify v) + 2) "") as H.
  rewrite append_nil_r in H. rewrite H; [done| |done]. pose proof (cost_slen v). lia.
Qed.

Lemma parse_stringify_witness :
  parse (stringify (JObj [("username", JStr ("a" +:+ dquote)); ("ids", JArr [JNum (-3); JNull])])) =
  Some (JObj [("username", JStr ("a" +:+ dquote)); ("ids", JArr [JNum (-3); JNull])]).
Proof.
  apply parse_stringify. split; [|done]. cbn.
  apply NoDup_cons_2; [|apply NoDup_singleton]. by rewrite list_elem_of_singleton.
Defined.

(** [v.key], [None] for [undefined]; the value is not [null]. *)
Definition field (key : string) (v : json) : option json :=
  match v with
  | JObj l => match list_find (fun f => f.1 = key) l with Some (_, f) => Some f.2 | None => None end
  | _ => None
  end.
