(* ===== verification/Auth.v ===== *)
(** The session (frontend/src/hooks/useAuth.tsx): the state of [AuthProvider],
    its copy in local storage, and the handlers that sign in and out. *)
From S2P Require Import Prelude Async Json Proto.

(** [user] is [JNull] for [null]; a value read from local storage has whatever
    shape was stored. *)
Record ServerInfo := mkServerInfo {
  version : string;
  commit : string;
  buildDate : string
}.

Record User := mkUser { username : string; role : string }.

(** The object [{ username, role }]. *)
Definition user_json (u : User) : json :=
  JObj [("username", JStr (username u)); ("role", JStr (role u))].

Record State := mkState {
  user : json;
  isAuthenticated : bool;
  isLoading : bool;
  needsSetup : bool;
  passkeyLoginEnabled : bool;
  serverInfo : option ServerInfo;
  localStorage : gmap string string
}.

Definition setUser (u : json) (s : State) : State :=
  mkState u (isAuthenticated s) (isLoading s) (needsSetup s) (passkeyLoginEnabled s)
    (serverInfo s) (localStorage s).
Definition setIsAuthenticated (b : bool) (s : State) : State :=
  mkState (user s) b (isLoading s) (needsSetup s) (passkeyLoginEnabled s)
    (serverInfo s) (localStorage s).
Definition setIsLoading (b : bool) (s : State) : State :=
  mkState (user s) (isAuthenticated s) b (needsSetup s) (passkeyLoginEnabled s)
    (serverInfo s) (localStorage s).
Definition setNeedsSetup (b : bool) (s : State) : State :=
  mkState (user s) (isAuthenticated s) (isLoading s) b (passkeyLoginEnabled s)
    (serverInfo s) (localStorage s).
Definition setPasskeyLoginEnabled (b : bool) (s : State) : State :=
  mkState (user s) (isAuthenticated s) (isLoading s) (needsSetup s) b
    (serverInfo s) (localStorage s).
Definition setServerInfo (i : ServerInfo) (s : State) : State :=
  mkState (user s) (isAuthenticated s) (isLoading s) (needsSetup s) (passkeyLoginEnabled s)
    (Some i) (localStorage s).
Definition setItem (key value : string) (s : State) : State :=
  mkState (user s) (isAuthenticated s) (isLoading s) (needsSetup s) (passkeyLoginEnabled s)
    (serverInfo s) (<[key := value]> (localStorage s)).
Definition removeItem (key : string) (s : State) : State :=
  mkState (user s) (isAuthenticated s) (isLoading s) (needsSetup s) (passkeyLoginEnabled s)
    (serverInfo s) (delete key (localStorage s)).

(** [localStorage.getItem(key)] tested for truth: [null] and the empty text are false. *)
Definition stored (key : string) (storage : gmap string string) : option string :=
  match storage !! key with
  | Some v => if truthy v then Some v else None
  | None => None
  end.

(** The initialisers of [user] and [isAuthenticated]. *)
Definition initial_user (storage : gmap string string) : option json :=
  match stored "dmanager_user" storage with
  | Some v => parse v
  | None => Some JNull
  end.
Definition initial_isAuthenticated (storage : gmap string string) : bool :=
  bool_decide (is_Some (stored "dmanager_token" storage)).

(** The first render; [None] when [JSON.parse] throws in it. *)
Definition initial (storage : gmap string string) : option State :=
  u ← initial_user storage;
  Some (mkState u (initial_isAuthenticated storage) true false false None storage).

(** ** Requests *)

(** [WebauthnGet] is the browser's credential prompt. *)
Inductive Req :=
| GetServerStatus
| GetMe
| Login (request : LoginRequest)
| BeginPasskeyLogin
| WebauthnGet (publicKey : json)
| FinishPasskeyLogin (request : FinishPasskeyLoginRequest)
| SetupAdmin (request : SetupAdminRequest)
| Logout.

Definition Resp (r : Req) : Type :=
  match r with
  | GetServerStatus => GetServerStatusResponse
  | GetMe => GetMeResponse
  | Login _ => LoginResponse
  | BeginPasskeyLogin => BeginPasskeyLoginResponse
  | WebauthnGet _ => json
  | FinishPasskeyLogin _ => LoginResponse
  | SetupAdmin _ => SetupAdminResponse
  | Logout => unit
  end.

Abbreviation handler := (async State Req Resp unit).

Local Open Scope async_scope.

(** ** Blocks the handlers share *)

(** [setUser(u); setIsAuthenticated(true)] *)
Definition set_session (u : User) : handler :=
  modify (setUser (user_json u)) ;;;
  modify (setIsAuthenticated true).

(** The two [localStorage.setItem] calls. *)
Definition store_session (u : User) : handler :=
  modify (setItem "dmanager_user" (stringify (user_json u))) ;;;
  modify (setItem "dmanager_token" "session_active").

(** [setUser(null); setIsAuthenticated(false)] and the two [removeItem] calls. *)
Definition drop_session : handler :=
  modify (setUser JNull) ;;;
  modify (setIsAuthenticated false) ;;;
  modify (removeItem "dmanager_user") ;;;
  modify (removeItem "dmanager_token").

(** The [try] block around [getServerStatus]; the error is logged. *)
Definition read_server_status : handler :=
  try
    (status <- rpc (Resp := Resp) GetServerStatus ;;
     modify (setNeedsSetup (GetServerStatusResponse_needsSetup status)) ;;;
     modify (setPasskeyLoginEnabled (GetServerStatusResponse_passkeyLoginEnabled status)) ;;;
     modify (setServerInfo (mkServerInfo (GetServerStatusResponse_version status)
       (GetServerStatusResponse_commit status) (GetServerStatusResponse_buildDate status))))
  catch (fun statusErr => Ret tt).

(** [error.message] when [error instanceof Error] *)
Definition errorMessage (e : thrown) : option string :=
  match e with
  | ConnectErr _ _ m => Some m
  | JsError m => Some m
  | OtherThrown _ => None
  end.

Definition isUnauthenticated (e : thrown) : bool :=
  match e with
  | ConnectErr code _ _ => Z.eqb code Unauthenticated
  | _ => false
  end.

Definition messageIncludesUnauthenticated (e : thrown) : bool :=
  match errorMessage e with
  | Some m => includes "unauthenticated" (toLowerCase m)
  | None => false
  end.

(** ** Handlers *)

Definition checkAuth : handler :=
  try
    (try
      (read_server_status ;;;
       response <- rpc (Resp := Resp) GetMe ;;
       (if truthy (GetMeResponse_username response) then
          let loggedUser := mkUser (GetMeResponse_username response) (GetMeResponse_role response) in
          set_session loggedUser ;;; store_session loggedUser
        else Ret tt) ;;;
       modify (setNeedsSetup false))
    catch (fun error =>
      if isUnauthenticated error || messageIncludesUnauthenticated error then drop_session
      else Ret tt))
  finally (modify (setIsLoading false)).

(** [setIsLoading(true)], then the body; a thrown error drops the session and
    is thrown again. *)
Definition sign_in (body : handler) : handler :=
  modify (setIsLoading true) ;;;
  try
    (try body catch (fun error => drop_session ;;; throw error))
  finally (modify (setIsLoading false)).

Definition logged_user (response : LoginResponse) : User :=
  mkUser (LoginResponse_username response) (LoginResponse_role response).

Definition login (username password : string) (rememberMe : bool) : handler :=
  sign_in
    (response <- rpc (Resp := Resp) (Login (mkLoginRequest username password rememberMe)) ;;
     set_session (logged_user response) ;;;
     modify (setNeedsSetup false) ;;;
     store_session (logged_user response)).

(** [syntaxError s] is the message of the error [JSON.parse(s)] throws. *)
Definition loginWithPasskey (syntaxError : string -> string) (rememberMe : bool) : handler :=
  sign_in
    (beginResp <- rpc (Resp := Resp) BeginPasskeyLogin ;;
     options <- match parse (BeginPasskeyLoginResponse_optionsJson beginResp) with
                | Some options => Ret options
                | None => throw (JsError (syntaxError (BeginPasskeyLoginResponse_optionsJson beginResp)))
                end ;;
     credential <- rpc (Resp := Resp) (WebauthnGet options) ;;
     response <- rpc (Resp := Resp)
       (FinishPasskeyLogin (mkFinishPasskeyLoginRequest (stringify credential) rememberMe)) ;;
     set_session (logged_user response) ;;;
     modify (setNeedsSetup false) ;;;
     store_session (logged_user response)).

Definition setupAdmin (username password : string) : handler :=
  sign_in
    (rpc (Resp := Resp) (SetupAdmin (mkSetupAdminRequest username password)) ;;;
     modify (setNeedsSetup false) ;;;
     response <- rpc (Resp := Resp) (Login (mkLoginRequest username password false)) ;;
     set_session (logged_user response) ;;;
     store_session (logged_user response)).

Definition logout : handler :=
  modify (setIsLoading true) ;;;
  try
    (try (rpc (Resp := Resp) Logout ;;; Ret tt) catch (fun error => Ret tt))
  finally
    (drop_session ;;;
     read_server_status ;;;
     modify (setIsLoading false)).

(** The value the provider's context carries. *)
Record AuthContextType := mkAuthContextType {
  ctx_user : json;
  ctx_isAuthenticated : bool;
  ctx_isLoading : bool;
  ctx_needsSetup : bool;
  ctx_passkeyLoginEnabled : bool;
  ctx_serverInfo : option ServerInfo
}.

Definition useAuth (s : State) : AuthContextType :=
  mkAuthContextType (user s) (isAuthenticated s) (isLoading s) (needsSetup s)
    (passkeyLoginEnabled s) (serverInfo s).

(** The handlers an event may start: the effect of the first render and the
    functions of the context. *)
Inductive starts (syntaxError : string -> string) : handler -> Prop :=
| starts_checkAuth : starts syntaxError checkAuth
| starts_login u p r : starts syntaxError (login u p r)
| starts_loginWithPasskey r : starts syntaxError (loginWithPasskey syntaxError r)
| starts_setupAdmin u p : starts syntaxError (setupAdmin u p)
| starts_logout : starts syntaxError logout.

(** The handlers that sign in. *)
Inductive signs_in (syntaxError : string -> string) : handler -> Prop :=
| signs_in_login u p r : signs_in syntaxError (login u p r)
| signs_in_passkey r : signs_in syntaxError (loginWithPasskey syntaxError r)
| signs_in_setup u p : signs_in syntaxError (setupAdmin u p).

(** ** Lemmas *)

(** A page load that found this storage would show this session. *)
Definition coherent (s : State) : Prop :=
  initial_user (localStorage s) = Some (user s) /\
  initial_isAuthenticated (localStorage s) = isAuthenticated s.

Definition signed_in (u : User) (s : State) : Prop :=
  user s = user_json u /\ isAuthenticated s = true /\ coherent s.

Definition signed_out (s : State) : Prop :=
  user s = JNull /\ isAuthenticated s = false /\ coherent s.

Lemma user_json_wf (u : User) : wf (user_json u).
Proof.
  split; [|done]. cbn. apply NoDup_cons_2; [|apply NoDup_singleton].
  by rewrite list_elem_of_singleton.
Qed.

Lemma stringify_truthy (v : json) : truthy (stringify v) = true.
Proof.
  destruct (stringify_head v "") as (c & t & E & _). rewrite append_nil_r in E. by rewrite E.
Qed.

Lemma stored_insert_eq key v storage : truthy v = true -> stored key (<[key := v]> storage) = Some v.
Proof. intros Hv. unfold stored. by rewrite lookup_insert_eq, Hv. Qed.
Lemma stored_insert_ne key key' v storage :
  key <> key' -> stored key (<[key' := v]> storage) = stored key storage.
Proof. intros Hne. unfold stored. by rewrite lookup_insert_ne. Qed.
Lemma stored_delete_eq key storage : stored key (delete key storage) = None.
Proof. unfold stored. by rewrite lookup_delete_eq. Qed.
Lemma stored_delete_ne key key' storage :
  key <> key' -> stored key (delete key' storage) = stored key storage.
Proof. intros Hne. unfold stored. by rewrite lookup_delete_ne. Qed.

(** What the two blocks leave in storage is what they leave in the state. *)
Lemma stored_session (u : User) (storage : gmap string string) :
  let st := <["dmanager_token"%string := "session_active"%string]>
              (<["dmanager_user"%string := stringify (user_json u)]> storage) in
  initial_user st = Some (user_json u) /\ initial_isAuthenticated st = true.
Proof.
  intros st. unfold initial_user, initial_isAuthenticated. subst st.
  rewrite stored_insert_ne, stored_insert_eq by (done || apply stringify_truthy).
  rewrite parse_stringify by apply user_json_wf. split; [done|].
  rewrite stored_insert_eq by done. done.
Qed.

Lemma dropped_session (storage : gmap string string) :
  let st := delete "dmanager_token"%string (delete "dmanager_user"%string storage) in
  initial_user st = Some JNull /\ initial_isAuthenticated st = false.
Proof.
  intros st. unfold initial_user, initial_isAuthenticated. subst st.
  rewrite stored_delete_ne, stored_delete_eq by done. split; [done|].
  by rewrite stored_delete_eq.
Qed.

(** The closing states of the two blocks, whatever else was set. *)
Lemma signed_in_intro (u : User) (s : State) storage :
  user s = user_json u -> isAuthenticated s = true ->
  localStorage s = <["dmanager_token"%string := "session_active"%string]>
    (<["dmanager_user"%string := stringify (user_json u)]> storage) ->
  signed_in u s.
Proof.
  intros Hu Ha Hs. unfold signed_in, coherent. rewrite Hu, Ha, Hs.
  split_and!; [done..| |]; apply stored_session.
Qed.

Lemma signed_out_intro (s : State) storage :
  user s = JNull -> isAuthenticated s = false ->
  localStorage s = delete "dmanager_token"%string (delete "dmanager_user"%string storage) ->
  signed_out s.
Proof.
  intros Hu Ha Hs. unfold signed_out, coherent. rewrite Hu, Ha, Hs.
  split_and!; [done..| |]; apply dropped_session.
Qed.

Lemma signed_in_coherent u s : signed_in u s -> coherent s.
Proof. by intros (_ & _ & ?). Qed.
Lemma signed_out_coherent s : signed_out s -> coherent s.
Proof. by intros (_ & _ & ?). Qed.

Create HintDb auth.
#[export] Hint Extern 1 (signed_in _ _) => (eapply signed_in_intro; reflexivity) : auth.
#[export] Hint Extern 1 (signed_out _) => (eapply signed_out_intro; reflexivity) : auth.
#[export] Hint Resolve signed_in_coherent signed_out_coherent : auth.

(** One handler, at every answer of its requests. *)
Ltac run_handler :=
  repeat match goal with
  | |- guarantees _ _ _ _ => progress cbn
  | |- _ /\ forall _, _ => split; [try done|]
  | |- forall (_ : _ + thrown), _ => intros [?|?]
  | |- forall _ : State, _ => intros ?
  | |- _ -> _ => intros ?
  | |- context [if ?b then _ else _] => destruct b eqn:?
  | |- context [match parse ?x with _ => _ end] => destruct (parse x) eqn:?
  end.

(** What the server, and the authenticator, answer to an attempt to sign in: the response
    of the last request, or the first error on the way. *)
Definition password_granted (answer : forall r, Resp r + thrown) (u p : string) (remember : bool) : LoginResponse + thrown :=
  answer (Login (mkLoginRequest u p remember)).

Definition setup_granted (answer : forall r, Resp r + thrown) (u p : string) : LoginResponse + thrown :=
  match answer (SetupAdmin (mkSetupAdminRequest u p)) with
  | inl _ => answer (Login (mkLoginRequest u p false))
  | inr e => inr e
  end.

Definition passkey_granted (syntaxError : string -> string) (answer : forall r, Resp r + thrown) (remember : bool) :
    LoginResponse + thrown :=
  match answer BeginPasskeyLogin with
  | inr e => inr e
  | inl begun =>
      match parse (BeginPasskeyLoginResponse_optionsJson begun) with
      | None => inr (JsError (syntaxError (BeginPasskeyLoginResponse_optionsJson begun)))
      | Some options =>
          match answer (WebauthnGet options) with
          | inr e => inr e
          | inl credential => answer (FinishPasskeyLogin (mkFinishPasskeyLoginRequest (stringify credential) remember))
          end
      end
  end.

(** How an attempt leaves the session, given what was answered. *)
Definition session_of (granted : LoginResponse + thrown) (c : State * (unit + thrown)) : Prop :=
  isLoading c.1 = false /\
  match granted with
  | inl response =>
      let signed := JObj [("username", JStr (LoginResponse_username response)); ("role", JStr (LoginResponse_role response))]%string in
      c.2 = inl tt /\ user c.1 = signed /\ isAuthenticated c.1 = true /\
      localStorage c.1 !! "dmanager_user"%string = Some (stringify signed) /\
      localStorage c.1 !! "dmanager_token"%string = Some "session_active"%string
  | inr e =>
      c.2 = inr e /\ user c.1 = JNull /\ isAuthenticated c.1 = false /\
      localStorage c.1 !! "dmanager_user"%string = None /\ localStorage c.1 !! "dmanager_token"%string = None
  end.

(** C35: Each way of signing in (by password, by the first setup, which signs in with the
    account it has made, and by passkey) ends on every answer and whatever other handlers
    do to the session between its requests: if the server grants it, normally, with the
    user name and the role of the server's response signed in and stored; and if a step
    fails (a refusal, options that are no JSON, a prompt that is dismissed), by throwing
    that very error, with nobody signed in or stored.  Either way the loading mark is
    gone. *)
Theorem sign_in_spec (syntaxError : string -> string) (answer : forall r, Resp r + thrown)
    (meanwhile : Req -> State -> State) (s : State) :
  (forall u p remember, session_of (password_granted answer u p remember)
     (run_among meanwhile answer (login u p remember) s)) /\
  (forall u p, session_of (setup_granted answer u p) (run_among meanwhile answer (setupAdmin u p) s)) /\
  (forall remember, session_of (passkey_granted syntaxError answer remember)
     (run_among meanwhile answer (loginWithPasskey syntaxError remember) s)).
Proof.
  assert (forall storage : gmap string string, delete "dmanager_token"%string (delete "dmanager_user"%string storage) !! "dmanager_user"%string
    = (None : option string)) as Hd.
  { intros storage. by rewrite lookup_delete_ne, lookup_delete_eq. }
  assert (forall (storage : gmap string string) v, <["dmanager_token"%string := "session_active"%string]>
    (<["dmanager_user"%string := v]> storage) !! "dmanager_user"%string = (Some v : option string)) as Hi.
  { intros storage v. by rewrite lookup_insert_ne, lookup_insert_eq. }
  unfold session_of. split_and!; intros.
  - unfold password_granted. cbn. destruct (answer (Login _)) as [[u' r']|e]; cbn;
      by rewrite ?Hd, ?Hi, ?lookup_delete_eq, ?lookup_insert_eq.
  - unfold setup_granted. cbn. destruct (answer (SetupAdmin _)) as [created|e]; cbn;
      [destruct (answer (Login _)) as [[u' r']|e]; cbn|]; by rewrite ?Hd, ?Hi, ?lookup_delete_eq, ?lookup_insert_eq.
  - unfold passkey_granted. cbn. destruct (answer BeginPasskeyLogin) as [b|e]; cbn;
      [destruct (parse _) as [options|]; cbn; [destruct (answer (WebauthnGet options)) as [cr|e]; cbn;
        [destruct (answer (FinishPasskeyLogin _)) as [[u' r']|e]; cbn|]|]|];
      by rewrite ?Hd, ?Hi, ?lookup_delete_eq, ?lookup_insert_eq.
Qed.

Lemma starts_keeps_coherent (syntaxError : string -> string) (m : handler) :
  starts syntaxError m -> keeps coherent m.
Proof.
  intros Hm s Hs. destruct Hm; run_handler; eauto with auth.
Qed.

(** C11: After any interleaving of the page-load check, sign-ins and sign-outs,
    a reload of the page shows the same user and the same signed-in mark, and
    does not throw. *)
Theorem session_survives_reload (syntaxError : string -> string)
    (storage : gmap string string) (s0 s : State)
    (H0 : initial storage = Some s0) (Hs : pool_reaches (starts syntaxError) s0 s) :
  exists s1, initial (localStorage s) = Some s1 /\
    user s1 = user s /\ isAuthenticated s1 = isAuthenticated s.
Proof.
  assert (coherent s) as [Hu Ha].
  { eapply pool_invariant; [apply starts_keeps_coherent| |done].
    unfold initial in H0. destruct (initial_user storage) as [u|] eqn:Hu; simplify_eq/=.
    by split. }
  unfold initial. rewrite Hu, Ha. cbn. eauto.
Qed.

Lemma session_survives_reload_witness :
  let s := (run (Resp := Resp)
      (fun r => match r return Resp r + thrown with
                | Login _ => inl (mkLoginResponse "ada" "admin") | _ => inr (JsError "down") end)
      (login "ada" "pw" true) (mkState JNull false true false false None ∅)).1 in
  exists s1, initial (localStorage s) = Some s1 /\ user s1 = user_json (mkUser "ada" "admin") /\ isAuthenticated s1 = true.
Proof.
  intros s.
  apply (session_survives_reload (fun s => s) ∅ (mkState JNull false true false false None ∅) s);
    [reflexivity|].
  apply run_reaches. constructor.
Defined.

(** A browser whose storage only this application writes: it starts with none of
    the two keys, and pages are loaded, used and loaded again. *)
Inductive browser (syntaxError : string -> string) : State -> Prop :=
| browser_first storage s :
    storage !! "dmanager_user" = None -> storage !! "dmanager_token" = None ->
    initial storage = Some s -> browser syntaxError s
| browser_used s s' :
    browser syntaxError s -> pool_reaches (starts syntaxError) s s' -> browser syntaxError s'
| browser_reloaded s s' :
    browser syntaxError s -> initial (localStorage s) = Some s' -> browser syntaxError s'.

Definition session_ok (s : State) : Prop := (exists u, signed_in u s) \/ signed_out s.

Lemma session_ok_coherent s : session_ok s -> coherent s.
Proof. intros [[u Hu]|Ho]; eauto with auth. Qed.

(** A step that leaves the session and its storage alone. *)
Lemma session_ok_same s s' :
  user s' = user s -> isAuthenticated s' = isAuthenticated s -> localStorage s' = localStorage s ->
  session_ok s -> session_ok s'.
Proof.
  unfold session_ok, signed_in, signed_out, coherent. by intros -> -> ->.
Qed.

Lemma starts_keeps_session (syntaxError : string -> string) (m : handler) :
  starts syntaxError m -> keeps session_ok m.
Proof.
  intros Hm s Hs. destruct Hm; run_handler;
    first [ assumption | by (eapply session_ok_same; [..|eassumption])
          | right; solve [auto with auth] | left; eexists; solve [auto with auth] ].
Qed.

(** The stored session is well formed: in a browser whose storage only the
    application writes, through any number of page loads and any interleaving of
    checks, sign-ins and sign-outs in each, the session is either signed in, with
    a user of a name and a role, or signed out, with no user; the storage says the
    same; and the next page load does not throw. *)
Theorem session_well_formed (syntaxError : string -> string) (s : State) (H : browser syntaxError s) :
  ((exists u, signed_in u s) \/ signed_out s) /\
  exists s', initial (localStorage s) = Some s' /\ user s' = user s /\ isAuthenticated s' = isAuthenticated s.
Proof.
  assert (session_ok s) as Hok.
  { induction H as [st s Hu Ht Hi|s s' _ IH Hs|s s' _ IH Hi].
    - right. unfold signed_out, coherent. revert Hi.
      unfold initial, initial_user, initial_isAuthenticated, stored. rewrite Hu, Ht. intros [= <-]. cbn.
      rewrite Hu, Ht. done.
    - eapply pool_invariant; [apply starts_keeps_session|exact IH|exact Hs].
    - destruct (session_ok_coherent _ IH) as [H1 H2]. unfold initial in Hi. rewrite H1, H2 in Hi.
      injection Hi as <-. by eapply session_ok_same; [..|exact IH]. }
  split; [exact Hok|]. destruct (session_ok_coherent _ Hok) as [H1 H2].
  unfold initial. rewrite H1, H2. cbn. eauto.
Qed.

Lemma session_well_formed_witness :
  let s0 := mkState JNull false true false false None ∅ in
  let s := (run (Resp := Resp)
      (fun r => match r return Resp r + thrown with
                | Login _ => inl (mkLoginResponse "ada" "admin") | _ => inr (JsError "down") end)
      (login "ada" "pw" true) s0).1 in
  user s = user_json (mkUser "ada" "admin") /\ ((exists u, signed_in u s) \/ signed_out s).
Proof.
  intros s0 s. split; [reflexivity|]. apply (session_well_formed (fun s => s)).
  apply (browser_used _ s0); [by apply (browser_first _ ∅)|]. apply run_reaches. constructor.
Defined.

(** The page-load check never throws and always clears the loading mark; it
    signs out on exactly the errors that mean "unauthenticated", and any other
    failure of the profile request, or of the status request, leaves the
    session as it was. *)
Theorem checkAuth_spec (s : State) :
  exists k0, exec checkAuth s = (s, Blocked GetServerStatus k0) /\
  forall status s1, exists k1 s1', exec (k0 status) s1 = (s1', Blocked GetMe k1) /\
    user s1' = user s1 /\ isAuthenticated s1' = isAuthenticated s1 /\
    localStorage s1' = localStorage s1 /\
    forall answer s2, exists s3, exec (k1 answer) s2 = (s3, Done tt) /\ isLoading s3 = false /\
      match answer with
      | inl me =>
          needsSetup s3 = false /\
          if truthy (GetMeResponse_username me)
          then signed_in (mkUser (GetMeResponse_username me) (GetMeResponse_role me)) s3
          else (user s3, isAuthenticated s3, localStorage s3) =
               (user s2, isAuthenticated s2, localStorage s2)
      | inr e =>
          needsSetup s3 = needsSetup s2 /\
          if isUnauthenticated e || messageIncludesUnauthenticated e then signed_out s3
          else (user s3, isAuthenticated s3, localStorage s3) =
               (user s2, isAuthenticated s2, localStorage s2)
      end.
Proof.
  eexists. split; [reflexivity|]. intros [status|err] s1.
  all: do 2 eexists; (split; [reflexivity|]); do 3 (split; [reflexivity|]); intros [me|e] s2; cbn.
  all: try (destruct (truthy (GetMeResponse_username me))).
  all: try (destruct (_ || _)).
  all: eexists; split; [reflexivity|]; cbn; auto with auth.
Qed.

(** Signing out cannot fail: whatever the server answers, or does not, the
    session is gone from the state and from local storage as soon as the
    request settles, before the server status is read again. *)
Theorem logout_spec (s : State) :
  exists k0, exec logout s = (setIsLoading true s, Blocked Logout k0) /\
  forall answer s1, exists k1 s1', exec (k0 answer) s1 = (s1', Blocked GetServerStatus k1) /\
    signed_out s1' /\
    forall status s2, exists s3, exec (k1 status) s2 = (s3, Done tt) /\ isLoading s3 = false /\
      (signed_out s2 -> signed_out s3) /\
      (forall st, status = inl st -> needsSetup s3 = GetServerStatusResponse_needsSetup st).
Proof.
  eexists. split; [reflexivity|]. intros [[]|e] s1.
  all: do 2 eexists; split; [reflexivity|]; split; [auto with auth|].
  all: intros [st|e'] s2; (eexists; split; [reflexivity|]; split; [reflexivity|]; cbn).
  all: split; [done|]; intros; simplify_eq; done.
Qed.

(** The first setup asks for the account, then signs in with the same
    credentials: the need for a setup is gone once the account exists, even
    when the sign-in that follows fails, and stands when the account is
    refused. *)
Theorem setupAdmin_spec (u p : string) (s : State) :
  exists k0, exec (setupAdmin u p) s =
    (setIsLoading true s, Blocked (SetupAdmin (mkSetupAdminRequest u p)) k0) /\
  (forall e s1, exists s2, exec (k0 (inr e)) s1 = (s2, Failed e) /\
     signed_out s2 /\ needsSetup s2 = needsSetup s1) /\
  (forall created s1, exists k1, exec (k0 (inl created)) s1 =
     (setNeedsSetup false s1, Blocked (Login (mkLoginRequest u p false)) k1) /\
     forall answer s2, exists s3 o, exec (k1 answer) s2 = (s3, o) /\ needsSetup s3 = needsSetup s2 /\
       match answer with
       | inl response => o = Done tt /\ signed_in (logged_user response) s3
       | inr e => o = Failed e /\ signed_out s3
       end).
Proof.
  eexists. split; [reflexivity|]. split.
  - intros e s1. eexists. split; [reflexivity|]. split; [auto with auth|done].
  - intros created s1. eexists. split; [reflexivity|].
    intros [response|e] s2; do 2 eexists; (split; [reflexivity|]); split; auto with auth.
Qed.

(** Without interleaving, a passkey sign-in sends the prompt's answer to the
    options the server began with, and whatever goes wrong on the way (the
    prompt refused, options that are no JSON, a refused credential) is thrown
    to the caller with nobody signed in. *)
Theorem loginWithPasskey_spec (syntaxError : string -> string) (r : bool) (s : State)
    (answer : forall q, Resp q + thrown) :
  let finish c := FinishPasskeyLogin (mkFinishPasskeyLoginRequest (stringify c) r) in
  let expected : LoginResponse + thrown :=
    match answer BeginPasskeyLogin with
    | inr e => inr e
    | inl b =>
        match parse (BeginPasskeyLoginResponse_optionsJson b) with
        | None => inr (JsError (syntaxError (BeginPasskeyLoginResponse_optionsJson b)))
        | Some options =>
            match answer (WebauthnGet options) with
            | inr e => inr e
            | inl c => answer (finish c)
            end
        end
    end in
  let s' := (run answer (loginWithPasskey syntaxError r) s).1 in
  (run answer (loginWithPasskey syntaxError r) s).2 =
    match expected with inl _ => inl tt | inr e => inr e end /\
  match expected with
  | inl response => signed_in (logged_user response) s' /\ needsSetup s' = false
  | inr _ => signed_out s' /\ needsSetup s' = needsSetup s
  end.
Proof.
  cbn. destruct (answer BeginPasskeyLogin) as [b|e]; cbn; [|auto with auth].
  destruct (parse _) as [options|]; cbn; [|auto with auth].
  destruct (answer (WebauthnGet options)) as [c|e]; cbn; [|auto with auth].
  destruct (answer (FinishPasskeyLogin _)) as [response|e]; cbn; auto with auth.
Qed.
