(* ===== verification/Router.v ===== *)
(** Route guards (frontend/src/routes/router.tsx) and the effect that re-runs
    them when the session changes (frontend/src/App.tsx), after the page has been
    rendered and asynchronously. *)
From S2P Require Import Prelude Async Json Proto Auth.

(** A matched route of the tree with its parameters. *)
Inductive route :=
| dashboardRoute
| loginRoute
| setupRoute
| logsRoute
| auditLogsRoute
| administrationIndexRoute
| administrationTabRoute (tab : string)
| settingsIndexRoute
| settingsTabRoute (tab : string).

#[global] Instance route_eq_dec : EqDecision route.
Proof. solve_decision. Defined.

(** The path of a location. *)
Definition path (r : route) : string :=
  match r with
  | dashboardRoute => "/"
  | loginRoute => "/login"
  | setupRoute => "/setup"
  | logsRoute => "/logs"
  | auditLogsRoute => "/audit-logs"
  | administrationIndexRoute => "/administration"
  | administrationTabRoute tab => "/administration/" +:+ tab
  | settingsIndexRoute => "/settings"
  | settingsTabRoute tab => "/settings/" +:+ tab
  end.

(** The part of the context the guards read. *)
Record RouterContext := mkRouterContext {
  auth_isAuthenticated : bool;
  auth_needsSetup : bool;
  auth_user : json
}.

(** [user?.role === "admin"] *)
Definition is_admin (user : json) : bool :=
  match field "role" user with Some (JStr r) => String.eqb r "admin" | _ => false end.

(** The guard most pages share. *)
Definition require_session (c : RouterContext) (k : option route) : option route :=
  if auth_needsSetup c then Some setupRoute
  else if negb (auth_isAuthenticated c) then Some loginRoute
  else k.

(** [beforeLoad]: [Some r] when it throws a redirect to [r]. *)
Definition beforeLoad (c : RouterContext) (r : route) : option route :=
  match r with
  | dashboardRoute => require_session c None
  | loginRoute =>
      if auth_needsSetup c then Some setupRoute
      else if auth_isAuthenticated c then Some dashboardRoute
      else None
  | setupRoute =>
      if negb (auth_needsSetup c) then
        if auth_isAuthenticated c then Some dashboardRoute else Some loginRoute
      else None
  | logsRoute => require_session c None
  | auditLogsRoute =>
      require_session c (if negb (is_admin (auth_user c)) then Some dashboardRoute else None)
  | administrationIndexRoute => require_session c (Some (administrationTabRoute "images"))
  | administrationTabRoute tab =>
      require_session c
        (if negb (String.eqb tab "images") && negb (String.eqb tab "builder") &&
            negb (String.eqb tab "volumes") && negb (String.eqb tab "networks")
         then Some (administrationTabRoute "images") else None)
  | settingsIndexRoute => require_session c (Some (settingsTabRoute "general"))
  | settingsTabRoute tab =>
      require_session c
        (if negb (String.eqb tab "general") && negb (String.eqb tab "security")
         then Some (settingsTabRoute "general") else None)
  end.

(** ** The router

    What the client relies on of the routing library: loading a location runs
    its guard, shows the page when it returns and loads the target of a
    redirect it throws. *)
Class Router := {
  load : RouterContext -> route -> route;
  load_stays c r : beforeLoad c r = None -> load c r = r;
  load_redirects c r r' : beforeLoad c r = Some r' -> load c r = load c r'
}.

(** The pages a session may see. *)
Definition may_see (c : RouterContext) (r : route) : Prop :=
  if auth_needsSetup c then r = setupRoute
  else if auth_isAuthenticated c then
    match r with
    | dashboardRoute | logsRoute => True
    | auditLogsRoute => is_admin (auth_user c) = true
    | administrationTabRoute tab => tab ∈ ["images"; "builder"; "volumes"; "networks"]
    | settingsTabRoute tab => tab ∈ ["general"; "security"]
    | _ => False
    end
  else r = loginRoute.

Lemma tab_test (tab : string) (tabs : list string) :
  foldr (fun t b => negb (String.eqb tab t) && b) true tabs = false <-> tab ∈ tabs.
Proof.
  induction tabs as [|t tabs IH]; cbn; [split; [done|intros H; by apply not_elem_of_nil in H]|].
  rewrite andb_false_iff, IH, negb_false_iff, String.eqb_eq, elem_of_cons. done.
Qed.

(** A guard lets through exactly the pages the session may see. *)
Lemma beforeLoad_None (c : RouterContext) (r : route) : beforeLoad c r = None <-> may_see c r.
Proof.
  assert (forall tab tabs (k : option route), k <> None ->
    ((if foldr (fun t b => negb (String.eqb tab t) && b) true tabs then k else None) = None
     <-> tab ∈ tabs)) as Htab.
  { intros tab tabs k Hk. rewrite <-tab_test. by case_match. }
  destruct c as [[] [] u]; destruct r; unfold may_see; cbn; unfold require_session; cbn; try done.
  - by destruct (is_admin u).
  - rewrite <-(Htab tab _ (Some (administrationTabRoute "images"))) by done. cbn.
    by rewrite andb_true_r, !andb_assoc.
  - rewrite <-(Htab tab _ (Some (settingsTabRoute "general"))) by done. cbn.
    by rewrite andb_true_r.
Qed.

Lemma redirect_target (c : RouterContext) (r r' : route) :
  beforeLoad c r = Some r' -> beforeLoad c r' = None.
Proof.
  destruct c as [a n u], a, n, r; cbn; unfold require_session; cbn; intros;
    repeat case_match; simplify_eq/=; done.
Qed.

Lemma load_settles `{Router} (c : RouterContext) (r : route) :
  load c r = default r (beforeLoad c r) /\ may_see c (load c r).
Proof.
  rewrite <-beforeLoad_None. destruct (beforeLoad c r) as [r'|] eqn:E; cbn.
  - pose proof (redirect_target _ _ _ E) as E'.
    by rewrite (load_redirects _ _ _ E), (load_stays _ _ E').
  - by rewrite (load_stays _ _ E).
Qed.

(** A router that follows the redirects, at most [n] of them. *)
Fixpoint follow (n : nat) (c : RouterContext) (r : route) : route :=
  match n, beforeLoad c r with
  | S n, Some r' => follow n c r'
  | _, _ => r
  end.

#[export] Instance follow_Router : Router.
Proof.
  refine {| load := follow 1 |}.
  - intros c r E. cbn. by rewrite E.
  - intros c r r' E. pose proof (redirect_target _ _ _ E) as E'. cbn. by rewrite E, E'.
Defined.

(** C40: Every navigation ends after at most one redirect, on a page the session
    may see: the setup page alone while a setup is needed, the login page alone
    without a session, and otherwise the pages of the application, the audit
    log for administrators only; a page the session may see is never
    redirected. *)
Theorem navigation_settles `{Router} (c : RouterContext) (r : route) :
  may_see c (load c r) /\ (may_see c r <-> load c r = r) /\
  (forall r', beforeLoad c r = Some r' -> load c r = r' /\ beforeLoad c r' = None).
Proof.
  destruct (load_settles c r) as [E Hm]. split_and!; [done| |].
  - split; [|intros <-; done]. rewrite <-beforeLoad_None. intros E'. by rewrite E, E'.
  - intros r' E'. rewrite E, E'. split; [done|]. by eapply redirect_target.
Qed.

(** ** The application *)

(** [running] is the handler of the session in flight; [deps] are the dependencies the
    effect last ran with.  Of the router: the location it is at or going to, the context
    of the load under way (a later load replaces an earlier one), and the page it shows,
    which stays until a load is done. *)
Record App := mkApp {
  auth : Auth.State;
  running : list (suspended Auth.State Auth.Req Auth.Resp);
  deps : option (bool * string);
  latestLocation : route;
  loading_with : option RouterContext;
  page : option route
}.

(** The context [RouterProvider] was last rendered with. *)
Definition router_context (s : Auth.State) : RouterContext :=
  mkRouterContext (Auth.isAuthenticated s) (Auth.needsSetup s) (Auth.user s).

Definition print_bool (b : bool) : string := if b then "true" else "false".

Definition authStateKey (s : Auth.State) : string :=
  print_bool (Auth.isAuthenticated s) +:+ "|" +:+ print_bool (Auth.needsSetup s).

(** [router.invalidate()]: a load of the location begins. *)
Definition invalidate (a : App) : App :=
  mkApp (auth a) (running a) (deps a) (latestLocation a) (Some (router_context (auth a))) (page a).

(** [AppContent] after a commit: the effect runs when a dependency changed, after the
    page, or the placeholder, has been rendered. *)
Definition commit (a : App) : App :=
  let d := (Auth.isLoading (auth a), authStateKey (auth a)) in
  if bool_decide (deps a = Some d) then a
  else
    let a := mkApp (auth a) (running a) (Some d) (latestLocation a) (loading_with a) (page a) in
    if negb (Auth.isLoading (auth a)) then invalidate a else a.

(** A handler runs to its next request, then React commits. *)
Definition segment (m : Auth.handler) (a : App) (rest : list (suspended Auth.State Auth.Req Auth.Resp)) : App :=
  commit (mkApp (exec m (auth a)).1 (pending (exec m (auth a)).2 ++ rest) (deps a) (latestLocation a) (loading_with a) (page a)).

(** The page is loaded at [r]; the provider's effect checks the session. *)
Definition boot (s0 : Auth.State) (r : route) : App :=
  segment Auth.checkAuth (commit (mkApp s0 [] None r None None)) [].

(** The user goes to [r]. *)
Definition navigate (r : route) (a : App) : App :=
  mkApp (auth a) (running a) (deps a) r (Some (router_context (auth a))) (page a).

(** The browser's history goes to [r] while the router is not mounted. *)
Definition history_moves (r : route) (a : App) : App :=
  mkApp (auth a) (running a) (deps a) r (loading_with a) (page a).

(** The load under way is done. *)
Definition loaded `{Router} (c : RouterContext) (a : App) : App :=
  mkApp (auth a) (running a) (deps a) (load c (latestLocation a)) None (Some (load c (latestLocation a))).

(** While the session is loading, the page shows a placeholder and offers no control: only
    an answer can arrive.  Otherwise the user may navigate, sign in or out; a load is
    done at any moment. *)
Inductive app_step `{Router} (syntaxError : string -> string) : App -> App -> Prop :=
| app_event a m :
    Auth.isLoading (auth a) = false -> Auth.starts syntaxError m -> m <> Auth.checkAuth ->
    app_step syntaxError a (segment m a (running a))
| app_answer a r k answer p q :
    running a = p ++ existT r k :: q ->
    app_step syntaxError a (segment (k answer) a (p ++ q))
| app_navigate a r : Auth.isLoading (auth a) = false -> app_step syntaxError a (navigate r a)
| app_history a r : Auth.isLoading (auth a) = true -> app_step syntaxError a (history_moves r a)
| app_loaded a c : loading_with a = Some c -> app_step syntaxError a (loaded c a).

(** The page is one the session may see, or a load for the session as it is is under
    way. *)
Definition page_follows (a : App) : Prop :=
  match loading_with a with
  | Some c => c = router_context (auth a)
  | None => exists r, page a = Some r /\ may_see (router_context (auth a)) r
  end.

(** What holds after every commit: one handler at most is in flight, exactly while the
    session is loading; it ends the loading when it ends. *)
Definition session_loading (s : Auth.State) : Prop := Auth.isLoading s = true.
Definition session_loaded (s : Auth.State) : Prop := Auth.isLoading s = false.

Definition app_ok (a : App) : Prop :=
  deps a = Some (Auth.isLoading (auth a), authStateKey (auth a)) /\
  ((session_loaded (auth a) /\ running a = [] /\ page_follows a) \/
   (session_loading (auth a) /\ exists q, running a = [q] /\
      forall ans s, session_loading s -> guarantees session_loading (projT2 q ans) (fun _ => session_loaded) s)).

Lemma commit_deps (a : App) :
  deps (commit a) = Some (Auth.isLoading (auth (commit a)), authStateKey (auth (commit a))).
Proof. unfold commit. case_bool_decide; [done|]. simpl. by case_match. Qed.

Lemma commit_auth (a : App) : auth (commit a) = auth a /\ running (commit a) = running a.
Proof. unfold commit. case_bool_decide; [done|]. simpl. by case_match. Qed.

Lemma commit_loads (a : App) :
  deps a <> Some (false, authStateKey (auth a)) -> Auth.isLoading (auth a) = false ->
  loading_with (commit a) = Some (router_context (auth a)).
Proof. intros Hd Hl. unfold commit. simpl. rewrite Hl, bool_decide_eq_false_2 by done. done. Qed.

(** A segment of the one handler in flight, entered while the session is loading. *)
Lemma segment_ok (m : Auth.handler) (a : App) :
  (exists d, deps a = Some (true, d)) \/ (exists r k, (exec m (auth a)).2 = Blocked r k) ->
  guarantees session_loading m (fun _ => session_loaded) (auth a) -> app_ok (segment m a []).
Proof.
  intros Hd Hg. apply guarantees_exec in Hg. unfold segment.
  destruct (exec m (auth a)) as [s' o] eqn:E. cbn in *. set (a' := mkApp _ _ _ _ _ _).
  split; [apply commit_deps|]. destruct (commit_auth a') as [Ea Er]. unfold page_follows. rewrite Ea, Er. subst a'. cbn in *.
  destruct o as [u|e|r k]; cbn in *.
  1-2: destruct Hd as [[d Hd]|(r & k & ?)]; [left; split_and!; [done|done|]|done];
    rewrite commit_loads; cbn; [done|rewrite Hd; congruence|done].
  right. destruct Hg as [Hi Hk]. split; [done|]. eexists. split; [done|]. auto.
Qed.

(** Every handler loads while it waits and has loaded when it ends, and a
    handler of the user interface waits at least once. *)
Lemma handler_loads (syntaxError : string -> string) (m : Auth.handler) (s : Auth.State) :
  Auth.starts syntaxError m -> (m = Auth.checkAuth -> session_loading s) ->
  guarantees session_loading m (fun _ => session_loaded) s /\ exists r k, (exec m s).2 = Blocked r k.
Proof.
  unfold session_loading, session_loaded. intros Hm Hl. split; [|destruct Hm; do 2 eexists; reflexivity].
  destruct Hm; try (specialize (Hl eq_refl)); Auth.run_handler; done.
Qed.

Lemma app_step_ok `{Router} syntaxError (a a' : App) :
  app_step syntaxError a a' -> app_ok a -> app_ok a'.
Proof.
  intros Hstep [Hd Hok]. destruct Hstep as [a m Hl Hm Hne|a r k ans p q Hr|a r Hl|a r Hl|a c Hc].
  - destruct Hok as [(_ & Hr & _)|[Hl' _]]; [|unfold session_loading in Hl'; congruence].
    rewrite Hr. destruct (handler_loads syntaxError m (auth a)) as [Hg Hb]; [done..|].
    apply segment_ok; auto.
  - destruct Hok as [(_ & Hr' & _)|(Hl & x & Hr' & Hg)]; rewrite Hr' in Hr.
    { by destruct p. }
    destruct p as [|y p]; [|by destruct p]. destruct q; simplify_eq/=.
    apply segment_ok; [|by apply (Hg ans)]. left. rewrite Hd. unfold session_loading in Hl. rewrite Hl. eauto.
  - split; [done|]. destruct Hok as [(Hl' & Hr & _)|[Hl' _]]; [|unfold session_loading in Hl'; congruence].
    by left.
  - split; [done|]. destruct Hok as [(Hl' & Hr & _)|Hok]; [unfold session_loaded in Hl'; congruence|]. by right.
  - split; [done|]. destruct Hok as [(Hl & Hr & Hp)|Hok]; [left; split_and!; [done..|]|by right].
    unfold page_follows in *. rewrite Hc in Hp. subst c. cbn. eexists. split; [done|]. apply load_settles.
Qed.

(** C8: The page follows the session: from any page load, under any sequence of
    navigations, sign-ins and sign-outs, with loads of the router that end at any moment,
    at most one request of the session is in flight, exactly while the placeholder shows;
    and otherwise the page is one the session may see, or a load is under way that was
    started for the session as it is now and that ends on such a page, so that once it
    has ended a finished sign-in has left the login page, and a sign-out the protected
    one. *)
Theorem app_shows_allowed_page `{Router} (syntaxError : string -> string)
    (storage : gmap string string) (s0 : Auth.State) (r : route) (a : App)
    (H0 : Auth.initial storage = Some s0)
    (Ha : rtc (app_step syntaxError) (boot s0 r) a) :
  if Auth.isLoading (auth a) then length (running a) = 1
  else running a = [] /\
    match loading_with a with
    | Some c =>
        c = router_context (auth a)
        /\ (let a' := loaded c a in loading_with a' = None /\ auth a' = auth a
              /\ exists r', page a' = Some r' /\ may_see (router_context (auth a)) r')
    | None => exists r', page a = Some r' /\ may_see (router_context (auth a)) r'
    end.
Proof.
  assert (app_ok (boot s0 r)) as H1.
  { assert (session_loading s0) as Hl.
    { unfold Auth.initial in H0. destruct (Auth.initial_user storage); simplify_eq/=. done. }
    destruct (handler_loads syntaxError Auth.checkAuth s0) as [Hg Hb]; [constructor|done|].
    unfold boot. destruct (commit_auth (mkApp s0 [] None r None None)) as [E _].
    apply segment_ok; rewrite E; auto. }
  assert (app_ok a) as [_ Hok].
  { clear H0. induction Ha; eauto using app_step_ok. }
  destruct Hok as [(Hl & Hr & Hp)|(Hl & q & Hr & _)]; rewrite Hl; [|by rewrite Hr].
  split; [done|]. unfold page_follows in Hp. destruct (loading_with a) as [c|] eqn:Ec; [|done].
  subst c. split; [done|]. cbn. split_and!; [done..|]. eexists. split; [done|]. apply load_settles.
Qed.

Definition fresh_session : Auth.State := Auth.mkState JNull false true false false None ∅.
Definition an_admin : GetMeResponse := mkGetMeResponse 1 "ada" "admin".

(** The page is loaded, the session is found, and the router loads the dashboard. *)
Definition booted : App := boot fresh_session dashboardRoute.
Definition status_unknown : App :=
  match running booted with existT Auth.GetServerStatus k :: _ => segment (k (inr (JsError "offline"))) booted [] | _ => booted end.
Definition session_found : App :=
  match running status_unknown with existT Auth.GetMe k :: _ => segment (k (inl an_admin)) status_unknown [] | _ => status_unknown end.
Definition signed_in_page : App := loaded (router_context (auth session_found)) session_found.

Lemma signed_in_page_reached : rtc (app_step (fun s => s)) (boot fresh_session dashboardRoute) signed_in_page.
Proof.
  eapply rtc_l; [exact (app_answer _ booted Auth.GetServerStatus _ (inr (JsError "offline")) [] [] eq_refl)|].
  eapply rtc_l; [exact (app_answer _ status_unknown Auth.GetMe _ (inl an_admin) [] [] eq_refl)|].
  eapply rtc_l; [by apply (app_loaded _ session_found)|]. apply rtc_refl.
Qed.

Lemma app_shows_allowed_page_witness :
  Auth.isLoading (auth signed_in_page) = false /\ page signed_in_page = Some dashboardRoute
  /\ exists r, page signed_in_page = Some r /\ may_see (router_context (auth signed_in_page)) r.
Proof.
  pose proof (app_shows_allowed_page (fun s => s) ∅ fresh_session dashboardRoute signed_in_page eq_refl
    signed_in_page_reached) as H. split_and!; [reflexivity..|]. by destruct H as [_ H].
Defined.

(** After a sign-out the page that was shown is mounted once more, without a session,
    until the load that the effect starts has ended. *)
Lemma page_outlives_session :
  let a := segment Auth.logout signed_in_page [] in
  let a := match running a with existT Auth.Logout k :: _ => segment (k (inl tt)) a [] | _ => a end in
  let a := match running a with existT Auth.GetServerStatus k :: _ => segment (k (inr (JsError "offline"))) a [] | _ => a end in
  Auth.isLoading (auth a) = false /\ Auth.isAuthenticated (auth a) = false /\ page a = Some dashboardRoute
  /\ loading_with a = Some (router_context (auth a)) /\ page (loaded (router_context (auth a)) a) = Some loginRoute.
Proof. by split_and!. Qed.
