(* ===== verification/Polling.v ===== *)
(** Status polling: the pattern shared by the engine pill
    (frontend/src/hooks/useEngineStatus.ts) and the Tailscale card
    (frontend/src/hooks/useTailscaleStatus.ts). *)
From S2P Require Import Prelude Async.

Section Poller.
(** [Status] is what the hook shows, [Response] what its request returns;
    [on_response] and [on_failure] are the two branches of [check], [None] for
    a failure that leaves the status alone. *)
Context {Status Response : Type}.
Variable on_response : Response -> Status.
Variable on_failure : option Status.

(** [timerRef] is the interval the hook holds, [intervals] those the browser
    runs; [listening] says whether the two event listeners are attached. *)
Record State := mkState {
  state : Status;
  inFlight : nat;
  timerRef : option nat;
  intervals : gset nat;
  nextInterval : nat;
  hidden : bool;
  listening : bool
}.

Definition setStatus (v : Status) (s : State) : State :=
  mkState v (inFlight s) (timerRef s) (intervals s) (nextInterval s) (hidden s) (listening s).
Definition next_ticket (s : State) : State :=
  mkState (state s) (S (inFlight s)) (timerRef s) (intervals s) (nextInterval s) (hidden s)
    (listening s).
Definition setHidden (h : bool) (s : State) : State :=
  mkState (state s) (inFlight s) (timerRef s) (intervals s) (nextInterval s) h (listening s).
Definition setListening (b : bool) (s : State) : State :=
  mkState (state s) (inFlight s) (timerRef s) (intervals s) (nextInterval s) (hidden s) b.

(** The one request, and what it returns. *)
Definition Resp (_ : unit) : Type := Response.

Abbreviation handler := (async State unit Resp unit).
Local Open Scope async_scope.

(** [if (ticket !== inFlight.current) return; setState(v)] *)
Definition settle (ticket : nat) (v : Status) : handler :=
  current <- gets inFlight ;;
  if Nat.eqb ticket current then modify (setStatus v) else Ret tt.

Definition check_await (ticket : nat) : handler :=
  try (resp <- rpc tt ;; settle ticket (on_response resp))
  catch (fun _ => match on_failure with Some v => settle ticket v | None => Ret tt end).

Definition check : handler :=
  modify next_ticket ;;;
  ticket <- gets inFlight ;;
  check_await ticket.

Definition schedulePoll (s : State) : State :=
  match timerRef s with
  | Some _ => s
  | None => mkState (state s) (inFlight s) (Some (nextInterval s))
              ({[nextInterval s]} ∪ intervals s) (S (nextInterval s)) (hidden s) (listening s)
  end.

Definition stopPoll (s : State) : State :=
  match timerRef s with
  | Some t => mkState (state s) (inFlight s) None (intervals s ∖ {[t]}) (nextInterval s)
                (hidden s) (listening s)
  | None => s
  end.

Definition onVisibility : handler :=
  h <- gets hidden ;;
  if (h : bool) then modify stopPoll else call check (modify schedulePoll).

Definition onFocus : handler := call check (Ret tt).

(** The callback of an interval. *)
Definition tick : handler :=
  h <- gets hidden ;;
  if negb h then call check (Ret tt) else Ret tt.

(** The effect and its cleanup. *)
Definition mount : handler :=
  call check (modify (setListening true) ;;; modify schedulePoll).

Definition unmount : handler :=
  modify stopPoll ;;; modify (setListening false) ;;; modify next_ticket.

(** The browser's events: an interval that runs, and the two listeners while
    they are attached. *)
Inductive event := Tick (t : nat) | Visibility (h : bool) | Focus | Unmount.

Definition on_event (e : event) : handler :=
  s <- gets id ;;
  match e with
  | Tick t => if bool_decide (t ∈ intervals s) then tick else Ret tt
  | Visibility h => modify (setHidden h) ;;; if listening s then onVisibility else Ret tt
  | Focus => if listening s then onFocus else Ret tt
  | Unmount => if listening s then unmount else Ret tt
  end.

Definition starts (m : handler) : Prop := exists e, m = on_event e.

Definition config : Type := State * list (suspended State unit Resp).

(** The first commit of a page that may already be hidden. *)
Definition mounted (v : Status) (h : bool) : config :=
  let s0 := mkState v 0 None ∅ 0 h false in
  ((exec mount s0).1, pending (exec mount s0).2).

Definition reaches (c c' : config) : Prop := rtc (pool_step starts) c c'.

(** ** Invariant *)

(** The rest of a check in flight. *)
Definition checking (ticket : nat) : suspended State unit Resp :=
  existT tt (fun o =>
    call (try (resp <- (match o with inl v => Ret v | inr e => Throw e end) ;;
               settle ticket (on_response resp))
          catch (fun _ => match on_failure with Some v => settle ticket v | None => Ret tt end))
         (Ret tt)).

(** The status an answer stands for. *)
Definition answered (o : Response + thrown) : option Status :=
  match o with inl resp => Some (on_response resp) | inr _ => on_failure end.

Definition ticket_ok (s : State) (t : nat) : Prop :=
  t <= inFlight s /\ (listening s = false -> t < inFlight s).

(** The hook holds the one interval that runs; a check in flight has a ticket
    of its own, and after the cleanup none has the current one. *)
Definition poll_inv (c : config) : Prop :=
  intervals c.1 = match timerRef c.1 with Some t => {[t]} | None => ∅ end /\
  (listening c.1 = false -> timerRef c.1 = None) /\
  exists tickets, c.2 = checking <$> tickets /\ NoDup tickets /\
    Forall (ticket_ok c.1) tickets.

Lemma resume_spec (ticket : nat) (o : Response + thrown) (s : State) :
  exec (projT2 (checking ticket) o) s =
  (match answered o with
   | Some v => if Nat.eqb ticket (inFlight s) then setStatus v s else s
   | None => s
   end, Done tt).
Proof.
  destruct o as [resp|e]; cbn; [by destruct (Nat.eqb _ _)|].
  destruct on_failure as [v|]; cbn; [|done]. by destruct (Nat.eqb _ _).
Qed.

(** The events with their effect on the state and the check they start. *)
Lemma on_event_exec (e : event) (s : State) :
  let o := exec (on_event e) s in
  match e with
  | Tick t =>
      if bool_decide (t ∈ intervals s) && negb (hidden s)
      then o.1 = next_ticket s /\ pending o.2 = [checking (S (inFlight s))]
      else o.1 = s /\ pending o.2 = []
  | Visibility h =>
      if listening s && negb h
      then o.1 = schedulePoll (next_ticket (setHidden h s)) /\
           pending o.2 = [checking (S (inFlight s))]
      else o.1 = (if listening s then stopPoll (setHidden h s) else setHidden h s) /\
           pending o.2 = []
  | Focus =>
      if listening s then o.1 = next_ticket s /\ pending o.2 = [checking (S (inFlight s))]
      else o.1 = s /\ pending o.2 = []
  | Unmount =>
      o.1 = (if listening s then next_ticket (setListening false (stopPoll s)) else s) /\
      pending o.2 = []
  end.
Proof.
  destruct e as [t|h| |]; cbn.
  - case_bool_decide; cbn; [|done]. unfold tick; cbn. by destruct (hidden s).
  - destruct (listening s), h; cbn; try done.
  - by destruct (listening s).
  - by destruct (listening s).
Qed.

Lemma intervals_schedule (s : State) :
  intervals s = match timerRef s with Some t => {[t]} | None => ∅ end ->
  intervals (schedulePoll s) =
  match timerRef (schedulePoll s) with Some t => {[t]} | None => ∅ end.
Proof. unfold schedulePoll. destruct (timerRef s) eqn:E; cbn; [by rewrite E|intros ->]. set_solver. Qed.

Lemma intervals_stop (s : State) :
  intervals s = match timerRef s with Some t => {[t]} | None => ∅ end ->
  intervals (stopPoll s) = ∅ /\ timerRef (stopPoll s) = None.
Proof. unfold stopPoll. destruct (timerRef s) eqn:E; cbn; [|done]. intros ->. split; [set_solver|done]. Qed.

Lemma fresh_ticket (s : State) (tickets : list nat) :
  NoDup tickets -> Forall (ticket_ok s) tickets -> NoDup (S (inFlight s) :: tickets).
Proof.
  intros Hnd Hall. constructor; [|done]. intros Hin.
  rewrite Forall_forall in Hall. destruct (Hall _ Hin). lia.
Qed.

Lemma ticket_ok_mono (s s' : State) (tickets : list nat) :
  inFlight s <= inFlight s' ->
  (listening s' = false -> listening s = false \/ inFlight s < inFlight s') ->
  Forall (ticket_ok s) tickets -> Forall (ticket_ok s') tickets.
Proof.
  intros Hle Hl Hall. apply (Forall_impl _ _ _ Hall). intros t [H1 H2]. split; [lia|].
  intros Hs'. destruct (Hl Hs') as [Hs|]; [specialize (H2 Hs)|]; lia.
Qed.

Lemma poll_inv_same (s s' : State) (p : list (suspended State unit Resp)) :
  intervals s' = match timerRef s' with Some t => {[t]} | None => ∅ end ->
  (listening s' = false -> timerRef s' = None) ->
  inFlight s <= inFlight s' ->
  (listening s' = false -> listening s = false \/ inFlight s < inFlight s') ->
  poll_inv (s, p) -> poll_inv (s', p).
Proof.
  intros Hi Ht Hle Hl (_ & _ & tickets & Hp & Hnd & Hall). split_and!; [done..|].
  exists tickets. split_and!; [done..|]. by eapply ticket_ok_mono.
Qed.

Lemma poll_inv_check (s s' : State) (p : list (suspended State unit Resp)) :
  intervals s' = match timerRef s' with Some t => {[t]} | None => ∅ end ->
  listening s' = true -> inFlight s' = S (inFlight s) ->
  poll_inv (s, p) -> poll_inv (s', [checking (S (inFlight s))] ++ p).
Proof.
  intros Hi Ht Hle (_ & _ & tickets & Hp & Hnd & Hall). split_and!; [done|cbn; congruence|].
  cbn in Hp. exists (S (inFlight s) :: tickets). split_and!.
  - by rewrite Hp.
  - by apply fresh_ticket.
  - constructor; [split; [cbn; lia|cbn; by rewrite Ht]|].
    eapply ticket_ok_mono; [| |exact Hall]; cbn; [lia|]. by rewrite Ht.
Qed.

Lemma stopPoll_fields (s : State) :
  inFlight (stopPoll s) = inFlight s /\ listening (stopPoll s) = listening s /\
  state (stopPoll s) = state s.
Proof. unfold stopPoll. by destruct (timerRef s). Qed.
Lemma schedulePoll_fields (s : State) :
  inFlight (schedulePoll s) = inFlight s /\ listening (schedulePoll s) = listening s /\
  state (schedulePoll s) = state s.
Proof. unfold schedulePoll. by destruct (timerRef s). Qed.

Lemma event_inv (e : event) (s : State) p :
  poll_inv (s, p) ->
  poll_inv ((exec (on_event e) s).1, pending (exec (on_event e) s).2 ++ p).
Proof.
  intros Hinv. pose proof Hinv as (Hi & Ht & _). cbn in Hi, Ht.
  pose proof (on_event_exec e s) as He. revert He. cbv zeta.
  destruct (exec (on_event e) s) as [s' o]; cbn [fst snd]; intros He. destruct e as [t|h| |].
  - case_bool_decide as Hin; cbn [andb] in He; [|by destruct He as [-> ->]].
    destruct (hidden s); cbn in He; destruct He as [-> ->]; [done|].
    apply poll_inv_check; [done| |done|done].
    destruct (listening s) eqn:El; [done|].
    rewrite Hi, (Ht eq_refl) in Hin. set_solver.
  - destruct (listening s) eqn:El; cbn [andb] in He.
    + destruct h; cbn in He; destruct He as [-> ->].
      * destruct (intervals_stop (setHidden true s) Hi) as [E1 E2].
        destruct (stopPoll_fields (setHidden true s)) as (E3 & E4 & _). cbn in E3, E4.
        apply poll_inv_same with s; [by rewrite E2|done|by rewrite E3| |done].
        by rewrite E4, El.
      * pose proof (intervals_schedule (next_ticket (setHidden false s)) Hi) as E1.
        destruct (schedulePoll_fields (next_ticket (setHidden false s))) as (E3 & E4 & _).
        cbn in E3, E4. apply poll_inv_check; [done|congruence|done|done].
    + destruct He as [-> ->]. apply poll_inv_same with s; cbn; auto.
  - destruct (listening s) eqn:El; destruct He as [-> ->]; [|done].
    by apply poll_inv_check.
  - destruct He as [-> ->]. destruct (listening s) eqn:El; [|done].
    destruct (intervals_stop s Hi) as [E1 E2]. destruct (stopPoll_fields s) as (E3 & _).
    apply poll_inv_same with s; cbn; [by rewrite E1, E2|done|lia| |done]. intros _. right. lia.
Qed.

Lemma setStatus_fields (v : Status) (s : State) :
  inFlight (setStatus v s) = inFlight s /\ listening (setStatus v s) = listening s.
Proof. done. Qed.

(** The state a check with this ticket leaves. *)
Definition settled (t : nat) (o : Response + thrown) (s : State) : State :=
  match answered o with
  | Some v => if Nat.eqb t (inFlight s) then setStatus v s else s
  | None => s
  end.

Lemma resume_exec (q : suspended State unit Resp) (t : nat) (o : Resp (projT1 q) + thrown) (s : State) :
  q = checking t -> exec (projT2 q o) s = (settled t o s, Done tt).
Proof. intros ->. apply resume_spec. Qed.

Lemma settled_inv (t : nat) o (s : State) p : poll_inv (s, p) -> poll_inv (settled t o s, p).
Proof.
  unfold settled. destruct (answered o); [|done]. destruct (Nat.eqb _ _); [|done].
  intros (Hi & Ht & Hp). by split_and!.
Qed.

(** The checks in flight beside one of them. *)
Lemma inv_split (s : State) p q p' :
  poll_inv (s, p ++ q :: p') ->
  poll_inv (s, p ++ p') /\
  exists t, q = checking t /\ ticket_ok s t /\
    forall q', q' ∈ p ++ p' -> exists t', q' = checking t' /\ t' <> t /\ t' <= inFlight s.
Proof.
  intros (Hi & Ht & tickets & Hp & Hnd & Hall). cbn in Hi, Ht, Hp, Hall.
  symmetry in Hp. apply fmap_app_inv in Hp as (t1 & t2 & -> & Eq & ->).
  destruct t2 as [|t t2]; [done|]. cbn [fmap list_fmap] in Eq. injection Eq as -> ->.
  rewrite <-Permutation_middle in Hnd, Hall. inversion_clear Hnd as [|? ? Hnin Hnd'].
  inversion_clear Hall as [|? ? Hok Hall']. split.
  - split_and!; [done..|]. exists (t1 ++ t2). by rewrite fmap_app.
  - exists t. split_and!; [done..|]. intros q'. rewrite <-fmap_app.
    intros (t' & -> & Hin)%list_elem_of_fmap. exists t'. split_and!; [done| |].
    + intros ->. done.
    + rewrite Forall_forall in Hall'. by apply Hall'.
Qed.

Lemma step_inv (c c' : config) : pool_step starts c c' -> poll_inv c -> poll_inv c'.
Proof.
  intros [m s p [e ->]|r k o s p q] Hinv; [by apply event_inv|].
  apply inv_split in Hinv as (Hinv & t & Hq & _).
  pose proof (resume_exec (existT r k) t o s Hq) as E. cbn [projT2] in E. rewrite E. by apply settled_inv.
Qed.

Lemma mounted_inv (v : Status) (h : bool) : poll_inv (mounted v h).
Proof.
  split_and!; [cbn; set_solver|done|]. exists [1]. split_and!; [done|apply NoDup_singleton|].
  constructor; [|done]. by split.
Qed.

Lemma reaches_inv (c c' : config) : reaches c c' -> poll_inv c -> poll_inv c'.
Proof. induction 1; eauto using step_inv. Qed.

(** After the cleanup nothing writes the status or starts a check. *)
Lemma step_unmounted (c c' : config) :
  pool_step starts c c' -> poll_inv c -> listening c.1 = false ->
  state c'.1 = state c.1 /\ listening c'.1 = false /\ inFlight c'.1 = inFlight c.1.
Proof.
  intros [m s p [e ->]|r k o s p q] Hinv Hl; cbn [fst snd] in Hl |- *.
  - pose proof (on_event_exec e s) as He. revert He. cbv zeta. rewrite Hl.
    destruct (exec (on_event e) s) as [s' o']; cbn [fst snd]; intros He.
    destruct Hinv as (Hi & Ht & _). cbn in Hi, Ht. rewrite (Ht Hl) in Hi.
    destruct e as [t|h| |].
    + rewrite bool_decide_eq_false_2 in He by set_solver. by destruct He as [-> _].
    + cbn in He. by destruct He as [-> _].
    + by destruct He as [-> _].
    + by destruct He as [-> _].
  - apply inv_split in Hinv as (_ & t & Hq & [_ Hlt] & _). specialize (Hlt Hl).
    pose proof (resume_exec (existT r k) t o s Hq) as E. cbn [projT2] in E. rewrite E. cbn. unfold settled.
    destruct (answered o); [|done]. by rewrite (proj2 (Nat.eqb_neq _ _)) by lia.
Qed.

(** One interval at most ever runs, and only while the hook is mounted: a
    page that is hidden and shown again, or focused, never polls twice as
    often. *)
Theorem one_interval (v : Status) (h : bool) (s : State) p
    (H : reaches (mounted v h) (s, p)) :
  size (intervals s) <= 1 /\ (listening s = false -> intervals s = ∅).
Proof.
  destruct (reaches_inv _ _ H (mounted_inv v h)) as (Hi & Ht & _). cbn in Hi, Ht. split.
  - rewrite Hi. destruct (timerRef s); [by rewrite size_singleton|]. rewrite size_empty. lia.
  - intros Hl. by rewrite Hi, Ht.
Qed.

(** C30: An answer is shown only when no later check was started: it then
    replaces the status, and every check still in flight is an older one,
    whose answer will be ignored; the answer of an overtaken check changes
    nothing at all. *)
Theorem latest_check_wins (v : Status) (h : bool) (s : State) p q p'
    (H : reaches (mounted v h) (s, p ++ q :: p')) :
  exists t, q = checking t /\ t <= inFlight s /\
    forall o, exec (projT2 (checking t) o) s =
      (match answered o with
       | Some w => if bool_decide (t = inFlight s) then setStatus w s else s
       | None => s
       end, Done tt) /\
    (t = inFlight s -> forall q', q' ∈ p ++ p' -> exists t', q' = checking t' /\ t' < t /\
       forall o' s', inFlight s <= inFlight s' -> exec (projT2 (checking t') o') s' = (s', Done tt)).
Proof.
  pose proof (reaches_inv _ _ H (mounted_inv v h)) as Hinv.
  apply inv_split in Hinv as (_ & t & -> & [Hle _] & Hrest).
  exists t. split_and!; [done..|]. intros o. split.
  - rewrite resume_spec. destruct (answered o); [|done].
    by destruct (Nat.eqb_spec t (inFlight s)); case_bool_decide.
  - intros -> q' Hq'. destruct (Hrest q' Hq') as (t' & -> & Hne & Hle').
    exists t'. split_and!; [done|lia|]. intros o' s' Hs'. rewrite resume_spec.
    destruct (answered o'); [|done]. by rewrite (proj2 (Nat.eqb_neq _ _)) by lia.
Qed.

(** Once the hook is unmounted its status never changes, no interval
    runs, and no check is ever started again, whatever answers arrive. *)
Theorem unmounted_is_silent (v : Status) (h : bool) (s s' : State) p p'
    (H : reaches (mounted v h) (s, p)) (Hl : listening s = false)
    (H' : reaches (s, p) (s', p')) :
  state s' = state s /\ intervals s' = ∅ /\ inFlight s' = inFlight s.
Proof.
  pose proof (reaches_inv _ _ H (mounted_inv v h)) as Hinv.
  pose proof (reaches_inv _ _ H' Hinv) as Hinv'.
  assert (forall c c', reaches c c' -> poll_inv c -> listening c.1 = false ->
    state c'.1 = state c.1 /\ listening c'.1 = false /\ inFlight c'.1 = inFlight c.1) as Hall.
  { clear. induction 1 as [c|c c1 c2 Hs Hr IH]; [done|]. intros Hi Hl.
    destruct (step_unmounted _ _ Hs Hi Hl) as (E1 & E2 & E3).
    destruct (IH (step_inv _ _ Hs Hi) E2) as (E4 & E5 & E6). split_and!; congruence. }
  destruct (Hall _ _ H' Hinv Hl) as (E1 & E2 & E3). cbn in *.
  destruct Hinv' as (Hi & Ht & _). cbn in Hi, Ht. split_and!; [done| |done]. by rewrite Hi, Ht.
Qed.
End Poller.

Arguments State : clear implicits.

(** Concrete runs of the theorems: the status is the last answer. *)
Lemma one_interval_witness :
  let c : config := mounted (fun n : nat => n) None 0 false in
  size (intervals c.1) <= 1 /\ (listening c.1 = false -> intervals c.1 = ∅).
Proof. intros c. apply (one_interval (fun n : nat => n) None 0 false c.1 c.2). apply rtc_refl. Defined.

Lemma latest_check_wins_witness :
  exists t, checking (fun n : nat => n) None 1 = checking (fun n : nat => n) None t /\ t <= 1 /\
    forall o, exec (projT2 (checking (fun n : nat => n) None t) o)
        (mkState 0 1 (Some 0) {[0]} 1 false true) =
      (match answered (fun n : nat => n) None o with
       | Some w => if bool_decide (t = 1)
                   then setStatus w (mkState 0 1 (Some 0) {[0]} 1 false true)
                   else mkState 0 1 (Some 0) {[0]} 1 false true
       | None => mkState 0 1 (Some 0) {[0]} 1 false true
       end, Done tt) /\
      (t = 1 -> forall q', q' ∈ [] ++ [] -> exists t', q' = checking (fun n : nat => n) None t' /\ t' < t /\
         forall o' s', 1 <= inFlight s' ->
           exec (projT2 (checking (fun n : nat => n) None t') o') s' = (s', Done tt)).
Proof.
  apply (latest_check_wins (fun n : nat => n) None 0 false (mkState 0 1 (Some 0) {[0]} 1 false true)
           [] (checking (fun n : nat => n) None 1) []).
  unfold reaches. replace (mounted _ _ 0 false) with
    (mkState 0 1 (Some 0) {[0]} 1 false true, [] ++ checking (fun n : nat => n) None 1 :: []) by reflexivity.
  apply rtc_refl.
Defined.

Lemma unmounted_is_silent_witness :
  let c : config := mounted (fun n : nat => n) None 0 false in
  let s1 := (exec (on_event (fun n : nat => n) None Unmount) c.1).1 in
  let s2 := (exec (projT2 (checking (fun n : nat => n) None 1) (inl 7)) s1).1 in
  state s2 = state s1 /\ intervals s2 = ∅ /\ inFlight s2 = inFlight s1.
Proof.
  intros c s1 s2.
  apply (unmounted_is_silent (fun n : nat => n) None 0 false s1 s2 c.2 []).
  - eapply rtc_l; [|apply rtc_refl].
    apply (pool_start (starts (fun n : nat => n) None) (on_event (fun n : nat => n) None Unmount)).
    by exists Unmount.
  - reflexivity.
  - eapply rtc_l; [|apply rtc_refl].
    apply (pool_resume (starts (fun n : nat => n) None) tt
      (projT2 (checking (fun n : nat => n) None 1)) (inl 7) s1 [] []).
Defined.
