(* ===== verification/Status.v ===== *)
(** The two polled statuses: the engine pill
    (frontend/src/hooks/useEngineStatus.ts), the Tailscale node
    (frontend/src/hooks/useTailscaleStatus.ts) and its card
    (frontend/src/components/TailscaleStatusCard.tsx). *)
From S2P Require Import Prelude Async Proto Polling.

(** ** The engine *)

Inductive EngineStatus := checking | online | offline.

Record EngineStatusState := mkEngineStatusState { status : EngineStatus; detail : string }.

Definition engine_initial : EngineStatusState := mkEngineStatusState checking "".

Definition engine_response (resp : CheckEngineResponse) : EngineStatusState :=
  if CheckEngineResponse_connected resp then
    mkEngineStatusState online
      (if truthy (CheckEngineResponse_apiVersion resp)
       then "Docker Engine API v" +:+ CheckEngineResponse_apiVersion resp else "Docker Engine")
  else
    mkEngineStatusState offline (str_or (CheckEngineResponse_error resp) "Docker Engine unreachable").

Definition engine_failure : option EngineStatusState :=
  Some (mkEngineStatusState offline "Backend unreachable").

(** The hook's effect and its event handlers. *)
Definition useEngineStatus (hidden : bool) : config := mounted engine_response engine_failure engine_initial hidden.
Definition engine_starts := Polling.starts engine_response engine_failure.

(** ** The Tailscale node *)

Inductive TailscaleLifecycleState := disabled | starting | running | failed.

(** [keyExpiry] is a [Date], its time in milliseconds. *)
Record TailscaleStatusState := mkTailscaleStatusState {
  loaded : bool;
  enabled : bool;
  state : TailscaleLifecycleState;
  backendState : string;
  hostname : string;
  dnsName : string;
  ips : list string;
  port : Z;
  httpsEnabled : bool;
  certDomains : list string;
  keyExpiry : option Z;
  error : string
}.

Definition tailscale_initial : TailscaleStatusState :=
  mkTailscaleStatusState false false disabled "" "" "" [] 80 false [] None "".

Definition lifecycle_name (st : TailscaleLifecycleState) : string :=
  match st with
  | disabled => "disabled" | starting => "starting" | running => "running" | failed => "failed"
  end.

(** A state the server reports, "starting" when it is none of the four. *)
Definition lifecycle_state (reported : string) : TailscaleLifecycleState :=
  if String.eqb reported "disabled" then disabled
  else if String.eqb reported "starting" then starting
  else if String.eqb reported "running" then running
  else if String.eqb reported "failed" then failed
  else starting.

Section Tailscale.
(** [timestampDate(ts).getTime()] of the protobuf library *)
Variable timestampDate : Timestamp -> Z.

Definition tailscale_response (resp : GetTailscaleStatusResponse) : TailscaleStatusState :=
  mkTailscaleStatusState true (GetTailscaleStatusResponse_enabled resp)
    (lifecycle_state (GetTailscaleStatusResponse_state resp))
    (GetTailscaleStatusResponse_backendState resp) (GetTailscaleStatusResponse_hostname resp)
    (GetTailscaleStatusResponse_dnsName resp) (GetTailscaleStatusResponse_ips resp)
    (GetTailscaleStatusResponse_port resp) (GetTailscaleStatusResponse_httpsEnabled resp)
    (GetTailscaleStatusResponse_certDomains resp)
    (timestampDate <$> GetTailscaleStatusResponse_keyExpiry resp)
    (GetTailscaleStatusResponse_error resp).

(** A failed request keeps the last known status. *)
Definition tailscale_failure : option TailscaleStatusState := None.

Definition useTailscaleStatus (hidden : bool) : config :=
  mounted tailscale_response tailscale_failure tailscale_initial hidden.
Definition tailscale_starts := Polling.starts tailscale_response tailscale_failure.
End Tailscale.

(** ** The card *)

Definition KEY_EXPIRY_WARN_DAYS : Z := 7.

Definition stateDotClass (st : TailscaleLifecycleState) : string :=
  match st with
  | running => "status-dot"
  | failed => "status-dot offline"
  | _ => "status-dot checking"
  end.

Definition stateLabel (st : TailscaleLifecycleState) : string :=
  match st with
  | running => "Online"
  | failed => "Failed"
  | starting => "Connecting"
  | _ => lifecycle_name st
  end.

(** [Math.floor((expiry - now) / 86_400_000)]; the quotient of two times a
    [Date] can hold is never rounded across an integer. *)
Definition keyExpiryDays (now : Z) (expiry : option Z) : option Z :=
  match expiry with
  | None => None
  | Some e => Some ((e - now) / 86400000)%Z
  end.

(** What the card shows: the dot and title, the rows, the error and the expiry
    warning with its class. *)
Record Card := mkCard {
  card_dot : string;
  card_title : string;
  card_backend : option string;
  card_rows : list (string * string);
  card_error : option string;
  card_expiry : option (string * string)
}.

Definition expiry_warning (days : option Z) : option (string * string) :=
  match days with
  | Some d =>
      if (d <? KEY_EXPIRY_WARN_DAYS)%Z then
        Some (if (d <? 0)%Z then "status-dot offline" else "status-dot checking",
              if (d <? 0)%Z then "Node key expired — tailnet access needs re-registration"
              else "Node key expires in " +:+ num d +:+ " day" +:+
                   (if (d =? 1)%Z then "" else "s") +:+ " — plan re-registration")
      else None
  | None => None
  end.

Definition is_running (st : TailscaleLifecycleState) : bool :=
  match st with running => true | _ => false end.

Definition TailscaleStatusCard (now : Z) (s : TailscaleStatusState) : option Card :=
  if negb (enabled s) then None
  else Some (mkCard
    (stateDotClass (state s))
    ("Tailscale node " +:+ stateLabel (state s))
    (if truthy (backendState s) && is_running (state s)
     then Some ("(" +:+ backendState s +:+ ")") else None)
    ((if truthy (dnsName s) then [("DNS name", dnsName s)] else []) ++
     (if 0 <? length (ips s) then [("Tailnet IPs", join ", " (ips s))] else []) ++
     (if truthy (dnsName s) then
        [("Access",
          if httpsEnabled s
          then "https://" +:+ dnsName s +:+ " (also http port " +:+ num (port s) +:+ ")"
          else "http://" +:+ dnsName s +:+ ":" +:+ num (port s))]
      else []))
    (if truthy (error s) then Some (error s) else None)
    (expiry_warning (keyExpiryDays now (keyExpiry s)))).

(** ** Theorems *)

(** The pill after an answer of the latest check. *)
Lemma engine_settled (o : CheckEngineResponse + thrown) :
  Polling.answered engine_response engine_failure o <> None.
Proof. by destruct o. Qed.

(** The engine pill never shows an engine as online except on an answer that
    says so, and leaves "checking" with the first answer, even a failed one;
    each answer comes with a text that is not empty. *)
Theorem engine_pill_spec (o : CheckEngineResponse + thrown) :
  exists v, Polling.answered engine_response engine_failure o = Some v /\
    status v <> checking /\ detail v <> "" /\
    (status v = online <-> exists resp, o = inl resp /\ CheckEngineResponse_connected resp = true).
Proof.
  destruct o as [[[] version err]|e]; cbn; eexists; (split; [reflexivity|]); cbn.
  - split_and!; [done| |split; [eauto|done]]. unfold truthy. case_match; [|done].
    by rewrite append_cons.
  - split_and!; [done| |split; [done|intros (? & [= <-] & ?); done]].
    unfold str_or. case_match eqn:E; [|done]. by apply truthy_true in E.
  - split_and!; [done|done|]. split; [done|]. by intros (? & ? & _).
Qed.

(** The text of a warning names the number of days. *)
Definition day_text (d : Z) : string :=
  "Node key expires in " +:+ num d +:+ (if (d =? 1)%Z then " day" else " days") +:+
  " — plan re-registration".

Lemma warning_text (d : Z) :
  "Node key expires in " +:+ num d +:+ " day" +:+ (if (d =? 1)%Z then "" else "s") +:+
  " — plan re-registration" = day_text d.
Proof. unfold day_text. by destruct (d =? 1)%Z. Qed.

Lemma day_text_inj (d d' : Z) : (0 <= d < 7)%Z -> (0 <= d' < 7)%Z -> day_text d = day_text d' -> d = d'.
Proof.
  intros H H'.
  assert (d ∈ [0; 1; 2; 3; 4; 5; 6]%Z /\ d' ∈ [0; 1; 2; 3; 4; 5; 6]%Z) as [Hd Hd'].
  { rewrite !elem_of_cons. lia. }
  clear H H'. set_unfold. naive_solver.
Qed.

(** The node card shows exactly for an enabled node, and warns about the
    node key exactly when less than seven days of it are left: as expired once
    its time has passed, else with the number of whole days left. *)
Theorem tailscale_card_spec (now : Z) (s : TailscaleStatusState) :
  match TailscaleStatusCard now s with
  | None => enabled s = false
  | Some c =>
      enabled s = true /\
      match keyExpiry s with
      | None => card_expiry c = None
      | Some e =>
          (card_expiry c = None <-> now + 7 * 86400000 <= e)%Z /\
          (fst <$> card_expiry c = Some "status-dot offline"%string <-> e < now)%Z /\
          (forall d, (0 <= d < 7)%Z ->
             (card_expiry c = Some ("status-dot checking"%string, day_text d)
              <-> now + d * 86400000 <= e < now + (d + 1) * 86400000)%Z)
      end
  end.
Proof.
  unfold TailscaleStatusCard. destruct (enabled s); cbn [negb]; [|done]. split; [done|].
  cbn [card_expiry]. destruct (keyExpiry s) as [e|]; [|done].
  cbn [keyExpiryDays expiry_warning].
  pose proof (Z.div_mod (e - now) 86400000 ltac:(lia)) as Hd.
  pose proof (Z.mod_pos_bound (e - now) 86400000 ltac:(lia)) as Hm.
  set (q := ((e - now) / 86400000)%Z) in *. clearbody q. unfold KEY_EXPIRY_WARN_DAYS.
  destruct (Z.ltb_spec q 7); destruct (Z.ltb_spec q 0); try lia; cbn; rewrite ?warning_text;
    (split_and!; [split; intros; done || lia|split; intros; done || lia|]);
    intros d Hr; split; intros Hx; try lia; try congruence.
  - apply (f_equal (fun x => default ("", "") x)) in Hx. apply (f_equal snd) in Hx.
    apply day_text_inj in Hx; lia.
  - by assert (q = d) as -> by lia.
Qed.
