(* ===== verification/Logger.v ===== *)
(** The client's log (frontend/src/services/logger.ts): the table of pending
    entries and the listeners that record errors, console output and clicks. *)
From S2P Require Import Prelude Async Json.

(** ** The table *)

(** [level] is one of DEBUG, INFO, WARN, ERROR; [id] is set by the table. *)
Inductive Level := DEBUG | INFO | WARN | ERROR.

#[global] Instance Level_eq_dec : EqDecision Level.
Proof. solve_decision. Defined.

Record DBClientLogEntry := mkDBClientLogEntry {
  id : option nat;
  level : Level;
  message : string;
  timestamp : string;
  component : string;
  metadata : string
}.

#[global] Instance DBClientLogEntry_eq_dec : EqDecision DBClientLogEntry.
Proof. solve_decision. Defined.

Definition with_id (i : nat) (e : DBClientLogEntry) : DBClientLogEntry :=
  mkDBClientLogEntry (Some i) (level e) (message e) (timestamp e) (component e) (metadata e).

(** What the client relies on of the database: a table with an ascending,
    auto-incremented primary key. [rows] lists the entries by key. *)
Class LogTable (T : Type) := {
  rows : T -> list (nat * DBClientLogEntry);
  table_add : DBClientLogEntry -> T -> T;
  table_first : nat -> T -> list DBClientLogEntry;
  table_bulkDelete : list nat -> T -> T;
  table_clear : T -> T;
  rows_keys t : NoDup ((rows t).*1);
  rows_ids t : Forall (fun r => id r.2 = Some r.1) (rows t);
  rows_add e t : exists i, rows (table_add e t) = rows t ++ [(i, with_id i e)];
  rows_first n t : table_first n t = (take n (rows t)).*2;
  rows_bulkDelete ids t : rows (table_bulkDelete ids t) = filter (fun r => r.1 ∉ ids) (rows t);
  rows_clear t : rows (table_clear t) = []
}.

(** A table in memory. *)
Module MemTable.
Record raw := mkRaw { next : nat; data : list (nat * DBClientLogEntry) }.

Definition ok (r : raw) : Prop :=
  NoDup ((data r).*1) /\ Forall (fun x => id x.2 = Some x.1) (data r) /\
  Forall (fun x => x.1 < next r) (data r).

Definition t : Type := {r : raw | ok r}.

Definition empty : t.
Proof. exists (mkRaw 0 []). split_and!; constructor. Defined.

Definition add (e : DBClientLogEntry) (x : t) : t.
Proof.
  exists (mkRaw (S (next (`x))) (data (`x) ++ [(next (`x), with_id (next (`x)) e)])).
  destruct x as [[n d] (Hn & Hi & Hlt)]. cbn in *. split_and!; cbn.
  - rewrite fmap_app. apply NoDup_app. split_and!; [done| |apply NoDup_singleton].
    intros i Hin ->%list_elem_of_singleton. apply list_elem_of_fmap in Hin as ([j y] & E & Hin).
    rewrite Forall_forall in Hlt. specialize (Hlt _ Hin). cbn in *. lia.
  - apply Forall_app. split; [done|]. by constructor.
  - apply Forall_app. split; [|constructor; [cbn; lia|done]].
    eapply Forall_impl; [exact Hlt|]. cbn. lia.
Defined.

Definition bulkDelete (ids : list nat) (x : t) : t.
Proof.
  exists (mkRaw (next (`x)) (filter (fun r => r.1 ∉ ids) (data (`x)))).
  destruct x as [[n d] (Hn & Hi & Hlt)]. cbn in *. split_and!; cbn.
  - eapply sublist_NoDup; [exact Hn|]. apply fmap_sublist, sublist_filter.
  - by apply Forall_filter.
  - by apply Forall_filter.
Defined.

Definition clear (x : t) : t.
Proof. exists (mkRaw (next (`x)) []). split_and!; constructor. Defined.
End MemTable.

#[export] Instance MemTable_LogTable : LogTable MemTable.t.
Proof.
  refine {| rows := fun x => MemTable.data (`x);
            table_add := MemTable.add;
            table_first := fun n x => (take n (MemTable.data (`x))).*2;
            table_bulkDelete := MemTable.bulkDelete;
            table_clear := MemTable.clear |}.
  - intros x. apply (proj2_sig x).
  - intros x. apply (proj2_sig x).
  - intros e x. by eexists.
  - done.
  - done.
  - done.
Defined.

(** ** The logger *)

(** [console] are the calls the original [console] methods received. *)
Record State (T : Type) := mkState {
  logs : T;
  isIntercepting : bool;
  isUnloading : bool;
  console : list (Level * list string)
}.
Arguments mkState {T}. Arguments logs {T}. Arguments isIntercepting {T}.
Arguments isUnloading {T}. Arguments console {T}.

Inductive Req := DbAdd (entry : DBClientLogEntry).

(** The key of the new row. *)
Definition Resp (_ : Req) : Type := nat.

(** An object literal as [JSON.stringify] sees it: [undefined] fields are left out. *)
Definition object_literal (fields : list (string * option json)) : json :=
  JObj (omap (fun f => v ← f.2; Some (f.1, v)) fields).

(** An argument of [console.warn] or [console.error]: an object with its
    serialised form, [None] when [JSON.stringify] throws, or another value with
    its printed form. *)
Inductive console_arg :=
| ArgObject (serialised : option json)
| ArgValue (printed : string).

(** [args.map((arg) => typeof arg === "object" ? JSON.stringify(arg) : String(arg)).join(" ")],
    [None] when it throws. *)
Definition arg_text (a : console_arg) : option string :=
  match a with
  | ArgObject o => stringify <$> o
  | ArgValue p => Some p
  end.

Definition args_message (args : list console_arg) : option string :=
  join " " <$> mapM arg_text args.

(** What an argument looks like on the console. *)
Definition arg_shown (a : console_arg) : string :=
  match a with ArgObject _ => "[object]" | ArgValue p => p end.

(** The element a click hit, as far as the listener reads it. *)
Record Element := mkElement {
  tagName : string;
  textContent : option string;
  element_id : string;
  className : string;
  classList : list string
}.

(** [slice(0, 50)] of the text, and the selector-like name of the element. *)
Definition click_text (button : Element) : string :=
  match textContent button with
  | Some t => slice_to 50 (trim t)
  | None => ""
  end.

Definition click_identifier (button : Element) : string :=
  let tag := toLowerCase (tagName button) in
  let id := if truthy (element_id button) then "#" +:+ element_id button else "" in
  let classes :=
    if truthy (className button)
    then "." +:+ join "." (List.filter (fun c => negb (String.eqb (trim c) "")) (classList button))
    else "" in
  tag +:+ id +:+ classes.

Section Logger.
Context {T : Type} `{LogTable T}.

(** [now] is [new Date().toISOString()], [jsonError] the error an impossible
    [JSON.stringify] throws. *)
Variable now : string.
Variable jsonError : thrown.

Abbreviation handler := (async (State T) Req Resp unit).
Local Open Scope async_scope.

Definition set_intercepting (b : bool) (s : State T) : State T :=
  mkState (logs s) b (isUnloading s) (console s).
Definition setIsUnloading (b : bool) (s : State T) : State T :=
  mkState (logs s) (isIntercepting s) b (console s).
Definition original (l : Level) (args : list string) (s : State T) : State T :=
  mkState (logs s) (isIntercepting s) (isUnloading s) (console s ++ [(l, args)]).

(** [metadataObj] is [None] when it cannot be serialised. *)
Definition addLogEntry (l : Level) (msg comp : string) (metadataObj : option json) : handler :=
  unloading <- gets isUnloading ;;
  if (unloading : bool) then Ret tt
  else
    try
      (meta <- match metadataObj with Some o => Ret (stringify o) | None => throw jsonError end ;;
       rpc (Resp := Resp) (DbAdd (mkDBClientLogEntry None l msg now comp meta)) ;;;
       Ret tt)
    catch (fun err => modify (original ERROR ["Failed to save log to Dexie:"%string])).

(** [if (isIntercepting) return; isIntercepting = true; try { body } finally
    { isIntercepting = false }], where [body] computes a message and calls
    [addLogEntry] without awaiting it: the [finally] block runs as soon as the
    call yields. *)
Definition intercepted (body : option handler) : handler :=
  intercepting <- gets isIntercepting ;;
  if (intercepting : bool) then Ret tt
  else
    modify (set_intercepting true) ;;;
    match body with
    | Some m => call m (modify (set_intercepting false))
    | None => modify (set_intercepting false) ;;; throw jsonError
    end.

Definition on_error (msg filename : string) (lineno colno : Z) (stack : option string) : handler :=
  intercepted (Some (addLogEntry ERROR (str_or msg "Unknown error") "WindowOnError"
    (Some (object_literal
      [("filename", Some (JStr filename)); ("lineno", Some (JNum lineno));
       ("colno", Some (JNum colno)); ("stack", JStr <$> stack)])))).

(** [reason] is [event.reason?.message], [printed] is [String(event.reason)]. *)
Definition on_unhandledrejection (reason : option string) (printed : string) (stack : option string) : handler :=
  let msg := str_or (default "" reason) printed in
  intercepted (Some (addLogEntry ERROR ("Unhandled Rejection: " +:+ msg) "WindowOnUnhandledRejection"
    (Some (object_literal [("stack", JStr <$> stack)])))).

Definition console_warn (args : list console_arg) : handler :=
  modify (original WARN (arg_shown <$> args)) ;;;
  intercepted (msg ← args_message args;
               Some (addLogEntry WARN msg "Console" (Some (JObj [])))).

(** [stack] is [new Error().stack]. *)
Definition console_error (stack : option string) (args : list console_arg) : handler :=
  modify (original ERROR (arg_shown <$> args)) ;;;
  intercepted (msg ← args_message args;
               Some (addLogEntry ERROR msg "Console"
                 (Some (object_literal [("stack", JStr <$> stack)])))).

(** [button] is [target.closest(...)] of the event's target. *)
Definition on_click (button : option Element) : handler :=
  match button with
  | None => Ret tt
  | Some button =>
      let tag := toLowerCase (tagName button) in
      call (addLogEntry INFO
        ("User clicked: " +:+ click_identifier button +:+ " (" +:+ quoted (click_text button) +:+ ")")
        "UserAction"
        (Some (object_literal
          [("tag", Some (JStr tag)); ("text", Some (JStr (click_text button)));
           ("id", if truthy (element_id button) then Some (JStr (element_id button)) else None);
           ("classes", if truthy (className button) then Some (JStr (className button)) else None)])))
        (Ret tt)
  end.

Definition on_unload : handler := modify (setIsUnloading true).

Definition logUserAction (action comp : string) (metadataObj : option json) : handler :=
  call (addLogEntry INFO action comp metadataObj) (Ret tt).

(** The listeners [initLogger] installs, and the exported functions. *)
Inductive event :=
| WindowError (msg filename : string) (lineno colno : Z) (stack : option string)
| UnhandledRejection (reason : option string) (printed : string) (stack : option string)
| ConsoleWarn (args : list console_arg)
| ConsoleError (stack : option string) (args : list console_arg)
| Click (button : option Element)
| Unload
| UserAction (action comp : string) (metadataObj : option json).

Definition on_event (e : event) : handler :=
  match e with
  | WindowError m f l c st => on_error m f l c st
  | UnhandledRejection r p st => on_unhandledrejection r p st
  | ConsoleWarn args => console_warn args
  | ConsoleError st args => console_error st args
  | Click b => on_click b
  | Unload => on_unload
  | UserAction a c m => logUserAction a c m
  end.

(** The entry an event records. *)
Definition recorded (e : event) : option (Level * string * string) :=
  match e with
  | WindowError m _ _ _ _ => Some (ERROR, str_or m "Unknown error", "WindowOnError"%string)
  | UnhandledRejection r p _ =>
      Some (ERROR, "Unhandled Rejection: " +:+ str_or (default "" r) p, "WindowOnUnhandledRejection"%string)
  | ConsoleWarn args => m ← args_message args; Some (WARN, m, "Console"%string)
  | ConsoleError _ args => m ← args_message args; Some (ERROR, m, "Console"%string)
  | Click None => None
  | Click (Some b) =>
      Some (INFO, "User clicked: " +:+ click_identifier b +:+ " (" +:+ quoted (click_text b) +:+ ")",
            "UserAction"%string)
  | Unload => None
  | UserAction a c (Some _) => Some (INFO, a, c)
  | UserAction _ _ None => None
  end.
End Logger.

(** ** Theorems *)

Lemma omap_keys_sublist (fields : list (string * option json)) :
  (omap (fun f => v ← f.2; Some (f.1, v)) fields).*1 `sublist_of` fields.*1.
Proof.
  induction fields as [|[k [v|]] fields IH]; cbn; [constructor|by constructor|by constructor].
Qed.

Lemma object_literal_wf (fields : list (string * option json)) :
  NoDup (fields.*1) -> Forall (fun f => forall v, f.2 = Some v -> wf v) fields ->
  wf (object_literal fields).
Proof.
  intros Hnd Hall. split; [eapply sublist_NoDup; [exact Hnd|apply omap_keys_sublist]|].
  clear Hnd. induction Hall as [|[k [v|]] fields Hf Hall IH]; [done| |exact IH].
  cbn. split; [by apply Hf|exact IH].
Qed.

Section LoggerTheorems.
Context {T : Type} `{LogTable T}.
Variable now : string.
Variable jsonError : thrown.

(** The metadata an event carries, with distinct keys. *)
Definition event_metadata_ok (e : event) : Prop :=
  match e with UserAction _ _ (Some o) => wf o | _ => True end.

(** What a listener leaves when it yields: a request to add an entry, whose
    answer, even a failure, ends it quietly. *)
Definition records (o : outcome (State T) Req Resp unit) (r : Level * string * string) : Prop :=
  exists entry k, o = Blocked (DbAdd entry) k /\
    (level entry, message entry, component entry) = r /\
    timestamp entry = now /\ id entry = None /\
    (exists meta, parse (metadata entry) = Some meta) /\
    forall answer s, exists s', exec (k answer) s = (s', Done tt) /\
      logs s' = logs s /\ isIntercepting s' = isIntercepting s /\ isUnloading s' = isUnloading s.

Lemma add_records (l : Level) (msg comp : string) (o : json) (f : State T -> State T) (s : State T) :
  isUnloading s = false -> wf o ->
  exists out, exec (call (addLogEntry now jsonError l msg comp (Some o)) (modify f)) s = (f s, out) /\
    records out (l, msg, comp).
Proof.
  intros Hu Ho. unfold addLogEntry. cbn. rewrite Hu. cbn. eexists. split; [reflexivity|].
  do 2 eexists. split; [reflexivity|]. split_and!; [done..| |].
  - exists o. by apply parse_stringify.
  - intros [i|e] s'; eexists; (split; [reflexivity|done]).
Qed.

Lemma add_records_ret (l : Level) (msg comp : string) (o : json) (s : State T) :
  isUnloading s = false -> wf o ->
  exists out, exec (call (addLogEntry now jsonError l msg comp (Some o)) (Ret tt)) s = (s, out) /\
    records out (l, msg, comp).
Proof.
  intros Hu Ho. destruct (add_records l msg comp o (fun s => s) s Hu Ho) as (out & E & Hr).
  unfold addLogEntry in *. cbn in *. rewrite Hu in *. cbn in *. eauto.
Qed.

Lemma fields_wf (fields : list (string * option json)) :
  bool_decide (NoDup (fields.*1)) = true -> Forall (fun f => forall v, f.2 = Some v -> wf v) fields ->
  wf (object_literal fields).
Proof. intros Hb. apply object_literal_wf. by apply bool_decide_eq_true in Hb. Qed.

Ltac solve_fields := apply fields_wf; [reflexivity|repeat constructor; cbn; try done;
  intros v; repeat case_match; intros; simplify_eq/=; try done;
  by match goal with H : JStr <$> ?o = Some _ |- _ => destruct o; simplify_eq/= end].

Lemma intercepted_exec (body : option (async (State T) Req Resp unit)) (s : State T) :
  isIntercepting s = false ->
  exec (intercepted jsonError body) s =
  match body with
  | Some m => exec (call m (modify (set_intercepting false))) (set_intercepting true s)
  | None => (set_intercepting false (set_intercepting true s), Failed jsonError)
  end.
Proof. intros Hi. unfold intercepted. cbn. rewrite Hi. by destruct body. Qed.

Lemma intercepted_records (l : Level) (msg comp : string) (o : json) (s : State T) :
  isIntercepting s = false -> isUnloading s = false -> wf o ->
  exists out, exec (intercepted jsonError (Some (addLogEntry now jsonError l msg comp (Some o)))) s =
      (set_intercepting false (set_intercepting true s), out) /\
    records out (l, msg, comp).
Proof. intros Hi Hu Ho. rewrite intercepted_exec by done. by apply add_records. Qed.

(** A console call, recorded under its level when its arguments have a text. *)
Lemma console_records (l : Level) (args : list console_arg) (o : json) (s : State T) :
  isIntercepting s = false -> isUnloading s = false -> wf o ->
  exists out, exec (intercepted jsonError (msg ← args_message args;
      Some (addLogEntry now jsonError l msg "Console" (Some o)))) (original l (arg_shown <$> args) s) =
      (set_intercepting false (set_intercepting true (original l (arg_shown <$> args) s)), out) /\
    match args_message args with Some msg => records out (l, msg, "Console"%string) | None => out = Failed jsonError end.
Proof.
  intros Hi Hu Ho. destruct (args_message args) as [msg|]; cbn [mbind option_bind].
  - by apply intercepted_records.
  - rewrite intercepted_exec by done. eauto.
Qed.

(** Outside an unload and outside another interception, every event asks
    the table to add exactly the entry it describes (level, text, component,
    time stamp, metadata that parses back), the interception mark is down when
    the listener returns, and a failure of the table never reaches the page;
    an event with nothing to record asks for nothing.  Console calls reach
    the original console first. *)
Theorem listener_spec (e : event) (s : State T) (Hi : isIntercepting s = false)
    (Hu : isUnloading s = false) (He : event_metadata_ok e) :
  exists s' o, exec (on_event now jsonError e) s = (s', o) /\
    logs s' = logs s /\ isIntercepting s' = false /\
    isUnloading s' = (match e with Unload => true | _ => false end) /\
    console s' = console s ++
      (match e with
       | ConsoleWarn args => [(WARN, arg_shown <$> args)]
       | ConsoleError _ args => [(ERROR, arg_shown <$> args)]
       | UserAction _ _ None => [(ERROR, ["Failed to save log to Dexie:"%string])]
       | _ => []
       end) /\
    match recorded e with
    | Some r => records o r
    | None => o = Done tt \/
              o = Failed jsonError /\ exists args, args_message args = None /\
                (e = ConsoleWarn args \/ exists st, e = ConsoleError st args)
    end.
Proof.
  destruct e as [m f ln c st|r p st|args|st args|[b|]| |a c [o|]]; cbn [on_event recorded].
  - destruct (intercepted_records ERROR (str_or m "Unknown error") "WindowOnError"
      (object_literal [("filename"%string, Some (JStr f)); ("lineno"%string, Some (JNum ln));
        ("colno"%string, Some (JNum c)); ("stack"%string, JStr <$> st)]) s) as (o & E & Hr);
      [done..|solve_fields|].
    do 2 eexists. split; [exact E|]. cbn. by rewrite app_nil_r.
  - edestruct (intercepted_records ERROR) as (o & E & Hr); [done..| |].
    2:{ do 2 eexists. split; [exact E|]. cbn. by rewrite app_nil_r. }
    solve_fields.
  - destruct (console_records WARN args (JObj []) s Hi Hu) as (o & E & Hr); [by split; [constructor|]|].
    do 2 eexists. split; [exact E|]. split_and!; [done..|]. cbn. destruct (args_message args) eqn:Em; cbn; [exact Hr|eauto 8].
  - destruct (console_records ERROR args (object_literal [("stack"%string, JStr <$> st)]) s Hi Hu)
      as (o & E & Hr); [solve_fields|].
    do 2 eexists. split; [exact E|]. split_and!; [done..|]. cbn. destruct (args_message args) eqn:Em; cbn; [exact Hr|eauto 8].
  - edestruct (add_records_ret INFO) as (o & E & Hr); [exact Hu| |].
    2:{ do 2 eexists. split; [exact E|]. by rewrite app_nil_r. }
    solve_fields.
  - do 2 eexists. split; [reflexivity|]. cbn. rewrite app_nil_r. split_and!; auto.
  - do 2 eexists. split; [reflexivity|]. cbn. rewrite app_nil_r. split_and!; auto.
  - edestruct (add_records_ret INFO a c o) as (out & E & Hr); [exact Hu|exact He|].
    do 2 eexists. split; [exact E|]. by rewrite app_nil_r.
  - do 2 eexists. unfold logUserAction, addLogEntry. cbn. rewrite Hu. cbn.
    split; [reflexivity|]. cbn. split_and!; auto.
Qed.

(** However events and answers of the table interleave, the interception
    mark is down whenever the page is idle, so the guard only ever silences
    what the logger itself prints; and once the page unloads it stays so. *)
Theorem interception_ends (s s' : State T)
    (Hi : isIntercepting s = false)
    (Hr : pool_reaches (fun m => exists e, event_metadata_ok e /\ m = on_event now jsonError e) s s') :
  isIntercepting s' = false /\ (isUnloading s = true -> isUnloading s' = true).
Proof.
  assert (isIntercepting s' = false /\ (isUnloading s = true -> isUnloading s' = true)); [|done].
  revert Hr. apply (pool_invariant
    (fun t => isIntercepting t = false /\ (isUnloading s = true -> isUnloading t = true))); [|by split].
  intros m (e & He & ->) t [Ht Hu]. destruct (isUnloading t) eqn:Eu.
  - apply guarantees_exec. 
    assert (exists s1 o, exec (on_event now jsonError e) t = (s1, o) /\ isIntercepting s1 = false /\
      isUnloading s1 = true /\ pending o = []) as (s1 & o & -> & H1 & H2 & H3).
    { destruct e as [m f ln c st|r p st|args|st args|[b|]| |a c [o|]];
        unfold on_event, on_error, on_unhandledrejection, console_warn, console_error, on_click,
          logUserAction, intercepted, addLogEntry; cbn; rewrite ?Ht; cbn;
        try (destruct (args_message args)); cbn; rewrite ?Eu; cbn; eauto 7. }
    by destruct o.
  - destruct (listener_spec e t Ht Eu He) as (s1 & o & E & H1 & H2 & H3 & _ & Ho).
    assert (isUnloading s = false) as Es. { destruct (isUnloading s); [|done]. discriminate Hu; done. }
    apply guarantees_exec. rewrite E. destruct (recorded e) as [r|].
    + destruct Ho as (entry & k & -> & _ & _ & _ & _ & Hk). split; [by rewrite Es|].
      intros a s2 [Hs2 _]. apply guarantees_exec. destruct (Hk a s2) as (s3 & -> & _ & E3 & _).
      by rewrite E3, Es.
    + by destruct Ho as [->|[-> _]]; rewrite Es.
Qed.

(** At most fifty characters of a clicked element's text are kept. *)
Lemma click_text_bound (b : Element) : slen (click_text b) <= 50.
Proof. unfold click_text. destruct (textContent b); [rewrite slice_to_length; lia|cbn; lia]. Qed.
End LoggerTheorems.

Lemma listener_spec_witness :
  let s : State MemTable.t := mkState MemTable.empty false false [] in
  exists s' o, exec (on_event "2026-01-01T00:00:00.000Z" (JsError "cycle")
      (ConsoleWarn [ArgValue "disk"; ArgObject (Some (JArr [JNum 3]))])) s = (s', o) /\
    logs s' = logs s /\ isIntercepting s' = false /\ isUnloading s' = false /\
    console s' = [(WARN, ["disk"; "[object]"])] /\
    records "2026-01-01T00:00:00.000Z" o (WARN, "disk [3]", "Console").
Proof.
  intros s.
  apply (listener_spec "2026-01-01T00:00:00.000Z" (JsError "cycle")
    (ConsoleWarn [ArgValue "disk"; ArgObject (Some (JArr [JNum 3]))]) s); reflexivity || exact I.
Defined.

Lemma interception_ends_witness :
  let s : State MemTable.t := mkState MemTable.empty false false [] in
  isIntercepting (exec (on_event (T := MemTable.t) "now" (JsError "cycle") Unload) s).1 = false /\
  (isUnloading s = true -> isUnloading (exec (on_event (T := MemTable.t) "now" (JsError "cycle") Unload) s).1 = true).
Proof.
  intros s. apply (interception_ends "now" (JsError "cycle") s); [reflexivity|].
  eexists. eapply rtc_l; [|apply rtc_refl]. eapply pool_start. exists Unload. split; [exact I|reflexivity].
Defined.
