(* ===== verification/Syncer.v ===== *)
(** Sending the log to the server (frontend/src/services/syncer.ts): the loop of
    idle callbacks and timers, and one synchronisation as the states its
    [while (true)] loop awaits in. *)
From S2P Require Import Prelude Async Proto Logger.

(** Where a running [syncPendingLogs] waits. *)
Inductive phase :=
| Reading
| Sending (entries : list DBClientLogEntry)
| Deleting (entries : list DBClientLogEntry)
| Clearing.

(** [idle] counts the idle callbacks the browser holds, [timers] its timers. *)
Record State (T : Type) := mkState {
  table : T;
  isSyncing : bool;
  syncing : option phase;
  syncTimeoutId : option nat;
  idle : nat;
  timers : gset nat;
  nextTimer : nat
}.
Arguments mkState {T}. Arguments table {T}. Arguments isSyncing {T}. Arguments syncing {T}.
Arguments syncTimeoutId {T}. Arguments idle {T}. Arguments timers {T}. Arguments nextTimer {T}.

Definition level_name (l : Level) : string :=
  match l with DEBUG => "DEBUG" | INFO => "INFO" | WARN => "WARN" | ERROR => "ERROR" end.

(** An entry on the wire. *)
Definition proto_entry (e : DBClientLogEntry) : ClientLogEntry :=
  mkClientLogEntry (level_name (level e)) (message e) (timestamp e) (component e) (metadata e).

Definition batchSize : nat := 50.

(** The request a batch is sent in. *)
Definition sync_request (entries : list DBClientLogEntry) : SyncLogsRequest :=
  mkSyncLogsRequest (proto_entry <$> entries).

Section Syncer.
Context {T : Type} `{LogTable T}.

Definition setPhase (p : phase) (s : State T) : State T :=
  mkState (table s) (isSyncing s) (Some p) (syncTimeoutId s) (idle s) (timers s) (nextTimer s).
Definition setTable (t : T) (s : State T) : State T :=
  mkState t (isSyncing s) (syncing s) (syncTimeoutId s) (idle s) (timers s) (nextTimer s).
Definition addIdle (s : State T) : State T :=
  mkState (table s) (isSyncing s) (syncing s) (syncTimeoutId s) (S (idle s)) (timers s) (nextTimer s).

(** [syncTimeoutId = setTimeout(run, intervalMs)] *)
Definition set_timer (s : State T) : State T :=
  mkState (table s) (isSyncing s) (syncing s) (Some (nextTimer s)) (idle s)
    ({[nextTimer s]} ∪ timers s) (S (nextTimer s)).

(** The [finally] block, then the statement after the awaited call. *)
Definition finish (s : State T) : State T :=
  set_timer (mkState (table s) false None (syncTimeoutId s) (idle s) (timers s) (nextTimer s)).

(** The idle callback: [await syncPendingLogs()], which returns at once when
    one is running, then the timer. *)
Definition idle_callback (s : State T) : State T :=
  let s := mkState (table s) (isSyncing s) (syncing s) (syncTimeoutId s) (pred (idle s))
             (timers s) (nextTimer s) in
  if isSyncing s then set_timer s
  else mkState (table s) true (Some Reading) (syncTimeoutId s) (idle s) (timers s) (nextTimer s).

Definition startSyncer (s : State T) : State T :=
  match syncTimeoutId s with Some _ => s | None => addIdle s end.

Definition stopSyncer (s : State T) : State T :=
  match syncTimeoutId s with
  | Some t => mkState (table s) (isSyncing s) (syncing s) None (idle s) (timers s ∖ {[t]}) (nextTimer s)
  | None => s
  end.

(** The callback [run] of timer [t]. *)
Definition timer_fires (t : nat) (s : State T) : State T :=
  addIdle (mkState (table s) (isSyncing s) (syncing s) (syncTimeoutId s) (idle s)
             (timers s ∖ {[t]}) (nextTimer s)).

(** [entries.map((e) => e.id).filter((id) => id !== undefined)] *)
Definition idsToDelete (entries : list DBClientLogEntry) : list nat := omap id entries.

(** The table answers, or fails. *)
Definition batch_read (ok : bool) (s : State T) : State T :=
  if ok then
    let entries := table_first batchSize (table s) in
    if length entries =? 0 then finish s else setPhase (Sending entries) s
  else finish s.

(** The loop after a batch was acknowledged and its rows deleted. *)
Definition batch_done (entries : list DBClientLogEntry) (s : State T) : State T :=
  if length entries <? batchSize then finish s else setPhase Reading s.

Definition batch_sent (entries : list DBClientLogEntry)
    (answer : SyncLogsResponse + thrown) (s : State T) : State T :=
  match answer with
  | inl response =>
      if (0 <? SyncLogsResponse_processedCount response)%Z then
        if 0 <? length (idsToDelete entries) then setPhase (Deleting entries) s
        else batch_done entries s
      else finish s
  | inr (ConnectErr code _ _) =>
      if Z.eqb code Unauthenticated then setPhase Clearing s else finish s
  | inr _ => finish s
  end.

Definition batch_deleted (entries : list DBClientLogEntry) (ok : bool) (s : State T) : State T :=
  if ok then
    batch_done entries (setTable (table_bulkDelete (idsToDelete entries) (table s)) s)
  else finish s.

Definition queue_cleared (ok : bool) (s : State T) : State T :=
  finish (if ok then setTable (table_clear (table s)) s else s).

(** What happens, in the order it happens. *)
Inductive label :=
| LStart
| LStop
| LIdle
| LTimer (t : nat)
| LAdd (e : DBClientLogEntry)
| LRead (ok : bool)
| LSync (entries : list DBClientLogEntry) (answer : SyncLogsResponse + thrown)
| LDelete (ok : bool)
| LClear (ok : bool).

Inductive step : State T -> label -> State T -> Prop :=
| step_start s : step s LStart (startSyncer s)
| step_stop s : step s LStop (stopSyncer s)
| step_idle s : 0 < idle s -> step s LIdle (idle_callback s)
| step_timer s t : t ∈ timers s -> step s (LTimer t) (timer_fires t s)
| step_add s e : step s (LAdd e) (setTable (table_add e (table s)) s)
| step_read s ok : syncing s = Some Reading -> step s (LRead ok) (batch_read ok s)
| step_sync s es a : syncing s = Some (Sending es) -> step s (LSync es a) (batch_sent es a s)
| step_delete s es ok :
    syncing s = Some (Deleting es) -> step s (LDelete ok) (batch_deleted es ok s)
| step_clear s ok : syncing s = Some Clearing -> step s (LClear ok) (queue_cleared ok s).

Inductive trace : State T -> list label -> State T -> Prop :=
| trace_nil s : trace s [] s
| trace_snoc s l s1 tr s2 : trace s tr s1 -> step s1 l s2 -> trace s (tr ++ [l]) s2.

(** The modules just loaded, over the table as the browser kept it. *)
Definition initial (t : T) : State T := mkState t false None None 0 ∅ 0.

(** One synchronisation on its own, against a table that answers and a server
    given by [answer]; the batches it sends, in order. *)
Fixpoint drain (fuel : nat) (answer : SyncLogsRequest -> SyncLogsResponse + thrown) (s : State T) :
    State T * list (list DBClientLogEntry) :=
  match fuel, syncing s with
  | S fuel, Some Reading => drain fuel answer (batch_read true s)
  | S fuel, Some (Sending es) =>
      let '(s', sent) := drain fuel answer (batch_sent es (answer (sync_request es)) s) in (s', es :: sent)
  | S fuel, Some (Deleting es) => drain fuel answer (batch_deleted es true s)
  | S fuel, Some Clearing => drain fuel answer (queue_cleared true s)
  | _, _ => (s, [])
  end.

(** ** Invariants *)

(** [isSyncing] marks the one synchronisation under way; a batch under way is
    at most [batchSize] entries, each with its key, and not empty. *)
Definition batch_ok (es : list DBClientLogEntry) : Prop :=
  0 < length es <= batchSize /\ Forall (fun e => is_Some (id e)) es.

Definition phase_ok (s : State T) : Prop :=
  isSyncing s = bool_decide (is_Some (syncing s)) /\
  match syncing s with Some (Sending es) | Some (Deleting es) => batch_ok es | _ => True end.

Definition timers_ok (s : State T) : Prop :=
  (forall t, t ∈ timers s -> t < nextTimer s) /\
  (forall t, syncTimeoutId s = Some t -> t < nextTimer s).

(** The loops alive: waiting to be idle, synchronising or waiting for a timer. *)
Definition loops (s : State T) : nat :=
  idle s + (match syncing s with Some _ => 1 | None => 0 end) + size (timers s).

Lemma first_ids (n : nat) (t : T) : Forall (fun e => is_Some (id e)) (table_first n t).
Proof.
  rewrite rows_first. pose proof (rows_ids t) as Hi. rewrite Forall_fmap.
  apply Forall_take. eapply Forall_impl; [exact Hi|]. intros r E. cbn. rewrite E. eauto.
Qed.

Lemma first_length (n : nat) (t : T) : length (table_first n t) <= n.
Proof. rewrite rows_first, length_fmap, length_take. lia. Qed.

Lemma finish_ok (s : State T) : phase_ok (finish s).
Proof. by split. Qed.

Lemma batch_done_ok es (s : State T) :
  isSyncing s = true -> phase_ok (batch_done es s).
Proof. unfold batch_done. case_match; [by intros; apply finish_ok|]. intros Hs. by split. Qed.

Lemma step_phase_ok (s s' : State T) (l : label) : step s l s' -> phase_ok s -> phase_ok s'.
Proof.
  intros Hstep [Hs Hp]. destruct Hstep as [s|s|s Hi|s t Ht|s e|s ok E|s es a E|s es ok E|s ok E].
  - unfold startSyncer. by destruct (syncTimeoutId s).
  - unfold stopSyncer. by destruct (syncTimeoutId s).
  - unfold idle_callback. cbn. destruct (isSyncing s) eqn:Es; [split; cbn; congruence || done|by split].
  - by split.
  - by split.
  - unfold batch_read. destruct ok; [|apply finish_ok].
    destruct (Nat.eqb_spec (length (table_first batchSize (table s))) 0) as [El|El]; [apply finish_ok|]. split; [cbn; by rewrite Hs, E|]. cbn. split; [|apply first_ids].
    pose proof (first_length batchSize (table s)). lia.
  - rewrite E in Hs, Hp. unfold batch_sent. destruct a as [resp|[c r m|m|m]]; try apply finish_ok.
    + destruct (0 <? _)%Z; [|apply finish_ok].
      destruct (0 <? _); [by split|by apply batch_done_ok].
    + destruct (c =? _)%Z; [by split|apply finish_ok].
  - rewrite E in Hs. unfold batch_deleted. destruct ok; [by apply batch_done_ok|apply finish_ok].
  - apply finish_ok.
Qed.

(** *** Loops *)

Lemma set_timer_ok (s : State T) : timers_ok s -> timers_ok (set_timer s) /\
  size (timers (set_timer s)) = S (size (timers s)).
Proof.
  intros [Ht Hi]. split; [split; cbn|].
  - intros t. rewrite elem_of_union, elem_of_singleton. intros [->|Hin]; [lia|]. specialize (Ht _ Hin). lia.
  - intros t [= <-]. lia.
  - cbn. apply size_insert. intros Hin. specialize (Ht _ Hin). lia.
Qed.

(** Every function but the timer's leaves the timers alone. *)
Lemma timers_ok_same (s s' : State T) :
  timers s' = timers s -> nextTimer s' = nextTimer s -> syncTimeoutId s' = syncTimeoutId s ->
  timers_ok s -> timers_ok s'.
Proof. unfold timers_ok. by intros -> -> ->. Qed.

Lemma finish_timers (s : State T) :
  timers_ok s -> timers_ok (finish s) /\ loops (finish s) = idle s + S (size (timers s)).
Proof.
  intros Ht. destruct (set_timer_ok (mkState (table s) false None (syncTimeoutId s) (idle s)
    (timers s) (nextTimer s)) Ht) as [H1 H2].
  split; [exact H1|]. unfold loops, finish. rewrite H2. cbn. lia.
Qed.

Lemma batch_done_timers es (s : State T) :
  timers_ok s -> timers_ok (batch_done es s) /\
  loops (batch_done es s) = idle s + S (size (timers s)).
Proof.
  intros Ht. unfold batch_done. case_match; [by apply finish_timers|].
  split; [by apply timers_ok_same with s|]. unfold loops. cbn. lia.
Qed.

(** The effect of each label on the number of loops. *)
Definition loops_after (l : label) (s : State T) : nat :=
  match l with
  | LStart => loops s + (match syncTimeoutId s with Some _ => 0 | None => 1 end)
  | LStop => loops s - (match syncTimeoutId s with
                        | Some t => if bool_decide (t ∈ timers s) then 1 else 0 | None => 0 end)
  | _ => loops s
  end.

Lemma step_loops (s s' : State T) (l : label) :
  step s l s' -> timers_ok s -> phase_ok s -> timers_ok s' /\ loops s' = loops_after l s.
Proof.
  intros Hstep Ht [Hs Hp].
  destruct Hstep as [s|s|s Hi|s t Hin|s e|s ok E|s es a E|s es ok E|s ok E]; cbn [loops_after].
  - unfold startSyncer. destruct (syncTimeoutId s) eqn:E; [split; [done|lia]|].
    split; [by apply timers_ok_same with s|]. unfold loops. cbn. lia.
  - clear Hs. unfold stopSyncer. destruct (syncTimeoutId s) as [t|] eqn:E; [|split; [done|lia]]. split.
    + destruct Ht as [Ht _]. split; cbn; [|done]. intros t' Hin. apply Ht. set_solver.
    + unfold loops. cbn. case_bool_decide as Hin.
      * pose proof (size_remove t (timers s) Hin). lia.
      * replace (timers s ∖ {[t]}) with (timers s) by set_solver. lia.
  - unfold idle_callback. set (s1 := mkState _ _ _ _ _ _ _). change (isSyncing s1) with (isSyncing s).
    assert (timers_ok s1) as Ht1 by by apply timers_ok_same with s.
    destruct (isSyncing s) eqn:Es.
    + destruct (set_timer_ok s1 Ht1) as [H1 H2]. split; [done|]. unfold loops. rewrite H2. cbn. lia.
    + destruct (syncing s) eqn:Ey; [done|].
      split; [by apply timers_ok_same with s|]. unfold loops. cbn. rewrite Ey. lia.
  - split.
    + destruct Ht as [Ht Hi]. split; cbn; [|done]. intros t' Hin'. apply Ht. set_solver.
    + unfold loops. cbn. pose proof (size_remove t (timers s) Hin). lia.
  - split; [by apply timers_ok_same with s|done].
  - assert (loops s = idle s + S (size (timers s))) as -> by (unfold loops; rewrite E; lia).
    unfold batch_read. destruct ok; [|by apply finish_timers]. destruct (_ =? _); [by apply finish_timers|].
    split; [by apply timers_ok_same with s|]. unfold loops. cbn. lia.
  - assert (loops s = idle s + S (size (timers s))) as -> by (unfold loops; rewrite E; lia).
    assert (forall p, timers_ok (setPhase p s) /\ loops (setPhase p s) = idle s + S (size (timers s))) as Hp'.
    { intros p. split; [by apply timers_ok_same with s|]. unfold loops. cbn. lia. }
    unfold batch_sent. destruct a as [resp|[c r m|m|m]]; try by apply finish_timers.
    + destruct (0 <? _)%Z; [|by apply finish_timers].
      destruct (0 <? _); [done|by apply batch_done_timers].
    + destruct (c =? _)%Z; [done|by apply finish_timers].
  - assert (loops s = idle s + S (size (timers s))) as -> by (unfold loops; rewrite E; lia).
    unfold batch_deleted. destruct ok; [|by apply finish_timers].
    by apply (batch_done_timers es (setTable (table_bulkDelete (idsToDelete es) (table s)) s)).
  - assert (loops s = idle s + S (size (timers s))) as -> by (unfold loops; rewrite E; lia).
    unfold queue_cleared. destruct ok; [|by apply finish_timers].
    by apply (finish_timers (setTable (table_clear (table s)) s)).
Qed.

Lemma trace_ok (s s' : State T) (tr : list label) :
  trace s tr s' -> phase_ok s -> timers_ok s -> phase_ok s' /\ timers_ok s'.
Proof.
  induction 1 as [|s l s1 tr s2 Htr IH Hstep]; [done|]. intros Hp Ht.
  destruct (IH Hp Ht) as [Hp1 Ht1]. split; [by eapply step_phase_ok|by eapply step_loops].
Qed.

Lemma initial_ok (t : T) : phase_ok (initial t) /\ timers_ok (initial t).
Proof. split; [by split|]. split; cbn; [set_solver|done]. Qed.

(** *** Rows *)

(** An entry the server acknowledged, or may have dropped: the session it
    belonged to was over. *)
Definition acked (e : DBClientLogEntry) (tr : list label) : Prop :=
  exists es response, LSync es (inl response) ∈ tr /\
    (0 < SyncLogsResponse_processedCount response)%Z /\ e ∈ es.

Definition session_over (tr : list label) : Prop :=
  exists es raw m, LSync es (inr (ConnectErr Unauthenticated raw m)) ∈ tr.

Definition kept (e : DBClientLogEntry) (tr : list label) (s : State T) : Prop :=
  (exists i, (i, e) ∈ rows (table s)) \/ acked e tr \/ session_over tr.

(** The batch under way was read from rows still in the table; once sent for
    deletion it was acknowledged, and the queue is cleared for one reason. *)
Definition batch_inv (tr : list label) (s : State T) : Prop :=
  match syncing s with
  | Some (Sending es) => Forall (fun e => exists i, id e = Some i /\ (i, e) ∈ rows (table s)) es
  | Some (Deleting es) =>
      Forall (fun e => exists i, id e = Some i /\ (i, e) ∈ rows (table s)) es /\
      Forall (fun e => acked e tr) es
  | Some Clearing => session_over tr
  | _ => True
  end.

Lemma acked_snoc e tr l : acked e tr -> acked e (tr ++ [l]).
Proof. intros (es & r & Hin & ?). exists es, r. rewrite elem_of_app. auto. Qed.
Lemma session_over_snoc tr l : session_over tr -> session_over (tr ++ [l]).
Proof. intros (es & r & m & Hin). exists es, r, m. rewrite elem_of_app. auto. Qed.

Lemma kept_same e tr l (s s' : State T) :
  (forall i, (i, e) ∈ rows (table s) -> (i, e) ∈ rows (table s')) ->
  kept e tr s -> kept e (tr ++ [l]) s'.
Proof.
  intros Hin [[i Hi]|[Ha|Hs]]; [left; eauto|right; left; by apply acked_snoc|].
  right; right. by apply session_over_snoc.
Qed.

Lemma batch_inv_none tr (s : State T) : syncing s = None -> batch_inv tr s.
Proof. intros E. unfold batch_inv. by rewrite E. Qed.

Lemma batch_inv_other tr l (s s' : State T) :
  syncing s' = syncing s -> (forall r, r ∈ rows (table s) -> r ∈ rows (table s')) ->
  batch_inv tr s -> batch_inv (tr ++ [l]) s'.
Proof.
  unfold batch_inv. intros -> Hin.
  assert (forall es, Forall (fun e => exists i, id e = Some i /\ (i, e) ∈ rows (table s)) es ->
    Forall (fun e => exists i, id e = Some i /\ (i, e) ∈ rows (table s')) es) as Hes.
  { intros es. apply Forall_impl'. naive_solver. }
  destruct (syncing s) as [[|es|es|]|]; try done; [by apply Hes| |by apply session_over_snoc].
  intros [H1 H2]. split; [by apply Hes|]. revert H2. apply Forall_impl'. intros e. apply acked_snoc.
Qed.

Lemma key_unique (t : T) i e e' : (i, e) ∈ rows t -> (i, e') ∈ rows t -> e = e'.
Proof.
  pose proof (rows_keys t) as Hn. revert Hn. generalize (rows t) as l. intros l Hn Hi Hi'.
  induction l as [|[j x] l IH]; [by apply not_elem_of_nil in Hi|].
  cbn in Hn. apply NoDup_cons in Hn as [Hj Hn].
  assert (forall y, (j, y) ∈ l -> False) as Hf.
  { intros y Hy. apply Hj. by apply (list_elem_of_fmap_2 fst) in Hy. }
  apply elem_of_cons in Hi as [Hi|Hi]; apply elem_of_cons in Hi' as [Hi'|Hi']; simplify_eq; try done.
  - by apply Hf in Hi'.
  - by apply Hf in Hi.
  - by apply IH.
Qed.

Lemma first_rows_in (n : nat) (t : T) :
  Forall (fun e => exists i, id e = Some i /\ (i, e) ∈ rows t) (table_first n t).
Proof.
  rewrite rows_first, Forall_fmap. apply Forall_forall. intros [i e] Hin. cbn.
  assert ((i, e) ∈ rows t) as Hr.
  { rewrite <-(take_drop n (rows t)). apply elem_of_app. by left. }
  exists i. split; [|done]. pose proof (rows_ids t) as Hi. rewrite Forall_forall in Hi. by apply (Hi _ Hr).
Qed.

Lemma table_finish (s : State T) : table (finish s) = table s /\ syncing (finish s) = None.
Proof. done. Qed.

(** A deletion takes only rows of the batch. *)
Lemma kept_delete e tr l es (s : State T) :
  Forall (fun e => exists i, id e = Some i /\ (i, e) ∈ rows (table s)) es ->
  Forall (fun e => acked e tr) es ->
  kept e tr s -> kept e (tr ++ [l]) (setTable (table_bulkDelete (idsToDelete es) (table s)) s).
Proof.
  intros Hes Hack [[i Hi]|[Ha|Hs]]; [|right; left; by apply acked_snoc|right; right; by apply session_over_snoc].
  destruct (decide (i ∈ idsToDelete es)) as [Hin|Hin].
  - right; left. apply acked_snoc. unfold idsToDelete in Hin.
    apply list_elem_of_omap in Hin as (e' & He' & Hid).
    rewrite Forall_forall in Hes, Hack. destruct (Hes _ He') as (i' & Hid' & Hr).
    assert (i' = i) as -> by congruence. rewrite (key_unique _ _ _ _ Hi Hr). by apply Hack.
  - left. exists i. cbn. rewrite rows_bulkDelete. by apply list_elem_of_filter.
Qed.

(** Steps that keep the table: the loop where it was, or between batches. *)
Lemma rows_same tr l (s s' : State T) :
  syncing s' = syncing s -> table s' = table s -> batch_inv tr s ->
  batch_inv (tr ++ [l]) s' /\ forall e, kept e tr s -> kept e (tr ++ [l]) s'.
Proof.
  intros Hy Ht Hb. split; [eapply batch_inv_other; [done| |done]; by rewrite Ht|].
  intros e. apply kept_same. by rewrite Ht.
Qed.

Lemma rows_between tr l (s s' : State T) :
  syncing s' = None \/ syncing s' = Some Reading -> table s' = table s ->
  batch_inv (tr ++ [l]) s' /\ forall e, kept e tr s -> kept e (tr ++ [l]) s'.
Proof.
  intros Hy Ht. split; [unfold batch_inv; by destruct Hy as [->| ->]|].
  intros e. apply kept_same. by rewrite Ht.
Qed.

Lemma batch_done_between es (s : State T) :
  (syncing (batch_done es s) = None \/ syncing (batch_done es s) = Some Reading) /\
  table (batch_done es s) = table s.
Proof. unfold batch_done. case_match; cbn; auto. Qed.

Lemma step_rows (s s' : State T) (l : label) (tr : list label) :
  step s l s' -> batch_inv tr s ->
  batch_inv (tr ++ [l]) s' /\ forall e, kept e tr s -> kept e (tr ++ [l]) s'.
Proof.
  intros Hstep Hb. destruct Hstep as [s|s|s Hi|s t Hin|s e|s ok E|s es a E|s es ok E|s ok E].
  - unfold startSyncer. destruct (syncTimeoutId s); by apply rows_same.
  - unfold stopSyncer. destruct (syncTimeoutId s); by apply rows_same.
  - unfold idle_callback. cbn. destruct (isSyncing s); [by apply rows_same|]. apply rows_between; cbn; auto.
  - by apply rows_same.
  - assert (forall r, r ∈ rows (table s) -> r ∈ rows (table_add e (table s))) as Hr.
    { intros r Hr. destruct (rows_add e (table s)) as [i ->]. apply elem_of_app. by left. }
    split; [by eapply batch_inv_other; [| |exact Hb]|]. intros e'. apply kept_same. intros i. apply Hr.
  - unfold batch_read. destruct ok; [|by apply rows_between; auto]. destruct (_ =? _); [by apply rows_between; auto|].
    split; [apply first_rows_in|]. intros e. by apply kept_same.
  - unfold batch_inv in Hb. rewrite E in Hb. unfold batch_sent.
    destruct a as [resp|[c r m|m|m]]; try by apply rows_between; auto.
    + destruct (Z.ltb_spec 0 (SyncLogsResponse_processedCount resp)) as [Hpc|]; [|by apply rows_between; auto].
      destruct (0 <? _); [|by apply rows_between; apply batch_done_between]. split; [|intros e; by apply kept_same].
      split; [done|]. apply Forall_forall. intros e He. exists es, resp. split_and!; [|done|done].
      apply elem_of_app. right. by apply list_elem_of_singleton.
    + destruct (Z.eqb_spec c Unauthenticated) as [->|]; [|by apply rows_between; auto].
      split; [|intros e; by apply kept_same]. exists es, r, m.
      apply elem_of_app. right. by apply list_elem_of_singleton.
  - unfold batch_inv in Hb. rewrite E in Hb. destruct Hb as [H1 H2]. unfold batch_deleted.
    destruct ok; [|by apply rows_between; auto]. destruct (batch_done_between es (setTable (table_bulkDelete (idsToDelete es) (table s)) s)) as [Hy Ht].
    split; [unfold batch_inv; by destruct Hy as [->| ->]|]. intros e Hk.
    apply (kept_delete e tr (LDelete true) es s H1 H2) in Hk. unfold kept in *. by rewrite Ht.
  - unfold batch_inv in Hb. rewrite E in Hb. unfold queue_cleared. split; [by destruct ok|].
    intros e _. right; right. by apply session_over_snoc.
Qed.

Lemma trace_rows (s s' : State T) (tr0 tr : list label) :
  trace s tr s' -> batch_inv tr0 s ->
  batch_inv (tr0 ++ tr) s' /\ forall e, kept e tr0 s -> kept e (tr0 ++ tr) s'.
Proof.
  induction 1 as [|s l s1 tr s2 Htr IH Hstep]; intros Hb; [by rewrite app_nil_r|].
  destruct (IH Hb) as [Hb1 Hk1]. rewrite app_assoc.
  destruct (step_rows _ _ _ (tr0 ++ tr) Hstep Hb1) as [Hb2 Hk2]. eauto.
Qed.

(** C6: No entry is lost: an entry in the table at one moment is, at any later
    moment, still in the table or in a batch the server acknowledged, unless
    the server refused a batch because the session was over.  This holds
    under every interleaving of additions, timers, starts and stops, failures
    of the table and other failures of the server. *)
Theorem no_entry_lost (t : T) (tr1 tr2 : list label) (s1 s2 : State T)
    (H1 : trace (initial t) tr1 s1) (H2 : trace s1 tr2 s2)
    (i : nat) (e : DBClientLogEntry) (He : (i, e) ∈ rows (table s1)) :
  (exists j, (j, e) ∈ rows (table s2)) \/ acked e (tr1 ++ tr2) \/ session_over (tr1 ++ tr2).
Proof.
  destruct (trace_rows _ _ [] tr1 H1) as [Hb1 _]; [done|].
  destruct (trace_rows _ _ tr1 tr2 H2 Hb1) as [_ Hk]. apply Hk. left. eauto.
Qed.

Lemma trace_snoc_inv (s s2 : State T) (tr : list label) (l : label) :
  trace s (tr ++ [l]) s2 -> exists s1, trace s tr s1 /\ step s1 l s2.
Proof.
  intros Htr. remember (tr ++ [l]) as tr' eqn:E. destruct Htr as [s|s l' s1 tr' s2 Htr Hstep].
  - by destruct tr.
  - apply app_inj_tail in E as [-> ->]. eauto.
Qed.

Lemma trace_nil_inv (s s2 : State T) : trace s [] s2 -> s2 = s.
Proof. intros Htr. remember [] as tr eqn:E. destruct Htr as [s|s l s1 tr s2]; [done|by destruct tr]. Qed.

(** One synchronisation at most is under way, with a batch of one to fifty
    entries; and once the loop was started it is alive for ever and never
    doubled, as long as it is neither started again nor stopped: waiting to
    be idle, synchronising, or waiting for its timer. *)
Theorem one_loop (t : T) (tr : list label) (s : State T)
    (Htrace : trace (initial t) (LStart :: tr) s) (Hs : LStart ∉ tr) (Ht : LStop ∉ tr) :
  loops s = 1 /\
  isSyncing s = bool_decide (is_Some (syncing s)) /\
  (forall es, syncing s = Some (Sending es) -> 0 < length es <= 50).
Proof.
  destruct (initial_ok t) as [Hp0 Ht0].
  destruct (trace_ok _ _ _ Htrace Hp0 Ht0) as [[Hi Hp] _].
  split; [|split; [done|intros es E; rewrite E in Hp; apply Hp]]. clear Hi Hp.
  revert s Htrace. induction tr as [|l tr IH] using rev_ind; intros s Htrace.
  - apply (trace_snoc_inv _ _ []) in Htrace as (s1 & ->%trace_nil_inv & Hstep). by inversion Hstep.
  - rewrite not_elem_of_app, not_elem_of_cons in Hs, Ht.
    apply (trace_snoc_inv _ _ (LStart :: tr)) in Htrace as (s1 & Htr & Hstep).
    destruct (trace_ok _ _ _ Htr Hp0 Ht0) as [Hp1 Ht1].
    destruct (step_loops _ _ _ Hstep Ht1 Hp1) as [_ ->].
    rewrite <-(IH (proj1 Hs) (proj1 Ht) _ Htr). destruct l; try done; naive_solver.
Qed.

(** Starting the loop before its first timer is set starts a second one,
    and stopping it while it waits to be idle or synchronises has no effect:
    the timer it sets afterwards keeps it alive. *)
Theorem start_stop_races (t : T) :
  (exists s, trace (initial t) [LStart; LStart] s /\ loops s = 2) /\
  (exists s, trace (initial t) [LStart; LIdle; LStop; LRead false] s /\
     loops s = 1 /\ timers s <> ∅ /\ syncTimeoutId s <> None).
Proof.
  split.
  - eexists. split.
    + change [LStart; LStart] with (([] ++ [LStart]) ++ [LStart]).
      repeat eapply trace_snoc; [apply trace_nil|apply step_start..].
    + done.
  - eexists. split.
    + change [LStart; LIdle; LStop; LRead false] with (((([] ++ [LStart]) ++ [LIdle]) ++ [LStop]) ++ [LRead false]).
      repeat eapply trace_snoc; [apply trace_nil|apply step_start|apply step_idle|apply step_stop|apply step_read];
        cbn; [lia|reflexivity].
    + cbn. split_and!; [|set_solver|done]. unfold loops. cbn. rewrite union_empty_r_L. done.
Qed.

(** *** Draining *)

Lemma ids_rows (l : list (nat * DBClientLogEntry)) :
  Forall (fun r => id r.2 = Some r.1) l -> omap id l.*2 = l.*1.
Proof. induction 1 as [|[i e] l E Hl IH]; [done|]. cbn in *. rewrite E. by f_equal. Qed.

Lemma filter_keys (l1 l2 : list (nat * DBClientLogEntry)) :
  NoDup (l1 ++ l2).*1 -> filter (fun r => r.1 ∉ l1.*1) (l1 ++ l2) = l2.
Proof.
  rewrite fmap_app. intros (_ & Hd & _)%NoDup_app. rewrite filter_app.
  rewrite filter_none, filter_all; [done| |].
  - intros r Hr Hin. apply (Hd _ Hin). by apply list_elem_of_fmap_2.
  - intros r Hr Hin. apply Hin. by apply list_elem_of_fmap_2.
Qed.

Lemma delete_first (n : nat) (t : T) :
  rows (table_bulkDelete (idsToDelete (table_first n t)) t) = drop n (rows t).
Proof.
  rewrite rows_bulkDelete. unfold idsToDelete. rewrite rows_first, ids_rows.
  - pose proof (filter_keys (take n (rows t)) (drop n (rows t))) as Hf.
    rewrite take_drop in Hf. apply Hf, rows_keys.
  - apply Forall_take, rows_ids.
Qed.

Lemma drain_all (answer : SyncLogsRequest -> SyncLogsResponse + thrown)
    (Hack : forall q, 0 < length (SyncLogsRequest_entries q) <= 50 -> exists response, answer q = inl response /\
      (0 < SyncLogsResponse_processedCount response)%Z)
    (fuel : nat) (s : State T) (Hs : syncing s = Some Reading)
    (Hfuel : 3 * (length (rows (table s)) / 50) + 3 <= fuel) :
  let '(s', sent) := drain fuel answer s in
  syncing s' = None /\ isSyncing s' = false /\ rows (table s') = [] /\
  concat sent = (rows (table s)).*2 /\ Forall (fun es => 0 < length es <= 50) sent.
Proof.
  remember (length (rows (table s))) as n eqn:En. revert s fuel En Hs Hfuel.
  induction (lt_wf n) as [n _ IH]. intros s fuel En Hs Hfuel.
  destruct fuel as [|[|[|fuel]]]; [lia..|].
  cbn [drain]. rewrite Hs. unfold batch_read.
  set (es := table_first batchSize (table s)).
  assert (length es = Nat.min 50 n) as Hl.
  { unfold es. rewrite rows_first, length_fmap, length_take. unfold batchSize. lia. }
  destruct (Nat.eqb_spec (length es) 0) as [H0|H0].
  { assert (rows (table s) = []) as Er by (apply nil_length_inv; lia).
    cbn. rewrite Er. done. }
  cbn [drain setPhase syncing]. destruct (Hack (sync_request es)) as (resp & Ha & Hpos).
  { cbn. rewrite length_fmap. lia. }
  unfold batch_sent. rewrite Ha. rewrite (proj2 (Z.ltb_lt _ _) Hpos).
  assert (length (idsToDelete es) = length es) as Hids.
  { unfold idsToDelete, es. rewrite rows_first, ids_rows by (apply Forall_take, rows_ids).
    by rewrite !length_fmap. }
  rewrite Hids. rewrite (proj2 (Nat.ltb_lt 0 (length es))) by lia.
  cbn [drain setPhase syncing]. unfold batch_deleted, batch_done.
  set (t' := table_bulkDelete (idsToDelete es) (table _)).
  assert (rows t' = drop 50 (rows (table s))) as Ht'. { apply delete_first. }
  assert (es ++ (drop 50 (rows (table s))).*2 = (rows (table s)).*2) as Hsplit.
  { unfold es. rewrite rows_first, <-fmap_app. by rewrite take_drop. }
  change batchSize with 50. destruct (Nat.ltb_spec (length es) 50) as [Hlt|Hge].
  - assert (drop 50 (rows (table s)) = []) as Hd by (apply drop_ge; lia).
    rewrite Hd in *. destruct fuel; cbn; rewrite Ht'; cbn in Hsplit; rewrite app_nil_r in *; (split_and!; [done..|]);
      (constructor; [lia|constructor]).
  - set (s1 := setPhase Reading _).
    assert (length (rows (table s1)) = n - 50) as En1.
    { change (table s1) with t'. rewrite Ht', length_drop. lia. }
    specialize (IH (n - 50) ltac:(lia) s1 fuel ltac:(done) ltac:(done)).
    assert (n / 50 = S ((n - 50) / 50)) as Hdiv.
    { replace n with (n - 50 + 1 * 50) at 1 by lia. rewrite Nat.div_add by lia. lia. }
    specialize (IH ltac:(lia)). destruct (drain fuel answer s1) as [s' sent].
    destruct IH as (H1 & H2 & H3 & H4 & H5). split_and!; [done..| |].
    + cbn. rewrite H4. change (table s1) with t'. by rewrite Ht'.
    + constructor; [lia|done].
Qed.

(** A synchronisation left alone, with a server that acknowledges the
    batches it is sent, ends with an empty table and the loop waiting for its timer,
    after sending every entry once, in the order of the table, in batches of
    one to fifty: [3 * (n / 50) + 3] steps are enough for [n] entries. *)
Theorem drain_empties (answer : SyncLogsRequest -> SyncLogsResponse + thrown)
    (Hack : forall q, 0 < length (SyncLogsRequest_entries q) <= 50 -> exists response, answer q = inl response /\
      (0 < SyncLogsResponse_processedCount response)%Z)
    (fuel : nat) (s : State T) (Hs : syncing s = Some Reading)
    (Hfuel : 3 * (length (rows (table s)) / 50) + 3 <= fuel) :
  let '(s', sent) := drain fuel answer s in
  syncing s' = None /\ isSyncing s' = false /\ rows (table s') = [] /\
  concat sent = (rows (table s)).*2 /\ Forall (fun es => 0 < length es <= 50) sent.
Proof. by apply drain_all. Qed.
End Syncer.

(** ** Concrete runs *)

Definition sample_entry : DBClientLogEntry :=
  mkDBClientLogEntry None ERROR "boom" "2026-01-01T00:00:00.000Z" "Console" "{}".

Lemma no_entry_lost_witness :
  let t := table_add sample_entry MemTable.empty in
  (exists j, (j, with_id 0 sample_entry) ∈ rows (table (startSyncer (initial t)))) \/
  acked (with_id 0 sample_entry) ([] ++ ([] ++ [LStart])) \/ session_over ([] ++ ([] ++ [LStart])).
Proof.
  intros t.
  apply (no_entry_lost t [] ([] ++ [LStart]) (initial t) (startSyncer (initial t))
    (trace_nil _) (trace_snoc _ _ _ _ _ (trace_nil _) (step_start _)) 0).
  apply elem_of_cons. by left.
Defined.

Lemma one_loop_witness :
  let s := idle_callback (startSyncer (initial MemTable.empty)) in
  loops s = 1 /\ isSyncing s = bool_decide (is_Some (syncing s)) /\
  (forall es, syncing s = Some (Sending es) -> 0 < length es <= 50).
Proof.
  intros s. apply (one_loop MemTable.empty [LIdle] s).
  - eapply (trace_snoc _ _ _ [LStart]); [eapply (trace_snoc _ _ _ []); [apply trace_nil|apply step_start]|].
    apply step_idle. cbn. lia.
  - rewrite list_elem_of_singleton. done.
  - rewrite list_elem_of_singleton. done.
Defined.

Lemma drain_empties_witness :
  let s : State MemTable.t := mkState (table_add sample_entry MemTable.empty) true (Some Reading) None 0 ∅ 0 in
  let '(s', sent) := drain 3 (fun q => inl (mkSyncLogsResponse 1)) s in
  syncing s' = None /\ isSyncing s' = false /\ rows (table s') = [] /\
  concat sent = (rows (table s)).*2 /\ Forall (fun es => 0 < length es <= 50) sent.
Proof.
  intros s. apply (drain_empties (fun q => inl (mkSyncLogsResponse 1))).
  - intros q _. by exists (mkSyncLogsResponse 1).
  - reflexivity.
  - vm_compute. lia.
Defined.
