(* ===== verification/LogPipeline.v ===== *)
(** The client's log from end to end: frontend/src/main.tsx starts the logger
    (services/logger.ts) and the syncer (services/syncer.ts) over one table. *)
From S2P Require Import Prelude Async Json Proto Logger Syncer.

Section Pipeline.
Context {T : Type} `{LogTable T}.

(** [now] gives the time at each event. *)
Variable now : nat -> string.
Variable jsonError : thrown.

(** Both modules beside each other; [adds] are the calls of the table in flight.
    The table is the one of the syncer's state. *)
Record Client := mkClient {
  logger : Logger.State T;
  syncer : Syncer.State T;
  adds : list (suspended (Logger.State T) Logger.Req Logger.Resp);
  clock : nat
}.

(** What happens: an event of the page, an answer of the table to an addition, a
    step of the syncer. *)
Inductive happening :=
| Listened (e : Logger.event)
| Added (entry : DBClientLogEntry) (key : nat)
| Refused (entry : DBClientLogEntry) (err : thrown)
| Synced (l : Syncer.label).

(** The syncer's part of a history. *)
Definition sync_label (h : happening) : list Syncer.label :=
  match h with Synced l => [l] | Added entry _ => [LAdd entry] | _ => [] end.
Definition sync_labels (hs : list happening) : list Syncer.label := concat (sync_label <$> hs).

(** A segment of a handler of the logger. *)
Definition logger_segment (m : async (Logger.State T) Logger.Req Logger.Resp unit) (c : Client)
    (rest : list (suspended (Logger.State T) Logger.Req Logger.Resp)) (s : Syncer.State T) (t : nat) : Client :=
  mkClient (exec m (logger c)).1 s (pending (exec m (logger c)).2 ++ rest) t.

Inductive client_step : Client -> happening -> Client -> Prop :=
| client_event c e :
    client_step c (Listened e)
      (logger_segment (Logger.on_event (now (clock c)) jsonError e) c (adds c) (syncer c) (S (clock c)))
| client_added c p q entry k i :
    adds c = p ++ existT (DbAdd entry) k :: q ->
    rows (table_add entry (table (syncer c))) = rows (table (syncer c)) ++ [(i, with_id i entry)] ->
    client_step c (Added entry i)
      (logger_segment (k (inl i)) c (p ++ q)
         (Syncer.setTable (table_add entry (table (syncer c))) (syncer c)) (clock c))
| client_refused c p q entry k err :
    adds c = p ++ existT (DbAdd entry) k :: q ->
    client_step c (Refused entry err) (logger_segment (k (inr err)) c (p ++ q) (syncer c) (clock c))
| client_sync c l s' :
    (forall e, l <> LAdd e) -> Syncer.step (syncer c) l s' ->
    client_step c (Synced l) (mkClient (logger c) s' (adds c) (clock c)).

Inductive history : Client -> list happening -> Client -> Prop :=
| history_nil c : history c [] c
| history_snoc c hs c1 h c2 : history c hs c1 -> client_step c1 h c2 -> history c (hs ++ [h]) c2.

(** The start of the program, over the table as an earlier page left it. *)
Definition main (t : T) : Client :=
  mkClient (Logger.mkState t false false []) (startSyncer (Syncer.initial t)) [] 0.

(** ** Theorems *)

Lemma sync_labels_snoc hs h : sync_labels (hs ++ [h]) = sync_labels hs ++ sync_label h.
Proof. unfold sync_labels. by rewrite fmap_app, concat_app; cbn; rewrite app_nil_r. Qed.

(** One step, seen by the syncer. *)
Lemma client_step_rows tr c h c' :
  client_step c h c' -> batch_inv tr (syncer c) ->
  batch_inv (tr ++ sync_label h) (syncer c') /\
  forall e, kept e tr (syncer c) -> kept e (tr ++ sync_label h) (syncer c').
Proof.
  intros Hs Hb. destruct Hs as [c e|c p q entry k i Hp Hi|c p q entry k err Hp|c l s' Hl Hs]; cbn;
    rewrite ?app_nil_r; [done| |done|].
  - eapply step_rows; [apply step_add|exact Hb].
  - by eapply step_rows.
Qed.

(** An addition under way stays so until the table answers it; a refused one is in
    the history, and the row of an accepted one is kept. *)
Definition followed (entry : DBClientLogEntry) (hs : list happening) (tr : list Syncer.label) (c : Client) : Prop :=
  (exists k, existT (DbAdd entry) k ∈ adds c) \/ (exists err, Refused entry err ∈ hs) \/
  (exists i, kept (with_id i entry) tr (syncer c)).

Lemma answered_stays p q x entry k (l : list (suspended (Logger.State T) Logger.Req Logger.Resp)) :
  existT (DbAdd entry) k ∈ p ++ x :: q ->
  x = existT (DbAdd entry) k \/ existT (DbAdd entry) k ∈ l ++ p ++ q.
Proof. rewrite !elem_of_app, elem_of_cons. naive_solver. Qed.

Lemma client_step_followed entry hs tr c h c' :
  client_step c h c' -> batch_inv tr (syncer c) -> followed entry hs tr c ->
  followed entry (hs ++ [h]) (tr ++ sync_label h) c'.
Proof.
  intros Hs Hb Hf. destruct (client_step_rows tr c h c' Hs Hb) as [_ Hk].
  destruct Hf as [[k Hin]|[[err Hr]|[i Hi]]]; [|right; left; exists err; set_solver|right; right; eauto].
  destruct Hs as [c e|c p q entry' k' i Hp Hi|c p q entry' k' err Hp|c l s' Hl Hs].
  - left. exists k. cbn. apply elem_of_app. by right.
  - rewrite Hp in Hin. apply (answered_stays _ _ _ _ _ (pending (exec (k' (inl i)) (logger c)).2)) in Hin as [E|Hin].
    + right. right. exists i. left. exists i. injection E as <- _. cbn. rewrite Hi.
      apply elem_of_app. right. by apply list_elem_of_singleton.
    + left. by exists k.
  - rewrite Hp in Hin. apply (answered_stays _ _ _ _ _ (pending (exec (k' (inr err)) (logger c)).2)) in Hin as [E|Hin].
    + right. left. exists err. injection E as -> _. apply elem_of_app. right. by apply list_elem_of_singleton.
    + left. by exists k.
  - left. by exists k.
Qed.

Lemma history_batch t hs c : history (main t) hs c -> batch_inv (LStart :: sync_labels hs) (syncer c).
Proof.
  remember (main t) as c0 eqn:E. induction 1 as [c|c hs c1 h c2 Hh IH Hs].
  - subst c. by apply batch_inv_none.
  - rewrite sync_labels_snoc, app_comm_cons. by eapply client_step_rows; [|apply IH].
Qed.

(** C39: Nothing the page logs is lost on the way to the server: for an event with
    something to record, outside an unload and another interception, the entry it
    describes is, at every later moment, being added to the table, was refused by
    the table, is in the table, or was in a batch the server acknowledged, unless
    the server refused a batch because the session was over. *)
Theorem logged_until_acknowledged (t : T) (hs1 hs2 : list happening) (c1 c2 c3 : Client) (e : Logger.event)
    (r : Level * string * string)
    (H1 : history (main t) hs1 c1) (He : client_step c1 (Listened e) c2) (H2 : history c2 hs2 c3)
    (Hi : isIntercepting (logger c1) = false) (Hu : isUnloading (logger c1) = false)
    (Hm : event_metadata_ok e) (Hr : recorded e = Some r) :
  exists entry, (level entry, message entry, component entry) = r /\ timestamp entry = now (clock c1) /\
    ((exists k, existT (DbAdd entry) k ∈ adds c3) \/
     (exists err, Refused entry err ∈ hs2) \/
     exists i, (exists j, (j, with_id i entry) ∈ rows (table (syncer c3))) \/
       acked (with_id i entry) (LStart :: sync_labels (hs1 ++ Listened e :: hs2)) \/
       session_over (LStart :: sync_labels (hs1 ++ Listened e :: hs2))).
Proof.
  destruct (listener_spec (now (clock c1)) jsonError e (logger c1) Hi Hu Hm) as (s' & o & E & _ & _ & _ & _ & Ho).
  rewrite Hr in Ho. destruct Ho as (entry & k & -> & Hent & Ht & _).
  exists entry. split; [done|]. split; [done|].
  assert (followed entry hs2 (LStart :: sync_labels (hs1 ++ Listened e :: hs2)) c3 /\
    batch_inv (LStart :: sync_labels (hs1 ++ Listened e :: hs2)) (syncer c3)) as [Hf _].
  2: { destruct Hf as [Hf|[Hf|[i Hf]]]; [auto|auto|]. right. right. exists i. exact Hf. }
  pose proof (history_batch _ _ _ H1) as Hb1.
  assert (followed entry [] (LStart :: sync_labels (hs1 ++ [Listened e])) c2 /\
    batch_inv (LStart :: sync_labels (hs1 ++ [Listened e])) (syncer c2)) as H0.
  { split.
    - left. exists k. inversion He; subst. cbn. rewrite E. cbn. by left.
    - rewrite sync_labels_snoc, app_comm_cons. by eapply client_step_rows. }
  clear -H0 H2. induction H2 as [c|c hs c3 h c4 Hh IH Hs]; [exact H0|].
  destruct (IH H0) as [Hf Hb].
  replace (hs1 ++ Listened e :: hs ++ [h]) with ((hs1 ++ Listened e :: hs) ++ [h]) by (by rewrite <- app_assoc).
  rewrite sync_labels_snoc, app_comm_cons. split.
  - by eapply client_step_followed.
  - by eapply client_step_rows.
Qed.
End Pipeline.

(** An error of the page, recorded in the table. *)
Lemma logged_until_acknowledged_witness :
  let now := fun _ : nat => "2024-05-01T00:00:00.000Z"%string in
  let err := OtherThrown "cyclic" in
  let e := WindowError "boom" "app.js" 3 14 None in
  let c1 := main (T := MemTable.t) MemTable.empty in
  let c2 := logger_segment (Logger.on_event (now 0) err e) c1 (adds c1) (syncer c1) 1 in
  length (adds c2) = 1 /\
  exists entry, (level entry, message entry, component entry) = (ERROR, "boom", "WindowOnError")%string /\
    timestamp entry = now 0 /\
    ((exists k, existT (DbAdd entry) k ∈ adds c2) \/ (exists er, Refused entry er ∈ []) \/
     exists i, (exists j, (j, with_id i entry) ∈ rows (table (syncer c2))) \/
       acked (with_id i entry) (LStart :: sync_labels ([] ++ Listened e :: [])) \/
       session_over (LStart :: sync_labels ([] ++ Listened e :: []))).
Proof.
  intros now err e c1 c2. split; [reflexivity|].
  apply (logged_until_acknowledged now err MemTable.empty [] [] c1 c2 c2 e); try reflexivity.
  - apply history_nil.
  - exact (client_event now err c1 e).
  - apply history_nil.
Defined.
