(* ===== verification/AuditLogs.v ===== *)
(** The audit log: the page's state (frontend/src/hooks/useAuditLogs.ts) and what
    it shows (frontend/src/components/AuditLogsPage.tsx). *)
From S2P Require Import Prelude Async Proto AdminFormat.
Local Open Scope Z_scope.

Definition AUDIT_PAGE_SIZE : Z := 50.

(** The wire values of the two filters. *)
Inductive AuditSourceFilter := SOURCE_ALL | SOURCE_USER | SOURCE_SYSTEM.
Inductive AuditOutcomeFilter := OUTCOME_ALL | OUTCOME_SUCCESS | OUTCOME_FAILURE | OUTCOME_DENIED.

#[global] Instance AuditSourceFilter_eq_dec : EqDecision AuditSourceFilter.
Proof. solve_decision. Defined.
#[global] Instance AuditOutcomeFilter_eq_dec : EqDecision AuditOutcomeFilter.
Proof. solve_decision. Defined.

Definition source_value (f : AuditSourceFilter) : Z :=
  match f with SOURCE_ALL => 0 | SOURCE_USER => 1 | SOURCE_SYSTEM => 2 end.
Definition outcome_value (f : AuditOutcomeFilter) : Z :=
  match f with OUTCOME_ALL => 0 | OUTCOME_SUCCESS => 1 | OUTCOME_FAILURE => 2 | OUTCOME_DENIED => 3 end.

(** The dependencies of [fetchLogs]. *)
Definition deps : Type := string * AuditSourceFilter * AuditOutcomeFilter * Z.

(** [debounce] is the pending timer with the input its closure captured;
    [effectInput] and [effectDeps] are what the two effects last ran with. *)
Record State := mkState {
  queryInput : string;
  query : string;
  source : AuditSourceFilter;
  outcome : AuditOutcomeFilter;
  page : Z;
  entries : list AuditLogEntry;
  total : Z;
  loading : bool;
  error : option string;
  debounce : option string;
  effectInput : option string;
  effectDeps : option deps
}.

Definition initial : State :=
  mkState "" "" SOURCE_ALL OUTCOME_ALL 0 [] 0 true None None None None.

Definition setQueryInput (v : string) (s : State) : State :=
  mkState v (query s) (source s) (outcome s) (page s) (entries s) (total s) (loading s) (error s)
    (debounce s) (effectInput s) (effectDeps s).
Definition setQuery (v : string) (s : State) : State :=
  mkState (queryInput s) v (source s) (outcome s) (page s) (entries s) (total s) (loading s) (error s)
    (debounce s) (effectInput s) (effectDeps s).
Definition setSource (v : AuditSourceFilter) (s : State) : State :=
  mkState (queryInput s) (query s) v (outcome s) (page s) (entries s) (total s) (loading s) (error s)
    (debounce s) (effectInput s) (effectDeps s).
Definition setOutcome (v : AuditOutcomeFilter) (s : State) : State :=
  mkState (queryInput s) (query s) (source s) v (page s) (entries s) (total s) (loading s) (error s)
    (debounce s) (effectInput s) (effectDeps s).
Definition setPage (f : Z -> Z) (s : State) : State :=
  mkState (queryInput s) (query s) (source s) (outcome s) (f (page s)) (entries s) (total s) (loading s)
    (error s) (debounce s) (effectInput s) (effectDeps s).
Definition setEntries (v : list AuditLogEntry) (s : State) : State :=
  mkState (queryInput s) (query s) (source s) (outcome s) (page s) v (total s) (loading s) (error s)
    (debounce s) (effectInput s) (effectDeps s).
Definition setTotal (v : Z) (s : State) : State :=
  mkState (queryInput s) (query s) (source s) (outcome s) (page s) (entries s) v (loading s) (error s)
    (debounce s) (effectInput s) (effectDeps s).
Definition setLoading (v : bool) (s : State) : State :=
  mkState (queryInput s) (query s) (source s) (outcome s) (page s) (entries s) (total s) v (error s)
    (debounce s) (effectInput s) (effectDeps s).
Definition setError (v : option string) (s : State) : State :=
  mkState (queryInput s) (query s) (source s) (outcome s) (page s) (entries s) (total s) (loading s) v
    (debounce s) (effectInput s) (effectDeps s).
Definition setDebounce (v : option string) (s : State) : State :=
  mkState (queryInput s) (query s) (source s) (outcome s) (page s) (entries s) (total s) (loading s)
    (error s) v (effectInput s) (effectDeps s).
Definition setEffects (i : string) (d : deps) (s : State) : State :=
  mkState (queryInput s) (query s) (source s) (outcome s) (page s) (entries s) (total s) (loading s)
    (error s) (debounce s) (Some i) (Some d).

Inductive Req := ListAuditLogs (request : ListAuditLogsRequest).
Definition Resp (_ : Req) : Type := ListAuditLogsResponse.

Abbreviation handler := (async State Req Resp unit).
Local Open Scope async_scope.

Definition current_deps (s : State) : deps := (query s, source s, outcome s, page s).

(** The request [fetchLogs] sends, closed over the values of its render. *)
Definition request_of (d : deps) : ListAuditLogsRequest :=
  let '(q, src, out, p) := d in
  mkListAuditLogsRequest q (source_value src) (outcome_value out) AUDIT_PAGE_SIZE (p * AUDIT_PAGE_SIZE).

Definition fetchLogs (d : deps) : handler :=
  modify (setLoading true) ;;;
  modify (setError None) ;;;
  try
    (try
      (resp <- rpc (Resp := Resp) (ListAuditLogs (request_of d)) ;;
       modify (setEntries (ListAuditLogsResponse_entries resp)) ;;;
       modify (setTotal (ListAuditLogsResponse_total resp)))
    catch (fun err => modify (setError (Some (errText err)))))
  finally (modify (setLoading false)).

(** The two effects, after a commit: a changed input restarts the timer, changed
    dependencies fetch. *)
Definition effects : handler :=
  s <- gets id ;;
  (if bool_decide (effectInput s = Some (queryInput s)) then Ret tt
   else modify (setDebounce (Some (queryInput s)))) ;;;
  modify (setEffects (queryInput s) (current_deps s)) ;;;
  if bool_decide (effectDeps s = Some (current_deps s)) then Ret tt
  else fetchLogs (current_deps s).

Definition updateSource (v : AuditSourceFilter) : handler :=
  modify (setSource v) ;;; modify (setPage (fun _ => 0)) ;;; effects.

Definition updateOutcome (v : AuditOutcomeFilter) : handler :=
  modify (setOutcome v) ;;; modify (setPage (fun _ => 0)) ;;; effects.

Definition type_query (v : string) : handler := modify (setQueryInput v) ;;; effects.

(** The callback of the timer. *)
Definition debounce_fires : handler :=
  t <- gets debounce ;;
  match t with
  | Some captured =>
      modify (setDebounce None) ;;;
      modify (setQuery captured) ;;; modify (setPage (fun _ => 0)) ;;; effects
  | None => Ret tt
  end.

(** [Math.max(1, Math.ceil(total / AUDIT_PAGE_SIZE))] *)
Definition pages (s : State) : Z := Z.max 1 ((total s + AUDIT_PAGE_SIZE - 1) / AUDIT_PAGE_SIZE).

(** ** The page *)

Definition prev_disabled (s : State) : bool := (page s =? 0) || loading s.
Definition next_disabled (s : State) : bool := (pages s <=? page s + 1) || loading s.
Definition refresh_disabled (s : State) : bool := loading s.

Definition prev_page : handler := modify (setPage (fun p => Z.max 0 (p - 1))) ;;; effects.
Definition next_page : handler := modify (setPage (fun p => p + 1)) ;;; effects.
Definition refresh : handler := s <- gets id ;; fetchLogs (current_deps s).

(** A disabled button ignores clicks. *)
Inductive event :=
| Mount | Type_ (v : string) | DebounceFires | SourceChosen (v : AuditSourceFilter)
| OutcomeChosen (v : AuditOutcomeFilter) | PrevClicked | NextClicked | RefreshClicked.

#[global] Instance event_eq_dec : EqDecision event.
Proof. solve_decision. Defined.

Definition on_event (e : event) : handler :=
  s <- gets id ;;
  match e with
  | Mount => effects
  | Type_ v => type_query v
  | DebounceFires => debounce_fires
  | SourceChosen v => updateSource v
  | OutcomeChosen v => updateOutcome v
  | PrevClicked => if prev_disabled s then Ret tt else prev_page
  | NextClicked => if next_disabled s then Ret tt else next_page
  | RefreshClicked => if refresh_disabled s then Ret tt else refresh
  end.

Definition rangeStart (s : State) : Z := if total s =? 0 then 0 else page s * AUDIT_PAGE_SIZE + 1.
Definition rangeEnd (s : State) : Z := Z.min (total s) ((page s + 1) * AUDIT_PAGE_SIZE).

Definition range_label (s : State) : string :=
  if total s =? 0 then "No entries"
  else num (rangeStart s) +:+ "–" +:+ num (rangeEnd s) +:+ " of " +:+ num (total s).

Definition page_label (s : State) : string := "Page " +:+ num (page s + 1) +:+ " of " +:+ num (pages s).

Definition sourceLabel (entry : AuditLogEntry) : string :=
  if AuditLogEntry_source entry =? source_value SOURCE_SYSTEM then "System"
  else if truthy (AuditLogEntry_actorRole entry)
       then AuditLogEntry_actor entry +:+ " (" +:+ AuditLogEntry_actorRole entry +:+ ")"
       else AuditLogEntry_actor entry.

Record Badge := mkBadge { badge_class : string; badge_label : string; badge_title : string }.

Definition outcomeBadge (entry : AuditLogEntry) : Badge :=
  if AuditLogEntry_outcome entry =? outcome_value OUTCOME_FAILURE
  then mkBadge "logs-row-level error" "Failure" "The action failed"
  else if AuditLogEntry_outcome entry =? outcome_value OUTCOME_DENIED
  then mkBadge "logs-row-level warn" "Denied" "Not authorized"
  else mkBadge "logs-row-level info" "Success" "The action succeeded".

Definition resourceLabel (entry : AuditLogEntry) : string :=
  if negb (truthy (AuditLogEntry_resourceId entry))
  then str_or (AuditLogEntry_resourceType entry) "—"
  else AuditLogEntry_resourceType entry +:+ " · " +:+ slice_to 12 (AuditLogEntry_resourceId entry).

(** One row of the table: time, actor, action, resource, outcome, details. *)
Record Row := mkRow {
  row_time : string; row_source : string; row_action : string;
  row_resource : string; row_badge : Badge; row_detail : string
}.

(** The table, or the title of the card in its place. *)
Definition AuditLogsPage (localeDate : Z -> string) (s : State) : string + list Row :=
  match entries s with
  | [] => inl (if loading s then "Loading audit trail..."%string else "No Audit Entries Found"%string)
  | es => inr ((fun e => mkRow (formatTimestamp localeDate (AuditLogEntry_createdAt e)) (sourceLabel e)
                  (AuditLogEntry_action e) (resourceLabel e) (outcomeBadge e)
                  (str_or (AuditLogEntry_detail e) "—")) <$> es)
  end.

(** ** Theorems *)

(** What holds between events: both effects have run with what is shown; the
    timer captured the input that is shown. *)
Definition settled (s : State) : Prop :=
  effectInput s = Some (queryInput s) /\ effectDeps s = Some (current_deps s) /\
  0 <= page s /\ (forall v, debounce s = Some v -> v = queryInput s) /\
  (debounce s = None -> query s = queryInput s).

(** The committed filters an event leaves. *)
Definition deps_after (e : event) (s : State) : deps :=
  match e with
  | DebounceFires => match debounce s with Some v => (v, source s, outcome s, 0) | None => current_deps s end
  | SourceChosen v => (query s, v, outcome s, 0)
  | OutcomeChosen v => (query s, source s, v, 0)
  | PrevClicked => if prev_disabled s then current_deps s else (query s, source s, outcome s, Z.max 0 (page s - 1))
  | NextClicked => if next_disabled s then current_deps s else (query s, source s, outcome s, page s + 1)
  | _ => current_deps s
  end.

Definition is_refresh (e : event) (s : State) : bool :=
  match e with RefreshClicked => negb (refresh_disabled s) | _ => false end.

(** The rest of a fetch in flight. *)
Definition fetched (answer : ListAuditLogsResponse + thrown) (s : State) : State :=
  setLoading false
    (match answer with
     | inl resp => setTotal (ListAuditLogsResponse_total resp) (setEntries (ListAuditLogsResponse_entries resp) s)
     | inr err => setError (Some (errText err)) s
     end).

Definition fetching (o : Async.outcome State Req Resp unit) (d : deps) : Prop :=
  exists k, o = Blocked (ListAuditLogs (request_of d)) k /\
    forall answer s, exec (k answer) s = (fetched answer s, Done tt).

Lemma fetchLogs_exec (d : deps) (s : State) :
  exists o, exec (fetchLogs d) s = (setError None (setLoading true s), o) /\ fetching o d.
Proof.
  eexists. split; [reflexivity|]. eexists. split; [reflexivity|].
  by intros [resp|e] s'.
Qed.

(** The state after the effects of a commit. *)
Definition committed (s : State) : State :=
  let s1 := if bool_decide (effectInput s = Some (queryInput s)) then s
            else setDebounce (Some (queryInput s)) s in
  let s2 := setEffects (queryInput s) (current_deps s) s1 in
  if bool_decide (effectDeps s = Some (current_deps s)) then s2 else setError None (setLoading true s2).

Lemma effects_exec (s : State) :
  exists o, exec effects s = (committed s, o) /\
    (if bool_decide (effectDeps s = Some (current_deps s)) then o = Done tt
     else fetching o (current_deps s)).
Proof.
  unfold committed, effects. cbn.
  destruct (fetchLogs_exec (current_deps s)
    (setEffects (queryInput s) (current_deps s)
      (if bool_decide (effectInput s = Some (queryInput s)) then s
       else setDebounce (Some (queryInput s)) s))) as (o & E & Ho).
  destruct (bool_decide (effectInput s = _)); cbn;
    destruct (bool_decide (effectDeps s = _)); cbn; eauto.
Qed.

Lemma committed_deps (s : State) : current_deps (committed s) = current_deps s.
Proof. unfold committed. by repeat case_bool_decide. Qed.

Lemma committed_settled (s : State) :
  0 <= page s ->
  (effectInput s = Some (queryInput s) -> forall v, debounce s = Some v -> v = queryInput s) ->
  (effectInput s = Some (queryInput s) -> debounce s = None -> query s = queryInput s) ->
  settled (committed s).
Proof.
  intros Hp Hd Hq. unfold settled, committed. repeat case_bool_decide; cbn; split_and!; auto; try congruence.
Qed.

(** A handler that sets some of the state and commits. *)
Definition sets (f : State -> State) : handler := modify f ;;; effects.

Lemma sets_exec (f : State -> State) (s : State) :
  effectDeps (f s) = Some (current_deps s) ->
  exists o, exec (sets f) s = (committed (f s), o) /\
    (if bool_decide (current_deps (f s) = current_deps s) then o = Done tt
     else fetching o (current_deps (f s))).
Proof.
  intros He. destruct (effects_exec (f s)) as (o & E & Ho). exists o. split; [exact E|].
  rewrite He in Ho. repeat case_bool_decide; try done; congruence.
Qed.

Lemma event_exec (e : event) (s : State) (Hs : settled s) :
  exists s' o, exec (on_event e) s = (s', o) /\ settled s' /\
    current_deps s' = deps_after e s /\
    (if bool_decide (deps_after e s = current_deps s) && negb (is_refresh e s)
     then o = Done tt
     else loading s' = true /\ error s' = None /\ fetching o (deps_after e s)).
Proof.
  destruct Hs as (Hi & Hd & Hp & Hb & Hq).
  assert (forall f, effectDeps (f s) = effectDeps s -> settled (committed (f s)) ->
    exists s' o, exec (sets f) s = (s', o) /\ settled s' /\ current_deps s' = current_deps (f s) /\
    (if bool_decide (current_deps (f s) = current_deps s) && true then o = Done tt
     else loading s' = true /\ error s' = None /\ fetching o (current_deps (f s)))) as Hsets.
  { intros f He Hset. destruct (sets_exec f s) as (o & E & Ho); [congruence|].
    do 2 eexists. split; [exact E|]. split; [done|]. split; [apply committed_deps|].
    case_bool_decide; cbn; [done|]. split_and!; [| |done];
      unfold committed; rewrite He, Hd; repeat case_bool_decide; cbn; congruence || done. }
  destruct e as [|v| |v|v| | |]; cbn [deps_after is_refresh negb].
  - apply (Hsets (fun s => s)); [done|]. apply committed_settled; auto.
  - apply (Hsets (setQueryInput v)); [done|]. apply committed_settled; cbn; [done| |].
    + intros E w Hw. rewrite Hi in E. injection E as <-. auto.
    + intros E Hn. rewrite Hi in E. injection E as <-. auto.
  - unfold on_event, debounce_fires. cbn. destruct (debounce s) as [v|] eqn:Eb.
    + apply (Hsets (fun s => setPage (fun _ => 0) (setQuery v (setDebounce None s)))); [done|].
      apply committed_settled; cbn; [done|done|]. auto.
    + rewrite bool_decide_eq_true_2 by done. do 2 eexists. split; [reflexivity|]. repeat split; auto.
      intros w. congruence.
  - apply (Hsets (fun s => setPage (fun _ => 0) (setSource v s))); [done|].
    apply committed_settled; cbn; auto. done.
  - apply (Hsets (fun s => setPage (fun _ => 0) (setOutcome v s))); [done|].
    apply committed_settled; cbn; auto. done.
  - unfold on_event. cbn. destruct (prev_disabled s).
    + rewrite bool_decide_eq_true_2 by done. do 2 eexists. split; [reflexivity|]. by repeat split.
    + apply (Hsets (setPage (fun p => Z.max 0 (p - 1)))); [done|].
      apply committed_settled; cbn; auto. lia.
  - unfold on_event. cbn. destruct (next_disabled s).
    + rewrite bool_decide_eq_true_2 by done. do 2 eexists. split; [reflexivity|]. by repeat split.
    + apply (Hsets (setPage (fun p => p + 1))); [done|].
      apply committed_settled; cbn; auto. lia.
  - unfold on_event. cbn. destruct (refresh_disabled s); rewrite bool_decide_eq_true_2 by done; cbn.
    + do 2 eexists. split; [reflexivity|]. by repeat split.
    + destruct (fetchLogs_exec (current_deps s) s) as (o & E & Ho).
      do 2 eexists. split; [exact E|]. repeat split; auto.
Qed.

(** Every event of the page sends exactly one request when it changes the
    committed filters or the page (or refreshes), for exactly the filters and
    the page now shown, fifty entries from the first of the page on; any other
    event, a keystroke in the search box among them, sends none.  A changed
    filter or search goes back to the first page. *)
Theorem audit_event_spec (e : event) (s : State) (Hs : settled s) :
  exists s' o, exec (on_event e) s = (s', o) /\ settled s' /\
    current_deps s' = deps_after e s /\
    (if bool_decide (deps_after e s = current_deps s) && negb (is_refresh e s)
     then o = Done tt
     else loading s' = true /\ error s' = None /\ fetching o (deps_after e s)).
Proof. by apply event_exec. Qed.

Definition starts (m : handler) : Prop := exists e, m = on_event e.

Lemma fetched_settled answer (s : State) : settled s -> settled (fetched answer s).
Proof. by destruct answer. Qed.

(** Before its first effects the page shows the initial state. *)
Definition page_inv (s : State) : Prop := s = initial \/ settled s.

Lemma fetching_keeps (o : Async.outcome State Req Resp unit) (d : deps) (s : State) :
  settled s -> fetching o d ->
  match o with
  | Done a => settled s
  | Failed e => settled s
  | Blocked r k => settled s /\ forall a s', settled s' -> guarantees settled (k a) (fun _ => settled) s'
  end.
Proof.
  intros Hs (k & -> & Hk). split; [done|]. intros a s' Hs'. apply guarantees_exec. rewrite Hk.
  by apply fetched_settled.
Qed.

Lemma event_keeps (e : event) : keeps settled (on_event e).
Proof.
  intros s Hs. destruct (event_exec e s Hs) as (s' & o & E & Hs' & _ & Ho).
  apply guarantees_exec. rewrite E. destruct (_ && _); [by rewrite Ho|].
  destruct Ho as (_ & _ & Ho). by eapply fetching_keeps.
Qed.

Lemma mount_settled : settled (committed initial).
Proof. by apply committed_settled. Qed.

(** The run of the page, with the requests it has sent, the latest last: it mounts, events
    and answers come in any order. *)
Definition sent (o : Async.outcome State Req Resp unit) : list ListAuditLogsRequest :=
  match o with Blocked (ListAuditLogs request) _ => [request] | _ => [] end.

Inductive runs : State -> list (suspended State Req Resp) -> list ListAuditLogsRequest -> Prop :=
| run_mount : let c := exec (on_event Mount) initial in runs c.1 (pending c.2) (sent c.2)
| run_event s p l e :
    runs s p l -> let c := exec (on_event e) s in runs c.1 (pending c.2 ++ p) (l ++ sent c.2)
| run_answer s p r k answer q l :
    runs s (p ++ existT r k :: q) l ->
    let c := exec (k answer) s in runs c.1 (pending c.2 ++ p ++ q) (l ++ sent c.2).

#[global] Instance ListAuditLogsRequest_eq_dec : EqDecision ListAuditLogsRequest.
Proof. solve_decision. Defined.

(** The request for what is on screen: the committed search, the filters by their wire
    values, and the page, of fifty entries, by where it starts. *)
Definition asked (s : State) : ListAuditLogsRequest :=
  mkListAuditLogsRequest (query s)
    (match source s with SOURCE_ALL => 0 | SOURCE_USER => 1 | SOURCE_SYSTEM => 2 end)
    (match outcome s with OUTCOME_ALL => 0 | OUTCOME_SUCCESS => 1 | OUTCOME_FAILURE => 2 | OUTCOME_DENIED => 3 end)
    50 (50 * page s).

Lemma request_asked (s : State) : request_of (current_deps s) = asked s.
Proof. unfold request_of, current_deps, asked, AUDIT_PAGE_SIZE. by rewrite Z.mul_comm. Qed.

(** Different filters and pages are asked for differently. *)
Lemma request_deps (a b : deps) : request_of a = request_of b <-> a = b.
Proof.
  split; [|by intros ->]. destruct a as [[[qa sa] oa] pa], b as [[[qb sb] ob] pb]. cbn. unfold AUDIT_PAGE_SIZE.
  intros [= -> Hsrc Hout Hp]. assert (pa = pb) as -> by lia. by destruct sa, sb, oa, ob.
Qed.

Lemma sent_fetching o s : fetching o (current_deps s) -> sent o = [asked s].
Proof. intros (k & -> & _). cbn [sent]. by rewrite request_asked. Qed.

(** A suspended handler ends without another request. *)
Definition ends (q : suspended State Req Resp) : Prop :=
  forall answer s, exists answer', exec (projT2 q answer) s = (fetched answer' s, Done tt).

Lemma ends_fetching o d : fetching o d -> Forall ends (pending o).
Proof. intros (k & -> & Hk). constructor; [|constructor]. intros answer s. exists answer. apply Hk. Qed.

Lemma fetched_asked answer s : asked (fetched answer s) = asked s.
Proof. by destruct answer. Qed.

Lemma event_sends (e : event) (s : State) (Hs : settled s) :
  let c := exec (on_event e) s in
  settled c.1 /\ Forall ends (pending c.2) /\ current_deps c.1 = deps_after e s /\
  sent c.2 = if bool_decide (current_deps c.1 = current_deps s) && negb (is_refresh e s) then [] else [asked c.1].
Proof.
  destruct (event_exec e s Hs) as (s' & o & E & Hs' & Hd & Ho). rewrite E. cbn [fst snd]. rewrite <- Hd in Ho.
  destruct (_ && _); [by subst o|]. destruct Ho as (_ & _ & Ho).
  split_and!; [done|by eapply ends_fetching|done|by apply sent_fetching].
Qed.

Lemma runs_ok s p l : runs s p l -> settled s /\ Forall ends p /\ last l = Some (asked s).
Proof.
  induction 1 as [|s p l e _ (Hs & Hp & Hl)|s p r k answer q l _ (Hs & Hp & Hl)].
  - destruct (effects_exec initial) as (o & E & Ho). change (exec (on_event Mount) initial) with (exec effects initial) in c.
    subst c. rewrite E. cbn [fst snd]. rewrite bool_decide_eq_false_2 in Ho by done.
    split_and!; [apply mount_settled|by eapply ends_fetching|]. by rewrite (sent_fetching _ initial).
  - destruct (event_sends e s Hs) as (Hs' & Hp' & Hd & Hsent). subst c.
    split_and!; [done|by apply Forall_app|]. rewrite Hsent. case_bool_decide as Hsame; [destruct (is_refresh e s)|]; cbn [negb andb].
    1, 3: by rewrite last_snoc.
    rewrite app_nil_r, Hl. by rewrite <- !request_asked, Hsame.
  - apply Forall_app in Hp as [Hp1 [Hk Hp2]%Forall_cons]. destruct (Hk answer s) as [answer' E]. cbn [projT2] in E.
    subst c. rewrite E. cbn. rewrite app_nil_r, fetched_asked.
    split_and!; [by apply fetched_settled|by apply Forall_app|done].
Qed.

(** C33: However events, timers and answers interleave from the moment the page is shown,
    the last request sent asked for what is on screen: the committed search, the chosen
    source and outcome by their wire values, fifty entries from the first one of the page
    shown.  The next event sends one such request if it changes what is asked for or
    refreshes, and none otherwise; and the committed search is the text in the box unless
    its timer is pending, which will commit exactly that text. *)
Theorem audit_in_sync (s : State) (p : list (suspended State Req Resp)) (l : list ListAuditLogsRequest)
    (H : runs s p l) :
  let on_screen s := mkListAuditLogsRequest (query s)
    (match source s with SOURCE_ALL => 0 | SOURCE_USER => 1 | SOURCE_SYSTEM => 2 end)
    (match outcome s with OUTCOME_ALL => 0 | OUTCOME_SUCCESS => 1 | OUTCOME_FAILURE => 2 | OUTCOME_DENIED => 3 end)
    50 (50 * page s) in
  last l = Some (on_screen s) /\ 0 <= page s /\
  (forall e, let c := exec (on_event e) s in
     sent c.2 = if bool_decide (on_screen c.1 = on_screen s) &&
                   negb (bool_decide (e = RefreshClicked) && negb (loading s))
                then [] else [on_screen c.1]) /\
  (debounce s = None -> query s = queryInput s) /\
  (forall v, debounce s = Some v -> v = queryInput s).
Proof.
  destruct (runs_ok s p l H) as (Hs & _ & Hl). change (last l = Some (asked s) /\ 0 <= page s /\
    (forall e, let c := exec (on_event e) s in
       sent c.2 = if bool_decide (asked c.1 = asked s) && negb (bool_decide (e = RefreshClicked) && negb (loading s))
                  then [] else [asked c.1]) /\
    (debounce s = None -> query s = queryInput s) /\ (forall v, debounce s = Some v -> v = queryInput s)).
  pose proof Hs as (_ & _ & Hp & Hb & Hq). split_and!; [done..| |done|done].
  intros e. destruct (event_sends e s Hs) as (_ & _ & _ & Hsent). cbv zeta. rewrite Hsent.
  rewrite <- !request_asked, (bool_decide_ext _ _ (request_deps _ _)). by destruct e.
Qed.

Lemma audit_in_sync_witness :
  let c := exec (on_event (SourceChosen SOURCE_SYSTEM)) (exec (on_event Mount) initial).1 in
  last (sent (exec (on_event Mount) initial).2 ++ sent c.2) = Some (mkListAuditLogsRequest "" 2 0 50 0) /\
  debounce c.1 = Some ""%string.
Proof.
  intros c. split; [|reflexivity].
  destruct (audit_in_sync c.1 (pending c.2 ++ pending (exec (on_event Mount) initial).2)
    (sent (exec (on_event Mount) initial).2 ++ sent c.2)) as [Hl _]; [|exact Hl].
  apply (run_event _ _ _ (SourceChosen SOURCE_SYSTEM)). apply run_mount.
Defined.

Lemma audit_event_spec_witness :
  exists s' o, exec (on_event (SourceChosen SOURCE_SYSTEM)) (committed initial) = (s', o) /\ settled s' /\
    current_deps s' = ("", SOURCE_SYSTEM, OUTCOME_ALL, 0) /\
    (loading s' = true /\ error s' = None /\ fetching o ("", SOURCE_SYSTEM, OUTCOME_ALL, 0)).
Proof. apply (audit_event_spec (SourceChosen SOURCE_SYSTEM) (committed initial)). by apply committed_settled. Defined.

(** *** Typing *)

Definition keystrokes (vs : list string) (s : State) : State :=
  fold_left (fun s v => (exec (on_event (Type_ v)) s).1) vs s.

(** The text in the box after the keystrokes. *)
Definition typed (vs : list string) (v0 : string) : string := fold_left (fun _ v => v) vs v0.

Lemma type_queryInput (v : string) (s : State) : queryInput (exec (on_event (Type_ v)) s).1 = v.
Proof.
  destruct (effects_exec (setQueryInput v s)) as (o & E & _).
  change (exec (on_event (Type_ v)) s) with (exec effects (setQueryInput v s)). rewrite E.
  cbn. unfold committed. by repeat case_bool_decide.
Qed.

Lemma keystrokes_settled (vs : list string) (s : State) :
  settled s ->
  settled (keystrokes vs s) /\ current_deps (keystrokes vs s) = current_deps s /\
  queryInput (keystrokes vs s) = typed vs (queryInput s).
Proof.
  revert s. induction vs as [|v vs IH]; intros s Hs; [by split_and!|]. cbn [keystrokes typed fold_left].
  destruct (event_exec (Type_ v) s Hs) as (s1 & o & E & Hs1 & Hd & _). cbn [deps_after] in Hd.
  pose proof (type_queryInput v s) as Hv. rewrite E in *. cbn [fst] in *.
  destruct (IH s1 Hs1) as (H1 & H2 & H3). fold (keystrokes vs s1). fold (typed vs v).
  split_and!; [done|congruence|]. by rewrite H3, Hv.
Qed.

Lemma fires_exec (s : State) (s' : State) o :
  settled s -> exec (on_event DebounceFires) s = (s', o) ->
  debounce s' = None /\ query s' = queryInput s /\ page s' = (if debounce s then 0 else page s).
Proof.
  intros (Hi & _ & _ & Hb & Hn) E. unfold on_event, debounce_fires in E. cbn [bind gets exec id] in E.
  destruct (debounce s) as [v|] eqn:Eb.
  - specialize (Hb v eq_refl) as ->.
    destruct (effects_exec (setPage (fun _ => 0) (setQuery (queryInput s) (setDebounce None s)))) as (o' & E' & _).
    cbn in E, E'. rewrite E' in E. injection E as <- _. unfold committed. cbn. rewrite Hi.
    by repeat case_bool_decide.
  - injection E as <- _. rewrite Eb. auto.
Qed.

(** Typing sends nothing; the pause after it commits the text then in the
    box, back on the first page, with one request if that changes what was last
    asked for and none otherwise. *)
Theorem typing_is_debounced (vs : list string) (s : State) (Hs : settled s) :
  let s1 := keystrokes vs s in
  current_deps s1 = current_deps s /\
  exists s2 o, exec (on_event DebounceFires) s1 = (s2, o) /\
    query s2 = typed vs (queryInput s) /\ debounce s2 = None /\
    page s2 = (if debounce s1 then 0 else page s) /\
    (if bool_decide (current_deps s2 = current_deps s) then o = Done tt
     else loading s2 = true /\ fetching o (current_deps s2)).
Proof.
  intros s1. destruct (keystrokes_settled vs s Hs) as (Hs1 & Hd1 & Hq1). fold s1 in Hs1, Hd1, Hq1.
  split; [done|].
  destruct (event_exec DebounceFires s1 Hs1) as (s2 & o & E & Hs2 & Hd2 & Ho).
  destruct (fires_exec s1 s2 o Hs1 E) as (H1 & H2 & H3).
  do 2 eexists. split; [exact E|]. rewrite H2, H3, Hq1. split_and!; [done..| |].
  - assert (page s1 = page s) as -> by (unfold current_deps in Hd1; congruence). done.
  - cbn [is_refresh negb] in Ho. rewrite <-Hd2, Hd1, andb_true_r in Ho.
    case_bool_decide; [done|]. by destruct Ho as (? & _ & ?).
Qed.

Lemma typing_is_debounced_witness :
  let s := committed initial in
  let s1 := keystrokes ["s"; "st"; "stop"]%string s in
  current_deps s1 = current_deps s /\
  exists s2 o, exec (on_event DebounceFires) s1 = (s2, o) /\
    query s2 = "stop"%string /\ debounce s2 = None /\
    page s2 = (if debounce s1 then 0 else page s) /\
    (if bool_decide (current_deps s2 = current_deps s) then o = Done tt
     else loading s2 = true /\ fetching o (current_deps s2)).
Proof.
  apply (typing_is_debounced ["s"; "st"; "stop"]%string (committed initial)). by apply committed_settled.
Defined.

(** *** Pages *)

Lemma pages_bounds (s : State) : 0 <= total s ->
  1 <= pages s /\ total s <= pages s * 50 /\ (0 < total s -> (pages s - 1) * 50 < total s).
Proof.
  intros Ht. unfold pages, AUDIT_PAGE_SIZE.
  pose proof (Z.div_mod (total s + 50 - 1) 50 ltac:(lia)).
  pose proof (Z.mod_pos_bound (total s + 50 - 1) 50 ltac:(lia)). lia.
Qed.

(** On a page that exists, the range shown starts and ends within the
    entries, holds at most fifty, is full on every page but the last and ends at
    the total on the last; "Next" is offered exactly when another page exists
    and leads to an existing one, "Prev" exactly from the second page on. *)
Theorem page_range (s : State) (Ht : 0 < total s) (Hp : 0 <= page s < pages s) :
  1 <= rangeStart s <= rangeEnd s /\ rangeEnd s <= total s /\
  (if page s + 1 =? pages s then rangeEnd s = total s else rangeEnd s = rangeStart s + 49) /\
  (loading s = false ->
     (next_disabled s = false <-> page s + 1 < pages s) /\ (prev_disabled s = false <-> 0 < page s)).
Proof.
  pose proof (pages_bounds s ltac:(lia)) as (H1 & H2 & H3). specialize (H3 Ht).
  unfold rangeStart, rangeEnd, next_disabled, prev_disabled, AUDIT_PAGE_SIZE.
  rewrite (proj2 (Z.eqb_neq (total s) 0)) by lia. split_and!; try lia.
  - destruct (Z.eqb_spec (page s + 1) (pages s)); lia.
  - intros ->. rewrite !orb_false_r. rewrite Z.leb_gt, Z.eqb_neq. lia.
Qed.

Lemma page_range_witness :
  let s := fetched (inl (mkListAuditLogsResponse [] 120)) initial in
  1 <= rangeStart s <= rangeEnd s /\ rangeEnd s <= total s /\
  rangeEnd s = rangeStart s + 49 /\
  (loading s = false ->
     (next_disabled s = false <-> page s + 1 < pages s) /\ (prev_disabled s = false <-> 0 < page s)).
Proof.
  intros s. apply (page_range s); cbn; [lia|].
  change (pages s) with 3. lia.
Defined.

(** *** Two flaws *)

(** The run of an event and the fetch it starts. *)
Definition fire (e : event) (s : State) : State := (exec (on_event e) s).1.

(** Nothing orders the answers of two requests: when the filter changes
    twice and the first answer comes last, the page shows, with no mark of
    loading or error, the entries of a filter that is no longer chosen. *)
Theorem stale_answer_shown (s : State) (a b : AuditSourceFilter) (ra rb : ListAuditLogsResponse)
    (Hs : settled s) (Ha : a <> source s) (Hb : b <> a) :
  fetching (exec (on_event (SourceChosen a)) s).2 (query s, a, outcome s, 0) /\
  fetching (exec (on_event (SourceChosen b)) (fire (SourceChosen a) s)).2 (query s, b, outcome s, 0) /\
  let s' := fetched (inl ra) (fetched (inl rb) (fire (SourceChosen b) (fire (SourceChosen a) s))) in
  source s' = b /\ entries s' = ListAuditLogsResponse_entries ra /\
  total s' = ListAuditLogsResponse_total ra /\ loading s' = false /\ error s' = None.
Proof.
  destruct (event_exec (SourceChosen a) s Hs) as (s1 & o1 & E1 & Hs1 & Hd1 & Ho1).
  destruct (event_exec (SourceChosen b) s1 Hs1) as (s2 & o2 & E2 & Hs2 & Hd2 & Ho2).
  unfold fire. rewrite E1. cbn [fst snd]. rewrite E2. cbn [fst snd deps_after is_refresh negb] in *.
  rewrite Hd1 in Ho2. unfold current_deps in Ho1, Ho2, Hd1, Hd2. injection Hd1 as Hq1 Hsr1 Hou1 Hpg1.
  injection Hd2 as Hq2 Hsr2 Hou2 Hpg2. rewrite Hq1, Hou1 in Ho2.
  rewrite bool_decide_eq_false_2 in Ho1, Ho2 by congruence. cbn [andb] in Ho1, Ho2.
  split; [apply Ho1|]. split; [apply Ho2|]. cbn. split_and!; try done. apply Ho2.
Qed.

Lemma stale_answer_shown_witness :
  let s := committed initial in
  let ra := mkListAuditLogsResponse [] 7 in let rb := mkListAuditLogsResponse [] 3 in
  fetching (exec (on_event (SourceChosen SOURCE_USER)) s).2 ("", SOURCE_USER, OUTCOME_ALL, 0)%string /\
  fetching (exec (on_event (SourceChosen SOURCE_SYSTEM)) (fire (SourceChosen SOURCE_USER) s)).2
    ("", SOURCE_SYSTEM, OUTCOME_ALL, 0)%string /\
  let s' := fetched (inl ra) (fetched (inl rb) (fire (SourceChosen SOURCE_SYSTEM) (fire (SourceChosen SOURCE_USER) s))) in
  source s' = SOURCE_SYSTEM /\ entries s' = [] /\ total s' = 7 /\ loading s' = false /\ error s' = None.
Proof.
  apply (stale_answer_shown (committed initial) SOURCE_USER SOURCE_SYSTEM
    (mkListAuditLogsResponse [] 7) (mkListAuditLogsResponse [] 3)); [by apply committed_settled|done|done].
Defined.

(** The page is not bounded by the number of pages: when the last page is shown
    and a refresh finds fewer entries, the range ends before it starts. *)
Example page_past_the_end :
  let s := fetched (inl (mkListAuditLogsResponse [] 60))
    (setPage (fun _ => 2) (fetched (inl (mkListAuditLogsResponse [] 120)) (committed initial))) in
  range_label s = "101–60 of 60"%string /\ page_label s = "Page 3 of 2"%string.
Proof. split; reflexivity. Qed.
