(* ===== verification/AdminResources.v ===== *)
(** The resource inventories of the Administration page and their mutations
    (frontend/src/hooks/useAdminResources.ts). *)
From S2P Require Import Prelude Async Toast Proto AdminFormat.

Inductive AdminResourceKind := images | volumes | networks | builder.

#[global] Instance AdminResourceKind_eq_dec : EqDecision AdminResourceKind.
Proof. solve_decision. Defined.

Inductive AdminResourcesResult :=
| ImagesResult (data : list Image)
| VolumesResult (data : list Volume)
| NetworksResult (data : list Network)
| BuilderResult (data : GetBuildCacheStatsResponse).

Definition result_kind (r : AdminResourcesResult) : AdminResourceKind :=
  match r with
  | ImagesResult _ => images | VolumesResult _ => volumes
  | NetworksResult _ => networks | BuilderResult _ => builder
  end.

Inductive PruneScope := scope_unused | scope_dangling | scope_builder | scope_volumes | scope_networks.

#[global] Instance PruneScope_eq_dec : EqDecision PruneScope.
Proof. solve_decision. Defined.

(** The state of the hook.  [mainDeps] and [recordsDeps] are what the two
    effects last ran with; [mainRun] and [recordsRun] are the runs whose local
    [cancelled] is still false, a run being numbered by [nextRun]. *)
Record State := mkState {
  kind : AdminResourceKind;
  result : option AdminResourcesResult;
  isLoading : bool;
  error : option string;
  refreshNonce : nat;
  deletingId : option string;
  deletingNetworkId : option string;
  pruning : bool;
  pruningScope : option PruneScope;
  pruningRecordId : option string;
  builderRecords : list BuildCacheRecord;
  recordsLoading : bool;
  recordsError : bool;
  volumeUsage : option GetVolumeUsageResponse;
  measuring : bool;
  mainDeps : option (AdminResourceKind * nat);
  mainRun : option (nat * AdminResourceKind);
  recordsDeps : option (AdminResourceKind * nat);
  recordsRun : option nat;
  nextRun : nat
}.

Definition setKind (v : AdminResourceKind) (s : State) : State :=
  mkState v (result s) (isLoading s) (error s) (refreshNonce s) (deletingId s)
    (deletingNetworkId s) (pruning s) (pruningScope s) (pruningRecordId s) (builderRecords s)
    (recordsLoading s) (recordsError s) (volumeUsage s) (measuring s) (mainDeps s) (mainRun s)
    (recordsDeps s) (recordsRun s) (nextRun s).
Definition setResult (v : option AdminResourcesResult) (s : State) : State :=
  mkState (kind s) v (isLoading s) (error s) (refreshNonce s) (deletingId s)
    (deletingNetworkId s) (pruning s) (pruningScope s) (pruningRecordId s) (builderRecords s)
    (recordsLoading s) (recordsError s) (volumeUsage s) (measuring s) (mainDeps s) (mainRun s)
    (recordsDeps s) (recordsRun s) (nextRun s).
Definition setIsLoading (v : bool) (s : State) : State :=
  mkState (kind s) (result s) v (error s) (refreshNonce s) (deletingId s) (deletingNetworkId s)
    (pruning s) (pruningScope s) (pruningRecordId s) (builderRecords s) (recordsLoading s)
    (recordsError s) (volumeUsage s) (measuring s) (mainDeps s) (mainRun s) (recordsDeps s)
    (recordsRun s) (nextRun s).
Definition setError (v : option string) (s : State) : State :=
  mkState (kind s) (result s) (isLoading s) v (refreshNonce s) (deletingId s)
    (deletingNetworkId s) (pruning s) (pruningScope s) (pruningRecordId s) (builderRecords s)
    (recordsLoading s) (recordsError s) (volumeUsage s) (measuring s) (mainDeps s) (mainRun s)
    (recordsDeps s) (recordsRun s) (nextRun s).
Definition setRefreshNonce (v : nat) (s : State) : State :=
  mkState (kind s) (result s) (isLoading s) (error s) v (deletingId s) (deletingNetworkId s)
    (pruning s) (pruningScope s) (pruningRecordId s) (builderRecords s) (recordsLoading s)
    (recordsError s) (volumeUsage s) (measuring s) (mainDeps s) (mainRun s) (recordsDeps s)
    (recordsRun s) (nextRun s).
Definition setDeletingId (v : option string) (s : State) : State :=
  mkState (kind s) (result s) (isLoading s) (error s) (refreshNonce s) v (deletingNetworkId s)
    (pruning s) (pruningScope s) (pruningRecordId s) (builderRecords s) (recordsLoading s)
    (recordsError s) (volumeUsage s) (measuring s) (mainDeps s) (mainRun s) (recordsDeps s)
    (recordsRun s) (nextRun s).
Definition setDeletingNetworkId (v : option string) (s : State) : State :=
  mkState (kind s) (result s) (isLoading s) (error s) (refreshNonce s) (deletingId s) v
    (pruning s) (pruningScope s) (pruningRecordId s) (builderRecords s) (recordsLoading s)
    (recordsError s) (volumeUsage s) (measuring s) (mainDeps s) (mainRun s) (recordsDeps s)
    (recordsRun s) (nextRun s).
Definition setPruning (v : bool) (s : State) : State :=
  mkState (kind s) (result s) (isLoading s) (error s) (refreshNonce s) (deletingId s)
    (deletingNetworkId s) v (pruningScope s) (pruningRecordId s) (builderRecords s)
    (recordsLoading s) (recordsError s) (volumeUsage s) (measuring s) (mainDeps s) (mainRun s)
    (recordsDeps s) (recordsRun s) (nextRun s).
Definition setPruningScope (v : option PruneScope) (s : State) : State :=
  mkState (kind s) (result s) (isLoading s) (error s) (refreshNonce s) (deletingId s)
    (deletingNetworkId s) (pruning s) v (pruningRecordId s) (builderRecords s)
    (recordsLoading s) (recordsError s) (volumeUsage s) (measuring s) (mainDeps s) (mainRun s)
    (recordsDeps s) (recordsRun s) (nextRun s).
Definition setPruningRecordId (v : option string) (s : State) : State :=
  mkState (kind s) (result s) (isLoading s) (error s) (refreshNonce s) (deletingId s)
    (deletingNetworkId s) (pruning s) (pruningScope s) v (builderRecords s) (recordsLoading s)
    (recordsError s) (volumeUsage s) (measuring s) (mainDeps s) (mainRun s) (recordsDeps s)
    (recordsRun s) (nextRun s).
Definition setBuilderRecords (v : list BuildCacheRecord) (s : State) : State :=
  mkState (kind s) (result s) (isLoading s) (error s) (refreshNonce s) (deletingId s)
    (deletingNetworkId s) (pruning s) (pruningScope s) (pruningRecordId s) v (recordsLoading s)
    (recordsError s) (volumeUsage s) (measuring s) (mainDeps s) (mainRun s) (recordsDeps s)
    (recordsRun s) (nextRun s).
Definition setRecordsLoading (v : bool) (s : State) : State :=
  mkState (kind s) (result s) (isLoading s) (error s) (refreshNonce s) (deletingId s)
    (deletingNetworkId s) (pruning s) (pruningScope s) (pruningRecordId s) (builderRecords s) v
    (recordsError s) (volumeUsage s) (measuring s) (mainDeps s) (mainRun s) (recordsDeps s)
    (recordsRun s) (nextRun s).
Definition setRecordsError (v : bool) (s : State) : State :=
  mkState (kind s) (result s) (isLoading s) (error s) (refreshNonce s) (deletingId s)
    (deletingNetworkId s) (pruning s) (pruningScope s) (pruningRecordId s) (builderRecords s)
    (recordsLoading s) v (volumeUsage s) (measuring s) (mainDeps s) (mainRun s) (recordsDeps s)
    (recordsRun s) (nextRun s).
Definition setVolumeUsage (v : option GetVolumeUsageResponse) (s : State) : State :=
  mkState (kind s) (result s) (isLoading s) (error s) (refreshNonce s) (deletingId s)
    (deletingNetworkId s) (pruning s) (pruningScope s) (pruningRecordId s) (builderRecords s)
    (recordsLoading s) (recordsError s) v (measuring s) (mainDeps s) (mainRun s) (recordsDeps s)
    (recordsRun s) (nextRun s).
Definition setMeasuring (v : bool) (s : State) : State :=
  mkState (kind s) (result s) (isLoading s) (error s) (refreshNonce s) (deletingId s)
    (deletingNetworkId s) (pruning s) (pruningScope s) (pruningRecordId s) (builderRecords s)
    (recordsLoading s) (recordsError s) (volumeUsage s) v (mainDeps s) (mainRun s)
    (recordsDeps s) (recordsRun s) (nextRun s).
Definition setMainDeps (v : option (AdminResourceKind * nat)) (s : State) : State :=
  mkState (kind s) (result s) (isLoading s) (error s) (refreshNonce s) (deletingId s)
    (deletingNetworkId s) (pruning s) (pruningScope s) (pruningRecordId s) (builderRecords s)
    (recordsLoading s) (recordsError s) (volumeUsage s) (measuring s) v (mainRun s)
    (recordsDeps s) (recordsRun s) (nextRun s).
Definition setMainRun (v : option (nat * AdminResourceKind)) (s : State) : State :=
  mkState (kind s) (result s) (isLoading s) (error s) (refreshNonce s) (deletingId s)
    (deletingNetworkId s) (pruning s) (pruningScope s) (pruningRecordId s) (builderRecords s)
    (recordsLoading s) (recordsError s) (volumeUsage s) (measuring s) (mainDeps s) v
    (recordsDeps s) (recordsRun s) (nextRun s).
Definition setRecordsDeps (v : option (AdminResourceKind * nat)) (s : State) : State :=
  mkState (kind s) (result s) (isLoading s) (error s) (refreshNonce s) (deletingId s)
    (deletingNetworkId s) (pruning s) (pruningScope s) (pruningRecordId s) (builderRecords s)
    (recordsLoading s) (recordsError s) (volumeUsage s) (measuring s) (mainDeps s) (mainRun s) v
    (recordsRun s) (nextRun s).
Definition setRecordsRun (v : option nat) (s : State) : State :=
  mkState (kind s) (result s) (isLoading s) (error s) (refreshNonce s) (deletingId s)
    (deletingNetworkId s) (pruning s) (pruningScope s) (pruningRecordId s) (builderRecords s)
    (recordsLoading s) (recordsError s) (volumeUsage s) (measuring s) (mainDeps s) (mainRun s)
    (recordsDeps s) v (nextRun s).
Definition setNextRun (v : nat) (s : State) : State :=
  mkState (kind s) (result s) (isLoading s) (error s) (refreshNonce s) (deletingId s)
    (deletingNetworkId s) (pruning s) (pruningScope s) (pruningRecordId s) (builderRecords s)
    (recordsLoading s) (recordsError s) (volumeUsage s) (measuring s) (mainDeps s) (mainRun s)
    (recordsDeps s) (recordsRun s) v.

Definition initial (k : AdminResourceKind) : State :=
  mkState k None true None 0 None None false None None [] false false None false None None None None 0.

(** ** Requests *)

Inductive Req :=
| ListImages | ListVolumes | ListNetworks | GetBuildCacheStats
| ListBuildCacheRecords
| DeleteImage (request : DeleteImageRequest)
| PruneImages (request : PruneImagesRequest)
| PruneBuildCache (request : PruneBuildCacheRequest)
| PruneBuildCacheRecord (request : PruneBuildCacheRecordRequest)
| GetVolumeUsage
| PruneVolumes
| DeleteNetwork (request : DeleteNetworkRequest)
| PruneNetworks.

Definition Resp (r : Req) : Type :=
  match r with
  | ListImages => ListImagesResponse
  | ListVolumes => ListVolumesResponse
  | ListNetworks => ListNetworksResponse
  | GetBuildCacheStats => GetBuildCacheStatsResponse
  | ListBuildCacheRecords => ListBuildCacheRecordsResponse
  | DeleteImage _ => unit
  | PruneImages _ => PruneImagesResponse
  | PruneBuildCache _ => PruneBuildCacheResponse
  | PruneBuildCacheRecord _ => PruneBuildCacheRecordResponse
  | GetVolumeUsage => GetVolumeUsageResponse
  | PruneVolumes => PruneVolumesResponse
  | DeleteNetwork _ => unit
  | PruneNetworks => PruneNetworksResponse
  end.

Abbreviation M := (async (State * ToastState) Req Resp).
Abbreviation handler := (M unit).
Local Open Scope async_scope.

(** ** The inventory *)

(** [if (!cancelled) ...] in run [r] of the first effect. *)
Definition unless_cancelled (r : nat * AdminResourceKind) (f : State -> State) : handler :=
  setState (fun s => if bool_decide (mainRun s = Some r) then f s else s).

Definition list_resources (k : AdminResourceKind) : M AdminResourcesResult :=
  match k with
  | images => resp <- rpc (Resp := Resp) ListImages ;; Ret (ImagesResult (ListImagesResponse_images resp))
  | volumes => resp <- rpc (Resp := Resp) ListVolumes ;; Ret (VolumesResult (ListVolumesResponse_volumes resp))
  | networks => resp <- rpc (Resp := Resp) ListNetworks ;; Ret (NetworksResult (ListNetworksResponse_networks resp))
  | builder => resp <- rpc (Resp := Resp) GetBuildCacheStats ;; Ret (BuilderResult resp)
  end.

Definition fetchResources (r : nat * AdminResourceKind) : handler :=
  setState (setIsLoading true) ;;;
  setState (setError None) ;;;
  try
    (try
      (next <- list_resources r.2 ;;
       unless_cancelled r (setResult (Some next)))
    catch (fun err =>
      unless_cancelled r (fun s =>
        setResult None (setError (Some "Unable to connect to the Docker monitor backend."%string) s))))
  finally (unless_cancelled r (setIsLoading false)).

(** The first effect: it runs when the kind or the nonce changed, cancelling the
    run before it. *)
Definition main_effect : handler :=
  s <- gets fst ;;
  if bool_decide (mainDeps s = Some (kind s, refreshNonce s)) then Ret tt
  else
    setState (fun s => setMainDeps (Some (kind s, refreshNonce s))
      (setMainRun (Some (nextRun s, kind s)) (setNextRun (S (nextRun s)) s))) ;;;
    fetchResources (nextRun s, kind s).

(** ** The build cache records *)

Definition unless_records_cancelled (r : nat) (f : State -> State) : handler :=
  setState (fun s => if bool_decide (recordsRun s = Some r) then f s else s).

Definition fetchRecords (r : nat) : handler :=
  setState (setRecordsLoading true) ;;;
  setState (setRecordsError false) ;;;
  try
    (try
      (resp <- rpc (Resp := Resp) ListBuildCacheRecords ;;
       unless_records_cancelled r (setBuilderRecords (ListBuildCacheRecordsResponse_records resp)))
    catch (fun err =>
      unless_records_cancelled r (fun s => setBuilderRecords [] (setRecordsError true s))))
  finally (unless_records_cancelled r (setRecordsLoading false)).

Definition records_effect : handler :=
  s <- gets fst ;;
  if bool_decide (recordsDeps s = Some (kind s, refreshNonce s)) then Ret tt
  else
    setState (fun s => setRecordsDeps (Some (kind s, refreshNonce s)) (setRecordsRun None s)) ;;;
    if negb (bool_decide (kind s = builder)) then Ret tt
    else
      setState (fun s => setRecordsRun (Some (nextRun s)) (setNextRun (S (nextRun s)) s)) ;;;
      fetchRecords (nextRun s).

(** ** Mutations *)

Definition refresh : handler := setState (fun s => setRefreshNonce (S (refreshNonce s)) s).

(** [try { body } catch (err) { toast.error(`${fail}: ${msg}`); return }
    finally { cleanup }]; whether the function goes on. *)
Definition attempt (body : handler) (fail : string) (cleanup : handler) : M bool :=
  try
    (try (body ;;; Ret true)
     catch (fun err => toast Toast.error (fail +:+ ": " +:+ errText err) None ;;; Ret false))
  finally cleanup.

Definition is_some {A} (o : option A) : bool := if o then true else false.

Definition deleteImage (id : string) : handler :=
  s <- gets fst ;;
  if is_some (deletingId s) then Ret tt
  else
    setState (setDeletingId (Some id)) ;;;
    ok <- attempt (rpc (Resp := Resp) (DeleteImage (mkDeleteImageRequest id true)) ;;; Ret tt)
            "Failed to delete image" (setState (setDeletingId None)) ;;
    if (ok : bool) then toast Toast.success "Image deleted successfully." None ;;; refresh else Ret tt.

Definition deleteNetwork (id : string) : handler :=
  s <- gets fst ;;
  if is_some (deletingNetworkId s) then Ret tt
  else
    setState (setDeletingNetworkId (Some id)) ;;;
    ok <- attempt (rpc (Resp := Resp) (DeleteNetwork (mkDeleteNetworkRequest id)) ;;; Ret tt)
            "Failed to delete network" (setState (setDeletingNetworkId None)) ;;
    if (ok : bool) then toast Toast.success "Network deleted successfully." None ;;; refresh else Ret tt.

Definition begin_prune (scope : option PruneScope) (record : option string) : handler :=
  setState (setPruning true) ;;;
  match scope, record with
  | Some sc, _ => setState (setPruningScope (Some sc))
  | _, Some id => setState (setPruningRecordId (Some id))
  | _, _ => Ret tt
  end.

Definition end_scope : handler := setState (setPruning false) ;;; setState (setPruningScope None).
Definition end_record : handler := setState (setPruning false) ;;; setState (setPruningRecordId None).

Definition noun (count : Z) (one many : string) : string := if Z.eqb count 1 then one else many.

Definition pruneImages (danglingOnly : bool) : handler :=
  s <- gets fst ;;
  if pruning s then Ret tt
  else
    begin_prune (Some (if danglingOnly then scope_dangling else scope_unused)) None ;;;
    ok <- attempt
      (resp <- rpc (Resp := Resp) (PruneImages (mkPruneImagesRequest danglingOnly)) ;;
       let count := Z.of_nat (length (PruneImagesResponse_imagesDeleted resp)) in
       let scope := if danglingOnly then "dangling"%string else "unused"%string in
       toast Toast.success
         ("Reclaimed " +:+ formatBytes (PruneImagesResponse_spaceReclaimed resp) true +:+ " from " +:+
          num count +:+ " " +:+ scope +:+ " " +:+ noun count "image" "images" +:+ ".") None)
      "Failed to prune images" end_scope ;;
    if (ok : bool) then refresh else Ret tt.

Definition pruneBuildCache : handler :=
  s <- gets fst ;;
  if pruning s then Ret tt
  else
    begin_prune (Some scope_builder) None ;;;
    ok <- attempt
      (resp <- rpc (Resp := Resp) (PruneBuildCache (mkPruneBuildCacheRequest false)) ;;
       let count := PruneBuildCacheResponse_cachesDeleted resp in
       toast Toast.success
         ("Reclaimed " +:+ formatBytes (PruneBuildCacheResponse_spaceReclaimed resp) true +:+ " from " +:+
          num count +:+ " cache " +:+ noun count "record" "records" +:+ ".") None)
      "Failed to prune build cache" end_scope ;;
    if (ok : bool) then refresh else Ret tt.

Definition pruneBuildCacheRecord (id : string) : handler :=
  s <- gets fst ;;
  if pruning s then Ret tt
  else
    begin_prune None (Some id) ;;;
    ok <- attempt
      (resp <- rpc (Resp := Resp) (PruneBuildCacheRecord (mkPruneBuildCacheRecordRequest id)) ;;
       let count := PruneBuildCacheRecordResponse_cachesDeleted resp in
       toast Toast.success
         ("Deleted " +:+ num count +:+ " cache " +:+ noun count "record" "records" +:+ ", reclaimed " +:+
          formatBytes (PruneBuildCacheRecordResponse_spaceReclaimed resp) true +:+ ".") None)
      "Failed to delete cache record" end_record ;;
    if (ok : bool) then refresh else Ret tt.

(** [captured] is [measuring] in the render the callback was created in. *)
Definition measureVolumeUsage (captured : bool) : handler :=
  if captured then Ret tt
  else
    setState (setMeasuring true) ;;;
    try
      (try
        (resp <- rpc (Resp := Resp) GetVolumeUsage ;;
         setState (setVolumeUsage (Some resp)))
      catch (fun err => toast Toast.error ("Failed to measure volume usage: " +:+ errText err) None))
    finally (setState (setMeasuring false)).

(** [count > 0 && count <= 3 && names.length > 0 ? ` (${names.join(", ")})` : ""] *)
Definition namesSuffix (count : Z) (names : list string) : string :=
  if Z.ltb 0 count && Z.leb count 3 && (0 <? length names)
  then " (" +:+ join ", " names +:+ ")" else "".

Definition pruneVolumes : handler :=
  s <- gets fst ;;
  if pruning s then Ret tt
  else
    begin_prune (Some scope_volumes) None ;;;
    ok <- attempt
      (resp <- rpc (Resp := Resp) PruneVolumes ;;
       let count := PruneVolumesResponse_volumesDeleted resp in
       toast Toast.success
         ("Reclaimed " +:+ formatBytes (PruneVolumesResponse_spaceReclaimed resp) true +:+ " from " +:+
          num count +:+ " unused " +:+ noun count "volume" "volumes" +:+
          namesSuffix count (PruneVolumesResponse_names resp) +:+ ".") None)
      "Failed to prune volumes" end_scope ;;
    if (ok : bool) then
      refresh ;;;
      if is_some (volumeUsage s) then measureVolumeUsage (measuring s) else Ret tt
    else Ret tt.

Definition pruneNetworks : handler :=
  s <- gets fst ;;
  if pruning s then Ret tt
  else
    begin_prune (Some scope_networks) None ;;;
    ok <- attempt
      (resp <- rpc (Resp := Resp) PruneNetworks ;;
       let count := PruneNetworksResponse_networksDeleted resp in
       toast Toast.success
         ("Deleted " +:+ num count +:+ " unused " +:+ noun count "network" "networks" +:+
          namesSuffix count (PruneNetworksResponse_names resp) +:+ ".") None)
      "Failed to prune networks" end_scope ;;
    if (ok : bool) then refresh else Ret tt.

(** ** Events *)

Inductive event :=
| MainEffect | RecordsEffect | SwitchKind (k : AdminResourceKind) | RefreshClicked | Unmount
| DoDeleteImage (id : string) | DoDeleteNetwork (id : string)
| DoPruneImages (danglingOnly : bool) | DoPruneBuildCache | DoPruneRecord (id : string)
| DoPruneVolumes | DoPruneNetworks | DoMeasure.

Definition on_event (e : event) : handler :=
  match e with
  | MainEffect => main_effect
  | RecordsEffect => records_effect
  | SwitchKind k => setState (setKind k)
  | RefreshClicked => refresh
  | Unmount => setState (fun s => setRecordsRun None (setMainRun None s))
  | DoDeleteImage id => deleteImage id
  | DoDeleteNetwork id => deleteNetwork id
  | DoPruneImages d => pruneImages d
  | DoPruneBuildCache => pruneBuildCache
  | DoPruneRecord id => pruneBuildCacheRecord id
  | DoPruneVolumes => pruneVolumes
  | DoPruneNetworks => pruneNetworks
  | DoMeasure => s <- gets fst ;; measureVolumeUsage (measuring s)
  end.

Definition starts : handler -> Prop := started_by on_event.

(** ** The inventory settles on the kind shown *)

Definition unreachable_text : string := "Unable to connect to the Docker monitor backend.".

(** Of the live run: its kind is the one the effect last ran for, and once it
    has ended there is a list of its kind, or none and an error. *)
Definition inventory_ok (run : option (nat * AdminResourceKind)) (deps : option (AdminResourceKind * nat))
    (loading : bool) (res : option AdminResourcesResult) (err : option string) : Prop :=
  match run with
  | None => True
  | Some (_, k) =>
      (exists n, deps = Some (k, n)) /\
      (loading = false ->
         (exists x, res = Some x /\ result_kind x = k) \/ (res = None /\ err = Some unreachable_text))
  end.

Definition inventory_inv (s : State * ToastState) : Prop :=
  inventory_ok (mainRun s.1) (mainDeps s.1) (isLoading s.1) (result s.1) (error s.1).

(** An answer of run [r] and its [finally] block. *)
Lemma run_ends (r : nat * AdminResourceKind) (f : State -> State) (s : State) (t : ToastState) :
  inventory_inv (s, t) ->
  (mainRun s = Some r -> mainRun (f s) = Some r /\ mainDeps (f s) = mainDeps s /\
     ((exists x, result (f s) = Some x /\ result_kind x = r.2) \/
      (result (f s) = None /\ error (f s) = Some unreachable_text))) ->
  let s1 := if bool_decide (mainRun s = Some r) then f s else s in
  inventory_inv (if bool_decide (mainRun s1 = Some r) then setIsLoading false s1 else s1, t).
Proof.
  intros Hs Hf s1. unfold s1. destruct (bool_decide_reflect (mainRun s = Some r)) as [E|E].
  - destruct (Hf E) as (H1 & H2 & H3). rewrite bool_decide_eq_true_2 by done.
    unfold inventory_inv in *. cbn in *. rewrite E in Hs. rewrite H1, H2.
    destruct r as [i k], Hs as [Hd _]. by split.
  - by rewrite bool_decide_eq_false_2.
Qed.

Lemma fetchResources_keeps (r : nat * AdminResourceKind) (s : State * ToastState) :
  mainRun s.1 = Some r -> (exists n, mainDeps s.1 = Some (r.2, n)) ->
  guarantees inventory_inv (fetchResources r) (fun _ => inventory_inv) s.
Proof.
  intros Hr Hd. assert (inventory_inv (setError None (setIsLoading true s.1), s.2)) as H0.
  { unfold inventory_inv. cbn. rewrite Hr. destruct r. by split. }
  destruct r as [i []]; (split; [exact H0|]); intros [resp|e] [s' t] Hs'; cbn.
  all: apply (run_ends _ (fun s => setResult _ s)) || apply (run_ends _ (fun s => setResult None (setError _ s)));
    [exact Hs'|]; intros E; cbn; split_and!; eauto.
Qed.

(** A handler that leaves the inventory alone. *)
Definition same_inventory (s s' : State) : Prop :=
  (mainRun s', mainDeps s', isLoading s', result s', error s') =
  (mainRun s, mainDeps s, isLoading s, result s, error s).

Lemma same_inventory_inv (s s' : State * ToastState) :
  inventory_inv s -> same_inventory s.1 s'.1 -> inventory_inv s'.
Proof. unfold inventory_inv, same_inventory. by intros Hi [= -> -> -> -> ->]. Qed.

Lemma event_keeps_inventory (e : event) : keeps inventory_inv (on_event e).
Proof.
  intros [s t] Hs. destruct e as [| |k| | |id|id|d| |id| | |]; cbn [on_event].
  - unfold main_effect. cbn [bind gets guarantees fst]. case_bool_decide; [exact Hs|].
    cbn [bind setState modify guarantees fst snd]. apply fetchResources_keeps; cbn; eauto.
  - unfold records_effect; cbn. repeat case_bool_decide; cbn; try exact Hs.
    split; [exact Hs|]. intros [resp|err] [s' t'] Hs'; cbn.
    all: repeat case_bool_decide; exact Hs'.
  - exact Hs.
  - exact Hs.
  - exact I.
  - unfold deleteImage; cbn. destruct (is_some _); [exact Hs|]. split; [exact Hs|].
    by intros [resp|err] [s' t'] Hs'.
  - unfold deleteNetwork; cbn. destruct (is_some _); [exact Hs|]. split; [exact Hs|].
    by intros [resp|err] [s' t'] Hs'.
  - unfold pruneImages; cbn. destruct (pruning s); [exact Hs|]. destruct d; (split; [exact Hs|]);
    by intros [resp|err] [s' t'] Hs'.
  - unfold pruneBuildCache; cbn. destruct (pruning s); [exact Hs|]. split; [exact Hs|].
    by intros [resp|err] [s' t'] Hs'.
  - unfold pruneBuildCacheRecord; cbn. destruct (pruning s); [exact Hs|]. split; [exact Hs|].
    by intros [resp|err] [s' t'] Hs'.
  - unfold pruneVolumes; cbn. destruct (pruning s); [exact Hs|]. split; [exact Hs|].
    intros [resp|err] [s' t'] Hs'; [|exact Hs']. cbn. destruct (is_some _); [|exact Hs'].
    unfold measureVolumeUsage. destruct (measuring s); [exact Hs'|]. split; [exact Hs'|].
    by intros [resp'|err] [s2 t2] Hs2.
  - unfold pruneNetworks; cbn. destruct (pruning s); [exact Hs|]. split; [exact Hs|].
    by intros [resp|err] [s' t'] Hs'.
  - cbn. unfold measureVolumeUsage. destruct (measuring s); [exact Hs|]. split; [exact Hs|].
    by intros [resp'|err] [s2 t2] Hs2.
Qed.

(** However tab changes, refreshes, mutations and answers interleave, once the
    page has finished loading the tab it last asked for, it shows a list of that
    tab's kind, or no list and the error: the late answer of another tab or of
    an earlier refresh is never shown. *)
Theorem inventory_settles (k : AdminResourceKind) (t : ToastState) (s : State * ToastState)
    (H : pool_reaches starts (initial k, t) s) (r : nat * AdminResourceKind)
    (Hr : mainRun s.1 = Some r) (Hl : isLoading s.1 = false) :
  (exists n, mainDeps s.1 = Some (r.2, n)) /\
  ((exists x, result s.1 = Some x /\ result_kind x = r.2) \/
   (result s.1 = None /\ error s.1 = Some unreachable_text)).
Proof.
  assert (inventory_inv s) as Hi.
  { apply (pool_invariant inventory_inv starts (initial k, t)); [|exact I|exact H].
    intros m [e ->]. apply event_keeps_inventory. }
  unfold inventory_inv in Hi. rewrite Hr in Hi. destruct r as [i k'], Hi as [Hd Hk]. auto.
Qed.

Lemma inventory_settles_witness :
  let s := (run (Resp := Resp)
    (fun r => match r return Resp r + thrown with
              | ListNetworks => inl (mkListNetworksResponse []) | _ => inr (JsError "down") end)
    (on_event MainEffect) (initial networks, mkToastState [] (fun n => pretty n) 0)).1 in
  (exists n, mainDeps s.1 = Some (networks, n)) /\
  ((exists x, result s.1 = Some x /\ result_kind x = networks) \/
   (result s.1 = None /\ error s.1 = Some unreachable_text)).
Proof.
  intros s. apply (inventory_settles networks (mkToastState [] (fun n => pretty n) 0) s) with (r := (0, networks)).
  - apply run_reaches. by exists MainEffect.
  - reflexivity.
  - reflexivity.
Defined.

(** ** One at a time *)

Definition prune_request (r : Req) : bool :=
  match r with
  | PruneImages _ | PruneBuildCache _ | PruneBuildCacheRecord _ | PruneVolumes | PruneNetworks => true
  | _ => false
  end.
Definition delete_image_request (r : Req) : bool := match r with DeleteImage _ => true | _ => false end.
Definition delete_network_request (r : Req) : bool := match r with DeleteNetwork _ => true | _ => false end.

(** The turn of the operation that owns the mark: nothing while the mark is up,
    else the mark, the request, and the mark taken down by the answer. *)
Ltac own_turn guard :=
  cbn; destruct guard eqn:?;
  [ left; cbn; exact I
  | right; cbn; split_and!; [reflexivity || assumption|reflexivity|];
    eexists; split; [reflexivity|]; split; [reflexivity|];
    intros [resp|err] [s' t']; cbn; repeat (case_match; cbn); (split; [reflexivity|]);
    repeat constructor; intros [?|?] [? ?]; cbn; auto ].

Ltac unfold_mutations :=
  unfold on_event, main_effect, records_effect, fetchResources, fetchRecords, list_resources,
    unless_cancelled, unless_records_cancelled, refresh, deleteImage, deleteNetwork, pruneImages,
    pruneBuildCache, pruneBuildCacheRecord, pruneVolumes, pruneNetworks, measureVolumeUsage,
    attempt, begin_prune, end_scope, end_record, setState, toast.

Lemma prune_turns (e : event) : takes_turn on_event (fun s => pruning s.1) prune_request e.
Proof.
  intros [s t]. destruct e as [| |k| | |id|id|[]| |id| | |]; cbv zeta;
    first [by unfold_mutations; steady_turn | unfold_mutations; own_turn (pruning s)].
Qed.

Lemma delete_image_turns (e : event) :
  takes_turn on_event (fun s => is_some (deletingId s.1)) delete_image_request e.
Proof.
  intros [s t]. destruct e as [| |k| | |id|id|[]| |id| | |]; cbv zeta;
    first [by unfold_mutations; steady_turn | unfold_mutations; own_turn (is_some (deletingId s))].
Qed.

Lemma delete_network_turns (e : event) :
  takes_turn on_event (fun s => is_some (deletingNetworkId s.1)) delete_network_request e.
Proof.
  intros [s t]. destruct e as [| |k| | |id|id|[]| |id| | |]; cbv zeta;
    first [by unfold_mutations; steady_turn | unfold_mutations; own_turn (is_some (deletingNetworkId s))].
Qed.

(** C16: Under every interleaving at most one prune request (of images, volumes,
    networks, the build cache or one of its records), one image deletion and one
    network deletion are in flight, each exactly while its mark is up. *)
Theorem one_mutation_at_a_time (k : AdminResourceKind) (t : ToastState) (s : State * ToastState)
    (p : list (suspended (State * ToastState) Req Resp))
    (H : rtc (pool_step starts) ((initial k, t), []) (s, p)) :
  in_flight prune_request p = (if pruning s.1 then 1 else 0) /\
  in_flight delete_image_request p = (if deletingId s.1 then 1 else 0) /\
  in_flight delete_network_request p = (if deletingNetworkId s.1 then 1 else 0).
Proof.
  destruct (flight_reaches _ _ _ (initial k, t) _ eq_refl prune_turns H) as [_ H1].
  destruct (flight_reaches _ _ _ (initial k, t) _ eq_refl delete_image_turns H) as [_ H2].
  destruct (flight_reaches _ _ _ (initial k, t) _ eq_refl delete_network_turns H) as [_ H3].
  cbn [fst snd] in H1, H2, H3. rewrite H1, H2, H3. by destruct (deletingId s.1), (deletingNetworkId s.1).
Qed.

Lemma one_mutation_at_a_time_witness :
  let s0 := (initial images, mkToastState [] (fun n => pretty n) 0) in
  let c := exec (on_event (DoPruneImages false)) s0 in
  in_flight prune_request (pending c.2) = 1 /\
  in_flight delete_image_request (pending c.2) = 0 /\
  in_flight delete_network_request (pending c.2) = 0.
Proof.
  intros s0 c.
  apply (one_mutation_at_a_time images (mkToastState [] (fun n => pretty n) 0) c.1 (pending c.2)).
  eapply rtc_l; [|apply rtc_refl].
  pose proof (pool_start starts (on_event (DoPruneImages false)) s0 []) as Hs. rewrite app_nil_r in Hs.
  apply Hs. by eexists.
Defined.

(** ** What a mutation does *)

Inductive mutation :=
| MDeleteImage (id : string) | MDeleteNetwork (id : string)
| MPruneImages (danglingOnly : bool) | MPruneBuildCache | MPruneRecord (id : string)
| MPruneVolumes | MPruneNetworks.

Definition mutate (m : mutation) : handler :=
  match m with
  | MDeleteImage id => deleteImage id | MDeleteNetwork id => deleteNetwork id
  | MPruneImages d => pruneImages d | MPruneBuildCache => pruneBuildCache
  | MPruneRecord id => pruneBuildCacheRecord id
  | MPruneVolumes => pruneVolumes | MPruneNetworks => pruneNetworks
  end.

Definition mutation_request (m : mutation) : Req :=
  match m with
  | MDeleteImage id => DeleteImage (mkDeleteImageRequest id true)
  | MDeleteNetwork id => DeleteNetwork (mkDeleteNetworkRequest id)
  | MPruneImages d => PruneImages (mkPruneImagesRequest d)
  | MPruneBuildCache => PruneBuildCache (mkPruneBuildCacheRequest false)
  | MPruneRecord id => PruneBuildCacheRecord (mkPruneBuildCacheRecordRequest id)
  | MPruneVolumes => PruneVolumes
  | MPruneNetworks => PruneNetworks
  end.

(** The mark of a mutation under way. *)
Definition busy (m : mutation) (s : State) : bool :=
  match m with
  | MDeleteImage _ => is_some (deletingId s)
  | MDeleteNetwork _ => is_some (deletingNetworkId s)
  | _ => pruning s
  end.

(** What the page shows of a mutation under way: the row or the button that spins. *)
Definition marked (m : mutation) (s : State) : Prop :=
  match m with
  | MDeleteImage id => deletingId s = Some id
  | MDeleteNetwork id => deletingNetworkId s = Some id
  | MPruneImages d => pruningScope s = Some (if d then scope_dangling else scope_unused)
  | MPruneBuildCache => pruningScope s = Some scope_builder
  | MPruneRecord id => pruningRecordId s = Some id
  | MPruneVolumes => pruningScope s = Some scope_volumes
  | MPruneNetworks => pruningScope s = Some scope_networks
  end.

Definition unmarked (m : mutation) (s : State) : Prop :=
  match m with
  | MDeleteImage _ => deletingId s = None
  | MDeleteNetwork _ => deletingNetworkId s = None
  | MPruneRecord _ => pruningRecordId s = None /\ pruning s = false
  | _ => pruningScope s = None /\ pruning s = false
  end.

Definition failure_text (m : mutation) (e : thrown) : string :=
  (match m with
   | MDeleteImage _ => "Failed to delete image"
   | MDeleteNetwork _ => "Failed to delete network"
   | MPruneImages _ => "Failed to prune images"
   | MPruneBuildCache => "Failed to prune build cache"
   | MPruneRecord _ => "Failed to delete cache record"
   | MPruneVolumes => "Failed to prune volumes"
   | MPruneNetworks => "Failed to prune networks"
   end) +:+ ": " +:+ errText e.

(** The re-measurement that may follow a prune of the volumes. *)
Definition remeasures (m : mutation) (s : State) : bool :=
  match m with MPruneVolumes => is_some (volumeUsage s) && negb (measuring s) | _ => false end.

(** A mutation started while another of its kind is under way does nothing;
    otherwise it marks its row or button, sends its one request, and on the
    answer takes the mark down whatever happened: on success one success message
    and a fresh fetch of the list, on failure one error message with the cause
    and no fetch.  Sizes are measured again after a prune of the volumes when
    they had been measured, and were not being measured, when it was started. *)
Theorem mutation_spec (m : mutation) (s : State) (t : ToastState) :
  if busy m s then exec (mutate m) (s, t) = ((s, t), Done tt)
  else exists s1 k, exec (mutate m) (s, t) = ((s1, t), Blocked (mutation_request m) k) /\
    busy m s1 = true /\ marked m s1 /\
    forall answer s2 t2, exists s3 t3 o, exec (k answer) (s2, t2) = ((s3, t3), o) /\
      unmarked m s3 /\
      match answer with
      | inl _ =>
          (exists text, shown t3 = shown t2 ++ [(Toast.success, text)]) /\
          refreshNonce s3 = S (refreshNonce s2) /\
          (if remeasures m s then exists k', o = Blocked GetVolumeUsage k' /\ measuring s3 = true
           else o = Done tt)
      | inr e =>
          shown t3 = shown t2 ++ [(Toast.error, failure_text m e)] /\
          refreshNonce s3 = refreshNonce s2 /\ o = Done tt
      end.
Proof.
  destruct m as [id|id|[]| |id| |]; cbn [busy mutate].
  all: unfold deleteImage, deleteNetwork, pruneImages, pruneBuildCache, pruneBuildCacheRecord,
    pruneVolumes, pruneNetworks, remeasures; cbn [bind gets exec fst].
  all: match goal with |- context [if ?b then exec _ _ = _ else _] => destruct b; [reflexivity|] end.
  all: do 2 eexists; (split; [reflexivity|]); (split; [reflexivity|]); (split; [reflexivity|]).
  all: intros [resp|e] s2 t2; cbn.
  all: try (destruct (volumeUsage s); cbn; unfold measureVolumeUsage; try destruct (measuring s); cbn).
  all: do 3 eexists; (split; [reflexivity|]); cbn; repeat split; eauto.
  all: try eexists; unfold shown; cbn; by rewrite fmap_app.
Qed.

(** A prune of the volumes started while their sizes are being measured again
    uses the [measuring] of that moment: when the measurement is over by the
    time the prune succeeds, the sizes shown, older than the prune, are not
    measured again. *)
Lemma stale_measuring_skips (s : State) (t : ToastState) (u : GetVolumeUsageResponse)
    (resp : PruneVolumesResponse) :
  pruning s = false -> measuring s = true -> volumeUsage s = Some u ->
  exists s1 k, exec pruneVolumes (s, t) = ((s1, t), Blocked PruneVolumes k) /\
    forall s2 t2, measuring s2 = false ->
      exists t3, exec (k (inl resp)) (s2, t2) =
        ((setRefreshNonce (S (refreshNonce s2)) (setPruningScope None (setPruning false s2)), t3), Done tt).
Proof.
  intros Hp Hm Hu. unfold pruneVolumes. cbn [bind gets exec fst]. rewrite Hp.
  do 2 eexists. split; [reflexivity|]. intros s2 t2 Hs2. cbn. rewrite Hu. cbn.
  unfold measureVolumeUsage. rewrite Hm. cbn. by eexists.
Qed.
