(* ===== verification/AdminTables.v ===== *)
(** The tables and panels of the Administration page: what each cell shows and
    which buttons are offered (frontend/src/components/ImageTable.tsx,
    NetworkTable.tsx, VolumeTable.tsx, Builder.tsx, BuilderRecords.tsx,
    SortButton.tsx). *)
From S2P Require Import Prelude Proto AdminFormat.
Local Open Scope Z_scope.

(** A button: its label or title, and whether a click reaches its handler. *)
Record Button := mkButton { button_title : option string; button_disabled : bool; button_spins : bool }.

(** A column value the table library sorts by. *)
Inductive sort_key := KeyText (s : string) | KeyNumber (n : Z) | KeyBool (b : bool) | KeyTime (t : option Timestamp).

(** [sorting] of a table: the column and whether it descends. *)
Record Sorting := mkSorting { sort_column : string; sort_desc : bool }.

(** [getIsSorted()] of a column, and [toggleSorting(sorted === "asc")]: the
    argument asks for a descending order. *)
Inductive sorted := Asc | Desc | Unsorted.

Definition getIsSorted (sorting : option Sorting) (column : string) : sorted :=
  match sorting with
  | Some s => if String.eqb (sort_column s) column then if sort_desc s then Desc else Asc else Unsorted
  | None => Unsorted
  end.

Definition SortButton_click (sorting : option Sorting) (column : string) : option Sorting :=
  Some (mkSorting column (match getIsSorted sorting column with Asc => true | _ => false end)).

Inductive HeaderIcon := ArrowUpIcon | ArrowDownIcon | ArrowUpDownIcon.

(** The icon of a sort button. *)
Definition header_icon (s : sorted) : HeaderIcon :=
  match s with Asc => ArrowUpIcon | Desc => ArrowDownIcon | Unsorted => ArrowUpDownIcon end.

(** A column: its id, its header's text, and whether the header is a sort button. *)
Abbreviation Column := (string * string * bool)%type.

(** The headers of a table: a text, with an icon on a sort button. *)
Definition headers (columns : list Column) (sorting : option Sorting) : list (string * option HeaderIcon) :=
  (fun c : Column =>
     (c.1.2, if c.2 then Some (header_icon (getIsSorted sorting c.1.1)) else None)) <$> columns.

(** ** Images *)

Definition first_tag (image : Image) : RepoTag := splitRepoTag (head (Image_repoTags image)).

Definition image_key (column : string) (row : Image) : option sort_key :=
  if String.eqb column "repository" then Some (KeyText (repository (first_tag row)))
  else if String.eqb column "tag" then Some (KeyText (tag (first_tag row)))
  else if String.eqb column "id" then Some (KeyText (Image_id row))
  else if String.eqb column "size" then Some (KeyNumber (Image_sizeBytes row))
  else if String.eqb column "created" then Some (KeyNumber (Image_createdUnix row))
  else if String.eqb column "inUse" then Some (KeyNumber (Image_containersCount row))
  else None.

Definition image_default_sorting : Sorting := mkSorting "size" true.

(** The static cells of a row, in the order of the columns; [now] in milliseconds. *)
Definition image_cells (now : Z) (row : Image) : list string :=
  [repository (first_tag row); tag (first_tag row); formatShortId (Image_id row);
   formatBytes (Image_sizeBytes row) false; formatRelativeUnix now (Image_createdUnix row);
   if Image_containersCount row <? 0 then "—"%string else num (Image_containersCount row)].

Definition repoTagLabel (image : Image) : string :=
  repository (first_tag image) +:+ ":" +:+ tag (first_tag image).

(** The Actions cell: a dash, or the delete button. *)
Definition image_action (isAdmin : bool) (deletingId : option string) (image : Image) : option Button :=
  if negb (Image_containersCount image =? 0) then None
  else Some (mkButton (Some (if isAdmin then "Delete image"%string else "Admin required"%string))
               (negb isAdmin || bool_decide (is_Some deletingId))
               (bool_decide (deletingId = Some (Image_id image)))).

Definition image_delete_message (image : Image) : string :=
  "Image " +:+ repoTagLabel image +:+ " (" +:+ formatShortId (Image_id image) +:+
  ") will be permanently removed from the host. This cannot be undone.".

(** ** Networks *)

Definition network_key (column : string) (row : Network) : option sort_key :=
  if String.eqb column "name" then Some (KeyText (Network_name row))
  else if String.eqb column "id" then Some (KeyText (Network_id row))
  else if String.eqb column "driver" then Some (KeyText (Network_driver row))
  else if String.eqb column "scope" then Some (KeyText (Network_scope row))
  else if String.eqb column "internal" then Some (KeyBool (Network_internal row))
  else if String.eqb column "inUse" then Some (KeyNumber (Network_containersCount row))
  else if String.eqb column "createdAt" then Some (KeyTime (Network_createdAt row))
  else None.

Definition network_default_sorting : Sorting := mkSorting "name" false.

Definition network_in_use (row : Network) : string :=
  if Network_containersCount row <? 0 then "—"%string
  else if 0 <? Network_containersCount row then "Yes"%string else "No"%string.

Definition network_in_use_title (row : Network) : option string :=
  if Network_containersCount row <? 0 then None
  else Some (if Network_containersCount row =? 1 then "1 attached container"
             else num (Network_containersCount row) +:+ " attached containers").

Definition network_cells (localeDate : Z -> string) (row : Network) : list string :=
  [Network_name row +:+ (if isDefaultNetwork (Network_name row) then " system" else "");
   formatShortId (Network_id row); Network_driver row; Network_scope row;
   if Network_internal row then "Yes"%string else "No"%string; network_in_use row;
   formatTimestamp localeDate (Network_createdAt row)].

Definition network_action (isAdmin : bool) (deletingId : option string) (network : Network) : option Button :=
  if negb isAdmin || negb (Network_containersCount network =? 0) || Network_predefined network then None
  else Some (mkButton (Some "Delete network"%string)
               (negb isAdmin || bool_decide (is_Some deletingId))
               (bool_decide (deletingId = Some (Network_id network)))).

Definition network_delete_message (network : Network) : string :=
  "Network " +:+ Network_name network +:+ " (" +:+ Network_driver network +:+
  ") will be permanently removed from the host. This cannot be undone.".

(** ** Volumes *)

(** [new Map(volumes.map((v) => [v.name, v]))]: a later entry of a name wins. *)
Definition volumeUsageIndex (usage : option GetVolumeUsageResponse) : option (gmap string VolumeUsage) :=
  match usage with
  | None => None
  | Some u => Some (fold_left (fun m v => <[VolumeUsage_name v := v]> m) (GetVolumeUsageResponse_volumes u) ∅)
  end.

Definition volume_key (column : string) (row : Volume) : option sort_key :=
  if String.eqb column "name" then Some (KeyText (Volume_name row))
  else if String.eqb column "driver" then Some (KeyText (Volume_driver row))
  else if String.eqb column "mountpoint" then Some (KeyText (Volume_mountpoint row))
  else if String.eqb column "createdAt" then Some (KeyTime (Volume_createdAt row))
  else if String.eqb column "labels" then Some (KeyText (join "," (Volume_labels row).*1))
  else None.

Definition volume_default_sorting : Sorting := mkSorting "name" false.

Definition volume_size (usage : option (gmap string VolumeUsage)) (row : Volume) : string :=
  match usage ≫= fun m => VolumeUsage_sizeBytes <$> m !! Volume_name row with
  | None => "—"
  | Some size => if size <? 0 then "—" else formatBytes size false
  end.

Definition volume_cells (localeDate : Z -> string) (usage : option (gmap string VolumeUsage))
    (row : Volume) : list string :=
  [Volume_name row; Volume_driver row; Volume_mountpoint row;
   formatTimestamp localeDate (Volume_createdAt row); volume_size usage row;
   match Volume_labels row with
   | [] => "—"%string
   | entries => join " " ((fun e => e.1 +:+ "=" +:+ e.2) <$> entries)
   end].

(** ** The three inventory tables as they are shown *)

Definition image_columns : list Column :=
  [("repository", "Repository", true); ("tag", "Tag", true); ("id", "Image ID", false); ("size", "Size", true);
   ("created", "Created", true); ("inUse", "In Use", true); ("actions", "Actions", false)]%string.

Definition network_columns : list Column :=
  [("name", "Network", true); ("id", "ID", false); ("driver", "Driver", true); ("scope", "Scope", true);
   ("internal", "Internal", true); ("inUse", "In Use", true); ("createdAt", "Created", true);
   ("actions", "Actions", false)]%string.

Definition volume_columns : list Column :=
  [("name", "Volume", true); ("driver", "Driver", true); ("mountpoint", "Mountpoint", true);
   ("createdAt", "Created", true); ("size", "Size", false); ("labels", "Labels", false)]%string.

(** A cell: what it reads, or the button of an Actions cell. *)
Inductive Cell := TextCell (text : string) | ButtonCell (b : Button).

(** The cell of an Actions column: a dash without a button. *)
Definition action_cell (b : option Button) : Cell :=
  match b with Some b => ButtonCell b | None => TextCell "—" end.

(** A table: its headers, its rows, and the card below when there is none. *)
Record ResourceView := mkResourceView {
  headers_of : list (string * option HeaderIcon);
  rows_of : list (list Cell);
  empty_of : option (string * string)
}.

Definition empty_card {A} (l : list A) (title text : string) : option (string * string) :=
  if (length l =? 0)%nat then Some (title, text) else None.

Section Tables.
(** The order the table library gives the rows of a table. *)
Context (sort_rows : forall A, (string -> A -> option sort_key) -> option Sorting -> list A -> list A).
(** The clock in milliseconds, the browser's date format, and the role of the user. *)
Context (now : Z) (localeDate : Z -> string) (isAdmin : bool).

Definition ImageTable (sorting : option Sorting) (deletingId : option string) (images : list Image) : ResourceView :=
  mkResourceView (headers image_columns sorting)
    ((fun i => (TextCell <$> image_cells now i) ++ [action_cell (image_action isAdmin deletingId i)]) <$>
       sort_rows Image image_key sorting images)
    (empty_card images "No Images Found" "No Docker images present on the host system.").

Definition NetworkTable (sorting : option Sorting) (deletingId : option string) (networks : list Network)
    : ResourceView :=
  mkResourceView (headers network_columns sorting)
    ((fun n => (TextCell <$> network_cells localeDate n) ++ [action_cell (network_action isAdmin deletingId n)]) <$>
       sort_rows Network network_key sorting networks)
    (empty_card networks "No Networks Found" "No Docker networks present on the host system.").

Definition VolumeTable (sorting : option Sorting) (usage : option (gmap string VolumeUsage))
    (volumes : list Volume) : ResourceView :=
  mkResourceView (headers volume_columns sorting)
    ((fun v => TextCell <$> volume_cells localeDate usage v) <$> sort_rows Volume volume_key sorting volumes)
    (empty_card volumes "No Volumes Found" "No Docker volumes present on the host system.").
End Tables.

(** ** The builder *)

Definition optional_bytes (b : option Z) : string :=
  match b with Some b => formatBytes b true | None => "--" end.

(** The three cards of [Builder]. *)
Definition builder_cards (stats : option GetBuildCacheStatsResponse) : list (string * string) :=
  [(optional_bytes (GetBuildCacheStatsResponse_totalBytes <$> stats), "Build Cache");
   (optional_bytes (GetBuildCacheStatsResponse_reclaimableBytes <$> stats), "Reclaimable");
   (match stats with Some s => num (GetBuildCacheStatsResponse_recordCount s) | None => "--" end, "Records")]%string.

Definition builder_button (stats : option GetBuildCacheStatsResponse) (isAdmin pruning builderPruning : bool) : Button :=
  let empty := match stats with Some s => GetBuildCacheStatsResponse_reclaimableBytes s =? 0 | None => false end in
  mkButton
    (if negb isAdmin then Some "Admin role required"%string
     else if empty then Some "No build cache to prune"%string else None)
    (pruning || negb isAdmin || negb (bool_decide (is_Some stats)) || empty)
    builderPruning.

Definition relativeLastUsed (now : Z) (ts : option Timestamp) : string :=
  match ts with None => "never" | Some t => formatRelativeUnix now (seconds t) end.

Definition record_button (isAdmin busy : bool) (pruningRecordId : option string) (r : BuildCacheRecord) : Button :=
  mkButton
    (Some (if negb isAdmin then "Admin role required"
           else if BuildCacheRecord_inUse r then "Record is in use" else "Delete cache record")%string)
    (negb isAdmin || busy || BuildCacheRecord_inUse r)
    (bool_decide (pruningRecordId = Some (BuildCacheRecord_id r))).

Definition record_cells (now : Z) (r : BuildCacheRecord) : list string :=
  [formatBytes (BuildCacheRecord_sizeBytes r) false; str_or (BuildCacheRecord_type r) "unknown";
   str_or (BuildCacheRecord_description r) "—" +:+ (if BuildCacheRecord_inUse r then " In use" else "") +:+
     (if BuildCacheRecord_shared r then " Shared" else "");
   relativeLastUsed now (BuildCacheRecord_lastUsedAt r); num (BuildCacheRecord_usageCount r)].

(** A loading card, an error card, or the rows. *)
Inductive records_view := RecordsLoading | RecordsFailed | RecordsTable (rows : list (list string)) (empty_card : bool).

Definition BuilderRecords (now : Z) (records : list BuildCacheRecord) (loading error : bool) : records_view :=
  if loading then RecordsLoading
  else if error then RecordsFailed
  else RecordsTable (record_cells now <$> records) (bool_decide (records = [])).

(** ** Theorems *)

(** A row offers a deletion that can be clicked exactly when the user is an
    administrator, nothing uses the image or network (an unknown use counts as
    one), no other deletion of its table is under way, and, for a network, the
    daemon does not own it; of the build cache, every record not in use while
    nothing is being pruned. *)
Theorem delete_offered (isAdmin busy : bool) (deleting : option string) (i : Image) (n : Network)
    (r : BuildCacheRecord) :
  ((exists b, image_action isAdmin deleting i = Some b /\ button_disabled b = false) <->
   isAdmin = true /\ Image_containersCount i = 0 /\ deleting = None) /\
  ((exists b, network_action isAdmin deleting n = Some b /\ button_disabled b = false) <->
   isAdmin = true /\ Network_containersCount n = 0 /\ Network_predefined n = false /\ deleting = None) /\
  (button_disabled (record_button isAdmin busy deleting r) = false <->
   isAdmin = true /\ busy = false /\ BuildCacheRecord_inUse r = false).
Proof.
  unfold image_action, network_action, record_button.
  destruct (Z.eqb_spec (Image_containersCount i) 0), (Z.eqb_spec (Network_containersCount n) 0),
    isAdmin, busy, deleting, (Network_predefined n), (BuildCacheRecord_inUse r); cbn;
    repeat split; intros; destruct_and?; try done; try naive_solver.
  all: try (eexists; split; [reflexivity|done]).
Qed.

(** A volume's size is shown only from a measurement: the last entry of its
    name, and a dash without one or when the daemon could not walk the volume. *)
Theorem volume_size_spec (u : option GetVolumeUsageResponse) (row : Volume) :
  volume_size (volumeUsageIndex u) row =
  match u with
  | None => "—"
  | Some u =>
      match last (filter (fun v => VolumeUsage_name v = Volume_name row) (GetVolumeUsageResponse_volumes u)) with
      | None => "—"
      | Some v => if VolumeUsage_sizeBytes v <? 0 then "—" else formatBytes (VolumeUsage_sizeBytes v) false
      end
  end.
Proof.
  destruct u as [u|]; [|done]. unfold volume_size, volumeUsageIndex. cbn.
  assert (fold_left (fun m v => <[VolumeUsage_name v := v]> m) (GetVolumeUsageResponse_volumes u)
      (∅ : gmap string VolumeUsage) !! Volume_name row =
    last (filter (fun v => VolumeUsage_name v = Volume_name row) (GetVolumeUsageResponse_volumes u))) as E.
  { induction (GetVolumeUsageResponse_volumes u) as [|v l IH] using rev_ind; [done|].
    rewrite fold_left_app, filter_app. cbn. case_decide as Hv.
    - rewrite Hv, lookup_insert_eq. by rewrite last_snoc.
    - rewrite lookup_insert_ne by done. by rewrite app_nil_r. }
  rewrite E. by destruct (last _).
Qed.

(** A header with a sort button belongs to a column the rows have a value to be
    sorted by. *)
Theorem sort_buttons_have_keys :
  (forall c (i : Image), c ∈ image_columns -> c.2 = true -> is_Some (image_key c.1.1 i)) /\
  (forall c (n : Network), c ∈ network_columns -> c.2 = true -> is_Some (network_key c.1.1 n)) /\
  (forall c (v : Volume), c ∈ volume_columns -> c.2 = true -> is_Some (volume_key c.1.1 v)).
Proof.
  repeat split; intros c x Hc Hb; repeat (apply elem_of_cons in Hc as [->|Hc]); try done;
    try (by eexists); by apply elem_of_nil in Hc.
Qed.

(** [sort_rows] orders rows, it adds and loses none. *)
Definition reorders (sort_rows : forall A, (string -> A -> option sort_key) -> option Sorting -> list A -> list A) :
  Prop := forall A key sorting (l : list A), sort_rows A key sorting l ≡ₚ l.

(** A table has a row for everything it was given, as wide as its header, and
    either rows or the card that says there are none; in one of its rows an
    offered deletion is that of an image, or network, of the list. *)
Theorem tables_shown sort_rows now localeDate isAdmin sorting deleting usage (images : list Image)
    (networks : list Network) (volumes : list Volume) (HR : reorders sort_rows) :
  let shown (n : nat) (t : ResourceView) :=
    length (rows_of t) = n /\ Forall (fun r => length r = length (headers_of t)) (rows_of t) /\
    (rows_of t = [] <-> empty_of t <> None) in
  shown (length images) (ImageTable sort_rows now isAdmin sorting deleting images) /\
  shown (length networks) (NetworkTable sort_rows localeDate isAdmin sorting deleting networks) /\
  shown (length volumes) (VolumeTable sort_rows localeDate sorting usage volumes) /\
  (forall r b, r ∈ rows_of (ImageTable sort_rows now isAdmin sorting deleting images) -> ButtonCell b ∈ r ->
     exists i, i ∈ images /\ image_action isAdmin deleting i = Some b) /\
  (forall r b, r ∈ rows_of (NetworkTable sort_rows localeDate isAdmin sorting deleting networks) ->
     ButtonCell b ∈ r -> exists n, n ∈ networks /\ network_action isAdmin deleting n = Some b).
Proof.
  assert (forall {A} (f : A -> list Cell) key (l : list A) title text, f <$> sort_rows A key sorting l = [] <->
            empty_card l title text <> None) as He.
  { intros A f key l title text. unfold empty_card. pose proof (Permutation_length (HR A key sorting l)).
    destruct (sort_rows A key sorting l), l; cbn in *; split; intros; congruence. }
  assert (forall b texts o, ButtonCell b ∈ (TextCell <$> texts) ++ [action_cell o] -> o = Some b) as Hb.
  { intros b texts o [(t & [=] & _)%list_elem_of_fmap|E%list_elem_of_singleton]%elem_of_app.
    destruct o; cbn in E; congruence. }
  cbn zeta. unfold ImageTable, NetworkTable, VolumeTable; cbn [rows_of headers_of empty_of]. repeat split; try apply He;
    rewrite ?length_fmap, ?(Permutation_length (HR _ _ sorting _)); try done.
  all: try (apply Forall_fmap, Forall_true; intros x; cbn; by rewrite ?length_app, ?length_fmap).
  all: intros r b (x & -> & Hx)%list_elem_of_fmap Hr%Hb; rewrite (HR _ _ sorting _) in Hx; eauto.
Qed.
