(* ===== verification/Dialog.v ===== *)
(** The modal dialog (frontend/src/components/Dialog.tsx) and its confirmation
    form (frontend/src/components/ConfirmDialog.tsx): dismissal, the focus trap,
    the scroll lock and the focus it restores. *)
From S2P Require Import Prelude.

(** An element of the document. *)
Abbreviation element := nat.

Inductive Key := Escape | Tab (shiftKey : bool) | OtherKey.

(** The card as the selectors see it: its own element, the elements that match
    the focusable selector in document order, and the two marked buttons (a
    disabled button is marked all the same). *)
Record Card := mkCard {
  card : element;
  focusables : list element;
  marked_confirm : option element;
  marked_cancel : option element;
  contents : list element
}.

(** [card.contains(e)]: an element contains itself. *)
Definition contains (c : Card) (e : element) : bool := bool_decide (e = card c \/ e ∈ contents c).

(** The document: the focused element, the class that locks scrolling, and the
    element the open dialog will give the focus back to. *)
Record Document := mkDocument {
  activeElement : element;
  scrollLock : bool;
  restoreFocus : option element
}.

Definition focus (e : element) (d : Document) : Document := mkDocument e (scrollLock d) (restoreFocus d).

(** What a key press does: the [onClose] call, [preventDefault], the document. *)
Record KeyResult := mkKeyResult { closes : bool; prevented : bool; doc : Document }.

(** The capture-phase listener. *)
Definition onKeyDown (c : option Card) (k : Key) (d : Document) : KeyResult :=
  match k with
  | Escape => mkKeyResult true false d
  | OtherKey => mkKeyResult false false d
  | Tab shiftKey =>
      match c with
      | None => mkKeyResult false false d
      | Some c =>
          match focusables c with
          | [] => mkKeyResult false true (focus (card c) d)
          | first :: rest =>
              let last := List.last rest first in
              let active := activeElement d in
              if shiftKey then
                if (active =? first) || negb (contains c active)
                then mkKeyResult false true (focus last d) else mkKeyResult false false d
              else
                if (active =? last) || negb (contains c active)
                then mkKeyResult false true (focus first d) else mkKeyResult false false d
          end
      end
  end.

Inductive InitialFocus := focus_confirm | focus_cancel.

(** The effect that runs when the dialog opens. *)
Definition on_open (c : option Card) (initialFocus : InitialFocus) (d : Document) : Document :=
  let d := mkDocument (activeElement d) true (Some (activeElement d)) in
  match c with
  | None => d
  | Some c =>
      let target := match initialFocus with focus_confirm => marked_confirm c | focus_cancel => marked_cancel c end in
      focus (default (default (card c) (head (focusables c))) target) d
  end.

(** Its cleanup. *)
Definition on_close (d : Document) : Document :=
  let d := mkDocument (activeElement d) false (restoreFocus d) in
  match restoreFocus d with Some e => focus e d | None => d end.

(** [onMouseDown] of the overlay: [onClose] when the target is the overlay. *)
Definition onMouseDown (target currentTarget : element) : bool := target =? currentTarget.

(** ** The confirmation *)

Inductive Variant := variant_default | variant_danger.

Definition initialFocus_of (v : Variant) : InitialFocus :=
  match v with variant_danger => focus_cancel | variant_default => focus_confirm end.

(** Callbacks of the caller. *)
Inductive callback := OnClose | OnConfirm.

Definition requestClose (busy : bool) : list callback := if negb busy then [OnClose] else [].

Inductive dialog_event := KeyPress (k : Key) | MouseDownOn (target : element) | CancelClick | ConfirmClick.

(** What an event calls while the dialog is open; a disabled button ignores clicks. *)
Definition ConfirmDialog (busy : bool) (overlay : element) (c : option Card) (d : Document)
    (e : dialog_event) : list callback :=
  match e with
  | KeyPress k => if closes (onKeyDown c k d) then requestClose busy else []
  | MouseDownOn target => if onMouseDown target overlay then requestClose busy else []
  | CancelClick => if busy then [] else requestClose busy
  | ConfirmClick => if busy then [] else [OnConfirm]
  end.

(** ** Theorems *)

(** A busy dialog is locked: no key, click or button closes or confirms it.
    An idle one confirms only by its confirm button, and closes only by Escape,
    a press on the backdrop itself, or the cancel button. *)
Theorem busy_locks (busy : bool) (overlay : element) (c : option Card) (d : Document) (e : dialog_event) :
  ConfirmDialog busy overlay c d e =
  if busy then []
  else match e with
       | ConfirmClick => [OnConfirm]
       | CancelClick | KeyPress Escape => [OnClose]
       | MouseDownOn t => if bool_decide (t = overlay) then [OnClose] else []
       | _ => []
       end.
Proof.
  destruct e as [[|b|]|t| |], busy; try done.
  1-2: cbn; destruct c as [c|]; [|done]; destruct (focusables c) as [|f l]; [done|];
    destruct b; by match goal with |- context [if ?x then mkKeyResult _ _ _ else _] => destruct x end.
  - cbn. by destruct (onMouseDown t overlay).
  - cbn. unfold onMouseDown. destruct (Nat.eqb_spec t overlay); by case_bool_decide.
Qed.

(** While a dialog is open the page does not scroll; the focus starts on the
    cancel button of a dangerous dialog and on the confirm button of another;
    closing it lets the page scroll again and gives the focus back to the
    element that had it, whatever was focused in between. *)
Theorem dialog_restores (c : Card) (v : Variant) (d d' : Document)
    (Hd : restoreFocus d' = restoreFocus (on_open (Some c) (initialFocus_of v) d)) :
  scrollLock (on_open (Some c) (initialFocus_of v) d) = true /\
  activeElement (on_open (Some c) (initialFocus_of v) d) =
    default (default (card c) (head (focusables c)))
      (match v with variant_danger => marked_cancel c | variant_default => marked_confirm c end) /\
  activeElement (on_close d') = activeElement d /\ scrollLock (on_close d') = false.
Proof. unfold on_close. cbn. rewrite Hd. by destruct v. Qed.

Lemma dialog_restores_witness :
  let c := mkCard 10 [11; 12] (Some 12) (Some 11) [11; 12] in
  let d := mkDocument 3 false None in
  let d' := focus 12 (on_open (Some c) focus_cancel d) in
  scrollLock (on_open (Some c) focus_cancel d) = true /\
  activeElement (on_open (Some c) focus_cancel d) = 11 /\
  activeElement (on_close d') = 3 /\ scrollLock (on_close d') = false.
Proof.
  intros c d d'. apply (dialog_restores c variant_danger d d'). reflexivity.
Defined.

Section Trap.
Variable c : Card.
Hypothesis Hnd : NoDup (focusables c).
Hypothesis Hin : Forall (fun e => e ∈ contents c) (focusables c).

(** [browser shift e] is the element a Tab press in [e] focuses by itself: in
    the middle of the card, its neighbour among the card's focusables. *)
Variable browser : bool -> element -> element.
Hypothesis Hnext : forall i a b,
  focusables c !! i = Some a -> focusables c !! S i = Some b ->
  browser false a = b /\ browser true b = a.

(** A Tab press: the listener, then the browser unless prevented. *)
Definition press_tab (shiftKey : bool) (d : Document) : Document :=
  let r := onKeyDown (Some c) (Tab shiftKey) d in
  if prevented r then doc r else focus (browser shiftKey (activeElement d)) (doc r).

(** The neighbour on the ring of focusables. *)
Definition ring_next (shiftKey : bool) (i : nat) : nat :=
  let n := length (focusables c) in
  if shiftKey then if i =? 0 then n - 1 else i - 1 else if i =? n - 1 then 0 else S i.

Lemma last_default (y d : element) (l : list element) : List.last (y :: l) d = List.last l y.
Proof.
  revert y d. induction l as [|z l IH]; intros y d; [done|].
  change (List.last (z :: l) d = List.last (z :: l) y). by rewrite !IH.
Qed.

Lemma last_lookup (x : element) (l : list element) : (x :: l) !! length l = Some (List.last l x).
Proof.
  revert x. induction l as [|y l IH]; intros x; [done|].
  change ((x :: y :: l) !! length (y :: l)) with ((y :: l) !! length l). by rewrite IH, last_default.
Qed.

Lemma focusable_contained (i : nat) (a : element) : focusables c !! i = Some a -> contains c a = true.
Proof.
  intros Hi. apply bool_decide_eq_true. right. rewrite Forall_forall in Hin.
  by apply Hin, list_elem_of_lookup_2 with i.
Qed.

Lemma first_last (f : element) (l : list element) (i : nat) (a : element) :
  focusables c = f :: l -> focusables c !! i = Some a ->
  (a =? f) = (i =? 0) /\ (a =? List.last l f) = (i =? length (focusables c) - 1) /\ i < length (focusables c).
Proof.
  intros E Hi. assert (focusables c !! 0 = Some f) as H0 by by rewrite E.
  assert (focusables c !! (length (focusables c) - 1) = Some (List.last l f)) as H1.
  { rewrite E. cbn [length]. replace (S (length l) - 1) with (length l) by lia. apply last_lookup. }
  pose proof (lookup_lt_Some _ _ _ Hi). split_and!; [| |done].
  - destruct (Nat.eqb_spec a f) as [->|Hne]; destruct (Nat.eqb_spec i 0) as [->|Hi0]; try done.
    + by destruct Hi0; apply (NoDup_lookup _ _ _ _ Hnd Hi H0).
    + rewrite Hi in H0. congruence.
  - destruct (Nat.eqb_spec a (List.last l f)) as [->|Hne];
      destruct (Nat.eqb_spec i (length (focusables c) - 1)) as [->|Hi0]; try done.
    + by destruct Hi0; apply (NoDup_lookup _ _ _ _ Hnd Hi H1).
    + rewrite Hi in H1. congruence.
Qed.

Lemma nonempty_focusables (i : nat) (a : element) :
  focusables c !! i = Some a -> exists f l, focusables c = f :: l.
Proof. clear. destruct (focusables c); [done|]. eauto. Qed.

Lemma onKeyDown_tab (f : element) (l : list element) (shiftKey : bool) (d : Document) :
  focusables c = f :: l ->
  onKeyDown (Some c) (Tab shiftKey) d =
  if shiftKey then
    if (activeElement d =? f) || negb (contains c (activeElement d))
    then mkKeyResult false true (focus (List.last l f) d) else mkKeyResult false false d
  else
    if (activeElement d =? List.last l f) || negb (contains c (activeElement d))
    then mkKeyResult false true (focus f d) else mkKeyResult false false d.
Proof. clear. intros E. unfold onKeyDown. by rewrite E. Qed.

Lemma press_tab_ring (shiftKey : bool) (d : Document) (i : nat) :
  focusables c !! i = Some (activeElement d) ->
  exists a, focusables c !! ring_next shiftKey i = Some a /\
    press_tab shiftKey d = focus a d.
Proof.
  intros Hi. destruct (nonempty_focusables _ _ Hi) as (f & l & E).
  destruct (first_last f l i _ E Hi) as (Hf & Hl & Hlt).
  assert (focusables c !! 0 = Some f) as H0 by by rewrite E.
  assert (focusables c !! (length (focusables c) - 1) = Some (List.last l f)) as H1.
  { rewrite E. cbn [length]. replace (S (length l) - 1) with (length l) by lia. apply last_lookup. }
  unfold press_tab. rewrite (onKeyDown_tab f l) by done. unfold ring_next.
  rewrite (focusable_contained i _ Hi), Hf, Hl. cbn [negb orb]. rewrite !orb_false_r.
  destruct shiftKey.
  - destruct (Nat.eqb_spec i 0) as [->|Hi0]; cbn; [eauto|].
    destruct (lookup_lt_is_Some_2 (focusables c) (i - 1)) as [a Ha]; [lia|].
    exists a. split; [done|]. f_equal.
    assert (S (i - 1) = i) as Es by lia. rewrite <-Es in Hi. by apply (Hnext _ _ _ Ha Hi).
  - destruct (Nat.eqb_spec i (length (focusables c) - 1)) as [->|Hi0]; cbn; [eauto|].
    destruct (lookup_lt_is_Some_2 (focusables c) (S i)) as [a Ha]; [lia|].
    exists a. split; [done|]. f_equal. by apply (Hnext _ _ _ Hi Ha).
Qed.

(** From any focusable element of the dialog, Tab and Shift+Tab step to the
    neighbour on the ring of its focusable elements, each undoing the other, so the focus never leaves
    the dialog; from outside (the focus having been moved away) either brings
    it back in; with nothing focusable the card itself keeps it. *)
Theorem tab_stays (shiftKey : bool) (d : Document) :
  let a := activeElement (press_tab shiftKey d) in
  (focusables c = [] -> a = card c) /\
  (focusables c <> [] -> contains c (activeElement d) = false -> a ∈ focusables c) /\
  (forall i, focusables c !! i = Some (activeElement d) ->
     focusables c !! ring_next shiftKey i = Some a /\
     activeElement (press_tab (negb shiftKey) (press_tab shiftKey d)) = activeElement d).
Proof.
  intros a. split_and!.
  - intros E. unfold a, press_tab, onKeyDown. by rewrite E.
  - intros Hne Hout. unfold a, press_tab.
    assert (exists f l, focusables c = f :: l) as (f & l & E) by (clear -Hne; destruct (focusables c); eauto; done).
    rewrite (onKeyDown_tab f l), Hout by done. cbn [negb]. rewrite !orb_true_r.
    destruct shiftKey; cbn [prevented doc focus activeElement]; rewrite E.
    + eapply list_elem_of_lookup_2, last_lookup.
    + apply list_elem_of_here.
  - intros i Hi. destruct (press_tab_ring shiftKey d i Hi) as (b & Hb & Ea).
    unfold a. rewrite Ea. split; [done|].
    destruct (press_tab_ring (negb shiftKey) (focus b d) _ Hb) as (b' & Hb' & ->). cbn.
    assert (ring_next (negb shiftKey) (ring_next shiftKey i) = i) as Er.
    { pose proof (lookup_lt_Some _ _ _ Hi) as Hlt. unfold ring_next.
      destruct (Nat.eqb_spec i 0), (Nat.eqb_spec i (length (focusables c) - 1)), shiftKey; cbn [negb];
        repeat match goal with |- context [?x =? ?y] => destruct (Nat.eqb_spec x y) end; lia. }
    rewrite Er in Hb'. congruence.
Qed.
End Trap.

(** A browser that follows a list of focusable elements, and any other element
    to [other]. *)
Definition list_browser (order : list element) (other : element) (shiftKey : bool) (e : element) : element :=
  match list_find (fun x => x = e) order with
  | Some (i, _) => default other (order !! (if shiftKey then i - 1 else S i))
  | None => other
  end.

Lemma tab_stays_witness :
  let c := mkCard 10 [11; 12] (Some 12) (Some 11) [11; 12] in
  let d := mkDocument 12 true (Some 3) in
  let br := list_browser [11; 12] 3 in
  let a := activeElement (press_tab c br false d) in
  (focusables c = [] -> a = card c) /\
  (focusables c <> [] -> contains c (activeElement d) = false -> a ∈ focusables c) /\
  (forall i, focusables c !! i = Some (activeElement d) ->
     focusables c !! ring_next c false i = Some a /\
     activeElement (press_tab c br true (press_tab c br false d)) = activeElement d).
Proof.
  intros c d br.
  apply (tab_stays c); cbn.
  - apply NoDup_cons_2; [|apply NoDup_singleton]. by rewrite list_elem_of_singleton.
  - repeat constructor; set_solver.
  - intros [|[|i]] a b; cbn; intros; simplify_eq. done.
Defined.

(** The card can hold the focus itself (it has a tab index of -1, so a click on
    its text focuses it); it is neither the first focusable nor outside, and
    Shift+Tab from it is left to the browser, which leaves the dialog. *)
Lemma shift_tab_escapes (c : Card) (browser : bool -> element -> element) (d : Document) :
  focusables c <> [] -> card c ∉ focusables c -> activeElement d = card c ->
  activeElement (press_tab c browser true d) = browser true (card c).
Proof.
  intros Hne Hc Ha. unfold press_tab, onKeyDown. destruct (focusables c) as [|f l] eqn:E; [done|].
  rewrite Ha. assert ((card c =? f) = false) as ->.
  { apply Nat.eqb_neq. intros Hf. apply Hc. rewrite Hf. by left. }
  assert (contains c (card c) = true) as ->; [|done]. apply bool_decide_eq_true. by left.
Qed.
