(* ===== verification/Modal.v ===== *)
(** The life of a dialog on the page (frontend/src/components/Dialog.tsx): its two
    effects with their dependencies and cleanups, the listener on the document and
    the press on the backdrop, over the functions of Dialog. *)
From S2P Require Import Prelude Dialog.

#[global] Instance InitialFocus_eq_dec : EqDecision InitialFocus.
Proof. solve_decision. Defined.
#[global] Instance Key_eq_dec : EqDecision Key.
Proof. solve_decision. Defined.

Section Modal.
(** The identity of an [onClose] callback. *)
Context {F : Type} `{EqDecision F}.

Record Props := mkProps { isOpen : bool; onClose : F; focusOn : InitialFocus }.

(** [shown] is the last render with the card it put in the document; [listeners] are
    those this dialog has on the document, each with its [onClose]; [armed] is the
    one the first effect will remove; [holding] is true between the second effect
    and its cleanup. *)
Record Modal := mkModal {
  shown : option (Props * option Card);
  listeners : list (nat * F);
  armed : option nat;
  next : nat;
  holding : bool;
  document : Document
}.

Definition setDocument (d : Document) (m : Modal) : Modal :=
  mkModal (shown m) (listeners m) (armed m) (next m) (holding m) d.
Definition setShown (v : option (Props * option Card)) (m : Modal) : Modal :=
  mkModal v (listeners m) (armed m) (next m) (holding m) (document m).

Definition initial (d : Document) : Modal := mkModal None [] None 0 false d.

(** ** The effects *)

(** [document.addEventListener("keydown", onKeyDown, true)] and its removal. *)
Definition key_effect (p : Props) (m : Modal) : Modal :=
  if isOpen p then
    mkModal (shown m) (listeners m ++ [(next m, onClose p)]) (Some (next m)) (S (next m)) (holding m) (document m)
  else m.

Definition key_cleanup (m : Modal) : Modal :=
  match armed m with
  | Some i =>
      mkModal (shown m) (List.filter (fun l => negb (l.1 =? i)) (listeners m)) None (next m) (holding m) (document m)
  | None => m
  end.

Definition focus_effect (p : Props) (c : option Card) (m : Modal) : Modal :=
  if isOpen p then
    mkModal (shown m) (listeners m) (armed m) (next m) true (on_open c (focusOn p) (document m))
  else m.

Definition focus_cleanup (m : Modal) : Modal :=
  if holding m then mkModal (shown m) (listeners m) (armed m) (next m) false (on_close (document m)) else m.

(** [[open, onClose]] and [[open, initialFocus]] changed since the last render. *)
Definition key_deps_changed (p : Props) (m : Modal) : bool :=
  match shown m with
  | Some (q, _) => negb (Bool.eqb (isOpen p) (isOpen q) && bool_decide (onClose p = onClose q))
  | None => true
  end.

Definition focus_deps_changed (p : Props) (m : Modal) : bool :=
  match shown m with
  | Some (q, _) => negb (Bool.eqb (isOpen p) (isOpen q) && bool_decide (focusOn p = focusOn q))
  | None => true
  end.

Definition run_if (b : bool) (f : Modal -> Modal) (m : Modal) : Modal := if b then f m else m.

(** A commit: the portal is there while the dialog is open; the cleanups of the
    effects whose dependencies changed run first, then those effects. *)
Definition render (p : Props) (c : Card) (m : Modal) : Modal :=
  let card := if isOpen p then Some c else None in
  let keys := key_deps_changed p m in
  let foci := focus_deps_changed p m in
  let m := run_if foci focus_cleanup (run_if keys key_cleanup m) in
  run_if foci (focus_effect p card) (run_if keys (key_effect p) (setShown (Some (p, card)) m)).

Definition unmount (m : Modal) : Modal := setShown None (focus_cleanup (key_cleanup m)).

(** ** Events *)

(** A key press runs every listener, in order. *)
Definition keydown (k : Key) (m : Modal) : list F * Modal :=
  let card := shown m ≫= snd in
  let r := fold_left (fun (acc : list F * Document) l =>
    let r := onKeyDown card k acc.2 in (acc.1 ++ (if closes r then [l.2] else []), doc r))
    (listeners m) ([], document m) in
  (r.1, setDocument r.2 m).

(** A press on the overlay, with the handler of the last render. *)
Definition mousedown (target overlay : element) (m : Modal) : list F :=
  match shown m with
  | Some (p, _) => if isOpen p && onMouseDown target overlay then [onClose p] else []
  | None => []
  end.

Inductive event :=
| Rendered (p : Props) (c : Card)
| Unmounted
| KeyDown (k : Key)
| MouseDown (target overlay : element)
| Focused (e : element).

(** The [onClose] calls of an event, and the dialog after it. *)
Definition step (e : event) (m : Modal) : list F * Modal :=
  match e with
  | Rendered p c => ([], render p c m)
  | Unmounted => ([], unmount m)
  | KeyDown k => keydown k m
  | MouseDown target overlay => (mousedown target overlay m, m)
  | Focused e => ([], setDocument (focus e (document m)) m)
  end.

(** From a page that scrolls. *)
Inductive reachable : Modal -> Prop :=
| reachable_initial d : scrollLock d = false -> reachable (initial d)
| reachable_step e m : reachable m -> reachable (step e m).2.

Definition open_ (m : Modal) : bool := match shown m with Some (p, _) => isOpen p | None => false end.

(** ** The invariant *)

Definition modal_ok (m : Modal) : Prop :=
  holding m = open_ m /\ scrollLock (document m) = open_ m /\
  match shown m with
  | Some (p, c) =>
      if isOpen p then is_Some c /\ exists i, armed m = Some i /\ listeners m = [(i, onClose p)]
      else c = None /\ armed m = None /\ listeners m = []
  | None => armed m = None /\ listeners m = []
  end.

Lemma onKeyDown_keeps (c : option Card) (k : Key) (d : Document) :
  scrollLock (doc (onKeyDown c k d)) = scrollLock d /\ restoreFocus (doc (onKeyDown c k d)) = restoreFocus d /\
  (closes (onKeyDown c k d) = true <-> k = Escape).
Proof.
  destruct k as [|b|]; cbn; [done| |done]. destruct c as [c|]; [|done].
  destruct (focusables c) as [|x l]; [done|]. by repeat case_match.
Qed.

Lemma on_open_keeps (c : option Card) (v : InitialFocus) (d : Document) :
  scrollLock (on_open c v d) = true /\ restoreFocus (on_open c v d) = Some (activeElement d).
Proof. by destruct c. Qed.

Lemma on_close_keeps (d : Document) :
  scrollLock (on_close d) = false /\ restoreFocus (on_close d) = restoreFocus d.
Proof. unfold on_close. cbn. by destruct (restoreFocus d). Qed.

(** The dialog when its effects have all been cleaned up. *)
Lemma cleaned_up (m : Modal) :
  modal_ok m ->
  let m' := focus_cleanup (key_cleanup m) in
  shown m' = shown m /\ listeners m' = [] /\ armed m' = None /\ holding m' = false /\
  document m' = if open_ m then on_close (document m) else document m.
Proof.
  destruct m as [sh ls ar nx ho d]. unfold modal_ok, key_cleanup, focus_cleanup, open_. cbn.
  destruct sh as [[[o f v] c]|]; cbn; [destruct o|].
  - intros (-> & Hd & _ & i & -> & ->). cbn. by rewrite Nat.eqb_refl.
  - by intros (-> & Hd & _ & -> & ->).
  - by intros (-> & Hd & -> & ->).
Qed.

Lemma render_ok (p : Props) (c : Card) (m : Modal) : modal_ok m -> modal_ok (render p c m).
Proof.
  destruct m as [sh ls ar nx ho d], p as [o f v].
  unfold modal_ok, render, key_deps_changed, focus_deps_changed, open_. cbn.
  destruct sh as [[[o' f' v'] c']|]; cbn; [destruct o'|].
  - intros (-> & Hd & Hc & i & -> & ->). destruct o; cbn.
    + case_bool_decide as Hf; case_bool_decide as Hv; cbn; unfold key_effect, focus_effect; cbn;
        rewrite ?Nat.eqb_refl; cbn; subst; rewrite ?(proj1 (on_open_keeps _ _ _)); split_and!; eauto.
    + rewrite Nat.eqb_refl. cbn. by rewrite (proj1 (on_close_keeps d)).
  - intros (-> & Hd & -> & -> & ->). destruct o; cbn.
    + unfold focus_effect. cbn. split_and!; eauto.
    + case_bool_decide; case_bool_decide; cbn; by split_and!.
  - intros (-> & Hd & -> & ->). destruct o; cbn; split_and!; eauto.
Qed.

Lemma unmount_ok (m : Modal) : modal_ok m -> modal_ok (unmount m).
Proof.
  intros Hm. destruct (cleaned_up m Hm) as (_ & Hl & Ha & Hh & Hd). destruct Hm as (_ & Hs & _).
  unfold unmount, modal_ok. cbn. rewrite Hl, Ha, Hh, Hd. split_and!; try done.
  destruct (open_ m); [apply on_close_keeps|by rewrite Hs].
Qed.

(** A key press reaches the one listener there is. *)
Lemma keydown_ok (k : Key) (m : Modal) :
  modal_ok m ->
  modal_ok (keydown k m).2 /\ shown (keydown k m).2 = shown m /\
  restoreFocus (document (keydown k m).2) = restoreFocus (document m) /\
  (keydown k m).1 =
    match shown m with
    | Some (p, _) => if isOpen p && bool_decide (k = Escape) then [onClose p] else []
    | None => []
    end.
Proof.
  destruct m as [sh ls ar nx ho d]. unfold modal_ok, keydown, open_. cbn.
  destruct sh as [[[o f v] c]|]; cbn; [destruct o|].
  - intros (-> & Hd & Hc & i & -> & ->). cbn. destruct (onKeyDown_keeps c k d) as (-> & -> & Hk). cbn.
    split_and!; eauto. destruct (closes (onKeyDown c k d)) eqn:E; case_bool_decide; naive_solver.
  - intros (-> & Hd & -> & -> & ->). cbn. by split_and!.
  - intros (-> & Hd & -> & ->). cbn. by split_and!.
Qed.

Lemma modal_step_ok (e : event) (m : Modal) : modal_ok m -> modal_ok (step e m).2.
Proof.
  intros Hm. destruct e as [p c| |k|target overlay|x]; cbn.
  - by apply render_ok.
  - by apply unmount_ok.
  - by apply keydown_ok.
  - exact Hm.
  - destruct m. exact Hm.
Qed.

Lemma modal_reachable_ok (m : Modal) : reachable m -> modal_ok m.
Proof. induction 1; [by split_and!|by apply modal_step_ok]. Qed.
(** The calls of an event: those of the last render's [onClose]. *)
Lemma step_calls (m : Modal) (e : event) :
  modal_ok m ->
  (step e m).1 =
    match shown m with
    | Some (p, _) =>
        if isOpen p && match e with
                       | KeyDown k => bool_decide (k = Escape)
                       | MouseDown target overlay => bool_decide (target = overlay)
                       | _ => false
                       end
        then [onClose p] else []
    | None => []
    end.
Proof.
  intros Hm. destruct e as [p c| |k|target overlay|x]; cbn [step fst].
  1,2,5: destruct (shown m) as [[q d]|]; by rewrite ?andb_false_r.
  - apply (keydown_ok k m Hm).
  - unfold mousedown, onMouseDown. destruct (shown m) as [[q d]|]; [|done].
    by destruct (Nat.eqb_spec target overlay); case_bool_decide.
Qed.

(** C21: In every life of a dialog, however it is rendered, re-rendered with another
    [onClose], closed and unmounted: it has a listener on the document exactly while
    it is open, one, with the [onClose] of the last render, and the page is locked
    against scrolling exactly as long; so Escape and a press on the backdrop call the
    [onClose] of the last render, once, and nothing else ever calls one. *)
Theorem modal_invariant (m : Modal) (e : event) (H : reachable m) :
  (listeners m).*2 = match shown m with Some (p, _) => if isOpen p then [onClose p] else [] | None => [] end /\
  scrollLock (document m) = open_ m /\
  (step e m).1 =
    match shown m with
    | Some (p, _) =>
        if isOpen p && match e with
                       | KeyDown k => bool_decide (k = Escape)
                       | MouseDown target overlay => bool_decide (target = overlay)
                       | _ => false
                       end
        then [onClose p] else []
    | None => []
    end.
Proof.
  pose proof (modal_reachable_ok m H) as Hm. split_and!.
  - destruct Hm as (_ & _ & Hs). destruct (shown m) as [[p c]|]; [|by destruct Hs as [_ ->]].
    destruct (isOpen p); [by destruct Hs as (_ & i & _ & ->)|by destruct Hs as (_ & _ & ->)].
  - apply Hm.
  - by apply step_calls.
Qed.

(** ** The focus *)

(** The steps that leave the dialog open. *)
Definition stays_open (m m' : Modal) : Prop := exists e, m' = (step e m).2 /\ open_ m' = true.

(** The element the dialog will give the focus back to stays the same. *)
Lemma opener_kept (m m' : Modal) (x : element) :
  modal_ok m -> open_ m = true -> restoreFocus (document m) = Some x -> stays_open m m' ->
  restoreFocus (document m') = Some x.
Proof.
  intros Hm Ho Hx (e & -> & Ho'). destruct e as [p c| |k|target overlay|y]; cbn in *; try done.
  - destruct m as [sh ls ar nx ho d]. unfold modal_ok, open_ in *. cbn in *.
    destruct sh as [[[o f v] c']|]; [|done]. cbn in *. subst o. destruct Hm as (-> & Hd & Hc & i & -> & ->).
    destruct p as [o f' v']. unfold render, key_deps_changed, focus_deps_changed in *. cbn in *.
    assert (o = true) as ->.
    { revert Ho'. by destruct o. }
    cbn. case_bool_decide; case_bool_decide; cbn; rewrite ?Nat.eqb_refl; unfold key_effect, focus_effect; cbn;
      try exact Hx; unfold on_close; cbn; by rewrite Hx.
  - destruct (keydown_ok k m Hm) as (_ & _ & Hk & _). cbn in Hk. by rewrite Hk.
Qed.

(** A dialog that closes gives the focus back to the element that had it when the
    dialog opened: whatever was rendered, typed and focused while it stayed open, by a
    render that closes it or by its unmounting. *)
Theorem focus_returns (m m' : Modal) (p : Props) (c : Card) (e : event)
    (H : reachable m) (Hm : open_ m = false) (Hp : isOpen p = true)
    (Hstays : rtc stays_open (render p c m) m') (He : open_ (step e m').2 = false) :
  activeElement (document (step e m').2) = activeElement (document m).
Proof.
  set (x := activeElement (document m)). pose proof (modal_reachable_ok m H) as Hok.
  assert (forall m1 m2, rtc stays_open m1 m2 -> modal_ok m1 -> open_ m1 = true ->
    restoreFocus (document m1) = Some x ->
    modal_ok m2 /\ open_ m2 = true /\ restoreFocus (document m2) = Some x) as Hall.
  { induction 1 as [m1|m1 m2 m3 Hs _ IH]; [done|]. intros H1 H2 H3. pose proof (opener_kept m1 m2 x H1 H2 H3 Hs) as H4.
    destruct Hs as (e' & -> & Ho). apply IH; [by apply modal_step_ok|done|done]. }
  assert (open_ (render p c m) = true /\ restoreFocus (document (render p c m)) = Some x) as [Ho1 Hr1].
  { destruct m as [sh ls ar nx ho d], p as [o f v]. cbn in Hp. subst o. subst x.
    unfold modal_ok, render, key_deps_changed, focus_deps_changed, open_ in *. cbn in *.
    destruct sh as [[[o' f' v'] c']|]; cbn in *; [subst o'|]; destruct Hok as (-> & _ & Hs); unfold focus_effect; cbn.
    - destruct Hs as (_ & -> & ->). by cbn.
    - by destruct Hs as (-> & ->). }
  destruct (Hall _ _ Hstays (render_ok p c m Hok) Ho1 Hr1) as (Hok2 & Ho2 & Hr2). clear Hall Hstays Ho1 Hr1.
  assert (activeElement (on_close (document m')) = x) as Hclose by (unfold on_close; cbn; by rewrite Hr2).
  destruct (cleaned_up m' Hok2) as (_ & _ & _ & _ & Hd). rewrite Ho2 in Hd.
  destruct e as [q c'| |k|target overlay|y]; cbn in He |- *.
  - destruct m' as [sh ls ar nx ho d], q as [o f v]. unfold modal_ok, open_ in *. cbn in *.
    destruct sh as [[[o' f' v'] c'']|]; [|done]. cbn in *. subst o'. destruct Hok2 as (-> & _ & _ & i & -> & ->).
    destruct o; [|exact Hclose].
    exfalso. revert He. unfold render, key_deps_changed, focus_deps_changed. cbn.
    by case_bool_decide; case_bool_decide.
  - by rewrite Hd.
  - destruct (keydown_ok k m' Hok2) as (_ & Hs & _). unfold open_ in He, Ho2. cbn in He, Hs. congruence.
  - congruence.
  - unfold open_ in He, Ho2. cbn in He. congruence.
Qed.

(** Rendering an open dialog again leaves the focus where it is, unless the button
    that is focused first was changed. *)
Lemma rerender_keeps_focus (m : Modal) (p q : Props) (c c' : Card) :
  reachable m -> shown m = Some (q, Some c') -> isOpen q = true -> isOpen p = true -> focusOn p = focusOn q ->
  document (render p c m) = document m.
Proof.
  intros _. destruct m as [sh ls ar nx ho d], p as [o f v], q as [o' f' v']. cbn. intros -> -> -> ->.
  unfold render, key_deps_changed, focus_deps_changed. cbn. rewrite (bool_decide_eq_true_2 (v' = v')) by done.
  case_bool_decide; cbn; [done|]. unfold key_cleanup. cbn. by destruct ar.
Qed.
End Modal.

(** ** The confirmation *)

(** [requestClose] of a render of ConfirmDialog, which is a new function every time
    and has the [busy] of its render. *)
Definition confirm_props (open : bool) (nth : nat) (busy : bool) (v : Variant) : @Props (nat * bool) :=
  mkProps open (nth, busy) (initialFocus_of v).

Definition calls_back (calls : list (nat * bool)) : list callback := calls ≫= (fun f => requestClose f.2).

(** Once rendered busy a confirmation is not dismissed, by no key and no press, though
    listeners with an older [requestClose] have been on the document. *)
Lemma busy_confirmation_stays (m : @Modal (nat * bool)) (e : event) (nth : nat) (v : Variant) (c : option Card) :
  reachable m -> shown m = Some (confirm_props true nth true v, c) -> calls_back (step e m).1 = [].
Proof.
  intros H Hs. rewrite (step_calls m e (modal_reachable_ok m H)), Hs. cbn.
  by destruct e as [| |k|target overlay|]; cbn; try case_bool_decide.
Qed.

(** ** An instance: opened from element 3, focus moved, closed *)

Definition a_card : Card := mkCard 10 [11; 12] (Some 12) (Some 11) [11; 12].
Definition closed_dialog : @Modal nat := initial (mkDocument 3 false None).
Definition opened : @Modal nat := render (mkProps true 0 focus_cancel) a_card closed_dialog.

Lemma modal_invariant_witness :
  (listeners (render (mkProps true 1 focus_cancel) a_card opened)).*2 = [1] /\
  scrollLock (document (render (mkProps true 1 focus_cancel) a_card opened)) = true /\
  (step (KeyDown Escape) (render (mkProps true 1 focus_cancel) a_card opened)).1 = [1].
Proof.
  set (m := render (mkProps true 1 focus_cancel) a_card opened). assert (reachable m) as Hm.
  { apply (reachable_step (Rendered (mkProps true 1 focus_cancel) a_card)),
      (reachable_step (Rendered (mkProps true 0 focus_cancel) a_card)), reachable_initial. reflexivity. }
  exact (modal_invariant m (KeyDown Escape) Hm).
Defined.

Lemma focus_returns_witness :
  activeElement (document (step Unmounted (step (Focused 12) opened).2).2) = 3.
Proof.
  apply (focus_returns closed_dialog (step (Focused 12) opened).2 (mkProps true 0 focus_cancel) a_card Unmounted).
  - by apply reachable_initial.
  - reflexivity.
  - reflexivity.
  - eapply rtc_l; [|apply rtc_refl]. by exists (Focused 12).
  - reflexivity.
Defined.
