(* ===== verification/Administration.v ===== *)
(** The Administration page (frontend/src/components/Administration.tsx) with
    the delete dialogs of its two tables (ImageTable.tsx, NetworkTable.tsx): which
    controls are offered to whom, and what the confirmations start. *)
From S2P Require Import Prelude Async Toast Proto AdminFormat AdminTables AdminResources Dialog.

(** The page's own state beside the hook's. *)
Record Page := mkPage {
  hook : AdminResources.State;
  pendingPrune : option PruneScope;
  pendingRecord : option BuildCacheRecord;
  pendingImage : option Image;
  pendingNetwork : option Network
}.

(** The tables with a dialog of their own are mounted while a list of their kind is
    shown; off the page, a table's dialog is gone with it. *)
Definition images_shown (h : AdminResources.State) : bool :=
  match result h with Some (ImagesResult _) => true | _ => false end.
Definition networks_shown (h : AdminResources.State) : bool :=
  match result h with Some (NetworksResult _) => true | _ => false end.

Definition setHook (h : AdminResources.State) (p : Page) : Page :=
  mkPage h (pendingPrune p) (pendingRecord p)
    (if images_shown h then pendingImage p else None) (if networks_shown h then pendingNetwork p else None).
Definition setPendingPrune (v : option PruneScope) (p : Page) : Page :=
  mkPage (hook p) v (pendingRecord p) (pendingImage p) (pendingNetwork p).
Definition setPendingRecord (v : option BuildCacheRecord) (p : Page) : Page :=
  mkPage (hook p) (pendingPrune p) v (pendingImage p) (pendingNetwork p).
Definition setPendingImage (v : option Image) (p : Page) : Page :=
  mkPage (hook p) (pendingPrune p) (pendingRecord p) v (pendingNetwork p).
Definition setPendingNetwork (v : option Network) (p : Page) : Page :=
  mkPage (hook p) (pendingPrune p) (pendingRecord p) (pendingImage p) v.

(** [tab]: the route parameter, "images" when it is none of the other three. *)
Definition tab_of (routeTab : option string) : AdminResourceKind :=
  match routeTab with
  | Some t => if String.eqb t "volumes" then volumes
              else if String.eqb t "networks" then networks
              else if String.eqb t "builder" then builder else images
  | None => images
  end.

(** ** Derived values *)

Definition imageStats (s : AdminResources.State) : option ImageStats :=
  match result s with Some (ImagesResult data) => Some (deriveImageStats data) | _ => None end.

Definition buildStats (s : AdminResources.State) : option GetBuildCacheStatsResponse :=
  match result s with Some (BuilderResult data) => Some data | _ => None end.

Definition unusedNetworks (s : AdminResources.State) : list Network :=
  match result s with
  | Some (NetworksResult data) =>
      filter (fun n => Network_containersCount n = 0%Z /\ Network_predefined n = false) data
  | _ => []
  end.

Definition hasUnknownNetworkUsage (s : AdminResources.State) : bool :=
  match result s with
  | Some (NetworksResult data) => existsb (fun n => Z.ltb (Network_containersCount n) 0) data
  | _ => false
  end.

(** ** Controls *)

Definition spinning (s : AdminResources.State) (sc : PruneScope) : bool :=
  bool_decide (pruningScope s = Some sc).

Definition freeable (st : option ImageStats) (f : ImageStats -> Z) : bool :=
  match st with Some st => Z.eqb (f st) 0 | None => false end.

(** The button that arms the prune of a scope, on the tab that shows it. *)
Definition prune_button (isAdmin : bool) (s : AdminResources.State) (sc : PruneScope) : Button :=
  let none_of (st : option ImageStats) (f : ImageStats -> Z) (text : string) :=
    mkButton
      (if negb isAdmin then Some "Admin role required"%string
       else if freeable st f then Some text else None)
      (pruning s || negb isAdmin || negb (bool_decide (is_Some st)) || freeable st f)
      (spinning s sc) in
  match sc with
  | scope_unused => none_of (imageStats s) freeableBytes "No unused images to prune"
  | scope_dangling => none_of (imageStats s) danglingFreeableBytes "No dangling images to prune"
  | scope_builder => builder_button (buildStats s) isAdmin (pruning s) (spinning s scope_builder)
  | scope_volumes =>
      mkButton (if negb isAdmin then Some "Admin role required"%string else None)
        (pruning s || negb isAdmin) (spinning s scope_volumes)
  | scope_networks =>
      let empty := (length (unusedNetworks s) =? 0) && negb (hasUnknownNetworkUsage s) in
      mkButton
        (if negb isAdmin then Some "Admin role required"%string
         else if empty then Some "No unused networks to prune"%string else None)
        (pruning s || negb isAdmin || empty) (spinning s scope_networks)
  end.

Definition measure_button (s : AdminResources.State) : Button :=
  mkButton
    (Some (if measuring s then "Measuring volume sizes…"
           else "Walks every volume on the daemon and may take a while")%string)
    (measuring s || pruning s) (measuring s).

(** The cards of the images and volumes tabs. *)
Definition stat (st : option ImageStats) (f : ImageStats -> string) : string :=
  match st with Some st => f st | None => "--" end.

Definition image_cards (st : option ImageStats) : list (string * string) :=
  [(stat st (fun st => formatBytes (totalBytes st) true), "Total Space Used");
   (stat st (fun st => formatBytes (freeableBytes st) true), "Freeable Space");
   (stat st (fun st => num (Z.of_nat (imageCount st))), "Images");
   (stat st (fun st => num (Z.of_nat (unusedCount st))), "Unused");
   (stat st (fun st => num (Z.of_nat (danglingCount st))), "Dangling")]%string.

Definition volume_card (s : AdminResources.State) : string :=
  match result s with
  | Some (VolumesResult data) => num (Z.of_nat (length data))
  | _ => "--"
  end.

(** ** The confirmations *)

Definition prune_title (sc : option PruneScope) : string :=
  match sc with
  | Some scope_dangling => "Prune dangling images?"
  | Some scope_builder => "Prune build cache?"
  | Some scope_volumes => "Delete unused volumes?"
  | Some scope_networks => "Prune unused networks?"
  | _ => "Prune unused images?"
  end.

Definition opt_num (o : option Z) : string := num (default 0%Z o).
Definition opt_bytes (o : option Z) : string :=
  match o with Some b => formatBytes b true | None => "0 B" end.
Definition plural_s (count : Z) : string := if Z.eqb count 1 then "" else "s".

Definition prune_message (s : AdminResources.State) (sc : option PruneScope) : string :=
  match sc with
  | Some scope_dangling =>
      "Deletes all " +:+ opt_num (Z.of_nat ∘ danglingCount <$> imageStats s) +:+ " dangling images, reclaiming up to " +:+
      opt_bytes (danglingFreeableBytes <$> imageStats s) +:+ ". Tagged images are never touched."
  | Some scope_builder =>
      "Deletes " +:+ opt_num (GetBuildCacheStatsResponse_recordCount <$> buildStats s) +:+
      " build cache records, reclaiming up to " +:+
      opt_bytes (GetBuildCacheStatsResponse_reclaimableBytes <$> buildStats s) +:+
      ". Future image builds will be slower until the cache is rebuilt."
  | Some scope_volumes =>
      match volumeUsage s with
      | Some u =>
          "Deletes " +:+ num (GetVolumeUsageResponse_unusedCount u) +:+ " unused volume" +:+
          plural_s (GetVolumeUsageResponse_unusedCount u) +:+ ", reclaiming up to " +:+
          formatBytes (GetVolumeUsageResponse_reclaimableBytes u) true +:+
          ". A volume is unused only when no container — running or stopped — references it. This cannot be undone."
      | None =>
          "Size has not been calculated yet — use Calculate Sizes for a preview. Deletes all unused volumes. A volume is unused only when no container — running or stopped — references it. This cannot be undone."
      end
  | Some scope_networks =>
      let n := Z.of_nat (length (unusedNetworks s)) in
      "Deletes " +:+ num n +:+ " unused network" +:+ plural_s n +:+
      (if Z.ltb 0 n then " (" +:+ join ", " (Network_name <$> unusedNetworks s) +:+ ")" else "") +:+
      ". In-use, pre-defined and swarm-ingress networks are never touched. This cannot be undone."
  | _ =>
      "Deletes all " +:+ opt_num (Z.of_nat ∘ unusedCount <$> imageStats s) +:+ " unused images, reclaiming up to " +:+
      opt_bytes (freeableBytes <$> imageStats s) +:+ ". Images in use are never touched."
  end.

Definition prune_confirm_label (sc : option PruneScope) : string :=
  if bool_decide (sc = Some scope_volumes) then "Delete" else "Prune".

Definition record_message (r : option BuildCacheRecord) : string :=
  match r with
  | Some r =>
      "Deletes build cache record " +:+ formatShortId (BuildCacheRecord_id r) +:+ " (" +:+
      formatBytes (BuildCacheRecord_sizeBytes r) true +:+
      "). Shared blob content may free less. Rebuilding this step will be slower until the cache is rebuilt."
  | None => ""
  end.

(** ** Handlers *)

Abbreviation PageState := (Page * ToastState)%type.
Abbreviation handler := (async PageState AdminResources.Req AdminResources.Resp unit).
Local Open Scope async_scope.

Definition get_hook (s : PageState) : AdminResources.State * ToastState := (hook s.1, s.2).
Definition put_hook (h : AdminResources.State * ToastState) (s : PageState) : PageState :=
  (setHook h.1 s.1, h.2).

(** A function of the hook called by the page. *)
Definition of_hook (m : AdminResources.handler) : handler := lift get_hook put_hook m.

Definition page (f : Page -> Page) : handler := modify (fun s => (f s.1, s.2)).

(** [onConfirm] of the prune dialog: it closes, then the scope's prune runs. *)
Definition confirm_prune : handler :=
  scope <- gets (fun s => pendingPrune s.1) ;;
  page (setPendingPrune None) ;;;
  match scope with
  | Some scope_builder => of_hook pruneBuildCache
  | Some scope_volumes => of_hook pruneVolumes
  | Some scope_networks => of_hook pruneNetworks
  | scope => of_hook (pruneImages (bool_decide (scope = Some scope_dangling)))
  end.

Definition confirm_record : handler :=
  record <- gets (fun s => pendingRecord s.1) ;;
  page (setPendingRecord None) ;;;
  match record with
  | Some r => of_hook (pruneBuildCacheRecord (BuildCacheRecord_id r))
  | None => Ret tt
  end.

(** [handleConfirm] of the two tables: the dialog closes once the outcome settles. *)
Definition confirm_image : handler :=
  pending <- gets (fun s => pendingImage s.1) ;;
  match pending with
  | None => Ret tt
  | Some image => of_hook (deleteImage (Image_id image)) ;;; page (setPendingImage None)
  end.

Definition confirm_network : handler :=
  pending <- gets (fun s => pendingNetwork s.1) ;;
  match pending with
  | None => Ret tt
  | Some network => of_hook (deleteNetwork (Network_id network)) ;;; page (setPendingNetwork None)
  end.

(** ** Events *)

(** The four dialogs, with [open] and [busy]. *)
Inductive dialog := PruneDialog | RecordDialog | ImageDialog | NetworkDialog.

Definition is_open (d : dialog) (p : Page) : bool :=
  match d with
  | PruneDialog => is_some (pendingPrune p)
  | RecordDialog => is_some (pendingRecord p)
  | ImageDialog => is_some (pendingImage p)
  | NetworkDialog => is_some (pendingNetwork p)
  end.

Definition is_busy (d : dialog) (p : Page) : bool :=
  match d with
  | PruneDialog => pruning (hook p)
  | RecordDialog => is_some (pruningRecordId (hook p))
  | ImageDialog => match pendingImage p with
                   | Some i => bool_decide (deletingId (hook p) = Some (Image_id i)) | None => false end
  | NetworkDialog => match pendingNetwork p with
                     | Some n => bool_decide (deletingNetworkId (hook p) = Some (Network_id n)) | None => false end
  end.

Definition on_confirm (d : dialog) : handler :=
  match d with
  | PruneDialog => confirm_prune | RecordDialog => confirm_record
  | ImageDialog => confirm_image | NetworkDialog => confirm_network
  end.

Definition on_dialog_close (d : dialog) : handler :=
  page (match d with
        | PruneDialog => setPendingPrune None | RecordDialog => setPendingRecord None
        | ImageDialog => setPendingImage None | NetworkDialog => setPendingNetwork None
        end).

(** What the user or React does to the page. *)
Inductive event :=
| PruneClicked (sc : PruneScope)
| RecordClicked (r : BuildCacheRecord)
| ImageClicked (i : Image)
| NetworkClicked (n : Network)
| MeasureClicked
| SyncClicked
| DialogEvent (d : dialog) (e : dialog_event) (overlay : element) (c : option Card) (doc : Document)
| Navigated (k : AdminResourceKind)
| Effects (records : bool)
| Unmounted.

Definition run_callbacks (d : dialog) (cs : list callback) : handler :=
  foldr (fun c k => match c with OnClose => on_dialog_close d | OnConfirm => on_confirm d end ;;; k) (Ret tt) cs.

(** A click on a disabled button, in a table that is not shown or in a closed dialog,
    reaches no handler. *)
Definition on_event (isAdmin : bool) (e : event) : handler :=
  s <- gets id ;;
  let p := (s : PageState).1 in
  let h := hook p in
  match e with
  | PruneClicked sc =>
      if button_disabled (prune_button isAdmin h sc) then Ret tt else page (setPendingPrune (Some sc))
  | RecordClicked r =>
      if button_disabled (record_button isAdmin (pruning h) (pruningRecordId h) r) then Ret tt
      else page (setPendingRecord (Some r))
  | ImageClicked i =>
      match image_action isAdmin (deletingId h) i with
      | Some b =>
          if button_disabled b || negb (images_shown h) then Ret tt else page (setPendingImage (Some i))
      | None => Ret tt
      end
  | NetworkClicked n =>
      match network_action isAdmin (deletingNetworkId h) n with
      | Some b =>
          if button_disabled b || negb (networks_shown h) then Ret tt else page (setPendingNetwork (Some n))
      | None => Ret tt
      end
  | MeasureClicked =>
      if button_disabled (measure_button h) then Ret tt else of_hook (AdminResources.on_event DoMeasure)
  | SyncClicked => if isLoading h then Ret tt else of_hook refresh
  | DialogEvent d e overlay c doc =>
      if is_open d p then run_callbacks d (ConfirmDialog (is_busy d p) overlay c doc e) else Ret tt
  | Navigated k => of_hook (AdminResources.on_event (SwitchKind k))
  | Effects records => of_hook (AdminResources.on_event (if records then RecordsEffect else MainEffect))
  | Unmounted => of_hook (AdminResources.on_event Unmount)
  end.

(** ** Theorems *)

Definition initial_page (k : AdminResourceKind) : Page := mkPage (AdminResources.initial k) None None None None.

(** The requests that change nothing on the host. *)
Definition reads_only (r : AdminResources.Req) : Prop :=
  match r with
  | ListImages | ListVolumes | ListNetworks | GetBuildCacheStats | ListBuildCacheRecords | GetVolumeUsage => True
  | _ => False
  end.

Definition nothing_armed (s : PageState) : Prop :=
  pendingPrune s.1 = None /\ pendingRecord s.1 = None /\ pendingImage s.1 = None /\ pendingNetwork s.1 = None.

Lemma viewer_buttons (s : AdminResources.State) (sc : PruneScope) (r : BuildCacheRecord) (d : option string)
    (i : Image) (n : Network) :
  button_disabled (prune_button false s sc) = true /\
  button_disabled (record_button false (pruning s) d r) = true /\
  (forall b, image_action false d i = Some b -> button_disabled b = true) /\
  network_action false d n = None.
Proof.
  split_and!; try done.
  - destruct sc; cbn; by rewrite ?orb_true_r.
  - intros b. unfold image_action. destruct (negb _); [done|]. by intros [= <-].
Qed.

Lemma put_hook_armed (h : AdminResources.State * ToastState) (s : PageState) :
  nothing_armed s -> nothing_armed (put_hook h s).
Proof.
  destruct s as [p t]. intros (H1 & H2 & H3 & H4). cbn in *. unfold nothing_armed. cbn.
  rewrite H3, H4. split_and!; try done; by case_match.
Qed.

Ltac armed := repeat apply put_hook_armed; assumption.

Lemma viewer_asks (e : event) (s : PageState) :
  nothing_armed s -> asks nothing_armed reads_only (on_event false e) s.
Proof.
  destruct s as [p t]. intros Hs. pose proof Hs as (H1 & H2 & H3 & H4). cbn in H1, H2, H3, H4.
  destruct e as [sc|r|i|n| | |d de overlay c doc|k|records|]; unfold on_event; cbn [bind gets asks id fst].
  - destruct (viewer_buttons (hook p) sc (mkBuildCacheRecord "" "" "" 0 false false 0 None None) None
      (mkImage "" [] 0 0 0) (mkNetwork "" "" "" "" false None 0 false)) as [-> _]. exact Hs.
  - exact Hs.
  - destruct (image_action false _ i) as [b|] eqn:E; [|exact Hs].
    destruct (viewer_buttons (hook p) scope_unused (mkBuildCacheRecord "" "" "" 0 false false 0 None None) (deletingId (hook p))
      i (mkNetwork "" "" "" "" false None 0 false)) as (_ & _ & Hb & _). rewrite (Hb b E). exact Hs.
  - exact Hs.
  - cbn -[put_hook]. destruct (measuring (hook p)) eqn:Em; cbn -[put_hook]; [armed|].
    destruct (pruning (hook p)); cbn -[put_hook]; [armed|].
    unfold AdminResources.measureVolumeUsage. rewrite Em. cbn -[put_hook].
    split; [exact I|]. split; [armed|]. intros [u|err] s' Hs'; cbn -[put_hook]; armed.
  - destruct (isLoading (hook p)); cbn -[put_hook]; armed.
  - assert (is_open d p = false) as ->; [|exact Hs]. destruct d; cbn; by rewrite ?H1, ?H2, ?H3, ?H4.
  - cbn -[put_hook]. armed.
  - destruct records; cbn -[put_hook]; unfold AdminResources.main_effect, AdminResources.records_effect; cbn -[put_hook].
    + repeat (case_bool_decide; cbn -[put_hook]); try armed. split; [exact I|]. split; [armed|].
      intros [u|err] s' Hs'; cbn -[put_hook]; repeat (case_bool_decide; cbn -[put_hook]); armed.
    + case_bool_decide; cbn -[put_hook]; [armed|].
      destruct (kind (hook p)); cbn -[put_hook]; (split; [exact I|]); (split; [armed|]);
        intros [u|err] s' Hs'; cbn -[put_hook]; repeat (case_bool_decide; cbn -[put_hook]); armed.
  - cbn -[put_hook]. armed.
Qed.

(** C31: For a user who is not an administrator the page is read-only: whatever is
    clicked, typed or answered, in whatever order, no confirmation ever opens
    and no request in flight deletes or prunes anything. *)
Theorem viewer_is_read_only (k : AdminResourceKind) (t : ToastState) (s : PageState)
    (p : list (suspended PageState AdminResources.Req AdminResources.Resp))
    (H : rtc (pool_step (fun m => exists e, m = on_event false e)) ((initial_page k, t), []) (s, p)) :
  nothing_armed s /\ Forall (fun q => reads_only (projT1 q)) p.
Proof.
  eapply (pool_asks nothing_armed reads_only); [| |exact H]; [|by split_and!].
  intros m s0 [e ->]. apply viewer_asks.
Qed.

Lemma viewer_is_read_only_witness :
  let s := (exec (on_event false (PruneClicked scope_volumes)) (initial_page volumes, mkToastState [] (fun n => pretty n) 0)).1 in
  nothing_armed s /\ Forall (fun q : suspended PageState AdminResources.Req AdminResources.Resp => reads_only (projT1 q)) [].
Proof.
  intros s. apply (viewer_is_read_only volumes (mkToastState [] (fun n => pretty n) 0) s []).
  eapply rtc_l; [|apply rtc_refl].
  apply (pool_start (fun m => exists e, m = on_event false e) (on_event false (PruneClicked scope_volumes))).
  by eexists.
Defined.

(** No measurement was made. *)
Definition unmeasured (s : AdminResources.State * ToastState) : Prop := volumeUsage s.1 = None.

Lemma prune_unmeasured : makes unmeasured (fun r => r <> GetVolumeUsage) pruneVolumes.
Proof.
  intros s Hs. unfold pruneVolumes. cbn [bind gets asks]. rewrite Hs. cbn [is_some].
  match goal with |- asks ?I ?P ?m _ => cut (makes I P m); [by intros H; apply H|] end.
  unfold attempt, begin_prune, end_scope, refresh, setState, toast. makes.
Qed.

Lemma hook_unmeasured (e : AdminResources.event) :
  e <> DoMeasure -> makes unmeasured (fun r => r <> GetVolumeUsage) (AdminResources.on_event e).
Proof.
  intros He. destruct e; try done; try apply prune_unmeasured; cbn [AdminResources.on_event];
    unfold main_effect, records_effect, fetchResources, fetchRecords, list_resources, unless_cancelled,
      unless_records_cancelled, AdminResources.deleteImage, AdminResources.deleteNetwork,
      AdminResources.pruneImages, AdminResources.pruneBuildCache, pruneBuildCacheRecord,
      AdminResources.pruneNetworks, attempt, begin_prune, end_scope, end_record, refresh, setState, toast;
    makes.
Qed.

(** An update of the page that leaves the hook alone and opens no dialog of a table. *)
Definition quiet (f : Page -> Page) : Prop :=
  forall p, hook (f p) = hook p /\ (pendingImage (f p) = pendingImage p \/ pendingImage (f p) = None) /\
    (pendingNetwork (f p) = pendingNetwork p \/ pendingNetwork (f p) = None).

Ltac quiet := intros ?; cbn; split_and!; auto.

(** A click on a row of a table. *)
Definition row_click (e : event) : bool :=
  match e with ImageClicked _ | NetworkClicked _ => true | _ => false end.

(** What a handler of the page is made of: calls of the hook and quiet updates, but
    for the clicks on rows.  A class of handlers closed under sequencing has every
    handler of the page when it has those. *)
Lemma page_made_of (K : forall A, async PageState AdminResources.Req AdminResources.Resp A -> Prop)
    (isAdmin : bool) (e : event) :
  (forall A (a : A), K A (Ret a)) ->
  (forall A (f : PageState -> A), K A (gets f)) ->
  (forall A B (m : async _ _ _ A) (k : A -> async _ _ _ B), K A m -> (forall a, K B (k a)) -> K B (bind m k)) ->
  (forall f : Page -> Page, quiet f -> K unit (page f)) ->
  (row_click e = true -> K unit (on_event isAdmin e)) ->
  (forall a, (a = DoMeasure -> e = MeasureClicked) -> K unit (of_hook (AdminResources.on_event a))) ->
  K unit (on_event isAdmin e).
Proof.
  intros Kret Kgets Kbind Kpage Krow Khook. destruct (row_click e) eqn:Erow; [by apply Krow|]. clear Krow.
  assert (forall a, a <> DoMeasure -> K unit (of_hook (AdminResources.on_event a))) as Khook'
    by (intros a Ha; by apply Khook).
  unfold on_event. apply Kbind; [apply Kgets|intros s].
  assert (forall d, K unit (on_confirm d)) as Kconfirm.
  { intros d. destruct d; cbn [on_confirm];
      unfold confirm_prune, confirm_record, confirm_image, confirm_network;
      (apply Kbind; [apply Kgets|intros x]); try (apply Kbind; [apply Kpage; quiet|intros _]);
      repeat (case_match; try apply Kret); try (apply Kbind; [|intros _; apply Kpage; quiet]);
      first [by apply (Khook' (DoPruneImages true))|by apply (Khook' (DoPruneImages false))
            |by apply (Khook' DoPruneBuildCache)|by apply (Khook' DoPruneVolumes)|by apply (Khook' DoPruneNetworks)
            |by apply (Khook' (DoPruneRecord _))|by apply (Khook' (DoDeleteImage _))
            |by apply (Khook' (DoDeleteNetwork _))]. }
  destruct e; try discriminate Erow; cbn [id]; repeat (case_match; try apply Kret);
    try (apply Kpage; quiet); try (by apply Khook); try (by apply (Khook RefreshClicked)).
  generalize (ConfirmDialog (is_busy d s.1) overlay c doc e). intros cs.
  induction cs as [|[] cs IH]; [apply Kret|..]; (apply Kbind; [|intros _; exact IH]).
  - unfold on_dialog_close. destruct d; apply Kpage; quiet.
  - apply Kconfirm.
Qed.

Lemma page_unmeasured (isAdmin : bool) (e : event) :
  e <> MeasureClicked ->
  makes (fun s => unmeasured (get_hook s)) (fun r => r <> GetVolumeUsage) (on_event isAdmin e).
Proof.
  intros He. apply (page_made_of (fun _ => makes (fun s => unmeasured (get_hook s)) (fun r => r <> GetVolumeUsage))).
  - intros. apply makes_ret.
  - intros. apply makes_gets.
  - intros A B m k. apply makes_bind.
  - intros f Hf. apply makes_modify. intros [p t]. unfold unmeasured. cbn. by destruct (Hf p) as [-> _].
  - intros Hrow. destruct e; try done; cbn; intros s Hs; cbn; repeat case_match; exact Hs.
  - intros a Ha. apply makes_lift; [by intros [] []|]. apply hook_unmeasured. intros ->. by apply He, Ha.
Qed.

(** So the page keeps what the handlers of its hook keep. *)
Lemma page_keeps (I : AdminResources.State * ToastState -> Prop) (isAdmin : bool) (e : event) :
  (forall a, keeps I (AdminResources.on_event a)) -> keeps (fun s => I (get_hook s)) (on_event isAdmin e).
Proof.
  intros HI. apply (page_made_of (fun _ => keeps (fun s => I (get_hook s)))).
  - intros. apply keeps_ret.
  - intros. apply keeps_gets.
  - intros A B m k. apply keeps_bind.
  - intros f Hf. apply keeps_modify. intros [p t] Hs. unfold get_hook in *. cbn in *. by destruct (Hf p) as [-> _].
  - intros Hrow. destruct e; try done; intros [p t] Hs; cbn; repeat case_match; exact Hs.
  - intros a _ s Hs. apply (guarantees_lift get_hook put_hook); [by intros [] []|]. by apply HI.
Qed.

(** The sizes of the volumes are measured only when the user asks for it: as long
    as the button is not clicked, whatever else is clicked, confirmed, opened,
    refreshed and answered, volumes pruned among it, no measurement is requested and
    no sizes are shown. *)
Theorem measured_on_demand (isAdmin : bool) (k : AdminResourceKind) (t : ToastState) (s : PageState)
    (p : list (suspended PageState AdminResources.Req AdminResources.Resp))
    (H : rtc (pool_step (fun m => exists e, e <> MeasureClicked /\ m = on_event isAdmin e))
           ((initial_page k, t), []) (s, p)) :
  volumeUsage (hook s.1) = None /\ Forall (fun q => projT1 q <> GetVolumeUsage) p.
Proof.
  apply (pool_makes (fun s => unmeasured (get_hook s)) (fun r => r <> GetVolumeUsage)
    (fun m => exists e, e <> MeasureClicked /\ m = on_event isAdmin e) (initial_page k, t)); [|reflexivity|exact H].
  intros m (e & He & ->). by apply page_unmeasured.
Qed.

Lemma measured_on_demand_witness :
  let c := exec (on_event true (Effects false)) (initial_page volumes, mkToastState [] (fun n => pretty n) 0) in
  volumeUsage (hook c.1.1) = None /\ Forall (fun q => projT1 q <> GetVolumeUsage) (pending c.2).
Proof.
  intros c. apply (measured_on_demand true volumes (mkToastState [] (fun n => pretty n) 0)).
  eapply rtc_l; [|apply rtc_refl].
  pose proof (pool_start (fun m => exists e, e <> MeasureClicked /\ m = on_event true e) (on_event true (Effects false))
    (initial_page volumes, mkToastState [] (fun n => pretty n) 0) []) as Hs.
  rewrite app_nil_r in Hs. apply Hs. exists (Effects false). by split.
Defined.

(** The mutation a scope stands for. *)
Definition mutation_of (sc : PruneScope) : mutation :=
  match sc with
  | scope_unused => MPruneImages false | scope_dangling => MPruneImages true
  | scope_builder => MPruneBuildCache | scope_volumes => MPruneVolumes | scope_networks => MPruneNetworks
  end.

(** Confirming an armed prune closes the dialog at once and sends exactly the
    request of the armed scope, nothing else; dismissing it sends nothing.  The
    dialog is thus already closed while the request is in flight. *)
Theorem confirmed_prune (isAdmin : bool) (p : Page) (t : ToastState) (sc : PruneScope)
    (overlay : element) (c : option Card) (doc : Document)
    (Hp : pendingPrune p = Some sc) (Hb : pruning (hook p) = false) :
  (exists s1 k, exec (on_event isAdmin (DialogEvent PruneDialog ConfirmClick overlay c doc)) (p, t) =
     ((s1, t), Blocked (mutation_request (mutation_of sc)) k) /\
   pendingPrune s1 = None /\ pruning (hook s1) = true /\ pruningScope (hook s1) = Some sc) /\
  (forall e, e = CancelClick \/ e = KeyPress Escape \/ e = MouseDownOn overlay ->
   exec (on_event isAdmin (DialogEvent PruneDialog e overlay c doc)) (p, t) = ((setPendingPrune None p, t), Done tt)).
Proof.
  unfold on_event. cbn [bind gets exec id fst is_open is_busy]. rewrite Hp, Hb. cbn [is_some].
  split.
  - cbn. rewrite Hp. destruct p as [h pp pr pi pn]. cbn in *.
    destruct sc; cbn; unfold pruneImages, pruneBuildCache, pruneVolumes, pruneNetworks; cbn; rewrite Hb; cbn;
      do 2 eexists; (split; [reflexivity|done]).
  - intros e [->|[->| ->]]; cbn; [done|done|]. unfold onMouseDown. by rewrite Nat.eqb_refl.
Qed.

Lemma confirmed_prune_witness :
  let p := setPendingPrune (Some scope_dangling) (initial_page images) in
  let t := mkToastState [] (fun n => pretty n) 0 in let d := mkDocument 0 true None in
  (exists s1 k, exec (on_event true (DialogEvent PruneDialog ConfirmClick 1 None d)) (p, t) =
     ((s1, t), Blocked (PruneImages (mkPruneImagesRequest true)) k) /\
   pendingPrune s1 = None /\ pruning (hook s1) = true /\ pruningScope (hook s1) = Some scope_dangling) /\
  (forall e, e = CancelClick \/ e = KeyPress Escape \/ e = MouseDownOn 1 ->
   exec (on_event true (DialogEvent PruneDialog e 1 None d)) (p, t) = ((setPendingPrune None p, t), Done tt)).
Proof. intros p t d. apply (confirmed_prune true p t scope_dangling 1 None d); reflexivity. Defined.

(** Confirming the deletion of an image sends its one request with the dialog still
    open and locked, and closes the dialog when the outcome settles, success or
    failure. *)
Theorem delete_dialog (isAdmin : bool) (p : Page) (t : ToastState) (i : Image)
    (overlay : element) (c : option Card) (doc : Document)
    (Hs : images_shown (hook p) = true) (Hi : pendingImage p = Some i) (Hd : deletingId (hook p) = None) :
  exists s1 k, exec (on_event isAdmin (DialogEvent ImageDialog ConfirmClick overlay c doc)) (p, t) =
     ((s1, t), Blocked (DeleteImage (mkDeleteImageRequest (Image_id i) true)) k) /\
     is_open ImageDialog s1 = true /\ is_busy ImageDialog s1 = true /\
     forall answer s, pendingImage (exec (k answer) s).1.1 = None /\ (exec (k answer) s).2 = Done tt.
Proof.
  unfold on_event. cbn [bind gets exec id fst is_open is_busy]. rewrite Hi, Hd. cbn [is_some].
  rewrite !bool_decide_eq_false_2 by done. cbn. rewrite Hi. cbn. unfold deleteImage. cbn.
  rewrite Hd. cbn. do 2 eexists. split; [reflexivity|].
  assert (is_some (if images_shown (hook p) then pendingImage p else None) = true) as Ho by by rewrite Hs, Hi.
  split; [exact Ho|]. cbn. unfold images_shown in *. cbn. rewrite Hs, Hi.
  split; [by rewrite bool_decide_eq_true_2|]. by intros [resp|err] [s' t'].
Qed.

(** So for a network. *)
Theorem delete_network_dialog (isAdmin : bool) (p : Page) (t : ToastState) (n : Network)
    (overlay : element) (c : option Card) (doc : Document)
    (Hs : networks_shown (hook p) = true) (Hn : pendingNetwork p = Some n) (Hd : deletingNetworkId (hook p) = None) :
  exists s1 k, exec (on_event isAdmin (DialogEvent NetworkDialog ConfirmClick overlay c doc)) (p, t) =
     ((s1, t), Blocked (DeleteNetwork (mkDeleteNetworkRequest (Network_id n))) k) /\
     is_open NetworkDialog s1 = true /\ is_busy NetworkDialog s1 = true /\
     forall answer s, pendingNetwork (exec (k answer) s).1.1 = None /\ (exec (k answer) s).2 = Done tt.
Proof.
  unfold on_event. cbn [bind gets exec id fst is_open is_busy]. rewrite Hn, Hd. cbn [is_some].
  rewrite !bool_decide_eq_false_2 by done. cbn. rewrite Hn. cbn. unfold deleteNetwork. cbn.
  rewrite Hd. cbn. do 2 eexists. split; [reflexivity|].
  assert (is_some (if networks_shown (hook p) then pendingNetwork p else None) = true) as Ho by by rewrite Hs, Hn.
  split; [exact Ho|]. cbn. unfold networks_shown in *. cbn. rewrite Hs, Hn.
  split; [by rewrite bool_decide_eq_true_2|]. by intros [resp|err] [s' t'].
Qed.

(** A page with a list of one image, or one network, and its dialog open. *)
Definition asked_image : Page :=
  let i := mkImage "sha256:ab" [] 0 10 0 in
  setPendingImage (Some i) (setHook (setResult (Some (ImagesResult [i])) (AdminResources.initial images)) (initial_page images)).

Definition asked_network : Page :=
  let n := mkNetwork "n1" "web" "bridge" "local" false None 0 false in
  setPendingNetwork (Some n)
    (setHook (setResult (Some (NetworksResult [n])) (AdminResources.initial networks)) (initial_page networks)).

Lemma delete_dialog_witness :
  let t := mkToastState [] (fun n => pretty n) 0 in
  exists s1 k, exec (on_event true (DialogEvent ImageDialog ConfirmClick 1 None (mkDocument 0 true None))) (asked_image, t) =
     ((s1, t), Blocked (DeleteImage (mkDeleteImageRequest "sha256:ab" true)) k) /\
     is_open ImageDialog s1 = true /\ is_busy ImageDialog s1 = true /\
     forall answer s, pendingImage (exec (k answer) s).1.1 = None /\ (exec (k answer) s).2 = Done tt.
Proof.
  intros t. apply (delete_dialog true asked_image t (mkImage "sha256:ab" [] 0 10 0) 1 None (mkDocument 0 true None));
    reflexivity.
Defined.

Lemma delete_network_dialog_witness :
  let t := mkToastState [] (fun n => pretty n) 0 in
  exists s1 k, exec (on_event true (DialogEvent NetworkDialog ConfirmClick 1 None (mkDocument 0 true None))) (asked_network, t) =
     ((s1, t), Blocked (DeleteNetwork (mkDeleteNetworkRequest "n1")) k) /\
     is_open NetworkDialog s1 = true /\ is_busy NetworkDialog s1 = true /\
     forall answer s, pendingNetwork (exec (k answer) s).1.1 = None /\ (exec (k answer) s).2 = Done tt.
Proof.
  intros t. apply (delete_network_dialog true asked_network t (mkNetwork "n1" "web" "bridge" "local" false None 0 false)
    1 None (mkDocument 0 true None)); reflexivity.
Defined.
