(* ===== verification/SignIn.v ===== *)
(** The sign-in and first-setup forms (frontend/src/components/Login.tsx,
    Setup.tsx), as instances that live while the application shows its pages
    (frontend/src/App.tsx). *)
From S2P Require Import Prelude Async Json Proto Auth.

(** ** The forms *)

(** The messages under the fields; a cleared one is [undefined]. *)
Record ValidationErrors := mkValidationErrors {
  err_username : option string;
  err_password : option string;
  err_confirmPassword : option string
}.

Definition no_errors : ValidationErrors := mkValidationErrors None None None.

(** Both forms: [confirmPassword] belongs to the setup, [rememberMe] and
    [isPasskeySubmitting] to the sign-in. *)
Record Form := mkForm {
  f_username : string;
  f_password : string;
  f_confirmPassword : string;
  f_rememberMe : bool;
  f_showPassword : bool;
  f_error : option string;
  f_isSubmitting : bool;
  f_isPasskeySubmitting : bool;
  f_validationErrors : ValidationErrors
}.

Definition blank_form : Form := mkForm "" "" "" false false None false false no_errors.

Definition setUsername (v : string) (f : Form) : Form :=
  mkForm v (f_password f) (f_confirmPassword f) (f_rememberMe f) (f_showPassword f) (f_error f)
    (f_isSubmitting f) (f_isPasskeySubmitting f) (f_validationErrors f).
Definition setPassword (v : string) (f : Form) : Form :=
  mkForm (f_username f) v (f_confirmPassword f) (f_rememberMe f) (f_showPassword f) (f_error f)
    (f_isSubmitting f) (f_isPasskeySubmitting f) (f_validationErrors f).
Definition setConfirmPassword (v : string) (f : Form) : Form :=
  mkForm (f_username f) (f_password f) v (f_rememberMe f) (f_showPassword f) (f_error f)
    (f_isSubmitting f) (f_isPasskeySubmitting f) (f_validationErrors f).
Definition setRememberMe (v : bool) (f : Form) : Form :=
  mkForm (f_username f) (f_password f) (f_confirmPassword f) v (f_showPassword f) (f_error f)
    (f_isSubmitting f) (f_isPasskeySubmitting f) (f_validationErrors f).
Definition setShowPassword (v : bool) (f : Form) : Form :=
  mkForm (f_username f) (f_password f) (f_confirmPassword f) (f_rememberMe f) v (f_error f)
    (f_isSubmitting f) (f_isPasskeySubmitting f) (f_validationErrors f).
Definition setError (v : option string) (f : Form) : Form :=
  mkForm (f_username f) (f_password f) (f_confirmPassword f) (f_rememberMe f) (f_showPassword f) v
    (f_isSubmitting f) (f_isPasskeySubmitting f) (f_validationErrors f).
Definition setIsSubmitting (v : bool) (f : Form) : Form :=
  mkForm (f_username f) (f_password f) (f_confirmPassword f) (f_rememberMe f) (f_showPassword f)
    (f_error f) v (f_isPasskeySubmitting f) (f_validationErrors f).
Definition setIsPasskeySubmitting (v : bool) (f : Form) : Form :=
  mkForm (f_username f) (f_password f) (f_confirmPassword f) (f_rememberMe f) (f_showPassword f)
    (f_error f) (f_isSubmitting f) v (f_validationErrors f).
Definition setValidationErrors (v : ValidationErrors) (f : Form) : Form :=
  mkForm (f_username f) (f_password f) (f_confirmPassword f) (f_rememberMe f) (f_showPassword f)
    (f_error f) (f_isSubmitting f) (f_isPasskeySubmitting f) v.

(** The [onChange] handlers: a change takes the field's message away. *)
Definition change_username (v : string) (f : Form) : Form :=
  let f := setUsername v f in
  let e := f_validationErrors f in
  if bool_decide (is_Some (err_username e))
  then setValidationErrors (mkValidationErrors None (err_password e) (err_confirmPassword e)) f else f.
Definition change_password (v : string) (f : Form) : Form :=
  let f := setPassword v f in
  let e := f_validationErrors f in
  if bool_decide (is_Some (err_password e))
  then setValidationErrors (mkValidationErrors (err_username e) None (err_confirmPassword e)) f else f.
Definition change_confirmPassword (v : string) (f : Form) : Form :=
  let f := setConfirmPassword v f in
  let e := f_validationErrors f in
  if bool_decide (is_Some (err_confirmPassword e))
  then setValidationErrors (mkValidationErrors (err_username e) (err_password e) None) f else f.

(** ** Validation *)

Definition username_error (username : string) : option string :=
  if negb (truthy (trim username)) then Some "Username is required"%string
  else if slen username <? 3 then Some "Username must be at least 3 characters"%string
  else None.

Definition Login_validate (f : Form) : ValidationErrors :=
  mkValidationErrors (username_error (f_username f))
    (if negb (truthy (f_password f)) then Some "Password is required"%string
     else if slen (f_password f) <? 6 then Some "Password must be at least 6 characters"%string
     else None)
    None.

Definition Setup_validate (f : Form) : ValidationErrors :=
  mkValidationErrors (username_error (f_username f))
    (if negb (truthy (f_password f)) then Some "Password is required"%string
     else if slen (f_password f) <? 12
     then Some "Password must be at least 12 characters (passphrases recommended)"%string
     else None)
    (if String.eqb (f_password f) (f_confirmPassword f) then None
     else Some "Passwords do not match"%string).

(** [Object.keys(errors).length === 0] *)
Definition valid (e : ValidationErrors) : bool :=
  match e with mkValidationErrors None None None => true | _ => false end.

(** ** Instances

    A form is an instance of its component: it is created blank when the page
    shows it and discarded when the page is unmounted; a setter of a discarded
    instance does nothing. *)
Record UI := mkUI {
  instance : option Form;
  number : nat;
  session : Auth.State
}.

(** The setters of instance [n]. *)
Definition on_instance (n : nat) (f : Form -> Form) (u : UI) : UI :=
  if number u =? n then mkUI (f <$> instance u) (number u) (session u) else u.

Abbreviation handler := (async UI Auth.Req Auth.Resp unit).
Local Open Scope async_scope.

(** A function of the session's context. *)
Definition of_auth (m : Auth.handler) : handler :=
  lift session (fun s u => mkUI (instance u) (number u) s) m.

Definition form (n : nat) (f : Form -> Form) : handler := modify (on_instance n f).

(** The message of a failed sign-in. *)
Definition sign_in_error (fallback : string) (err : thrown) : string :=
  match err with
  | ConnectErr _ raw m => str_or raw m
  | JsError m => str_or m fallback
  | OtherThrown s => str_or s fallback
  end.

Definition setup_error (err : thrown) : string :=
  str_or (errText err) "Failed to initialize administrator account".

(** The submit handlers of instance [n], closed over its values [f]. *)
Definition Login_handleSubmit (n : nat) (f : Form) : handler :=
  form n (setError None) ;;;
  form n (setValidationErrors (Login_validate f)) ;;;
  if negb (valid (Login_validate f)) then Ret tt
  else
    form n (setIsSubmitting true) ;;;
    try
      (try (of_auth (login (trim (f_username f)) (f_password f) (f_rememberMe f)))
       catch (fun err => form n (setError (Some (sign_in_error "Invalid username or password" err)))))
    finally (form n (setIsSubmitting false)).

Definition handlePasskeyLogin (syntaxError : string -> string) (n : nat) (f : Form) : handler :=
  form n (setError None) ;;;
  form n (setIsPasskeySubmitting true) ;;;
  try
    (try (of_auth (loginWithPasskey syntaxError (f_rememberMe f)))
     catch (fun err => form n (setError (Some (sign_in_error "Passkey authentication failed" err)))))
  finally (form n (setIsPasskeySubmitting false)).

Definition Setup_handleSubmit (n : nat) (f : Form) : handler :=
  form n (setError None) ;;;
  form n (setValidationErrors (Setup_validate f)) ;;;
  if negb (valid (Setup_validate f)) then Ret tt
  else
    form n (setIsSubmitting true) ;;;
    try
      (try (of_auth (setupAdmin (trim (f_username f)) (f_password f)))
       catch (fun err => form n (setError (Some (setup_error err)))))
    finally (form n (setIsSubmitting false)).

(** The commit of [AppContent]: while loading it renders a placeholder in place
    of the router, which unmounts the form; afterwards a new one is mounted. *)
Definition commit (u : UI) : UI :=
  if isLoading (session u) then mkUI None (number u) (session u)
  else match instance u with
       | Some _ => u
       | None => mkUI (Some blank_form) (S (number u)) (session u)
       end.

(** A segment of a handler, then a commit. *)
Definition segment (m : handler) (u : UI) : UI * list (suspended UI Auth.Req Auth.Resp) :=
  (commit (exec m u).1, pending (exec m u).2).

(** ** Theorems *)

Lemma trim_start_slen (s : string) : slen (trim_start s) <= slen s.
Proof. induction s as [|c s IH]; cbn; [done|]. destruct (is_space c); cbn; lia. Qed.

(** The forms accept exactly: a user name that is not blank and has three
    characters or more, counting the blanks around it; a password of six
    characters or more to sign in, of twelve or more, typed twice, to set up. *)
Theorem validation_spec (f : Form) :
  (valid (Login_validate f) = true <->
   trim (f_username f) <> "" /\ 3 <= slen (f_username f) /\ 6 <= slen (f_password f)) /\
  (valid (Setup_validate f) = true <->
   trim (f_username f) <> "" /\ 3 <= slen (f_username f) /\ 12 <= slen (f_password f) /\
   f_password f = f_confirmPassword f).
Proof.
  assert (forall p, truthy p = false -> slen p = 0) as Hp by by intros p ->%truthy_false.
  unfold Login_validate, Setup_validate, username_error, valid.
  destruct (truthy (trim (f_username f))) eqn:Et; cbn [negb].
  2: { apply truthy_false in Et. rewrite Et. split; (split; [done|]); naive_solver. }
  apply truthy_true in Et.
  destruct (Nat.ltb_spec (slen (f_username f)) 3), (truthy (f_password f)) eqn:Ep; cbn [negb];
    try specialize (Hp _ Ep);
    destruct (Nat.ltb_spec (slen (f_password f)) 6), (Nat.ltb_spec (slen (f_password f)) 12),
      (String.eqb_spec (f_password f) (f_confirmPassword f));
    repeat split; intros; destruct_and?; try done; lia.
Qed.

(** A blank name of three characters with one letter is accepted, and sent as
    that letter: the length is tested before the blanks are taken away. *)
Example short_username_sent :
  let f := setPassword "secret" (setUsername "  a" blank_form) in
  valid (Login_validate f) = true /\
  exists k, (exec (Login_handleSubmit 0 f) (mkUI (Some f) 0 (mkState JNull false false false false None ∅))).2 =
    Blocked (Login (mkLoginRequest "a" "secret" false)) k.
Proof. split; [reflexivity|]. eexists. reflexivity. Qed.

(** A form that does not validate sends nothing, keeps its values, and shows
    the messages; one that does asks to sign in with the trimmed name. *)
Theorem submit_spec (n : nat) (f : Form) (s : Auth.State) (Hs : isLoading s = false) :
  (valid (Login_validate f) = false ->
   segment (Login_handleSubmit n f) (mkUI (Some f) n s) =
     (mkUI (Some (setValidationErrors (Login_validate f) (setError None f))) n s, [])) /\
  (valid (Login_validate f) = true ->
   exists k, segment (Login_handleSubmit n f) (mkUI (Some f) n s) =
     (mkUI None n (setIsLoading true s),
      [existT (Login (mkLoginRequest (trim (f_username f)) (f_password f) (f_rememberMe f))) k])).
Proof.
  unfold segment, Login_handleSubmit, form, on_instance. cbn. split; intros ->; cbn.
  - repeat (rewrite Nat.eqb_refl; cbn). unfold commit. cbn. by rewrite Hs.
  - repeat (rewrite Nat.eqb_refl; cbn). eexists. reflexivity.
Qed.

Lemma submit_spec_witness :
  let f := setPassword "secret" (setUsername "ada" blank_form) in
  let s := Auth.mkState JNull false false false false None ∅ in
  (valid (Login_validate f) = false ->
   segment (Login_handleSubmit 0 f) (mkUI (Some f) 0 s) =
     (mkUI (Some (setValidationErrors (Login_validate f) (setError None f))) 0 s, [])) /\
  (valid (Login_validate f) = true ->
   exists k, segment (Login_handleSubmit 0 f) (mkUI (Some f) 0 s) =
     (mkUI None 0 (setIsLoading true s), [existT (Login (mkLoginRequest "ada" "secret" false)) k])).
Proof. intros f s. apply (submit_spec 0 f s). reflexivity. Defined.

(** What the user sees of a sign-in: the form it is started from, the answers
    that end it, and the handler run to its end with a commit after each
    segment. *)
Fixpoint run_commits (answer : forall r, Auth.Resp r + thrown) (m : handler) (u : UI) : UI :=
  match m with
  | Ret _ | Throw _ => commit u
  | Modify f k => run_commits answer k (f u)
  | Read k => run_commits answer (k u) u
  | Await r k => run_commits answer (k (answer r)) (commit u)
  end.

Inductive submits (syntaxError : string -> string) (n : nat) (f : Form) : handler -> Prop :=
| submits_login : valid (Login_validate f) = true -> submits syntaxError n f (Login_handleSubmit n f)
| submits_passkey : submits syntaxError n f (handlePasskeyLogin syntaxError n f)
| submits_setup : valid (Setup_validate f) = true -> submits syntaxError n f (Setup_handleSubmit n f).

(** The message of a failed sign-in or setup is never shown: signing in
    unmounts the form, so the message goes to a form that is gone, and the one
    mounted when the attempt ends is blank, without a message and without what
    was typed. *)
Theorem failure_is_silent (syntaxError : string -> string) (n : nat) (f : Form) (s : Auth.State)
    (answer : forall r, Auth.Resp r + thrown) (m : handler)
    (Hm : submits syntaxError n f m) (Hs : isLoading s = false)
    (Hfail : forall r, exists e, answer r = inr e) :
  let u := run_commits answer m (mkUI (Some f) n s) in
  instance u = Some blank_form /\ isAuthenticated (session u) = false /\ isLoading (session u) = false.
Proof.
  destruct Hm as [Hv| |Hv].
  - unfold Login_handleSubmit. rewrite Hv. cbn. unfold on_instance. cbn. repeat (rewrite Nat.eqb_refl; cbn).
    destruct (Hfail (Login (mkLoginRequest (trim (f_username f)) (f_password f) (f_rememberMe f)))) as [e ->].
    cbn. unfold on_instance. cbn. repeat (rewrite Nat.eqb_refl; cbn). done.
  - unfold handlePasskeyLogin. cbn. unfold on_instance. cbn. repeat (rewrite Nat.eqb_refl; cbn).
    destruct (Hfail BeginPasskeyLogin) as [e ->]. cbn. unfold on_instance. cbn. repeat (rewrite Nat.eqb_refl; cbn). done.
  - unfold Setup_handleSubmit. rewrite Hv. cbn. unfold on_instance. cbn. repeat (rewrite Nat.eqb_refl; cbn).
    destruct (Hfail (SetupAdmin (mkSetupAdminRequest (trim (f_username f)) (f_password f)))) as [e ->].
    cbn. unfold on_instance. cbn. repeat (rewrite Nat.eqb_refl; cbn). done.
Qed.

Lemma failure_is_silent_witness :
  let f := setPassword "wrong-password" (setUsername "ada" blank_form) in
  let s := Auth.mkState JNull false false false false None ∅ in
  let u := run_commits (fun _ => inr (ConnectErr 16 "invalid credentials" "[unauthenticated] invalid credentials"))
    (Login_handleSubmit 0 f) (mkUI (Some f) 0 s) in
  instance u = Some blank_form /\ isAuthenticated (session u) = false /\ isLoading (session u) = false.
Proof.
  intros f s u.
  apply (failure_is_silent (fun s => s) 0 f s
    (fun _ => inr (ConnectErr 16 "invalid credentials" "[unauthenticated] invalid credentials"))
    (Login_handleSubmit 0 f)).
  - constructor. reflexivity.
  - reflexivity.
  - intros r. by eexists.
Defined.
