(* ===== verification/Forms.v ===== *)
(** The sign-in and first-setup pages as the user meets them (frontend/src/
    components/Login.tsx, Setup.tsx): what the form shows, what can be clicked and
    typed, and the attempts that follow. *)
From S2P Require Import Prelude Async Json Proto Auth Router SignIn.

Inductive page := LoginPage | SetupPage.

(** ** What is shown *)

Record Field := mkField {
  field_type : string; field_value : string; field_maxLength : nat; field_class : string;
  field_error : option string; field_disabled : bool
}.

Record SubmitButton := mkSubmitButton { submit_text : string; submit_disabled : bool }.

Record View := mkView {
  view_error : option string;
  view_passkey : option SubmitButton;
  view_fields : list (string * Field);
  view_toggle : string;
  view_remember : option bool;
  view_submit : SubmitButton
}.

(** [{message && ...}] *)
Definition shown_text (m : option string) : option string :=
  match m with Some v => if truthy v then Some v else None | None => None end.

Definition text_field (type value : string) (maxLength : nat) (err : option string) (f : Form) : Field :=
  mkField type value maxLength (if shown_text err then "input-error" else "") (shown_text err) (f_isSubmitting f).

Definition password_type (f : Form) : string := if f_showPassword f then "text" else "password".

Definition toggle_label (f : Form) : string :=
  if f_showPassword f then "Hide password" else "Show password".

Definition Login_view (passkeyLoginEnabled : bool) (f : Form) : View :=
  mkView (shown_text (f_error f))
    (if passkeyLoginEnabled
     then Some (mkSubmitButton
       (if f_isPasskeySubmitting f then "Signing in with Passkey..." else "Sign in with Passkey")
       (f_isSubmitting f || f_isPasskeySubmitting f))
     else None)
    [("username"%string, text_field "text" (f_username f) 50 (err_username (f_validationErrors f)) f);
     ("password"%string,
      text_field (password_type f) (f_password f) 100 (err_password (f_validationErrors f)) f)]
    (toggle_label f) (Some (f_rememberMe f))
    (mkSubmitButton (if f_isSubmitting f then "Authenticating..." else "Sign In") (f_isSubmitting f)).

Definition Setup_view (f : Form) : View :=
  mkView (shown_text (f_error f)) None
    [("setup-username"%string,
      text_field "text" (f_username f) 50 (err_username (f_validationErrors f)) f);
     ("setup-password"%string,
      text_field (password_type f) (f_password f) 100 (err_password (f_validationErrors f)) f);
     ("setup-confirm-password"%string,
      text_field (password_type f) (f_confirmPassword f) 100 (err_confirmPassword (f_validationErrors f)) f)]
    (toggle_label f) None
    (mkSubmitButton (if f_isSubmitting f then "Initializing..." else "Create Admin Account") (f_isSubmitting f)).

Definition view (p : page) (s : Auth.State) (f : Form) : View :=
  match p with LoginPage => Login_view (passkeyLoginEnabled s) f | SetupPage => Setup_view f end.

(** ** Events *)

Inductive event :=
| UsernameTyped (v : string)
| PasswordTyped (v : string)
| ConfirmTyped (v : string)
| RememberClicked (checked : bool)
| ToggleClicked
| Submitted
| PasskeyClicked.

(** A control is on the page and not disabled; a field takes no more than its
    [maxLength]. *)
Definition enabled (p : page) (s : Auth.State) (f : Form) (e : event) : bool :=
  match e with
  | UsernameTyped v => negb (f_isSubmitting f) && (slen v <=? 50)
  | PasswordTyped v => negb (f_isSubmitting f) && (slen v <=? 100)
  | ConfirmTyped v =>
      match p with SetupPage => negb (f_isSubmitting f) && (slen v <=? 100) | LoginPage => false end
  | RememberClicked _ => match p with LoginPage => negb (f_isSubmitting f) | SetupPage => false end
  | ToggleClicked | Submitted => negb (f_isSubmitting f)
  | PasskeyClicked =>
      match p with
      | LoginPage => passkeyLoginEnabled s && negb (f_isSubmitting f || f_isPasskeySubmitting f)
      | SetupPage => false
      end
  end.

Local Open Scope async_scope.

Definition handle (syntaxError : string -> string) (p : page) (n : nat) (f : Form) (e : event) : handler :=
  match e with
  | UsernameTyped v => form n (change_username v)
  | PasswordTyped v => form n (change_password v)
  | ConfirmTyped v => form n (change_confirmPassword v)
  | RememberClicked b => form n (setRememberMe b)
  | ToggleClicked => form n (setShowPassword (negb (f_showPassword f)))
  | Submitted => match p with LoginPage => Login_handleSubmit n f | SetupPage => Setup_handleSubmit n f end
  | PasskeyClicked => handlePasskeyLogin syntaxError n f
  end.

Definition on_event (syntaxError : string -> string) (p : page) (e : event) : handler :=
  u <- gets id ;;
  match instance u with
  | Some f => if enabled p (session u) f e then handle syntaxError p (number u) f e else Ret tt
  | None => Ret tt
  end.

(** The page between commits: the form and the handlers waiting for an answer. *)
Inductive page_step (syntaxError : string -> string) (p : page) :
    UI * list (suspended UI Auth.Req Auth.Resp) -> UI * list (suspended UI Auth.Req Auth.Resp) -> Prop :=
| page_event e u q :
    page_step syntaxError p (u, q)
      ((segment (on_event syntaxError p e) u).1, (segment (on_event syntaxError p e) u).2 ++ q)
| page_answer u r k answer q1 q2 :
    page_step syntaxError p (u, q1 ++ existT r k :: q2)
      ((segment (k answer) u).1, (segment (k answer) u).2 ++ q1 ++ q2).

(** The page when the router shows it. *)
Definition opened (n : nat) (s : Auth.State) : UI := mkUI (Some blank_form) n s.

(** ** Theorems *)

(** The mark of a form that is off the page; no handler of the page makes a
    difference to it. *)
Definition hidden (u : UI) : bool := match instance u with None => true | Some _ => false end.
Definition nobody (r : Auth.Req) : bool := false.

Definition idle (f : Form) : Prop := f_isSubmitting f = false /\ f_isPasskeySubmitting f = false.

Lemma form_steady n f : steady hidden nobody (form n f).
Proof.
  apply steady_modify. intros u. unfold hidden, on_instance.
  destruct (number u =? n); [|done]. by destruct (instance u).
Qed.

Lemma of_auth_steady m : steady hidden nobody (of_auth m).
Proof. by apply steady_lift_outside. Qed.

Lemma form_guarantees I n f Q (u : UI) : Q (inl tt) (on_instance n f u) -> guarantees I (form n f) Q u.
Proof. done. Qed.

Lemma session_on_instance n f (u : UI) : session (on_instance n f u) = session u.
Proof. unfold on_instance. by case_match. Qed.

(** What every attempt does around the call of the session. *)
Definition attempt (n : nat) (start stop : Form -> Form) (m : Auth.handler) (fail : thrown -> Form -> Form) : handler :=
  form n start ;;;
  try (try (of_auth m) catch (fun err => form n (fail err))) finally (form n stop).

Lemma attempt_steady n start stop m fail : steady hidden nobody (attempt n start stop m fail).
Proof.
  unfold attempt. apply steady_bind; [apply form_steady|intros _].
  apply steady_try_finally; [|apply form_steady].
  apply steady_try_catch; [apply of_auth_steady|intros e; apply form_steady].
Qed.

(** The page waits on the session with the loading mark up, and ends with it
    down. *)
Lemma attempt_guarantees (syntaxError : string -> string) n start stop m fail (u : UI) :
  Auth.starts syntaxError m -> m <> checkAuth ->
  guarantees (fun u => session_loading (session u)) (attempt n start stop m fail)
    (fun _ u => session_loaded (session u)) u /\
  exists u' r k, exec (attempt n start stop m fail) u = (u', Blocked r k).
Proof.
  intros Hm Hne. split.
  - unfold attempt. apply guarantees_bind, form_guarantees.
    apply guarantees_try_finally, guarantees_try_catch.
    destruct (handler_loads syntaxError m (session (on_instance n start u))) as [Hg _]; [done..|].
    eapply guarantees_mono; [|exact (guarantees_lift session (fun s u => mkUI (instance u) (number u) s)
      (fun _ _ => eq_refl) session_loading _ _ _ Hg)].
    intros [a|e] u' Hu; cbn; unfold session_loaded; by rewrite ?session_on_instance.
  - destruct Hm; try done; do 3 eexists; reflexivity.
Qed.

(** The page is idle with a form, or an attempt is under way off the page. *)
Definition page_ok (c : UI * list (suspended UI Auth.Req Auth.Resp)) : Prop :=
  (session_loaded (session c.1) /\ c.2 = [] /\ exists f, instance c.1 = Some f /\ idle f) \/
  (session_loading (session c.1) /\ instance c.1 = None /\ exists q, c.2 = [q] /\
     (forall ans u, session_loading (session u) ->
        guarantees (fun u => session_loading (session u)) (projT2 q ans) (fun _ u => session_loaded (session u)) u) /\
     (forall ans, steady hidden nobody (projT2 q ans))).

(** A segment that is part of an attempt. *)
Lemma attempt_segment (m : handler) (u : UI) :
  hidden u = true \/ (exists u' r k, exec m u = (u', Blocked r k)) ->
  steady hidden nobody m ->
  guarantees (fun u => session_loading (session u)) m (fun _ u => session_loaded (session u)) u ->
  page_ok (segment m u).
Proof.
  intros Hh Hs Hg%guarantees_exec. destruct (inert_exec hidden nobody m u (Hs u)) as [Hf Hp].
  unfold segment, page_ok, commit. destruct (exec m u) as [u' o] eqn:E. cbn in *.
  destruct o as [v|e|r k]; cbn in *.
  1-2: destruct Hh as [Hh|(? & ? & ? & ?)]; [|done]; rewrite Hh in Hf; unfold session_loaded in Hg; rewrite Hg;
    unfold hidden in Hf; destruct (instance u'); [done|]; left; cbn; split_and!; try done; by eexists.
  destruct Hg as [Hl Hk]. unfold session_loading in Hl. rewrite Hl. right. cbn. split_and!; try done.
  eexists. split; [reflexivity|]. apply Forall_inv in Hp as [_ Hp]. split; [exact Hk|exact Hp].
Qed.

(** The submit handlers, seen as attempts after their validation. *)
Lemma submitted_steady syntaxError p n f e : steady hidden nobody (handle syntaxError p n f e).
Proof.
  destruct e, p; try apply form_steady.
  - unfold handle, Login_handleSubmit. do 2 (apply steady_bind; [apply form_steady|intros _]).
    case_match; [apply steady_ret|apply attempt_steady].
  - unfold handle, Setup_handleSubmit. do 2 (apply steady_bind; [apply form_steady|intros _]).
    case_match; [apply steady_ret|apply attempt_steady].
  - apply steady_bind; [apply form_steady|intros _]. apply attempt_steady.
  - apply steady_bind; [apply form_steady|intros _]. apply attempt_steady.
Qed.

(** An event on an idle form leaves it idle, or starts an attempt. *)
Lemma handle_ok syntaxError p f e n (s : Auth.State) :
  session_loaded s -> idle f -> enabled p s f e = true ->
  page_ok (segment (handle syntaxError p n f e) (mkUI (Some f) n s)).
Proof.
  intros Hl [H1 H2] He.
  assert (forall g, idle (g f) -> page_ok (segment (form n g) (mkUI (Some f) n s))) as Hset.
  { intros g Hg. left. unfold segment, commit, form, on_instance. cbn. rewrite Nat.eqb_refl. cbn.
    unfold session_loaded in Hl. rewrite Hl. cbn. eauto. }
  assert (forall m v, Auth.starts syntaxError m -> m <> checkAuth -> forall start stop fail,
    page_ok (segment (form n (setError None) ;;; form n (setValidationErrors v) ;;; attempt n start stop m fail)
      (mkUI (Some f) n s))) as Hgo.
  { intros m v Hm Hne start stop fail.
    destruct (attempt_guarantees syntaxError n start stop m fail
      (on_instance n (setValidationErrors v) (on_instance n (setError None) (mkUI (Some f) n s)))) as [Hg Hb]; [done..|].
    apply attempt_segment; [right; exact Hb| |exact Hg].
    do 2 (apply steady_bind; [apply form_steady|intros _]). apply attempt_steady. }
  destruct e; cbn [handle].
  1-3: apply Hset; unfold change_username, change_password, change_confirmPassword; case_bool_decide; done.
  1-2: apply Hset; done.
  - destruct p; [unfold Login_handleSubmit|unfold Setup_handleSubmit];
      (destruct (valid _) eqn:Hv; cbn [negb]; [apply Hgo; [constructor|discriminate]|]).
    all: left; unfold segment, commit, form, on_instance; cbn; rewrite Nat.eqb_refl; cbn;
      rewrite Nat.eqb_refl; cbn; unfold session_loaded in Hl; rewrite Hl; cbn; split_and!; try done; by eexists.
  - destruct (attempt_guarantees syntaxError n (setIsPasskeySubmitting true) (setIsPasskeySubmitting false)
      (loginWithPasskey syntaxError (f_rememberMe f))
      (fun err => setError (Some (sign_in_error "Passkey authentication failed" err)))
      (on_instance n (setError None) (mkUI (Some f) n s))) as [Hg Hb]; [constructor|discriminate|].
    apply attempt_segment; [right; exact Hb| |exact Hg].
    apply (submitted_steady syntaxError p n f PasskeyClicked).
Qed.

Lemma page_step_ok syntaxError p c c' : page_step syntaxError p c c' -> page_ok c -> page_ok c'.
Proof.
  intros [e u q|u r k ans q1 q2] Hok.
  - assert (segment (on_event syntaxError p e) u =
      match instance u with
      | Some f => if enabled p (session u) f e then segment (handle syntaxError p (number u) f e) u
                  else (commit u, [])
      | None => (commit u, [])
      end) as ->.
    { unfold segment, on_event. cbn. destruct (instance u); [|done]. by case_match. }
    destruct Hok as [(Hl & Hq & f & Hf & Hi)|(Hl & Hn & Hq)]; cbn in *.
    + destruct u as [i n s]. cbn in *. subst i q. rewrite app_nil_r.
      destruct (enabled p s f e) eqn:He; [by apply handle_ok|].
      left. unfold commit, session_loaded in *. cbn. rewrite Hl. cbn. eauto.
    + rewrite Hn. cbn. right. unfold commit, session_loading in *. rewrite Hl. cbn. done.
  - destruct Hok as [(_ & Hq & _)|(Hl & Hn & x & Hq & Hg & Hs)]; cbn in *; [by destruct q1|].
    destruct q1 as [|y q1]; [|by destruct q1]. destruct q2; simplify_eq/=. rewrite app_nil_r.
    apply attempt_segment; [left; unfold hidden; by rewrite Hn|apply Hs|by apply Hg].
Qed.

(** However the user types and clicks and the answers come, at most one attempt
    to sign in (or to set up) is under way, and exactly while it is the form is
    off the page; a form on the page has its controls enabled and its submit
    button never shows a submission in progress; and no attempt that ended leaves
    the page loading. *)
Theorem one_attempt (syntaxError : string -> string) (p : page) (n : nat) (s : Auth.State)
    (u : UI) (q : list (suspended UI Auth.Req Auth.Resp))
    (Hs : isLoading s = false) (H : rtc (page_step syntaxError p) (opened n s, []) (u, q)) :
  length q = (if isLoading (session u) then 1 else 0) /\
  match instance u with
  | None => isLoading (session u) = true
  | Some f =>
      isLoading (session u) = false /\
      view_submit (view p (session u) f) =
        mkSubmitButton (match p with LoginPage => "Sign In" | SetupPage => "Create Admin Account" end) false /\
      Forall (fun x => field_disabled x.2 = false) (view_fields (view p (session u) f))
  end.
Proof.
  assert (page_ok (u, q)) as Hok.
  { remember (opened n s, []) as c0. assert (page_ok c0) as H0.
    { subst c0. left. split_and!; try done. by eexists. }
    clear Heqc0 Hs. remember (u, q) as c. clear Heqc. induction H; eauto using page_step_ok. }
  destruct Hok as [(Hl & Hq & f & Hf & Hi1 & Hi2)|(Hl & Hn & x & Hq & _)]; cbn in *;
    unfold session_loaded, session_loading in Hl; rewrite Hl, Hq; [rewrite Hf|by rewrite Hn].
  destruct p; cbn; rewrite Hi1; split_and!; try done; repeat constructor; cbn; done.
Qed.

Lemma one_attempt_witness :
  let s := Auth.mkState JNull false false false true None ∅ in
  let f := setPassword "secret-enough" (setUsername "ada" blank_form) in
  let c := segment (on_event (fun s => s) LoginPage PasskeyClicked) (opened 0 s) in
  length c.2 = 1 /\ instance c.1 = None /\ length c.2 = (if isLoading (session c.1) then 1 else 0).
Proof.
  intros s f c. split; [reflexivity|]. split; [reflexivity|].
  apply (one_attempt (fun s => s) LoginPage 0 s c.1 c.2); [reflexivity|].
  eapply rtc_l; [apply (page_event _ _ PasskeyClicked)|]. rewrite app_nil_r. apply rtc_refl.
Defined.
