(* ===== verification/Layout.v ===== *)
(** The frame of the signed-in pages (frontend/src/components/DashboardLayout.tsx)
    and its tab bars (frontend/src/components/PageTabs.tsx): the navigation, the
    user card and the engine pill. *)
From S2P Require Import Prelude Async Json Auth Router Polling Status.

(** [user?.field] as text; another type of value is not a text. *)
Definition user_field (key : string) (user : json) : option string :=
  match field key user with Some (JStr v) => Some v | _ => None end.

(** [user?.username ? user.username.slice(0, 2).toUpperCase() : "US"] *)
Definition initials (user : json) : string :=
  match user_field "username" user with
  | Some name => if truthy name then toUpperCase (slice_to 2 name) else "US"
  | None => "US"
  end.

Definition user_name (user : json) : string := str_or (default "" (user_field "username" user)) "Guest".
Definition user_role (user : json) : string := str_or (default "" (user_field "role" user)) "viewer".

(** The links of the sidebar. *)
Definition sidebar_links (user : json) : list (route * string) :=
  [(dashboardRoute, "Containers"); (logsRoute, "System Logs");
   (administrationTabRoute "images", "Administration")]%string ++
  (if is_admin user then [(auditLogsRoute, "Audit Logs"%string)] else []) ++
  [(settingsTabRoute "general", "Settings"%string)].

(** A tab of [PageTabs] *)
Record PageTabItem := mkPageTabItem { tab_to : route; tab_label : string; tab_active : bool }.

Definition PageTabs (tabs : list PageTabItem) : list (route * string * string) :=
  (fun t => (tab_to t, tab_label t, "page-tab " +:+ (if tab_active t then "active" else ""))) <$> tabs.

(** The tabs of the Administration page for its resolved tab. *)
Definition adminTabs (tab : string) : list PageTabItem :=
  [mkPageTabItem (administrationTabRoute "images") "Images" (String.eqb tab "images");
   mkPageTabItem (administrationTabRoute "builder") "Builder" (String.eqb tab "builder");
   mkPageTabItem (administrationTabRoute "volumes") "Volumes" (String.eqb tab "volumes");
   mkPageTabItem (administrationTabRoute "networks") "Networks" (String.eqb tab "networks")].

(** The text of the engine pill. *)
Definition engine_label (st : EngineStatus) : string :=
  match st with online => "Engine online" | offline => "No connection" | checking => "Checking…" end.

Definition version_title (info : ServerInfo) : option string :=
  if String.eqb (Auth.commit info) "none" then None
  else Some ("commit " +:+ Auth.commit info +:+ " · built " +:+ Auth.buildDate info).

(** The mobile sidebar. *)
Inductive sidebar_event := ToggleSidebar | OverlayClicked | LinkClicked.

Definition sidebar (e : sidebar_event) (isSidebarOpen : bool) : bool :=
  match e with ToggleSidebar => negb isSidebarOpen | _ => false end.

(** ** The frame as it is rendered *)

(** The pill of the engine: title, class of the dot, text. *)
Record Pill := mkPill { pill_title : string; pill_dot : string; pill_text : string }.

Record UserCard := mkUserCard { uc_avatar : string; uc_name : string; uc_role : string; uc_accent : bool }.

(** [sidebar_class] and [overlay_class] carry [open]; the version of the server comes
    with its title. *)
Record Frame (Child : Type) := mkFrame {
  sidebar_class : string;
  overlay_class : string;
  links : list (route * string);
  pill : Pill;
  user_card : UserCard;
  version : option (string * option string);
  child : Child
}.
#[global] Arguments mkFrame {Child}.
#[global] Arguments sidebar_class {Child}.
#[global] Arguments overlay_class {Child}.
#[global] Arguments links {Child}.
#[global] Arguments pill {Child}.
#[global] Arguments user_card {Child}.
#[global] Arguments version {Child}.
#[global] Arguments child {Child}.

Definition status_text (st : EngineStatus) : string :=
  match st with online => "online" | offline => "offline" | checking => "checking" end.

Definition open_class (base : string) (isSidebarOpen : bool) : string :=
  base +:+ " " +:+ (if isSidebarOpen then "open" else "").

Definition DashboardLayout {Child} (user : json) (serverInfo : option ServerInfo) (engine : EngineStatusState)
    (isSidebarOpen : bool) (children : Child) : Frame Child :=
  mkFrame (open_class "dashboard-sidebar" isSidebarOpen) (open_class "sidebar-overlay" isSidebarOpen)
    (sidebar_links user)
    (mkPill (detail engine) ("status-dot " +:+ status_text (status engine)) (engine_label (status engine)))
    (mkUserCard (initials user) (user_name user) (user_role user) (is_admin user))
    ((fun info => (Auth.version info, version_title info)) <$> serverInfo)
    children.

(** The navigation offers a signed-in user only pages the session may see, so
    no link of the sidebar or of the Administration tabs is ever redirected, and
    the audit log is offered exactly to administrators. *)
Theorem links_lead_somewhere `{Router} (c : RouterContext)
    (Ha : auth_isAuthenticated c = true) (Hn : auth_needsSetup c = false) :
  (forall r label, (r, label) ∈ sidebar_links (auth_user c) -> load c r = r) /\
  (forall tab r label cl, (r, label, cl) ∈ PageTabs (adminTabs tab) -> load c r = r) /\
  ((exists label, (auditLogsRoute, label) ∈ sidebar_links (auth_user c)) <-> is_admin (auth_user c) = true).
Proof.
  assert (forall r, may_see c r -> load c r = r) as Hl.
  { intros r Hr. destruct (load_settles c r) as [-> _].
    apply beforeLoad_None in Hr. by rewrite Hr. }
  unfold may_see in Hl. rewrite Ha, Hn in Hl. unfold sidebar_links. split_and!.
  - intros r label Hin. rewrite !elem_of_app in Hin.
    destruct Hin as [Hin|[Hin|Hin%list_elem_of_singleton]].
    + rewrite !elem_of_cons in Hin.
      destruct Hin as [?|[?|[?|?%elem_of_nil]]]; [..|done]; simplify_eq; apply Hl; cbn; [done..|].
      rewrite elem_of_cons. auto.
    + destruct (is_admin (auth_user c)) eqn:E; [|by apply elem_of_nil in Hin].
      apply list_elem_of_singleton in Hin. simplify_eq. by apply Hl.
    + simplify_eq. apply Hl. cbn. rewrite !elem_of_cons. auto.
  - intros tab r label cl Hin. apply list_elem_of_fmap in Hin as (t & [= -> -> ->] & Hin).
    apply Hl. unfold adminTabs in Hin. rewrite !elem_of_cons in Hin.
    destruct Hin as [->|[->|[->|[->|?%elem_of_nil]]]]; [..|done]; cbn; rewrite !elem_of_cons; auto.
  - destruct (is_admin (auth_user c)); split; try done.
    + intros _. exists "Audit Logs"%string. rewrite !elem_of_app, list_elem_of_singleton. auto.
    + intros [label Hin]. rewrite !elem_of_app, !elem_of_cons, !elem_of_nil in Hin. naive_solver.
Qed.

Lemma links_lead_somewhere_witness :
  let c := mkRouterContext true false (user_json (mkUser "ada" "viewer")) in
  (forall r label, (r, label) ∈ sidebar_links (auth_user c) -> load c r = r) /\
  (forall tab r label cl, (r, label, cl) ∈ PageTabs (adminTabs tab) -> load c r = r) /\
  ((exists label, (auditLogsRoute, label) ∈ sidebar_links (auth_user c)) <-> is_admin (auth_user c) = true).
Proof. intros c. apply (links_lead_somewhere c); reflexivity. Defined.
