(* ===== verification/AdministrationPage.v ===== *)
(** The Administration page as it is rendered
    (frontend/src/components/Administration.tsx over its tables, Builder.tsx and
    BuilderRecords.tsx): the cards and buttons of the tab, the panels of what is
    loaded, and the dialogs. *)
From S2P Require Import Prelude Async Toast Proto AdminTables AdminResources Administration.
From S2P Require Layout Status.

(** The route parameter of a kind. *)
Definition kind_text (k : AdminResourceKind) : string :=
  match k with images => "images" | volumes => "volumes" | networks => "networks" | builder => "builder" end.

(** A button of the actions row: its text while it works and otherwise. *)
Record ActionButton := mkActionButton { button_text : string; button_of : Button }.

Definition action_button (busy idle : string) (b : Button) : ActionButton :=
  mkActionButton (if button_spins b then busy else idle) b.

Inductive Panel :=
| ImagesPanel (t : ResourceView)
| VolumesPanel (t : ResourceView)
| NetworksPanel (t : ResourceView)
| BuilderPanel (cards : list (string * string)) (prune : ActionButton)
| RecordsPanel (records : records_view) (buttons : list Button).

Inductive Body := LoadingResources (text : string) | Panels (ps : list Panel).

(** A dialog that is open: title, message, the verb of its confirmation, [busy]. *)
Record DialogView := mkDialogView { dv_title : string; dv_message : string; dv_confirm : string; dv_busy : bool }.

Record View := mkView {
  sync : Button;
  tailscale : option Status.Card;
  tabs : list (Router.route * string * string);
  cards : list (string * string);
  buttons : list ActionButton;
  error_banner : option string;
  body : Body;
  dialogs : list DialogView
}.

(** The cards and the buttons above the lists, by tab. *)
Definition tab_cards (h : AdminResources.State) : list (string * string) :=
  match kind h with
  | images => image_cards (imageStats h)
  | volumes => [(volume_card h, "Volumes"%string)]
  | _ => []
  end.

Definition tab_buttons (isAdmin : bool) (h : AdminResources.State) : list ActionButton :=
  match kind h with
  | images =>
      [action_button "Pruning…" "Prune Unused" (prune_button isAdmin h scope_unused);
       action_button "Pruning…" "Prune Dangling" (prune_button isAdmin h scope_dangling)]
  | volumes =>
      [action_button "Measuring…" "Calculate Sizes" (measure_button h);
       action_button "Pruning…" "Reclaim Space" (prune_button isAdmin h scope_volumes)]
  | networks => [action_button "Pruning…" "Prune Unused" (prune_button isAdmin h scope_networks)]
  | builder => []
  end.

Section Page.
(** The row order of the table library, the clock in milliseconds, the browser's dates,
    and the sorting each table keeps. *)
Context (sort_rows : forall A, (string -> A -> option sort_key) -> option Sorting -> list A -> list A)
  (now : Z) (localeDate : Z -> string) (sorting : AdminResourceKind -> option Sorting)
  (tailscaleStatus : Status.TailscaleStatusState) (isAdmin : bool).

(** The table of what is loaded, whatever the tab. *)
Definition table_panels (h : AdminResources.State) : list Panel :=
  match result h with
  | Some (ImagesResult data) => [ImagesPanel (ImageTable sort_rows now isAdmin (sorting images) (deletingId h) data)]
  | Some (VolumesResult data) =>
      [VolumesPanel (VolumeTable sort_rows localeDate (sorting volumes) (volumeUsageIndex (volumeUsage h)) data)]
  | Some (NetworksResult data) =>
      [NetworksPanel (NetworkTable sort_rows localeDate isAdmin (sorting networks) (deletingNetworkId h) data)]
  | _ => []
  end.

(** The two panels of the builder tab. *)
Definition builder_panels (h : AdminResources.State) : list Panel :=
  match kind h with
  | builder =>
      [BuilderPanel (builder_cards (buildStats h))
         (action_button "Pruning…" "Prune Build Cache" (prune_button isAdmin h scope_builder));
       RecordsPanel (BuilderRecords now (builderRecords h) (recordsLoading h) (recordsError h))
         (record_button isAdmin (pruning h) (pruningRecordId h) <$> builderRecords h)]
  | _ => []
  end.

Definition page_body (h : AdminResources.State) : Body :=
  if isLoading h && negb (is_some (result h)) then LoadingResources "Loading resources..."
  else Panels (table_panels h ++ builder_panels h).

Definition page_dialogs (p : Page) : list DialogView :=
  (if is_open ImageDialog p then
     [mkDialogView "Delete image?" (default "" (image_delete_message <$> pendingImage p)) "Delete"
        (is_busy ImageDialog p)]
   else []) ++
  (if is_open NetworkDialog p then
     [mkDialogView "Delete network?" (default "" (network_delete_message <$> pendingNetwork p)) "Delete"
        (is_busy NetworkDialog p)]
   else []) ++
  (if is_open PruneDialog p then
     [mkDialogView (prune_title (pendingPrune p)) (prune_message (hook p) (pendingPrune p))
        (prune_confirm_label (pendingPrune p)) (is_busy PruneDialog p)]
   else []) ++
  (if is_open RecordDialog p then
     [mkDialogView "Delete cache record?" (record_message (pendingRecord p)) "Delete" (is_busy RecordDialog p)]
   else []).

Definition Administration_page (p : Page) : View :=
  mkView (mkButton None (isLoading (hook p)) (isLoading (hook p)))
    (Status.TailscaleStatusCard now tailscaleStatus)
    (Layout.PageTabs (Layout.adminTabs (kind_text (kind (hook p)))))
    (tab_cards (hook p)) (tab_buttons isAdmin (hook p))
    (match error (hook p) with Some m => if truthy m then Some m else None | None => None end)
    (page_body (hook p)) (page_dialogs p).
End Page.

(** ** What is shown when everything has arrived *)

Definition panel_kind (x : Panel) : option AdminResourceKind :=
  match x with
  | ImagesPanel _ => Some images | VolumesPanel _ => Some volumes | NetworksPanel _ => Some networks
  | BuilderPanel _ _ | RecordsPanel _ _ => None
  end.

(** The kinds of the tables of a body. *)
Definition tables_of (b : Body) : list AdminResourceKind :=
  match b with LoadingResources _ => [] | Panels ps => omap panel_kind ps end.

(** The dialogs of the tables are open over their tables only. *)
Definition dialogs_over_tables (s : PageState) : Prop :=
  (pendingImage s.1 <> None -> images_shown (hook s.1) = true) /\
  (pendingNetwork s.1 <> None -> networks_shown (hook s.1) = true).

Lemma put_hook_over (h : AdminResources.State * ToastState) (s : PageState) : dialogs_over_tables (put_hook h s).
Proof. unfold dialogs_over_tables, put_hook, setHook. cbn. split; intros Hp; by case_match. Qed.

Lemma event_over (isAdmin : bool) (e : event) : keeps dialogs_over_tables (on_event isAdmin e).
Proof.
  apply (page_made_of (fun _ => keeps dialogs_over_tables)).
  - intros. apply keeps_ret.
  - intros. apply keeps_gets.
  - intros A B m k. apply keeps_bind.
  - intros f Hf. apply keeps_modify. intros [p t] [H1 H2]. destruct (Hf p) as (Hh & Hi & Hn).
    unfold dialogs_over_tables in *. cbn in *. rewrite Hh.
    split; [destruct Hi as [->| ->]|destruct Hn as [->| ->]]; done.
  - intros Hrow. destruct e; try done; intros [p t] [H1 H2]; cbn; repeat (case_match; try by split); js_bool;
      unfold dialogs_over_tables; cbn; by split.
  - intros a _. apply keeps_lift. intros h s _. apply put_hook_over.
Qed.

(** Whatever was clicked, confirmed and answered on the page, in whatever order:
    once the list of the tab has been asked for and nothing is loading, the page
    shows either exactly the table of the tab (on the builder tab, the cards of the
    build cache) or no table and the message that the daemon is out of reach, never
    the table of another tab; and the dialog of an image or a network is open only
    over the table of its row. *)
Theorem page_settles sort_rows now localeDate sorting tailscale (isAdmin : bool) (k : AdminResourceKind)
    (t : ToastState) (s : PageState) (n : nat)
    (H : pool_reaches (started_by (on_event isAdmin)) (initial_page k, t) s)
    (Hrun : mainRun (hook s.1) = Some (n, kind (hook s.1))) (Hl : isLoading (hook s.1) = false) :
  let v := Administration_page sort_rows now localeDate sorting tailscale isAdmin s.1 in
  ((match kind (hook s.1) with
    | builder => tables_of (body v) = [] /\ buildStats (hook s.1) <> None
    | kd => tables_of (body v) = [kd]
    end) \/
   (tables_of (body v) = [] /\ error_banner v = Some unreachable_text)) /\
  (forall text, body v <> LoadingResources text) /\
  dialogs_over_tables s.
Proof.
  intros v. assert (inventory_inv (get_hook s)) as Hi.
  { apply (pool_invariant (fun s => inventory_inv (get_hook s)) (started_by (on_event isAdmin)) (initial_page k, t));
      [|exact I|exact H].
    intros m [e ->]. apply page_keeps. apply event_keeps_inventory. }
  unfold inventory_inv, get_hook in Hi. cbn in Hi. rewrite Hrun in Hi. destruct Hi as [_ Hi]. specialize (Hi Hl).
  assert (body v = Panels (table_panels sort_rows now localeDate sorting isAdmin (hook s.1) ++
                           builder_panels now isAdmin (hook s.1))) as Hb.
  { cbn. unfold page_body. by rewrite Hl. }
  rewrite Hb. split; [|split; [done|]].
  - unfold tables_of. rewrite omap_app. unfold table_panels, builder_panels, buildStats, v. cbn [error_banner Administration_page].
    destruct Hi as [(x & -> & Hk)|[-> ->]].
    + left. destruct x; cbn in Hk; rewrite <- Hk; done.
    + right. by destruct (kind (hook s.1)).
  - apply (pool_invariant dialogs_over_tables (started_by (on_event isAdmin)) (initial_page k, t)); [|done|exact H].
    intros m [e ->]. apply event_over.
Qed.

(** The networks tab after its list has arrived. *)
Definition loaded_networks : PageState :=
  (run (Resp := AdminResources.Resp)
    (fun r => match r return AdminResources.Resp r + thrown with
              | ListNetworks => inl (mkListNetworksResponse [mkNetwork "n1" "web" "bridge" "local" false None 0 false])
              | _ => inr (JsError "down") end)
    (on_event true (Effects false)) (initial_page networks, mkToastState [] (fun n => pretty n) 0)).1.

Lemma page_settles_witness :
  let v := Administration_page (fun _ _ _ l => l) 0 (fun _ => "") (fun _ => None) Status.tailscale_initial true loaded_networks.1 in
  (tables_of (body v) = [networks] \/ (tables_of (body v) = [] /\ error_banner v = Some unreachable_text)) /\
  (forall text, body v <> LoadingResources text) /\
  dialogs_over_tables loaded_networks.
Proof.
  intros v. apply (page_settles (fun _ _ _ l => l) 0 (fun _ => "") (fun _ => None) Status.tailscale_initial true networks
    (mkToastState [] (fun n => pretty n) 0) loaded_networks 0); [|reflexivity..].
  apply run_reaches. by eexists.
Defined.

(** Without a list the bulk prune of the networks says there is nothing to prune,
    where the image and cache buttons say nothing. *)
Lemma empty_before_loading :
  let h := AdminResources.initial networks in
  result h = None /\
  button_title (prune_button true h scope_networks) = Some "No unused networks to prune"%string /\
  button_title (prune_button true h scope_unused) = None /\
  button_title (prune_button true h scope_builder) = None.
Proof. done. Qed.
