(* ===== verification/Settings.v ===== *)
(** The settings page (frontend/src/components/Settings.tsx): its state and
    requests, the general tab (notifications, audit retention, registries) and
    the security tab (passkeys, sessions, authentication events) with their
    confirmation dialog, and the page as it is rendered, with the controls a user
    can operate and the event each of them fires: what a user can do is what the
    rendered page has a control for that is not disabled. *)
From S2P Require Import Prelude Async Json Toast Proto Dialog.
From S2P Require Router Layout.

(** ** State *)

Inductive SettingsTab := general | security.

#[global] Instance SettingsTab_eq_dec : EqDecision SettingsTab.
Proof. solve_decision. Defined.

(** The destructive action awaiting confirmation. *)
Inductive PendingDestructive :=
| PendingPasskey (passkey : Passkey)
| PendingSession (session : Session)
| PendingAllSessions.

(** A list fetched from the server with its [...Loading] and [...Error] states:
    the registries, the passkeys, the sessions and the authentication events. *)
Record Slot (A : Type) := mkSlot { items : list A; isLoading : bool; slotError : option string }.
#[global] Arguments mkSlot {A} items isLoading slotError.
#[global] Arguments items {A} s.
#[global] Arguments isLoading {A} s.
#[global] Arguments slotError {A} s.

Definition setItems {A} (v : list A) (s : Slot A) : Slot A := mkSlot v (isLoading s) (slotError s).
Definition setSlotLoading {A} (v : bool) (s : Slot A) : Slot A := mkSlot (items s) v (slotError s).
Definition setSlotError {A} (v : option string) (s : Slot A) : Slot A := mkSlot (items s) (isLoading s) v.

(** The relying party of the server status. *)
Record ServerRP := mkServerRP { rp_passkeyLoginEnabled : bool; rp_rpId : string; rp_origins : list string }.

Record State := mkState {
  localTab : SettingsTab;
  gotifyUrl : string;
  gotifyToken : string;
  auditRetentionDays : Z;
  loading : bool;
  isSaving : bool;
  isTesting : bool;
  error : option string;
  success : option string;
  testResult : option (bool * string);
  registries : Slot RegistryStatus;
  passkeys : Slot Passkey;
  isAddingPasskey : bool;
  showAddPasskey : bool;
  newPasskeyName : string;
  editingPasskeyId : option string;
  editingPasskeyName : string;
  deletingPasskeyId : option string;
  serverInfo : option ServerRP;
  sessions : Slot Session;
  isRevokingOther : bool;
  revokingSessionId : option string;
  pendingDestructive : option PendingDestructive;
  authEvents : Slot AuthEvent
}.

Definition setLocalTab (v : SettingsTab) (s : State) : State :=
  mkState v (gotifyUrl s) (gotifyToken s) (auditRetentionDays s) (loading s) (isSaving s)
    (isTesting s) (error s) (success s) (testResult s) (registries s) (passkeys s)
    (isAddingPasskey s) (showAddPasskey s) (newPasskeyName s) (editingPasskeyId s)
    (editingPasskeyName s) (deletingPasskeyId s) (serverInfo s) (sessions s) (isRevokingOther s)
    (revokingSessionId s) (pendingDestructive s) (authEvents s).
Definition setGotifyUrl (v : string) (s : State) : State :=
  mkState (localTab s) v (gotifyToken s) (auditRetentionDays s) (loading s) (isSaving s)
    (isTesting s) (error s) (success s) (testResult s) (registries s) (passkeys s)
    (isAddingPasskey s) (showAddPasskey s) (newPasskeyName s) (editingPasskeyId s)
    (editingPasskeyName s) (deletingPasskeyId s) (serverInfo s) (sessions s) (isRevokingOther s)
    (revokingSessionId s) (pendingDestructive s) (authEvents s).
Definition setGotifyToken (v : string) (s : State) : State :=
  mkState (localTab s) (gotifyUrl s) v (auditRetentionDays s) (loading s) (isSaving s)
    (isTesting s) (error s) (success s) (testResult s) (registries s) (passkeys s)
    (isAddingPasskey s) (showAddPasskey s) (newPasskeyName s) (editingPasskeyId s)
    (editingPasskeyName s) (deletingPasskeyId s) (serverInfo s) (sessions s) (isRevokingOther s)
    (revokingSessionId s) (pendingDestructive s) (authEvents s).
Definition setAuditRetentionDays (v : Z) (s : State) : State :=
  mkState (localTab s) (gotifyUrl s) (gotifyToken s) v (loading s) (isSaving s) (isTesting s)
    (error s) (success s) (testResult s) (registries s) (passkeys s) (isAddingPasskey s)
    (showAddPasskey s) (newPasskeyName s) (editingPasskeyId s) (editingPasskeyName s)
    (deletingPasskeyId s) (serverInfo s) (sessions s) (isRevokingOther s) (revokingSessionId s)
    (pendingDestructive s) (authEvents s).
Definition setLoading (v : bool) (s : State) : State :=
  mkState (localTab s) (gotifyUrl s) (gotifyToken s) (auditRetentionDays s) v (isSaving s)
    (isTesting s) (error s) (success s) (testResult s) (registries s) (passkeys s)
    (isAddingPasskey s) (showAddPasskey s) (newPasskeyName s) (editingPasskeyId s)
    (editingPasskeyName s) (deletingPasskeyId s) (serverInfo s) (sessions s) (isRevokingOther s)
    (revokingSessionId s) (pendingDestructive s) (authEvents s).
Definition setIsSaving (v : bool) (s : State) : State :=
  mkState (localTab s) (gotifyUrl s) (gotifyToken s) (auditRetentionDays s) (loading s) v
    (isTesting s) (error s) (success s) (testResult s) (registries s) (passkeys s)
    (isAddingPasskey s) (showAddPasskey s) (newPasskeyName s) (editingPasskeyId s)
    (editingPasskeyName s) (deletingPasskeyId s) (serverInfo s) (sessions s) (isRevokingOther s)
    (revokingSessionId s) (pendingDestructive s) (authEvents s).
Definition setIsTesting (v : bool) (s : State) : State :=
  mkState (localTab s) (gotifyUrl s) (gotifyToken s) (auditRetentionDays s) (loading s)
    (isSaving s) v (error s) (success s) (testResult s) (registries s) (passkeys s)
    (isAddingPasskey s) (showAddPasskey s) (newPasskeyName s) (editingPasskeyId s)
    (editingPasskeyName s) (deletingPasskeyId s) (serverInfo s) (sessions s) (isRevokingOther s)
    (revokingSessionId s) (pendingDestructive s) (authEvents s).
Definition setError (v : option string) (s : State) : State :=
  mkState (localTab s) (gotifyUrl s) (gotifyToken s) (auditRetentionDays s) (loading s)
    (isSaving s) (isTesting s) v (success s) (testResult s) (registries s) (passkeys s)
    (isAddingPasskey s) (showAddPasskey s) (newPasskeyName s) (editingPasskeyId s)
    (editingPasskeyName s) (deletingPasskeyId s) (serverInfo s) (sessions s) (isRevokingOther s)
    (revokingSessionId s) (pendingDestructive s) (authEvents s).
Definition setSuccess (v : option string) (s : State) : State :=
  mkState (localTab s) (gotifyUrl s) (gotifyToken s) (auditRetentionDays s) (loading s)
    (isSaving s) (isTesting s) (error s) v (testResult s) (registries s) (passkeys s)
    (isAddingPasskey s) (showAddPasskey s) (newPasskeyName s) (editingPasskeyId s)
    (editingPasskeyName s) (deletingPasskeyId s) (serverInfo s) (sessions s) (isRevokingOther s)
    (revokingSessionId s) (pendingDestructive s) (authEvents s).
Definition setTestResult (v : option (bool * string)) (s : State) : State :=
  mkState (localTab s) (gotifyUrl s) (gotifyToken s) (auditRetentionDays s) (loading s)
    (isSaving s) (isTesting s) (error s) (success s) v (registries s) (passkeys s)
    (isAddingPasskey s) (showAddPasskey s) (newPasskeyName s) (editingPasskeyId s)
    (editingPasskeyName s) (deletingPasskeyId s) (serverInfo s) (sessions s) (isRevokingOther s)
    (revokingSessionId s) (pendingDestructive s) (authEvents s).
Definition setRegistries (v : Slot RegistryStatus) (s : State) : State :=
  mkState (localTab s) (gotifyUrl s) (gotifyToken s) (auditRetentionDays s) (loading s)
    (isSaving s) (isTesting s) (error s) (success s) (testResult s) v (passkeys s)
    (isAddingPasskey s) (showAddPasskey s) (newPasskeyName s) (editingPasskeyId s)
    (editingPasskeyName s) (deletingPasskeyId s) (serverInfo s) (sessions s) (isRevokingOther s)
    (revokingSessionId s) (pendingDestructive s) (authEvents s).
Definition setPasskeysSlot (v : Slot Passkey) (s : State) : State :=
  mkState (localTab s) (gotifyUrl s) (gotifyToken s) (auditRetentionDays s) (loading s)
    (isSaving s) (isTesting s) (error s) (success s) (testResult s) (registries s) v
    (isAddingPasskey s) (showAddPasskey s) (newPasskeyName s) (editingPasskeyId s)
    (editingPasskeyName s) (deletingPasskeyId s) (serverInfo s) (sessions s) (isRevokingOther s)
    (revokingSessionId s) (pendingDestructive s) (authEvents s).
Definition setIsAddingPasskey (v : bool) (s : State) : State :=
  mkState (localTab s) (gotifyUrl s) (gotifyToken s) (auditRetentionDays s) (loading s)
    (isSaving s) (isTesting s) (error s) (success s) (testResult s) (registries s) (passkeys s)
    v (showAddPasskey s) (newPasskeyName s) (editingPasskeyId s) (editingPasskeyName s)
    (deletingPasskeyId s) (serverInfo s) (sessions s) (isRevokingOther s) (revokingSessionId s)
    (pendingDestructive s) (authEvents s).
Definition setShowAddPasskey (v : bool) (s : State) : State :=
  mkState (localTab s) (gotifyUrl s) (gotifyToken s) (auditRetentionDays s) (loading s)
    (isSaving s) (isTesting s) (error s) (success s) (testResult s) (registries s) (passkeys s)
    (isAddingPasskey s) v (newPasskeyName s) (editingPasskeyId s) (editingPasskeyName s)
    (deletingPasskeyId s) (serverInfo s) (sessions s) (isRevokingOther s) (revokingSessionId s)
    (pendingDestructive s) (authEvents s).
Definition setNewPasskeyName (v : string) (s : State) : State :=
  mkState (localTab s) (gotifyUrl s) (gotifyToken s) (auditRetentionDays s) (loading s)
    (isSaving s) (isTesting s) (error s) (success s) (testResult s) (registries s) (passkeys s)
    (isAddingPasskey s) (showAddPasskey s) v (editingPasskeyId s) (editingPasskeyName s)
    (deletingPasskeyId s) (serverInfo s) (sessions s) (isRevokingOther s) (revokingSessionId s)
    (pendingDestructive s) (authEvents s).
Definition setEditingPasskeyId (v : option string) (s : State) : State :=
  mkState (localTab s) (gotifyUrl s) (gotifyToken s) (auditRetentionDays s) (loading s)
    (isSaving s) (isTesting s) (error s) (success s) (testResult s) (registries s) (passkeys s)
    (isAddingPasskey s) (showAddPasskey s) (newPasskeyName s) v (editingPasskeyName s)
    (deletingPasskeyId s) (serverInfo s) (sessions s) (isRevokingOther s) (revokingSessionId s)
    (pendingDestructive s) (authEvents s).
Definition setEditingPasskeyName (v : string) (s : State) : State :=
  mkState (localTab s) (gotifyUrl s) (gotifyToken s) (auditRetentionDays s) (loading s)
    (isSaving s) (isTesting s) (error s) (success s) (testResult s) (registries s) (passkeys s)
    (isAddingPasskey s) (showAddPasskey s) (newPasskeyName s) (editingPasskeyId s) v
    (deletingPasskeyId s) (serverInfo s) (sessions s) (isRevokingOther s) (revokingSessionId s)
    (pendingDestructive s) (authEvents s).
Definition setDeletingPasskeyId (v : option string) (s : State) : State :=
  mkState (localTab s) (gotifyUrl s) (gotifyToken s) (auditRetentionDays s) (loading s)
    (isSaving s) (isTesting s) (error s) (success s) (testResult s) (registries s) (passkeys s)
    (isAddingPasskey s) (showAddPasskey s) (newPasskeyName s) (editingPasskeyId s)
    (editingPasskeyName s) v (serverInfo s) (sessions s) (isRevokingOther s)
    (revokingSessionId s) (pendingDestructive s) (authEvents s).
Definition setServerInfo (v : option ServerRP) (s : State) : State :=
  mkState (localTab s) (gotifyUrl s) (gotifyToken s) (auditRetentionDays s) (loading s)
    (isSaving s) (isTesting s) (error s) (success s) (testResult s) (registries s) (passkeys s)
    (isAddingPasskey s) (showAddPasskey s) (newPasskeyName s) (editingPasskeyId s)
    (editingPasskeyName s) (deletingPasskeyId s) v (sessions s) (isRevokingOther s)
    (revokingSessionId s) (pendingDestructive s) (authEvents s).
Definition setSessionsSlot (v : Slot Session) (s : State) : State :=
  mkState (localTab s) (gotifyUrl s) (gotifyToken s) (auditRetentionDays s) (loading s)
    (isSaving s) (isTesting s) (error s) (success s) (testResult s) (registries s) (passkeys s)
    (isAddingPasskey s) (showAddPasskey s) (newPasskeyName s) (editingPasskeyId s)
    (editingPasskeyName s) (deletingPasskeyId s) (serverInfo s) v (isRevokingOther s)
    (revokingSessionId s) (pendingDestructive s) (authEvents s).
Definition setIsRevokingOther (v : bool) (s : State) : State :=
  mkState (localTab s) (gotifyUrl s) (gotifyToken s) (auditRetentionDays s) (loading s)
    (isSaving s) (isTesting s) (error s) (success s) (testResult s) (registries s) (passkeys s)
    (isAddingPasskey s) (showAddPasskey s) (newPasskeyName s) (editingPasskeyId s)
    (editingPasskeyName s) (deletingPasskeyId s) (serverInfo s) (sessions s) v
    (revokingSessionId s) (pendingDestructive s) (authEvents s).
Definition setRevokingSessionId (v : option string) (s : State) : State :=
  mkState (localTab s) (gotifyUrl s) (gotifyToken s) (auditRetentionDays s) (loading s)
    (isSaving s) (isTesting s) (error s) (success s) (testResult s) (registries s) (passkeys s)
    (isAddingPasskey s) (showAddPasskey s) (newPasskeyName s) (editingPasskeyId s)
    (editingPasskeyName s) (deletingPasskeyId s) (serverInfo s) (sessions s) (isRevokingOther s)
    v (pendingDestructive s) (authEvents s).
Definition setPendingDestructive (v : option PendingDestructive) (s : State) : State :=
  mkState (localTab s) (gotifyUrl s) (gotifyToken s) (auditRetentionDays s) (loading s)
    (isSaving s) (isTesting s) (error s) (success s) (testResult s) (registries s) (passkeys s)
    (isAddingPasskey s) (showAddPasskey s) (newPasskeyName s) (editingPasskeyId s)
    (editingPasskeyName s) (deletingPasskeyId s) (serverInfo s) (sessions s) (isRevokingOther s)
    (revokingSessionId s) v (authEvents s).
Definition setAuthEvents (v : Slot AuthEvent) (s : State) : State :=
  mkState (localTab s) (gotifyUrl s) (gotifyToken s) (auditRetentionDays s) (loading s)
    (isSaving s) (isTesting s) (error s) (success s) (testResult s) (registries s) (passkeys s)
    (isAddingPasskey s) (showAddPasskey s) (newPasskeyName s) (editingPasskeyId s)
    (editingPasskeyName s) (deletingPasskeyId s) (serverInfo s) (sessions s) (isRevokingOther s)
    (revokingSessionId s) (pendingDestructive s) v.

Definition AUDIT_RETENTION_PRESETS : list (Z * string) :=
  [(7%Z, "7 days"); (30%Z, "1 month"); (90%Z, "3 months"); (180%Z, "6 months"); (365%Z, "1 year")]%string.

(** [routeTab] is the tab of the route, [initialTab] the property. *)
Definition initial_tab (routeTab : option string) (initialTab : option SettingsTab) : SettingsTab :=
  if bool_decide (routeTab = Some "security"%string) || bool_decide (initialTab = Some security)
  then security else general.

Definition initial (routeTab : option string) (initialTab : option SettingsTab) : State :=
  mkState (initial_tab routeTab initialTab) "" "" 90 true false false None None None
    (mkSlot [] true None) (mkSlot [] false None) false false "" None "" None None
    (mkSlot [] false None) false None None (mkSlot [] false None).

(** The effect on the route's tab. *)
Definition follow_route (routeTab : option string) (s : State) : State :=
  if bool_decide (routeTab = Some "security"%string) then setLocalTab security s
  else if bool_decide (routeTab = Some "general"%string) then setLocalTab general s
  else s.

(** ** Requests *)

Inductive Req :=
| GetSettings
| UpdateSettings (request : UpdateSettingsRequest)
| TestGotifyNotification (request : TestGotifyNotificationRequest)
| GetRegistryStatus
| ListPasskeys
| GetServerStatus
| ListSessions
| ListAuthEvents (request : ListAuthEventsRequest)
| RevokeSession (request : RevokeSessionRequest)
| RevokeAllOtherSessions
| BeginPasskeyRegistration (request : BeginPasskeyRegistrationRequest)
| WebauthnCreate (publicKey : json)
| FinishPasskeyRegistration (request : FinishPasskeyRegistrationRequest)
| RenamePasskey (request : RenamePasskeyRequest)
| DeletePasskey (request : DeletePasskeyRequest).

Definition Resp (r : Req) : Type :=
  match r with
  | GetSettings => GetSettingsResponse
  | UpdateSettings _ => unit
  | TestGotifyNotification _ => TestGotifyNotificationResponse
  | GetRegistryStatus => GetRegistryStatusResponse
  | ListPasskeys => ListPasskeysResponse
  | GetServerStatus => GetServerStatusResponse
  | ListSessions => ListSessionsResponse
  | ListAuthEvents _ => ListAuthEventsResponse
  | RevokeSession _ => unit
  | RevokeAllOtherSessions => RevokeAllOtherSessionsResponse
  | BeginPasskeyRegistration _ => BeginPasskeyRegistrationResponse
  | WebauthnCreate _ => json
  | FinishPasskeyRegistration _ => FinishPasskeyRegistrationResponse
  | RenamePasskey _ => RenamePasskeyResponse
  | DeletePasskey _ => unit
  end.

Abbreviation M := (async (State * ToastState) Req Resp).
Abbreviation handler := (M unit).
Local Open Scope async_scope.

(** ** Fetches *)

(** The shape of the four list fetches: loading up, error down, the answer or
    the error, loading down. [on] reaches the list's slot. *)
Definition fetch_into {A} (on : (Slot A -> Slot A) -> State -> State) (request : M (list A)) : handler :=
  setState (on (setSlotLoading true)) ;;;
  setState (on (setSlotError None)) ;;;
  try
    (try (xs <- request ;; setState (on (setItems xs)))
     catch (fun err => setState (on (setSlotError (Some (errText err))))))
  finally (setState (on (setSlotLoading false))).

Definition onRegistries f (s : State) := setRegistries (f (registries s)) s.
Definition onPasskeys f (s : State) := setPasskeysSlot (f (passkeys s)) s.
Definition onSessions f (s : State) := setSessionsSlot (f (sessions s)) s.
Definition onAuthEvents f (s : State) := setAuthEvents (f (authEvents s)) s.

Definition fetchRegistryStatus : handler :=
  fetch_into onRegistries
    (resp <- rpc (Resp := Resp) GetRegistryStatus ;; Ret (GetRegistryStatusResponse_registries resp)).

Definition fetchPasskeys : handler :=
  fetch_into onPasskeys
    (resp <- rpc (Resp := Resp) ListPasskeys ;; Ret (ListPasskeysResponse_passkeys resp)).

Definition fetchSessions : handler :=
  fetch_into onSessions
    (resp <- rpc (Resp := Resp) ListSessions ;; Ret (ListSessionsResponse_sessions resp)).

(** The filter left out of the request is the empty text. *)
Definition fetchAuthEvents : handler :=
  fetch_into onAuthEvents
    (resp <- rpc (Resp := Resp) (ListAuthEvents (mkListAuthEventsRequest 50 0 "")) ;;
     Ret (ListAuthEventsResponse_events resp)).

Definition fetchServerStatus : handler :=
  try
    (resp <- rpc (Resp := Resp) GetServerStatus ;;
     setState (setServerInfo (Some (mkServerRP
       (GetServerStatusResponse_passkeyLoginEnabled resp)
       (GetServerStatusResponse_rpId resp) (GetServerStatusResponse_origins resp)))))
  catch (fun err => Ret tt).

Definition loadSettings : handler :=
  try
    (try
      (resp <- rpc (Resp := Resp) GetSettings ;;
       setState (setGotifyUrl (GetSettingsResponse_gotifyUrl resp)) ;;;
       setState (setGotifyToken (GetSettingsResponse_gotifyToken resp)) ;;;
       setState (setAuditRetentionDays (GetSettingsResponse_auditRetentionDays resp)))
     catch (fun err => setState (setError (Some (errText err)))))
  finally (setState (setLoading false)).

(** The handlers the effects start: at the mount, and when the security tab
    becomes the active one. *)
Definition mount_effects : list handler := [loadSettings; fetchRegistryStatus].
Definition security_effects : list handler := [fetchPasskeys; fetchServerStatus; fetchSessions; fetchAuthEvents].

(** ** The general tab *)

Definition settings_of (s : State) (days : Z) : UpdateSettingsRequest :=
  mkUpdateSettingsRequest (trim (gotifyUrl s)) (trim (gotifyToken s)) days.

Definition handleSave : handler :=
  s <- gets fst ;;
  setState (setError None) ;;;
  setState (setSuccess None) ;;;
  setState (setTestResult None) ;;;
  setState (setIsSaving true) ;;;
  try
    (try
      (rpc (Resp := Resp) (UpdateSettings (settings_of s (auditRetentionDays s))) ;;;
       setState (setSuccess (Some "Settings saved successfully."%string)) ;;;
       toast Toast.success "Settings saved successfully." None)
     catch (fun err =>
       setState (setError (Some (errText err))) ;;;
       toast Toast.error ("Failed to save settings: " +:+ errText err) None))
  finally (setState (setIsSaving false)).

Definition handleRetentionChange (days : Z) : handler :=
  s <- gets fst ;;
  setState (setAuditRetentionDays days) ;;;
  setState (setIsSaving true) ;;;
  setState (setError None) ;;;
  setState (setSuccess None) ;;;
  try
    (try
      (rpc (Resp := Resp) (UpdateSettings (settings_of s days)) ;;;
       toast Toast.success "Audit log retention updated." None)
     catch (fun err =>
       setState (setAuditRetentionDays (auditRetentionDays s)) ;;;
       setState (setError (Some (errText err))) ;;;
       toast Toast.error ("Failed to update audit log retention: " +:+ errText err) None))
  finally (setState (setIsSaving false)).

Definition handleTestConnection : handler :=
  s <- gets fst ;;
  setState (setError None) ;;;
  setState (setSuccess None) ;;;
  setState (setTestResult None) ;;;
  setState (setIsTesting true) ;;;
  toast Toast.info "Testing connection to Gotify server..." None ;;;
  try
    (try
      (resp <- rpc (Resp := Resp)
         (TestGotifyNotification (mkTestGotifyNotificationRequest (trim (gotifyUrl s)) (trim (gotifyToken s)))) ;;
       if TestGotifyNotificationResponse_success resp then
         let msg := "Connection test succeeded! A test notification was sent."%string in
         setState (setTestResult (Some (true, msg))) ;;; toast Toast.success msg None
       else
         let msg := str_or (TestGotifyNotificationResponse_errorMessage resp) "Connection test failed." in
         setState (setTestResult (Some (false, msg))) ;;; toast Toast.error msg None)
     catch (fun err =>
       setState (setTestResult (Some (false, errText err))) ;;;
       toast Toast.error ("Connection test failed: " +:+ errText err) None))
  finally (setState (setIsTesting false)).

(** ** The security tab *)

(** [try { body; fetchAuthEvents(); } catch (err) { fail } finally { fin }]:
    the events are fetched without being awaited, so [fin] (the finally block and
    what the caller awaiting the handler does next) runs before their answer. *)
Definition then_events (body : handler) (fail : thrown -> handler) (fin : handler) : handler :=
  ok <- (try (body ;;; Ret true) catch (fun err => fail err ;;; Ret false)) ;;
  if (ok : bool) then call fetchAuthEvents fin else fin.

Definition failure_toast (what : string) (err : thrown) : handler :=
  toast Toast.error (what +:+ ": " +:+ errText err) None.

(** [after] is what the caller does once the promise of the handler resolves. *)
Definition handleRevokeSession (sessionId : string) (after : handler) : handler :=
  s <- gets fst ;;
  let previousSessions := items (sessions s) in
  setState (onSessions (fun l => setItems (filter (fun x => Session_sessionId x <> sessionId) (items l)) l)) ;;;
  setState (setRevokingSessionId (Some sessionId)) ;;;
  then_events
    (rpc (Resp := Resp) (RevokeSession (mkRevokeSessionRequest sessionId)) ;;;
     toast Toast.success "Session revoked successfully." None)
    (fun err =>
       setState (onSessions (setItems previousSessions)) ;;;
       failure_toast "Failed to revoke session" err)
    (setState (setRevokingSessionId None) ;;; after).

Definition handleRevokeAllOtherSessions (after : handler) : handler :=
  setState (setIsRevokingOther true) ;;;
  then_events
    (resp <- rpc (Resp := Resp) RevokeAllOtherSessions ;;
     toast Toast.success
       ("Revoked " +:+ num (RevokeAllOtherSessionsResponse_revokedCount resp) +:+ " other session(s).") None ;;;
     fetchSessions)
    (failure_toast "Failed to revoke other sessions")
    (setState (setIsRevokingOther false) ;;; after).

Definition handleDeletePasskey (id : string) (after : handler) : handler :=
  setState (setDeletingPasskeyId (Some id)) ;;;
  then_events
    (rpc (Resp := Resp) (DeletePasskey (mkDeletePasskeyRequest id)) ;;;
     setState (onPasskeys (fun l => setItems (filter (fun x => Passkey_id x <> id) (items l)) l)) ;;;
     toast Toast.success "Passkey removed successfully." None)
    (failure_toast "Failed to delete passkey")
    (setState (setDeletingPasskeyId None) ;;; after).

(** [syntaxError s] is the message of the error [JSON.parse(s)] throws. *)
Definition handleAddPasskey (syntaxError : string -> string) : handler :=
  s <- gets fst ;;
  setState (setIsAddingPasskey true) ;;;
  setState (onPasskeys (setSlotError None)) ;;;
  then_events
    (let name := trim (newPasskeyName s) in
     beginResp <- rpc (Resp := Resp) (BeginPasskeyRegistration (mkBeginPasskeyRegistrationRequest name)) ;;
     options <- match parse (BeginPasskeyRegistrationResponse_optionsJson beginResp) with
                | Some options => Ret options
                | None => throw (JsError (syntaxError (BeginPasskeyRegistrationResponse_optionsJson beginResp)))
                end ;;
     credential <- rpc (Resp := Resp) (WebauthnCreate options) ;;
     finishResp <- rpc (Resp := Resp)
       (FinishPasskeyRegistration (mkFinishPasskeyRegistrationRequest name (stringify credential))) ;;
     match FinishPasskeyRegistrationResponse_passkey finishResp with
     | Some passkey => setState (onPasskeys (fun l => setItems (passkey :: items l) l))
     | None => Ret tt
     end ;;;
     setState (setShowAddPasskey false) ;;;
     setState (setNewPasskeyName "") ;;;
     toast Toast.success "Passkey registered successfully." None)
    (fun err =>
       setState (onPasskeys (setSlotError (Some (errText err)))) ;;;
       failure_toast "Passkey registration failed" err)
    (setState (setIsAddingPasskey false)).

Definition handleRenamePasskey (id : string) : handler :=
  s <- gets fst ;;
  if negb (truthy (trim (editingPasskeyName s))) then Ret tt
  else
    try
      (resp <- rpc (Resp := Resp) (RenamePasskey (mkRenamePasskeyRequest id (trim (editingPasskeyName s)))) ;;
       match RenamePasskeyResponse_passkey resp with
       | Some passkey =>
           setState (onPasskeys (fun l =>
             setItems ((fun p => if String.eqb (Passkey_id p) id then passkey else p) <$> items l) l))
       | None => Ret tt
       end ;;;
       setState (setEditingPasskeyId None) ;;;
       setState (setEditingPasskeyName "") ;;;
       toast Toast.success "Passkey renamed successfully." None)
    catch (failure_toast "Failed to rename passkey").

(** The dialog closes once the outcome of the confirmed action settles. *)
Definition confirmDestructive : handler :=
  s <- gets fst ;;
  let close := setState (setPendingDestructive None) in
  match pendingDestructive s with
  | None => Ret tt
  | Some (PendingPasskey passkey) => handleDeletePasskey (Passkey_id passkey) close
  | Some (PendingSession session) => handleRevokeSession (Session_sessionId session) close
  | Some PendingAllSessions => handleRevokeAllOtherSessions close
  end.

Definition destructiveBusy (s : State) : bool :=
  match pendingDestructive s with
  | Some (PendingPasskey p) => bool_decide (deletingPasskeyId s = Some (Passkey_id p))
  | Some (PendingSession x) => bool_decide (revokingSessionId s = Some (Session_sessionId x))
  | Some PendingAllSessions => isRevokingOther s
  | None => false
  end.

(** Title, message and verb of the confirmation. *)
Record DialogCopy := mkDialogCopy { copy_title : string; copy_message : string; copy_confirmLabel : string }.

Definition destructiveDialogCopy (pending : PendingDestructive) : DialogCopy :=
  match pending with
  | PendingPasskey p =>
      mkDialogCopy "Delete passkey?"
        ("Passkey " +:+ quoted (Passkey_name p) +:+
         " will be removed from your account. If it is your only remaining credential, you will be locked out.")
        "Delete"
  | PendingSession x =>
      mkDialogCopy "Revoke session?"
        ("The session on " +:+ Session_deviceLabel x +:+
         " will be signed out. It can sign in again with your credentials.")
        "Revoke"
  | PendingAllSessions =>
      mkDialogCopy "Revoke other sessions?"
        "All sessions except this one will be signed out. You stay signed in on this device."
        "Revoke all"
  end.

(** ** Events *)

Inductive list_name := Registries | Passkeys | Sessions | Events.

(** What happens on the page; rows are named by their place in the list shown. *)
Inductive event :=
| MountEffect (i : nat) | SecurityEffect (i : nat)
| RouteChanged (tab : option string) | TabClicked (tab : SettingsTab)
| UrlTyped (v : string) | TokenTyped (v : string)
| SaveSubmitted | TestClicked | RetentionSelected (days : Z)
| RefreshClicked (l : list_name)
| AddClicked | AddDismissed | AddCancelled | NewNameTyped (v : string) | AddSubmitted
| RenameClicked (row : nat) | RenameTyped (v : string) | RenameCancelled | RenameSaved (row : nat)
| DeleteClicked (row : nat) | RevokeClicked (row : nat) | RevokeAllClicked
| DialogClosed | DialogConfirmed.

(** [disabled] of the controls of the two forms *)
Definition settings_locked (s : State) : bool := isSaving s || isTesting s.

Definition list_loading (l : list_name) (s : State) : bool :=
  match l with
  | Registries => isLoading (registries s) | Passkeys => isLoading (passkeys s)
  | Sessions => isLoading (sessions s) | Events => isLoading (authEvents s)
  end.

Definition revoke_all_offered (s : State) : bool := 1 <? length (items (sessions s)).
Definition revoke_all_disabled (s : State) : bool := isRevokingOther s || isLoading (sessions s).

(** The row of a passkey shows the editor in place of its name. *)
Definition editing (s : State) (pk : Passkey) : bool := bool_decide (editingPasskeyId s = Some (Passkey_id pk)).

(** ** What the page shows *)

(** A list card: its notice while loading, its notice when empty, or its rows. *)
Inductive ListView (A : Type) := LoadingNotice (text : string) | EmptyNotice (text : string) | Rows (rows : list A).
#[global] Arguments LoadingNotice {A} text.
#[global] Arguments EmptyNotice {A} text.
#[global] Arguments Rows {A} rows.

Definition list_view {A B} (loadingText emptyText : string) (row : A -> B) (l : Slot A) : ListView B :=
  if isLoading l && (length (items l) =? 0) then LoadingNotice loadingText
  else if length (items l) =? 0 then EmptyNotice emptyText
  else Rows (row <$> items l).

(** A button: whether it is disabled, and whether it spins. *)
Record Button := mkButton { disabled : bool; spinning : bool }.

Record GeneralForm := mkGeneralForm {
  gf_error : option string; gf_success : option string; gf_testResult : option (bool * string);
  gf_url : string; gf_token : string; gf_inputs_disabled : bool; gf_save : Button; gf_test : Button
}.

(** [{error && ...}]: an empty text shows nothing. *)
Definition banner (m : option string) : option string :=
  match m with Some v => if truthy v then Some v else None | None => None end.

Definition general_form (s : State) : GeneralForm :=
  mkGeneralForm (banner (error s)) (banner (success s)) (testResult s) (gotifyUrl s) (gotifyToken s)
    (settings_locked s) (mkButton (settings_locked s) (isSaving s)) (mkButton (settings_locked s) (isTesting s)).

Record RetentionSelect := mkRetentionSelect {
  rs_value : Z; rs_options : list (Z * string); rs_disabled : bool
}.

Definition retention_select (s : State) : RetentionSelect :=
  mkRetentionSelect (auditRetentionDays s) AUDIT_RETENTION_PRESETS (loading s || settings_locked s).

Record RegistryRow := mkRegistryRow { rr_host : string; rr_badge : string; rr_username : string; rr_detail : string }.

Definition registry_row (reg : RegistryStatus) : RegistryRow :=
  mkRegistryRow (RegistryStatus_host reg)
    (if RegistryStatus_isHealthy reg then "Healthy" else "Unhealthy")
    (str_or (RegistryStatus_username reg) "(anonymous)")
    (if negb (RegistryStatus_isConfigured reg) then "Incomplete configuration credentials"
     else if RegistryStatus_isHealthy reg then "Connected & Authorized"
     else "Error: " +:+ RegistryStatus_errorMessage reg).

Definition registries_view (s : State) : ListView RegistryRow :=
  list_view "Checking registry status..."
    "No private registries configured. Define them in your server config.yaml."
    registry_row (registries s).

Inductive PasskeyIcon := KeyIcon | FingerprintIcon.

Definition renderPasskeyIcon (friendlyName : string) : PasskeyIcon :=
  let f := toLowerCase friendlyName in
  if includes "yubikey" f || includes "security key" f then KeyIcon else FingerprintIcon.

Inductive DeviceIcon := SmartphoneIcon | LaptopIcon | GlobeIcon.

Definition renderDeviceIcon (label : string) : DeviceIcon :=
  let l := toLowerCase label in
  if includes "ios" l || includes "android" l || includes "mobile" l then SmartphoneIcon
  else if includes "windows" l || includes "mac" l || includes "linux" l then LaptopIcon
  else GlobeIcon.

(** The class after [auth-event-badge-], and the text. *)
Definition renderEventBadge (eventType : string) : string * string :=
  if String.eqb eventType "login_success" then ("success", "Login Success")
  else if String.eqb eventType "login_failed" then ("error", "Login Failed")
  else if String.eqb eventType "rate_limited" then ("warning", "Rate Limited")
  else if String.eqb eventType "logout" then ("info", "Logout")
  else if String.eqb eventType "session_revoked" then ("warning", "Session Revoked")
  else if String.eqb eventType "setup_admin" then ("info", "Setup Admin")
  else ("info", eventType)%string.

(** The relying party line. *)
Definition relying_party (s : State) : option string :=
  match serverInfo s with
  | Some rp =>
      if truthy (rp_rpId rp) then
        Some ("Relying Party: " +:+ rp_rpId rp +:+ " · Origins: " +:+ str_or (join ", " (rp_origins rp)) "none")
      else None
  | None => None
  end.

(** The button that asks to delete a passkey, and the one that asks to revoke a session,
    which the session the page runs in does not have. *)
Definition delete_button (s : State) (pk : Passkey) : Button :=
  let deleting := bool_decide (deletingPasskeyId s = Some (Passkey_id pk)) in mkButton deleting deleting.

Definition revoke_button (s : State) (x : Session) : option Button :=
  let revoking := bool_decide (revokingSessionId s = Some (Session_sessionId x)) in
  if negb (Session_isCurrent x) then Some (mkButton revoking revoking) else None.

Definition revoke_all_button (s : State) : option Button :=
  if revoke_all_offered s then Some (mkButton (revoke_all_disabled s) (isRevokingOther s)) else None.

Section Rows.
(** Local dates and times are the browser's, of milliseconds. *)
Context (toLocaleDateString toLocaleString : Z -> string).

Definition local_date (fallback : string) (f : Z -> string) (ts : option Timestamp) : string :=
  match ts with Some v => f (seconds v * 1000)%Z | None => fallback end.

Record PasskeyRow := mkPasskeyRow {
  pr_icon : PasskeyIcon; pr_name : string + string; pr_badge : string; pr_cloneWarning : bool;
  pr_detail : list string; pr_delete : Button
}.

(** [pr_name] is the name ([inl]) or the editor with its text ([inr]). *)
Definition passkey_row (s : State) (pk : Passkey) : PasskeyRow :=
  mkPasskeyRow (renderPasskeyIcon (Passkey_friendlyDeviceName pk))
    (if editing s pk then inr (editingPasskeyName s)
     else inl (Passkey_name pk))
    (if Passkey_backupEligible pk then "Synced Passkey" else "Hardware Key")
    (Passkey_cloneWarning pk)
    ["Model: " +:+ Passkey_friendlyDeviceName pk;
     "Added: " +:+ local_date "Unknown" toLocaleDateString (Passkey_createdAt pk);
     "Last used: " +:+ local_date "Never" toLocaleString (Passkey_lastUsedAt pk)]
    (delete_button s pk).

Definition passkeys_view (s : State) : ListView PasskeyRow :=
  list_view "Loading passkeys..." "No passkeys registered yet." (passkey_row s) (passkeys s).

Record SessionRow := mkSessionRow {
  sr_icon : DeviceIcon; sr_label : string; sr_current : bool; sr_lastSeen : string; sr_revoke : option Button
}.

Definition session_row (s : State) (x : Session) : SessionRow :=
  mkSessionRow (renderDeviceIcon (Session_deviceLabel x)) (Session_deviceLabel x) (Session_isCurrent x)
    ("Last seen: " +:+ local_date "Unknown" toLocaleString (Session_lastSeenAt x))
    (revoke_button s x).

Definition sessions_view (s : State) : ListView SessionRow :=
  list_view "Loading sessions..." "No active sessions found." (session_row s) (sessions s).

Record EventRow := mkEventRow {
  er_badge : string * string; er_username : string; er_detail : option string; er_date : string
}.

Definition event_row (evt : AuthEvent) : EventRow :=
  mkEventRow (renderEventBadge (AuthEvent_eventType evt)) (str_or (AuthEvent_username evt) "anonymous")
    (banner (Some (AuthEvent_detail evt)))
    (local_date "Unknown" toLocaleString (AuthEvent_createdAt evt)).

Definition events_view (s : State) : ListView EventRow :=
  list_view "Loading audit log..." "No authentication events recorded yet." event_row (authEvents s).
End Rows.

#[global] Instance list_name_eq_dec : EqDecision list_name.
Proof. solve_decision. Defined.
#[global] Instance event_eq_dec : EqDecision event.
Proof. solve_decision. Defined.

(** ** Controls *)

(** A control and the event it fires; [off] is its [disabled].  The [maxLength] of
    the two name fields bounds what typing adds, not what a field holds, and is left
    out. *)
Inductive Widget :=
| LinkTo (tab : Layout.PageTabItem) (click : event)
| PushButton (label : string) (click : event) (off spins : bool)
| TextField (value placeholder : string) (change : string -> event) (off : bool)
| Select (value : Z) (options : list (Z * string)) (change : Z -> event) (off : bool).

(** What was typed or selected. *)
Definition typed (e : event) : option string :=
  match e with UrlTyped v | TokenTyped v | NewNameTyped v | RenameTyped v => Some v | _ => None end.
Definition selected (e : event) : option Z := match e with RetentionSelected days => Some days | _ => None end.

(** The user can fire the event with the control. *)
Definition offers (e : event) (w : Widget) : bool :=
  match w with
  | LinkTo _ click => bool_decide (e = click)
  | PushButton _ click off _ => bool_decide (e = click) && negb off
  | TextField _ _ change off =>
      match typed e with Some v => bool_decide (e = change v) && negb off | None => false end
  | Select _ options change off =>
      match selected e with
      | Some v => bool_decide (v ∈ options.*1) && bool_decide (e = change v) && negb off
      | None => false
      end
  end.

(** ** Cards *)

Inductive Item :=
| Banner (good : bool) (text : string)
| Field (label : string) (w : Widget) (hint : option string)
| Caption (text : string) (close : list Widget)
| Buttons (ws : list Widget).

(** The list of a card, with the controls of each of its rows; what the rows show besides
    is [registries_view], [passkeys_view], [sessions_view] and [events_view]. *)
Inductive Body :=
| NoBody
| RegistryRows
| PasskeyRows (controls : list (list Widget))
| SessionRows (controls : list (list Widget))
| EventRows.

Record Card := mkCard {
  heading : string; subtitle : list string; actions : list Widget; content : list Item; body : Body
}.

(** [{message && <div className="auth-error-banner">}] *)
Definition message_banner (good : bool) (m : option string) : list Item :=
  match banner m with Some text => [Banner good text] | None => [] end.

Definition notifications_card (s : State) : Card :=
  let f := general_form s in
  mkCard "Notification Configurations"
    ["Configure integrations to receive real-time notifications about image updates and docker container re-deployments."%string]
    []
    (message_banner false (gf_error f) ++ message_banner true (gf_success f) ++
     [Field "Gotify Server URL"
        (TextField (gf_url f) "e.g. https://gotify.example.com" UrlTyped (gf_inputs_disabled f))
        (Some "The base URL of your running Gotify server instance.");
      Field "Application Token"
        (TextField (gf_token f) "Enter Gotify application token" TokenTyped (gf_inputs_disabled f))
        (Some "The secret application token generated inside your Gotify server panel.")]%string ++
     match gf_testResult f with Some (good, text) => [Banner good text] | None => [] end ++
     [Buttons [PushButton "Save Settings" SaveSubmitted (disabled (gf_save f)) (spinning (gf_save f));
               PushButton "Test Connection" TestClicked (disabled (gf_test f)) (spinning (gf_test f))]]%string)
    NoBody.

Definition retention_card (s : State) : Card :=
  let r := retention_select s in
  mkCard "Audit Logs"
    ["How long the mutation and system-action history is kept in the local database. Entries older than the window are deleted when the next entry is recorded."%string]
    []
    [Field "Audit Log Retention" (Select (rs_value r) (rs_options r) RetentionSelected (rs_disabled r))
       (Some "Applied immediately. Presets: 7 days, 1 month, 3 months, 6 months, 1 year.")]%string
    NoBody.

(** The refresh button of a list, disabled and spinning while it loads. *)
Definition refresh_button (label : string) (l : list_name) (s : State) : Widget :=
  PushButton label (RefreshClicked l) (list_loading l s) (list_loading l s).

Definition registries_card (s : State) : Card :=
  mkCard "Private Registries Status" ["Status of configured private Docker registries from configuration."%string]
    [refresh_button "Refresh Status" Registries s]
    (message_banner false (slotError (registries s)))
    RegistryRows.

(** The form that registers a passkey. *)
Definition add_form (s : State) : list Item :=
  if showAddPasskey s then
    [Caption "Register a New Passkey" [PushButton "" AddDismissed false false];
     Field "Passkey Name / Label (optional)"
       (TextField (newPasskeyName s) "e.g. Work MacBook, YubiKey 5C, iPhone" NewNameTyped (isAddingPasskey s)) None;
     Buttons [PushButton "Cancel" AddCancelled (isAddingPasskey s) false;
              PushButton (if isAddingPasskey s then "Prompting Authenticator..." else "Prompt Device Authenticator")
                AddSubmitted (isAddingPasskey s) (isAddingPasskey s)]]%string
  else [].

(** The controls of a passkey's row: the editor of its name or the pencil, and the
    delete button. *)
Definition passkey_controls (s : State) (row : nat) (pk : Passkey) : list Widget :=
  (if editing s pk then
     [TextField (editingPasskeyName s) "" RenameTyped false;
      PushButton "Save name" (RenameSaved row) false false; PushButton "Cancel rename" RenameCancelled false false]
   else [PushButton "Rename passkey" (RenameClicked row) false false]) ++
  [PushButton "Delete" (DeleteClicked row) (disabled (delete_button s pk)) (spinning (delete_button s pk))].

Definition session_controls (s : State) (row : nat) (x : Session) : list Widget :=
  match revoke_button s x with
  | Some b => [PushButton "Revoke" (RevokeClicked row) (disabled b) (spinning b)]
  | None => []
  end.

Definition passkeys_card (s : State) : Card :=
  mkCard "Passkeys & Security Keys"
    ("Sign in without passwords using platform authenticators (Touch ID, Windows Hello, Face ID) or hardware security keys (YubiKey)."%string ::
     option_list (relying_party s))
    [refresh_button "Refresh passkeys" Passkeys s; PushButton "Add Passkey" AddClicked (isAddingPasskey s) false]
    (message_banner false (slotError (passkeys s)) ++ add_form s)
    (PasskeyRows (imap (passkey_controls s) (items (passkeys s)))).

Definition sessions_card (s : State) : Card :=
  mkCard "Active Sessions" ["Active login sessions authorized to access this dmanager instance."%string]
    (refresh_button "Refresh sessions" Sessions s ::
     match revoke_all_button s with
     | Some b => [PushButton "Revoke All Others" RevokeAllClicked (disabled b) (spinning b)]
     | None => []
     end)
    (message_banner false (slotError (sessions s)))
    (SessionRows (imap (session_controls s) (items (sessions s)))).

Definition events_card (s : State) : Card :=
  mkCard "Recent Authentication Events"
    ["Audit log of recent logins, logouts, session revocations, and security events."%string]
    [refresh_button "Refresh audit events" Events s]
    (message_banner false (slotError (authEvents s)))
    EventRows.

(** ** The page *)

Definition settingsTabs (s : State) : list Widget :=
  [LinkTo (Layout.mkPageTabItem (Router.settingsTabRoute "general") "General" (bool_decide (localTab s = general)))
     (TabClicked general);
   LinkTo (Layout.mkPageTabItem (Router.settingsTabRoute "security") "Security & Sessions"
             (bool_decide (localTab s = security))) (TabClicked security)].

(** The confirmation: its texts and its two buttons. *)
Definition destructive_dialog (s : State) : option (DialogCopy * list Widget) :=
  match pendingDestructive s with
  | Some p =>
      let copy := destructiveDialogCopy p in
      Some (copy, [PushButton "Cancel" DialogClosed (destructiveBusy s) false;
                   PushButton (copy_confirmLabel copy) DialogConfirmed (destructiveBusy s) (destructiveBusy s)])
  | None => None
  end.

Inductive View :=
| LoadingSettings (text : string)
| Page (title : string) (tabs : list Widget) (cards : list Card) (dialog : option (DialogCopy * list Widget)).

Definition Settings_page (s : State) : View :=
  if loading s then LoadingSettings "Loading settings..."
  else Page "Settings" (settingsTabs s)
    match localTab s with
    | general => [notifications_card s; retention_card s; registries_card s]
    | security => [passkeys_card s; sessions_card s; events_card s]
    end
    (destructive_dialog s).
Definition item_controls (i : Item) : list Widget :=
  match i with Banner _ _ => [] | Field _ w _ => [w] | Caption _ ws | Buttons ws => ws end.

Definition body_controls (b : Body) : list Widget :=
  match b with
  | PasskeyRows ws | SessionRows ws => concat ws
  | _ => []
  end.

Definition card_controls (c : Card) : list Widget :=
  actions c ++ (content c ≫= item_controls) ++ body_controls (body c).

Definition controls (v : View) : list Widget :=
  match v with
  | LoadingSettings _ => []
  | Page _ tabs cards dialog => tabs ++ (cards ≫= card_controls) ++ default [] (snd <$> dialog)
  end.

(** The user can fire the event on the page. *)
Definition offered (v : View) (e : event) : bool := existsb (offers e) (controls v).

(** ** What the controls do *)

(** [f] of the row a click was made on, when there is one. *)
Definition on_row {A} (f : A -> handler) (row : option A) : handler :=
  match row with Some x => f x | None => Ret tt end.

Definition handle (syntaxError : string -> string) (e : event) : handler :=
  match e with
  | MountEffect i => default (Ret tt) (mount_effects !! i)
  | SecurityEffect i => default (Ret tt) (security_effects !! i)
  | RouteChanged tab => setState (follow_route tab)
  | TabClicked tab => setState (setLocalTab tab)
  | UrlTyped v => setState (setGotifyUrl v)
  | TokenTyped v => setState (setGotifyToken v)
  | SaveSubmitted => handleSave
  | TestClicked => handleTestConnection
  | RetentionSelected days => handleRetentionChange days
  | RefreshClicked Registries => fetchRegistryStatus
  | RefreshClicked Passkeys => fetchPasskeys
  | RefreshClicked Sessions => fetchSessions
  | RefreshClicked Events => fetchAuthEvents
  | AddClicked => setState (setShowAddPasskey true)
  | AddDismissed => setState (setShowAddPasskey false) ;;; setState (setNewPasskeyName "")
  | AddCancelled => setState (setShowAddPasskey false)
  | NewNameTyped v => setState (setNewPasskeyName v)
  | AddSubmitted => handleAddPasskey syntaxError
  | RenameClicked row =>
      s <- gets fst ;;
      on_row (fun pk => setState (setEditingPasskeyId (Some (Passkey_id pk))) ;;;
                        setState (setEditingPasskeyName (Passkey_name pk)))
        (items (passkeys s) !! row)
  | RenameTyped v => setState (setEditingPasskeyName v)
  | RenameCancelled => setState (setEditingPasskeyId None)
  | RenameSaved row =>
      s <- gets fst ;;
      on_row (fun pk => handleRenamePasskey (Passkey_id pk)) (items (passkeys s) !! row)
  | DeleteClicked row =>
      s <- gets fst ;;
      on_row (fun pk => setState (setPendingDestructive (Some (PendingPasskey pk)))) (items (passkeys s) !! row)
  | RevokeClicked row =>
      s <- gets fst ;;
      on_row (fun x => setState (setPendingDestructive (Some (PendingSession x)))) (items (sessions s) !! row)
  | RevokeAllClicked => setState (setPendingDestructive (Some PendingAllSessions))
  | DialogClosed => setState (setPendingDestructive None)
  | DialogConfirmed => confirmDestructive
  end.

(** What a user does: neither an effect nor a change of the route. *)
Definition user (e : event) : bool :=
  match e with MountEffect _ | SecurityEffect _ | RouteChanged _ => false | _ => true end.

(** The user can do what the page, as it is rendered, has a control for that is not
    disabled. *)
Definition enabled (e : event) (s : State) : bool :=
  if user e then offered (Settings_page s) e else true.

(** An event runs its handler. *)
Definition on_event (syntaxError : string -> string) (e : event) : handler :=
  s <- gets fst ;;
  if enabled e s then handle syntaxError e else Ret tt.

(** ** What can be operated *)

Lemma existsb_bind {A B} (p : B -> bool) (g : A -> list B) (l : list A) :
  existsb p (l ≫= g) = existsb (fun x => existsb p (g x)) l.
Proof. induction l as [|x l IH]; [done|]. cbn. by rewrite existsb_app, IH. Qed.

(** The controls of rows: an event of one row, and one any row may have. *)
Lemma rows_at {A} (f : nat -> A -> list Widget) (l : list A) (e : event) (row : nat) :
  (forall j x, j <> row -> existsb (offers e) (f j x) = false) ->
  existsb (offers e) (concat (imap f l)) =
  match l !! row with Some x => existsb (offers e) (f row x) | None => false end.
Proof.
  revert f row. induction l as [|x l IH]; intros f row Hf; [done|]. cbn. rewrite existsb_app.
  destruct row as [|row]; cbn.
  - destruct (existsb (offers e) (f 0 x)); [done|]. cbn.
    assert (forall j y, existsb (offers e) ((f ∘ S) j y) = false) as Hn by (intros j y; by apply (Hf (S j))).
    clear -Hn. revert Hn. generalize (f ∘ S). clear f. induction l as [|y l IH]; intros f Hn; [done|]. cbn.
    rewrite existsb_app, Hn. cbn. apply IH. intros j z. apply (Hn (S j)).
  - rewrite (Hf 0) by done. cbn. apply (IH (f ∘ S)). intros j y Hj. apply (Hf (S j)). congruence.
Qed.

Lemma rows_any {A} (f : nat -> A -> list Widget) (l : list A) (e : event) (c : A -> bool) :
  (forall j x, existsb (offers e) (f j x) = c x) -> existsb (offers e) (concat (imap f l)) = existsb c l.
Proof.
  revert f. induction l as [|x l IH]; intros f Hf; [done|]. cbn. rewrite existsb_app, Hf. f_equal.
  apply (IH (f ∘ S)). intros j y. apply (Hf (S j)).
Qed.

Lemma rows_none {A} (f : nat -> A -> list Widget) (l : list A) (e : event) :
  (forall j x, existsb (offers e) (f j x) = false) -> existsb (offers e) (concat (imap f l)) = false.
Proof. intros Hf. rewrite (rows_any f l e (fun _ => false)) by done. clear. by induction l. Qed.

Ltac offering :=
  cbn [existsb app offers typed selected andb orb negb];
  repeat (case_bool_decide; simplify_eq; cbn [andb orb negb]); try done.

(** The control of an event of a row, or of the dialog, is there and not disabled. *)
Definition lands (e : event) (s : State) : bool :=
  match e with
  | RenameSaved row => match items (passkeys s) !! row with Some pk => editing s pk | None => false end
  | DeleteClicked row =>
      match items (passkeys s) !! row with
      | Some pk => negb (bool_decide (deletingPasskeyId s = Some (Passkey_id pk)))
      | None => false
      end
  | RevokeClicked row =>
      match items (sessions s) !! row with
      | Some x => negb (Session_isCurrent x) && negb (bool_decide (revokingSessionId s = Some (Session_sessionId x)))
      | None => false
      end
  | DialogClosed | DialogConfirmed => match pendingDestructive s with Some _ => true | None => false end
  | _ => true
  end.

Lemma message_controls (e : event) (good : bool) (m : option string) :
  existsb (fun x => existsb (offers e) (item_controls x)) (message_banner good m) = false.
Proof. unfold message_banner. by destruct (banner m). Qed.

Lemma passkey_rows (e : event) (s : State) :
  existsb (offers e) (concat (imap (passkey_controls s) (items (passkeys s)))) =
  match e with
  | RenameTyped _ | RenameCancelled => existsb (editing s) (items (passkeys s))
  | RenameClicked row => match items (passkeys s) !! row with Some pk => negb (editing s pk) | None => false end
  | RenameSaved _ | DeleteClicked _ => lands e s
  | _ => false
  end.
Proof.
  unfold passkey_controls, delete_button. cbn [disabled spinning]. destruct e.
  all: try (apply rows_none; intros j x; destruct (editing s x); offering; fail).
  all: try (apply rows_any; intros j x; destruct (editing s x); offering; fail).
  all: rewrite (rows_at _ _ _ row); [|intros j x Hj; destruct (editing s x); offering];
    cbn [lands]; destruct (items (passkeys s) !! row) as [x|]; [|done]; destruct (editing s x); offering.
Qed.

Lemma session_rows (e : event) (s : State) :
  existsb (offers e) (concat (imap (session_controls s) (items (sessions s)))) =
  match e with RevokeClicked _ => lands e s | _ => false end.
Proof.
  unfold session_controls, revoke_button. destruct e.
  all: try (apply rows_none; intros j x; destruct (Session_isCurrent x); offering; fail).
  rewrite (rows_at _ _ _ row); [|intros j x Hj; destruct (Session_isCurrent x); offering].
  cbn [lands]. destruct (items (sessions s) !! row) as [x|]; [|done]. destruct (Session_isCurrent x); offering.
Qed.

(** The controls of each part of the page. *)
Lemma tab_controls (e : event) (s : State) :
  existsb (offers e) (settingsTabs s) = match e with TabClicked _ => true | _ => false end.
Proof. unfold settingsTabs. destruct e; offering. by destruct tab. Qed.

Lemma dialog_controls (e : event) (s : State) :
  existsb (offers e) (default [] (snd <$> destructive_dialog s)) =
  match e with DialogClosed | DialogConfirmed => negb (destructiveBusy s) && lands e s | _ => false end.
Proof.
  unfold destructive_dialog, lands. destruct (pendingDestructive s) as [p|].
  - destruct e; cbn [fmap option_fmap option_map default snd]; offering; by destruct (destructiveBusy s).
  - destruct e; try done; cbn; by rewrite andb_false_r.
Qed.

Lemma notification_controls (e : event) (s : State) :
  existsb (offers e) (card_controls (notifications_card s)) =
  match e with UrlTyped _ | TokenTyped _ | SaveSubmitted | TestClicked => negb (settings_locked s) | _ => false end.
Proof.
  unfold card_controls, notifications_card, general_form.
  cbn [actions content body app body_controls gf_error gf_success gf_testResult].
  rewrite app_nil_r, existsb_bind, !existsb_app, !message_controls. cbn [orb].
  destruct (testResult s) as [[good text]|]; destruct e; cbn -[bool_decide settings_locked]; offering;
    by destruct (settings_locked s).
Qed.

Lemma retention_controls (e : event) (s : State) :
  existsb (offers e) (card_controls (retention_card s)) =
  match e with
  | RetentionSelected days =>
      bool_decide (days ∈ AUDIT_RETENTION_PRESETS.*1) && negb (loading s || settings_locked s)
  | _ => false
  end.
Proof.
  unfold card_controls, retention_card, retention_select. destruct e; cbn -[bool_decide AUDIT_RETENTION_PRESETS settings_locked]; try done.
  rewrite (bool_decide_eq_true_2 (RetentionSelected days = _)) by done. by rewrite !orb_false_r, andb_true_r.
Qed.

Lemma list_controls (e : event) (l : list_name) (label : string) (s : State) :
  offers e (refresh_button label l s) =
  match e with RefreshClicked l' => bool_decide (l' = l) && negb (list_loading l s) | _ => false end.
Proof. unfold refresh_button. destruct e; offering. Qed.

Lemma registry_controls (e : event) (s : State) :
  existsb (offers e) (card_controls (registries_card s)) = offers e (refresh_button "Refresh Status" Registries s).
Proof.
  unfold card_controls, registries_card. cbn [actions content body app body_controls].
  rewrite app_nil_r. cbn [existsb]. rewrite existsb_bind, message_controls. apply orb_false_r.
Qed.

Lemma event_controls (e : event) (s : State) :
  existsb (offers e) (card_controls (events_card s)) =
  offers e (refresh_button "Refresh audit events" Events s).
Proof.
  unfold card_controls, events_card. cbn [actions content body app body_controls].
  rewrite app_nil_r. cbn [existsb]. rewrite existsb_bind, message_controls. apply orb_false_r.
Qed.

Lemma session_card_controls (e : event) (s : State) :
  existsb (offers e) (card_controls (sessions_card s)) =
  offers e (refresh_button "Refresh sessions" Sessions s) ||
  match e with
  | RevokeAllClicked => revoke_all_offered s && negb (revoke_all_disabled s)
  | RevokeClicked _ => lands e s
  | _ => false
  end.
Proof.
  unfold card_controls, sessions_card, revoke_all_button. cbn [actions content body body_controls].
  rewrite !existsb_app, existsb_bind, message_controls, session_rows. cbn [existsb].
  rewrite <- orb_assoc. f_equal. destruct e, (revoke_all_offered s); cbn [disabled spinning]; offering;
    by destruct (revoke_all_disabled s).
Qed.

Lemma add_controls (e : event) (s : State) :
  existsb (fun x => existsb (offers e) (item_controls x)) (add_form s) =
  match e with
  | AddDismissed => showAddPasskey s
  | AddCancelled | NewNameTyped _ | AddSubmitted => showAddPasskey s && negb (isAddingPasskey s)
  | _ => false
  end.
Proof.
  unfold add_form. destruct (showAddPasskey s); [|by destruct e].
  destruct e; cbn -[bool_decide]; offering; by destruct (isAddingPasskey s).
Qed.

Lemma passkey_card_controls (e : event) (s : State) :
  existsb (offers e) (card_controls (passkeys_card s)) =
  offers e (refresh_button "Refresh passkeys" Passkeys s) ||
  match e with
  | AddClicked => negb (isAddingPasskey s)
  | AddDismissed => showAddPasskey s
  | AddCancelled | NewNameTyped _ | AddSubmitted => showAddPasskey s && negb (isAddingPasskey s)
  | RenameTyped _ | RenameCancelled => existsb (editing s) (items (passkeys s))
  | RenameClicked row => match items (passkeys s) !! row with Some pk => negb (editing s pk) | None => false end
  | RenameSaved _ | DeleteClicked _ => lands e s
  | _ => false
  end.
Proof.
  unfold card_controls, passkeys_card. cbn [actions content body body_controls].
  rewrite !existsb_app, existsb_bind, existsb_app, message_controls, passkey_rows, add_controls. cbn [existsb].
  rewrite <- !orb_assoc. f_equal. destruct e; offering;
    rewrite ?orb_false_r; by destruct (isAddingPasskey s).
Qed.

(** What the user can do, event by event. *)
Lemma enabled_spec (e : event) (s : State) :
  enabled e s = (lands e s &&
  match e with
  | MountEffect _ | SecurityEffect _ | RouteChanged _ => true
  | TabClicked _ => negb (loading s)
  | UrlTyped _ | TokenTyped _ | SaveSubmitted | TestClicked =>
      negb (loading s) && bool_decide (localTab s = general) && negb (settings_locked s)
  | RetentionSelected days =>
      negb (loading s) && bool_decide (localTab s = general) && negb (settings_locked s) &&
      bool_decide (days ∈ AUDIT_RETENTION_PRESETS.*1)
  | RefreshClicked l =>
      negb (loading s) &&
      bool_decide (localTab s = match l with Registries => general | _ => security end) &&
      negb (list_loading l s)
  | DialogClosed | DialogConfirmed => negb (loading s) && negb (destructiveBusy s)
  | _ =>
      negb (loading s) && bool_decide (localTab s = security) &&
      match e with
      | AddClicked => negb (isAddingPasskey s)
      | AddDismissed => showAddPasskey s
      | AddCancelled | NewNameTyped _ | AddSubmitted => showAddPasskey s && negb (isAddingPasskey s)
      | RenameClicked row =>
          match items (passkeys s) !! row with Some pk => negb (editing s pk) | None => false end
      | RenameTyped _ | RenameCancelled => existsb (editing s) (items (passkeys s))
      | RevokeAllClicked => revoke_all_offered s && negb (revoke_all_disabled s)
      | _ => true
      end
  end).
Proof.
  unfold enabled. destruct (user e) eqn:He; [|by destruct e].
  rewrite andb_comm. unfold offered, Settings_page. destruct (loading s) eqn:Hl.
  { destruct e; try discriminate He; done. }
  cbn [controls]. rewrite !existsb_app, existsb_bind, tab_controls, dialog_controls.
  destruct (localTab s) eqn:Ht; cbn [existsb].
  - rewrite notification_controls, retention_controls, registry_controls, list_controls.
    destruct e; try discriminate He; rewrite ?Hl; cbn [lands];
      rewrite ?orb_false_r, ?andb_true_r; try done.
    all: try (destruct l; reflexivity).
    + by rewrite andb_comm.
  - rewrite passkey_card_controls, session_card_controls, event_controls, !list_controls.
    destruct e; try discriminate He; rewrite ?Hl; cbn [lands];
      rewrite ?orb_false_r, ?andb_true_r; try done.
    all: try (destruct l; cbn; by rewrite ?orb_false_r).
Qed.

(** ** One settings request at a time *)


Ltac unfold_handlers :=
  unfold confirmDestructive, handleSave, handleRetentionChange, handleTestConnection, handleDeletePasskey,
    handleRevokeSession, handleRevokeAllOtherSessions, handleAddPasskey, handleRenamePasskey, then_events,
    failure_toast, fetchRegistryStatus, fetchPasskeys, fetchSessions, fetchAuthEvents, fetchServerStatus,
    loadSettings, fetch_into, follow_route, on_row, setState, toast.

(** The effects of the page, one by one. *)
Ltac effects :=
  lazymatch goal with
  | |- context [handle _ (MountEffect ?i)] => destruct i as [|[|i]]; [..|change (handle _ _) with (Ret tt : handler)]
  | |- context [handle _ (SecurityEffect ?i)] =>
      destruct i as [|[|[|[|i]]]]; [..|change (handle _ _) with (Ret tt : handler)]
  | |- context [handle _ (RefreshClicked ?l)] => destruct l
  | _ => idtac
  end.

Section Turns.
Context (syntaxError : string -> string).





Lemma on_event_enabled (e : event) (s : State) (t : ToastState) :
  enabled e s = true -> exec (on_event syntaxError e) (s, t) = exec (handle syntaxError e) (s, t).
Proof. intros He. unfold on_event. cbn. by rewrite He. Qed.

Lemma on_event_disabled (e : event) (s : State) (t : ToastState) :
  enabled e s = false -> exec (on_event syntaxError e) (s, t) = ((s, t), Done tt).
Proof. intros He. unfold on_event. cbn. by rewrite He. Qed.




End Turns.

(** ** Operations of several requests *)



Tactic Notation "begins" simple_intropattern(st) "as" ident(resp) :=
  apply turn_next; [reflexivity|]; let H := fresh in intros [resp|?] st H; cbn in H |- *.








(** A shown page in which a retention window has just been selected. *)
Definition sample_toasts : ToastState := mkToastState [] (fun n => pretty n) 0.


(** ** Destructive actions *)

Definition destructive (r : Req) : bool :=
  match r with RevokeSession _ | RevokeAllOtherSessions | DeletePasskey _ => true | _ => false end.

Definition request_of (p : PendingDestructive) : Req :=
  match p with
  | PendingPasskey passkey => DeletePasskey (mkDeletePasskeyRequest (Passkey_id passkey))
  | PendingSession session => RevokeSession (mkRevokeSessionRequest (Session_sessionId session))
  | PendingAllSessions => RevokeAllOtherSessions
  end.

(** What the dialog may be opened on: never the session the page runs in. *)
Definition target_ok (s : State) : Prop :=
  match pendingDestructive s with Some (PendingSession x) => Session_isCurrent x = false | _ => True end.

(** The row's mark is up when the confirmed request leaves. *)
Lemma confirm_blocks (syntaxError : string -> string) (s : State) (t : ToastState) (p : PendingDestructive) :
  loading s = false -> pendingDestructive s = Some p -> destructiveBusy s = false ->
  exec (on_event syntaxError DialogConfirmed) (s, t) = exec confirmDestructive (s, t).
Proof. intros Hl Hp Hb. apply on_event_enabled. rewrite enabled_spec. cbn. by rewrite Hl, Hb, Hp. Qed.

Ltac no_destructive_request :=
  match goal with |- asks _ _ ?m ?s =>
    apply (steady_asks (fun _ => true) destructive m s) end;
  unfold_handlers; steady.

(** C15: A passkey is deleted or a session revoked only by confirming the dialog: no
    other event leads to such a request in any of its steps; while a confirmed
    action is under way the dialog neither confirms again nor closes; and a
    confirmation makes exactly the request of the action shown, marks it busy,
    and no later step of it destroys anything else. *)
Theorem destructive_confirmed (syntaxError : string -> string) (e : event) (s : State) (t : ToastState) :
  (e = DialogConfirmed \/
   asks (fun _ => True) (fun r => destructive r = false) (on_event syntaxError e) (s, t)) /\
  (if destructiveBusy s
   then exec (on_event syntaxError DialogConfirmed) (s, t) = ((s, t), Done tt) /\
        exec (on_event syntaxError DialogClosed) (s, t) = ((s, t), Done tt)
   else match pendingDestructive s with
        | None => exec (on_event syntaxError DialogConfirmed) (s, t) = ((s, t), Done tt)
        | Some p =>
            loading s = true \/
            exists s1 k, exec (on_event syntaxError DialogConfirmed) (s, t) = ((s1, t), Blocked (request_of p) k) /\
              pendingDestructive s1 = Some p /\ destructiveBusy s1 = true /\
              forall a s2, asks (fun _ => True) (fun r => destructive r = false) (k a) s2
        end).
Proof.
  split.
  - destruct e; try (by left); right; unfold on_event; cbn [bind gets asks fst];
      (destruct (enabled _ s); [|exact I]); effects;
      cbn [handle mount_effects security_effects lookup list_lookup default]; no_destructive_request.
  - destruct (destructiveBusy s) eqn:Hb.
    { by rewrite !on_event_disabled by (rewrite enabled_spec; cbn; by rewrite Hb, !andb_false_r). }
    destruct (pendingDestructive s) as [p|] eqn:Hp.
    2: { unfold on_event. cbn [bind gets exec fst]. destruct (enabled _ _); [|done].
         unfold handle, confirmDestructive. cbn [bind gets exec fst]. by rewrite Hp. }
    destruct (loading s) eqn:Hl; [by left|right].
    rewrite (confirm_blocks _ _ _ p) by done. unfold confirmDestructive. cbn [bind gets exec fst]. rewrite Hp.
    destruct p as [pk|x|]; do 2 eexists; (split; [reflexivity|]); unfold destructiveBusy; cbn;
      rewrite ?Hp; cbn; rewrite ?bool_decide_eq_true_2 by done; (split_and!; [done..|]); intros [resp|err] [s2 t2]; cbn; try done.
    all: repeat (cbn; first [exact I | split_and!; [done..|]; intros [?|?] [? ?] _]).
Qed.

Definition failure_of (p : PendingDestructive) (e : thrown) : string :=
  (match p with
   | PendingPasskey _ => "Failed to delete passkey"
   | PendingSession _ => "Failed to revoke session"
   | PendingAllSessions => "Failed to revoke other sessions"
   end) +:+ ": " +:+ errText e.

(** The sessions shown while the action is under way: a session goes at once. *)
Definition sessions_meanwhile (p : PendingDestructive) (l : list Session) : list Session :=
  match p with
  | PendingSession x => filter (fun y => Session_sessionId y <> Session_sessionId x) l
  | _ => l
  end.

Definition passkeys_without (p : PendingDestructive) (l : list Passkey) : list Passkey :=
  match p with
  | PendingPasskey x => filter (fun y => Passkey_id y <> Passkey_id x) l
  | _ => l
  end.

Definition the_events_request : Req := ListAuthEvents (mkListAuthEventsRequest 50 0 "").

(** What a confirmed action does, whatever happens while its request is in
    flight.  A session disappears from the list at once and everything else
    stays.  A failure is told in one error message, closes the dialog, takes the
    mark down and shows the sessions as they were when the action was confirmed,
    even if the list was fetched again meanwhile.  A success is told in one
    message, removes the passkey, and closes the dialog, fetching the events;
    revoking all others first fetches the sessions with the dialog still busy. *)
Theorem confirm_settles (syntaxError : string -> string) (s : State) (t : ToastState) (p : PendingDestructive)
    (Hl : loading s = false) (Hp : pendingDestructive s = Some p) (Hb : destructiveBusy s = false) :
  exists s1 k, exec (on_event syntaxError DialogConfirmed) (s, t) = ((s1, t), Blocked (request_of p) k) /\
    items (sessions s1) = sessions_meanwhile p (items (sessions s)) /\
    items (passkeys s1) = items (passkeys s) /\
    forall answer s2 t2, let c := exec (k answer) (s2, t2) in
      match answer with
      | inr e =>
          c.2 = Done tt /\ pendingDestructive c.1.1 = None /\ destructiveBusy c.1.1 = false /\
          shown c.1.2 = shown t2 ++ [(Toast.error, failure_of p e)] /\
          items (sessions c.1.1) = items (sessions (match p with PendingSession _ => s | _ => s2 end)) /\
          items (passkeys c.1.1) = items (passkeys s2)
      | inl _ =>
          (exists text, shown c.1.2 = shown t2 ++ [(Toast.success, text)]) /\
          items (passkeys c.1.1) = passkeys_without p (items (passkeys s2)) /\
          items (sessions c.1.1) = items (sessions s2) /\
          match p with
          | PendingAllSessions =>
              (exists k', c.2 = Blocked ListSessions k') /\
              pendingDestructive c.1.1 = pendingDestructive s2 /\ isRevokingOther c.1.1 = isRevokingOther s2
          | _ => (exists k', c.2 = Blocked the_events_request k') /\ pendingDestructive c.1.1 = None
          end
      end.
Proof.
  rewrite (confirm_blocks _ _ _ p) by done. unfold confirmDestructive. cbn [bind gets exec fst]. rewrite Hp.
  destruct p as [pk|x|]; do 2 eexists; (split; [reflexivity|]); (split_and!; [done..|]);
    intros [resp|err] s2 t2; cbn; split_and!; try done; eauto.
  all: try (by unfold shown; cbn; rewrite fmap_app).
  all: eexists; unfold shown; cbn; by rewrite fmap_app.
Qed.

Lemma confirm_settles_witness :
  let x := mkSession "s2" "" "Firefox on Linux" None None None None false in
  let s := setPendingDestructive (Some (PendingSession x)) (setLoading false
             (onSessions (setItems [x]) (initial (Some "security"%string) None))) in
  exists s1 k,
    exec (on_event (fun m => m) DialogConfirmed) (s, sample_toasts) =
      ((s1, sample_toasts), Blocked (RevokeSession (mkRevokeSessionRequest "s2")) k) /\
    items (sessions s1) = [].
Proof.
  intros x s.
  destruct (confirm_settles (fun m => m) s sample_toasts (PendingSession x) eq_refl eq_refl eq_refl)
    as (s1 & k & He & Hs & _).
  exists s1, k. split; [exact He|]. rewrite Hs. reflexivity.
Defined.

(** ** The retention window *)

(** Selecting a retention window shows it at once and sends it along with the
    notification fields as they stand on the page, trimmed, saved or not.  If the
    server refuses, the window shown before the selection is back and the error
    is told; otherwise the selection stands. *)
Theorem retention_spec (days : Z) (s : State) (t : ToastState) :
  exists s1 k, exec (handleRetentionChange days) (s, t) =
    ((s1, t), Blocked (UpdateSettings (mkUpdateSettingsRequest (trim (gotifyUrl s)) (trim (gotifyToken s)) days)) k) /\
  auditRetentionDays s1 = days /\ isSaving s1 = true /\
  forall answer s2 t2, exists s3 t3, exec (k answer) (s2, t2) = ((s3, t3), Done tt) /\
    isSaving s3 = false /\ gotifyUrl s3 = gotifyUrl s2 /\ gotifyToken s3 = gotifyToken s2 /\
    match answer with
    | inl _ => auditRetentionDays s3 = auditRetentionDays s2 /\ Settings.error s3 = Settings.error s2 /\
        shown t3 = shown t2 ++ [(Toast.success, "Audit log retention updated."%string)]
    | inr e => auditRetentionDays s3 = auditRetentionDays s /\ Settings.error s3 = Some (errText e) /\
        shown t3 = shown t2 ++ [(Toast.error, "Failed to update audit log retention: " +:+ errText e)]
    end.
Proof.
  do 2 eexists. split; [reflexivity|]. split_and!; [done..|].
  intros [resp|e] s2 t2; cbn; do 2 eexists; (split; [reflexivity|]); cbn; split_and!; try done;
    unfold shown; cbn; by rewrite fmap_app.
Qed.

(** When the settings could not be loaded the form opens blank and unlocked, and
    selecting a retention window sends blank notification settings with it. *)
Theorem failed_load_sends_blanks (syntaxError : string -> string) (t : ToastState) (e : thrown) :
  exists s k, exec (on_event syntaxError (MountEffect 0)) (initial None None, t) =
      ((initial None None, t), Blocked GetSettings k) /\
    exec (k (inr e)) (initial None None, t) = ((s, t), Done tt) /\
    exists s' k', exec (on_event syntaxError (RetentionSelected 30)) (s, t) =
      ((s', t), Blocked (UpdateSettings (mkUpdateSettingsRequest "" "" 30)) k').
Proof.
  do 2 eexists. split; [reflexivity|]. split; [reflexivity|]. do 2 eexists.
  rewrite on_event_enabled by (by rewrite enabled_spec). reflexivity.
Qed.

(** ** Passkeys *)

(** The outcome of a registration, against answers to its three requests. *)
Definition registration (syntaxError : string -> string) (answer : forall r, Resp r + thrown) (name : string) :
    option Passkey + thrown :=
  match answer (BeginPasskeyRegistration (mkBeginPasskeyRegistrationRequest name)) with
  | inr e => inr e
  | inl b =>
      match parse (BeginPasskeyRegistrationResponse_optionsJson b) with
      | None => inr (JsError (syntaxError (BeginPasskeyRegistrationResponse_optionsJson b)))
      | Some options =>
          match answer (WebauthnCreate options) with
          | inr e => inr e
          | inl credential =>
              match answer (FinishPasskeyRegistration
                (mkFinishPasskeyRegistrationRequest name (stringify credential))) with
              | inr e => inr e
              | inl f => inl (FinishPasskeyRegistrationResponse_passkey f)
              end
          end
      end
  end.

(** Registering a passkey offers the trimmed name, hands the server's options to
    the authenticator and the authenticator's answer back to the server.  When
    all of that succeeds the new passkey heads the list and the form is closed
    and cleared; when any step fails, options that are not JSON included, the
    list and the form are as they were and the cause is shown under the list and
    in a message.  Either way the form is unlocked. *)
Theorem add_passkey_spec (syntaxError : string -> string) (answer : forall r, Resp r + thrown)
    (s : State) (t : ToastState) :
  let c := (run answer (handleAddPasskey syntaxError) (s, t)).1 in
  isAddingPasskey c.1 = false /\
  match registration syntaxError answer (trim (newPasskeyName s)) with
  | inl pk =>
      items (passkeys c.1) = option_list pk ++ items (passkeys s) /\
      showAddPasskey c.1 = false /\ newPasskeyName c.1 = "" /\ slotError (passkeys c.1) = None /\
      shown c.2 = shown t ++ [(Toast.success, "Passkey registered successfully."%string)]
  | inr e =>
      items (passkeys c.1) = items (passkeys s) /\
      showAddPasskey c.1 = showAddPasskey s /\ newPasskeyName c.1 = newPasskeyName s /\
      slotError (passkeys c.1) = Some (errText e) /\
      shown c.2 = shown t ++ [(Toast.error, "Passkey registration failed: " +:+ errText e)]
  end.
Proof.
  unfold registration, handleAddPasskey, then_events. cbn -[call].
  destruct (answer (BeginPasskeyRegistration _)) as [b|e]; cbn -[call parse].
  2: { unfold shown. cbn. rewrite fmap_app. by split_and!. }
  destruct (parse _) as [options|]; cbn -[call parse].
  2: { unfold shown. cbn. rewrite fmap_app. by split_and!. }
  destruct (answer (WebauthnCreate _)) as [credential|e]; cbn -[call parse].
  2: { unfold shown. cbn. rewrite fmap_app. by split_and!. }
  destruct (answer (FinishPasskeyRegistration _)) as [[pk]|e]; cbn -[call parse].
  2: { unfold shown. cbn. rewrite fmap_app. by split_and!. }
  destruct pk; cbn; destruct (answer (ListAuthEvents _)); cbn; unfold shown; cbn; rewrite fmap_app;
    by split_and!.
Qed.

(** Saving a blank name does nothing.  Otherwise the trimmed name is sent; when
    the server agrees, the row with that id shows what the server answered, every
    other row and the order are untouched and the editor closes; when it refuses,
    the rows and the editor are as they were and the cause is told. *)
Theorem rename_spec (id : string) (s : State) (t : ToastState) :
  if negb (truthy (trim (editingPasskeyName s))) then exec (handleRenamePasskey id) (s, t) = ((s, t), Done tt)
  else exists k, exec (handleRenamePasskey id) (s, t) =
      ((s, t), Blocked (RenamePasskey (mkRenamePasskeyRequest id (trim (editingPasskeyName s)))) k) /\
    forall answer s2 t2, exists s3 t3, exec (k answer) (s2, t2) = ((s3, t3), Done tt) /\
      length (items (passkeys s3)) = length (items (passkeys s2)) /\
      (forall i p, items (passkeys s2) !! i = Some p -> Passkey_id p <> id -> items (passkeys s3) !! i = Some p) /\
      match answer with
      | inl resp =>
          editingPasskeyId s3 = None /\ editingPasskeyName s3 = "" /\
          forall i p, items (passkeys s2) !! i = Some p -> Passkey_id p = id ->
            items (passkeys s3) !! i = Some (default p (RenamePasskeyResponse_passkey resp))
      | inr e =>
          s3 = s2 /\ shown t3 = shown t2 ++ [(Toast.error, "Failed to rename passkey: " +:+ errText e)]
      end.
Proof.
  unfold handleRenamePasskey. cbn [bind gets exec fst]. destruct (negb _); [done|].
  eexists. split; [reflexivity|].
  intros [[[pk|]]|e] s2 t2; cbn; do 2 eexists; (split; [reflexivity|]); cbn.
  - split_and!; try done; [by rewrite length_fmap|..]; intros i p Hi Hid; rewrite list_lookup_fmap, Hi; cbn.
    + by apply String.eqb_neq in Hid as ->.
    + by apply String.eqb_eq in Hid as ->.
  - by split_and!.
  - split_and!; try done. unfold shown. cbn. by rewrite fmap_app.
Qed.

(** ** The session the page runs in *)

Ltac keeps_target :=
  repeat first
    [ apply keeps_ret | apply keeps_throw | apply keeps_gets | apply keeps_rpc
    | apply keeps_modify; intros [s t] Hs; cbn in *; repeat case_match; done
    | apply keeps_bind; [|intros ?] | apply keeps_try_catch; [|intros ?] | apply keeps_try_finally
    | apply keeps_call
    | case_match ].

Lemma target_kept (syntaxError : string -> string) (e : event) :
  keeps (fun s : State * ToastState => target_ok s.1) (on_event syntaxError e).
Proof.
  intros [s t] Hs. unfold on_event. cbn [bind gets guarantees fst].
  destruct (enabled e s) eqn:He; [|exact Hs].
  destruct e; try (clear He; revert Hs; generalize (s, t); clear; intros st Hs; revert st Hs;
    effects; cbn [handle mount_effects security_effects lookup list_lookup default];
    unfold target_ok; unfold_handlers; keeps_target; fail).
  rewrite enabled_spec in He. cbn in *. destruct (items (sessions s) !! row) as [x|]; cbn; [|exact Hs].
  by destruct (Session_isCurrent x).
Qed.

(** However events and answers interleave, the dialog is never open on the
    session the page runs in, and a row offers to revoke its session, by a button
    that is not disabled, exactly when clicking it opens the dialog on that
    session: so the page never asks to revoke its own session by name. *)
Theorem own_session_safe (syntaxError : string -> string) (rt : option string)
    (it : option SettingsTab) (t : ToastState) (s : State * ToastState)
    (H : pool_reaches (started_by (on_event syntaxError)) (initial rt it, t) s) :
  target_ok s.1 /\
  forall toLocaleString i x, items (sessions s.1) !! i = Some x ->
    loading s.1 = false -> localTab s.1 = security ->
    match sr_revoke (session_row toLocaleString s.1 x) with
    | Some (mkButton false _) =>
        Session_isCurrent x = false /\
        exec (on_event syntaxError (RevokeClicked i)) s =
          ((setPendingDestructive (Some (PendingSession x)) s.1, s.2), Done tt)
    | _ => exec (on_event syntaxError (RevokeClicked i)) s = (s, Done tt)
    end.
Proof.
  split.
  - apply (pool_invariant (fun s => target_ok s.1) (started_by (on_event syntaxError)) (initial rt it, t));
      [|done|exact H]. intros m [e ->]. apply target_kept.
  - intros f i x Hi Hl Ht. destruct s as [s u]. cbn [fst snd] in *.
    assert (enabled (RevokeClicked i) s = negb (Session_isCurrent x) &&
      negb (bool_decide (revokingSessionId s = Some (Session_sessionId x)))) as He.
    { rewrite enabled_spec. cbn. rewrite Hl, Ht, Hi, (bool_decide_eq_true_2 (security = security)) by done.
      cbn. by rewrite andb_true_r. }
    unfold session_row, revoke_button. cbn [sr_revoke].
    destruct (Session_isCurrent x); [by apply on_event_disabled|].
    destruct (bool_decide _); [by apply on_event_disabled|].
    split; [done|]. rewrite on_event_enabled by done. cbn. by rewrite Hi.
Qed.

Lemma own_session_safe_witness :
  let s := (initial None None, sample_toasts) in
  target_ok s.1.
Proof.
  intros s. apply (own_session_safe (fun m => m) None None sample_toasts s). exists []. apply rtc_refl.
Defined.
