(* ===== verification/SettingsServer.v ===== *)
(** The settings service (internal/settings/service.go) and the reading of the audit
    retention (internal/audit/audit.go), outside frontend/src, with the page of
    Settings.v as their client.

    The settings table maps keys to texts; which writes fail, Gotify and the Docker
    daemon are parameters.  The text of a database error, which the program appends to
    its own, is left out. *)
From S2P Require Import Prelude Async Toast Proto Services Access Settings.
Local Open Scope Z_scope.

Abbreviation settings_table := (gmap string string).

(** ** Retention *)

Definition RetentionSettingKey : string := "audit_retention_days".
Definition DefaultRetentionDays : Z := 90.
Definition validRetentionDays : gset Z := {[7; 30; 90; 180; 365]}.
Definition ValidRetentionDayList : list Z := [7; 30; 90; 180; 365].
Definition IsValidRetentionDays (days : Z) : bool := bool_decide (days ∈ validRetentionDays).

(** [strconv.Atoi], [None] when it fails: a sign, digits, and a 64-bit value. *)
Fixpoint read_digits (acc : Z) (s : string) : option Z :=
  match s with
  | EmptyString => Some acc
  | String c s =>
      let n := Z.of_nat (nat_of_ascii c) - 48 in
      if (0 <=? n) && (n <=? 9) then read_digits (10 * acc + n) s else None
  end.

Definition Atoi (s : string) : option Z :=
  let '(sign, digits) :=
    match s with
    | String "-" t => (-1, t)
    | String "+" t => (1, t)
    | _ => (1, s)
    end in
  if truthy digits then
    n ← read_digits 0 digits;
    let v := sign * n in
    if (- 2 ^ 63 <=? v) && (v <? 2 ^ 63) then Some v else None
  else None.

(** [strconv.Itoa] is [num]. *)

(** The window the recorder trims by; [None] for a failed read. *)
Definition retentionDays (setting : query string) : Z :=
  match setting with
  | Row value =>
      match Atoi value with
      | Some days => if IsValidRetentionDays days then days else DefaultRetentionDays
      | None => DefaultRetentionDays
      end
  | NoRows | QueryFailed => DefaultRetentionDays
  end.

Definition GetSetting (m : settings_table) (key : string) : query string :=
  match m !! key with Some v => Row v | None => NoRows end.

(** ** The service *)

Definition CodeInvalidArgument : Z := 3.

(** [checkAdmin] for the user the interceptor left in the context. *)
Definition checkAdmin (user : option User) : option handler_error :=
  match user with
  | None => Some (Coded CodeUnauthenticated "unauthenticated")
  | Some u =>
      if negb (String.eqb (Role u) "admin") then Some (Coded CodePermissionDenied "admin privilege required")
      else None
  end.

(** The loop over the rows: [res] is the answer so far. *)
Definition setting_step (res : GetSettingsResponse) (row : string * string) : GetSettingsResponse :=
  let '(key, value) := row in
  if String.eqb key "gotify_url" then
    mkGetSettingsResponse value (GetSettingsResponse_gotifyToken res) (GetSettingsResponse_auditRetentionDays res)
  else if String.eqb key "gotify_token" then
    mkGetSettingsResponse (GetSettingsResponse_gotifyUrl res) value (GetSettingsResponse_auditRetentionDays res)
  else if String.eqb key RetentionSettingKey then
    match Atoi value with
    | Some days =>
        if IsValidRetentionDays days
        then mkGetSettingsResponse (GetSettingsResponse_gotifyUrl res) (GetSettingsResponse_gotifyToken res) days
        else res
    | None => res
    end
  else res.

(** [rows] is what [ListSettings] gives, [None] when it fails. *)
Definition GetSettings_ (user : option User) (rows : option (list (string * string))) :
    GetSettingsResponse + handler_error :=
  match checkAdmin user with
  | Some err => inr err
  | None =>
      match rows with
      | None => inr (Coded CodeInternal "failed to retrieve settings")
      | Some rows => inl (foldl setting_step (mkGetSettingsResponse "" "" DefaultRetentionDays) rows)
      end
  end.

Section Update.
(** Whether the database takes the write of a key. *)
Context (writes : string -> bool).

Definition UpdateSetting (key value : string) (m : settings_table) : settings_table * bool :=
  if writes key then (<[key := value]> m, true) else (m, false).

Definition UpdateSettings_ (user : option User) (req : UpdateSettingsRequest) (m : settings_table) :
    settings_table * option handler_error :=
  match checkAdmin user with
  | Some err => (m, Some err)
  | None =>
      if negb (IsValidRetentionDays (UpdateSettingsRequest_auditRetentionDays req)) then
        (m, Some (Coded CodeInvalidArgument ("audit_retention_days must be one of ["
                    +:+ join " " (num <$> ValidRetentionDayList) +:+ "]")))
      else
        let '(m, ok) := UpdateSetting "gotify_url" (UpdateSettingsRequest_gotifyUrl req) m in
        if negb ok then (m, Some (Coded CodeInternal "failed to save gotify_url"))
        else
          let '(m, ok) := UpdateSetting "gotify_token" (UpdateSettingsRequest_gotifyToken req) m in
          if negb ok then (m, Some (Coded CodeInternal "failed to save gotify_token"))
          else
            let '(m, ok) :=
              UpdateSetting RetentionSettingKey (num (UpdateSettingsRequest_auditRetentionDays req)) m in
            if negb ok then (m, Some (Coded CodeInternal "failed to save audit_retention_days"))
            else (m, None)
  end.
End Update.

(** The answer of an HTTP request: an error, or a status and a body. *)
Inductive http_answer := HttpFailed (text : string) | HttpStatus (code : Z) (body : string).

Definition endsWith_slash (s : string) : bool := startsWith "/" (String.substring (String.length s - 1) 1 s).

(** The URL a message is posted to. *)
Definition gotify_target (url : string) : string :=
  let url := if negb (startsWith "http://" url) && negb (startsWith "https://" url) then "http://" +:+ url else url in
  let url := if endsWith_slash url then slice_to (String.length url - 1) url else url in
  url +:+ "/message".

Section Gotify.
(** Posting to a URL with a token. *)
Context (post : string -> string -> http_answer).

Definition failed_test (text : string) : TestGotifyNotificationResponse + handler_error :=
  inl (mkTestGotifyNotificationResponse false text).

(** [getSetting] answers [GetSetting]; the URLs that are posted to are the first part of
    the result. *)
Definition TestGotifyNotification_ (user : option User) (getSetting : string -> query string)
    (req : TestGotifyNotificationRequest) : list string * (TestGotifyNotificationResponse + handler_error) :=
  match checkAdmin user with
  | Some err => ([], inr err)
  | None =>
      let stored key given := if String.eqb given "" then getSetting key else Row given in
      match stored "gotify_url" (TestGotifyNotificationRequest_gotifyUrl req) with
      | NoRows => ([], failed_test "Gotify URL is not configured")
      | QueryFailed => ([], inr (Coded CodeInternal "failed to query gotify_url"))
      | Row url =>
          match stored "gotify_token" (TestGotifyNotificationRequest_gotifyToken req) with
          | NoRows => ([], failed_test "Gotify token is not configured")
          | QueryFailed => ([], inr (Coded CodeInternal "failed to query gotify_token"))
          | Row token =>
              if String.eqb url "" || String.eqb token "" then
                ([], failed_test "Both Gotify URL and Application Token must be configured")
              else
                let targetURL := gotify_target url in
                ([targetURL],
                 match post targetURL token with
                 | HttpFailed text => failed_test ("Failed to connect to Gotify: " +:+ text)
                 | HttpStatus code body =>
                     if negb (code =? 200)
                     then failed_test ("Gotify returned status " +:+ num code +:+ ": " +:+ body)
                     else inl (mkTestGotifyNotificationResponse true "")
                 end)
          end
      end
  end.
End Gotify.

Record Registry := mkRegistry { reg_host : string; reg_username : string; reg_password : string }.

(** [login] is the daemon's answer for a registry, the text of its error if it fails;
    [None] when there is no Docker client. *)
Definition registry_status (login : option (Registry -> option string)) (reg : Registry) : RegistryStatus :=
  let configured := truthy (reg_host reg) && truthy (reg_username reg) && truthy (reg_password reg) in
  let status healthy text := mkRegistryStatus (reg_host reg) (reg_username reg) configured healthy text in
  if negb configured then status false "Missing host, username, or password in configuration"
  else
    match login with
    | None => status false "Docker client is not initialized on host"
    | Some login => match login reg with Some err => status false err | None => status true "" end
    end.

Definition GetRegistryStatus_ (user : option User) (registries : list Registry)
    (login : option (Registry -> option string)) : GetRegistryStatusResponse + handler_error :=
  match checkAdmin user with
  | Some err => inr err
  | None => inl (mkGetRegistryStatusResponse (registry_status login <$> registries))
  end.

(** ** What the service answers *)

(** The window a stored text stands for. *)
Definition effective (value : option string) : Z := retentionDays (match value with Some v => Row v | None => NoRows end).

Lemma fold_settings (rows : list (string * string)) (res : GetSettingsResponse) :
  NoDup rows.*1 ->
  let m := list_to_map rows : settings_table in
  foldl setting_step res rows =
  mkGetSettingsResponse
    (default (GetSettingsResponse_gotifyUrl res) (m !! "gotify_url"))
    (default (GetSettingsResponse_gotifyToken res) (m !! "gotify_token"))
    (match m !! RetentionSettingKey ≫= Atoi with
     | Some days => if IsValidRetentionDays days then days else GetSettingsResponse_auditRetentionDays res
     | None => GetSettingsResponse_auditRetentionDays res
     end).
Proof.
  revert res. induction rows as [|[k v] rows IH]; intros res Hn m; subst m; cbn [foldl]; [by destruct res|].
  apply NoDup_cons in Hn as [Hk Hn]. rewrite (IH _ Hn). clear IH. cbn [list_to_map foldr uncurry].
  cbn [fst] in Hk. apply (not_elem_of_list_to_map_1 (M := gmap string)) in Hk.
  change (list_to_map ((k, v) :: rows) : settings_table) with (<[k := v]> (list_to_map rows : settings_table)).
  set (m := list_to_map rows : settings_table) in *. unfold setting_step.
  destruct (String.eqb_spec k "gotify_url") as [->|H1].
  { rewrite lookup_insert_eq, !lookup_insert_ne by done. by rewrite Hk. }
  destruct (String.eqb_spec k "gotify_token") as [->|H2].
  { rewrite lookup_insert_eq, !lookup_insert_ne by done. by rewrite Hk. }
  destruct (String.eqb_spec k RetentionSettingKey) as [->|H3].
  - rewrite lookup_insert_eq, !lookup_insert_ne by done. rewrite Hk. simpl.
    destruct (Atoi v) as [d|]; [destruct (IsValidRetentionDays d)|]; done.
  - by rewrite !lookup_insert_ne by done.
Qed.

Lemma GetSettings_reads (u : User) (m : settings_table) (Hu : Role u = "admin"%string) :
  GetSettings_ (Some u) (Some (map_to_list m)) =
  inl (mkGetSettingsResponse (default "" (m !! "gotify_url")) (default "" (m !! "gotify_token"))
         (effective (m !! RetentionSettingKey))).
Proof.
  unfold GetSettings_, checkAdmin. rewrite Hu. cbn [String.eqb negb].
  rewrite fold_settings by apply NoDup_fst_map_to_list. rewrite list_to_map_to_list. cbn.
  unfold effective, retentionDays. by destruct (m !! RetentionSettingKey) as [v|].
Qed.

Lemma preset_valid (days : Z) : IsValidRetentionDays days = true <-> days ∈ ValidRetentionDayList.
Proof. unfold IsValidRetentionDays, validRetentionDays, ValidRetentionDayList. rewrite bool_decide_eq_true. set_solver. Qed.

Lemma preset_reads_back (days : Z) : days ∈ ValidRetentionDayList -> effective (Some (num days)) = days.
Proof.
  unfold ValidRetentionDayList. rewrite !elem_of_cons, elem_of_nil.
  intros [-> | [-> | [-> | [-> | [-> | []]]]]]; vm_compute; reflexivity.
Qed.

Lemma effective_preset (v : option string) : effective v ∈ ValidRetentionDayList.
Proof.
  unfold effective, retentionDays. assert (H : DefaultRetentionDays ∈ ValidRetentionDayList) by set_solver.
  destruct v as [v|]; [|done]. destruct (Atoi v) as [d|]; [|done].
  destruct (IsValidRetentionDays d) eqn:E; [|done]. by apply preset_valid.
Qed.

(** What a table is after an update the server accepts. *)
Definition updated (req : UpdateSettingsRequest) (m : settings_table) : settings_table :=
  <[RetentionSettingKey := num (UpdateSettingsRequest_auditRetentionDays req)]>
  (<["gotify_token" := UpdateSettingsRequest_gotifyToken req]>
  (<["gotify_url" := UpdateSettingsRequest_gotifyUrl req]> m)).

Lemma updated_reads (u : User) (req : UpdateSettingsRequest) (m : settings_table) (Hu : Role u = "admin"%string) :
  UpdateSettingsRequest_auditRetentionDays req ∈ ValidRetentionDayList ->
  GetSettings_ (Some u) (Some (map_to_list (updated req m))) =
  inl (mkGetSettingsResponse (UpdateSettingsRequest_gotifyUrl req) (UpdateSettingsRequest_gotifyToken req)
         (UpdateSettingsRequest_auditRetentionDays req)).
Proof.
  intros Hd. rewrite GetSettings_reads by done. unfold updated.
  rewrite (lookup_insert_ne _ RetentionSettingKey "gotify_url"), (lookup_insert_ne _ "gotify_token" "gotify_url"),
    (lookup_insert_ne _ RetentionSettingKey "gotify_token"), !lookup_insert_eq by done.
  simpl. by rewrite preset_reads_back.
Qed.

Lemma update_accepted (writes : string -> bool) (u : User) (req : UpdateSettingsRequest) (m : settings_table) :
  Role u = "admin"%string -> (forall k, writes k = true) ->
  UpdateSettingsRequest_auditRetentionDays req ∈ ValidRetentionDayList ->
  UpdateSettings_ writes (Some u) req m = (updated req m, None).
Proof.
  intros Hu Hw Hd. unfold UpdateSettings_, checkAdmin, UpdateSetting. rewrite Hu, !Hw.
  by rewrite (proj2 (preset_valid _) Hd).
Qed.

(** ** The properties *)

(** C27: what the page changes is what is enforced and shown: when an administrator picks a
    window the page offers and the database takes the writes, the server accepts the
    request, the next load of the page shows the window and the notification fields it
    was sent with, trimmed, the recorder trims the trail by it, and no other setting
    changes. *)
Theorem retention_applies (days : Z) (Hd : days ∈ AUDIT_RETENTION_PRESETS.*1) (s : Settings.State) (t : ToastState)
    (writes : string -> bool) (Hw : forall k, writes k = true) (u : User) (Hu : Role u = "admin"%string)
    (m : settings_table) :
  exists s1 req k m', exec (handleRetentionChange days) (s, t) = ((s1, t), Blocked (UpdateSettings req) k) /\
    UpdateSettings_ writes (Some u) req m = (m', None) /\
    GetSettings_ (Some u) (Some (map_to_list m'))
    = inl (mkGetSettingsResponse (trim (gotifyUrl s)) (trim (gotifyToken s)) days) /\
    retentionDays (GetSetting m' RetentionSettingKey) = days /\
    (forall key, key ∉ ["gotify_url"; "gotify_token"; RetentionSettingKey]%string -> m' !! key = m !! key).
Proof.
  do 4 eexists. split; [reflexivity|]. split; [by apply update_accepted|].
  split; [by apply updated_reads|]. split.
  - unfold GetSetting, updated. rewrite lookup_insert_eq. by apply (preset_reads_back days).
  - intros key. rewrite !not_elem_of_cons. intros (H1 & H2 & H3 & _). unfold updated.
    by rewrite !lookup_insert_ne by done.
Qed.

Lemma retention_applies_witness :
  let s := setGotifyUrl " gotify.example " (initial None None) in
  exists s1 req k m', exec (handleRetentionChange 30) (s, sample_toasts) = ((s1, sample_toasts), Blocked (UpdateSettings req) k) /\
    UpdateSettings_ (fun _ => true) (Some (mkUser 1 "root" "admin")) req ∅ = (m', None) /\
    GetSettings_ (Some (mkUser 1 "root" "admin")) (Some (map_to_list m'))
    = inl (mkGetSettingsResponse "gotify.example" "" 30) /\
    retentionDays (GetSetting m' RetentionSettingKey) = 30 /\
    (forall key, key ∉ ["gotify_url"; "gotify_token"; RetentionSettingKey]%string -> m' !! key = (∅ : settings_table) !! key).
Proof.
  intros s. apply (retention_applies 30 ltac:(cbn; set_solver) s sample_toasts (fun _ => true) (fun _ => eq_refl)
    (mkUser 1 "root" "admin") eq_refl ∅).
Defined.

(** the page and the recorder agree on the retention: whatever the table holds, corrupt
    or missing rows included, the window an administrator is shown is the one the
    recorder trims by, and it is one of those the page offers. *)
Theorem retention_agrees (u : User) (Hu : Role u = "admin"%string) (m : settings_table) :
  exists res, GetSettings_ (Some u) (Some (map_to_list m)) = inl res
    /\ GetSettingsResponse_auditRetentionDays res = retentionDays (GetSetting m RetentionSettingKey)
    /\ GetSettingsResponse_auditRetentionDays res ∈ AUDIT_RETENTION_PRESETS.*1.
Proof.
  eexists. split; [by apply GetSettings_reads|]. split; [done|]. apply (effective_preset (m !! RetentionSettingKey)).
Qed.

Lemma retention_agrees_witness :
  let m : settings_table := {[ RetentionSettingKey := "+0365 days"%string ]} in
  exists res, GetSettings_ (Some (mkUser 1 "root" "admin")) (Some (map_to_list m)) = inl res
    /\ GetSettingsResponse_auditRetentionDays res = retentionDays (GetSetting m RetentionSettingKey)
    /\ GetSettingsResponse_auditRetentionDays res ∈ AUDIT_RETENTION_PRESETS.*1.
Proof. intros m. apply (retention_agrees (mkUser 1 "root" "admin") eq_refl m). Defined.

(** The writes of an update, in their order. *)
Definition update_writes (req : UpdateSettingsRequest) : list (string * string) :=
  [("gotify_url", UpdateSettingsRequest_gotifyUrl req); ("gotify_token", UpdateSettingsRequest_gotifyToken req);
   (RetentionSettingKey, num (UpdateSettingsRequest_auditRetentionDays req))]%string.

#[local] Ltac closed :=
  split_and!; try done; try lia; try (by repeat constructor); try (by intros [? _]); try (by intros _ kv [= <-]).

(** an update fails without surprises: it is refused with nothing written to whoever is
    not an administrator and for a window that is no preset; otherwise the fields are
    written one after another up to the first write the database refuses, those before
    it stay, and it succeeds exactly when all three are written. *)
Theorem update_outcomes (writes : string -> bool) (user : option User) (req : UpdateSettingsRequest) (m : settings_table) :
  let allowed := checkAdmin user = None /\ UpdateSettingsRequest_auditRetentionDays req ∈ ValidRetentionDayList in
  exists n, (n <= 3)%nat /\ (UpdateSettings_ writes user req m).1
      = foldl (fun m kv => <[kv.1 := kv.2]> m) m (take n (update_writes req))
    /\ Forall (fun kv => writes kv.1 = true) (take n (update_writes req))
    /\ ((UpdateSettings_ writes user req m).2 = None <-> n = 3%nat)
    /\ (~ allowed -> n = 0%nat)
    /\ (allowed -> forall kv, update_writes req !! n = Some kv -> writes kv.1 = false).
Proof.
  intros allowed. unfold UpdateSettings_. destruct (checkAdmin user) as [err|] eqn:Ea.
  { exists 0%nat. by closed. }
  destruct (IsValidRetentionDays _) eqn:Ed.
  2: { exists 0%nat. closed. intros [_ Hd]. apply preset_valid in Hd. congruence. }
  apply preset_valid in Ed. assert (Hal : allowed) by done. cbn [negb]. unfold UpdateSetting.
  destruct (writes "gotify_url") eqn:E1; cbn [negb]; [|exists 0%nat; by closed].
  destruct (writes "gotify_token") eqn:E2; cbn [negb]; [|exists 1%nat; by closed].
  destruct (writes RetentionSettingKey) eqn:E3; cbn [negb]; [exists 3%nat|exists 2%nat]; by closed.
Qed.

(** ** The connection test *)

Definition test_request (s : Settings.State) : TestGotifyNotificationRequest :=
  mkTestGotifyNotificationRequest (trim (gotifyUrl s)) (trim (gotifyToken s)).

(** What the page shows of an answer. *)
Lemma page_shows_test (s : Settings.State) (t : ToastState) :
  exists s1 t1 k, exec handleTestConnection (s, t) = ((s1, t1), Blocked (TestGotifyNotification (test_request s)) k) /\
    forall resp, exists s2 t2 msg, exec (k (inl resp)) (s1, t1) = ((s2, t2), Done tt) /\ isTesting s2 = false
      /\ testResult s2 = Some (TestGotifyNotificationResponse_success resp, msg).
Proof.
  do 3 eexists. split; [reflexivity|]. intros [[] text]; do 3 eexists; (split; [reflexivity|]); by split.
Qed.

(** The field a test uses: the one of the form or, where that is blank, the stored one. *)
Definition test_field (given : string) (stored : option string) : string :=
  if truthy given then given else default "" stored.

Lemma tested (post : string -> string -> http_answer) (u : User) (Hu : Role u = "admin"%string)
    (m : settings_table) (req : TestGotifyNotificationRequest) :
  let url := test_field (TestGotifyNotificationRequest_gotifyUrl req) (m !! "gotify_url"%string) in
  let token := test_field (TestGotifyNotificationRequest_gotifyToken req) (m !! "gotify_token"%string) in
  exists resp, TestGotifyNotification_ post (Some u) (GetSetting m) req
      = (if truthy url && truthy token then [gotify_target url] else [], inl resp)
    /\ (TestGotifyNotificationResponse_success resp = true <->
         truthy url && truthy token = true /\ exists body, post (gotify_target url) token = HttpStatus 200 body).
Proof.
  destruct req as [gu gt]. unfold TestGotifyNotification_, checkAdmin, test_field, GetSetting, truthy. rewrite Hu.
  cbn -[String.eqb gotify_target]. change (negb (String.eqb "admin" "admin")) with false. cbn -[String.eqb gotify_target].
  destruct (String.eqb gu "") eqn:Eu, (m !! "gotify_url"%string) as [su|];
    cbn -[String.eqb gotify_target]; change (String.eqb "" "") with true; cbn [negb andb orb];
    try (eexists; split; [reflexivity|]; split; [done|by intros [? _]]);
    destruct (String.eqb gt "") eqn:Et, (m !! "gotify_token"%string) as [st|]; cbn -[String.eqb gotify_target];
    rewrite ?Eu, ?Et; change (String.eqb "" "") with true; cbn [negb andb orb];
    repeat match goal with |- context [String.eqb ?x ""] => destruct (String.eqb x "") eqn:?; cbn [negb andb orb] end.
  all: try (eexists; split; [reflexivity|]; split; [done|by intros [? _]]).
  all: destruct (post _ _) as [text|code body].
  all: try (eexists; split; [reflexivity|]; split; [done|by intros (_ & ? & ?)]).
  all: destruct (Z.eqb_spec code 200) as [->|Hc]; cbn [negb]; (eexists; split; [reflexivity|]); split; try done; eauto.
  all: intros (_ & ? & [= -> _]); done.
Qed.

(** the connection test tells the truth: the page's test posts at most one message, to
    the address and with the token of the form or, where a field is blank, those stored;
    it posts nothing when one of them is missing; and the page reports success exactly
    when a message was posted and the notification server answered 200. *)
Theorem test_reports (post : string -> string -> http_answer) (u : User) (Hu : Role u = "admin"%string)
    (m : settings_table) (s : Settings.State) (t : ToastState) :
  let url := test_field (trim (gotifyUrl s)) (m !! "gotify_url"%string) in
  let token := test_field (trim (gotifyToken s)) (m !! "gotify_token"%string) in
  let '(posted, answer) := TestGotifyNotification_ post (Some u) (GetSetting m) (test_request s) in
  posted = (if truthy url && truthy token then [gotify_target url] else [])
  /\ exists s1 t1 k resp, exec handleTestConnection (s, t) = ((s1, t1), Blocked (TestGotifyNotification (test_request s)) k)
    /\ answer = inl resp
    /\ exists s2 t2 told msg, exec (k (inl resp)) (s1, t1) = ((s2, t2), Done tt) /\ isTesting s2 = false
      /\ testResult s2 = Some (told, msg)
      /\ (told = true <-> posted <> [] /\ exists body, post (gotify_target url) token = HttpStatus 200 body).
Proof.
  intros url token. destruct (page_shows_test s t) as (s1 & t1 & k & E & Hk).
  destruct (tested post u Hu m (test_request s)) as (resp & Er & Hs).
  change (TestGotifyNotificationRequest_gotifyUrl (test_request s)) with (trim (gotifyUrl s)) in Er, Hs.
  change (TestGotifyNotificationRequest_gotifyToken (test_request s)) with (trim (gotifyToken s)) in Er, Hs.
  fold url token in Er, Hs. rewrite Er. destruct (Hk resp) as (s2 & t2 & msg & E2 & Hi & Ht).
  split; [done|]. exists s1, t1, k, resp. do 2 (split; [done|]).
  exists s2, t2, (TestGotifyNotificationResponse_success resp), msg.
  do 3 (split; [done|]). rewrite Hs. by destruct (truthy url && truthy token); split; intros [? ?]; split.
Qed.

Lemma test_reports_witness :
  let post url token := if String.eqb token "T" then HttpStatus 200 "ok" else HttpFailed "refused" in
  let m : settings_table := {[ "gotify_token" := "T" ]}%string in
  let s := setGotifyUrl "gotify.example/" (initial None None) in
  let '(posted, answer) := TestGotifyNotification_ post (Some (mkUser 1 "root" "admin")) (GetSetting m) (test_request s) in
  posted = ["http://gotify.example/message"]%string
  /\ exists s1 t1 k resp, exec handleTestConnection (s, sample_toasts) = ((s1, t1), Blocked (TestGotifyNotification (test_request s)) k)
    /\ answer = inl resp
    /\ exists s2 t2 told msg, exec (k (inl resp)) (s1, t1) = ((s2, t2), Done tt) /\ isTesting s2 = false
      /\ testResult s2 = Some (told, msg)
      /\ (told = true <-> posted <> [] /\ exists body,
            post (gotify_target "gotify.example/") "T"%string = HttpStatus 200 body).
Proof.
  intros post m s.
  exact (test_reports post (mkUser 1 "root" "admin") eq_refl m s sample_toasts).
Defined.

(** ** Viewers *)

(** The matrix lets a viewer read the settings and the registries, and the interface calls
    them open to whoever is signed in, but their handlers refuse everyone but
    administrators: the settings page of a viewer always fails to load, and opens with
    that error, unlocked, its notification fields blank. *)
Lemma viewer_settings_refused (u : User) (Hu : Role u = "viewer"%string)
    (rows : option (list (string * string))) (registries : list Registry)
    (login : option (Registry -> option string)) (t : ToastState) (syntaxError : string -> string) :
  documented (Services.Settings SettingsService.getSettings) = Authenticated
  /\ getProcedureRole (procedure (Services.Settings SettingsService.getSettings)) = Some RoleViewer
  /\ getProcedureRole (procedure (Services.Settings SettingsService.getRegistryStatus)) = Some RoleViewer
  /\ GetSettings_ (Some u) rows = inr (Coded CodePermissionDenied "admin privilege required")
  /\ GetRegistryStatus_ (Some u) registries login = inr (Coded CodePermissionDenied "admin privilege required")
  /\ forall e, exists k s, exec (on_event syntaxError (MountEffect 0)) (initial None None, t)
       = ((initial None None, t), Blocked GetSettings k)
     /\ exec (k (inr e)) (initial None None, t) = ((s, t), Done tt)
     /\ Settings.error s = Some (errText e) /\ loading s = false /\ gotifyUrl s = "" /\ gotifyToken s = "".
Proof.
  unfold GetSettings_, GetRegistryStatus_, checkAdmin. rewrite Hu.
  split_and!; try (vm_compute; reflexivity). intros e. do 2 eexists. split; [reflexivity|].
  split; [reflexivity|]. by split_and!.
Qed.
