(* ===== verification/AuditServer.v ===== *)
(** The audit trail on the server (internal/audit/audit.go, the queries of
    internal/db/audit_logs.sql.go and [ListAuditLogs] of internal/admin/service.go),
    outside frontend/src, with the page of AuditLogs.v as its client.

    The table is a list of its rows; the queries are written out from their SQL.  Times
    are seconds, as [CURRENT_TIMESTAMP] keeps them; text is ASCII.  The text of a
    database error, which the program appends to its own, is left out. *)
From S2P Require Import Prelude Async Proto Services AuditLogs Access SettingsServer.
Local Open Scope Z_scope.

(** ** The table *)

Record AuditLog := mkAuditLog { row_id : Z; created_at : Z; row_entry : Entry }.

(** The rows, and the last id given out ([AUTOINCREMENT] gives none twice). *)
Record AuditTable := mkAuditTable { audit_rows : list AuditLog; last_id : Z }.

(** [s LIKE p] *)
Fixpoint like (p : string) : string -> bool :=
  match p with
  | EmptyString => fun s => String.eqb s ""
  | String c p =>
      if Ascii.eqb c "%" then
        fix any (s : string) : bool :=
          like p s || match s with EmptyString => false | String _ s => any s end
      else fun s =>
        match s with
        | EmptyString => false
        | String d s => (Ascii.eqb c "_" || Ascii.eqb (lower_ascii c) (lower_ascii d)) && like p s
        end
  end.

#[global] Instance Entry_eq_dec : EqDecision Entry.
Proof. solve_decision. Defined.
#[global] Instance AuditLog_eq_dec : EqDecision AuditLog.
Proof. solve_decision. Defined.

(** The condition both queries share. *)
Definition where_ (query source outcome : string) (row : AuditLog) : bool :=
  let e := row_entry row in
  (String.eqb query ""
   || like ("%" +:+ query +:+ "%") (Actor e)
   || like ("%" +:+ query +:+ "%") (Action e)
   || like ("%" +:+ query +:+ "%") (ResourceID e)
   || like ("%" +:+ query +:+ "%") (Detail e))
  && (String.eqb source "" || String.eqb (Source e) source)
  && (String.eqb outcome "" || String.eqb (Outcome e) outcome).

(** [ORDER BY created_at DESC, id DESC] *)
Definition newest_first (a b : AuditLog) : bool :=
  (created_at b <? created_at a) || ((created_at a =? created_at b) && (row_id b <=? row_id a)).

Definition select (query source outcome : string) (t : AuditTable) : list AuditLog :=
  toSorted newest_first (List.filter (where_ query source outcome) (audit_rows t)).

Definition ListAuditLogs_query (query source outcome : string) (limit offset : Z) (t : AuditTable) : list AuditLog :=
  take (Z.to_nat limit) (drop (Z.to_nat offset) (select query source outcome t)).

Definition CountAuditLogs (query source outcome : string) (t : AuditTable) : Z :=
  Z.of_nat (length (List.filter (where_ query source outcome) (audit_rows t))).

Definition CreateAuditLog (now : Z) (e : Entry) (t : AuditTable) : AuditTable :=
  mkAuditTable (audit_rows t ++ [mkAuditLog (last_id t + 1) now e]) (last_id t + 1).

Definition TrimAuditLogsBefore (cutoff : Z) (t : AuditTable) : AuditTable :=
  mkAuditTable (List.filter (fun row => negb (created_at row <? cutoff)) (audit_rows t)) (last_id t).

(** ** The recorder *)

Definition maxDetailLen : nat := 2000.

Definition set_detail (detail : string) (e : Entry) : Entry :=
  mkEntry (Actor e) (ActorRole e) (Source e) (Action e) (ResourceType e) (ResourceID e) (Outcome e) detail.

Definition day : Z := 86400.

(** [setting] is the stored retention; [writes] and [trims] are whether the database takes
    the insertion and the trim. *)
Definition Record_entry (writes trims : bool) (setting : query string) (now : Z) (e : Entry) (t : AuditTable) : AuditTable :=
  let detail := if (maxDetailLen <? String.length (Detail e))%nat then slice_to maxDetailLen (Detail e) else Detail e in
  if writes then
    let t := CreateAuditLog now (set_detail detail e) t in
    let cutoff := now - retentionDays setting * day in
    if trims then TrimAuditLogsBefore cutoff t else t
  else t.

(** ** The handler of the page's request *)

Definition defaultAuditLimit : Z := 50.
Definition maxAuditLimit : Z := 200.
Definition maxAuditOffset : Z := 2 ^ 40.

Definition auditSourceToString (src : Z) : string :=
  if src =? 1 then "user" else if src =? 2 then "system" else "".

Definition auditOutcomeToString (outcome : Z) : string :=
  if outcome =? 1 then "success" else if outcome =? 2 then "failure" else if outcome =? 3 then "denied" else "".

Definition auditSourceToProto (src : string) : Z :=
  if String.eqb src "user" then 1 else if String.eqb src "system" then 2 else 0.

Definition auditOutcomeToProto (outcome : string) : Z :=
  if String.eqb outcome "success" then 1
  else if String.eqb outcome "failure" then 2 else if String.eqb outcome "denied" then 3 else 0.

Definition entry_proto (row : AuditLog) : AuditLogEntry :=
  let e := row_entry row in
  mkAuditLogEntry (Z.max (row_id row) 0) (Some (mkTimestamp (created_at row) 0)) (Actor e) (ActorRole e)
    (auditSourceToProto (Source e)) (Action e) (ResourceType e) (ResourceID e)
    (auditOutcomeToProto (Outcome e)) (Detail e).

(** [t] is the table, [None] where there is no storage; [reads] whether the database
    answers. *)
Definition ListAuditLogs_ (reads : bool) (t : option AuditTable) (req : ListAuditLogsRequest) :
    ListAuditLogsResponse + handler_error :=
  match t with
  | None => inr (Coded CodeInternal "audit storage unavailable")
  | Some t =>
      let limit := ListAuditLogsRequest_limit req in
      let limit := if limit <=? 0 then defaultAuditLimit else limit in
      let limit := if maxAuditLimit <? limit then maxAuditLimit else limit in
      let source := auditSourceToString (ListAuditLogsRequest_source req) in
      let outcome := auditOutcomeToString (ListAuditLogsRequest_outcome req) in
      let offset := Z.min (ListAuditLogsRequest_offset req) maxAuditOffset in
      if negb reads then inr (Coded CodeInternal "failed to list audit logs")
      else
        let rows := ListAuditLogs_query (ListAuditLogsRequest_query req) source outcome limit offset t in
        let total := CountAuditLogs (ListAuditLogsRequest_query req) source outcome t in
        inl (mkListAuditLogsResponse (entry_proto <$> rows) (Z.max total 0))
  end.

(** ** The search *)

(** A search text without the wildcards of [LIKE]. *)
Fixpoint plain (q : string) : bool :=
  match q with EmptyString => true | String c q => negb (Ascii.eqb c "%") && negb (Ascii.eqb c "_") && plain q end.

Lemma like_percent (p s : string) :
  like (String "%" p) s = like p s || match s with EmptyString => false | String _ s => like (String "%" p) s end.
Proof. by destruct s. Qed.

Lemma like_any (s : string) : like "%" s = true.
Proof. induction s as [|c s IH]; rewrite like_percent; [done|]. by rewrite IH, orb_true_r. Qed.

Lemma like_prefix (q s : string) : plain q = true -> like (q +:+ "%") s = startsWith (toLowerCase q) (toLowerCase s).
Proof.
  revert s. induction q as [|c q IH]; intros s Hq; [by rewrite append_nil_l, like_any|].
  simpl in Hq. apply andb_true_iff in Hq as [[Hp Hu]%andb_true_iff Hq].
  apply negb_true_iff in Hp, Hu. rewrite append_cons. cbn [like]. rewrite Hp, Hu.
  destruct s as [|d s]; [done|]. cbn. by rewrite IH.
Qed.

(** On a plain text the search is the substring search the interface documents. *)
Lemma like_substring (q s : string) :
  plain q = true -> like ("%" +:+ q +:+ "%") s = includes (toLowerCase q) (toLowerCase s).
Proof.
  intros Hq. rewrite append_cons, append_nil_l.
  induction s as [|c s IH]; rewrite like_percent, like_prefix by done; cbn [toLowerCase map_string includes]; [done|].
  by rewrite IH.
Qed.

(** The wildcards reach the database as they are typed: a search for an underscore or a
    percent sign finds rows that contain neither. *)
Lemma search_wildcards :
  like ("%" +:+ "_" +:+ "%") "container.start" = true /\ includes "_" "container.start" = false
  /\ like ("%" +:+ "1%9" +:+ "%") "10.0.0.9" = true /\ includes "1%9" "10.0.0.9" = false.
Proof. by vm_compute. Qed.

(** ** Paging *)

Lemma newest_first_total (x y : AuditLog) : newest_first x y = true \/ newest_first y x = true.
Proof.
  unfold newest_first. destruct (Z.ltb_spec (created_at y) (created_at x)), (Z.ltb_spec (created_at x) (created_at y)),
    (Z.eqb_spec (created_at x) (created_at y)), (Z.eqb_spec (created_at y) (created_at x)),
    (Z.leb_spec (row_id y) (row_id x)), (Z.leb_spec (row_id x) (row_id y)); simpl; auto; lia.
Qed.

Lemma newest_first_spec (x y : AuditLog) : newest_first x y = true <->
  created_at y < created_at x \/ (created_at x = created_at y /\ row_id y <= row_id x).
Proof.
  unfold newest_first. rewrite orb_true_iff, andb_true_iff, Z.ltb_lt, Z.eqb_eq, Z.leb_le. done.
Qed.

Lemma select_sorted (q src out : string) (t : AuditTable) :
  StronglySorted (fun a b => newest_first a b = true) (select q src out t).
Proof.
  apply toSorted_sorted; [apply newest_first_total|].
  intros x y z. rewrite !newest_first_spec. lia.
Qed.

(** Cutting a list into pages and putting them together again. *)
Lemma pages_concat {A} (k n : nat) (l : list A) :
  concat (map (fun p => take k (drop (p * k) l)) (seq 0 n)) = take (n * k) l.
Proof.
  induction n as [|n IH]; [done|]. rewrite seq_S, List.map_app, concat_app, IH. simpl. rewrite app_nil_r.
  replace (k + n * k)%nat with (n * k + k)%nat by lia. by rewrite take_take_drop.
Qed.

(** What the page is given for page [p] of its filters. *)
Definition page_entries (q : string) (src : AuditSourceFilter) (out : AuditOutcomeFilter) (p : nat) (t : AuditTable) :
    list AuditLogEntry :=
  match ListAuditLogs_ true (Some t) (request_of (q, src, out, Z.of_nat p)) with
  | inl resp => ListAuditLogsResponse_entries resp
  | inr _ => []
  end.

Definition matching (q : string) (src : AuditSourceFilter) (out : AuditOutcomeFilter) (t : AuditTable) : list AuditLog :=
  select q (auditSourceToString (source_value src)) (auditOutcomeToString (outcome_value out)) t.

Lemma page_entries_slice (q : string) (src : AuditSourceFilter) (out : AuditOutcomeFilter) (p : nat) (t : AuditTable) :
  Z.of_nat p * 50 <= 2 ^ 40 ->
  page_entries q src out p t = entry_proto <$> take 50 (drop (p * 50) (matching q src out t)).
Proof.
  intros Hp. unfold page_entries, ListAuditLogs_, request_of; simpl. unfold ListAuditLogs_query, matching, AUDIT_PAGE_SIZE, maxAuditOffset.
  rewrite Z.min_l by lia. do 3 f_equal. lia.
Qed.

Lemma in_select (q src out : string) (t : AuditTable) (row : AuditLog) :
  row ∈ select q src out t <-> row ∈ audit_rows t /\ where_ q src out row = true.
Proof.
  unfold select. rewrite (toSorted_perm newest_first). rewrite !list_elem_of_In. apply List.filter_In.
Qed.

Lemma select_length (q src out : string) (t : AuditTable) :
  Z.of_nat (length (select q src out t)) = CountAuditLogs q src out t.
Proof. unfold select, CountAuditLogs. by rewrite (Permutation_length (toSorted_perm newest_first _)). Qed.

Lemma count_le (q src out : string) (t : AuditTable) :
  0 <= CountAuditLogs q src out t <= Z.of_nat (length (audit_rows t)).
Proof.
  unfold CountAuditLogs. split; [lia|]. apply inj_le.
  induction (audit_rows t) as [|x l IH]; simpl; [lia|]. destruct (where_ _ _ _ x); simpl; lia.
Qed.

Lemma filter_nodup (f : AuditLog -> bool) (l : list AuditLog) :
  NoDup (row_id <$> l) -> NoDup (row_id <$> List.filter f l).
Proof.
  induction l as [|x l IH]; simpl; [done|]. rewrite NoDup_cons. intros [Hx Hl]. destruct (f x); simpl; [|by apply IH].
  apply NoDup_cons. split; [|by apply IH]. intros (y & E & Hy)%list_elem_of_fmap. apply Hx. rewrite E.
  apply list_elem_of_fmap_2. apply list_elem_of_In in Hy. apply List.filter_In in Hy as [Hy _]. by apply list_elem_of_In.
Qed.

(** C18: paging through the trail misses nothing and repeats nothing: for any filters of the
    page, its pages, from the first to the last it offers for the total it is told, are
    together the rows of the table that match, each once, newest first (the later id
    first among those of one second), each page at most fifty of them. *)
Theorem pages_cover_trail (q : string) (src : AuditSourceFilter) (out : AuditOutcomeFilter) (t : AuditTable)
    (Hsmall : Z.of_nat (length (audit_rows t)) <= 2 ^ 40) (s : AuditLogs.State)
    (Htotal : forall p, exists entries, ListAuditLogs_ true (Some t) (request_of (q, src, out, p))
                = inl (mkListAuditLogsResponse entries (total s))) :
  concat ((fun p => page_entries q src out p t) <$> seq 0 (Z.to_nat (pages s))) = entry_proto <$> matching q src out t
  /\ (forall row, row ∈ matching q src out t <-> row ∈ audit_rows t /\
       where_ q (auditSourceToString (source_value src)) (auditOutcomeToString (outcome_value out)) row = true)
  /\ (NoDup (row_id <$> audit_rows t) -> NoDup (row_id <$> matching q src out t))
  /\ StronglySorted (fun a b => newest_first a b = true) (matching q src out t)
  /\ (forall p, (length (page_entries q src out p t) <= 50)%nat).
Proof.
  set (n := Z.to_nat (pages s)).
  assert (Ht : total s = Z.of_nat (length (matching q src out t))).
  { destruct (Htotal 0) as [es E]. unfold matching. rewrite select_length.
    unfold ListAuditLogs_, request_of in E. simpl in E. injection E as _ <-.
    pose proof (count_le q (auditSourceToString (source_value src)) (auditOutcomeToString (outcome_value out)) t). lia. }
  assert (Hle : Z.of_nat (length (matching q src out t)) <= 2 ^ 40).
  { pose proof (count_le q (auditSourceToString (source_value src)) (auditOutcomeToString (outcome_value out)) t).
    unfold matching. rewrite select_length. lia. }
  assert (En : Z.of_nat n = Z.max 1 ((Z.of_nat (length (matching q src out t)) + 49) / 50)).
  { unfold n, pages, AUDIT_PAGE_SIZE. rewrite Ht, Z2Nat.id by lia. do 2 f_equal. lia. }
  clearbody n. assert (Hn : (length (matching q src out t) <= n * 50)%nat /\
    (n = 1%nat \/ (Z.of_nat n - 1) * 50 < Z.of_nat (length (matching q src out t)))).
  { pose proof (Z.div_mod (Z.of_nat (length (matching q src out t)) + 49) 50 ltac:(lia)).
    pose proof (Z.mod_pos_bound (Z.of_nat (length (matching q src out t)) + 49) 50 ltac:(lia)). lia. }
  split; [|split; [apply in_select|split; [|split; [apply select_sorted|]]]].
  - transitivity (concat (map (map entry_proto) (map (fun p => take 50 (drop (p * 50) (matching q src out t))) (seq 0 n)))).
    + f_equal. rewrite map_map. apply List.map_ext_in. intros p [_ Hp]%List.in_seq.
      apply page_entries_slice. lia.
    + rewrite <- List.concat_map, pages_concat. by rewrite take_ge by exact (proj1 Hn).
  - intros Hnd. unfold matching, select. rewrite (toSorted_perm newest_first). by apply filter_nodup.
  - intros p. unfold page_entries, ListAuditLogs_, request_of; simpl. rewrite length_fmap.
    unfold ListAuditLogs_query, AUDIT_PAGE_SIZE. rewrite length_take. lia.
Qed.

Lemma pages_cover_trail_witness :
  let e := mkEntry "root" "admin" "user" "image.prune" "image" "" "success" "" in
  let t := mkAuditTable [mkAuditLog 1 100 e; mkAuditLog 2 100 e] 2 in
  let s := setTotal 2 initial in
  concat ((fun p => page_entries "" SOURCE_ALL OUTCOME_ALL p t) <$> seq 0 (Z.to_nat (pages s)))
  = [entry_proto (mkAuditLog 2 100 e); entry_proto (mkAuditLog 1 100 e)].
Proof.
  intros e t s. destruct (pages_cover_trail "" SOURCE_ALL OUTCOME_ALL t ltac:(simpl; lia) s) as [H _].
  - intros p. eexists. reflexivity.
  - exact H.
Defined.

Lemma auditSource_filter (src : AuditSourceFilter) (e : string) :
  src <> SOURCE_ALL -> e = auditSourceToString (source_value src) -> auditSourceToProto e = source_value src.
Proof. by destruct src; intros; subst. Qed.

Lemma auditOutcome_filter (out : AuditOutcomeFilter) (e : string) :
  out <> OUTCOME_ALL -> e = auditOutcomeToString (outcome_value out) -> auditOutcomeToProto e = outcome_value out.
Proof. by destruct out; intros; subst. Qed.

(** what a page lists is what its filters ask for: every entry has the source and the
    outcome picked, as the page reads them, and, when the search text has no wildcard
    of the database's, has it in its actor, action, resource or detail, whatever the
    case of its letters. *)
Theorem listed_match (q : string) (src : AuditSourceFilter) (out : AuditOutcomeFilter) (p : nat) (t : AuditTable)
    (e : AuditLogEntry) (He : e ∈ page_entries q src out p t) :
  (src <> SOURCE_ALL -> AuditLogEntry_source e = source_value src)
  /\ (out <> OUTCOME_ALL -> AuditLogEntry_outcome e = outcome_value out)
  /\ (plain q = true -> exists text,
       text ∈ [AuditLogEntry_actor e; AuditLogEntry_action e; AuditLogEntry_resourceId e; AuditLogEntry_detail e]
       /\ includes (toLowerCase q) (toLowerCase text) = true).
Proof.
  unfold page_entries, ListAuditLogs_, request_of in He; simpl in He.
  apply list_elem_of_fmap in He as (row & -> & Hrow). unfold ListAuditLogs_query in Hrow.
  apply elem_of_take in Hrow as (i & Hrow & _). rewrite lookup_drop in Hrow.
  apply list_elem_of_lookup_2, in_select in Hrow as [_ Hw]. unfold where_ in Hw.
  apply andb_true_iff in Hw as [[Hq Hs]%andb_true_iff Ho].
  apply orb_true_iff in Hs, Ho. rewrite !String.eqb_eq in Hs, Ho. split; [|split].
  - intros Hsrc. apply auditSource_filter; [done|]. destruct Hs as [Hs|Hs]; [by destruct src|done].
  - intros Hout. apply auditOutcome_filter; [done|]. destruct Ho as [Ho|Ho]; [by destruct out|done].
  - intros Hp. simpl. rewrite !like_substring in Hq by done. apply orb_true_iff in Hq as [Hq|Hq];
      [apply orb_true_iff in Hq as [Hq|Hq]; [apply orb_true_iff in Hq as [Hq|Hq]; [apply orb_true_iff in Hq as [Hq|Hq]|]|]|].
    + apply String.eqb_eq in Hq as ->. exists (Actor (row_entry row)). split; [by apply elem_of_cons; left|].
      by destruct (toLowerCase (Actor (row_entry row))).
    + eexists. split; [|exact Hq]. set_solver.
    + eexists. split; [|exact Hq]. set_solver.
    + eexists. split; [|exact Hq]. set_solver.
    + eexists. split; [|exact Hq]. set_solver.
Qed.

Lemma listed_match_witness :
  let e := mkEntry "root" "admin" "user" "image.prune" "image" "" "denied" "" in
  let t := mkAuditTable [mkAuditLog 1 100 e] 1 in
  exists x, page_entries "PRUNE" SOURCE_USER OUTCOME_DENIED 0 t = [x]
  /\ AuditLogEntry_source x = 1 /\ AuditLogEntry_outcome x = 3.
Proof.
  intros e t. exists (entry_proto (mkAuditLog 1 100 e)).
  assert (H : page_entries "PRUNE" SOURCE_USER OUTCOME_DENIED 0 t = [entry_proto (mkAuditLog 1 100 e)]) by reflexivity.
  destruct (listed_match "PRUNE" SOURCE_USER OUTCOME_DENIED 0 t (entry_proto (mkAuditLog 1 100 e))) as (Hs & Ho & _).
  { rewrite H. by apply elem_of_cons; left. }
  split; [exact H|]. split; [by apply Hs|by apply Ho].
Defined.

(** ** Recording *)

(** The rows were written by [now], under ids already given out. *)
Definition table_ok (now : Z) (t : AuditTable) : Prop :=
  0 <= last_id t /\ NoDup (row_id <$> audit_rows t)
  /\ Forall (fun row => created_at row <= now /\ row_id row <= last_id t) (audit_rows t).

Lemma retention_positive (setting : query string) : 0 < retentionDays setting.
Proof.
  assert (H : retentionDays setting ∈ ValidRetentionDayList).
  { destruct setting as [v| |]; [exact (effective_preset (Some v))|exact (effective_preset None)|exact (effective_preset None)]. }
  unfold ValidRetentionDayList in H. rewrite !elem_of_cons, elem_of_nil in H. lia.
Qed.

Lemma startsWith_refl (s : string) : startsWith s s = true.
Proof. rewrite <- (append_nil_r s) at 2. apply startsWith_append. Qed.

Lemma head_fmap_take {A B} (f : A -> B) (n : nat) (l : list A) : head (f <$> take (S n) l) = f <$> head l.
Proof. by destruct l. Qed.

(** The row that comes before all others heads a selection. *)
Lemma select_head (q src out : string) (t : AuditTable) (row : AuditLog) :
  row ∈ select q src out t ->
  (forall r, r ∈ audit_rows t -> r <> row -> newest_first r row = false) ->
  head (select q src out t) = Some row.
Proof.
  intros Hin Hfirst. pose proof (select_sorted q src out t) as Hs.
  assert (Hsub : forall r, r ∈ select q src out t -> r ∈ audit_rows t) by (by intros r [Hr _]%in_select).
  destruct (select q src out t) as [|x l]; [by apply elem_of_nil in Hin|]. simpl. f_equal.
  apply elem_of_cons in Hin as [->|Hin]; [done|].
  inversion Hs as [|? ? _ Hx]; subst. rewrite List.Forall_forall in Hx. apply list_elem_of_In in Hin. specialize (Hx row Hin).
  destruct (decide (x = row)) as [|Hne]; [done|]. rewrite (Hfirst x) in Hx; [done| |done]. apply Hsub. set_solver.
Qed.

(** recording an action: unless the database refuses the row, the newest entry an
    administrator sees is the action's, with its detail cut to 2000 bytes; with the
    trim, what is kept besides is every row younger than the retention window and no
    other; ids stay distinct; and a refused row or trim loses nothing. *)
Theorem recorded_first (writes trims : bool) (setting : query string) (now : Z) (e : Entry) (t : AuditTable)
    (Ht : table_ok now t) :
  let t' := Record_entry writes trims setting now e t in
  table_ok now t'
  /\ (writes = false -> t' = t)
  /\ (writes = true -> exists detail,
       (String.length detail <= 2000)%nat /\ startsWith detail (Detail e) = true
       /\ (String.length (Detail e) <= 2000 -> detail = Detail e)%nat
       /\ let row := mkAuditLog (last_id t + 1) now (set_detail detail e) in
          head (page_entries "" SOURCE_ALL OUTCOME_ALL 0 t') = Some (entry_proto row)
          /\ audit_rows t' = (if trims
               then List.filter (fun r => now - retentionDays setting * day <=? created_at r) (audit_rows t)
               else audit_rows t) ++ [row]).
Proof.
  intros t'. destruct Ht as (Hid & Hnd & Hf). unfold Record_entry in t'. revert t'.
  set (detail := if (maxDetailLen <? String.length (Detail e))%nat then slice_to maxDetailLen (Detail e) else Detail e).
  intros t'. destruct writes; [|split; [by repeat split|by split]].
  set (row := mkAuditLog (last_id t + 1) now (set_detail detail e)).
  assert (Hcut : (created_at row <? now - retentionDays setting * day) = false).
  { apply Z.ltb_ge. pose proof (retention_positive setting). simpl. unfold day. lia. }
  assert (Erows : audit_rows t' = (if trims
      then List.filter (fun r => now - retentionDays setting * day <=? created_at r) (audit_rows t)
      else audit_rows t) ++ [row]).
  { subst t'. destruct trims; [|done]. unfold TrimAuditLogsBefore, CreateAuditLog. cbn [audit_rows last_id]. fold row.
    rewrite List.filter_app. f_equal.
    - apply List.filter_ext. intros r. by rewrite <- Z.leb_antisym.
    - cbn [List.filter]. by rewrite Hcut. }
  assert (Elast : last_id t' = last_id t + 1) by (subst t'; by destruct trims).
  assert (Hold : forall r, r ∈ audit_rows t' -> r = row \/ r ∈ audit_rows t).
  { intros r. rewrite Erows, elem_of_app, list_elem_of_singleton. intros [Hr| ->]; [right|by left].
    destruct trims; [|done]. apply list_elem_of_In in Hr. apply List.filter_In in Hr as [Hr _]. by apply list_elem_of_In. }
  rewrite List.Forall_forall in Hf.
  assert (Hok : forall r, r ∈ audit_rows t -> created_at r <= now /\ row_id r <= last_id t).
  { intros r Hr. by apply Hf, list_elem_of_In. }
  split; [|split; [done|]].
  - unfold table_ok. rewrite Elast. split; [lia|]. split.
    + rewrite Erows, fmap_app. apply NoDup_app. split; [|split; [|apply NoDup_singleton]].
      * destruct trims; [by apply filter_nodup|done].
      * intros i (r & -> & Hr)%list_elem_of_fmap Hi. apply list_elem_of_singleton in Hi. simpl in Hi.
        destruct (Hok r); [|lia]. destruct trims; [|done].
        apply list_elem_of_In in Hr. apply List.filter_In in Hr as [Hr _]. by apply list_elem_of_In.
    + apply List.Forall_forall. intros r Hr%list_elem_of_In. destruct (Hold r Hr) as [->|H]; [simpl; lia|].
      destruct (Hok r H). lia.
  - intros _. exists detail. split_and!.
    + subst detail. destruct (Nat.ltb_spec maxDetailLen (String.length (Detail e))); unfold maxDetailLen in *; [|lia].
      rewrite slice_to_length. lia.
    + subst detail. destruct (_ <? _)%nat; [|apply startsWith_refl].
      rewrite <- (slice_split maxDetailLen (Detail e)) at 2. apply startsWith_append.
    + intros Hlen. subst detail. unfold maxDetailLen. by rewrite (proj2 (Nat.ltb_ge _ _) Hlen).
    + rewrite page_entries_slice by lia. rewrite drop_0. unfold matching.
      rewrite head_fmap_take. rewrite (select_head _ _ _ _ row); [done| |].
      * apply in_select. split; [|done]. rewrite Erows. apply elem_of_app. right. by apply list_elem_of_singleton.
      * intros r Hr Hne. destruct (Hold r Hr) as [->|H]; [done|]. destruct (Hok r H).
        apply not_true_iff_false. rewrite newest_first_spec. simpl. lia.
Qed.

Lemma recorded_first_witness :
  let e := mkEntry "root" "admin" "user" "image.prune" "image" "" "success" "3 images" in
  let t := mkAuditTable [mkAuditLog 1 100 e; mkAuditLog 2 (100 * day) e] 2 in
  table_ok (101 * day) t /\
  audit_rows (Record_entry true true (Row "30"%string) (101 * day) e t) = [mkAuditLog 2 (100 * day) e; mkAuditLog 3 (101 * day) e].
Proof.
  intros e t. assert (H : table_ok (101 * day) t).
  { split; [done|]. split; [apply (bool_decide_unpack _); vm_compute; exact I|]. repeat constructor; vm_compute; discriminate. }
  split; [exact H|].
  destruct (recorded_first true true (Row "30"%string) (101 * day) e t H) as (_ & _ & Hr).
  destruct (Hr eq_refl) as (detail & _ & _ & Hd & _ & ->). rewrite Hd by (vm_compute; lia). reflexivity.
Defined.
