(* ===== verification/SystemLogs.v ===== *)
(** The system logs page (frontend/src/components/SystemLogs.tsx): filters, the
    fetch they trigger, the background refresh, and the rows. *)
From S2P Require Import Prelude Async Json Proto.

#[global] Instance GetSystemLogsRequest_eq_dec : EqDecision GetSystemLogsRequest.
Proof. solve_decision. Defined.

(** The filters make up the request: [GetSystemLogsRequest] with the limit, the
    level and the query.  [fetchDeps] and [intervalDeps] are what the two effects
    last ran with ([None] when the effect has to run); [timers] are the intervals
    the browser holds, each with the filters its callback closed over. *)
Record State := mkState {
  logs : list LogEntry;
  loading : bool;
  error : option string;
  searchQuery : string;
  levelFilter : string;
  limit : Z;
  autoRefreshInterval : Z;
  expandedLogIds : gmap nat bool;
  fetchDeps : option GetSystemLogsRequest;
  intervalDeps : option (Z * GetSystemLogsRequest);
  intervalRef : option nat;
  timers : gmap nat GetSystemLogsRequest;
  nextTimer : nat
}.

Definition setLogs (v : list LogEntry) (s : State) : State :=
  mkState v (loading s) (error s) (searchQuery s) (levelFilter s) (limit s)
    (autoRefreshInterval s) (expandedLogIds s) (fetchDeps s) (intervalDeps s) (intervalRef s)
    (timers s) (nextTimer s).
Definition setLoading (v : bool) (s : State) : State :=
  mkState (logs s) v (error s) (searchQuery s) (levelFilter s) (limit s) (autoRefreshInterval s)
    (expandedLogIds s) (fetchDeps s) (intervalDeps s) (intervalRef s) (timers s) (nextTimer s).
Definition setError (v : option string) (s : State) : State :=
  mkState (logs s) (loading s) v (searchQuery s) (levelFilter s) (limit s)
    (autoRefreshInterval s) (expandedLogIds s) (fetchDeps s) (intervalDeps s) (intervalRef s)
    (timers s) (nextTimer s).
Definition setSearchQuery (v : string) (s : State) : State :=
  mkState (logs s) (loading s) (error s) v (levelFilter s) (limit s) (autoRefreshInterval s)
    (expandedLogIds s) (fetchDeps s) (intervalDeps s) (intervalRef s) (timers s) (nextTimer s).
Definition setLevelFilter (v : string) (s : State) : State :=
  mkState (logs s) (loading s) (error s) (searchQuery s) v (limit s) (autoRefreshInterval s)
    (expandedLogIds s) (fetchDeps s) (intervalDeps s) (intervalRef s) (timers s) (nextTimer s).
Definition setLimit (v : Z) (s : State) : State :=
  mkState (logs s) (loading s) (error s) (searchQuery s) (levelFilter s) v
    (autoRefreshInterval s) (expandedLogIds s) (fetchDeps s) (intervalDeps s) (intervalRef s)
    (timers s) (nextTimer s).
Definition setAutoRefreshInterval (v : Z) (s : State) : State :=
  mkState (logs s) (loading s) (error s) (searchQuery s) (levelFilter s) (limit s) v
    (expandedLogIds s) (fetchDeps s) (intervalDeps s) (intervalRef s) (timers s) (nextTimer s).
Definition setExpandedLogIds (v : gmap nat bool) (s : State) : State :=
  mkState (logs s) (loading s) (error s) (searchQuery s) (levelFilter s) (limit s)
    (autoRefreshInterval s) v (fetchDeps s) (intervalDeps s) (intervalRef s) (timers s)
    (nextTimer s).
Definition setFetchDeps (v : option GetSystemLogsRequest) (s : State) : State :=
  mkState (logs s) (loading s) (error s) (searchQuery s) (levelFilter s) (limit s)
    (autoRefreshInterval s) (expandedLogIds s) v (intervalDeps s) (intervalRef s) (timers s)
    (nextTimer s).
Definition setIntervalDeps (v : option (Z * GetSystemLogsRequest)) (s : State) : State :=
  mkState (logs s) (loading s) (error s) (searchQuery s) (levelFilter s) (limit s)
    (autoRefreshInterval s) (expandedLogIds s) (fetchDeps s) v (intervalRef s) (timers s)
    (nextTimer s).
Definition setIntervalRef (v : option nat) (s : State) : State :=
  mkState (logs s) (loading s) (error s) (searchQuery s) (levelFilter s) (limit s)
    (autoRefreshInterval s) (expandedLogIds s) (fetchDeps s) (intervalDeps s) v (timers s)
    (nextTimer s).
Definition setTimers (v : gmap nat GetSystemLogsRequest) (s : State) : State :=
  mkState (logs s) (loading s) (error s) (searchQuery s) (levelFilter s) (limit s)
    (autoRefreshInterval s) (expandedLogIds s) (fetchDeps s) (intervalDeps s) (intervalRef s) v
    (nextTimer s).
Definition setNextTimer (v : nat) (s : State) : State :=
  mkState (logs s) (loading s) (error s) (searchQuery s) (levelFilter s) (limit s)
    (autoRefreshInterval s) (expandedLogIds s) (fetchDeps s) (intervalDeps s) (intervalRef s)
    (timers s) v.

Definition initial : State :=
  mkState [] true None "" "" 100 10000 ∅ None None None ∅ 0.

Definition toggleExpandLog (index : nat) (s : State) : State :=
  setExpandedLogIds (<[index := negb (default false (expandedLogIds s !! index))]> (expandedLogIds s)) s.

Inductive Req := GetSystemLogs (request : GetSystemLogsRequest).
Definition Resp (r : Req) : Type := GetSystemLogsResponse.

Abbreviation handler := (async State Req Resp unit).
Local Open Scope async_scope.

(** The filters of a render. *)
Definition filters (s : State) : GetSystemLogsRequest :=
  mkGetSystemLogsRequest (limit s) (levelFilter s) (searchQuery s).

(** [fetchLogs] of the render with these filters. *)
Definition fetchLogs (request : GetSystemLogsRequest) : handler :=
  modify (setLoading true) ;;;
  modify (setError None) ;;;
  try
    (try
      (resp <- rpc (Resp := Resp) (GetSystemLogs request) ;;
       modify (setLogs (GetSystemLogsResponse_entries resp)))
     catch (fun err => modify (setError (Some (errText err)))))
  finally (modify (setLoading false)).

(** The callback of an interval: a refresh nothing shows. *)
Definition silent_refresh (request : GetSystemLogsRequest) : handler :=
  try
    (resp <- rpc (Resp := Resp) (GetSystemLogs request) ;;
     modify (setLogs (GetSystemLogsResponse_entries resp)))
  catch (fun err => Ret tt).

(** [clearInterval] of the interval in the ref, the ref kept or cleared. *)
Definition clear_interval (s : State) : State :=
  match intervalRef s with Some t => setTimers (delete t (timers s)) s | None => s end.

(** The interval effect: the cleanup of the run before it, its own clearing, then
    the new interval. *)
Definition interval_body (s : State) : State :=
  let s := match intervalRef s with Some _ => setIntervalRef None (clear_interval s) | None => s end in
  if Z.ltb 0 (autoRefreshInterval s)
  then setIntervalRef (Some (nextTimer s))
         (setTimers (<[nextTimer s := filters s]> (timers s)) (setNextTimer (S (nextTimer s)) s))
  else s.

Definition interval_effect (s : State) : State :=
  if bool_decide (intervalDeps s = Some (autoRefreshInterval s, filters s)) then s
  else
    let s := match intervalDeps s with Some _ => clear_interval s | None => s end in
    setIntervalDeps (Some (autoRefreshInterval s, filters s)) (interval_body s).

(** The fetch effect: it runs when a filter changed. *)
Definition fetch_effect : handler :=
  s <- gets id ;;
  if bool_decide (fetchDeps s = Some (filters s)) then Ret tt
  else modify (setFetchDeps (Some (filters s))) ;;; fetchLogs (filters s).

(** The cleanup of the interval effect when the page is left. *)
Definition unmount (s : State) : State := setIntervalDeps None (clear_interval s).

Inductive event :=
| FetchEffect | IntervalEffect | Unmount
| QueryTyped (v : string) | LevelSelected (v : string) | LimitSelected (v : Z) | IntervalSelected (ms : Z)
| RefreshClicked | IntervalFires (t : nat) | ExpandClicked (row : nat).

(** The options of the selects. *)
Definition level_options : list string := [""; "DEBUG"; "INFO"; "WARN"; "ERROR"]%string.
Definition limit_options : list Z := [50; 100; 200; 500]%Z.
Definition interval_options : list Z := [0; 3000; 5000; 10000; 30000]%Z.

Definition on_event (e : event) : handler :=
  match e with
  | FetchEffect => fetch_effect
  | IntervalEffect => modify interval_effect
  | Unmount => modify unmount
  | QueryTyped v => modify (setSearchQuery v)
  | LevelSelected v => if bool_decide (v ∈ level_options) then modify (setLevelFilter v) else Ret tt
  | LimitSelected v => if bool_decide (v ∈ limit_options) then modify (setLimit v) else Ret tt
  | IntervalSelected v => if bool_decide (v ∈ interval_options) then modify (setAutoRefreshInterval v) else Ret tt
  | RefreshClicked => s <- gets id ;; if loading s then Ret tt else fetchLogs (filters s)
  | IntervalFires t =>
      s <- gets id ;;
      match timers s !! t with Some request => silent_refresh request | None => Ret tt end
  | ExpandClicked row => modify (toggleExpandLog row)
  end.

(** ** What is shown *)

Definition is_error (l : LogEntry) : bool :=
  let v := LogEntry_level l in
  String.eqb v "ERROR" || String.eqb v "DPANIC" || String.eqb v "PANIC" || String.eqb v "FATAL".
Definition is_warn (l : LogEntry) : bool :=
  let v := LogEntry_level l in String.eqb v "WARN" || String.eqb v "WARNING".
Definition is_info (l : LogEntry) : bool :=
  let v := LogEntry_level l in String.eqb v "INFO" || String.eqb v "DEBUG".

Definition totalCount (l : list LogEntry) : nat := length l.
Definition errorCount (l : list LogEntry) : nat := length (List.filter is_error l).
Definition warnCount (l : list LogEntry) : nat := length (List.filter is_warn l).
Definition infoCount (l : list LogEntry) : nat := length (List.filter is_info l).

Definition metric (s : State) (f : list LogEntry -> nat) : string :=
  if loading s && (length (logs s) =? 0) then "--" else num (Z.of_nat (f (logs s))).

Definition metrics (s : State) : list (string * string) :=
  [(metric s totalCount, "Buffered Logs"); (metric s errorCount, "Errors"); (metric s warnCount, "Warnings");
   (metric s infoCount, "Info & Debug")]%string.

Inductive LevelIcon := XCircleIcon | AlertTriangleIcon | TerminalIcon | InfoIcon.

Definition getLevelIcon (level : string) : LevelIcon :=
  let lvl := toUpperCase level in
  if includes "ERR" lvl || includes "FAIL" lvl || includes "PANIC" lvl then XCircleIcon
  else if includes "WARN" lvl then AlertTriangleIcon
  else if includes "DEBUG" lvl then TerminalIcon
  else InfoIcon.

(** [n] spaces *)
Fixpoint spaces (n : nat) : string := match n with 0 => "" | S n => String " " (spaces n) end.
Definition newline : string := String (ascii_of_nat 10) EmptyString.

(** [JSON.stringify(v, null, 2)], the value starting at [depth] levels. *)
Fixpoint stringify_indented (depth : nat) (v : json) : string :=
  let line d t := newline +:+ spaces (2 * d) +:+ t in
  match v with
  | JArr (x :: xs) =>
      "[" +:+ join "," ((fix go l := match l with
                                     | [] => []
                                     | y :: l' => line (S depth) (stringify_indented (S depth) y) :: go l'
                                     end) (x :: xs)) +:+ line depth "]"
  | JObj (m :: ms) =>
      "{" +:+ join "," ((fix go l := match l with
                                     | [] => []
                                     | (k, y) :: l' =>
                                         line (S depth) (stringify (JStr k) +:+ ": " +:+ stringify_indented (S depth) y) :: go l'
                                     end) (m :: ms)) +:+ line depth "}"
  | _ => stringify v
  end.

(** The details of a row: re-indented when they are JSON, else as they came. *)
Definition metadata_text (metadata : string) : string :=
  match parse metadata with Some v => stringify_indented 0 v | None => metadata end.

Section Rows.
(** The browser's reading and printing of dates. *)
Context (parseDate : string -> option Z) (toLocaleString : Z -> string).

Definition formatTimestamp (tsStr : string) : string :=
  match parseDate tsStr with Some d => toLocaleString d | None => tsStr end.

Record LogRow := mkLogRow {
  lr_class : string; lr_level : string; lr_time : string; lr_component : string; lr_message : string;
  lr_toggle : option (LevelIcon * string); lr_details : option string
}.

Definition log_row (expanded : gmap nat bool) (index : nat) (l : LogEntry) : LogRow :=
  let isExpanded := default false (expanded !! index) in
  let has := truthy (LogEntry_metadata l) in
  mkLogRow (toLowerCase (LogEntry_level l)) (LogEntry_level l) (formatTimestamp (LogEntry_timestamp l))
    (str_or (LogEntry_component l) "-") (LogEntry_message l)
    (if has then Some (getLevelIcon (LogEntry_level l), if isExpanded then "Hide Details" else "Show Details")%string
     else None)
    (if has && isExpanded then Some (metadata_text (LogEntry_metadata l)) else None).

Definition log_rows (s : State) : list LogRow := imap (log_row (expandedLogIds s)) (logs s).

Definition empty_notice (s : State) : option string :=
  if length (logs s) =? 0 then
    Some (if loading s then "Loading logs from daemon..."%string else "No matching log entries found."%string)
  else None.

(** The table below the controls: its headings and rows, or the notice. *)
Inductive LogTable_ := NoLogs (notice : string) | LogTable (headings : list string) (rows : list LogRow).

Definition log_table (s : State) : LogTable_ :=
  match empty_notice s with
  | Some notice => NoLogs notice
  | None => LogTable ["Level"; "Timestamp"; "Component"; "Message"]%string (log_rows s)
  end.

(** The texts of the options of the three selectors, beside their values. *)
Definition level_texts : list (string * string) :=
  (fun l => (l, if truthy l then l else "All Levels"%string)) <$> level_options.
Definition limit_texts : list (Z * string) := (fun n => (n, num n +:+ " entries")) <$> limit_options.
Definition interval_texts : list (Z * string) :=
  (fun ms => (ms, "Auto Refresh: " +:+ (if Z.eqb ms 0 then "Off" else num (ms / 1000) +:+ "s"))) <$> interval_options.

Record View := mkView {
  refresh_disabled : bool;
  cards : list (string * string);
  search_text : string;
  level_select : string * list (string * string);
  limit_select : Z * list (Z * string);
  interval_select : Z * list (Z * string);
  error_text : option string;
  table : LogTable_
}.

Definition SystemLogs_page (s : State) : View :=
  mkView (loading s) (metrics s) (searchQuery s) (levelFilter s, level_texts) (limit s, limit_texts)
    (autoRefreshInterval s, interval_texts)
    (match error s with Some m => if truthy m then Some m else None | None => None end)
    (log_table s).

(** The page is never blank: it has the notice or a row per entry, numbered as the
    events of its rows are. *)
Theorem page_rows (s : State) :
  match table (SystemLogs_page s) with
  | NoLogs _ => logs s = []
  | LogTable _ rows => logs s <> [] /\ length rows = length (logs s) /\
      forall i l, logs s !! i = Some l -> exists r, rows !! i = Some r /\ lr_message r = LogEntry_message l /\
        (is_Some (lr_details r) <-> truthy (LogEntry_metadata l) = true /\ default false (expandedLogIds s !! i) = true)
  end.
Proof.
  cbn. unfold log_table, empty_notice, log_rows. destruct (Nat.eqb_spec (length (logs s)) 0) as [E|E].
  - by apply nil_length_inv.
  - split; [intros Hn; by rewrite Hn in E|]. split; [by rewrite length_imap|]. intros i l Hi. eexists.
    rewrite list_lookup_imap, Hi. split; [reflexivity|]. split; [done|]. cbn.
    destruct (truthy (LogEntry_metadata l)), (default false (expandedLogIds s !! i)); cbn; split; try done.
    all: by intros [? [=]] || (intros [? ?]; done).
Qed.
End Rows.

(** ** One background refresh *)

(** After the effects of a render: at most the interval in the ref is live, it
    refreshes with the filters of the last run, and it is live exactly when the
    chosen period is not "off". *)
Definition interval_inv (s : State) : Prop :=
  (forall t r, timers s !! t = Some r -> intervalRef s = Some t /\ t < nextTimer s) /\
  (forall t, intervalRef s = Some t -> t < nextTimer s) /\
  match intervalDeps s with
  | None => timers s = ∅
  | Some (ms, r) =>
      if Z.ltb 0 ms then exists t, intervalRef s = Some t /\ timers s = {[t := r]} else timers s = ∅
  end.

Lemma clear_interval_empty (s : State) : interval_inv s -> timers (clear_interval s) = ∅.
Proof.
  intros (Ht & _ & _). unfold clear_interval.
  destruct (intervalRef s) as [t|] eqn:E; cbn.
  - apply map_eq. intros t'. rewrite lookup_empty. destruct (decide (t' = t)) as [->|Hne];
      [apply lookup_delete_eq|]. rewrite lookup_delete_ne by done.
    destruct (timers s !! t') as [r|] eqn:Hr; [|done]. apply Ht in Hr as [? _]. congruence.
  - apply map_eq. intros t'. rewrite lookup_empty. destruct (timers s !! t') as [r|] eqn:Hr; [|done].
    apply Ht in Hr as [? _]. congruence.
Qed.

Lemma interval_body_inv (s : State) :
  timers s = ∅ -> (forall t, intervalRef s = Some t -> t < nextTimer s) ->
  interval_inv (setIntervalDeps (Some (autoRefreshInterval s, filters s)) (interval_body s)).
Proof.
  intros H0 Hr. set (s1 := match intervalRef s with Some _ => setIntervalRef None (clear_interval s) | None => s end).
  assert (timers s1 = ∅ /\ intervalRef s1 = None /\ autoRefreshInterval s1 = autoRefreshInterval s /\
    filters s1 = filters s) as (H1 & H2 & H3 & H4).
  { unfold s1, clear_interval. destruct (intervalRef s) as [t|] eqn:E; [|done]. cbn. rewrite H0, delete_empty.
    by split_and!. }
  unfold interval_body. fold s1. cbv zeta. rewrite H3. destruct (Z.ltb 0 (autoRefreshInterval s)) eqn:E;
    unfold interval_inv; cbn; rewrite E, ?H1, ?H2, ?H4, ?insert_empty.
  - split_and!; [|intros t [= <-]; lia|by eauto].
    intros t r [<- _]%lookup_singleton_Some. split; [done|lia].
  - split_and!; [|done|done]. intros t r. by rewrite lookup_empty.
Qed.

Lemma interval_effect_inv (s : State) :
  interval_inv s ->
  interval_inv (interval_effect s) /\
  intervalDeps (interval_effect s) = Some (autoRefreshInterval s, filters s).
Proof.
  intros Hi. unfold interval_effect. case_bool_decide as E; [done|].
  set (s1 := match intervalDeps s with Some _ => clear_interval s | None => s end).
  assert (timers s1 = ∅ /\ (forall t, intervalRef s1 = Some t -> t < nextTimer s1) /\
    autoRefreshInterval s1 = autoRefreshInterval s /\ filters s1 = filters s) as (H1 & H2 & H3 & H4).
  { pose proof (clear_interval_empty s Hi) as He. destruct Hi as (Ht & Hr & Hd). unfold s1.
    destruct (intervalDeps s) as [[]|]; [|by split_and!].
    unfold clear_interval in *. destruct (intervalRef s) eqn:Er; split_and!; cbn; rewrite ?Er; done. }
  split; [by apply interval_body_inv|]. cbn. by rewrite H3, H4.
Qed.

Lemma interval_inv_same (f : State -> State) (s : State) :
  (timers (f s), intervalRef (f s), nextTimer (f s), intervalDeps (f s)) =
  (timers s, intervalRef s, nextTimer s, intervalDeps s) -> interval_inv s -> interval_inv (f s).
Proof. unfold interval_inv. by intros [= -> -> -> ->]. Qed.

Ltac keeps_interval :=
  repeat first
    [ apply keeps_ret | apply keeps_gets | apply keeps_rpc
    | apply keeps_modify; intros s Hs; apply interval_inv_same; [reflexivity|exact Hs]
    | apply keeps_bind; [|intros ?] | apply keeps_try_catch; [|intros ?] | apply keeps_try_finally
    | case_match ].

Lemma event_keeps_interval (e : event) : keeps interval_inv (on_event e).
Proof.
  destruct e; cbn [on_event]; try (unfold fetch_effect, fetchLogs, silent_refresh; keeps_interval; fail).
  - apply keeps_modify. intros s Hs. by apply interval_effect_inv.
  - apply keeps_modify. intros s Hs. pose proof (clear_interval_empty s Hs) as He.
    destruct Hs as (_ & Hr & _). split_and!; [|..|done].
    + intros t r. cbn. rewrite He. by rewrite lookup_empty.
    + intros t. cbn. unfold clear_interval. destruct (intervalRef s) eqn:E; cbn; rewrite ?E; auto.
Qed.

(** However filters change, the page is left and answers come, once the effect
    has run the browser holds exactly one refresh interval, with the filters and
    the period on the page, or none when the period is "off"; when the page is
    left it holds none. *)
Theorem one_refresh_interval (s : State) (H : pool_reaches (started_by on_event) initial s) :
  size (timers s) <= 1 /\
  timers (interval_effect s) =
    (if Z.ltb 0 (autoRefreshInterval s)
     then {[default 0 (intervalRef (interval_effect s)) := filters s]} else ∅) /\
  timers (unmount s) = ∅.
Proof.
  assert (interval_inv s) as Hi.
  { apply (pool_invariant interval_inv (started_by on_event) initial); [| |exact H].
    - intros m [e ->]. apply event_keeps_interval.
    - split_and!; [|done|done]. intros t r. cbn. by rewrite lookup_empty. }
  split_and!.
  - destruct Hi as (_ & _ & Hd). destruct (intervalDeps s) as [[ms r]|]; [|by rewrite Hd, map_size_empty; lia].
    destruct (Z.ltb 0 ms); [|by rewrite Hd, map_size_empty; lia].
    destruct Hd as (t & _ & ->). by rewrite map_size_singleton.
  - destruct (interval_effect_inv s Hi) as [(_ & _ & Hd) E]. rewrite E in Hd.
    destruct (Z.ltb 0 (autoRefreshInterval s)); [|done]. by destruct Hd as (t & -> & ->).
  - by apply clear_interval_empty.
Qed.

Lemma one_refresh_interval_witness :
  let s := (run (fun _ => inr (JsError "down")) (on_event IntervalEffect) initial).1 in
  size (timers s) <= 1 /\ timers (unmount s) = ∅.
Proof.
  intros s. destruct (one_refresh_interval s) as (H1 & _ & H3); [|by split].
  apply run_reaches. by exists IntervalEffect.
Defined.

(** ** Fetches *)

(** A fetch with the filters on the page locks the refresh button and clears the
    error; its answer replaces the rows, its failure keeps the rows and tells the
    cause, and both unlock the button.  A background refresh changes nothing but
    the rows, and nothing at all when it fails. *)
Theorem fetch_spec (s : State) (r : GetSystemLogsRequest) :
  (exists k, exec (fetchLogs r) s = (setError None (setLoading true s), Blocked (GetSystemLogs r) k) /\
     forall answer s2, exec (k answer) s2 =
       (match answer with
        | inl resp => setLoading false (setLogs (GetSystemLogsResponse_entries resp) s2)
        | inr e => setLoading false (setError (Some (errText e)) s2)
        end, Done tt)) /\
  (exists k, exec (silent_refresh r) s = (s, Blocked (GetSystemLogs r) k) /\
     forall answer s2, exec (k answer) s2 =
       (match answer with inl resp => setLogs (GetSystemLogsResponse_entries resp) s2 | inr _ => s2 end, Done tt)).
Proof.
  split; eexists; (split; [reflexivity|]); by intros [resp|e] s2.
Qed.

(** The answer of an interval that has been cleared still replaces the rows: a
    page that shows only errors is given the unfiltered rows asked for before. *)
Lemma cleared_interval_still_writes (s : State) (r : GetSystemLogsRequest) (t : nat) (rows : list LogEntry) :
  timers s !! t = Some r ->
  exists k, exec (on_event (IntervalFires t)) s = (s, Blocked (GetSystemLogs r) k) /\
    forall s2, logs (exec (k (inl (mkGetSystemLogsResponse rows))) s2).1 = rows.
Proof. intros Ht. cbn. rewrite Ht. eexists. by split. Qed.

(** ** Rows *)

Definition known_levels : list string :=
  ["ERROR"; "DPANIC"; "PANIC"; "FATAL"; "WARN"; "WARNING"; "INFO"; "DEBUG"]%string.

Lemma level_classes (l : LogEntry) :
  Nat.b2n (is_error l) + Nat.b2n (is_warn l) + Nat.b2n (is_info l) =
  Nat.b2n (bool_decide (LogEntry_level l ∈ known_levels)).
Proof.
  unfold is_error, is_warn, is_info, known_levels.
  case_bool_decide as Hin; rewrite !elem_of_cons, elem_of_nil in Hin.
  - repeat destruct Hin as [->|Hin]; done.
  - repeat match goal with |- context [String.eqb ?a ?b] =>
      destruct (String.eqb_spec a b); [exfalso; tauto|] end. done.
Qed.

Lemma counts_known (l : list LogEntry) :
  errorCount l + warnCount l + infoCount l =
  length (List.filter (fun e => bool_decide (LogEntry_level e ∈ known_levels)) l).
Proof.
  unfold errorCount, warnCount, infoCount. induction l as [|e l IH]; [done|]. cbn.
  pose proof (level_classes e) as He.
  destruct (is_error e), (is_warn e), (is_info e), (bool_decide _); cbn in *; lia.
Qed.

Lemma filter_all_length {A} (f : A -> bool) (l : list A) :
  length (List.filter f l) <= length l /\
  (length (List.filter f l) = length l <-> Forall (fun x => f x = true) l).
Proof.
  induction l as [|x l [IH1 IH2]]; [by split|]. rewrite Forall_cons, <-IH2. cbn.
  destruct (f x); cbn; (split; [lia|]); split; [|lia|lia|by intros [? _]]. intros H. split; [done|lia].
Qed.

(** No row is counted twice by the cards: errors, warnings and the rest add up to
    at most the total, and to the total exactly when every level is one of the
    eight known ones.  A row has a toggle exactly when it carries details, its
    details are shown exactly when it was opened, and toggling twice is nothing. *)
Theorem rows_spec (s : State) (pd : string -> option Z) (ls : Z -> string) (i : nat) (l : LogEntry) :
  errorCount (logs s) + warnCount (logs s) + infoCount (logs s) <= totalCount (logs s) /\
  (errorCount (logs s) + warnCount (logs s) + infoCount (logs s) = totalCount (logs s) <->
   Forall (fun l => LogEntry_level l ∈ known_levels) (logs s)) /\
  (lr_toggle (log_row pd ls (expandedLogIds s) i l) = None <-> LogEntry_metadata l = ""%string) /\
  (lr_details (log_row pd ls (expandedLogIds s) i l) =
     if truthy (LogEntry_metadata l) && default false (expandedLogIds s !! i)
     then Some (metadata_text (LogEntry_metadata l)) else None) /\
  (forall j, default false (expandedLogIds (toggleExpandLog i (toggleExpandLog i s)) !! j) =
             default false (expandedLogIds s !! j)).
Proof.
  rewrite counts_known. unfold totalCount.
  destruct (filter_all_length (fun e => bool_decide (LogEntry_level e ∈ known_levels)) (logs s)) as [H1 H2].
  split_and!; [done| | |done|].
  - rewrite H2. split; intros Hf; (eapply Forall_impl'; [|exact Hf]); intros e; apply bool_decide_eq_true.
  - cbn. destruct (truthy (LogEntry_metadata l)) eqn:E; split; try done.
    + apply truthy_true in E. congruence.
    + intros _. by apply truthy_false.
  - intros j. cbn. destruct (decide (j = i)) as [->|Hne].
    + rewrite !lookup_insert_eq. cbn. by destruct (expandedLogIds s !! i) as [[]|].
    + by rewrite !lookup_insert_ne by done.
Qed.

(** The opened rows are remembered by place: when a refresh brings a new first
    row, the details shown are those of another entry. *)
Example expansion_shifts :
  let e n := mkLogEntry "INFO" n "" "" n in
  let opened s := imap (fun i l => (LogEntry_message l, default false (expandedLogIds s !! i))) (logs s) in
  let s := toggleExpandLog 0 (setLogs [e "1"] initial)%string in
  opened s = [("1", true)]%string /\
  opened (setLogs [e "2"; e "1"] s)%string = [("2", true); ("1", false)]%string.
Proof. split; reflexivity. Qed.
