(* ===== verification/LogServer.v ===== *)
(** The server's side of the log (internal/logging, outside frontend/src): the ring
    buffer that keeps the newest records, the handler that fills it with everything
    the server logs, and the two calls of the log service, with the record that the
    interceptor (internal/auth/interceptor.go) makes of a call.

    [strings.ToLower], [ToUpper] and [EqualFold] are taken on ASCII text, as the
    client's [toLowerCase] is; a panic of an index is [None]. *)
From S2P Require Import Prelude Async Json Proto Services SystemLogs Logger Syncer.

(** ** The ring buffer *)

Record RingBuffer := mkRingBuffer { capacity : nat; entries : list LogEntry; cursor : nat }.

Definition NewRingBuffer (capacity : nat) : RingBuffer := mkRingBuffer capacity [] 0.

Definition Add (entry : LogEntry) (rb : RingBuffer) : option RingBuffer :=
  if length (entries rb) <? capacity rb then
    Some (mkRingBuffer (capacity rb) (entries rb ++ [entry]) (cursor rb))
  else if cursor rb <? length (entries rb) then
    Some (mkRingBuffer (capacity rb) (<[cursor rb := entry]> (entries rb))
            ((cursor rb + 1) mod capacity rb))
  else None.

(** All entries in chronological order. *)
Definition all (rb : RingBuffer) : option (list LogEntry) :=
  let n := length (entries rb) in
  if n <? capacity rb then Some (entries rb)
  else mapM (fun i => entries rb !! ((cursor rb + i) mod capacity rb)) (seq 0 (capacity rb)).

Definition EqualFold (a b : string) : bool := String.eqb (toLowerCase a) (toLowerCase b).
Definition Contains (s q : string) : bool := includes (toLowerCase q) (toLowerCase s).

Definition matches (levelFilter searchQuery : string) (e : LogEntry) : bool :=
  if truthy levelFilter && negb (EqualFold (LogEntry_level e) levelFilter) then false
  else if truthy searchQuery then
    if Contains (LogEntry_message e) searchQuery then true
    else if Contains (LogEntry_component e) searchQuery then true
    else Contains (LogEntry_metadata e) searchQuery
  else true.

(** The loop over the entries, the newest first; [filtered] is what it has kept. *)
Fixpoint gather (limit : Z) (p : LogEntry -> bool) (filtered newest_first : list LogEntry) : list LogEntry :=
  match newest_first with
  | [] => filtered
  | e :: l =>
      if p e then
        let filtered := filtered ++ [e] in
        if (0 <? limit)%Z && (limit <=? Z.of_nat (length filtered))%Z then filtered
        else gather limit p filtered l
      else gather limit p filtered l
  end.

Definition Get (limit : Z) (levelFilter searchQuery : string) (rb : RingBuffer) : option (list LogEntry) :=
  l ← all rb; Some (gather limit (matches levelFilter searchQuery) [] (reverse l)).

(** *** The buffer keeps the newest entries *)

(** The last [n] of a list. *)
Definition last_n {A} (n : nat) (l : list A) : list A := drop (length l - n) l.

(** What a buffer promises: it stands for the newest [capacity] of what was added. *)
Definition holds (h : list LogEntry) (rb : RingBuffer) : Prop :=
  0 < capacity rb /\ length (entries rb) = Nat.min (capacity rb) (length h)
  /\ cursor rb < capacity rb /\ (length (entries rb) < capacity rb -> cursor rb = 0)
  /\ drop (cursor rb) (entries rb) ++ take (cursor rb) (entries rb) = last_n (capacity rb) h.

(** [n] newest of the entries that match, the newest first. *)
Definition newest (limit : Z) (p : LogEntry -> bool) (h : list LogEntry) : list LogEntry :=
  let l := List.filter p (reverse h) in
  if (0 <? limit)%Z then take (Z.to_nat limit) l else l.

Lemma last_n_all {A} (n : nat) (l : list A) : length l <= n -> last_n n l = l.
Proof. intros H. unfold last_n. by rewrite (proj2 (Nat.sub_0_le _ _) H). Qed.

Lemma last_n_snoc {A} (n : nat) (l : list A) (x : A) :
  0 < n -> n <= length l -> last_n n (l ++ [x]) = drop 1 (last_n n l) ++ [x].
Proof.
  intros Hn Hl. unfold last_n. rewrite length_app, drop_drop. simpl length.
  replace (length l + 1 - n) with (length l - n + 1) by lia. by rewrite drop_app_le by lia.
Qed.

(** Overwriting the oldest entry, read from the next one. *)
Lemma rotate_insert {A} (k : nat) (l : list A) (e : A) :
  k < length l ->
  let k' := (k + 1) mod length l in
  drop k' (<[k := e]> l) ++ take k' (<[k := e]> l) = drop 1 (drop k l ++ take k l) ++ [e].
Proof.
  intros Hk k'. destruct (lookup_lt_is_Some_2 l k Hk) as [x Hx].
  rewrite (drop_S l x k Hx). cbn [app]. change (drop 1 (x :: ?r)) with r.
  rewrite insert_take_drop by done. subst k'. destruct (decide (k + 1 = length l)) as [E|E].
  - rewrite E, Nat.Div0.mod_same, drop_0, take_0, app_nil_r.
    rewrite (drop_ge l (S k)) by lia. done.
  - rewrite Nat.mod_small by lia.
    assert (length (take k l) = k) as Ht by (rewrite length_take; lia).
    rewrite drop_app_ge, take_app_ge by lia. rewrite Ht. replace (k + 1 - k) with 1 by lia.
    simpl. by rewrite drop_0, take_0, app_assoc.
Qed.

Lemma holds_new (c : nat) : 0 < c -> holds [] (NewRingBuffer c).
Proof. intros H. unfold holds, NewRingBuffer; simpl. split_and!; try done; try lia. Qed.

Lemma holds_Add (h : list LogEntry) (rb : RingBuffer) (e : LogEntry) :
  holds h rb -> exists rb', Add e rb = Some rb' /\ holds (h ++ [e]) rb' /\ capacity rb' = capacity rb.
Proof.
  destruct rb as [c es k]. intros (Hc & Hl & Hk & H0 & Hd); simpl in *. unfold Add; simpl.
  destruct (Nat.ltb_spec (length es) c) as [Hlt|Hge].
  - eexists; split; [done|]. split; [|done]. specialize (H0 Hlt) as ->.
    unfold holds; simpl. rewrite !length_app; simpl. rewrite drop_0, take_0, app_nil_r in *.
    split_and!; try lia. rewrite !last_n_all in * by (rewrite ?length_app; simpl; lia). by subst.
  - assert (length es = c) as El by lia. destruct (Nat.ltb_spec k (length es)) as [_|]; [|lia].
    eexists; split; [done|]. split; [|done]. unfold holds; simpl. subst c.
    rewrite length_insert, length_app; simpl. split_and!; try lia.
    + apply Nat.mod_upper_bound. lia.
    + by rewrite rotate_insert, Hd, last_n_snoc by lia.
Qed.

(** Every entry of a full buffer once, from the cursor round. *)
Lemma read_round {A} (k : nat) (l : list A) :
  k < length l ->
  mapM (fun i => l !! ((k + i) mod length l)) (seq 0 (length l)) = Some (drop k l ++ take k l).
Proof.
  intros Hk. apply mapM_Some_2, Forall2_same_length_lookup. split.
  { rewrite length_seq, length_app, length_drop, length_take. lia. }
  intros i j y [-> Hi]%lookup_seq Hy. simpl in *.
  apply lookup_app_Some in Hy as [Hy|[Hn Hy]].
  - rewrite lookup_drop in Hy. rewrite Nat.mod_small; [done|]. by apply lookup_lt_Some in Hy.
  - rewrite length_drop in Hn, Hy. apply lookup_take_Some in Hy as [Hy _].
    replace (k + i) with (i - (length l - k) + 1 * length l) by lia.
    rewrite Nat.Div0.mod_add, Nat.mod_small; [done|]. by apply lookup_lt_Some in Hy.
Qed.

Lemma all_holds (h : list LogEntry) (rb : RingBuffer) :
  holds h rb -> all rb = Some (last_n (capacity rb) h).
Proof.
  destruct rb as [c es k]. intros (Hc & Hl & Hk & H0 & Hd); unfold all; simpl in *.
  destruct (Nat.ltb_spec (length es) c) as [Hlt|Hge].
  - rewrite (H0 Hlt), drop_0, take_0, app_nil_r in Hd. by subst.
  - assert (c = length es) as -> by lia. by rewrite read_round, Hd.
Qed.

Lemma gather_newest (limit : Z) (p : LogEntry -> bool) (f l : list LogEntry) :
  (0 < limit)%Z -> (Z.of_nat (length f) < limit)%Z ->
  gather limit p f l = f ++ take (Z.to_nat limit - length f) (List.filter p l).
Proof.
  revert f. induction l as [|e l IH]; intros f Hpos Hlt; cbn [gather List.filter].
  { by rewrite take_nil, app_nil_r. }
  destruct (p e); [|by apply IH]. rewrite (proj2 (Z.ltb_lt _ _) Hpos), length_app; simpl length.
  destruct (Z.leb_spec limit (Z.of_nat (length f + 1))) as [Hle|Hgt]; simpl.
  - replace (Z.to_nat limit - length f) with 1 by lia. by destruct (List.filter p l).
  - rewrite IH by (rewrite ?length_app; simpl; lia). rewrite length_app; simpl.
    replace (Z.to_nat limit - length f) with (S (Z.to_nat limit - (length f + 1))) by lia.
    by rewrite <- app_assoc.
Qed.

Lemma gather_unlimited (limit : Z) (p : LogEntry -> bool) (f l : list LogEntry) :
  (limit <= 0)%Z -> gather limit p f l = f ++ List.filter p l.
Proof.
  intros Hl. revert f. induction l as [|e l IH]; intros f; cbn [gather List.filter].
  { by rewrite app_nil_r. }
  destruct (p e); [|by apply IH]. rewrite (proj2 (Z.ltb_ge 0 limit) Hl). simpl.
  by rewrite IH, <- app_assoc.
Qed.

Lemma Get_holds (h : list LogEntry) (rb : RingBuffer) (limit : Z) (lf q : string) :
  holds h rb -> Get limit lf q rb = Some (newest limit (matches lf q) (last_n (capacity rb) h)).
Proof.
  intros H. unfold Get. rewrite (all_holds h rb H). simpl. unfold newest.
  destruct (Z.ltb_spec 0 limit).
  - rewrite gather_newest by (simpl; lia). simpl. by rewrite Nat.sub_0_r.
  - by rewrite gather_unlimited.
Qed.

(** Several records, one after the other. *)
Fixpoint add_all (h : list LogEntry) (rb : RingBuffer) : option RingBuffer :=
  match h with [] => Some rb | e :: h => rb ← Add e rb; add_all h rb end.

Lemma add_all_holds (h h0 : list LogEntry) (rb : RingBuffer) :
  holds h0 rb -> exists rb', add_all h rb = Some rb' /\ holds (h0 ++ h) rb' /\ capacity rb' = capacity rb.
Proof.
  revert h0 rb. induction h as [|e h IH]; intros h0 rb H; cbn [add_all].
  { exists rb. by rewrite app_nil_r. }
  destruct (holds_Add h0 rb e H) as (rb1 & -> & H1 & Hc1). simpl.
  destruct (IH _ rb1 H1) as (rb' & -> & H' & Hc'). exists rb'.
  rewrite <- app_assoc in H'. split; [done|]. split; [done|]. by rewrite Hc'.
Qed.

(** ** The handler of the server's logger *)

(** The value of an attribute: text, or anything else, with what [json.Marshal] makes
    of it, if it can. *)
Inductive Any := AText (s : string) | AOther (printed : option string).

Definition Attrs := list (string * Any).

(** [json.Marshal] of text: as the client's, with the characters HTML is made of
    escaped. *)
Definition go_escape_char (c : ascii) : string :=
  let n := nat_of_ascii c in
  if (n =? 60) || (n =? 62) || (n =? 38)
  then "\u00" +:+ String (hex_digit (n / 16)) (String (hex_digit (n mod 16)) "")
  else escape_char c.

Fixpoint go_escape (s : string) : string :=
  match s with EmptyString => "" | String c s => go_escape_char c +:+ go_escape s end.

Definition marshal_text (s : string) : string := quoted (go_escape s).

Definition marshal_any (v : Any) : option string :=
  match v with AText s => Some (marshal_text s) | AOther printed => printed end.

(** [json.Marshal] of a map: its members in the order of their keys. *)
Definition key_le (a b : string * Any) : bool := String.leb a.1 b.1.

Definition marshal_map (m : gmap string Any) : option string :=
  members ← mapM (fun '(k, v) => t ← marshal_any v; Some (marshal_text k +:+ ":" +:+ t))
              (toSorted key_le (map_to_list m));
  Some ("{" +:+ join "," members +:+ "}").

(** [m[k].(string)] *)
Definition text_at (k : string) (m : gmap string Any) : option string :=
  match m !! k with Some (AText s) => Some s | _ => None end.

(** What [Handle] adds to the buffer for a record: [attrs] are those the logger was
    made with, [level] and [time] the texts of the record's own. *)
Definition record_entry (attrs : Attrs) (level time message : string) (record_attrs : Attrs) : LogEntry :=
  let metaMap := foldl (fun m '(k, v) => <[k := v]> m) (∅ : gmap string Any) (attrs ++ record_attrs) in
  let '(component, metaMap) :=
    match text_at "component" metaMap with
    | Some comp => (comp, delete "component" metaMap)
    | None =>
        match text_at "module" metaMap with
        | Some mod_ => (mod_, delete "module" metaMap)
        | None => ("", metaMap)
        end
    end in
  let '(levelStr, metaMap) :=
    match text_at "client_level" metaMap with
    | Some cl => (cl, delete "client_level" metaMap)
    | None => (level, metaMap)
    end in
  let '(timestamp, metaMap) :=
    match text_at "client_timestamp" metaMap with
    | Some ct => (ct, delete "client_timestamp" metaMap)
    | None => (time, metaMap)
    end in
  let metaMap := delete "source" metaMap in
  let metaStr := if 0 <? size metaMap then default "" (marshal_map metaMap) else "" in
  mkLogEntry levelStr message timestamp component metaStr.

Definition Handle (attrs : Attrs) (level time message : string) (record_attrs : Attrs)
    (rb : RingBuffer) : option RingBuffer :=
  Add (record_entry attrs level time message record_attrs) rb.

(** ** The service *)

(** The levels of the server's logger, and their texts. *)
Inductive SlogLevel := LevelDebug | LevelInfo | LevelWarn | LevelError.

Definition SlogLevel_String (l : SlogLevel) : string :=
  match l with LevelDebug => "DEBUG" | LevelInfo => "INFO" | LevelWarn => "WARN" | LevelError => "ERROR" end.

Definition entry_level (level : string) : SlogLevel :=
  let l := toUpperCase level in
  if String.eqb l "DEBUG" then LevelDebug
  else if String.eqb l "INFO" then LevelInfo
  else if String.eqb l "WARN" || String.eqb l "WARNING" then LevelWarn
  else if String.eqb l "ERROR" then LevelError
  else LevelInfo.

Definition entry_attrs (e : ClientLogEntry) : Attrs :=
  [("source", AText "frontend"); ("client_level", AText (ClientLogEntry_level e));
   ("client_timestamp", AText (ClientLogEntry_timestamp e))]
  ++ (if truthy (ClientLogEntry_component e) then [("component", AText (ClientLogEntry_component e))] else [])
  ++ (if truthy (ClientLogEntry_metadata e) then [("metadata", AText (ClientLogEntry_metadata e))] else []).

Section Service.
(** Which levels the handler below writes. *)
Context (Enabled : SlogLevel -> bool).

(** A record of a logger with the attributes [attrs], made at the time [time]. *)
Definition Log (attrs : Attrs) (time : string) (level : SlogLevel) (message : string) (record_attrs : Attrs) (rb : RingBuffer) : option RingBuffer :=
  if Enabled level then Handle attrs (SlogLevel_String level) time message record_attrs rb else Some rb.

(** The counter of a batch is an [int32]. *)
Definition int32 (z : Z) : Z := ((z + 2 ^ 31) mod 2 ^ 32 - 2 ^ 31)%Z.

(** The attributes of the loggers of the service and of the interceptor (cmd/serve.go). *)
Definition service_attrs : Attrs := [("module", AText "logging")].
Definition auth_attrs : Attrs := [("module", AText "auth")].

(** A call of the service: the user, the times of its records, its duration as it is
    marshalled, and what the rest of the server logs meanwhile, before the entry of each
    index and, at the index after the last, before the interceptor's record. *)
Record Call := mkCall { c_user : string; c_time : string; c_duration : string; c_others : nat -> list LogEntry }.

(** The loop over the entries of a batch ([nil] entries are not on the wire). *)
Fixpoint sync_entries (c : Call) (i : nat) (es : list ClientLogEntry) (processedCount : Z) (rb : RingBuffer) :
    option (RingBuffer * Z) :=
  match es with
  | [] => Some (rb, processedCount)
  | e :: es =>
      rb ← add_all (c_others c i) rb;
      rb ← Log service_attrs (c_time c) (entry_level (ClientLogEntry_level e)) (ClientLogEntry_message e) (entry_attrs e) rb;
      sync_entries c (S i) es (int32 (processedCount + 1)) rb
  end.

Definition SyncLogs (c : Call) (r : SyncLogsRequest) (rb : RingBuffer) : option (RingBuffer * SyncLogsResponse) :=
  '(rb, n) ← sync_entries c 0 (SyncLogsRequest_entries r) 0 rb; Some (rb, mkSyncLogsResponse n).

(** What the interceptor logs of a call that ended without an error. *)
Definition request_attrs (procedure : string) (c : Call) : Attrs :=
  [("procedure", AText procedure); ("user", AText (c_user c)); ("duration", AOther (Some (c_duration c)))].

Definition log_completed (procedure : string) (c : Call) (rb : RingBuffer) : option RingBuffer :=
  Log auth_attrs (c_time c) LevelInfo "Request completed" (request_attrs procedure c) rb.

(** The whole call: the handler within the interceptor. *)
Definition SyncLogs_call (c : Call) (r : SyncLogsRequest) (rb : RingBuffer) : option (RingBuffer * SyncLogsResponse) :=
  '(rb, resp) ← SyncLogs c r rb;
  rb ← add_all (c_others c (length (SyncLogsRequest_entries r))) rb;
  rb ← log_completed "/dmanager.v1.LogService/SyncLogs" c rb;
  Some (rb, resp).

Definition GetSystemLogs (r : GetSystemLogsRequest) (rb : RingBuffer) : option GetSystemLogsResponse :=
  let limit := GetSystemLogsRequest_limit r in
  let limit := if (limit <=? 0)%Z || (500 <? limit)%Z then 100%Z else limit in
  es ← Get limit (GetSystemLogsRequest_levelFilter r) (GetSystemLogsRequest_searchQuery r) rb;
  Some (mkGetSystemLogsResponse es).
End Service.

(** ** What the service does with a batch *)

(** The server's record of an entry of a client. *)
Definition shown (e : ClientLogEntry) : LogEntry :=
  let component := ClientLogEntry_component e in
  let metadata := ClientLogEntry_metadata e in
  let member k v := marshal_text k +:+ ":" +:+ marshal_text v in
  let members := (if truthy metadata then [member "metadata" metadata] else [])
                 ++ (if truthy component then [member "module" "logging"] else []) in
  mkLogEntry (ClientLogEntry_level e) (ClientLogEntry_message e) (ClientLogEntry_timestamp e)
    (str_or component "logging")
    (if 0 <? length members then "{" +:+ join "," members +:+ "}" else "").

Lemma record_entry_shown (level time : string) (e : ClientLogEntry) :
  record_entry service_attrs level time (ClientLogEntry_message e) (entry_attrs e) = shown e.
Proof.
  destruct e as [l m t c d]. unfold entry_attrs, shown, str_or; simpl.
  destruct (truthy c), (truthy d); reflexivity.
Qed.

Section Batches.
Context (Enabled : SlogLevel -> bool).

(** The entries of a batch the server's logger writes. *)
Definition written (es : list ClientLogEntry) : list LogEntry :=
  shown <$> List.filter (fun e => Enabled (entry_level (ClientLogEntry_level e))) es.

(** Everything that is recorded while a call runs: the entries with what the rest of the
    server logs between them, and the record of the request itself. *)
Fixpoint entries_trace (c : Call) (i : nat) (es : list ClientLogEntry) : list LogEntry :=
  match es with [] => [] | e :: es => c_others c i ++ written [e] ++ entries_trace c (S i) es end.

Definition completed_record (procedure : string) (c : Call) : LogEntry :=
  record_entry auth_attrs "INFO" (c_time c) "Request completed" (request_attrs procedure c).

Definition call_trace (c : Call) (es : list ClientLogEntry) : list LogEntry :=
  entries_trace c 0 es ++ c_others c (length es)
  ++ (if Enabled LevelInfo then [completed_record "/dmanager.v1.LogService/SyncLogs" c] else []).

Lemma Log_holds (attrs : Attrs) (time : string) (level : SlogLevel) (message : string) (record_attrs : Attrs)
    (h : list LogEntry) (rb : RingBuffer) :
  holds h rb -> exists rb', Log Enabled attrs time level message record_attrs rb = Some rb'
    /\ holds (h ++ (if Enabled level then [record_entry attrs (SlogLevel_String level) time message record_attrs] else [])) rb'
    /\ capacity rb' = capacity rb.
Proof.
  intros Hh. unfold Log, Handle. destruct (Enabled level).
  - apply holds_Add, Hh.
  - exists rb. by rewrite app_nil_r.
Qed.

Lemma written_cons (e : ClientLogEntry) (es : list ClientLogEntry) : written (e :: es) = written [e] ++ written es.
Proof. unfold written. simpl. by destruct (Enabled _). Qed.

Lemma sync_entries_holds (c : Call) (i : nat) (es : list ClientLogEntry) (n : Z) (h : list LogEntry) (rb : RingBuffer) :
  holds h rb -> (0 <= n)%Z -> (n + Z.of_nat (length es) < 2 ^ 31)%Z ->
  exists rb', sync_entries Enabled c i es n rb = Some (rb', (n + Z.of_nat (length es))%Z)
    /\ holds (h ++ entries_trace c i es) rb' /\ capacity rb' = capacity rb.
Proof.
  revert i n h rb. induction es as [|e es IH]; intros i n h rb Hh Hn Hlt; cbn [sync_entries entries_trace].
  { exists rb. by rewrite Z.add_0_r, app_nil_r. }
  simpl length in Hlt.
  assert (int32 (n + 1) = n + 1)%Z as Ei by (unfold int32; rewrite Z.mod_small; lia).
  destruct (add_all_holds (c_others c i) h rb Hh) as (rb1 & -> & H1 & Hc1). simpl.
  destruct (Log_holds service_attrs (c_time c) (entry_level (ClientLogEntry_level e)) (ClientLogEntry_message e)
              (entry_attrs e) _ rb1 H1) as (rb2 & -> & H2 & Hc2). simpl. rewrite Ei.
  destruct (IH (S i) (n + 1)%Z _ rb2 H2) as (rb' & -> & H' & Hc'); [lia..|]. exists rb'.
  split; [do 2 f_equal; lia|]. split; [|by rewrite Hc', Hc2, Hc1].
  rewrite record_entry_shown, <- !app_assoc in H'. unfold written in *; simpl. by destruct (Enabled _).
Qed.

Lemma SyncLogs_call_holds (c : Call) (r : SyncLogsRequest) (h : list LogEntry) (rb : RingBuffer) :
  holds h rb -> (Z.of_nat (length (SyncLogsRequest_entries r)) < 2 ^ 31)%Z ->
  exists rb', SyncLogs_call Enabled c r rb
      = Some (rb', mkSyncLogsResponse (Z.of_nat (length (SyncLogsRequest_entries r))))
    /\ holds (h ++ call_trace c (SyncLogsRequest_entries r)) rb' /\ capacity rb' = capacity rb.
Proof.
  intros Hh Hl. destruct (sync_entries_holds c 0 (SyncLogsRequest_entries r) 0 h rb Hh) as (rb1 & E & H1 & Hc1); [lia..|].
  unfold SyncLogs_call, SyncLogs. rewrite E. simpl.
  destruct (add_all_holds (c_others c (length (SyncLogsRequest_entries r))) _ rb1 H1) as (rb2 & -> & H2 & Hc2). simpl.
  destruct (Log_holds auth_attrs (c_time c) LevelInfo "Request completed"
              (request_attrs "/dmanager.v1.LogService/SyncLogs" c) _ rb2 H2) as (rb' & E' & H' & Hc').
  unfold log_completed. rewrite E'. simpl. exists rb'. split; [done|]. split; [|by rewrite Hc', Hc2, Hc1].
  by rewrite <- !app_assoc in H'.
Qed.

(** The batches of a synchronisation, one call each. *)
Fixpoint serve (calls : nat -> Call) (k : nat) (sent : list (list DBClientLogEntry)) (rb : RingBuffer) : option RingBuffer :=
  match sent with
  | [] => Some rb
  | es :: sent => '(rb, _) ← SyncLogs_call Enabled (calls k) (sync_request es) rb; serve calls (S k) sent rb
  end.

(** Everything that is recorded meanwhile. *)
Fixpoint serve_trace (calls : nat -> Call) (k : nat) (sent : list (list DBClientLogEntry)) : list LogEntry :=
  match sent with
  | [] => []
  | es :: sent => call_trace (calls k) (proto_entry <$> es) ++ serve_trace calls (S k) sent
  end.

Lemma serve_holds (calls : nat -> Call) (k : nat) (sent : list (list DBClientLogEntry)) (h : list LogEntry) (rb : RingBuffer) :
  holds h rb -> Forall (fun es => 0 < length es <= 50) sent ->
  exists rb', serve calls k sent rb = Some rb' /\ holds (h ++ serve_trace calls k sent) rb' /\ capacity rb' = capacity rb.
Proof.
  intros Hh Hs. revert k h rb Hh. induction Hs as [|es sent Hes Hs IH]; intros k h rb Hh; cbn [serve serve_trace].
  { exists rb. by rewrite app_nil_r. }
  destruct (SyncLogs_call_holds (calls k) (sync_request es) h rb Hh) as (rb1 & -> & H1 & Hc1).
  { simpl. rewrite length_fmap. lia. }
  simpl. destruct (IH (S k) _ rb1 H1) as (rb' & -> & H' & Hc'). exists rb'. split; [done|]. split; [|by rewrite Hc'].
  by rewrite app_assoc.
Qed.

(** The entries come in their order. *)
Lemma entries_in_trace (c : Call) (i : nat) (es : list ClientLogEntry) : written es `sublist_of` entries_trace c i es.
Proof.
  revert i. induction es as [|e es IH]; intros i; [done|]. cbn [entries_trace]. rewrite written_cons.
  apply sublist_inserts_l, sublist_app; [done|apply IH].
Qed.

Lemma written_in_trace (calls : nat -> Call) (k : nat) (sent : list (list DBClientLogEntry)) :
  written (proto_entry <$> concat sent) `sublist_of` serve_trace calls k sent.
Proof.
  revert k. induction sent as [|es sent IH]; intros k; [done|]. cbn [serve_trace concat].
  rewrite fmap_app. replace (written ((proto_entry <$> es) ++ (proto_entry <$> concat sent)))
    with (written (proto_entry <$> es) ++ written (proto_entry <$> concat sent))
    by (unfold written; rewrite List.filter_app; symmetry; apply fmap_app).
  apply sublist_app; [|apply IH]. unfold call_trace. apply sublist_inserts_r, entries_in_trace.
Qed.

(** When the server logs nothing else, a call leaves the written entries and the record
    of the request. *)
Lemma call_trace_alone (c : Call) (es : list ClientLogEntry) :
  (forall i, c_others c i = []) ->
  call_trace c es = written es ++ (if Enabled LevelInfo then [completed_record "/dmanager.v1.LogService/SyncLogs" c] else []).
Proof.
  intros Hc. unfold call_trace. rewrite Hc. f_equal. generalize 0.
  induction es as [|e es IH]; intros i; [done|]. cbn [entries_trace]. rewrite Hc, IH. symmetry. apply written_cons.
Qed.
End Batches.

(** ** Round trip of what the client recorded *)

Lemma parse_chars_go_escape_char (c : ascii) (t : string) :
  parse_chars (go_escape_char c +:+ t) =
  match parse_chars t with Some (u, r) => Some (String c u, r) | None => None end.
Proof. destruct c as [[] [] [] [] [] [] [] []]; reflexivity. Qed.

Lemma parse_chars_go_escape (s r : string) : parse_chars (go_escape s +:+ dquote +:+ r) = Some (s, r).
Proof.
  induction s as [|c s IH]; [done|]. cbn [go_escape].
  by rewrite append_assoc, parse_chars_go_escape_char, IH.
Qed.

(** What the page reads out of an entry's metadata. *)
Definition page_metadata (e : ClientLogEntry) : list (string * json) :=
  (if truthy (ClientLogEntry_metadata e) then [("metadata", JStr (ClientLogEntry_metadata e))] else [])
  ++ (if truthy (ClientLogEntry_component e) then [("module", JStr "logging")] else []).

Lemma parse_text_value (fuel : nat) (v r : string) :
  parse_value (S fuel) (marshal_text v +:+ r) = Some (JStr v, r).
Proof.
  unfold marshal_text, quoted, dquote at 1. rewrite !append_cons, !append_nil_l, append_assoc.
  cbn [parse_value skip_ws]. change (nat_of_ascii (ascii_of_nat 34)) with 34. cbn [Nat.eqb orb].
  by rewrite parse_chars_go_escape.
Qed.

Lemma parse_text_field (fuel : nat) (acc : list (string * json)) (k v r : string) :
  parse_fields (S (S fuel)) acc (marshal_text k +:+ ":" +:+ marshal_text v +:+ r) =
  match skip_ws r with
  | String d r' =>
      if nat_of_ascii d =? 125 then Some (obj_set k (JStr v) acc, r')
      else if nat_of_ascii d =? 44 then parse_fields (S fuel) (obj_set k (JStr v) acc) r'
      else None
  | EmptyString => None
  end.
Proof.
  remember (S fuel) as n eqn:En. unfold marshal_text at 1, quoted. rewrite !append_assoc.
  cbn [parse_fields]. unfold dquote at 1. rewrite append_cons, append_nil_l.
  cbn [skip_ws]. change (nat_of_ascii (ascii_of_nat 34)) with 34. cbn -[parse_chars String.append].
  rewrite parse_chars_go_escape. rewrite append_cons, append_nil_l.
  cbn [skip_ws]. change (nat_of_ascii ":") with 58. cbn -[parse_value String.append skip_ws].
  by rewrite En, parse_text_value.
Qed.

(** A printed object of texts is not empty. *)
Lemma marshal_object (fuel : nat) (k t : string) :
  parse_value (S fuel) ("{" +:+ marshal_text k +:+ t) =
  match parse_fields fuel [] (marshal_text k +:+ t) with Some (l, r) => Some (JObj l, r) | None => None end.
Proof.
  unfold marshal_text, quoted, dquote. rewrite !append_assoc, !append_cons, !append_nil_l.
  cbn [parse_value skip_ws]. change (nat_of_ascii "{") with 123. cbn [Nat.eqb orb].
  change (nat_of_ascii (ascii_of_nat 34)) with 34. reflexivity.
Qed.

(** what a client recorded with an entry comes back: when the server's record of the
    entry has metadata, the page reads it as an object whose member [metadata] is the
    client's text, as it was. *)
Theorem metadata_survives (e : ClientLogEntry) (Hne : LogEntry_metadata (shown e) <> "") :
  parse (LogEntry_metadata (shown e)) = Some (JObj (page_metadata e)).
Proof.
  destruct e as [l msg t c d]. unfold shown, page_metadata in *; simpl in *.
  destruct (truthy c), (truthy d); simpl length in *; cbn [Nat.ltb Nat.leb app join] in *; [| | |done]; clear Hne;
    rewrite !append_assoc; unfold parse;
    match goal with |- context [2 * slen ?x + 2] => remember (2 * slen x + 2) as n eqn:En; assert (6 <= n) as Hn end;
    try (subst n; unfold marshal_text, quoted, dquote; rewrite !slen_append; cbn [slen String.length]; lia);
    do 6 (destruct n as [|n]; [lia|]); rewrite marshal_object, parse_text_field; cbn -[marshal_text parse_fields];
    rewrite ?parse_text_field; done.
Qed.

(** ** The properties *)

(** C32: the ring buffer refines a log that keeps its newest [c] records: whatever was
    added to a new buffer of a positive capacity, no index is out of range, and what a
    query gets is the newest of the last [c] records that match it, the newest first,
    as many as it asks for, or all of them when it sets no limit. *)
Theorem ring_keeps_newest (c : nat) (h : list LogEntry) (limit : Z) (levelFilter searchQuery : string)
    (Hc : 0 < c) :
  exists rb, add_all h (NewRingBuffer c) = Some rb /\ length (entries rb) <= c
    /\ Get limit levelFilter searchQuery rb
       = Some (newest limit (matches levelFilter searchQuery) (last_n c h)).
Proof.
  destruct (add_all_holds h [] (NewRingBuffer c) (holds_new c Hc)) as (rb & E & H & Ec).
  exists rb. split; [done|]. simpl in Ec. split; [destruct H as (_ & ? & _); lia|].
  by rewrite (Get_holds _ _ _ _ _ H), Ec.
Qed.

Lemma ring_keeps_newest_witness :
  let e n := mkLogEntry "INFO" n "t" "c" "" in
  exists rb, add_all [e "a"; e "b"; e "c"; e "d"]%string (NewRingBuffer 3) = Some rb /\ length (entries rb) <= 3
    /\ Get 2 "info" "" rb = Some [e "d"; e "c"]%string.
Proof.
  intros e. exact (ring_keeps_newest 3 [e "a"; e "b"; e "c"; e "d"]%string 2 "info" "" ltac:(lia)).
Defined.

(** The limits the page offers are served as they are. *)
Lemma page_limits_served (limit : Z) :
  limit ∈ limit_options -> ((limit <=? 0)%Z || (500 <? limit)%Z) = false /\ (0 < limit)%Z.
Proof. unfold limit_options. rewrite !elem_of_cons, elem_of_nil. intros [-> | [-> | [-> | [-> | []]]]]; done. Qed.

Section EndToEnd.
Context {T : Type} `{Logger.LogTable T}.
Context (Enabled : SlogLevel -> bool) (calls : nat -> Call).

(** C7: the log reaches the page: a synchronisation left alone against this server sends
    every entry of the client's table and empties it, the server's counter being the
    acknowledgement the client waits for; then what the system logs page is given, for
    any of the limits it offers and any filter, is the newest that match of the last
    thousand records: after everything recorded before come the client's entries (of
    the levels the server's logger writes), in the order the client recorded them, the
    server's own record of each batch's request after the batch, and between all of
    these whatever else the server logs meanwhile. *)
Theorem log_reaches_page (answer : SyncLogsRequest -> SyncLogsResponse + thrown)
    (Hserver : forall c r rb rb' resp, 0 < length (SyncLogsRequest_entries r) <= 50 ->
       SyncLogs_call Enabled c r rb = Some (rb', resp) -> answer r = inl resp)
    (fuel : nat) (s : Syncer.State T) (Hs : syncing s = Some Reading)
    (Hfuel : 3 * (length (rows (table s)) / 50) + 3 <= fuel)
    (h : list LogEntry) (rb : RingBuffer) (Hh : holds h rb) (Hc : capacity rb = 1000) (late : list LogEntry)
    (limit : Z) (Hl : limit ∈ limit_options) (levelFilter searchQuery : string) :
  let '(s', sent) := drain fuel answer s in
  let recorded := serve_trace Enabled calls 0 sent in
  rows (table s') = [] /\ syncing s' = None
  /\ concat sent = (rows (table s)).*2
  /\ written Enabled (proto_entry <$> (rows (table s)).*2) `sublist_of` recorded
  /\ exists rb', (rb1 ← serve Enabled calls 0 sent rb; add_all late rb1) = Some rb' /\
       GetSystemLogs (mkGetSystemLogsRequest limit levelFilter searchQuery) rb'
       = Some (mkGetSystemLogsResponse (newest limit (matches levelFilter searchQuery) (last_n 1000 (h ++ recorded ++ late)))).
Proof.
  assert (Hack : forall q, 0 < length (SyncLogsRequest_entries q) <= 50 -> exists response,
    answer q = inl response /\ (0 < SyncLogsResponse_processedCount response)%Z).
  { intros q Hq. destruct (SyncLogs_call_holds Enabled (calls 0) q h rb Hh) as (rb' & E & _ & _); [lia|].
    eexists; split; [by eapply Hserver|]. simpl. lia. }
  pose proof (drain_all answer Hack fuel s Hs Hfuel) as Hd.
  destruct (drain fuel answer s) as [s' sent]. destruct Hd as (H1 & _ & H3 & H4 & H5). cbv zeta. rewrite <- H4.
  split; [done|]. split; [done|]. split; [done|]. split; [apply written_in_trace|].
  destruct (serve_holds Enabled calls 0 sent h rb Hh H5) as (rb1 & E & H' & Ec). rewrite E. simpl.
  destruct (add_all_holds late _ rb1 H') as (rb' & -> & Hr & Ec'). exists rb'. split; [done|].
  unfold GetSystemLogs; simpl. destruct (page_limits_served limit Hl) as [-> _].
  by rewrite (Get_holds _ _ _ _ _ Hr), Ec', Ec, Hc, app_assoc.
Qed.
End EndToEnd.

(** A call while the server logs nothing else, and one beside which it logs. *)
Definition call_ex : Call := mkCall "root" "now" "1200" (fun _ => []).
Definition other_ex : LogEntry := mkLogEntry "INFO" "Docker event" "now" "docker" "".
Definition busy_call_ex : Call := mkCall "root" "now" "1200" (fun _ => [other_ex]).

Lemma log_reaches_page_witness :
  let s : Syncer.State MemTable.t :=
    Syncer.mkState (table_add sample_entry MemTable.empty) true (Some Reading) None 0 ∅ 0 in
  let answer q := inl (mkSyncLogsResponse (Z.of_nat (length (SyncLogsRequest_entries q)))) in
  let all _ := true in
  let calls _ := busy_call_ex in
  let '(s', sent) := drain 3 answer s in
  let recorded := serve_trace all calls 0 sent in
  rows (table s') = [] /\ syncing s' = None
  /\ concat sent = (rows (table s)).*2
  /\ written all (proto_entry <$> (rows (table s)).*2) `sublist_of` recorded
  /\ exists rb', (rb1 ← serve all calls 0 sent (NewRingBuffer 1000); add_all [other_ex] rb1) = Some rb' /\
       GetSystemLogs (mkGetSystemLogsRequest 50 "ERROR" "") rb'
       = Some (mkGetSystemLogsResponse (newest 50 (matches "ERROR" "") (last_n 1000 ([] ++ recorded ++ [other_ex])))).
Proof.
  intros s answer all calls.
  apply (log_reaches_page all calls answer) with (h := []) (rb := NewRingBuffer 1000) (late := [other_ex]).
  - intros c r rb rb' resp Hr E. unfold answer. do 2 f_equal.
    assert (forall es i n rb rb' m, (0 <= n)%Z -> (n + Z.of_nat (length es) < 2 ^ 31)%Z ->
      sync_entries all c i es n rb = Some (rb', m) -> m = (n + Z.of_nat (length es))%Z) as Hn.
    { clear. induction es as [|e es IH]; intros i n rb rb' m Hn Hlt; cbn [sync_entries]; [intros [= _ <-]; simpl; lia|].
      destruct (add_all _ rb) as [rb1|]; [|done]. simpl. destruct (Log _ _ _ _ _ _ rb1) as [rb2|]; [|done]. simpl.
      simpl length in Hlt. intros E%IH; unfold int32 in *; rewrite Z.mod_small in * by lia; simpl length; lia. }
    unfold SyncLogs_call, SyncLogs in E. destruct (sync_entries all c 0 _ 0 rb) as [[rb1 m]|] eqn:Es; [|done]. simpl in E.
    apply Hn in Es; [|lia..]. subst m. destruct (add_all _ rb1) as [rb2|]; [|done]. simpl in E.
    destruct (log_completed _ _ c rb2); [|done]. simpl in E. by injection E.
  - reflexivity.
  - vm_compute. lia.
  - apply holds_new. lia.
  - reflexivity.
  - apply elem_of_cons. by left.
Defined.

(** The log of that run without the others, computed: the page gets the entry with its
    metadata wrapped, and every level the record of the request after it. *)
Example sample_served :
  call_trace (fun _ => true) call_ex [proto_entry sample_entry]
  = [mkLogEntry "ERROR" "boom" "2026-01-01T00:00:00.000Z" "Console"
       ("{" +:+ quoted "metadata" +:+ ":" +:+ quoted "{}" +:+ "," +:+ quoted "module" +:+ ":" +:+ quoted "logging" +:+ "}");
     mkLogEntry "INFO" "Request completed" "now" "auth"
       ("{" +:+ quoted "duration" +:+ ":1200," +:+ quoted "procedure" +:+ ":" +:+ quoted "/dmanager.v1.LogService/SyncLogs"
          +:+ "," +:+ quoted "user" +:+ ":" +:+ quoted "root" +:+ "}")].
Proof. vm_compute. reflexivity. Qed.

(** the level filter of the page is exact on what clients record: with a level it
    offers, a record of an entry matches just when the entry has that level, and with
    the empty choice every record matches. *)
Theorem level_filter_exact (level : string) (e : DBClientLogEntry) (Hl : level ∈ level_options) :
  matches level "" (shown (proto_entry e)) = (String.eqb level "" || String.eqb level (level_name (Logger.level e))).
Proof.
  unfold matches, shown, proto_entry. destruct e as [i [] m t c d]; simpl;
    unfold level_options in Hl; rewrite !elem_of_cons, elem_of_nil in Hl;
    destruct Hl as [-> | [-> | [-> | [-> | [-> | []]]]]]; reflexivity.
Qed.

Lemma level_filter_exact_witness :
  matches "WARN" "" (shown (proto_entry sample_entry)) = false.
Proof. apply (level_filter_exact "WARN" sample_entry). unfold level_options. set_solver. Defined.
