(* ===== verification/LogsDrawer.v ===== *)
(** The logs console of a container (frontend/src/components/LogsDrawer.tsx): the
    terminal of an open drawer and the stream it subscribes to.

    Terminals are numbered; of a terminal only the calls made on it are kept.  A
    run of the stream effect is numbered too: [subscribed] is the run whose
    [isSubscribed] is true, [aborted] the runs whose signal was aborted. *)
From S2P Require Import Prelude Async Proto.

Inductive Status := connecting | streaming | disconnected | failed.

(** The text of the badge. *)
Definition status_text (st : Status) : string :=
  match st with
  | connecting => "connecting" | streaming => "streaming"
  | disconnected => "disconnected" | failed => "error"
  end.

Definition status_color (st : Status) : string :=
  match st with
  | streaming => "#10b981" | connecting => "#f59e0b" | failed => "#ef4444" | disconnected => "#6b7280"
  end.

Inductive termcall := Clear | Write (s : string).

(** Where [streamLogs] stands: awaiting the stream, or in its loop. *)
Inductive phase := Opening | Reading.

Record Run := mkRun { run_phase : phase; run_term : nat; run_request : GetContainerLogsRequest }.

Record State := mkState {
  containerId : option string;
  tailLines : Z;
  follow : bool;
  status : Status;
  xtermRef : option nat;
  terminals : gmap nat (list termcall);
  disposed : gset nat;
  openDeps : option bool;
  streamDeps : option (option string * Z * bool);
  subscribed : option nat;
  aborted : gset nat;
  runs : gmap nat Run;
  next : nat
}.

Definition setContainerId (v : option string) (s : State) : State :=
  mkState v (tailLines s) (follow s) (status s) (xtermRef s) (terminals s) (disposed s)
    (openDeps s) (streamDeps s) (subscribed s) (aborted s) (runs s) (next s).
Definition setTailLines (v : Z) (s : State) : State :=
  mkState (containerId s) v (follow s) (status s) (xtermRef s) (terminals s) (disposed s)
    (openDeps s) (streamDeps s) (subscribed s) (aborted s) (runs s) (next s).
Definition setFollow (v : bool) (s : State) : State :=
  mkState (containerId s) (tailLines s) v (status s) (xtermRef s) (terminals s) (disposed s)
    (openDeps s) (streamDeps s) (subscribed s) (aborted s) (runs s) (next s).
Definition setStatus (v : Status) (s : State) : State :=
  mkState (containerId s) (tailLines s) (follow s) v (xtermRef s) (terminals s) (disposed s)
    (openDeps s) (streamDeps s) (subscribed s) (aborted s) (runs s) (next s).
Definition setXtermRef (v : option nat) (s : State) : State :=
  mkState (containerId s) (tailLines s) (follow s) (status s) v (terminals s) (disposed s)
    (openDeps s) (streamDeps s) (subscribed s) (aborted s) (runs s) (next s).
Definition setTerminals (v : gmap nat (list termcall)) (s : State) : State :=
  mkState (containerId s) (tailLines s) (follow s) (status s) (xtermRef s) v (disposed s)
    (openDeps s) (streamDeps s) (subscribed s) (aborted s) (runs s) (next s).
Definition setDisposed (v : gset nat) (s : State) : State :=
  mkState (containerId s) (tailLines s) (follow s) (status s) (xtermRef s) (terminals s) v
    (openDeps s) (streamDeps s) (subscribed s) (aborted s) (runs s) (next s).
Definition setOpenDeps (v : option bool) (s : State) : State :=
  mkState (containerId s) (tailLines s) (follow s) (status s) (xtermRef s) (terminals s)
    (disposed s) v (streamDeps s) (subscribed s) (aborted s) (runs s) (next s).
Definition setStreamDeps (v : option (option string * Z * bool)) (s : State) : State :=
  mkState (containerId s) (tailLines s) (follow s) (status s) (xtermRef s) (terminals s)
    (disposed s) (openDeps s) v (subscribed s) (aborted s) (runs s) (next s).
Definition setSubscribed (v : option nat) (s : State) : State :=
  mkState (containerId s) (tailLines s) (follow s) (status s) (xtermRef s) (terminals s)
    (disposed s) (openDeps s) (streamDeps s) v (aborted s) (runs s) (next s).
Definition setAborted (v : gset nat) (s : State) : State :=
  mkState (containerId s) (tailLines s) (follow s) (status s) (xtermRef s) (terminals s)
    (disposed s) (openDeps s) (streamDeps s) (subscribed s) v (runs s) (next s).
Definition setRuns (v : gmap nat Run) (s : State) : State :=
  mkState (containerId s) (tailLines s) (follow s) (status s) (xtermRef s) (terminals s)
    (disposed s) (openDeps s) (streamDeps s) (subscribed s) (aborted s) v (next s).
Definition setNext (v : nat) (s : State) : State :=
  mkState (containerId s) (tailLines s) (follow s) (status s) (xtermRef s) (terminals s)
    (disposed s) (openDeps s) (streamDeps s) (subscribed s) (aborted s) (runs s) v.

Definition initial : State :=
  mkState None 100 true disconnected None ∅ ∅ None None None ∅ ∅ 0.

Definition isOpen (s : State) : bool :=
  match containerId s with Some id => truthy id | None => false end.

(** ** Terminal texts *)

Definition esc (code : string) : string := String (ascii_of_nat 27) ("[" +:+ code +:+ "m").
Definition crlf : string := String (ascii_of_nat 13) (String (ascii_of_nat 10) EmptyString).

Definition connecting_text : string := esc "90" +:+ "Connecting to logs stream..." +:+ esc "0" +:+ crlf.
Definition connected_text : string :=
  esc "32" +:+ "Connected. Streaming container logs:" +:+ esc "0" +:+ crlf +:+ crlf.
Definition closed_text : string := crlf +:+ esc "90" +:+ "Stream closed by server." +:+ esc "0" +:+ crlf.
Definition paused_text : string := crlf +:+ esc "90" +:+ "Stream paused." +:+ esc "0" +:+ crlf.
Definition error_text (msg : string) : string := crlf +:+ esc "31" +:+ "Error: " +:+ msg +:+ esc "0" +:+ crlf.
Definition line_text (l : string) : string := l +:+ crlf.

(** [term.clear()] and [term.write(s)] *)
Definition term_call (t : nat) (c : termcall) (s : State) : State :=
  setTerminals (alter (fun cs => cs ++ [c]) t (terminals s)) s.

(** ** The two effects *)

(** The first effect opens a terminal when the drawer opens. *)
Definition open_terminal (s : State) : State :=
  if isOpen s
  then setXtermRef (Some (next s)) (setTerminals (<[next s := []]> (terminals s)) (setNext (S (next s)) s))
  else s.

Definition dispose_terminal (s : State) : State :=
  match xtermRef s with
  | Some t => setXtermRef None (setDisposed ({[t]} ∪ disposed s) s)
  | None => s
  end.

(** The second effect: [streamLogs] up to its first await. *)
Definition subscribe (s : State) : State :=
  match containerId s, xtermRef s with
  | Some id, Some t =>
      if isOpen s then
        term_call t (Write connecting_text) (term_call t Clear (setStatus connecting
          (setSubscribed (Some (next s))
             (setRuns (<[next s := mkRun Opening t (mkGetContainerLogsRequest id (tailLines s) (follow s))]> (runs s))
                (setNext (S (next s)) s)))))
      else s
  | _, _ => s
  end.

Definition unsubscribe (s : State) : State :=
  match subscribed s with
  | Some n => setSubscribed None (setAborted ({[n]} ∪ aborted s) s)
  | None => s
  end.

Definition stream_deps (s : State) : option string * Z * bool := (containerId s, tailLines s, follow s).

(** A commit: the cleanups of the effects whose dependencies changed, then those
    effects, in the order of the component. *)
Definition commit (s : State) : State :=
  let openChanged := negb (bool_decide (openDeps s = Some (isOpen s))) in
  let streamChanged := negb (bool_decide (streamDeps s = Some (stream_deps s))) in
  let s := if openChanged then dispose_terminal s else s in
  let s := if streamChanged then unsubscribe s else s in
  let s := if openChanged then setOpenDeps (Some (isOpen s)) (open_terminal s) else s in
  if streamChanged then setStreamDeps (Some (stream_deps s)) (subscribe s) else s.

Definition unmount (s : State) : State := unsubscribe (dispose_terminal s).

(** ** Events *)

Inductive stream_event := Opened | Chunk (logLine : string) | Closed | Failed (err : thrown).

Inductive event :=
| Opens (id : option string) | TailSelected (n : Z) | FollowToggled (b : bool) | ClearClicked
| Stream (run : nat) (e : stream_event).

Definition end_run (n : nat) (s : State) : State := setRuns (delete n (runs s)) s.

(** What run [n] does with what its stream delivers. *)
Definition on_stream (n : nat) (e : stream_event) (s : State) : State :=
  let isSubscribed := bool_decide (subscribed s = Some n) in
  match runs s !! n with
  | None => s
  | Some r =>
      let write text s := term_call (run_term r) (Write text) s in
      match run_phase r, e with
      | Opening, Opened =>
          if negb isSubscribed then end_run n s
          else write connected_text (setStatus streaming
                 (setRuns (<[n := mkRun Reading (run_term r) (run_request r)]> (runs s)) s))
      | Reading, Chunk line => if negb isSubscribed then end_run n s else write (line_text line) s
      | Reading, Closed =>
          if isSubscribed then write closed_text (setStatus disconnected (end_run n s)) else end_run n s
      | _, Failed err =>
          if bool_decide (n ∈ aborted s) then
            if isSubscribed then write paused_text (setStatus disconnected (end_run n s)) else end_run n s
          else if isSubscribed then write (error_text (errText err)) (setStatus failed (end_run n s))
          else end_run n s
      | _, _ => s
      end
  end.

Definition tail_options : list Z := [50; 100; 250; 500; 1000]%Z.

Definition on_event (e : event) (s : State) : State :=
  match e with
  | Opens id => commit (setContainerId id s)
  | TailSelected n => if bool_decide (n ∈ tail_options) then commit (setTailLines n s) else s
  | FollowToggled b => commit (setFollow b s)
  | ClearClicked => match xtermRef s with Some t => term_call t Clear s | None => s end
  | Stream n e => on_stream n e s
  end.

Definition subtitle (containerName : option string) (s : State) : string :=
  str_or (default "" containerName) (str_or (default "" (containerId s)) "").

(** The states of a mounted drawer. *)
Inductive reachable : State -> Prop :=
| reach_mount : reachable (commit initial)
| reach_step (s : State) (e : event) : reachable s -> reachable (on_event e s).

(** ** The invariant *)

Definition open_for (d : option string * Z * bool) : bool :=
  match d.1.1 with Some id => truthy id | None => false end.

Definition request_for (d : option string * Z * bool) : GetContainerLogsRequest :=
  mkGetContainerLogsRequest (default "" d.1.1) d.1.2 d.2.

(** Nothing runs yet, or no more: every run was aborted. *)
Record quiet (s : State) : Prop := {
  quiet_subscribed : subscribed s = None;
  quiet_runs : forall n r, runs s !! n = Some r -> n < next s /\ n ∈ aborted s;
  quiet_disposed : forall t, t ∈ disposed s -> t < next s;
  quiet_aborted : forall n, n ∈ aborted s -> n < next s
}.

Definition live_terminal (s : State) (t : nat) : Prop :=
  xtermRef s = Some t /\ t ∉ disposed s /\ t < next s /\ is_Some (terminals s !! t).

(** What holds after the effects ran for the dependencies [d]. *)
Record settled (d : option string * Z * bool) (s : State) : Prop := {
  settled_open : openDeps s = Some (open_for d);
  settled_stream : streamDeps s = Some d;
  settled_term : if open_for d then exists t, live_terminal s t else xtermRef s = None;
  settled_sub : if open_for d then exists n, subscribed s = Some n /\ n ∉ aborted s /\ n < next s
                else subscribed s = None;
  settled_runs : forall n r, runs s !! n = Some r -> n < next s /\
    if decide (subscribed s = Some n)
    then xtermRef s = Some (run_term r) /\ run_request r = request_for d
    else n ∈ aborted s;
  settled_disposed : forall t, t ∈ disposed s -> t < next s;
  settled_aborted : forall n, n ∈ aborted s -> n < next s
}.

Lemma unsubscribe_quiet (d : option string * Z * bool) (s : State) : settled d s -> quiet (unsubscribe s).
Proof.
  intros [_ _ _ Hs Hr Hd Ha]. unfold unsubscribe. destruct (subscribed s) as [n|] eqn:E.
  - assert (n < next s) as Hn.
    { destruct (open_for d); [|done]. destruct Hs as (n' & [= <-] & _ & ?). done. }
    split; cbn; [done| |done|].
    + intros m r Hm. apply Hr in Hm as [? Hm]. split; [done|]. case_decide; set_solver.
    + intros m. rewrite elem_of_union, elem_of_singleton. intros [->|?]; auto.
  - split; [done| |done|done]. intros m r Hm. apply Hr in Hm as [? Hm]. split; [done|].
    by rewrite decide_False in Hm.
Qed.

Lemma dispose_settled_quiet (s : State) : quiet s ->
  (forall t, xtermRef s = Some t -> t < next s) -> quiet (dispose_terminal s).
Proof.
  intros [H1 H2 H3 H4] Ht. unfold dispose_terminal. destruct (xtermRef s) as [t|]; [|done].
  split; cbn; try done. intros t'. rewrite elem_of_union, elem_of_singleton. intros [->|?]; auto.
Qed.

Lemma open_terminal_live (s : State) : quiet s -> isOpen s = true ->
  quiet (open_terminal s) /\ exists t, live_terminal (open_terminal s) t.
Proof.
  intros [H1 H2 H3 H4] Ho. unfold open_terminal. rewrite Ho. split.
  - split; cbn; [done| | |].
    + intros n r Hn. apply H2 in Hn as [? ?]. split; [lia|done].
    + intros t Ht. apply H3 in Ht. lia.
    + intros n Hn. apply H4 in Hn. lia.
  - exists (next s). split_and!; cbn; [done| |lia|].
    + intros Ht. apply H3 in Ht. lia.
    + rewrite lookup_insert_eq. by eexists.
Qed.

Lemma subscribe_settled (s : State) : quiet s -> openDeps s = Some (isOpen s) ->
  (if isOpen s then exists t, live_terminal s t else xtermRef s = None) ->
  settled (stream_deps s) (setStreamDeps (Some (stream_deps s)) (subscribe s)).
Proof.
  intros [H1 H2 H3 H4] Ho Ht. assert (open_for (stream_deps s) = isOpen s) as Hopen by done.
  destruct (isOpen s) eqn:E.
  - destruct Ht as (t & Hx & Hnd & Hlt & [cs Hcs]). unfold subscribe. rewrite Hx, E.
    destruct (containerId s) as [id|] eqn:Eid; [|unfold isOpen in E; by rewrite Eid in E].
    split; cbn; rewrite ?Hopen; cbn.
    + by rewrite Ho.
    + done.
    + exists t. split_and!; cbn; [done|done|lia|]. rewrite !lookup_alter_eq, Hcs. by eexists.
    + exists (next s). split_and!; [done| |lia]. intros Hn. apply H4 in Hn. lia.
    + intros n r Hn. destruct (decide (n = next s)) as [->|Hne].
      * rewrite lookup_insert_eq in Hn. injection Hn as <-. split; [lia|]. rewrite decide_True by done. cbn.
        split; [done|]. unfold request_for, stream_deps. by rewrite Eid.
      * rewrite lookup_insert_ne in Hn by done. apply H2 in Hn as [? ?]. split; [lia|].
        rewrite decide_False; [done|congruence].
    + intros n Hn. apply H3 in Hn. lia.
    + intros n Hn. apply H4 in Hn. lia.
  - unfold subscribe. rewrite Ht. destruct (containerId s); (split; cbn; rewrite ?Hopen; cbn; try done);
      intros n r Hn; rewrite H1, decide_False by done; by eapply H2.
Qed.

(** The state a commit hands to the stream effect when its dependencies changed. *)
Definition ready (s : State) : Prop :=
  quiet s /\ openDeps s = Some (isOpen s) /\
  (if isOpen s then exists t, live_terminal s t else xtermRef s = None).

Lemma commit_changed (d : option string * Z * bool) (s : State) :
  settled d s -> d <> stream_deps s ->
  exists s2, ready s2 /\ stream_deps s2 = stream_deps s /\
    commit s = setStreamDeps (Some (stream_deps s2)) (subscribe s2).
Proof.
  intros Hs Hd. unfold commit. rewrite (settled_open d s Hs), (settled_stream d s Hs).
  rewrite (bool_decide_eq_false_2 (Some d = _)) by congruence. cbn [negb].
  pose proof (unsubscribe_quiet d s Hs) as Hq.
  assert (forall t, xtermRef (unsubscribe s) = Some t -> t < next (unsubscribe s)) as Hx.
  { intros t. unfold unsubscribe. destruct Hs as [_ _ Ht _ _ _ _].
    destruct (subscribed s); cbn; destruct (open_for d); try congruence;
      destruct Ht as (t' & -> & _ & ? & _); intros [= <-]; done. }
  case_bool_decide as Eo; cbn [negb].
  - exists (unsubscribe s). assert (isOpen (unsubscribe s) = isOpen s /\
      stream_deps (unsubscribe s) = stream_deps s /\ openDeps (unsubscribe s) = openDeps s /\
      (forall t, live_terminal s t -> live_terminal (unsubscribe s) t) /\
      xtermRef (unsubscribe s) = xtermRef s) as (E1 & E2 & E3 & E4 & E5).
    { unfold unsubscribe. destruct (subscribed s); by split_and!. }
    split_and!; [|done|done]. split_and!; [done|by rewrite E3, E1, (settled_open d s Hs)|].
    rewrite E1. injection Eo as <-. destruct Hs as [_ _ Ht _ _ _ _]. destruct (open_for d).
    + destruct Ht as [t Ht]. eauto.
    + by rewrite E5.
  - assert (unsubscribe (dispose_terminal s) = dispose_terminal (unsubscribe s)) as ->.
    { unfold unsubscribe, dispose_terminal. cbn. destruct (xtermRef s) eqn:Ex, (subscribed s) eqn:Es; cbn;
        rewrite ?Ex, ?Es; done. }
    pose proof (dispose_settled_quiet _ Hq Hx) as Hq1.
    set (s1 := dispose_terminal (unsubscribe s)) in *.
    assert (stream_deps s1 = stream_deps s /\ xtermRef s1 = None) as (E2 & E3).
    { unfold s1, dispose_terminal, unsubscribe. destruct (subscribed s); cbn;
        destruct (xtermRef s) eqn:E; cbn; rewrite ?E; done. }
    exists (setOpenDeps (Some (isOpen s1)) (open_terminal s1)).
    assert (isOpen (open_terminal s1) = isOpen s1 /\ stream_deps (open_terminal s1) = stream_deps s1) as [E4 E5].
    { unfold open_terminal. destruct (isOpen s1) eqn:E; split; (exact E || reflexivity). }
    split_and!; [|by rewrite <-E2|done]. unfold ready.
    change (isOpen (setOpenDeps ?v ?x)) with (isOpen x). rewrite E4.
    destruct (isOpen s1) eqn:Eop.
    + destruct (open_terminal_live s1 Hq1 Eop) as [[Q1 Q2 Q3 Q4] Hlive]. by split_and!.
    + unfold open_terminal. rewrite Eop. destruct Hq1. by split_and!.
Qed.

Lemma commit_settled (d : option string * Z * bool) (s : State) :
  settled d s -> settled (stream_deps s) (commit s) /\ stream_deps (commit s) = stream_deps s.
Proof.
  intros Hs. destruct (decide (d = stream_deps s)) as [->|Hd].
  - unfold commit. rewrite (settled_open _ s Hs), (settled_stream _ s Hs), !bool_decide_eq_true_2 by done. done.
  - destruct (commit_changed d s Hs Hd) as (s2 & (H1 & H2 & H3) & <- & ->).
    split; [by apply subscribe_settled|]. unfold subscribe. by repeat case_match.
Qed.

(** What a stream event leaves alone. *)
Lemma on_stream_same (n : nat) (e : stream_event) (s : State) :
  let s' := on_stream n e s in
  (containerId s', tailLines s', follow s', xtermRef s', disposed s') =
    (containerId s, tailLines s, follow s, xtermRef s, disposed s) /\
  (openDeps s', streamDeps s', subscribed s', aborted s', next s') =
    (openDeps s, streamDeps s, subscribed s, aborted s, next s) /\
  (forall t, is_Some (terminals s !! t) -> is_Some (terminals s' !! t)) /\
  (forall m r', runs s' !! m = Some r' -> exists r, runs s !! m = Some r /\
     run_term r' = run_term r /\ run_request r' = run_request r).
Proof.
  assert (forall t0 (s : State) c t, is_Some (terminals s !! t) -> is_Some (terminals (term_call t0 c s) !! t)) as Hterm.
  { intros t0 s0 c t [cs Ht]. cbn. destruct (decide (t = t0)) as [->|?].
    - rewrite lookup_alter_eq, Ht. by eexists.
    - rewrite lookup_alter_ne by done. by eexists. }
  assert (forall (s : State) m r', runs (end_run n s) !! m = Some r' -> exists r, runs s !! m = Some r /\
    run_term r' = run_term r /\ run_request r' = run_request r) as Hend.
  { intros s0 m r'. cbn. intros [_ Hm]%lookup_delete_Some. by eauto. }
  cbv zeta. unfold on_stream. destruct (runs s !! n) as [r|] eqn:Er; [|by split_and!; eauto].
  destruct (run_phase r), e; repeat case_bool_decide; cbn [negb];
    (split_and!; [done|done|by eauto|]); eauto; intros m r'; cbn.
  destruct (decide (m = n)) as [->|?].
  - rewrite lookup_insert_eq. intros [= <-]. by eauto.
  - rewrite lookup_insert_ne by done. by eauto.
Qed.

Lemma on_stream_settled (d : option string * Z * bool) (n : nat) (e : stream_event) (s : State) :
  settled d s -> settled d (on_stream n e s).
Proof.
  destruct (on_stream_same n e s) as ([= E1 E2 E3 E4 E5] & [= E6 E7 E8 E9 E10] & Ht & Hruns).
  intros [H1 H2 H3 H4 H5 H6 H7]. split; rewrite ?E4, ?E5, ?E6, ?E7, ?E8, ?E9, ?E10; try done.
  - destruct (open_for d); [|done]. destruct H3 as (t & Hx & Hd & Hl & Hs). exists t. unfold live_terminal.
    rewrite E4, E5, E10. auto.
  - intros m r' Hm. apply Hruns in Hm as (r & Hm & -> & ->). by apply H5.
Qed.

Lemma clear_settled (d : option string * Z * bool) (t : nat) (c : termcall) (s : State) :
  settled d s -> settled d (term_call t c s).
Proof.
  intros [H1 H2 H3 H4 H5 H6 H7]. split; try done. destruct (open_for d); [|done].
  destruct H3 as (t' & Hx & Hd & Hl & [cs Hs]). exists t'. split_and!; try done. cbn.
  destruct (decide (t' = t)) as [->|?]; [rewrite lookup_alter_eq, Hs|rewrite lookup_alter_ne by done]; by eexists.
Qed.

Lemma setter_settled (d : option string * Z * bool) (s s' : State) :
  (xtermRef s', terminals s', disposed s', openDeps s', streamDeps s', subscribed s', aborted s', runs s', next s') =
  (xtermRef s, terminals s, disposed s, openDeps s, streamDeps s, subscribed s, aborted s, runs s, next s) ->
  settled d s -> settled d s'.
Proof.
  intros [= E1 E2 E3 E4 E5 E6 E7 E8 E9] [H1 H2 H3 H4 H5 H6 H7].
  split; rewrite ?E1, ?E2, ?E3, ?E4, ?E5, ?E6, ?E7, ?E8, ?E9; try done.
  destruct (open_for d); [|done]. destruct H3 as [t H3]. exists t. unfold live_terminal.
  by rewrite E1, E2, E3, E9.
Qed.

Lemma reachable_settled (s : State) : reachable s -> settled (stream_deps s) s.
Proof.
  assert (forall d (s s' : State), settled d s ->
    (xtermRef s', terminals s', disposed s', openDeps s', streamDeps s', subscribed s', aborted s', runs s', next s') =
    (xtermRef s, terminals s, disposed s, openDeps s, streamDeps s, subscribed s, aborted s, runs s, next s) ->
    settled (stream_deps (commit s')) (commit s')) as Hset.
  { intros d s0 s1 Hs E. apply (setter_settled d _ s1) in Hs; [|done].
    destruct (commit_settled d s1 Hs) as [H1 ->]. done. }
  induction 1 as [|s e Hs IH].
  - split; cbn; try done; set_solver.
  - destruct e as [id|m|b| |n e]; cbn [on_event].
    + by eapply Hset.
    + case_bool_decide; [|done]. by eapply Hset.
    + by eapply Hset.
    + destruct (xtermRef s) as [t|]; [|done]. by apply clear_settled.
    + assert (stream_deps (on_stream n e s) = stream_deps s) as ->.
      { destruct (on_stream_same n e s) as ([= E1 E2 E3 _ _] & _). unfold stream_deps. by rewrite E1, E2, E3. }
      by apply on_stream_settled.
Qed.

(** ** Theorems *)

(** However the drawer is opened, closed and reconfigured and however streams
    answer: an open drawer has one terminal, not disposed of, and one subscribed
    run, not aborted; a run that still receives is the subscribed one, writes to
    that terminal and asked for the container, the number of lines and the
    following now selected, or else it was aborted.  A closed drawer has neither,
    so every stream was aborted. *)
Theorem drawer_runs (s : State) (H : reachable s) :
  (if isOpen s then exists t n, live_terminal s t /\ subscribed s = Some n /\ n ∉ aborted s
   else xtermRef s = None /\ subscribed s = None) /\
  (forall n r, runs s !! n = Some r ->
     if decide (subscribed s = Some n)
     then xtermRef s = Some (run_term r) /\
          run_request r = mkGetContainerLogsRequest (default "" (containerId s)) (tailLines s) (follow s)
     else n ∈ aborted s).
Proof.
  apply reachable_settled in H as [_ _ Ht Hs Hr _ _]. split.
  - change (open_for (stream_deps s)) with (isOpen s) in *. destruct (isOpen s); [|done].
    destruct Ht as [t Ht], Hs as (n & ? & ? & _). by exists t, n.
  - intros n r Hn. by apply Hr in Hn as [_ Hn].
Qed.

Definition an_open_drawer : State := on_event (Opens (Some "c1"%string)) (commit initial).

Lemma drawer_runs_witness : exists t n, live_terminal an_open_drawer t /\ subscribed an_open_drawer = Some n /\
  n ∉ aborted an_open_drawer.
Proof. destruct (drawer_runs an_open_drawer (reach_step _ _ reach_mount)) as [H _]. exact H. Defined.

(** What the events of one run amount to while it stays subscribed: where it
    stands, the status, and what it writes. *)
Definition own_step (c : option phase * Status * list termcall) (e : stream_event) :
    option phase * Status * list termcall :=
  let '(ph, st, out) := c in
  match ph, e with
  | Some Opening, Opened => (Some Reading, streaming, out ++ [Write connected_text])
  | Some Reading, Chunk l => (Some Reading, st, out ++ [Write (line_text l)])
  | Some Reading, Closed => (None, disconnected, out ++ [Write closed_text])
  | Some _, Failed err => (None, failed, out ++ [Write (error_text (errText err))])
  | _, _ => c
  end.

Definition own (n : nat) (es : list (nat * stream_event)) : list stream_event :=
  omap (fun e => if decide (e.1 = n) then Some e.2 else None) es.

Definition deliver (s : State) (es : list (nat * stream_event)) : State :=
  fold_left (fun s e => on_stream e.1 e.2 s) es s.

(** What a drawer shows of run [n] on terminal [t]. *)
Definition shows (n t : nat) (s : State) (c : option phase * Status * list termcall) : Prop :=
  subscribed s = Some n /\ n ∉ aborted s /\ terminals s !! t = Some c.2 /\ status s = c.1.2 /\
  (forall r, runs s !! n = Some r -> c.1.1 = Some (run_phase r) /\ run_term r = t) /\
  (runs s !! n = None -> c.1.1 = None).

Lemma shows_own (n t : nat) (e : stream_event) (s : State) c :
  shows n t s c -> shows n t (on_stream n e s) (own_step c e).
Proof.
  intros (Hs & Ha & Ht & Hst & Hr & Hn). destruct c as [[ph st] out]. cbn [fst snd] in *. subst st.
  unfold on_stream. rewrite (bool_decide_eq_true_2 _ Hs), (bool_decide_eq_false_2 _ Ha).
  destruct (runs s !! n) as [r|] eqn:Er.
  - destruct (Hr r eq_refl) as [-> <-].
    destruct r as [[] tr rq], e; cbn in *; split_and!; cbn; try done; rewrite ?lookup_alter_eq, ?Ht;
      rewrite ?lookup_insert_eq, ?lookup_delete_eq, ?Er; cbn; try done; by intros ? [= <-].
  - rewrite Hn by done. destruct e; cbn; split_and!; cbn; try done; rewrite Er; by intros ?.
Qed.

Lemma shows_other (n m t : nat) (e : stream_event) (s : State) c :
  m <> n -> shows n t s c -> shows n t (on_stream m e s) c.
Proof.
  intros Hne (Hs & Ha & Ht & Hst & Hr & Hn).
  assert (on_stream m e s = s \/ on_stream m e s = end_run m s) as [->| ->]; [|done|].
  - unfold on_stream. rewrite Hs, (bool_decide_eq_false_2 (Some n = Some m)) by congruence. cbn.
    destruct (runs s !! m) as [[[] tr rq]|], e; cbn; repeat case_bool_decide; auto.
  - split_and!; cbn; try done; rewrite lookup_delete_ne by done; done.
Qed.

Lemma shows_deliver (n t : nat) (es : list (nat * stream_event)) (s : State) c :
  shows n t s c -> shows n t (deliver s es) (fold_left own_step (own n es) c).
Proof.
  revert s c. induction es as [|[m e] es IH]; intros s c Hc; [done|]. cbn.
  destruct (decide (m = n)) as [->|Hne]; cbn.
  - by apply IH, shows_own.
  - by apply IH, shows_other.
Qed.

Lemma fold_chunks (lines : list string) (st : Status) (out : list termcall) :
  fold_left own_step (Chunk <$> lines) (Some Reading, st, out) =
  (Some Reading, st, out ++ (Write ∘ line_text <$> lines)).
Proof.
  revert out. induction lines as [|l lines IH]; intros out; cbn; [by rewrite app_nil_r|].
  by rewrite IH, <-app_assoc.
Qed.

(** How a stream ends, with the badge and the last words of the terminal. *)
Inductive ending := Ongoing | ByServer | ByError (err : thrown).

Definition ending_events (x : ending) : list stream_event :=
  match x with Ongoing => [] | ByServer => [Closed] | ByError err => [Failed err] end.
Definition ending_status (x : ending) : Status :=
  match x with Ongoing => streaming | ByServer => disconnected | ByError _ => failed end.
Definition ending_text (x : ending) : list termcall :=
  match x with Ongoing => [] | ByServer => [Write closed_text] | ByError err => [Write (error_text (errText err))] end.

(** A fresh subscription: the connecting notice on a cleared screen. *)
Lemma subscribe_shows (s : State) : ready s -> isOpen s = true ->
  exists t before, xtermRef (subscribe s) = Some t /\
    shows (next s) t (setStreamDeps (Some (stream_deps s)) (subscribe s))
      (Some Opening, connecting, before ++ [Clear; Write connecting_text]).
Proof.
  intros ([H1 H2 H3 H4] & _ & Ht) E. rewrite E in Ht. destruct Ht as (t & Hx & Hnd & Hlt & [cs Hcs]).
  unfold subscribe. rewrite Hx, E.
  destruct (containerId s) as [id|] eqn:Eid; [|unfold isOpen in E; by rewrite Eid in E].
  exists t, cs. split; [exact Hx|]. split_and!; cbn; try done.
  - intros Hn. apply H4 in Hn. lia.
  - rewrite !lookup_alter_eq, Hcs. cbn. by rewrite <-app_assoc.
  - intros r. rewrite lookup_insert_eq. by intros [= <-].
  - by rewrite lookup_insert_eq.
Qed.

(** The state an event leaves, as a commit of the properties it set. *)
Lemma event_commit (s : State) (e : event) :
  settled (stream_deps s) s -> stream_deps (on_event e s) <> stream_deps s ->
  exists s1, settled (stream_deps s) s1 /\ on_event e s = commit s1 /\ stream_deps s1 <> stream_deps s.
Proof.
  intros Hs Hne. assert (forall s1, settled (stream_deps s) s1 -> stream_deps (commit s1) <> stream_deps s ->
    exists s2, settled (stream_deps s) s2 /\ commit s1 = commit s2 /\ stream_deps s2 <> stream_deps s) as Hok.
  { intros s1 H1 H2. exists s1. destruct (commit_settled _ _ H1) as [_ E]. rewrite E in H2. done. }
  destruct e as [id|m|b| |m e]; cbn [on_event] in *.
  - apply Hok; [by apply (setter_settled _ s)|done].
  - case_bool_decide; [|done]. apply Hok; [by apply (setter_settled _ s)|done].
  - apply Hok; [by apply (setter_settled _ s)|done].
  - exfalso. apply Hne. by destruct (xtermRef s).
  - exfalso. apply Hne. destruct (on_stream_same m e s) as ([= E1 E2 E3 _ _] & _). unfold stream_deps.
    by rewrite E1, E2, E3.
Qed.

(** C19: From the moment an open drawer asks for a container, a number of lines or
    following other than before, the terminal shows the connecting notice on a
    cleared screen and then exactly the lines of the new stream, in order, between
    its greeting and the notice of how it ended, and the badge says so, whatever
    the streams asked for earlier still deliver in between.  What the terminal shows
    is what has been written to it: that it takes writes into a buffer and draws them
    a moment later is not modelled. *)
Theorem drawer_shows_stream (s : State) (e : event) (es : list (nat * stream_event)) (n : nat)
    (lines : list string) (x : ending)
    (H : reachable s)
    (He : match e with Stream _ _ | ClearClicked => False | _ => True end)
    (Hnew : stream_deps (on_event e s) <> stream_deps s)
    (Hn : subscribed (on_event e s) = Some n)
    (Hes : own n es = Opened :: (Chunk <$> lines) ++ ending_events x) :
  exists t before, xtermRef (on_event e s) = Some t /\
    terminals (deliver (on_event e s) es) !! t =
      Some (before ++ [Clear; Write connecting_text; Write connected_text] ++
            (Write ∘ line_text <$> lines) ++ ending_text x) /\
    status (deliver (on_event e s) es) = ending_status x.
Proof.
  apply reachable_settled in H. destruct (event_commit s e H Hnew) as (s1 & Hs1 & E & Hd). rewrite E in *.
  destruct (commit_changed _ s1 Hs1 (not_eq_sym Hd)) as (s2 & Hr & _ & E2). rewrite E2 in *.
  destruct (isOpen s2) eqn:Eo.
  - destruct (subscribe_shows s2 Hr Eo) as (t & before & Hx & Hsh). exists t, before. split; [done|].
    assert (n = next s2) as ->. { destruct Hsh as (Hs & _). congruence. }
    destruct (shows_deliver _ t es _ _ Hsh) as (_ & _ & Ht & Hst & _). rewrite Hes in Ht, Hst.
    cbn [fold_left own_step] in Ht, Hst. rewrite fold_left_app, fold_chunks in Ht, Hst. rewrite Ht, Hst.
    destruct x; cbn; by rewrite ?app_nil_r, <-!app_assoc.
  - exfalso. destruct Hr as ([Hq _ _ _] & _ & Ht). rewrite Eo in Ht. unfold subscribe in Hn. rewrite Ht in Hn.
    destruct (containerId s2); cbn in Hn; congruence.
Qed.

Lemma drawer_shows_stream_witness :
  exists t before, xtermRef an_open_drawer = Some t /\
    terminals (deliver an_open_drawer [(7, Closed); (1, Opened); (1, Chunk "hello")]%string) !! t =
      Some (before ++ [Clear; Write connecting_text; Write connected_text] ++ [Write (line_text "hello")] ++ []) /\
    status (deliver an_open_drawer [(7, Closed); (1, Opened); (1, Chunk "hello")]%string) = streaming.
Proof.
  apply (drawer_shows_stream (commit initial) (Opens (Some "c1"%string))
    [(7, Closed); (1, Opened); (1, Chunk "hello")]%string 1 ["hello"%string] Ongoing).
  - apply reach_mount.
  - exact I.
  - discriminate.
  - reflexivity.
  - reflexivity.
Defined.

(** Whenever a run was aborted its subscription ended too: the notice that the
    stream paused is never written. *)
Lemma never_paused (s : State) (n : nat) : reachable s -> n ∈ aborted s -> subscribed s <> Some n.
Proof.
  intros [_ _ _ Hs _ _ _]%reachable_settled Ha E. destruct (open_for _); [|congruence].
  destruct Hs as (m & Hm & Hn & _). congruence.
Qed.
