(* ===== verification/Dashboard.v ===== *)
(** The containers page (frontend/src/components/ContainerGrid.tsx,
    ContainerTable.tsx) over the container hook: search and filter, the cards and
    the table rows with their buttons, and what clicking them starts. *)
From S2P Require Import Prelude Async Toast Proto Containers AdminTables.

Inductive Filter := all | running | stopped.
Inductive ViewMode := grid | table.

#[global] Instance Filter_eq_dec : EqDecision Filter.
Proof. solve_decision. Defined.
#[global] Instance ViewMode_eq_dec : EqDecision ViewMode.
Proof. solve_decision. Defined.

(** The page beside its hook; [selected] is the id and name given to the logs
    drawer, [storage] the browser's local storage. *)
Record Page := mkPage {
  hook : Containers.State;
  search : string;
  filter_by : Filter;
  selected : option (string * string);
  viewMode : ViewMode;
  sorting : option Sorting;
  storage : gmap string string
}.

Definition setHook (h : Containers.State) (p : Page) : Page :=
  mkPage h (search p) (filter_by p) (selected p) (viewMode p) (sorting p) (storage p).
Definition setSearch (v : string) (p : Page) : Page :=
  mkPage (hook p) v (filter_by p) (selected p) (viewMode p) (sorting p) (storage p).
Definition setFilter (v : Filter) (p : Page) : Page :=
  mkPage (hook p) (search p) v (selected p) (viewMode p) (sorting p) (storage p).
Definition setSelected (v : option (string * string)) (p : Page) : Page :=
  mkPage (hook p) (search p) (filter_by p) v (viewMode p) (sorting p) (storage p).
Definition setSorting (v : option Sorting) (p : Page) : Page :=
  mkPage (hook p) (search p) (filter_by p) (selected p) (viewMode p) v (storage p).

Definition view_text (m : ViewMode) : string := match m with grid => "grid" | table => "table" end.

(** The initialiser of [viewMode]. *)
Definition saved_view (storage : gmap string string) : ViewMode :=
  if bool_decide (storage !! "dmanager_view_mode" = Some "table"%string) then table else grid.

(** The columns of the table: [accessorKey] or [id], the header's text, and whether
    the header is a button that sorts. *)
Definition table_columns : list (string * string * bool) :=
  [("name", "Name", true); ("state", "Status", true); ("image", "Image & Tag", true);
   ("id", "Container ID", false); ("autoUpdate", "Auto Updates", true);
   ("lastCheckedAt", "Last Checked", true); ("actions", "Actions", false)]%string.

Definition sortable (column : string) : bool :=
  existsb (fun c => String.eqb c.1.1 column && c.2) table_columns.

(** [useState] of the table's [sorting]. *)
Definition default_sorting : option Sorting := Some (mkSorting "name" false).

(** The spinner takes the place of the cards or the table. *)
Definition first_loading (p : Page) : bool :=
  Containers.isLoading (hook p) && (length (containers (hook p)) =? 0).

(** The table is on the page; off it, its state is gone and starts anew. *)
Definition table_mounted (p : Page) : bool := bool_decide (viewMode p = table) && negb (first_loading p).

Definition commit (p : Page) : Page := setSorting (if table_mounted p then sorting p else default_sorting) p.

Definition handleViewModeChange (mode : ViewMode) (p : Page) : Page :=
  commit (mkPage (hook p) (search p) (filter_by p) (selected p) mode (sorting p)
    (<["dmanager_view_mode" := view_text mode]> (storage p))).

Definition initial (storage : gmap string string) : Page :=
  mkPage Containers.initial "" all None (saved_view storage) default_sorting storage.

(** The page after its hook changed. *)
Definition with_hook (h : Containers.State) (p : Page) : Page := commit (setHook h p).

(** ** What is shown *)

Definition is_running (c : Container) : bool := String.eqb (c_state c) "running".

(** The numbers of the cards; [--] until the first list. *)
Definition totalCount (l : list Container) : nat := length l.
Definition runningCount (l : list Container) : nat := length (List.filter is_running l).
Definition stoppedCount (l : list Container) : nat := length (List.filter (fun c => negb (is_running c)) l).
Definition updateCount (l : list Container) : nat := length (List.filter c_updateAvailable l).

Definition metric (p : Page) (f : list Container -> nat) : string :=
  if first_loading p then "--" else num (Z.of_nat (f (containers (hook p)))).

Definition metrics (p : Page) : list (string * string) :=
  [(metric p totalCount, "Total Discovered"); (metric p runningCount, "Running");
   (metric p stoppedCount, "Stopped"); (metric p updateCount, "Updates Ready")]%string.

Definition matchesSearch (search : string) (c : Container) : bool :=
  includes (toLowerCase search) (toLowerCase (c_name c)) ||
  includes (toLowerCase search) (toLowerCase (c_image c)).

Definition passes_filter (search : string) (by_ : Filter) (c : Container) : bool :=
  match by_ with
  | running => matchesSearch search c && is_running c
  | stopped => matchesSearch search c && negb (is_running c)
  | all => matchesSearch search c
  end.

(** ** Handlers *)

Abbreviation PageState := (Page * ToastState)%type.
Abbreviation page_handler := (async PageState Containers.Req Containers.Resp unit).

Definition get_hook (s : PageState) : Containers.State * ToastState := (hook s.1, s.2).
Definition put_hook (h : Containers.State * ToastState) (s : PageState) : PageState :=
  (with_hook h.1 s.1, h.2).
Definition of_hook (m : Containers.handler) : page_handler := lift get_hook put_hook m.
Definition page (f : Page -> Page) : page_handler := modify (fun s => (f s.1, s.2)).

Section Page.
(** [localeCompare], and the order the table library gives the rows for the
    sorting of the header buttons. *)
Context (localeCompare : string -> string -> Z)
  (sort_rows : option Sorting -> list Container -> list Container).
(** The role of the signed-in user. *)
Context (isAdmin : bool).

Definition by_name (a b : Container) : bool := Z.leb (localeCompare (c_name a) (c_name b)) 0.

Definition filteredContainers (p : Page) : list Container :=
  toSorted by_name (List.filter (passes_filter (search p) (filter_by p)) (containers (hook p))).

(** The cards, or the rows of the table. *)
Definition rows (p : Page) : list Container :=
  match viewMode p with
  | grid => filteredContainers p
  | table => sort_rows (sorting p) (filteredContainers p)
  end.

(** The text under "No Containers Found". *)
Definition empty_notice (p : Page) : option string :=
  if first_loading p then None
  else if length (filteredContainers p) =? 0 then
    Some (match viewMode p with
          | grid => if truthy (search p) then "No results matched your search query."%string
                    else "No Docker containers discovered on the host system."%string
          | table => "No Docker containers discovered on the host system."%string
          end)
  else None.

(** [!!loadingType] *)
Definition busy (id : string) (h : Containers.State) : bool :=
  match actionLoading h !! id with Some v => truthy v | None => false end.

Definition button (title : option string) (h : Containers.State) (c : Container) (label : string) : Button :=
  mkButton title (negb isAdmin || busy (c_id c) h)
    (bool_decide (actionLoading h !! c_id c = Some label)).

(** The buttons of a card, with the action each starts. *)
Definition card_buttons (h : Containers.State) (c : Container) : list (action * Button) :=
  [(SetAutoUpdate (negb (c_autoUpdate c)),
    mkButton (Some (if isAdmin then "Toggle automatic updates"%string else "Admin required"%string))
      (negb isAdmin || busy (c_id c) h) false);
   if is_running c then (Stop, button None h c "stopping") else (Start, button None h c "starting")] ++
  (if c_updateAvailable c then [(Upgrade, button None h c "upgrading")] else []) ++
  [(CheckUpdates, button (Some "Check updates immediately"%string) h c "checking")].

(** The buttons of a row of the table. *)
Definition row_buttons (h : Containers.State) (c : Container) : list (action * Button) :=
  [(SetAutoUpdate (negb (c_autoUpdate c)),
    mkButton (Some (if isAdmin then "Toggle automatic updates"%string else "Admin required"%string))
      (negb isAdmin || busy (c_id c) h) false);
   if is_running c then (Stop, button (Some "Stop Container"%string) h c "stopping")
   else (Start, button (Some "Start Container"%string) h c "starting")] ++
  (if c_updateAvailable c then [(Upgrade, button (Some "Upgrade Container"%string) h c "upgrading")] else []) ++
  [(CheckUpdates, button (Some "Check Updates"%string) h c "checking")].

Definition buttons (p : Page) : Container -> list (action * Button) :=
  match viewMode p with grid => card_buttons (hook p) | table => row_buttons (hook p) end.

(** The texts of a card: the id, the image id, the state of automatic updates. *)
Definition card_details (c : Container) : list (string * string) :=
  [("Container ID", slice_to 12 (c_id c));
   ("Image ID", if truthy (c_imageId c) then slice_to 12 (c_imageId c) else "Unknown");
   ("Auto Updates", if c_autoUpdate c then "Active" else "Disabled")]%string.

Definition status_class (c : Container) : string := if is_running c then "running" else "stopped".

(** ** Events *)

(** What happens on the page: typing and clicking, with rows and buttons named
    by their place, and the hook's effects and timers. *)
Inductive event :=
| Fetch | SyncClicked
| StreamEvent (e : stream_event) | DeletionTimer (t : nat) | Unmounted
| SearchTyped (v : string) | FilterClicked (f : Filter) | ViewClicked (m : ViewMode)
| HeaderClicked (column : string)
| ButtonClicked (row button : nat)
| LogsClicked (row : nat) | LogsClosed.

Local Open Scope async_scope.

(** [onClick] of a button that is not disabled. *)
Definition click (c : Container) (b : action * Button) : page_handler :=
  if button_disabled b.2 then Ret tt else of_hook (run_action b.1 (c_id c)).

Definition on_event (e : event) : page_handler :=
  match e with
  | Fetch => of_hook fetchContainers
  | SyncClicked =>
      p <- gets fst ;;
      if Containers.isLoading (hook p) then Ret tt else of_hook fetchContainers
  | StreamEvent e => page (fun p => with_hook (stream_step e (hook p)) p)
  | DeletionTimer t => page (fun p => with_hook (timer_fires t (hook p)) p)
  | Unmounted => page (fun p => with_hook (unmount (hook p)) p)
  | SearchTyped v => page (setSearch v)
  | FilterClicked f => page (setFilter f)
  | ViewClicked m => page (handleViewModeChange m)
  | HeaderClicked column =>
      p <- gets fst ;;
      if table_mounted p && sortable column then page (setSorting (SortButton_click (sorting p) column)) else Ret tt
  | ButtonClicked i j =>
      p <- gets fst ;;
      match rows p !! i with
      | None => Ret tt
      | Some c => match buttons p c !! j with Some b => click c b | None => Ret tt end
      end
  | LogsClicked i =>
      p <- gets fst ;;
      match rows p !! i with
      | None => Ret tt
      | Some c => page (setSelected (Some (c_id c, c_name c)))
      end
  | LogsClosed => page (setSelected None)
  end.
End Page.

(** ** Dates *)

Section Dates.
(** The browser's reading and printing of dates; a date that cannot be read
    prints as [Invalid Date]. *)
Context (parseDate : string -> option Z) (timeString dateString : Z -> string).

Definition print_date (f : Z -> string) (d : option Z) : string :=
  match d with Some t => f t | None => "Invalid Date" end.

Definition formatDate (isoStr : string) : string :=
  if negb (truthy isoStr) || startsWith "0001-01-01" isoStr then "Never"
  else print_date timeString (parseDate isoStr) +:+ " " +:+ print_date dateString (parseDate isoStr).
End Dates.

(** ** The table *)

Definition table_headers (sorting : option Sorting) : list (string * option HeaderIcon) :=
  headers table_columns sorting.

(** What the library sorts a column by. *)
Definition container_key (column : string) (c : Container) : option sort_key :=
  if String.eqb column "name" then Some (KeyText (c_name c))
  else if String.eqb column "state" then Some (KeyText (c_state c))
  else if String.eqb column "image" then Some (KeyText (c_image c))
  else if String.eqb column "id" then Some (KeyText (c_id c))
  else if String.eqb column "autoUpdate" then Some (KeyBool (c_autoUpdate c))
  else if String.eqb column "lastCheckedAt" then Some (KeyText (c_lastCheckedAt c))
  else None.

(** The cells of a row but for its buttons. *)
Record TableRow := mkTableRow {
  tr_name : string; tr_status : string * string; tr_image : string; tr_badge : option string;
  tr_id : string; tr_lastChecked : string
}.

Definition table_row (formatDate : string -> string) (c : Container) : TableRow :=
  mkTableRow (c_name c) ("status-badge " +:+ status_class c, c_state c) (c_image c)
    (if c_updateAvailable c then Some "Update Ready"%string else None)
    (slice_to 12 (c_id c)) (formatDate (c_lastCheckedAt c)).

(** The table as it is rendered, its rows in the order of the library. *)
Record TableView := mkTableView {
  tv_headers : list (string * option HeaderIcon);
  tv_rows : list (TableRow * list (action * Button));
  tv_empty : option string
}.

(** A card: title, image, badge, details and the banner of an update. *)
Record Card := mkCard {
  cd_title : string; cd_image : string; cd_status : string * string;
  cd_details : list (string * string); cd_banner : option string; cd_buttons : list (action * Button)
}.

(** What is below the toolbar. *)
Inductive Content := Spinner | InTable (t : TableView) | InCards (cards : list Card) (notice : option string).

Section Views.
Context (localeCompare : string -> string -> Z)
  (sort_rows : option Sorting -> list Container -> list Container)
  (formatDate : string -> string) (isAdmin : bool).

Definition ContainerTable (p : Page) : TableView :=
  mkTableView (table_headers (sorting p))
    ((fun c => (table_row formatDate c, row_buttons isAdmin (hook p) c)) <$>
       sort_rows (sorting p) (filteredContainers localeCompare p))
    (if length (filteredContainers localeCompare p) =? 0
     then Some "No Docker containers discovered on the host system."%string else None).

Definition card (h : Containers.State) (c : Container) : Card :=
  mkCard (c_name c) (c_image c) ("status-badge " +:+ status_class c, c_state c)
    (card_details c ++ [("Last Checked"%string, formatDate (c_lastCheckedAt c))])
    (if c_updateAvailable c then Some "New version available in registry!"%string else None)
    (card_buttons isAdmin h c).

Definition content (p : Page) : Content :=
  if first_loading p then Spinner
  else match viewMode p with
       | table => InTable (ContainerTable p)
       | grid => InCards (card (hook p) <$> filteredContainers localeCompare p) (empty_notice localeCompare p)
       end.

(** The name, state and actions of every container a content shows. *)
Definition summary (x : Content) : list (string * (string * string) * list action) :=
  match x with
  | Spinner => []
  | InTable t => (fun r => (tr_name r.1, tr_status r.1, r.2.*1)) <$> tv_rows t
  | InCards cards _ => (fun c => (cd_title c, cd_status c, (cd_buttons c).*1)) <$> cards
  end.
End Views.

(** ** Theorems *)

Definition sorting_ok (p : Page) : Prop := exists s, sorting p = Some s /\ sortable (sort_column s) = true.

Lemma commit_sorting p : sorting_ok p -> sorting_ok (commit p).
Proof.
  intros [s [Hs Hc]]. unfold sorting_ok, commit. cbn. destruct (table_mounted p); [eauto|].
  exists (mkSorting "name" false). done.
Qed.

Lemma of_hook_sorting (m : Containers.handler) : keeps (fun s : PageState => sorting_ok s.1) (of_hook m).
Proof. apply keeps_lift. intros h s Hs. cbn. by apply commit_sorting. Qed.

Lemma page_sorting (f : Page -> Page) :
  (forall p, sorting_ok p -> sorting_ok (f p)) -> keeps (fun s : PageState => sorting_ok s.1) (page f).
Proof. intros Hf. apply keeps_modify. intros s Hs. by apply Hf. Qed.

(** Exactly one header shows an arrow, whatever was clicked: the one of a sortable
    column by which the rows are sorted, up or down as they are. *)
Theorem one_sorted_column localeCompare sort_rows isAdmin (st : gmap string string) (t : ToastState) (s : PageState)
    (H : pool_reaches (started_by (on_event localeCompare sort_rows isAdmin)) (initial st, t) s) :
  exists column label desc, (column, label, true) ∈ table_columns /\
    sorting s.1 = Some (mkSorting column desc) /\
    List.filter (fun h => match h.2 with Some ArrowUpDownIcon | None => false | _ => true end)
      (table_headers (sorting s.1)) = [(label, Some (if desc then ArrowDownIcon else ArrowUpIcon))].
Proof.
  assert (sorting_ok s.1) as [[column desc] [Hs Hc]].
  { apply (pool_invariant (fun s => sorting_ok s.1) (started_by (on_event localeCompare sort_rows isAdmin))
      (initial st, t)); [|by eexists|exact H].
    intros m [e ->]. destruct e; cbn [on_event]; try apply of_hook_sorting;
      try (apply page_sorting; intros p Hp; try apply commit_sorting; exact Hp).
    - apply keeps_bind; [apply keeps_gets|intros p]. case_match; [apply keeps_ret|apply of_hook_sorting].
    - apply keeps_bind; [apply keeps_gets|intros p]. destruct (_ && _) eqn:E; [|apply keeps_ret].
      apply page_sorting. intros q _. eexists. split; [reflexivity|]. by apply andb_true_iff in E as [_ E].
    - apply keeps_bind; [apply keeps_gets|intros p]. repeat (case_match; try apply keeps_ret).
      unfold click. first [apply of_hook_sorting|case_match; [apply keeps_ret|apply of_hook_sorting]].
    - apply keeps_bind; [apply keeps_gets|intros p]. case_match; [|apply keeps_ret]. by apply page_sorting. }
  apply existsb_exists in Hc as ([[column' label] b] & Hin & [E Hb]%andb_true_iff).
  apply String.eqb_eq in E. cbn in E, Hb. subst column' b. exists column, label, desc. split; [by apply list_elem_of_In|].
  split; [exact Hs|]. rewrite Hs. clear -Hin.
  repeat destruct Hin as [Hin|Hin]; simplify_eq/=; by destruct desc.
Qed.

Lemma length_filter_split {A} (f : A -> bool) (l : list A) :
  length (List.filter f l) + length (List.filter (fun x => negb (f x)) l) = length l.
Proof. induction l as [|x l IH]; [done|]. cbn. destruct (f x); cbn; lia. Qed.

(** The page shows exactly the containers that pass the search and the state
    filter, each as often as the hook lists it, in the order of their names, those
    whose names compare equal in the order of the list; the counts of running and
    stopped containers add up to the total. *)
Theorem filtered_spec (localeCompare : string -> string -> Z) (p : Page)
    (Htotal : forall a b, (localeCompare a b <= 0 \/ localeCompare b a <= 0)%Z)
    (Htrans : forall a b c, (localeCompare a b <= 0 -> localeCompare b c <= 0 -> localeCompare a c <= 0)%Z) :
  let shown := filteredContainers localeCompare p in
  shown ≡ₚ List.filter (passes_filter (search p) (filter_by p)) (containers (hook p)) /\
  StronglySorted (fun a b => localeCompare (c_name a) (c_name b) <= 0)%Z shown /\
  (forall n, filter (fun c => c_name c = n) shown =
     filter (fun c => c_name c = n) (List.filter (passes_filter (search p) (filter_by p)) (containers (hook p)))) /\
  runningCount (containers (hook p)) + stoppedCount (containers (hook p)) = totalCount (containers (hook p)).
Proof.
  intros shown. unfold shown, filteredContainers. split_and!.
  - apply toSorted_perm.
  - assert (forall l, StronglySorted (fun a b => by_name localeCompare a b = true) l ->
      StronglySorted (fun a b => localeCompare (c_name a) (c_name b) <= 0)%Z l) as Hl.
    { induction 1 as [|x l Hl IH Hx]; constructor; [done|]. eapply Forall_impl'; [|exact Hx].
      intros y. apply Z.leb_le. }
    apply Hl, toSorted_sorted; unfold by_name; intros *; rewrite !Z.leb_le; [apply Htotal|apply Htrans].
  - intros n. apply toSorted_stable. intros x y Hx Hy. apply Z.leb_le. rewrite Hx, Hy. by destruct (Htotal n n).
  - apply length_filter_split.
Qed.

Definition sample_container (id name : string) : Container :=
  mkContainer id name "nginx:1" "sha256:1" "running" false true "" "" "".

(** A comparison by length, enough to run the sort. *)
Definition by_length (a b : string) : Z := Z.of_nat (slen a) - Z.of_nat (slen b).

Lemma filtered_spec_witness :
  let p := setHook (setContainers (fun _ => [sample_container "1" "web"; sample_container "2" "db"])
             Containers.initial) (initial ∅) in
  filteredContainers by_length p = [sample_container "2" "db"; sample_container "1" "web"] /\
  filteredContainers by_length p ≡ₚ List.filter (passes_filter "" all) (containers (hook p)).
Proof.
  intros p. split; [reflexivity|].
  apply (filtered_spec by_length p); unfold by_length; intros; lia.
Defined.

(** The cards and the table offer the same actions on a container in the same
    order, and a button is disabled in one view exactly when it is in the other:
    when the user is not an administrator or an action on the container is under
    way.  The offer is to start or to stop, never both, to upgrade exactly when an
    update is available, and to turn automatic updates to what they are not. *)
Theorem same_buttons (isAdmin : bool) (h : Containers.State) (c : Container) :
  (prod_map id button_disabled) <$> card_buttons isAdmin h c = (prod_map id button_disabled) <$> row_buttons isAdmin h c /\
  (card_buttons isAdmin h c).*1 =
    [SetAutoUpdate (negb (c_autoUpdate c)); if is_running c then Stop else Start] ++
    (if c_updateAvailable c then [Upgrade] else []) ++ [CheckUpdates] /\
  Forall (fun b => button_disabled b.2 = negb isAdmin || busy (c_id c) h) (card_buttons isAdmin h c).
Proof.
  unfold card_buttons, row_buttons. destruct (is_running c), (c_updateAvailable c); cbn; split_and!; try done;
    repeat constructor.
Qed.

(** Switching the view changes how the containers are shown and in which order, not
    which are shown, nor their state and what can be done with them; and neither
    view is mistaken for an empty host while the first list is on its way. *)
Theorem same_contents localeCompare sort_rows formatDate isAdmin (p : Page) (m m' : ViewMode)
    (Hsort : forall o l, sort_rows o l ≡ₚ l) :
  summary (content localeCompare sort_rows formatDate isAdmin (handleViewModeChange m p)) ≡ₚ
  summary (content localeCompare sort_rows formatDate isAdmin (handleViewModeChange m' p)) /\
  (first_loading p = true ->
   content localeCompare sort_rows formatDate isAdmin (handleViewModeChange m p) = Spinner).
Proof.
  assert (forall m, first_loading (handleViewModeChange m p) = first_loading p) as Hl by done.
  split; [|intros H; unfold content; by rewrite Hl, H].
  assert (forall m, summary (content localeCompare sort_rows formatDate isAdmin (handleViewModeChange m p)) ≡ₚ
    if first_loading p then [] else
    (fun c => (c_name c, ("status-badge " +:+ status_class c, c_state c), (card_buttons isAdmin (hook p) c).*1))
      <$> filteredContainers localeCompare p) as H; [|by rewrite !H].
  intros v. unfold content. rewrite Hl. destruct (first_loading p); [done|]. destruct v; cbn.
  - by rewrite <-list_fmap_compose.
  - rewrite <-list_fmap_compose, Hsort. apply reflexive_eq, list_fmap_ext. intros i c _. cbn.
    destruct (same_buttons isAdmin (hook p) c) as (Hb & _). apply (f_equal (fmap fst)) in Hb.
    rewrite <-!list_fmap_compose in Hb. cbn in Hb. f_equal. symmetry. exact Hb.
Qed.

Section Clicks.
Context (localeCompare : string -> string -> Z)
  (sort_rows : option Sorting -> list Container -> list Container) (isAdmin : bool).
Abbreviation on_event := (on_event localeCompare sort_rows isAdmin).

Definition owns_action (id : string) (r : Req) : bool :=
  match r with
  | ListContainers => false
  | StartContainer i | StopContainer i | UpgradeContainer i | SetContainerAutoUpdate i _
  | CheckContainerUpdates i => bool_decide (i = id)
  end.

Definition busy_page (id : string) (s : PageState) : bool := busy id (hook s.1).
Definition busy_hook (id : string) (s : Containers.State * ToastState) : bool := busy id s.1.

Lemma busy_stream id e h : busy id (stream_step e h) = busy id h.
Proof.
  unfold stream_step, loop_head, stream_catch, new_controller, stream_update, on_delete, on_save,
    clear_pending_timer; repeat case_match; reflexivity.
Qed.

Lemma busy_timer id t h : busy id (timer_fires t h) = busy id h.
Proof. unfold timer_fires. destruct (timers h !! t) as [[]|]; reflexivity. Qed.

Lemma other_action_steady (id id' : string) (a : action) :
  id' <> id -> steady (busy_hook id) (owns_action id) (run_action a id').
Proof.
  intros Hne. assert (bool_decide (id' = id) = false) as Hb by (by apply bool_decide_eq_false).
  destruct a; unfold run_action, startContainer, stopContainer, upgradeContainer, setContainerAutoUpdate,
    checkContainerUpdates, begin_action, end_action, setState, toast; steady.
  all: apply steady_modify; intros s; unfold busy_hook, busy; cbn;
    (rewrite lookup_insert_ne by done) || (rewrite lookup_delete_ne by done); reflexivity.
Qed.

Lemma fetch_steady id : steady (busy_hook id) (owns_action id) fetchContainers.
Proof.
  unfold fetchContainers, when_mounted, setState. steady.
Qed.

Lemma of_hook_steady id (m : Containers.handler) :
  steady (busy_hook id) (owns_action id) m -> steady (busy_page id) (owns_action id) (of_hook m).
Proof. apply (steady_lift get_hook put_hook); [by intros [] []|done]. Qed.

(** The buttons of either view are disabled for a busy container. *)
Lemma buttons_disabled (p : Page) (c : Container) j b :
  buttons isAdmin p c !! j = Some b -> button_disabled b.2 = negb isAdmin || busy (c_id c) (hook p).
Proof.
  intros Hb%list_elem_of_lookup_2. unfold buttons, card_buttons, row_buttons in Hb.
  destruct (viewMode p), (is_running c), (c_updateAvailable c); cbn in Hb;
    rewrite !elem_of_cons, elem_of_nil in Hb; naive_solver.
Qed.

Lemma labels_truthy a : truthy (action_label a) = true.
Proof. by destruct a. Qed.

Lemma action_turn (id : string) (a : action) (s : PageState) :
  busy_page id s = false ->
  let c := exec (of_hook (run_action a id)) s in
  busy_page id c.1 = true /\
  exists q, pending c.2 = [q] /\ releases (busy_page id) (owns_action id) q.
Proof.
  intros Hb. cbv zeta. split.
  - destruct a; cbn; unfold busy_page, busy; cbn; by rewrite lookup_insert_eq.
  - destruct a; cbn; eexists; (split; [reflexivity|]); (split; [by apply bool_decide_eq_true_2|]);
      intros [resp|err] s'; cbn; repeat (case_match; cbn); unfold busy_page, busy; cbn;
      rewrite lookup_delete_eq; by repeat constructor.
Qed.

Lemma action_turns (id : string) (e : event) :
  takes_turn on_event (busy_page id) (owns_action id) e.
Proof.
  intros s. cbv zeta. destruct e as [| |e|t| |v|f|m|col|i j|i|]; cbn [Dashboard.on_event].
  all: try (left; unfold page; match goal with |- inert ?f ?o ?m ?s => cut (steady f o m); [by intros H; apply H|] end;
    apply steady_modify; intros s'; unfold busy_page; cbn; rewrite ?busy_stream, ?busy_timer; reflexivity).
  - left. by apply of_hook_steady, fetch_steady.
  - left. cbn [bind gets inert]. destruct (Containers.isLoading _); [exact I|].
    by apply of_hook_steady, fetch_steady.
  - left. cbn [bind gets inert]. by destruct (_ && _).
  - cbn [bind gets inert exec]. destruct (_ !! i) as [c|]; [|by left].
    destruct (_ !! j) as [b|] eqn:Hb; [|by left]. apply buttons_disabled in Hb.
    unfold click. rewrite Hb. destruct (negb isAdmin || _) eqn:Hd; [by left|].
    apply orb_false_iff in Hd as [_ Hd]. destruct (decide (c_id c = id)) as [<-|Hne].
    + right. destruct (action_turn (c_id c) b.1 s Hd) as [H1 H2]. by split_and!.
    + left. by apply of_hook_steady, other_action_steady.
  - left. cbn [bind gets inert]. by destruct (_ !! i).
Qed.

(** C36: However clicks, stream messages, timers and answers interleave, and
    whatever rows the buttons are clicked in, at most one action is in flight
    for any container id, exactly while its buttons are locked. *)
Theorem one_action_per_container (st : gmap string string) (t : ToastState) (s : PageState)
    (p : list (suspended PageState Containers.Req Containers.Resp)) (id : string)
    (H : rtc (pool_step (started_by on_event)) ((initial st, t), []) (s, p)) :
  in_flight (owns_action id) p = (if busy id (hook s.1) then 1 else 0).
Proof.
  destruct (flight_reaches on_event (busy_page id) (owns_action id) (initial st, t) (s, p))
    as [_ Hf]; [|apply action_turns|exact H|exact Hf]. reflexivity.
Qed.

(** A click on a button does nothing for a user who is not an administrator
    or while an action on its container is under way; otherwise it makes exactly
    the request of that button for that row's container. *)
Theorem click_spec (s : PageState) (i j : nat) :
  match rows localeCompare sort_rows s.1 !! i with
  | None => exec (on_event (ButtonClicked i j)) s = (s, Done tt)
  | Some c =>
      match buttons isAdmin s.1 c !! j with
      | None => exec (on_event (ButtonClicked i j)) s = (s, Done tt)
      | Some b =>
          if negb isAdmin || busy (c_id c) (hook s.1)
          then exec (on_event (ButtonClicked i j)) s = (s, Done tt)
          else exists s' k, exec (on_event (ButtonClicked i j)) s = (s', Blocked (action_req b.1 (c_id c)) k) /\
                 busy (c_id c) (hook s'.1) = true
      end
  end.
Proof.
  cbn [Dashboard.on_event bind gets exec]. destruct (_ !! i) as [c|]; [|done].
  destruct (_ !! j) as [b|] eqn:Hb; [|done]. apply buttons_disabled in Hb.
  unfold click. rewrite Hb. destruct (negb isAdmin || _) eqn:Hd; [done|].
  apply orb_false_iff in Hd as [_ Hd]. destruct (action_turn (c_id c) b.1 s Hd) as [H1 _].
  revert H1. unfold busy_page. destruct b as [[] bt]; cbn; intros H1; do 2 eexists; (split; [reflexivity|exact H1]).
Qed.
End Clicks.

Lemma one_action_per_container_witness :
  let on := on_event by_length (fun _ l => l) true in
  let t := mkToastState [] (fun n => pretty n) 0 in
  let c := exec (on Fetch) (initial ∅, t) in
  in_flight (owns_action "1") (pending c.2) = (if busy "1" (hook c.1.1) then 1 else 0).
Proof.
  intros on t c. apply (one_action_per_container by_length (fun _ l => l) true ∅ t c.1).
  eapply rtc_l; [|apply rtc_refl].
  pose proof (pool_start (started_by on) (on Fetch) (initial ∅, t) []) as Hs.
  rewrite app_nil_r in Hs. apply Hs. by eexists.
Defined.

(** The view chosen last is the one the next page load opens with; a storage
    without a known choice opens the cards. *)
Theorem view_remembered (p : Page) (m : ViewMode) (st : gmap string string) :
  viewMode (initial (storage (handleViewModeChange m p))) = m /\
  (viewMode (initial st) = table <-> st !! "dmanager_view_mode" = Some "table"%string).
Proof.
  split.
  - cbn. unfold saved_view. destruct m; cbn; by rewrite lookup_insert_eq.
  - cbn. unfold saved_view. by case_bool_decide.
Qed.

(** A search that matches nothing is told apart from an empty host by the cards
    but not by the table. *)
Example table_blames_the_host :
  let p m := handleViewModeChange m (setSearch "zzz"
    (setHook (Containers.setIsLoading false (setContainers (fun _ => [sample_container "1" "web"])
       Containers.initial)) (initial ∅))) in
  empty_notice by_length (p grid) = Some "No results matched your search query."%string /\
  empty_notice by_length (p table) = Some "No Docker containers discovered on the host system."%string.
Proof. split; reflexivity. Qed.

(** A date the browser cannot read is not told as "Invalid date". *)
Example unreadable_date :
  formatDate (fun _ => None) (fun _ => "") (fun _ => "") "soon" = "Invalid Date Invalid Date".
Proof. reflexivity. Qed.
