(* ===== verification/ContainersPage.v ===== *)
(** The containers page with its logs drawer
    (frontend/src/components/ContainerGrid.tsx with LogsDrawer.tsx): the selection of
    the page is the property the drawer is rendered with. *)
From S2P Require Import Prelude Async Toast Proto Containers.
From S2P Require Dashboard LogsDrawer.

(** [rendered] is false once the page is left. *)
Record Page := mkPage {
  grid : Dashboard.Page;
  drawer : LogsDrawer.State;
  rendered : bool
}.

Abbreviation PageState := (Page * ToastState)%type.
Abbreviation page_handler := (async PageState Containers.Req Containers.Resp unit).

Definition selectedContainerId (p : Dashboard.Page) : option string := fst <$> Dashboard.selected p.

(** A commit of the page renders the drawer with the selection. *)
Definition render (g : Dashboard.Page) (p : Page) : Page :=
  mkPage g (if rendered p then LogsDrawer.on_event (LogsDrawer.Opens (selectedContainerId g)) (drawer p)
            else drawer p) (rendered p).

Definition get_grid (s : PageState) : Dashboard.PageState := (grid s.1, s.2).
Definition put_grid (g : Dashboard.PageState) (s : PageState) : PageState := (render g.1 s.1, g.2).

Definition setDrawer (f : LogsDrawer.State -> LogsDrawer.State) (p : Page) : Page :=
  mkPage (grid p) (f (drawer p)) (rendered p).

(** The page is left: both unmount. *)
Definition leave (p : Page) : Page :=
  mkPage (Dashboard.setHook (Containers.unmount (Dashboard.hook (grid p))) (grid p))
    (LogsDrawer.unmount (drawer p)) false.

Definition initial (storage : gmap string string) : Page :=
  mkPage (Dashboard.initial storage) (LogsDrawer.commit LogsDrawer.initial) true.

(** What happens to the drawer itself; its close buttons clear the selection. *)
Inductive drawer_event :=
| TailSelected (n : Z) | FollowToggled (b : bool) | ClearClicked
| Stream (run : nat) (e : LogsDrawer.stream_event).

Definition of_drawer (e : drawer_event) : LogsDrawer.event :=
  match e with
  | TailSelected n => LogsDrawer.TailSelected n
  | FollowToggled b => LogsDrawer.FollowToggled b
  | ClearClicked => LogsDrawer.ClearClicked
  | Stream n e => LogsDrawer.Stream n e
  end.

Inductive event := OnGrid (e : Dashboard.event) | OnDrawer (e : drawer_event) | Leave.

Section Page.
Context (localeCompare : string -> string -> Z)
  (sort_rows : option AdminTables.Sorting -> list Container -> list Container) (isAdmin : bool).

(** A page that was left offers nothing; its streams still answer. *)
Definition on_event (e : event) : page_handler :=
  Read (fun s =>
    match e with
    | OnGrid Dashboard.Unmounted => Ret tt
    | OnGrid e =>
        if rendered s.1 then lift get_grid put_grid (Dashboard.on_event localeCompare sort_rows isAdmin e)
        else Ret tt
    | OnDrawer e =>
        if rendered s.1 || match e with Stream _ _ => true | _ => false end
        then modify (fun s => (setDrawer (LogsDrawer.on_event (of_drawer e)) s.1, s.2)) else Ret tt
    | Leave => if rendered s.1 then modify (fun s => (leave s.1, s.2)) else Ret tt
    end).
End Page.

(** ** The invariant *)

Definition in_step (p : Page) : Prop :=
  if rendered p then
    LogsDrawer.reachable (drawer p) /\ LogsDrawer.containerId (drawer p) = selectedContainerId (grid p)
  else LogsDrawer.quiet (drawer p) /\ LogsDrawer.xtermRef (drawer p) = None.

Lemma opens_id (id : option string) (d : LogsDrawer.State) :
  LogsDrawer.reachable d -> LogsDrawer.containerId (LogsDrawer.on_event (LogsDrawer.Opens id) d) = id.
Proof.
  intros Hd%LogsDrawer.reachable_settled. cbn [LogsDrawer.on_event].
  assert (LogsDrawer.settled (LogsDrawer.stream_deps d) (LogsDrawer.setContainerId id d)) as Hs
    by by apply (LogsDrawer.setter_settled _ d).
  destruct (LogsDrawer.commit_settled _ _ Hs) as [_ E]. by injection E.
Qed.

Lemma drawer_keeps_id (e : drawer_event) (d : LogsDrawer.State) :
  LogsDrawer.reachable d ->
  LogsDrawer.containerId (LogsDrawer.on_event (of_drawer e) d) = LogsDrawer.containerId d.
Proof.
  intros Hd%LogsDrawer.reachable_settled.
  assert (forall d', LogsDrawer.settled (LogsDrawer.stream_deps d) d' ->
    LogsDrawer.containerId (LogsDrawer.commit d') = LogsDrawer.containerId d') as Hc.
  { intros d' Hd'. destruct (LogsDrawer.commit_settled _ _ Hd') as [_ E]. by injection E. }
  destruct e as [n|b| |n e]; cbn [of_drawer LogsDrawer.on_event].
  - case_bool_decide; [|done]. rewrite Hc; [done|]. by apply (LogsDrawer.setter_settled _ d).
  - rewrite Hc; [done|]. by apply (LogsDrawer.setter_settled _ d).
  - by destruct (LogsDrawer.xtermRef d).
  - by destruct (LogsDrawer.on_stream_same n e d) as ([= E _ _ _ _] & _).
Qed.

Lemma quiet_stream (n : nat) (e : LogsDrawer.stream_event) (d : LogsDrawer.State) :
  LogsDrawer.quiet d -> LogsDrawer.quiet (LogsDrawer.on_stream n e d) /\
  LogsDrawer.xtermRef (LogsDrawer.on_stream n e d) = LogsDrawer.xtermRef d.
Proof.
  destruct (LogsDrawer.on_stream_same n e d) as ([= _ _ _ E4 E5] & [= _ _ E8 E9 E10] & _ & Hr).
  intros [H1 H2 H3 H4]. split; [|done]. split; rewrite ?E5, ?E8, ?E9, ?E10; try done.
  intros m r' (r & Hm & _ & _)%Hr. by apply (H2 m r).
Qed.

Lemma unmount_quiet (d : LogsDrawer.State) : LogsDrawer.reachable d ->
  LogsDrawer.quiet (LogsDrawer.unmount d) /\ LogsDrawer.xtermRef (LogsDrawer.unmount d) = None.
Proof.
  intros Hd%LogsDrawer.reachable_settled.
  assert (LogsDrawer.unmount d = LogsDrawer.dispose_terminal (LogsDrawer.unsubscribe d)) as ->.
  { unfold LogsDrawer.unmount, LogsDrawer.unsubscribe, LogsDrawer.dispose_terminal.
    destruct (LogsDrawer.xtermRef d) eqn:Ex, (LogsDrawer.subscribed d) eqn:Es; cbn; by rewrite ?Ex, ?Es. }
  assert (LogsDrawer.xtermRef (LogsDrawer.unsubscribe d) = LogsDrawer.xtermRef d /\
          LogsDrawer.next (LogsDrawer.unsubscribe d) = LogsDrawer.next d) as [Ex En].
  { unfold LogsDrawer.unsubscribe. by destruct (LogsDrawer.subscribed d). }
  split.
  - apply LogsDrawer.dispose_settled_quiet; [by eapply LogsDrawer.unsubscribe_quiet|].
    rewrite Ex, En. intros t Ht. destruct Hd as [_ _ Hterm _ _ _ _].
    destruct (LogsDrawer.open_for _); [|congruence]. destruct Hterm as (t' & Ht' & _ & ? & _). congruence.
  - unfold LogsDrawer.dispose_terminal. by destruct (LogsDrawer.xtermRef (LogsDrawer.unsubscribe d)) eqn:E.
Qed.

Lemma render_in_step (g : Dashboard.Page) (p : Page) : in_step p -> in_step (render g p).
Proof.
  unfold in_step, render. cbn. destruct (rendered p); [|done]. intros [Hr _]. split.
  - by apply (LogsDrawer.reach_step _ (LogsDrawer.Opens (selectedContainerId g))).
  - by apply (opens_id (selectedContainerId g)).
Qed.

Lemma page_in_step localeCompare sort_rows isAdmin (e : event) :
  keeps (fun s : PageState => in_step s.1) (on_event localeCompare sort_rows isAdmin e).
Proof.
  intros s Hs. cbn. destruct e as [e|e|].
  - assert (forall e, guarantees (fun s : PageState => in_step s.1) (if rendered s.1 then
      lift get_grid put_grid (Dashboard.on_event localeCompare sort_rows isAdmin e) else Ret tt)
      (fun _ s => in_step s.1) s) as Hg.
    { intros e'. destruct (rendered s.1); [|done].
      apply (keeps_lift get_grid put_grid); [|done]. intros g s' Hs'. by apply render_in_step. }
    destruct e; first [exact Hs|apply Hg].
  - destruct (rendered s.1 || _) eqn:E; [|done]. cbn. unfold in_step in *. cbn.
    destruct (rendered s.1).
    + destruct Hs as [Hr Hid]. split; [by apply (LogsDrawer.reach_step _ (of_drawer e))|]. by rewrite drawer_keeps_id.
    + destruct e as [| | |n e]; try done. destruct Hs as [Hq Hx]. cbn.
      destruct (quiet_stream n e (drawer s.1) Hq) as [Hq' ->]. done.
  - destruct (rendered s.1) eqn:E; [|done]. cbn. unfold in_step in *. rewrite E in Hs. apply unmount_quiet, Hs.
Qed.

(** ** Theorems *)

(** C20: Whatever is clicked, typed and delivered: while a container is selected the
    drawer is open, and the one stream that still writes asked for the logs of that
    container; when none is, or the page has been left, no stream is subscribed and
    all were aborted, and no terminal is kept. *)
Theorem logs_follow_selection localeCompare sort_rows isAdmin (st : gmap string string) (t : ToastState)
    (s : PageState)
    (H : pool_reaches (started_by (on_event localeCompare sort_rows isAdmin)) (initial st, t) s) :
  let d := drawer s.1 in
  match (if rendered s.1 then selectedContainerId (grid s.1) else None) with
  | Some id =>
      if truthy id then
        (exists n, LogsDrawer.subscribed d = Some n /\ n ∉ LogsDrawer.aborted d) /\
        (forall n r, LogsDrawer.runs d !! n = Some r -> n ∉ LogsDrawer.aborted d ->
           LogsDrawer.subscribed d = Some n /\
           LogsDrawer.run_request r = mkGetContainerLogsRequest id (LogsDrawer.tailLines d) (LogsDrawer.follow d) /\
           LogsDrawer.xtermRef d = Some (LogsDrawer.run_term r))
      else LogsDrawer.subscribed d = None
  | None => LogsDrawer.subscribed d = None /\ LogsDrawer.xtermRef d = None /\
      (forall n r, LogsDrawer.runs d !! n = Some r -> n ∈ LogsDrawer.aborted d)
  end.
Proof.
  assert (in_step s.1) as Hs.
  { apply (pool_invariant (fun s : PageState => in_step s.1)
      (started_by (on_event localeCompare sort_rows isAdmin)) (initial st, t)); [| |exact H].
    - intros m [e ->]. apply page_in_step.
    - split; [apply LogsDrawer.reach_mount|reflexivity]. }
  cbn zeta. unfold in_step in Hs. destruct (rendered s.1).
  - destruct Hs as [Hr Hid]. apply LogsDrawer.reachable_settled in Hr as [_ _ Ht Hsub Hruns _ _].
    change (LogsDrawer.open_for (LogsDrawer.stream_deps (drawer s.1))) with (LogsDrawer.isOpen (drawer s.1)) in *.
    unfold LogsDrawer.isOpen in *. rewrite <-Hid. unfold LogsDrawer.request_for, LogsDrawer.stream_deps in Hruns.
    destruct (LogsDrawer.containerId (drawer s.1)) as [id|] eqn:Eid; cbn in *.
    + destruct (truthy id); [|done]. split; [destruct Hsub as (n & ? & ? & _); eauto|].
      intros n r Hn Hna. apply Hruns in Hn as [_ Hn]. by case_decide; destruct_and?.
    + split_and!; [done..|]. intros n r Hn. apply Hruns in Hn as [_ Hn].
      by rewrite decide_False in Hn by congruence.
  - destruct Hs as [[Hsub Hruns _ _] Hx]. split_and!; [done..|]. intros n r Hn. by apply Hruns in Hn as [_ ?].
Qed.

Definition no_toasts : ToastState := mkToastState [] (fun n => pretty n) 0.

(** A page whose list has answered, with the logs of its one container opened. *)
Definition a_list : option (list ProtoContainer) :=
  Some [mkProtoContainer (Some "c1") (Some "web") None None (Some "running") None None None None None]%string.

Definition a_selection : PageState :=
  let on := on_event Dashboard.by_length (fun _ l => l) true in
  let listed := run (fun r => match r return Containers.Resp r + thrown with
                              | Containers.ListContainers => inl a_list
                              | _ => inr (JsError "down")
                              end) (on (OnGrid Dashboard.Fetch)) (initial ∅, no_toasts) in
  (exec (on (OnGrid (Dashboard.LogsClicked 0))) listed.1).1.

Lemma logs_follow_selection_witness :
  selectedContainerId (grid a_selection.1) = Some "c1"%string /\
  exists n, LogsDrawer.subscribed (drawer a_selection.1) = Some n /\ n ∉ LogsDrawer.aborted (drawer a_selection.1).
Proof.
  split; [vm_compute; reflexivity|].
  assert (pool_reaches (started_by (on_event Dashboard.by_length (fun _ l => l) true)) (initial ∅, no_toasts)
    a_selection) as H.
  { exists []. set (on := on_event Dashboard.by_length (fun _ l => l) true).
    eapply rtc_l; [apply (pool_start _ (on (OnGrid Dashboard.Fetch))); by eexists|].
    eapply rtc_l; [apply (pool_resume _ Containers.ListContainers _ (inl a_list) _ [] [])|].
    eapply rtc_l; [apply (pool_start _ (on (OnGrid (Dashboard.LogsClicked 0)))); by eexists|].
    apply rtc_refl. }
  exact (proj1 (logs_follow_selection Dashboard.by_length (fun _ l => l) true ∅ no_toasts a_selection H)).
Defined.
