(* ===== verification/Permissions.v ===== *)
(** What the pages ask of the server against what the server lets through: each
    component's requests as calls of the RPC interface, the pages of the
    application with the calls each can have in flight, and the roles these
    calls need, of the access matrix and of the handlers themselves
    (internal/settings/service.go, internal/container, internal/auth/service.go). *)
From S2P Require Import Prelude Async Toast Json Auth Router Polling Status Proto Services Access.
From S2P Require Containers LogsDrawer Dashboard AdminResources Administration AuditLogs SystemLogs Settings.
From S2P Require Syncer SettingsServer.

(** ** The calls of the components *)

#[export] Instance auth_wired : Wired Auth.Resp := fun r =>
  match r with
  | Auth.GetServerStatus => Rpc (Auth AuthService.getServerStatus) tt id
  | Auth.GetMe => Rpc (Auth AuthService.getMe) tt id
  | Auth.Login request => Rpc (Auth AuthService.login) request id
  | Auth.BeginPasskeyLogin => Rpc (Auth AuthService.beginPasskeyLogin) tt id
  | Auth.WebauthnGet _ => Prompt
  | Auth.FinishPasskeyLogin request => Rpc (Auth AuthService.finishPasskeyLogin) request id
  | Auth.SetupAdmin request => Rpc (Auth AuthService.setupAdmin) request id
  | Auth.Logout => Rpc (Auth AuthService.logout) tt id
  end.

#[export] Instance containers_wired : Wired Containers.Resp := fun r =>
  match r with
  | Containers.ListContainers =>
      Rpc (Container ContainerService.listContainers) tt
        (fun resp => Some (Containers.of_message <$> ListContainersResponse_containers resp))
  | Containers.StartContainer id =>
      Rpc (Container ContainerService.startContainer) (mkStartContainerRequest id) (fun _ => tt)
  | Containers.StopContainer id =>
      Rpc (Container ContainerService.stopContainer) (mkStopContainerRequest id) (fun _ => tt)
  | Containers.UpgradeContainer id =>
      Rpc (Container ContainerService.upgradeContainer) (mkUpgradeContainerRequest id) (fun _ => tt)
  | Containers.SetContainerAutoUpdate id autoUpdate =>
      Rpc (Container ContainerService.setContainerAutoUpdate) (mkSetContainerAutoUpdateRequest id autoUpdate)
        (fun _ => tt)
  | Containers.CheckContainerUpdates i =>
      Rpc (Container ContainerService.checkContainerUpdates) (mkCheckContainerUpdatesRequest i) id
  end.

#[export] Instance admin_wired : Wired AdminResources.Resp := fun r =>
  match r with
  | AdminResources.ListImages => Rpc (Admin AdminService.listImages) tt id
  | AdminResources.ListVolumes => Rpc (Admin AdminService.listVolumes) tt id
  | AdminResources.ListNetworks => Rpc (Admin AdminService.listNetworks) tt id
  | AdminResources.GetBuildCacheStats => Rpc (Admin AdminService.getBuildCacheStats) tt id
  | AdminResources.ListBuildCacheRecords => Rpc (Admin AdminService.listBuildCacheRecords) tt id
  | AdminResources.DeleteImage request => Rpc (Admin AdminService.deleteImage) request id
  | AdminResources.PruneImages request => Rpc (Admin AdminService.pruneImages) request id
  | AdminResources.PruneBuildCache request => Rpc (Admin AdminService.pruneBuildCache) request id
  | AdminResources.PruneBuildCacheRecord request => Rpc (Admin AdminService.pruneBuildCacheRecord) request id
  | AdminResources.GetVolumeUsage => Rpc (Admin AdminService.getVolumeUsage) tt id
  | AdminResources.PruneVolumes => Rpc (Admin AdminService.pruneVolumes) tt id
  | AdminResources.DeleteNetwork request => Rpc (Admin AdminService.deleteNetwork) request id
  | AdminResources.PruneNetworks => Rpc (Admin AdminService.pruneNetworks) tt id
  end.

#[export] Instance audit_wired : Wired AuditLogs.Resp := fun r =>
  match r with AuditLogs.ListAuditLogs request => Rpc (Admin AdminService.listAuditLogs) request id end.

#[export] Instance logs_wired : Wired SystemLogs.Resp := fun r =>
  match r with SystemLogs.GetSystemLogs request => Rpc (Log LogService.getSystemLogs) request id end.

#[export] Instance settings_wired : Wired Settings.Resp := fun r =>
  match r with
  | Settings.GetSettings => Rpc (Settings SettingsService.getSettings) tt id
  | Settings.UpdateSettings request => Rpc (Settings SettingsService.updateSettings) request (fun _ => tt)
  | Settings.TestGotifyNotification request =>
      Rpc (Settings SettingsService.testGotifyNotification) request id
  | Settings.GetRegistryStatus => Rpc (Settings SettingsService.getRegistryStatus) tt id
  | Settings.ListPasskeys => Rpc (Auth AuthService.listPasskeys) tt id
  | Settings.GetServerStatus => Rpc (Auth AuthService.getServerStatus) tt id
  | Settings.ListSessions => Rpc (Auth AuthService.listSessions) tt id
  | Settings.ListAuthEvents request => Rpc (Auth AuthService.listAuthEvents) request id
  | Settings.RevokeSession request => Rpc (Auth AuthService.revokeSession) request id
  | Settings.RevokeAllOtherSessions => Rpc (Auth AuthService.revokeAllOtherSessions) tt id
  | Settings.BeginPasskeyRegistration request => Rpc (Auth AuthService.beginPasskeyRegistration) request id
  | Settings.WebauthnCreate _ => Prompt
  | Settings.FinishPasskeyRegistration request => Rpc (Auth AuthService.finishPasskeyRegistration) request id
  | Settings.RenamePasskey request => Rpc (Auth AuthService.renamePasskey) request id
  | Settings.DeletePasskey request => Rpc (Auth AuthService.deletePasskey) request id
  end.

#[export] Instance engine_wired : Wired (fun _ : unit => CheckEngineResponse) :=
  fun _ => Rpc (Admin AdminService.checkEngine) tt id.

Definition tailscale_wired : Wired (fun _ : unit => GetTailscaleStatusResponse) :=
  fun _ => Rpc (Admin AdminService.getTailscaleStatus) tt id.

(** The calls of the two streams and of the log upload. *)
Definition stream_method : Method := Container ContainerService.streamContainers.
Definition logs_method : Method := Container ContainerService.getContainerLogs.
Definition sync_method : Method := Log LogService.syncLogs.

(** ** What the server lets through

    The interceptor's matrix ([Access.permitted]), and what the handlers themselves ask of
    the user the interceptor has put in the context. *)

Definition has_role (roles : list string) (user : option User) : bool :=
  match user with Some u => bool_decide (Role u ∈ roles) | None => false end.

Definition settings_admits (m : SettingsService.method) (user : option User) : bool :=
  match SettingsServer.checkAdmin user with Some _ => false | None => true end.

Definition container_admits (m : ContainerService.method) (user : option User) : bool :=
  match m with
  | ContainerService.startContainer | ContainerService.stopContainer | ContainerService.setContainerAutoUpdate
  | ContainerService.checkContainerUpdates | ContainerService.upgradeContainer => has_role ["admin"%string] user
  | ContainerService.getContainerLogs => has_role ["admin"; "viewer"]%string user
  | ContainerService.listContainers | ContainerService.streamContainers => true
  end.

Definition auth_admits (m : AuthService.method) (user : option User) : bool :=
  match m with
  | AuthService.getMe | AuthService.listAuthEvents | AuthService.listSessions | AuthService.revokeSession
  | AuthService.revokeAllOtherSessions | AuthService.beginPasskeyRegistration | AuthService.finishPasskeyRegistration
  | AuthService.listPasskeys | AuthService.renamePasskey | AuthService.deletePasskey =>
      match user with Some _ => true | None => false end
  | _ => true
  end.

Definition handler_admits (m : Method) (user : option User) : bool :=
  match m with
  | Settings m => settings_admits m user
  | Container m => container_admits m user
  | Auth m => auth_admits m user
  | Admin _ | Log _ => true
  end.

Definition admitted (m : Method) (user : option User) : bool := permitted m user && handler_admits m user.

(** ** The pages *)

(** The pages inside the layout. *)
Definition protected (r : route) : bool :=
  match r with loginRoute | setupRoute => false | _ => true end.

Section Pages.
Context (localeCompare : string -> string -> Z)
  (sort_rows : option AdminTables.Sorting -> list Containers.Container -> list Containers.Container)
  (syntaxError : string -> string) (timestampDate : Timestamp -> Z).

(** [in_flight_of starts s0 m]: some run of the handlers [starts] from [s0], with
    their answers in any order, has a call of [m] in flight. *)
Definition in_flight_of {S Req} {Resp : Req -> Type} {W : Wired Resp} (starts : async S Req Resp unit -> Prop)
    (c0 : S * list (suspended S Req Resp)) (m : Method) : Prop :=
  exists s p q, rtc (pool_step starts) c0 (s, p) /\ q ∈ p /\ method_of (projT1 q) = Some m.

(** The calls the page at a route can have in flight, for the session of a router
    context: those of the forms, of the layout around the pages (signing out, the
    engine check) and of each page.  The check of the session at the start
    ([Auth.checkAuth]) is no page's: it asks the server whether there is one. *)
Inductive page_call (c : RouterContext) : route -> Method -> Prop :=
| call_sign_in r s0 m : protected r = false ->
    in_flight_of (Auth.signs_in syntaxError) (s0, []) m -> page_call c r m
| call_logout r s0 m : protected r = true ->
    in_flight_of (fun h => h = Auth.logout) (s0, []) m -> page_call c r m
| call_layout r hidden m : protected r = true ->
    in_flight_of (Resp := fun _ : unit => CheckEngineResponse) engine_starts (useEngineStatus hidden) m ->
    page_call c r m
| call_containers st t m :
    in_flight_of (started_by (Dashboard.on_event localeCompare sort_rows (is_admin (auth_user c))))
      ((Dashboard.initial st, t), []) m -> page_call c dashboardRoute m
| call_stream (s : Containers.State) : Containers.isMounted s = true -> page_call c dashboardRoute stream_method
| call_drawer (s : LogsDrawer.State) n run : LogsDrawer.reachable s -> LogsDrawer.runs s !! n = Some run ->
    page_call c dashboardRoute logs_method
| call_administration tab k t m :
    in_flight_of (started_by (Administration.on_event (is_admin (auth_user c))))
      ((Administration.initial_page k, t), []) m -> page_call c (administrationTabRoute tab) m
| call_tailscale tab hidden m :
    in_flight_of (W := tailscale_wired) (tailscale_starts timestampDate)
      (useTailscaleStatus timestampDate hidden) m ->
    page_call c (administrationTabRoute tab) m
| call_audit m :
    in_flight_of AuditLogs.starts (AuditLogs.committed AuditLogs.initial, []) m -> page_call c auditLogsRoute m
| call_logs m :
    in_flight_of (started_by SystemLogs.on_event) (SystemLogs.initial, []) m -> page_call c logsRoute m
| call_settings tab rt it t m :
    in_flight_of (started_by (Settings.on_event syntaxError)) ((Settings.initial rt it, t), []) m ->
    page_call c (settingsTabRoute tab) m.

(** The user the server knows behind a session of the client. *)
Definition visitor (c : RouterContext) (u : User) : option User :=
  if auth_isAuthenticated c then Some u else None.

Lemma in_flight_asks {S Req} {Resp : Req -> Type} {W : Wired Resp} (I : S -> Prop) (P : Req -> Prop)
    (starts : async S Req Resp unit -> Prop) (s0 : S) (m : Method) :
  in_flight_of starts (s0, []) m -> (forall h s, starts h -> I s -> asks I P h s) -> I s0 ->
  exists r, P r /\ method_of r = Some m.
Proof.
  intros (s & p & q & Hr & Hq & Hm) Hasks Hs. destruct (pool_asks I P starts s0 s p Hasks Hs Hr) as [_ HP].
  rewrite Forall_forall in HP. eauto.
Qed.

(** The one method of a client that calls one method only. *)
Lemma in_flight_any {S Req} {Resp : Req -> Type} {W : Wired Resp} (starts : async S Req Resp unit -> Prop) c0 m :
  in_flight_of starts c0 m -> exists r, method_of r = Some m.
Proof. intros (s & p & q & _ & _ & Hm). eauto. Qed.

Definition settings_call (m : Method) : bool := match m with Settings _ => true | _ => false end.

Lemma administrator_admitted (m : Method) (u : User) : Role u = "admin"%string -> admitted m (Some u) = true.
Proof.
  intros Hu. unfold admitted. apply andb_true_intro. split.
  - unfold permitted. generalize (role m). intros []; cbn; by rewrite ?Hu.
  - destruct m as [?|[]|[]|?|?]; try reflexivity; cbn -[bool_decide]; unfold settings_admits, SettingsServer.checkAdmin;
      cbn -[bool_decide]; rewrite Hu; by vm_compute.
Qed.

(** What is open to every user of the two roles. *)
Definition open (m : Method) : bool :=
  bool_decide (role m <> RoleAdmin) && negb (settings_call m)
  && match m with
     | Container (ContainerService.startContainer | ContainerService.stopContainer | ContainerService.setContainerAutoUpdate
         | ContainerService.checkContainerUpdates | ContainerService.upgradeContainer) => false
     | _ => true
     end.

Lemma viewer_admitted (m : Method) (u : User) : Role u = "viewer"%string -> admitted m (Some u) = open m.
Proof.
  intros Hu. unfold admitted, open. rewrite <- andb_assoc. f_equal.
  - unfold permitted. generalize (role m). intros []; cbn; by rewrite ?Hu.
  - destruct m as [?|[]|[]|?|?]; try reflexivity; cbn -[bool_decide]; unfold settings_admits, SettingsServer.checkAdmin;
      cbn -[bool_decide]; rewrite Hu; by vm_compute.
Qed.

(** What is open to anyone. *)
Lemma anyone_admitted (m : Method) (user : option User) :
  role m = RoleUnauthenticated -> (forall user, handler_admits m user = true) -> admitted m user = true.
Proof. intros Hr Hh. unfold admitted, permitted. rewrite Hr. apply Hh. Qed.

(** The requests of the forms. *)
Definition signing (r : Auth.Req) : Prop :=
  match r with Auth.GetMe | Auth.Logout | Auth.GetServerStatus => False | _ => True end.

Lemma signs_in_asks (h : Auth.handler) (s : Auth.State) :
  Auth.signs_in syntaxError h -> asks (fun _ => True) signing h s.
Proof.
  destruct 1; cbn; repeat match goal with
    | |- True => exact I
    | |- _ /\ _ => split
    | |- forall _ : _ + _, _ => intros [?|?]
    | |- _ -> _ => intros ?; cbn
    | |- forall _ : Auth.State, _ => intros ?; cbn
    | |- context [match parse ?x with _ => _ end] => destruct (parse x); cbn
    | |- context [if ?b then _ else _] => destruct b; cbn
    end.
Qed.

(** What the containers page asks of the server for a viewer. *)
Lemma viewer_lists (e : Dashboard.event) (s : Dashboard.PageState) :
  asks (fun _ => True) (fun r => r = Containers.ListContainers)
    (Dashboard.on_event localeCompare sort_rows false e) s.
Proof.
  assert (forall s, asks (fun _ => True) (fun r => r = Containers.ListContainers)
    (Dashboard.of_hook Containers.fetchContainers) s) as Hf.
  { intros s'. cbn. split; [done|]. split; [done|]. intros [resp|err] s''; cbn; by repeat case_match. }
  destruct e; cbn [Dashboard.on_event]; try done; cbn [bind gets asks].
  - by destruct (Containers.isLoading _).
  - by destruct (_ && _).
  - destruct (_ !! row) as [c|]; [|done]. destruct (_ !! button) as [b|] eqn:Hb; [|done].
    apply Dashboard.buttons_disabled in Hb. unfold Dashboard.click. by rewrite Hb.
  - by destruct (_ !! row).
Qed.

(** A call that is open to both roles. *)
Ltac by_role := match goal with Hu : _ |- admitted _ _ = true => apply Hu; right; vm_compute; reflexivity end.

(** C9: Whatever page the session may see, whatever is clicked, typed and answered on
    it, every call that the page has in flight passes the server's matrix and the checks
    of the handler itself, of the roles they ask for: the forms call what is open to
    anyone, the pages what the role of the signed-in user allows.  The exception is the
    settings service, whose handlers serve administrators only: its calls, which are
    the settings page's alone, are let through for an administrator and all refused for
    a viewer.  The session the client shows is taken to be one the server knows, of a user
    with one of the two roles. *)
Theorem page_calls_permitted (c : RouterContext) (r : route) (m : Method) (u : User)
    (Hsee : may_see c r) (Hsession : protected r = true -> auth_isAuthenticated c = true)
    (Hrole : is_admin (auth_user c) = String.eqb (Role u) "admin") (Hroles : Role u ∈ ["admin"; "viewer"]%string)
    (Hcall : page_call c r m) :
  (settings_call m = false -> admitted m (visitor c u) = true)
  /\ (settings_call m = true ->
      (exists tab, r = settingsTabRoute tab) /\ admitted m (visitor c u) = is_admin (auth_user c)).
Proof.
  assert (Hv : is_admin (auth_user c) = false -> Role u = "viewer"%string).
  { rewrite Hrole. intros Hn%String.eqb_neq. set_solver. }
  assert (forall m, is_admin (auth_user c) = true \/ open m = true -> admitted m (Some u) = true) as Hu.
  { intros m' Hm'. destruct (is_admin (auth_user c)) eqn:Ha.
    - apply administrator_admitted. by apply String.eqb_eq.
    - destruct Hm' as [|Ho]; [done|]. by rewrite viewer_admitted by auto. }
  assert (Hopen : settings_call m = false -> admitted m (visitor c u) = true ->
    (settings_call m = false -> admitted m (visitor c u) = true)
    /\ (settings_call m = true -> (exists tab, r = settingsTabRoute tab) /\ admitted m (visitor c u) = is_admin (auth_user c)))
    by (intros -> H; by split).
  destruct Hcall as [r s0 m Hp Hc|r s0 m Hp Hc|r hidden m Hp Hc|st t m Hc|s Hm|s n run Hs Hrun|tab k t m Hc|tab hidden m Hc|m Hc
    |m Hc|tab rt it t m Hc]; unfold visitor in *; try rewrite Hsession in * by done.
  - apply (in_flight_asks (fun _ => True) signing) in Hc as (q & Hq & Hm);
      [|intros h s Hh _; by apply signs_in_asks|exact I].
    destruct q; try contradiction Hq; try discriminate Hm; injection Hm as <-;
      (apply Hopen; [reflexivity|apply anyone_admitted; [vm_compute; reflexivity|reflexivity]]).
  - apply in_flight_any in Hc as (q & Hm). destruct q; try discriminate Hm; injection Hm as <-; (apply Hopen; [reflexivity|by_role]).
  - apply in_flight_any in Hc as (q & [= <-]). apply Hopen; [reflexivity|by_role].
  - destruct (is_admin (auth_user c)) eqn:Ha.
    { apply in_flight_any in Hc as (q & Hm). destruct q; injection Hm as <-; (apply Hopen; [reflexivity|by apply Hu; left]). }
    apply (in_flight_asks (fun _ => True) (fun q => q = Containers.ListContainers)) in Hc as (q & -> & [= <-]);
      [apply Hopen; [reflexivity|by_role]|intros h s [e ->] _; apply viewer_lists|exact I].
  - apply Hopen; [reflexivity|by_role].
  - apply Hopen; [reflexivity|by_role].
  - destruct (is_admin (auth_user c)) eqn:Ha.
    { apply in_flight_any in Hc as (q & Hm). destruct q; injection Hm as <-; (apply Hopen; [reflexivity|by apply Hu; left]). }
    apply (in_flight_asks Administration.nothing_armed Administration.reads_only) in Hc as (q & Hq & Hm);
      [|intros h s [e ->]; apply Administration.viewer_asks|by split_and!].
    destruct q; try contradiction Hq; injection Hm as <-; (apply Hopen; [reflexivity|by_role]).
  - apply in_flight_any in Hc as (q & [= <-]). apply Hopen; [reflexivity|by_role].
  - apply in_flight_any in Hc as ([q] & [= <-]). apply Hopen; [reflexivity|]. apply Hu. left. unfold may_see in Hsee.
    rewrite Hsession in Hsee by done. by destruct (auth_needsSetup c).
  - apply in_flight_any in Hc as ([q] & [= <-]). apply Hopen; [reflexivity|by_role].
  - apply in_flight_any in Hc as (q & Hm). destruct (settings_call m) eqn:Es.
    + split; [done|]. intros _. split; [by eexists|]. destruct (is_admin (auth_user c)) eqn:Ha; [by apply Hu; left|].
      rewrite viewer_admitted by auto. unfold open. by rewrite Es, andb_false_r.
    + apply Hopen; [reflexivity|]. destruct q; try discriminate Hm; injection Hm as <-; try discriminate Es; by_role.
Qed.
End Pages.

(** ** Instances *)

Definition signed_in (role : string) : RouterContext :=
  mkRouterContext true false (JObj [("username", JStr "u"); ("role", JStr role)])%string.

(** A handler run to its first request is in flight. *)
Lemma in_flight_first {S Req} {Resp : Req -> Type} {W : Wired Resp} (starts : async S Req Resp unit -> Prop)
    (h : async S Req Resp unit) (s : S) (r : Req) k (m : Method) :
  starts h -> (exec h s).2 = Blocked r k -> method_of r = Some m -> in_flight_of starts (s, []) m.
Proof.
  intros Hh He Hm. exists (exec h s).1, [existT r k], (existT r k). split_and!; [|by apply list_elem_of_here|done].
  eapply rtc_l; [|apply rtc_refl]. pose proof (pool_start starts h s []) as Hs. rewrite He in Hs. by apply Hs.
Qed.

Lemma page_calls_permitted_witness :
  admitted (Container ContainerService.listContainers) (visitor (signed_in "viewer") (mkUser 1 "u" "viewer")) = true
  /\ admitted (Settings SettingsService.getSettings) (visitor (signed_in "viewer") (mkUser 1 "u" "viewer")) = false.
Proof.
  split.
  - apply (page_calls_permitted Dashboard.by_length (fun _ l => l) (fun s => s) seconds
      (signed_in "viewer") dashboardRoute (Container ContainerService.listContainers)); try reflexivity.
    + right. by left.
    + apply (call_containers _ _ _ _ _ ∅ (mkToastState [] (fun n => pretty n) 0)).
      eapply (in_flight_first _ (Dashboard.on_event Dashboard.by_length (fun _ l => l) false Dashboard.Fetch));
        [by eexists|reflexivity|reflexivity].
  - refine (proj2 (proj2 (page_calls_permitted Dashboard.by_length (fun _ l => l) (fun s => s) seconds
      (signed_in "viewer") (settingsTabRoute "general") (Settings SettingsService.getSettings) (mkUser 1 "u" "viewer") _ _ _ _ _) _));
      try reflexivity.
    + by left.
    + right. by left.
    + apply (call_settings _ _ _ _ _ _ None None (mkToastState [] (fun n => pretty n) 0)).
      eapply (in_flight_first _ (Settings.on_event (fun s => s) (Settings.MountEffect 0))); [by eexists|reflexivity|reflexivity].
Defined.

Definition loaded_settings : GetSettingsResponse := mkGetSettingsResponse "url" "token" 30.

(** A viewer can save the settings, as far as the page goes: once they are loaded,
    submitting the form sends the change, which the server refuses. *)
Lemma viewer_may_save getSession idle auditor (t : ToastState) :
  in_flight_of (started_by (Settings.on_event (fun s => s)))
    ((Settings.initial None None, t), []) (Settings SettingsService.updateSettings) /\
  (forall sid now, getSession sid = Row (mkSession sid 1 now now) -> sid <> ""%string ->
   (authorize getSession (fun _ => Row (mkUser 1 "u" "viewer")) idle auditor
      (procedure (Settings SettingsService.updateSettings)) sid now).2 =
   inr (Coded CodePermissionDenied "admin role required")).
Proof.
  split.
  - set (on := Settings.on_event (fun s => s)).
    set (s1 := (exec (on (Settings.MountEffect 0)) (Settings.initial None None, t)).1).
    assert (exists k, (exec (on (Settings.MountEffect 0)) (Settings.initial None None, t)).2 =
      Blocked Settings.GetSettings k /\
      exists k', (exec (on Settings.SaveSubmitted) (exec (k (inl loaded_settings)) s1).1).2 =
        Blocked (Settings.UpdateSettings (mkUpdateSettingsRequest "url" "token" 30)) k' /\
        (exec (k (inl loaded_settings)) s1).2 = Done tt) as (k & E1 & k' & E2 & E3).
    { eexists. split; [reflexivity|]. eexists. split; reflexivity. }
    eexists _, [existT _ k'], (existT _ k'). split; [|split; [apply list_elem_of_here|reflexivity]].
    eapply rtc_l; [apply (pool_start _ (on (Settings.MountEffect 0))); by eexists|]. rewrite E1. cbn [pending app].
    eapply rtc_l; [apply (pool_resume _ Settings.GetSettings k (inl loaded_settings) _ [] [])|].
    eapply rtc_l; [apply (pool_start _ (on Settings.SaveSubmitted)); by eexists|].
    fold s1. rewrite E2, E3. apply rtc_refl.
  - intros sid now Hs Hn. unfold authorize. rewrite classified. change (role _) with RoleAdmin.
    unfold authenticate. rewrite Hs. apply String.eqb_neq in Hn. rewrite Hn. cbn. rewrite Z.ltb_irrefl. reflexivity.
Qed.

(** The entries of the browser's log from before a sign-in are refused, and the
    refusal is the answer on which the client drops them. *)
Lemma early_logs_refused getSession getUser idle auditor now :
  (authorize getSession getUser idle auditor (procedure sync_method) "" now).2 =
  inr (Coded Unauthenticated "unauthenticated").
Proof. unfold authorize. rewrite classified. change (role sync_method) with RoleViewer. reflexivity. Qed.

(** A viewer refused an upgrade leaves no entry: the procedure is not in the audit
    table, for the upgrade itself records what it does, but it does not run. *)
Lemma denied_upgrade_unrecorded auditor (u : User) :
  recordDenied auditor (procedure (Container ContainerService.upgradeContainer)) u = [].
Proof. reflexivity. Qed.
